(* ===== verification/_CoqProject ===== *)
-Q . S2P
Prelude.v
Machine.v
Heap.v
Preempt.v
BlockDev.v
Fs.v
FsData.v
FsProofs.v
FsProps.v
Paging.v
Pit.v
Sched.v
SchedProps.v
Frames.v
SchedInv.v
Typed.v
Ipc.v
Elf.v
Keyboard.v
Ata.v
Screen.v
Syscall.v
Exec.v
Shell.v
ShellEdit.v
ShellCmd.v
ShellSafe.v
Descriptors.v
Ports.v
Boot.v
UserProg.v
System.v
