(* ===== verification/Prelude.v ===== *)
(** * MxOS: a verification of the kernel

    MxOS is a small i386 kernel in C: a boot sequence, a heap, page tables with
    one address space per ring-3 task, a preemptive scheduler with mailboxes,
    system calls, a disk driver and a file system, an ELF loader, a console, a
    keyboard driver, a shell, and two user programs.  This library models it
    part by part on the machine words and bytes that the C code uses, and
    proves what makes each part, and their composition, correct.

    ** How the model corresponds to the code

    - A w-bit integer is a [Z] with its truncation written out ([u32], [s32],
      [u8]); the infix operations with a circled sign are those of [uint32_t].
    - Physical memory is a function from addresses to bytes ([Machine.v]).
      Heap headers, task stacks, interrupt frames, the command line, argument
      areas, ELF images and text memory are bytes in it.  Static tables whose
      address no code takes (tasks, page tables, directory, bitmap, history)
      are fields of records; a C array is a list read with [a.[i]].
    - A C function is a function with the same name on the state of its
      component.  Stateful code passes the state explicitly, or uses the state
      monad of this file ([let!], [;;]) where errors thread through many calls;
      failure is a value ([option], [outcome], a boolean or a negative PID).
    - A [while] loop on data (a linked list, a string) takes fuel; the
      theorems show that the fuel is enough.  The heap loops have
      [heap_fuel] = 87382 iterations, one more than the headers that fit in
      1 MiB; string loops take the length bound of the strings that reach them
      ([str_fuel], [print_fuel]); the shell polls at most the 256 characters of
      the keyboard ring.
    - Code outside the repository is a parameter: the drive behind the ATA
      ports (class [AtaDrive], with the ATA standard's behaviour as laws, and
      [EarlyFlush] for what the driver needs beyond it), the
      serial chip (class [Uart] with [UartLaws]), the addresses that the
      linker fixes ([Layout], [image]), the contents of the
      embedded programs.

    ** The parts

    - [Prelude], [Machine]: words, arrays, loops, the monad, memory.
    - [Heap] (kernel/mem.c): [kmalloc] and [kfree] refine a first-fit
      allocator on lists of blocks; live blocks never overlap.  [Preempt]: a
      call of [kmalloc] statement group by statement group, and what an
      interrupt in the middle of it does.
    - [BlockDev]: the interface between file system and disk (classes
      [BlockDevice] and [BlockDeviceLaws]).  [Ata] (drivers/ata.c) proves that
      the driver implements it for every standard drive; a RAM disk is a second
      instance, used for examples.
    - [Fs], [FsData], [FsProofs], [FsProps] (drivers/fs.c): operations, byte
      layout, invariant [fs_wf]; writing, deleting and loading refine a map
      from names to contents; a reboot recovers it.
    - [Paging] (kernel/paging.c): the page tables implement a set of windows
      ([implements]); ring 3 reaches its windows and the shared image only.
    - [Pit] (kernel/pit.c), [Sched] (kernel/sched.c), [SchedProps], [Frames],
      [SchedInv], [Ipc]: the election and its fairness; the interrupt frame
      round trip; the ownership invariant [kernel_wf], kept by every operation
      in any order ([kernel_step]); mailboxes as first-in first-out queues.
      [Typed]: every field and variable stays in the range of its C type.
    - [Elf] (kernel/elf.c), [Exec] (kernel/exec.c): loading, relocation,
      argument passing, the start of a program and the isolation of slots.
    - [Keyboard] (kernel/keyboard.c): the ring between the interrupt handler
      and the reader, interleaved access by access.  [Screen]
      (kernel/screen.c): the terminal.
    - [Syscall] (kernel/syscall.c): the calls on the saved frame.
    - [Shell], [ShellEdit], [ShellCmd], [ShellSafe] (kernel/shell.c): the line
      editor and its history, the commands against a parser on lists, and the
      system invariant [system_ok] that every command keeps.
    - [Descriptors] (kernel/gdt.c, interrupts.c, exceptions.c): segments,
      interrupt routing, exception reports.  [Ports] (kernel/serial.c,
      cpu.c): the serial line on any chip that keeps its data sheet, the
      reset of the machine.
    - [Boot] (kernel/init.c): [main_entry], from any values in the BSS,
      establishes [system_ok] on any working disk that is unformatted or
      consistent, the starting point of all the other invariants.
    - [UserProg] (userprogs/, kernel/usermode.c, kernel.c): the user library
      and programs as trees of system calls, run under the kernel's handler.
    - [System] (the loop of kernel/init.c, [shell_poll]): the turns of the
      shell interleaved with keys, kernel operations and other tasks, from
      [main_entry] on; a message from a program to the console.

    ** What the theorems show

    Refinements of an abstract specification ([Heap], [FsProps], [Paging],
    [Ipc], [Keyboard], [Ata], [Screen], [ShellEdit], [UserProg]); invariants
    kept by all operations ([SchedInv.kernel_reachable_safe],
    [Heap.heap_trace_safe], [Boot.main_entry_correct], and
    [System.machine_runs] for the whole machine); safety across
    components ([Paging.paging_isolation], [Exec.exec_programs_isolated],
    [Syscall.syscall_safe], [ShellSafe.shell_execute_safe]), functional composition
    ([System.echo_shown]); equivalence with a
    reference definition ([Elf.elf_load_correct],
    [ShellCmd.shell_execute_correct]); round trips ([Frames], [Keyboard],
    [Screen], [ShellEdit], [FsProps]); liveness ([SchedProps.schedule_fair]);
    types ([Typed.kernel_types_kept]); termination ([Ports.serial_line_correct],
    for loops that wait for a device); bounds and error behaviour.  Theorems about what the code gets wrong are
    kept beside them (adjacent stacks share a page, long file names are lost,
    a failed directory save aliases sectors, an interrupted allocation
    overlaps the next one, a strict drive refuses the early FLUSH CACHE, the TSS limit exposes the I/O
    bitmap, an ATA error is sticky, an ELF segment or a wrapped header table
    escapes its window).

    ** Conditions

    The code does not check everything it relies on; the theorems about
    sequences of operations name what it leaves unchecked as hypotheses:
    [client_may_write] (tasks, and the addresses they give to SYS_RECV, stay
    out of the heap outside their stacks; static variables are not in the
    memory that tasks write), [safe_image] (program header tables that do not
    wrap, segments with no more file bytes than memory bytes), file names of
    at most 23 characters for [write], strings as task names for [ps],
    priorities that are not negative for fairness, [disk_holds] and
    [saved_history] (an unformatted disk, or a consistent file system whose
    history file was written by the shell).  Specifications are written apart
    from the code they judge: the keys of a US keyboard, the exceptions that
    push an error code, hexadecimal digits, the fields of descriptors.

    ** Not modelled

    - Preemption inside a kernel operation: operations are atomic, except for
      the keyboard reader and, in [Preempt], [kmalloc].  Handlers do run with interrupts disabled, but the
      shell calls [exec_run] and [task_kill] with interrupts enabled and
      without a lock, so a timer interrupt in the middle of them, followed by
      the exit of another task, is outside the theorems about sequences of
      operations ([Preempt.kmalloc_preempted_overlaps] shows that they would
      not hold).
    - The use of C stacks by the kernel's own calls, and compiled code: user
      programs and the kernel are their source.
    - Cache and segment effects: reloading of DS and ES on [iret], the hidden
      parts of segment registers, and the writes to the control registers
      beyond the fields they set.
    - The console that the kernel's messages reach is a text log in most
      components; [Screen] shows what the text becomes on the screen.
    - Overflow of [history_count] after 2^31 commands.
    - boot.asm, which ends before [main_entry]; build scripts and tests. *)
From Stdlib Require Import ZArith Lia String Ascii.
From stdpp Require Import base numbers list list_numbers.

#[global] Open Scope Z_scope.

(** ** Machine-width integers

    The kernel is compiled with [-m32]: [uint32_t], pointers and [unsigned]
    are 32-bit words with wrap-around, [int] is read back as a signed value.
    A w-bit word is a [Z] in [0 .. 2^w) and every C operation that can leave
    that range is written with its truncation. *)

Definition u8 (x : Z) : Z := x mod 256.
Definition u16 (x : Z) : Z := x mod 65536.
Definition u32 (x : Z) : Z := x mod 4294967296.
Definition s32 (x : Z) : Z :=
  if u32 x <? 2147483648 then u32 x else u32 x - 4294967296.

Declare Scope mx_scope.
Delimit Scope mx_scope with mx.
Notation "a ⊕ b" := (u32 (a + b)) (at level 50, left associativity) : mx_scope.
Notation "a ⊖ b" := (u32 (a - b)) (at level 50, left associativity) : mx_scope.
Notation "a ⊗ b" := (u32 (a * b)) (at level 40, left associativity) : mx_scope.
#[global] Open Scope mx_scope.

Definition is_byte (x : Z) : Prop := 0 <= x < 256.
Definition is_u32 (x : Z) : Prop := 0 <= x < 4294967296.
Definition is_s32 (x : Z) : Prop := -2147483648 <= x < 2147483648.

(** [word] solves linear goals about truncations: every [u8]/[u32] becomes a
    euclidean division by a constant. *)
Ltac word :=
  unfold is_byte, is_u32, u8, u16, u32, s32 in *;
  repeat match goal with
         | |- context [if ?b then _ else _] => destruct b eqn:?
         end;
  Z.div_mod_to_equations; lia.

(** [zcases] splits on every integer comparison of the goal and discards the
    impossible cases. *)
Ltac zcases :=
  repeat match goal with
    | |- context [Z.leb ?a ?b] => destruct (Z.leb_spec a b)
    | |- context [Z.ltb ?a ?b] => destruct (Z.ltb_spec a b)
    | |- context [Z.eqb ?a ?b] => destruct (Z.eqb_spec a b)
    end; cbn [andb orb negb]; try done; try (exfalso; lia).

Lemma u32_id x : is_u32 x -> u32 x = x.
Proof. unfold is_u32, u32. intros. by apply Z.mod_small. Qed.

Lemma u8_id x : is_byte x -> u8 x = x.
Proof. unfold is_byte, u8. intros. by apply Z.mod_small. Qed.

Lemma u32_range x : is_u32 (u32 x).
Proof. unfold is_u32, u32. by apply Z.mod_pos_bound. Qed.

Lemma u8_range x : is_byte (u8 x).
Proof. unfold is_byte, u8. by apply Z.mod_pos_bound. Qed.

Lemma s32_range x : is_s32 (s32 x).
Proof. unfold is_s32, s32. pose proof (u32_range x) as H. unfold is_u32 in H. destruct (Z.ltb_spec (u32 x) 2147483648); lia. Qed.

Lemma u32_idemp x : u32 (u32 x) = u32 x.
Proof. apply u32_id, u32_range. Qed.

Create HintDb mx.
Create Rewrite HintDb mx.
#[export] Hint Resolve u32_range u8_range s32_range : mx.
#[export] Hint Rewrite u32_idemp : mx.

(** ** C arrays

    A C array is a list with [Z] indices.  Reading or writing out of range is
    undefined behaviour in C; the model reads the default value and leaves
    the array unchanged, and the components' invariants keep every index in
    range. *)

(** The default of an integer array is 0, so that a C string can be given as
    the list of its characters: reading at its end gives the terminator. *)
#[export] Instance int_inhabited : Inhabited Z | 0 := populate 0.

Definition arr_get {A} `{Inhabited A} (l : list A) (i : Z) : A :=
  if 0 <=? i then l !!! Z.to_nat i else inhabitant.
Definition arr_set {A} (l : list A) (i : Z) (v : A) : list A :=
  if 0 <=? i then <[Z.to_nat i := v]> l else l.
Arguments arr_get : simpl never.
Arguments arr_set : simpl never.
Definition alen {A} (l : list A) : Z := Z.of_nat (length l).

Notation "l .[ i ]" := (arr_get l i)
  (at level 1, left associativity, format "l .[ i ]") : mx_scope.
Notation "l .[ i <- v ]" := (arr_set l i v)
  (at level 1, left associativity, format "l .[ i <- v ]") : mx_scope.

Section arrays.
Context {A : Type} `{!Inhabited A}.
Implicit Types (l : list A) (i j : Z) (v : A).

Lemma length_arr_set l i v : length (l.[i <- v]) = length l.
Proof. unfold arr_set. destruct (0 <=? i); [apply length_insert | done]. Qed.

Lemma alen_arr_set l i v : alen (l.[i <- v]) = alen l.
Proof. unfold alen. by rewrite length_arr_set. Qed.

Lemma arr_get_set_eq l i v : 0 <= i < alen l -> (l.[i <- v]).[i] = v.
Proof.
  unfold arr_get, arr_set, alen. intros Hi.
  rewrite (proj2 (Z.leb_le 0 i)) by lia.
  apply list_lookup_total_insert_eq. lia.
Qed.

Lemma arr_get_set_ne l i j v : i <> j -> (l.[i <- v]).[j] = l.[j].
Proof.
  unfold arr_get, arr_set. intros Hne.
  destruct (Z.leb_spec 0 i), (Z.leb_spec 0 j); try done.
  apply list_lookup_total_insert_ne. lia.
Qed.

Lemma arr_get_set l i j v : 0 <= i < alen l ->
  (l.[i <- v]).[j] = if i =? j then v else l.[j].
Proof.
  intros Hi. destruct (Z.eqb_spec i j) as [<-|].
  - by apply arr_get_set_eq.
  - by apply arr_get_set_ne.
Qed.

Lemma arr_get_lookup l i x : 0 <= i ->
  l !! Z.to_nat i = Some x -> l.[i] = x.
Proof.
  unfold arr_get. intros Hi Hl. rewrite (proj2 (Z.leb_le 0 i)) by lia.
  by apply list_lookup_total_correct.
Qed.

Lemma arr_lookup_get l i : 0 <= i < alen l -> l !! Z.to_nat i = Some l.[i].
Proof.
  unfold arr_get, alen. intros Hi. rewrite (proj2 (Z.leb_le 0 i)) by lia.
  apply list_lookup_lookup_total_lt. lia.
Qed.

Lemma arr_get_oob l i : i < 0 \/ alen l <= i -> l.[i] = inhabitant.
Proof.
  unfold arr_get, alen. intros Hi. destruct (Z.leb_spec 0 i); [|done].
  rewrite list_lookup_total_alt, lookup_ge_None_2; [done | lia].
Qed.

Lemma arr_get_cons_0 x l : (x :: l).[0] = x.
Proof. done. Qed.

Lemma arr_get_cons_S x l i : 0 <= i -> (x :: l).[i + 1] = l.[i].
Proof.
  intros Hi. unfold arr_get. rewrite !(proj2 (Z.leb_le 0 _)) by lia.
  by replace (Z.to_nat (i + 1)) with (S (Z.to_nat i)) by lia.
Qed.

Lemma arr_set_set l i v w : l.[i <- v].[i <- w] = l.[i <- w].
Proof. unfold arr_set. destruct (0 <=? i); [apply list_insert_insert_eq|done]. Qed.

(** Extensionality of arrays of the same length. *)
Lemma arr_ext l1 l2 : alen l1 = alen l2 ->
  (forall i, 0 <= i < alen l1 -> l1.[i] = l2.[i]) -> l1 = l2.
Proof.
  intros Hlen Heq. apply list_eq_same_length with (length l1).
  - unfold alen in Hlen. lia.
  - done.
  - intros i x y Hi Hx Hy.
    assert (Hi' : 0 <= Z.of_nat i < alen l1) by (unfold alen; lia).
    specialize (Heq _ Hi').
    rewrite (arr_get_lookup l1 (Z.of_nat i) x) in Heq by first [lia | by rewrite Nat2Z.id].
    rewrite (arr_get_lookup l2 (Z.of_nat i) y) in Heq by first [lia | by rewrite Nat2Z.id].
    done.
Qed.

Lemma arr_set_get l i : 0 <= i < alen l -> l.[i <- l.[i]] = l.
Proof.
  intros Hi. apply arr_ext; rewrite alen_arr_set; [done|]. intros j Hj.
  rewrite arr_get_set by done. destruct (Z.eqb_spec i j); by subst.
Qed.

Lemma arr_Forall (P : A -> Prop) l :
  Forall P l <-> forall i, 0 <= i < alen l -> P l.[i].
Proof.
  rewrite Forall_lookup. split.
  - intros H i Hi. eapply H, arr_lookup_get, Hi.
  - intros H i x Hx. pose proof (lookup_lt_Some _ _ _ Hx).
    rewrite <- (arr_get_lookup l (Z.of_nat i) x); [|lia|by rewrite Nat2Z.id].
    apply H. unfold alen. lia.
Qed.
End arrays.

#[export] Hint Rewrite @length_arr_set @alen_arr_set : mx.

(** ** Loops

    [for_loop n i body s] is [for (k = i; k < i + n; k++) s = body k s]. *)

Fixpoint for_loop {S : Type} (n : nat) (i : Z) (body : Z -> S -> S) (s : S) : S :=
  match n with
  | O => s
  | Datatypes.S n' => for_loop n' (i + 1) body (body i s)
  end.

(** [find_index p n i] is [for (k = i; k < i + n; k++) if (p k) return k;],
    [None] when the loop runs to its end. *)
Fixpoint find_index (p : Z -> bool) (n : nat) (i : Z) : option Z :=
  match n with
  | O => None
  | Datatypes.S n' => if p i then Some i else find_index p n' (i + 1)
  end.

(** The invariant rule of [for_loop]. *)
Lemma for_loop_ind {S} (P : Z -> S -> Prop) (body : Z -> S -> S) n i s :
  P i s ->
  (forall j t, i <= j < i + Z.of_nat n -> P j t -> P (j + 1) (body j t)) ->
  P (i + Z.of_nat n) (for_loop n i body s).
Proof.
  revert i s. induction n as [|n IH]; intros i s Hi Hstep; cbn.
  - by rewrite Z.add_0_r.
  - replace (i + Z.of_nat (Datatypes.S n)) with ((i + 1) + Z.of_nat n) by lia.
    apply IH; [apply Hstep; [lia|done]|].
    intros j t Hj. apply Hstep. lia.
Qed.

Lemma for_loop_ext {S} (f g : Z -> S -> S) n i s :
  (forall j t, i <= j < i + Z.of_nat n -> f j t = g j t) ->
  for_loop n i f s = for_loop n i g s.
Proof.
  revert i s. induction n as [|n IH]; intros i s H; cbn; [done|].
  rewrite H by lia. apply IH. intros. apply H. lia.
Qed.

Lemma for_loop_app {S} (body : Z -> S -> S) n m i s :
  for_loop (n + m) i body s = for_loop m (i + Z.of_nat n) body (for_loop n i body s).
Proof.
  revert i s. induction n as [|n IH]; intros i s; cbn.
  - by rewrite Z.add_0_r.
  - rewrite IH. f_equal. lia.
Qed.

Lemma find_index_Some p n i j : find_index p n i = Some j ->
  i <= j < i + Z.of_nat n /\ p j = true /\ forall k, i <= k < j -> p k = false.
Proof.
  revert i. induction n as [|n IH]; intros i; cbn; [done|].
  destruct (p i) eqn:Hp.
  - intros [= <-]. split_and!; [lia|lia|done|]. intros. lia.
  - intros H. apply IH in H as (? & ? & Hk). split_and!; [lia|lia|done|].
    intros k Hk'. destruct (decide (k = i)) as [->|]; [done|]. apply Hk. lia.
Qed.

Lemma find_index_None p n i : find_index p n i = None ->
  forall k, i <= k < i + Z.of_nat n -> p k = false.
Proof.
  revert i. induction n as [|n IH]; intros i; cbn; [lia|].
  destruct (p i) eqn:Hp; [done|]. intros H k Hk.
  destruct (decide (k = i)) as [->|]; [done|]. apply (IH _ H). lia.
Qed.

Lemma find_index_ext p q n i :
  (forall k, i <= k < i + Z.of_nat n -> p k = q k) ->
  find_index p n i = find_index q n i.
Proof.
  revert i. induction n as [|n IH]; intros i H; cbn; [done|].
  rewrite H by lia. rewrite (IH (i + 1)); [done|]. intros. apply H. lia.
Qed.

(** The loop finds the least index that satisfies the test. *)
Lemma find_index_intro p n i j :
  i <= j < i + Z.of_nat n -> p j = true -> (forall k, i <= k < j -> p k = false) ->
  find_index p n i = Some j.
Proof.
  intros Hj Hp Hmin. destruct (find_index p n i) as [k|] eqn:E.
  - apply find_index_Some in E as (Hk & Hpk & Hk').
    destruct (Z.lt_trichotomy k j) as [?|[->|?]]; [|done|].
    + rewrite Hmin in Hpk by lia. done.
    + rewrite Hk' in Hp by lia. done.
  - rewrite (find_index_None _ _ _ E) in Hp by lia. done.
Qed.

(** Array-filling loops: [for (k = i; k < i + n; k++) a[o + k] = f(k);]. *)
Section fill.
Context {A : Type} `{!Inhabited A}.

Lemma length_for_set (f : Z -> A) o n i (l : list A) :
  length (for_loop n i (fun k a => a.[o + k <- f k]) l) = length l.
Proof.
  revert i l. induction n as [|n IH]; intros i l; cbn; [done|].
  by rewrite IH, length_arr_set.
Qed.

Lemma for_set_get (f : Z -> A) o n i (l : list A) j :
  0 <= o + i -> o + i + Z.of_nat n <= alen l ->
  (for_loop n i (fun k a => a.[o + k <- f k]) l).[j] =
  if (o + i <=? j) && (j <? o + i + Z.of_nat n) then f (j - o) else l.[j].
Proof.
  revert i l. induction n as [|n IH]; intros i l Hi Hn; cbn [for_loop].
  - destruct (Z.leb_spec (o + i) j), (Z.ltb_spec j (o + i + Z.of_nat 0)); try done; lia.
  - rewrite IH by (rewrite ?alen_arr_set; lia).
    rewrite arr_get_set by lia.
    destruct (Z.eqb_spec (o + i) j) as [<-|].
    + replace (o + i - o) with i by lia.
      destruct (Z.leb_spec (o + (i + 1)) (o + i)); [lia|].
      destruct (Z.leb_spec (o + i) (o + i)), (Z.ltb_spec (o + i) (o + i + Z.of_nat (Datatypes.S n))); try done; lia.
    + destruct (Z.leb_spec (o + (i + 1)) j), (Z.leb_spec (o + i) j),
        (Z.ltb_spec j (o + (i + 1) + Z.of_nat n)), (Z.ltb_spec j (o + i + Z.of_nat (Datatypes.S n)));
        cbn; try done; lia.
Qed.
End fill.

(** [build n f] is a buffer filled by [for (i = 0; i < n; i++) buf[i] = f(i);]. *)
Definition build {A} (n : Z) (f : Z -> A) : list A := map f (seqZ 0 n).

Section build.
Context {A : Type} `{!Inhabited A}.

Lemma alen_build n (f : Z -> A) : 0 <= n -> alen (build n f) = n.
Proof. intros. unfold alen, build. rewrite length_map, length_seqZ. lia. Qed.

Lemma build_get n (f : Z -> A) i : 0 <= i < n -> (build n f).[i] = f i.
Proof.
  intros Hi. apply arr_get_lookup; [lia|]. unfold build.
  rewrite list_lookup_fmap, lookup_seqZ_lt by lia. cbn. do 2 f_equal. lia.
Qed.
End build.

Lemma build_snoc {A} n (f : Z -> A) : 0 <= n -> build (n + 1) f = build n f ++ [f n].
Proof.
  intros Hn. unfold build. by rewrite seqZ_app, map_app by lia.
Qed.

Lemma build_cons {A} n (f : Z -> A) : 0 < n ->
  build n f = f 0 :: build (n - 1) (fun i => f (i + 1)).
Proof.
  intros Hn. unfold build. rewrite seqZ_cons by done. cbn [map]. f_equal.
  rewrite <- (fmap_add_seqZ 1 0). rewrite <- list_fmap_compose. apply map_ext. intros i.
  cbn. f_equal. lia.
Qed.

Lemma build_ext_range {A} `{!Inhabited A} n (f g : Z -> A) : 0 <= n ->
  (forall i, 0 <= i < n -> f i = g i) -> build n f = build n g.
Proof.
  intros Hn H. apply arr_ext; rewrite !alen_build by done; [done|].
  intros i Hi. rewrite !build_get by done. by apply H.
Qed.

Lemma arr_get_map {A B} `{!Inhabited A, !Inhabited B} (f : A -> B) (l : list A) i :
  0 <= i < alen l -> (map f l).[i] = f l.[i].
Proof.
  intros Hi. apply arr_get_lookup; [lia|].
  by rewrite list_lookup_fmap, arr_lookup_get by done.
Qed.

Lemma arr_get_app_l {A} `{!Inhabited A} (l1 l2 : list A) i :
  0 <= i < alen l1 -> (l1 ++ l2).[i] = l1.[i].
Proof.
  intros Hi. apply arr_get_lookup; [lia|].
  rewrite lookup_app_l by (unfold alen in Hi; lia). by apply arr_lookup_get.
Qed.

Lemma arr_get_app_r {A} `{!Inhabited A} (l1 l2 : list A) i :
  alen l1 <= i -> (l1 ++ l2).[i] = l2.[i - alen l1].
Proof.
  intros Hi. unfold arr_get. unfold alen in *.
  rewrite !(proj2 (Z.leb_le 0 _)) by lia. rewrite !list_lookup_total_alt.
  rewrite lookup_app_r by lia. do 2 f_equal. lia.
Qed.

(** ** The state monad

    Kernel routines that thread state through many calls are computations
    [S -> A * S]. *)

Definition M (S A : Type) : Type := S -> A * S.
Definition ret {S A} (a : A) : M S A := fun s => (a, s).
Definition bind {S A B} (m : M S A) (k : A -> M S B) : M S B :=
  fun s => let '(a, s') := m s in k a s'.
Definition get {S} : M S S := fun s => (s, s).
Definition gets {S A} (f : S -> A) : M S A := fun s => (f s, s).
Definition modify {S} (f : S -> S) : M S unit := fun s => (tt, f s).

Notation "'let!' x := m 'in' k" := (bind m (fun x => k))
  (at level 10, x pattern, m at level 100, k at level 200) : mx_scope.
Notation "m ;; k" := (bind m (fun _ => k))
  (at level 100, k at level 200, right associativity) : mx_scope.

(** [when b m] is [if (b) m;] for a statement [m]. *)
Definition when {S} (b : bool) (m : M S unit) : M S unit :=
  if b then m else ret tt.

(** ** Text

    Console text is the list of the bytes handed to [kprint]. *)
Definition text (s : string) : list Z :=
  map (fun c => Z.of_nat (nat_of_ascii c)) (list_ascii_of_string s).
Definition newline : list Z := [10].

(** The characters of a C string up to its terminator. *)
Fixpoint cstr (s : list Z) : list Z :=
  match s with
  | [] => []
  | c :: s => if c =? 0 then [] else c :: cstr s
  end.

Lemma cstr_terminated l1 l2 : Forall (fun c => c <> 0) l1 -> cstr (l1 ++ 0 :: l2) = l1.
Proof.
  induction 1 as [|c l1 Hc _ IH]; cbn; [done|]. rewrite (proj2 (Z.eqb_neq c 0)) by done. by rewrite IH.
Qed.

Lemma cstr_nonzero l : Forall (fun c => c <> 0) (cstr l).
Proof.
  induction l as [|c l IH]; cbn; [done|]. destruct (Z.eqb_spec c 0); [done|]. by constructor.
Qed.
