(* ===== verification/Machine.v ===== *)
(** * Physical memory

    The kernel runs identity-mapped in 32-bit mode: a pointer is its physical
    address.  Memory is a total map from addresses to bytes; the multi-byte
    accesses of the C code are little-endian, as on the i386. *)
From stdpp Require Import base numbers list.
From S2P Require Import Prelude.

Definition memory : Type := Z -> Z.

Definition load8 (m : memory) (a : Z) : Z := m (u32 a).
Definition store8 (m : memory) (a v : Z) : memory :=
  fun x => if x =? u32 a then u8 v else m x.

Definition load32 (m : memory) (a : Z) : Z :=
  load8 m a + 256 * load8 m (a + 1) + 65536 * load8 m (a + 2)
  + 16777216 * load8 m (a + 3).
Definition store32 (m : memory) (a v : Z) : memory :=
  store8 (store8 (store8 (store8 m a v)
    (a + 1) (v / 256)) (a + 2) (v / 65536)) (a + 3) (v / 16777216).

(** Byte-valued memories, and agreement of two memories on a region. *)
Definition mem_bytes (m : memory) : Prop := forall a, is_byte (m a).
Definition agree_on (P : Z -> Prop) (m m' : memory) : Prop :=
  forall a, P a -> m' a = m a.
(** The half-open address range [a, a + n). *)
Definition range (a n x : Z) : Prop := a <= x < a + n.

#[export] Instance agree_on_equiv P : Equivalence (agree_on P).
Proof.
  split.
  - intros m a _. done.
  - intros m m' H a Ha. symmetry. by apply H.
  - intros m1 m2 m3 H1 H2 a Ha. rewrite H2 by done. by apply H1.
Qed.

Lemma agree_on_weaken (P Q : Z -> Prop) m m' :
  (forall a, Q a -> P a) -> agree_on P m m' -> agree_on Q m m'.
Proof. intros HPQ H a Ha. apply H, HPQ, Ha. Qed.

Lemma agree_on_trans P m1 m2 m3 :
  agree_on P m1 m2 -> agree_on P m2 m3 -> agree_on P m1 m3.
Proof. intros H1 H2 a Ha. rewrite H2 by done. by apply H1. Qed.

(** ** Single bytes *)

Lemma load8_store8_eq m a v : load8 (store8 m a v) a = u8 v.
Proof. unfold load8, store8. by rewrite Z.eqb_refl. Qed.

Lemma load8_store8_ne m a b v : is_u32 a -> is_u32 b -> a <> b ->
  load8 (store8 m a v) b = load8 m b.
Proof.
  intros Ha Hb Hne. unfold load8, store8. rewrite !u32_id by done.
  destruct (Z.eqb_spec b a); [congruence | done].
Qed.

Lemma mem_bytes_store8 m a v : mem_bytes m -> mem_bytes (store8 m a v).
Proof. intros H x. unfold store8. destruct (_ =? _); [apply u8_range | apply H]. Qed.

Lemma mem_bytes_store32 m a v : mem_bytes m -> mem_bytes (store32 m a v).
Proof. intros H. unfold store32. by repeat apply mem_bytes_store8. Qed.

#[export] Hint Resolve mem_bytes_store8 mem_bytes_store32 : mx.

Lemma store8_frame m a v (P : Z -> Prop) : is_u32 a ->
  (forall x, P x -> x <> a) -> agree_on P m (store8 m a v).
Proof.
  intros Ha HP x Hx. unfold store8. rewrite u32_id by done.
  destruct (Z.eqb_spec x a); [by apply HP in Hx | done].
Qed.

(** ** Words *)

(** A word store that does not wrap around the address space, byte by byte. *)
Lemma store32_spec m a v x : 0 <= a -> a + 4 <= 4294967296 ->
  store32 m a v x =
  if x =? a then u8 v else if x =? a + 1 then u8 (v / 256)
  else if x =? a + 2 then u8 (v / 65536)
  else if x =? a + 3 then u8 (v / 16777216) else m x.
Proof.
  intros H0 H1. unfold store32, store8.
  rewrite !u32_id by (unfold is_u32; lia).
  repeat match goal with |- context [?p =? ?q] => destruct (Z.eqb_spec p q) end;
    subst; try lia; done.
Qed.

Lemma store32_frame m a v (P : Z -> Prop) : 0 <= a -> a + 4 <= 4294967296 ->
  (forall x, P x -> ~ range a 4 x) -> agree_on P m (store32 m a v).
Proof.
  intros H0 H1 HP x Hx. rewrite store32_spec by done.
  specialize (HP x Hx). unfold range in HP.
  repeat match goal with |- context [?p =? ?q] => destruct (Z.eqb_spec p q) end;
    try lia; done.
Qed.

Lemma load32_agree m m' a : 0 <= a -> a + 4 <= 4294967296 ->
  agree_on (range a 4) m m' -> load32 m' a = load32 m a.
Proof.
  intros H0 H1 H. unfold load32, load8.
  rewrite !u32_id by (unfold is_u32; lia).
  rewrite !H by (unfold range; lia). done.
Qed.

Lemma load8_agree m m' a : is_u32 a ->
  agree_on (range a 1) m m' -> load8 m' a = load8 m a.
Proof.
  intros Ha H. unfold load8. rewrite !u32_id by done. apply H. unfold range. lia.
Qed.

(** The four bytes of a word put back together give the word. *)
Lemma bytes_of_word v :
  u8 v + 256 * u8 (v / 256) + 65536 * u8 (v / 65536)
  + 16777216 * u8 (v / 16777216) = u32 v.
Proof. word. Qed.

Lemma load32_store32_eq m a v : 0 <= a -> a + 4 <= 4294967296 ->
  load32 (store32 m a v) a = u32 v.
Proof.
  intros H0 H1. rewrite <- bytes_of_word. unfold load32, load8.
  rewrite !u32_id by (unfold is_u32; lia).
  rewrite !store32_spec by done.
  repeat match goal with |- context [?p =? ?q] => destruct (Z.eqb_spec p q) end;
    try lia.
Qed.

Lemma load32_store32_ne m a b v :
  0 <= a -> a + 4 <= 4294967296 -> 0 <= b -> b + 4 <= 4294967296 ->
  (a + 4 <= b \/ b + 4 <= a) ->
  load32 (store32 m a v) b = load32 m b.
Proof.
  intros. apply load32_agree; [done..|]. apply store32_frame; [done..|].
  unfold range. lia.
Qed.

Lemma load8_store32_ne m a b v :
  0 <= a -> a + 4 <= 4294967296 -> is_u32 b -> ~ range a 4 b ->
  load8 (store32 m a v) b = load8 m b.
Proof.
  intros. apply load8_agree; [done|]. apply store32_frame; [done..|].
  unfold range in *. lia.
Qed.

Lemma load32_store8_ne m a b v :
  is_u32 a -> 0 <= b -> b + 4 <= 4294967296 -> ~ range b 4 a ->
  load32 (store8 m a v) b = load32 m b.
Proof.
  intros. apply load32_agree; [done..|]. apply store8_frame; [done|].
  unfold range in *. lia.
Qed.

Lemma load32_range m a : mem_bytes m -> is_u32 (load32 m a).
Proof.
  intros H. unfold load32, load8.
  pose proof (H (u32 a)). pose proof (H (u32 (a + 1))).
  pose proof (H (u32 (a + 2))). pose proof (H (u32 (a + 3))).
  unfold is_byte, is_u32 in *. lia.
Qed.

(** ** Copy loops: [for (k = 0; k < n; k++) ((uint8_t* )a)[k] = f(k);] *)

Definition store_bytes (n : nat) (a : Z) (f : Z -> Z) (m : memory) : memory :=
  for_loop n 0 (fun k m => store8 m (a ⊕ k) (f k)) m.

Lemma store_bytes_spec n a f m x : 0 <= a -> a + Z.of_nat n <= 4294967296 ->
  store_bytes n a f m x =
  if (a <=? x) && (x <? a + Z.of_nat n) then u8 (f (x - a)) else m x.
Proof.
  intros Ha Hn. unfold store_bytes.
  apply (for_loop_ind (fun i m' =>
    m' x = if (a <=? x) && (x <? a + i) then u8 (f (x - a)) else m x)).
  - destruct (Z.leb_spec a x), (Z.ltb_spec x (a + 0)); try done; lia.
  - intros j t Hj IH. unfold store8. rewrite !(u32_id (a + j)) by (unfold is_u32; lia).
    destruct (Z.eqb_spec x (a + j)) as [->|].
    + replace (a + j - a) with j by lia.
      destruct (Z.leb_spec a (a + j)), (Z.ltb_spec (a + j) (a + (j + 1))); try done; lia.
    + rewrite IH. destruct (Z.leb_spec a x), (Z.ltb_spec x (a + j)),
        (Z.ltb_spec x (a + (j + 1))); try done; lia.
Qed.

Lemma mem_bytes_store_bytes n a f m : mem_bytes m -> mem_bytes (store_bytes n a f m).
Proof.
  intros H. unfold store_bytes.
  apply (for_loop_ind (fun _ => mem_bytes)); auto with mx.
Qed.
#[export] Hint Resolve mem_bytes_store_bytes : mx.

(** ** C strings in memory

    The characters from address [a] up to the terminator, as [kprint] or
    [m_strlen] read them: [None] when there is none in [n] bytes. *)
Fixpoint string_at (n : nat) (m : memory) (a : Z) : option (list Z) :=
  match n with
  | O => None
  | S n =>
    if load8 m a =? 0 then Some []
    else match string_at n m (a ⊕ 1) with Some t => Some (load8 m a :: t) | None => None end
  end.

(** It fails only when there is no terminator. *)
Lemma string_at_None n m a : string_at n m a = None -> forall i, 0 <= i < Z.of_nat n -> load8 m (a ⊕ i) <> 0.
Proof.
  revert a. induction n as [|n IH]; intros a; cbn [string_at]; [intros; lia|].
  destruct (Z.eqb_spec (load8 m a) 0) as [|Ha]; [done|]. destruct (string_at n m (a ⊕ 1)) eqn:E; [done|].
  intros _ i Hi. destruct (decide (i = 0)) as [->|].
  - unfold load8 in *. by rewrite u32_idemp, Z.add_0_r.
  - replace (a ⊕ i) with ((a ⊕ 1) ⊕ (i - 1)) by (unfold u32; rewrite Zplus_mod_idemp_l; f_equal; lia). apply (IH _ E). lia.
Qed.

(** [mem_simpl] computes loads through stores to provably equal or disjoint
    addresses. *)
Ltac mem_simpl :=
  repeat first
    [ rewrite load32_store32_eq by lia
    | rewrite load8_store8_eq
    | rewrite load32_store32_ne by lia
    | rewrite load32_store8_ne by (unfold is_u32, range; lia)
    | rewrite load8_store32_ne by (unfold is_u32, range; lia)
    | rewrite load8_store8_ne by (unfold is_u32; lia) ].

(** [agree_from H] weakens an agreement [H] to a smaller region. *)
Ltac agree_from H :=
  eapply agree_on_weaken; [|exact H]; unfold range; cbn beta; intros; lia.
