(* ===== verification/Heap.v ===== *)
(** * The kernel heap: [kernel/mem.c]

    [kmalloc]/[kfree] work on a singly linked list of blocks whose headers
    live in memory in front of their payloads.  The first half of the file
    translates the C code to operations on [memory]; the second half gives
    the abstract allocator (a list of blocks, first fit with splitting), the
    representation predicate that ties the two, and the lemmas that the C
    code refines the abstract allocator and never touches a payload in use. *)
From stdpp Require Import base numbers list sets gmap.
From S2P Require Import Prelude Machine.

(** ** The C code *)
(** [header_t]: [size] at offset 0, [next] at 4, [is_free] at 8;
    [sizeof(header_t)] is 12 with its padding. *)
Definition sizeof_header : Z := 12.
Definition hdr_size (m : memory) (h : Z) : Z := load32 m h.
Definition hdr_next (m : memory) (h : Z) : Z := load32 m (h ⊕ 4).
Definition hdr_is_free (m : memory) (h : Z) : Z := load8 m (h ⊕ 8).
Definition set_size (h v : Z) (m : memory) : memory := store32 m h v.
Definition set_next (h v : Z) (m : memory) : memory := store32 m (h ⊕ 4) v.
Definition set_is_free (h v : Z) (m : memory) : memory := store8 m (h ⊕ 8) v.

(** [heap_init]: the new value of [heap_start] and the memory. *)
Definition heap_init (start size : Z) (m : memory) : Z * memory :=
  (start, set_is_free start 1 (set_next start 0
            (set_size start (size ⊖ sizeof_header) m))).

(** [size = (size + 3) & ~3;] *)
Definition align4 (size : Z) : Z := Z.land (size ⊕ 3) 4294967292.

(** The block-splitting arm of [kmalloc], executed when
    [curr->size > size + sizeof(header_t) + 4]. *)
Definition split_block (curr size : Z) (m : memory) : memory :=
  let next := (curr ⊕ sizeof_header) ⊕ size in
  let m := set_size next ((hdr_size m curr ⊖ size) ⊖ sizeof_header) m in
  let m := set_next next (hdr_next m curr) m in
  let m := set_is_free next 1 m in
  let m := set_size curr size m in
  set_next curr next m.

(** The [while (curr)] loop of [kmalloc]; [None] is only reached when the
    fuel runs out (a cyclic list), which the heap invariant excludes. *)
Fixpoint kmalloc_loop (fuel : nat) (size curr : Z) (m : memory)
  : option (Z * memory) :=
  match fuel with
  | O => None
  | S fuel =>
    if curr =? 0 then Some (0, m)
    else if negb (hdr_is_free m curr =? 0) && (size <=? hdr_size m curr) then
      let m := if (size ⊕ sizeof_header) ⊕ 4 <? hdr_size m curr
               then split_block curr size m else m in
      Some (curr ⊕ sizeof_header, set_is_free curr 0 m)
    else kmalloc_loop fuel size (hdr_next m curr) m
  end.

(** A 1 MiB heap holds at most 1048576 / 12 = 87381 blocks, so the loop ends
    within 87382 iterations. *)
Definition heap_fuel : nat := Z.to_nat 87382.

Definition kmalloc (heap_start size : Z) (m : memory) : option (Z * memory) :=
  if heap_start =? 0 then Some (0, m)
  else kmalloc_loop heap_fuel (align4 size) heap_start m.

Definition kfree (ptr : Z) (m : memory) : memory :=
  if ptr =? 0 then m
  else
    let header := ptr ⊖ sizeof_header in
    let m := set_is_free header 1 m in
    let next := hdr_next m header in
    if negb (next =? 0) && negb (hdr_is_free m next =? 0) then
      let m := set_size header
                 (hdr_size m header ⊕ (hdr_size m next ⊕ sizeof_header)) m in
      set_next header (hdr_next m (hdr_next m header)) m
    else m.

Fixpoint heap_stats_loop (fuel : nat) (curr used_total free_total : Z)
  (m : memory) : option (Z * Z) :=
  match fuel with
  | O => None
  | S fuel =>
    if curr =? 0 then Some (used_total, free_total)
    else if negb (hdr_is_free m curr =? 0)
    then heap_stats_loop fuel (hdr_next m curr) used_total
           (free_total ⊕ hdr_size m curr) m
    else heap_stats_loop fuel (hdr_next m curr)
           (used_total ⊕ hdr_size m curr) free_total m
  end.

Definition heap_stats (heap_start : Z) (m : memory) : option (Z * Z) :=
  heap_stats_loop heap_fuel heap_start 0 0 m.

(** ** The abstract allocator *)

Record block := Block { bsize : Z; bfree : bool }.
#[export] Instance block_eq_dec : EqDecision block.
Proof. solve_decision. Defined.

(** First fit from address [a]: the payload address and the new list. *)
Fixpoint alloc_blocks (size a : Z) (bs : list block) : option (Z * list block) :=
  match bs with
  | [] => None
  | b :: rest =>
    if bfree b && (size <=? bsize b) then
      Some (a + 12,
        if size + 16 <? bsize b
        then Block size false :: Block (bsize b - size - 12) true :: rest
        else Block (bsize b) false :: rest)
    else match alloc_blocks size (a + 12 + bsize b) rest with
         | Some (p, rest') => Some (p, b :: rest')
         | None => None
         end
  end.

(** Free the block whose payload is at [p], merging it with a free successor. *)
Fixpoint free_blocks (p a : Z) (bs : list block) : list block :=
  match bs with
  | [] => []
  | b :: rest =>
    if p =? a + 12 then
      match rest with
      | Block n true :: rest' => Block (bsize b + (n + 12)) true :: rest'
      | _ => Block (bsize b) true :: rest
      end
    else b :: free_blocks p (a + 12 + bsize b) rest
  end.

(** The payloads (address, size) in use. *)
Fixpoint used_payloads (a : Z) (bs : list block) : list (Z * Z) :=
  match bs with
  | [] => []
  | b :: rest =>
    (if bfree b then [] else [(a + 12, bsize b)])
    ++ used_payloads (a + 12 + bsize b) rest
  end.

Fixpoint extent (bs : list block) : Z :=
  match bs with [] => 0 | b :: rest => 12 + bsize b + extent rest end.

Definition in_used (a : Z) (bs : list block) (x : Z) : Prop :=
  exists p n, (p, n) ∈ used_payloads a bs /\ range p n x.

(** ** Representation *)

Definition block_ok (b : block) : Prop := 0 <= bsize b /\ (4 | bsize b).

Fixpoint heap_rep (m : memory) (a : Z) (bs : list block) : Prop :=
  match bs with
  | [] => True
  | b :: rest =>
    load32 m a = bsize b /\
    load32 m (a + 4) = (match rest with [] => 0 | _ => a + 12 + bsize b end) /\
    load8 m (a + 8) = (if bfree b then 1 else 0) /\
    block_ok b /\ heap_rep m (a + 12 + bsize b) rest
  end.

(** [heap_inv hs total m bs]: the heap that starts at [hs] and spans [total]
    bytes holds the blocks [bs]. *)
Record heap_inv (hs total : Z) (m : memory) (bs : list block) : Prop := {
  hi_start : 16 <= hs;
  hi_align : (4 | hs);
  hi_end : hs + total < 4294967296;
  hi_size : total <= 1048576;
  hi_nonempty : bs <> [];
  hi_extent : extent bs = total;
  hi_rep : heap_rep m hs bs;
}.

Lemma extent_nonneg m a bs : heap_rep m a bs -> 12 * Z.of_nat (length bs) <= extent bs.
Proof.
  revert a. induction bs as [|b rest IH]; intros a; cbn [heap_rep extent length]; [lia|].
  intros (_ & _ & _ & [Hb _] & Hr). apply IH in Hr. lia.
Qed.

Lemma alloc_blocks_nonempty size a bs p bs' :
  alloc_blocks size a bs = Some (p, bs') -> bs <> [] /\ bs' <> [].
Proof.
  destruct bs as [|b rest]; cbn; [done|]. intros H. split; [done|].
  destruct (_ && _); [|destruct (alloc_blocks _ _ _) as [[]|]]; simplify_eq; [|done].
  by case_match.
Qed.

(** Reading headers at in-range addresses. *)
Lemma hdr_fields m h : 0 <= h -> h + 12 <= 4294967296 ->
  hdr_next m h = load32 m (h + 4) /\ hdr_is_free m h = load8 m (h + 8).
Proof.
  intros. unfold hdr_next, hdr_is_free. by rewrite !u32_id by (unfold is_u32; lia).
Qed.

Lemma heap_rep_agree m m' a bs :
  0 <= a -> a + extent bs < 4294967296 ->
  agree_on (range a (extent bs)) m m' -> heap_rep m a bs -> heap_rep m' a bs.
Proof.
  revert a. induction bs as [|b rest IH]; intros a Ha Hend Hag Hrep; [done|].
  pose proof (extent_nonneg _ _ _ Hrep) as Hext.
  destruct Hrep as (H1 & H2 & H3 & [Hb Hb4] & Hrest).
  pose proof (extent_nonneg _ _ _ Hrest) as Hext'. cbn [extent length] in *.
  assert (Hsub : forall o n, 0 <= o -> o + n <= 12 ->
    agree_on (range (a + o) n) m m').
  { intros o n ??. agree_from Hag. }
  split_and!.
  - rewrite <- H1. apply load32_agree; [lia..|].
    specialize (Hsub 0 4). rewrite Z.add_0_r in Hsub. apply Hsub; lia.
  - rewrite <- H2. apply load32_agree; [lia..|]. apply Hsub; lia.
  - rewrite <- H3. apply load8_agree; [unfold is_u32; lia|]. apply Hsub; lia.
  - done.
  - apply IH; [lia..| |done]. agree_from Hag.
Qed.

(** ** [kmalloc] refines [alloc_blocks] *)

Lemma take_block_rep m a b rest :
  0 <= a -> a + extent (b :: rest) < 4294967296 ->
  heap_rep m a (b :: rest) ->
  heap_rep (set_is_free a 0 m) a (Block (bsize b) false :: rest) /\
  agree_on (fun x => x < a \/ a + 12 <= x) m (set_is_free a 0 m).
Proof.
  intros Ha Hend Hrep. pose proof (extent_nonneg _ _ _ Hrep) as He.
  destruct Hrep as (H1 & H2 & H3 & Hb & Hrest).
  pose proof (extent_nonneg _ _ _ Hrest). pose proof (proj1 Hb). cbn [extent length] in *.
  unfold set_is_free. rewrite (u32_id (a + 8)) by (unfold is_u32; lia).
  assert (Hag : agree_on (fun x => x <> a + 8) m (store8 m (a + 8) 0)).
  { apply store8_frame; [unfold is_u32; lia | done]. }
  split; [cbn [heap_rep bsize bfree]; split_and!|].
  - by mem_simpl.
  - by mem_simpl.
  - by mem_simpl.
  - done.
  - apply heap_rep_agree with m; [lia..| |done].
    agree_from Hag.
  - agree_from Hag.
Qed.

Lemma split_block_rep m a b rest size :
  16 <= a -> a + extent (b :: rest) < 4294967296 ->
  heap_rep m a (b :: rest) -> 0 <= size -> (4 | size) -> size + 16 < bsize b ->
  heap_rep (split_block a size m) a
    (Block size (bfree b) :: Block (bsize b - size - 12) true :: rest) /\
  agree_on (fun x => x < a \/ a + 12 + bsize b <= x) m (split_block a size m).
Proof.
  intros Ha Hend Hrep Hs Hs4 Hlt.
  destruct Hrep as (H1 & H2 & H3 & [Hb Hb4] & Hrest).
  pose proof (extent_nonneg _ _ _ Hrest). cbn [extent length] in *.
  unfold split_block, set_is_free, set_next, set_size, hdr_next, hdr_size, sizeof_header.
  rewrite (u32_id (a + 12)), (u32_id (a + 12 + size)) by (unfold is_u32; lia).
  set (c := a + 12 + size).
  rewrite (u32_id (a + 4)), (u32_id (c + 4)), (u32_id (c + 8)) by (unfold c, is_u32; lia).
  assert (Hc : c = a + 12 + size) by done. clearbody c.
  rewrite H1, (u32_id (bsize b - size)), (u32_id (bsize b - size - 12)) by (unfold is_u32; lia).
  set (m' := store32 _ (a + 4) _).
  assert (Hag : agree_on (fun x => x < a \/ a + 12 + bsize b <= x) m m').
  { unfold m'. repeat (etransitivity; [|first [apply store32_frame | apply store8_frame];
      unfold is_u32, range; lia]). reflexivity. }
  split; [|done]. unfold m' in *; clear m'. cbn [heap_rep bsize bfree].
  split_and!.
  - mem_simpl. apply u32_id. unfold is_u32. lia.
  - mem_simpl. rewrite Hc. apply u32_id. unfold is_u32. lia.
  - mem_simpl. done.
  - cbn. done.
  - replace (a + 12 + size) with c. mem_simpl. apply u32_id. unfold is_u32. lia.
  - replace (a + 12 + size) with c. mem_simpl. rewrite H2. destruct rest; [done|].
    cbn [extent length] in *. rewrite u32_id by (unfold is_u32; lia). lia.
  - replace (a + 12 + size) with c. by mem_simpl.
  - split; cbn; [lia|]. repeat apply Z.divide_sub_r; [done..|by exists 3].
  - replace (a + 12 + size + 12 + (bsize b - size - 12)) with (a + 12 + bsize b) by lia.
    apply heap_rep_agree with m; [lia..| |done].
    agree_from Hag.
Qed.

(** The address the loop is at when [bs] remain from address [a]. *)
Definition cursor (a : Z) (bs : list block) : Z :=
  match bs with [] => 0 | _ => a end.

Lemma used_payloads_range m a bs p n :
  heap_rep m a bs -> (p, n) ∈ used_payloads a bs ->
  a + 12 <= p /\ 0 <= n /\ p + n <= a + extent bs.
Proof.
  revert a. induction bs as [|b rest IH]; intros a; cbn [used_payloads]; [set_solver|].
  intros (_ & _ & _ & [Hb _] & Hrest) Hin.
  pose proof (extent_nonneg _ _ _ Hrest). cbn [extent].
  apply elem_of_app in Hin as [Hin|Hin].
  - destruct (bfree b); [set_solver|]. apply list_elem_of_singleton in Hin. simplify_eq. lia.
  - apply IH in Hin; [lia|done].
Qed.

(** The bytes an allocation keeps: everything outside the heap, and every
    payload in use. *)
Definition kept (a : Z) (bs : list block) (x : Z) : Prop :=
  x < a \/ a + extent bs <= x \/ in_used a bs x.

Lemma kept_free_head m a b rest x :
  heap_rep m a (b :: rest) -> bfree b = true -> kept a (b :: rest) x ->
  x < a \/ a + 12 + bsize b <= x.
Proof.
  intros (_ & _ & _ & [Hb _] & Hrest) Hfree [Hx|[Hx|(p & n & Hin & Hx)]].
  - lia.
  - pose proof (extent_nonneg _ _ _ Hrest). cbn [extent] in Hx. lia.
  - cbn [used_payloads] in Hin. rewrite Hfree in Hin. cbn in Hin.
    eapply used_payloads_range in Hin; [|done]. unfold range in Hx. lia.
Qed.

Lemma kept_tail m a b rest x :
  heap_rep m a (b :: rest) -> kept a (b :: rest) x -> kept (a + 12 + bsize b) rest x.
Proof.
  intros (_ & _ & _ & [Hb _] & _) [Hx|[Hx|(p & n & Hin & Hx)]].
  - left. lia.
  - right; left. cbn [extent] in Hx. lia.
  - cbn [used_payloads] in Hin. apply elem_of_app in Hin as [Hin|Hin].
    + destruct (bfree b); [set_solver|]. apply list_elem_of_singleton in Hin.
      simplify_eq. unfold range in Hx. left. lia.
    + right; right. by exists p, n.
Qed.

(** Changing only the tail of the list keeps the head block represented. *)
Lemma heap_rep_new_tail m m' a b rest rest' :
  0 <= a -> a + 12 <= 4294967296 ->
  heap_rep m a (b :: rest) -> (rest = [] <-> rest' = []) ->
  agree_on (range a 12) m m' -> heap_rep m' (a + 12 + bsize b) rest' ->
  heap_rep m' a (b :: rest').
Proof.
  intros Ha Hend (H1 & H2 & H3 & Hb & _) Hnil Hag Hrest. split_and!; try done.
  - rewrite <- H1. apply load32_agree; [lia..|]. agree_from Hag.
  - transitivity (load32 m (a + 4)); [apply load32_agree; [lia..|]; agree_from Hag|].
    rewrite H2.
    destruct rest, rest'; try done; by destruct Hnil as [Hn Hn']; first [discriminate Hn | discriminate Hn'].
  - rewrite <- H3. apply load8_agree; [unfold is_u32; lia|]. agree_from Hag.
Qed.

(** Taking the (fitting, free) head block. *)
Lemma kmalloc_take_head m a b rest size :
  16 <= a -> a + extent (b :: rest) < 4294967296 -> heap_rep m a (b :: rest) ->
  bfree b = true -> 0 <= size <= bsize b -> (4 | size) ->
  let m' := set_is_free a 0 (if size + 16 <? bsize b then split_block a size m else m) in
  heap_rep m' a (if size + 16 <? bsize b
                 then Block size false :: Block (bsize b - size - 12) true :: rest
                 else Block (bsize b) false :: rest) /\
  agree_on (kept a (b :: rest)) m m'.
Proof.
  intros Ha Hend Hrep Hfree Hs Hs4.
  assert (Hkept : forall x, kept a (b :: rest) x -> x < a \/ a + 12 + bsize b <= x)
    by eauto using kept_free_head.
  assert (Hb : 0 <= bsize b) by lia.
  destruct (Z.ltb_spec (size + 16) (bsize b)) as [Hlt|Hge].
  - destruct (split_block_rep m a b rest size) as [Hsp Hag]; [done|done|done|lia|done|lia|].
    apply take_block_rep in Hsp as [Hsp Hag']; [|cbn [extent bsize] in *; lia..].
    split; [done|].
    etransitivity; [eapply agree_on_weaken, Hag|eapply agree_on_weaken, Hag'];
      intros x Hx%Hkept; cbn beta; lia.
  - apply take_block_rep in Hrep as [Hsp Hag']; [|cbn [extent] in *; lia..].
    split; [done|]. eapply agree_on_weaken, Hag'. intros x Hx%Hkept. cbn beta. lia.
Qed.

Lemma kmalloc_loop_spec bs : forall a m fuel size,
  16 <= a -> a + extent bs < 4294967296 -> heap_rep m a bs ->
  0 <= size -> (4 | size) -> (length bs < fuel)%nat ->
  match alloc_blocks size a bs with
  | None => kmalloc_loop fuel size (cursor a bs) m = Some (0, m)
  | Some (p, bs') => exists m',
      kmalloc_loop fuel size (cursor a bs) m = Some (p, m') /\
      heap_rep m' a bs' /\ agree_on (kept a bs) m m'
  end.
Proof.
  induction bs as [|b rest IH]; intros a m fuel size Ha Hend Hrep Hs Hs4 Hf;
    (destruct fuel as [|fuel]; [cbn in Hf; lia|]); [done|].
  pose proof Hrep as (H1 & H2 & H3 & [Hb Hb4] & Hrest).
  pose proof (extent_nonneg _ _ _ Hrest) as He. pose proof Hend as Hend'.
  cbn [cursor kmalloc_loop alloc_blocks]. cbn [extent] in Hend'.
  rewrite (proj2 (Z.eqb_neq a 0)) by lia.
  destruct (hdr_fields m a) as [-> ->]; [lia..|]. unfold hdr_size, sizeof_header.
  rewrite H1, H2, H3.
  replace (negb ((if bfree b then 1 else 0) =? 0)) with (bfree b) by by destruct (bfree b).
  destruct (bfree b && (size <=? bsize b)) eqn:Hfit.
  - apply andb_true_iff in Hfit as [Hfree Hle%Z.leb_le].
    rewrite (u32_id (a + 12)), (u32_id (size + 12)), (u32_id (size + 12 + 4))
      by (unfold is_u32; lia).
    replace (size + 12 + 4) with (size + 16) by lia.
    eexists. split; [reflexivity|]. by apply kmalloc_take_head.
  - assert (Hlen : (length rest < fuel)%nat) by (cbn in Hf; lia).
    specialize (IH (a + 12 + bsize b) m fuel size ltac:(lia) ltac:(lia) Hrest Hs Hs4 Hlen).
    destruct (alloc_blocks size (a + 12 + bsize b) rest) as [[p rest']|] eqn:Hal; [|done].
    destruct IH as (m' & Hrun & Hrep' & Hag). exists m'. split; [exact Hrun|].
    apply alloc_blocks_nonempty in Hal. split.
    + apply heap_rep_new_tail with m rest; [lia..|done|tauto| |done].
      eapply agree_on_weaken, Hag. unfold range, kept. lia.
    + eapply agree_on_weaken, Hag. eauto using kept_tail.
Qed.

(** ** [kfree] refines [free_blocks] *)

(** The merge with a free successor [c] of the block at [a]. *)
Lemma kfree_merge_rep m a b c rest :
  16 <= a -> a + extent (b :: c :: rest) < 4294967296 ->
  heap_rep m a (b :: c :: rest) -> bfree b = true ->
  let m' := set_next a (hdr_next m (a + 12 + bsize b))
              (set_size a (bsize b ⊕ (bsize c ⊕ 12)) m) in
  heap_rep m' a (Block (bsize b + (bsize c + 12)) true :: rest) /\
  agree_on (fun x => ~ range a 12 x) m m'.
Proof.
  intros Ha Hend (H1 & H2 & H3 & [Hb Hb4] & (C1 & C2 & C3 & [Hc Hc4] & Hrest)) Hfree.
  pose proof (extent_nonneg _ _ _ Hrest) as He. cbn [extent] in Hend.
  destruct (hdr_fields m (a + 12 + bsize b)) as [-> _]; [lia..|].
  rewrite C2, (u32_id (bsize c + 12)), u32_id by (unfold is_u32; lia).
  unfold set_next, set_size. rewrite (u32_id (a + 4)) by (unfold is_u32; lia).
  set (v := match rest with [] => 0 | _ => _ end).
  assert (Hv : is_u32 v) by (unfold v, is_u32; destruct rest; cbn [extent] in *; lia).
  set (m' := store32 _ (a + 4) v). assert (Hag : agree_on (fun x => ~ range a 12 x) m m').
  { unfold m'. repeat (etransitivity; [|apply store32_frame; unfold range; cbn beta; intros; lia]).
    reflexivity. }
  split; [|done]. unfold m'. cbn [heap_rep bsize bfree]. split_and!.
  - mem_simpl. apply u32_id. unfold is_u32. lia.
  - mem_simpl. rewrite u32_id by done. unfold v. destruct rest; [done|lia].
  - mem_simpl. by rewrite H3, Hfree.
  - split; cbn; [lia|]. apply Z.divide_add_r, Z.divide_add_r; [done..|by exists 3].
  - replace (a + 12 + (bsize b + (bsize c + 12)))
      with (a + 12 + bsize b + 12 + bsize c) by lia.
    apply heap_rep_agree with m; [lia..| |done]. agree_from Hag.
Qed.

Lemma hdr_next_set_size m a h v :
  0 <= a -> a + 12 <= 4294967296 -> 0 <= h -> h + 12 <= 4294967296 ->
  h = a \/ a + 12 <= h -> hdr_next (set_size a v m) h = hdr_next m h.
Proof.
  intros. unfold hdr_next, set_size. rewrite (u32_id (h + 4)) by (unfold is_u32; lia).
  by rewrite load32_store32_ne by lia.
Qed.

(** Marking the head block free. *)
Lemma release_block_rep m a b rest :
  0 <= a -> a + extent (b :: rest) < 4294967296 -> heap_rep m a (b :: rest) ->
  heap_rep (set_is_free a 1 m) a (Block (bsize b) true :: rest) /\
  agree_on (fun x => ~ range a 12 x) m (set_is_free a 1 m).
Proof.
  intros Ha Hend Hrep. pose proof (extent_nonneg _ _ _ Hrep) as He.
  destruct Hrep as (H1 & H2 & H3 & Hb & Hrest).
  pose proof (extent_nonneg _ _ _ Hrest). pose proof (proj1 Hb). cbn [extent length] in *.
  unfold set_is_free. rewrite (u32_id (a + 8)) by (unfold is_u32; lia).
  assert (Hag : agree_on (fun x => x <> a + 8) m (store8 m (a + 8) 1)).
  { apply store8_frame; [unfold is_u32; lia | done]. }
  split; [cbn [heap_rep bsize bfree]; split_and!|]; try (by mem_simpl).
  - apply heap_rep_agree with m; [lia..| |done]. agree_from Hag.
  - agree_from Hag.
Qed.

Lemma kfree_head_rep m a b rest :
  16 <= a -> a + extent (b :: rest) < 4294967296 -> heap_rep m a (b :: rest) ->
  heap_rep (kfree (a + 12) m) a (free_blocks (a + 12) a (b :: rest)) /\
  agree_on (fun x => ~ range a 12 x) m (kfree (a + 12) m).
Proof.
  intros Ha Hend Hrep. pose proof (extent_nonneg _ _ _ Hrep) as He.
  pose proof Hrep as (_ & _ & _ & [Hb _] & Hrest).
  pose proof (extent_nonneg _ _ _ Hrest) as He'. pose proof Hend as Hend'.
  cbn [extent length] in He, Hend'.
  destruct (release_block_rep m a b rest) as [Hrel Hag]; [lia|done|done|].
  unfold kfree. rewrite (proj2 (Z.eqb_neq (a + 12) 0)) by lia. unfold sizeof_header.
  replace (a + 12 - 12) with a by lia. rewrite (u32_id a) by (unfold is_u32; lia).
  cbn [free_blocks]. rewrite Z.eqb_refl. set (m1 := set_is_free a 1 m) in *.
  destruct (hdr_fields m1 a) as [Hnext _]; [lia..|]. rewrite Hnext.
  pose proof Hrel as (R1 & R2 & _ & _ & Rrest). cbn [bsize] in R1, R2, Rrest. rewrite R2.
  destruct rest as [|c rest]; [done|]. cbn [extent length] in He', Hend'.
  destruct Hrest as (_ & _ & _ & [Hc _] & Hrest). pose proof (extent_nonneg _ _ _ Hrest).
  rewrite (proj2 (Z.eqb_neq (a + 12 + bsize b) 0)) by lia.
  destruct (hdr_fields m1 (a + 12 + bsize b)) as [_ ->]; [lia..|].
  destruct Rrest as (C1 & _ & C3 & _ & _). rewrite C3. unfold hdr_size. rewrite R1, C1.
  destruct c as [nc [|]]; cbn [bfree bsize Z.eqb negb andb]; [|done]. cbn [bsize] in *.
  destruct (kfree_merge_rep m1 a (Block (bsize b) true) (Block nc true) rest) as [Hm Hag'];
    [done|cbn [extent bsize]; lia|done|done|]. cbn [bsize] in Hm, Hag'.
  rewrite (hdr_next_set_size m1 a a), Hnext, R2 by lia.
  rewrite hdr_next_set_size by lia.
  split; [exact Hm|]. etransitivity; [exact Hag|exact Hag'].
Qed.

Lemma free_blocks_nonempty p a bs : free_blocks p a bs = [] <-> bs = [].
Proof.
  destruct bs as [|b rest]; [done|]. cbn [free_blocks].
  destruct (_ =? _); [|done]. destruct rest as [|[n [|]] rest]; done.
Qed.

Lemma kfree_rep bs : forall a m p n,
  16 <= a -> a + extent bs < 4294967296 -> heap_rep m a bs ->
  (p, n) ∈ used_payloads a bs ->
  heap_rep (kfree p m) a (free_blocks p a bs) /\
  agree_on (fun x => ~ range (p - 12) 12 x) m (kfree p m).
Proof.
  induction bs as [|b rest IH]; intros a m p n Ha Hend Hrep Hin; [set_solver|].
  pose proof Hrep as (_ & _ & _ & [Hb _] & Hrest).
  pose proof (extent_nonneg _ _ _ Hrest) as He. pose proof Hend as Hend'.
  cbn [extent] in Hend'.
  destruct (decide (p = a + 12)) as [->|Hne].
  { replace (a + 12 - 12) with a by lia. by apply kfree_head_rep. }
  assert (Hin' : (p, n) ∈ used_payloads (a + 12 + bsize b) rest).
  { cbn [used_payloads] in Hin. apply elem_of_app in Hin as [Hin|?]; [|done].
    destruct (bfree b); [by apply not_elem_of_nil in Hin|].
    apply list_elem_of_singleton in Hin. congruence. }
  pose proof (used_payloads_range _ _ _ _ _ Hrest Hin') as Hp.
  destruct (IH (a + 12 + bsize b) m p n) as [Hrep' Hag]; [lia|lia|done|done|].
  cbn [free_blocks]. rewrite (proj2 (Z.eqb_neq p (a + 12)) Hne). split; [|done].
  apply heap_rep_new_tail with m rest; [lia..|done| | |done].
  - by rewrite free_blocks_nonempty.
  - agree_from Hag.
Qed.

(** ** Facts about the abstract allocator *)

Lemma extent_alloc size a bs p bs' :
  alloc_blocks size a bs = Some (p, bs') -> extent bs' = extent bs.
Proof.
  revert a bs'. induction bs as [|b rest IH]; intros a bs'; cbn [alloc_blocks]; [done|].
  destruct (_ && _).
  - intros [= <- <-]. destruct (_ <? _); cbn; lia.
  - destruct (alloc_blocks _ _ rest) as [[q rest']|] eqn:E; [|done].
    intros [= <- <-]. apply IH in E. cbn. lia.
Qed.

Lemma extent_free p a bs : extent (free_blocks p a bs) = extent bs.
Proof.
  revert a. induction bs as [|b rest IH]; intros a; cbn [free_blocks]; [done|].
  destruct (_ =? _); [destruct rest as [|[n [|]] rest]; cbn; lia|].
  cbn. by rewrite IH.
Qed.

(** An allocation adds exactly one payload in use. *)
Lemma used_alloc size a bs p bs' :
  alloc_blocks size a bs = Some (p, bs') ->
  exists n, size <= n /\ used_payloads a bs' ≡ₚ (p, n) :: used_payloads a bs.
Proof.
  revert a bs'. induction bs as [|b rest IH]; intros a bs'; cbn [alloc_blocks]; [done|].
  destruct (bfree b && (size <=? bsize b)) eqn:Hfit.
  - apply andb_true_iff in Hfit as [Hfree Hle%Z.leb_le].
    intros [= <- <-]. destruct (_ <? _); cbn [used_payloads bfree bsize app]; rewrite Hfree.
    + exists size. split; [lia|]. cbn [app].
      replace (a + 12 + size + 12 + (bsize b - size - 12)) with (a + 12 + bsize b) by lia. done.
    + exists (bsize b). done.
  - destruct (alloc_blocks _ _ rest) as [[q rest']|] eqn:E; [|done].
    intros [= <- <-]. apply IH in E as (n & Hn & Hperm). exists n. split; [done|].
    cbn [used_payloads]. rewrite Hperm. destruct (bfree b); [done|]. apply Permutation_swap.
Qed.

(** Freeing removes exactly the freed payload. *)
Lemma used_free m a bs p n :
  heap_rep m a bs -> (p, n) ∈ used_payloads a bs ->
  used_payloads a bs ≡ₚ (p, n) :: used_payloads a (free_blocks p a bs).
Proof.
  revert a. induction bs as [|b rest IH]; intros a; cbn [used_payloads free_blocks];
    [set_solver|].
  intros (_ & _ & _ & [Hb _] & Hrest) Hin. destruct (Z.eqb_spec p (a + 12)) as [->|Hne].
  - apply elem_of_app in Hin as [Hin|Hin].
    2:{ apply used_payloads_range with (m := m) in Hin; [lia|done]. }
    destruct (bfree b); [set_solver|]. apply list_elem_of_singleton in Hin. simplify_eq.
    destruct rest as [|[k [|]] rest]; cbn; try done.
    by replace (a + 12 + (bsize b + (k + 12))) with (a + 12 + bsize b + 12 + k) by lia.
  - cbn [used_payloads]. destruct (bfree b); cbn [app] in *; [by apply IH|].
    apply elem_of_cons in Hin as [?|Hin]; [congruence|].
    rewrite (IH _ Hrest Hin). apply Permutation_swap.
Qed.

Lemma used_disjoint m a bs p n q k :
  heap_rep m a bs -> (p, n) ∈ used_payloads a bs -> (q, k) ∈ used_payloads a bs ->
  p <> q -> p + n <= q \/ q + k <= p.
Proof.
  revert a. induction bs as [|b rest IH]; intros a; cbn [used_payloads]; [set_solver|].
  intros (_ & _ & _ & [Hb _] & Hrest) Hp Hq Hne.
  rewrite elem_of_app in Hp, Hq.
  assert (Hhd : forall r l, (r, l) ∈ (if bfree b then [] else [(a + 12, bsize b)]) ->
    r = a + 12 /\ l = bsize b).
  { intros r l Hr. destruct (bfree b); [by apply not_elem_of_nil in Hr|].
    apply list_elem_of_singleton in Hr. by simplify_eq. }
  destruct Hp as [[-> ->]%Hhd|Hp], Hq as [[-> ->]%Hhd|Hq].
  - done.
  - apply used_payloads_range with (m := m) in Hq; [|done]. lia.
  - apply used_payloads_range with (m := m) in Hp; [|done]. lia.
  - by apply (IH _ Hrest).
Qed.

(** Writes confined to payloads in use keep the representation. *)
Lemma heap_rep_client m m' a bs :
  0 <= a -> a + extent bs < 4294967296 -> heap_rep m a bs ->
  agree_on (fun x => a <= x /\ ~ in_used a bs x) m m' -> heap_rep m' a bs.
Proof.
  revert a. induction bs as [|b rest IH]; intros a Ha Hend Hrep Hag; [done|].
  pose proof Hrep as (_ & _ & _ & [Hb _] & Hrest).
  pose proof (extent_nonneg _ _ _ Hrest) as He. pose proof Hend as Hend'.
  cbn [extent] in Hend'.
  apply heap_rep_new_tail with m rest; [lia..|done|done| |].
  - eapply agree_on_weaken, Hag. intros x Hx. unfold range in Hx. split; [lia|].
    intros (p & n & Hin & Hr). apply used_payloads_range with (m := m) in Hin; [|done].
    unfold range in Hr. lia.
  - apply IH; [lia..|done|]. eapply agree_on_weaken, Hag.
    intros x [Hx Hnot]. split; [lia|]. intros (p & n & Hin & Hr). unfold range in Hr.
    cbn [used_payloads] in Hin. apply elem_of_app in Hin as [Hin|Hin].
    + destruct (bfree b); [by apply not_elem_of_nil in Hin|].
      apply list_elem_of_singleton in Hin. simplify_eq. lia.
    + apply Hnot. by exists p, n.
Qed.

(** ** The rounding of a request *)

Lemma align4_val size : align4 size = 4 * ((size ⊕ 3) / 4).
Proof.
  unfold align4. pose proof (u32_range (size + 3)) as Hr. set (x := size ⊕ 3) in *.
  change 4294967292 with (Z.ldiff (Z.ones 32) (Z.ones 2)).
  assert (Z.land x (Z.ldiff (Z.ones 32) (Z.ones 2)) = Z.ldiff (Z.land x (Z.ones 32)) (Z.ones 2))
    as ->.
  { apply Z.bits_inj'. intros i Hi. by rewrite Z.land_spec, !Z.ldiff_spec, Z.land_spec, andb_assoc. }
  rewrite Z.land_ones, Z.mod_small, Z.ldiff_ones_r, Z.shiftl_mul_pow2, Z.shiftr_div_pow2
    by (try done; unfold is_u32 in Hr; lia).
  change (2 ^ 2) with 4. lia.
Qed.

Lemma align4_ok size : 0 <= align4 size /\ (4 | align4 size).
Proof.
  rewrite align4_val. pose proof (u32_range (size + 3)) as Hr. unfold is_u32 in Hr.
  split; [pose proof (Z.div_pos (size ⊕ 3) 4); lia|]. by exists ((size ⊕ 3) / 4); lia.
Qed.

Lemma align4_bounds size : 0 <= size <= 4294967292 -> size <= align4 size < size + 4.
Proof. intros H. rewrite align4_val. word. Qed.

(** ** The operations on the heap invariant *)

Lemma heap_init_inv hs total m :
  16 <= hs -> (4 | hs) -> 12 <= total <= 1048576 -> (4 | total) ->
  hs + total < 4294967296 ->
  heap_inv hs total (heap_init hs total m).2 [Block (total - 12) true].
Proof.
  intros Ha Ha4 Ht Ht4 Hend. split; try done; [lia|cbn; lia|].
  unfold heap_init, set_is_free, set_next, set_size, sizeof_header. cbn [snd].
  rewrite (u32_id (hs + 8)), (u32_id (hs + 4)), (u32_id (total - 12)) by (unfold is_u32; lia).
  cbn [heap_rep bsize bfree]. split_and!; [..|done].
  - mem_simpl. apply u32_id. unfold is_u32. lia.
  - by mem_simpl.
  - by mem_simpl.
  - split; cbn; [lia|]. apply Z.divide_sub_r; [done|by exists 3].
Qed.

Lemma heap_inv_fuel hs total m bs : heap_inv hs total m bs -> (length bs < heap_fuel)%nat.
Proof.
  intros [_ _ _ Ht _ <- Hrep]. apply extent_nonneg in Hrep. unfold heap_fuel. lia.
Qed.

(** Memory stays a memory of bytes. *)
Lemma kmalloc_bytes hs size m p m' : mem_bytes m -> kmalloc hs size m = Some (p, m') -> mem_bytes m'.
Proof.
  unfold kmalloc. intros Hm. destruct (_ =? 0); [by intros [= _ <-]|]. generalize (align4 size) as sz, hs as a. intros sz.
  induction heap_fuel as [|n IH]; intros a; cbn [kmalloc_loop]; [done|]. destruct (_ =? 0); [by intros [= _ <-]|].
  destruct (_ && _); [|apply IH]. intros [= _ <-]. unfold split_block, set_is_free, set_next, set_size.
  destruct (_ <? _); auto 10 with mx.
Qed.

Lemma kfree_bytes p m : mem_bytes m -> mem_bytes (kfree p m).
Proof.
  intros Hm. unfold kfree, set_is_free, set_next, set_size. destruct (_ =? 0); [done|]. destruct (_ && _); auto 10 with mx.
Qed.

Lemma kmalloc_inv hs total m bs size :
  heap_inv hs total m bs ->
  match alloc_blocks (align4 size) hs bs with
  | None => kmalloc hs size m = Some (0, m)
  | Some (p, bs') => exists m', kmalloc hs size m = Some (p, m') /\
      heap_inv hs total m' bs' /\ agree_on (kept hs bs) m m'
  end.
Proof.
  intros Hinv. pose proof (heap_inv_fuel _ _ _ _ Hinv) as Hf.
  destruct Hinv as [Ha Ha4 Hend Ht Hne Hext Hrep]. destruct (align4_ok size) as [Hs Hs4].
  unfold kmalloc. rewrite (proj2 (Z.eqb_neq hs 0)) by lia.
  pose proof (kmalloc_loop_spec bs hs m heap_fuel (align4 size) Ha ltac:(lia) Hrep Hs Hs4 Hf) as H.
  assert (Hc : cursor hs bs = hs) by (by destruct bs). rewrite Hc in H.
  destruct (alloc_blocks _ _ _) as [[p bs']|] eqn:E; [|done].
  destruct H as (m' & -> & Hrep' & Hag). exists m'. split; [done|]. split; [|done].
  pose proof (extent_alloc _ _ _ _ _ E). apply alloc_blocks_nonempty in E.
  split; try done; [tauto|lia].
Qed.

Lemma kfree_inv hs total m bs p n :
  heap_inv hs total m bs -> (p, n) ∈ used_payloads hs bs ->
  heap_inv hs total (kfree p m) (free_blocks p hs bs) /\
  agree_on (fun x => ~ range (p - 12) 12 x) m (kfree p m).
Proof.
  intros [Ha Ha4 Hend Ht Hne Hext Hrep] Hin.
  destruct (kfree_rep bs hs m p n) as [Hrep' Hag]; [done|lia|done|done|].
  split; [|done]. split; try done; [by rewrite free_blocks_nonempty|by rewrite extent_free].
Qed.

Lemma heap_inv_client hs total m m' bs :
  heap_inv hs total m bs -> agree_on (fun x => ~ in_used hs bs x) m m' ->
  heap_inv hs total m' bs.
Proof.
  intros [Ha Ha4 Hend Ht Hne Hext Hrep] Hag. split; try done.
  apply heap_rep_client with m; [lia|lia|done|]. eapply agree_on_weaken, Hag. tauto.
Qed.

(** ** [heap_stats] *)

Fixpoint total_size (free : bool) (bs : list block) : Z :=
  match bs with
  | [] => 0
  | b :: rest => (if Bool.eqb (bfree b) free then bsize b else 0) + total_size free rest
  end.

Lemma total_size_nonneg m a bs f : heap_rep m a bs -> 0 <= total_size f bs.
Proof.
  revert a. induction bs as [|b rest IH]; intros a; cbn [total_size]; [done|].
  intros (_ & _ & _ & [Hb _] & Hr%IH). destruct (Bool.eqb _ _); lia.
Qed.

Lemma total_size_extent bs :
  total_size false bs + total_size true bs + 12 * Z.of_nat (length bs) = extent bs.
Proof.
  induction bs as [|b rest IH]; cbn [total_size extent length]; [done|].
  destruct (bfree b); cbn [Bool.eqb]; lia.
Qed.

Lemma heap_stats_loop_spec bs : forall a m fuel u f,
  16 <= a -> a + extent bs < 4294967296 -> heap_rep m a bs -> (length bs < fuel)%nat ->
  0 <= u -> 0 <= f -> u + total_size false bs < 4294967296 ->
  f + total_size true bs < 4294967296 ->
  heap_stats_loop fuel (cursor a bs) u f m =
  Some (u + total_size false bs, f + total_size true bs).
Proof.
  induction bs as [|b rest IH]; intros a m fuel u f Ha Hend Hrep Hf Hu Hf0 Hub Hfb;
    (destruct fuel as [|fuel]; [cbn in Hf; lia|]).
  { cbn. by rewrite !Z.add_0_r. }
  pose proof Hrep as (H1 & H2 & H3 & [Hb _] & Hrest).
  pose proof (extent_nonneg _ _ _ Hrest) as He. cbn [extent] in Hend.
  pose proof (total_size_nonneg _ _ _ false Hrest). pose proof (total_size_nonneg _ _ _ true Hrest).
  assert (Hlen : (length rest < fuel)%nat) by (cbn in Hf; lia).
  specialize (IH (a + 12 + bsize b) m fuel). cbn [cursor heap_stats_loop].
  rewrite (proj2 (Z.eqb_neq a 0)) by lia.
  destruct (hdr_fields m a) as [-> ->]; [lia..|]. unfold hdr_size. rewrite H1, H2, H3.
  cbn [total_size] in *. destruct (bfree b); cbn [Bool.eqb Z.eqb negb] in *.
  - rewrite (u32_id (f + bsize b)) by (unfold is_u32; lia).
    etransitivity; [apply IH; lia || done|]. f_equal. f_equal; lia.
  - rewrite (u32_id (u + bsize b)) by (unfold is_u32; lia).
    etransitivity; [apply IH; lia || done|]. f_equal. f_equal; lia.
Qed.

(** ** Undoing an allocation *)

(** No two adjacent free blocks. *)
Fixpoint coalesced (bs : list block) : Prop :=
  match bs with
  | b :: (c :: _) as rest => ~ (bfree b = true /\ bfree c = true) /\ coalesced rest
  | _ => True
  end.

Lemma coalesced_tail b rest : coalesced (b :: rest) -> coalesced rest.
Proof. destruct rest; cbn; tauto. Qed.

Lemma alloc_range size a bs p bs' : Forall block_ok bs ->
  alloc_blocks size a bs = Some (p, bs') -> a + 12 <= p.
Proof.
  intros Hok. revert a bs'. induction Hok as [|b rest [Hb _] _ IH]; intros a bs';
    cbn [alloc_blocks]; [done|].
  destruct (_ && _); [intros [= <- _]; lia|].
  destruct (alloc_blocks _ _ rest) as [[q rest']|] eqn:E; [|done].
  intros [= <- _]. apply IH in E. lia.
Qed.

Lemma free_alloc size a bs p bs' : Forall block_ok bs -> coalesced bs ->
  alloc_blocks size a bs = Some (p, bs') -> free_blocks p a bs' = bs.
Proof.
  intros Hok. revert a bs'. induction Hok as [|b rest [Hb _] Hrest IH]; intros a bs' Hco;
    cbn [alloc_blocks]; [done|].
  destruct (bfree b && (size <=? bsize b)) eqn:Hfit.
  - apply andb_true_iff in Hfit as [Hfree _]. intros [= <- <-].
    destruct b as [n [|]]; [|done]. cbn [bsize bfree] in *.
    destruct (_ <? _); cbn [free_blocks bsize]; rewrite Z.eqb_refl.
    + do 2 f_equal. lia.
    + destruct rest as [|[k [|]] rest]; try done. cbn in Hco. tauto.
  - destruct (alloc_blocks _ _ rest) as [[q rest']|] eqn:E; [|done].
    intros [= <- <-]. pose proof (alloc_range _ _ _ _ _ Hrest E) as Hq.
    cbn [free_blocks]. rewrite (proj2 (Z.eqb_neq q (a + 12))) by lia.
    f_equal. apply IH; [by eapply coalesced_tail|done].
Qed.

Lemma heap_rep_ok m a bs : heap_rep m a bs -> Forall block_ok bs.
Proof.
  revert a. induction bs as [|b rest IH]; intros a; [constructor|].
  intros (_ & _ & _ & Hb & Hr%IH). by constructor.
Qed.

Lemma alloc_blocks_None size a bs :
  alloc_blocks size a bs = None <->
  Forall (fun b => bfree b = true -> bsize b < size) bs.
Proof.
  revert a. induction bs as [|b rest IH]; intros a; cbn [alloc_blocks]; [by split|].
  rewrite Forall_cons. destruct (bfree b && (size <=? bsize b)) eqn:Hfit.
  - apply andb_true_iff in Hfit as [Hfree Hle%Z.leb_le].
    split; [done|]. intros [Hlt _]. specialize (Hlt Hfree). lia.
  - rewrite <- (IH (a + 12 + bsize b)).
    destruct (alloc_blocks _ _ rest) as [[q rest']|]; [by split; [|intros [_ ?]]|].
    split; [|done]. intros _. split; [|done]. intros Hfree. rewrite Hfree in Hfit.
    cbn in Hfit. lia.
Qed.

(** ** Traces of heap operations

    [heap_reach hs total m live]: memory [m] is reachable from [heap_init] by
    allocations, releases of live payloads and arbitrary writes inside live
    payloads; [live] maps each live payload to the size that was asked for. *)
Inductive heap_reach (hs total : Z) : memory -> gmap Z Z -> Prop :=
  | reach_init m :
      heap_reach hs total (heap_init hs total m).2 ∅
  | reach_kmalloc m live size p m' :
      heap_reach hs total m live -> kmalloc hs size m = Some (p, m') -> p <> 0 ->
      heap_reach hs total m' (<[p := align4 size]> live)
  | reach_kmalloc_null m live size m' :
      heap_reach hs total m live -> kmalloc hs size m = Some (0, m') ->
      heap_reach hs total m' live
  | reach_kfree m live p :
      heap_reach hs total m live -> is_Some (live !! p) ->
      heap_reach hs total (kfree p m) (delete p live)
  | reach_write m live m' :
      heap_reach hs total m live ->
      agree_on (fun x => ~ exists p n, live !! p = Some n /\ range p n x) m m' ->
      heap_reach hs total m' live.

(** Every live payload is (part of) a payload in use. *)
Definition tracks (hs : Z) (bs : list block) (live : gmap Z Z) : Prop :=
  forall p n, live !! p = Some n ->
  exists k, n <= k /\ (p, k) ∈ used_payloads hs bs.

Lemma used_aligned m a bs p n : (4 | a) ->
  heap_rep m a bs -> (p, n) ∈ used_payloads a bs -> (4 | p).
Proof.
  revert a. induction bs as [|b rest IH]; intros a Ha; cbn [used_payloads]; [set_solver|].
  intros (_ & _ & _ & [_ Hb4] & Hrest) Hin.
  assert (H12 : (4 | a + 12)) by (apply Z.divide_add_r; [done|by exists 3]).
  apply elem_of_app in Hin as [Hin|Hin].
  - destruct (bfree b); [by apply not_elem_of_nil in Hin|].
    apply list_elem_of_singleton in Hin. by simplify_eq.
  - apply (IH (a + 12 + bsize b)); [by apply Z.divide_add_r|done|done].
Qed.

Lemma used_bounds hs total m bs p n :
  heap_inv hs total m bs -> (p, n) ∈ used_payloads hs bs ->
  hs + 12 <= p /\ 0 <= n /\ p + n <= hs + total /\ (4 | p).
Proof.
  intros [_ Ha4 _ _ _ <- Hrep] Hin.
  pose proof (used_payloads_range _ _ _ _ _ Hrep Hin). split_and!; [lia..|].
  by eapply used_aligned.
Qed.

Lemma tracks_alloc hs bs bs' live p n size :
  tracks hs bs live -> size <= n ->
  used_payloads hs bs' ≡ₚ (p, n) :: used_payloads hs bs ->
  tracks hs bs' (<[p := size]> live).
Proof.
  intros Ht Hn Hperm q k. rewrite lookup_insert_Some. setoid_rewrite Hperm.
  intros [[<- <-]|[_ Hq]].
  - exists n. split; [done|]. apply list_elem_of_here.
  - destruct (Ht q k Hq) as (k' & ? & Hin). exists k'. split; [done|].
    by apply list_elem_of_further.
Qed.

Lemma tracks_free hs total m bs live p n :
  heap_inv hs total m bs -> tracks hs bs live -> (p, n) ∈ used_payloads hs bs ->
  tracks hs (free_blocks p hs bs) (delete p live).
Proof.
  intros Hinv Ht Hin q k. rewrite lookup_delete_Some. intros [Hne Hq].
  destruct (Ht q k Hq) as (k' & ? & Hin'). exists k'. split; [done|].
  rewrite (used_free _ _ _ _ _ (hi_rep _ _ _ _ Hinv) Hin) in Hin'.
  apply elem_of_cons in Hin' as [[= -> ->]|?]; done.
Qed.

Lemma heap_reach_inv hs total m live :
  16 <= hs -> (4 | hs) -> 12 <= total <= 1048576 -> (4 | total) ->
  hs + total < 4294967296 -> heap_reach hs total m live ->
  exists bs, heap_inv hs total m bs /\ tracks hs bs live.
Proof.
  intros ?????. induction 1 as [m|m live size p m' _ (bs & Hinv & Ht) Hk Hp
    |m live size m' _ (bs & Hinv & Ht) Hk|m live p _ (bs & Hinv & Ht) [n Hp]
    |m live m' _ (bs & Hinv & Ht) Hag].
  - eexists. split; [by apply heap_init_inv|]. intros p n Hp. by rewrite lookup_empty in Hp.
  - pose proof (kmalloc_inv hs total m bs size Hinv) as H'.
    destruct (alloc_blocks _ _ _) as [[q bs']|] eqn:E; [|congruence].
    destruct H' as (m2 & Hk' & Hinv' & _). simplify_eq. exists bs'. split; [done|].
    apply used_alloc in E as (n & Hn & Hperm). by eapply tracks_alloc.
  - pose proof (kmalloc_inv hs total m bs size Hinv) as H'.
    destruct (alloc_blocks _ _ _) as [[q bs']|] eqn:E.
    + destruct H' as (m2 & Hk' & Hinv' & _). simplify_eq. exfalso.
      apply alloc_range in E; [lia|]. eapply heap_rep_ok, hi_rep, Hinv.
    + simplify_eq. by exists bs.
  - destruct (Ht p n Hp) as (k & _ & Hin).
    exists (free_blocks p hs bs). split; [by eapply kfree_inv|by eapply tracks_free].
  - exists bs. split; [|done]. eapply heap_inv_client; [done|].
    eapply agree_on_weaken, Hag. intros x Hx (p & n & Hl & Hr). apply Hx.
    destruct (Ht p n Hl) as (k & ? & Hin). exists p, k. split; [done|].
    unfold range in *. lia.
Qed.

(** * Properties *)

(** The heap [main_entry] sets up: 1 MiB from 1 MiB, over zeroed memory. *)
Definition boot_memory : memory := (heap_init 1048576 1048576 (fun _ => 0)).2.
Definition boot_blocks : list block := [Block 1048564 true].

Lemma boot_heap_inv : heap_inv 1048576 1048576 boot_memory boot_blocks.
Proof.
  apply (heap_init_inv 1048576 1048576 (fun _ => 0));
    [done|by exists 262144|done|by exists 262144|done].
Qed.

(** C2: [kmalloc] is a correct first-fit allocator.  On a well-formed heap and
    a request whose rounding does not overflow it always returns (the list
    walk ends), the heap stays well-formed, and either it returns [NULL]
    because every free block is too small, leaving memory untouched, or it
    returns a 4-aligned payload of at least [size] bytes inside the heap that
    overlaps no payload in use, following the abstract first-fit allocator,
    and changes no byte outside the heap or inside a payload in use. *)
Theorem kmalloc_correct hs total m bs size :
  heap_inv hs total m bs -> 0 <= size <= 4294967292 ->
  exists p m' bs', kmalloc hs size m = Some (p, m') /\ heap_inv hs total m' bs' /\
  ((p = 0 /\ m' = m /\ bs' = bs /\
    Forall (fun b => bfree b = true -> bsize b < align4 size) bs) \/
   (p <> 0 /\ (4 | p) /\ alloc_blocks (align4 size) hs bs = Some (p, bs') /\
    agree_on (kept hs bs) m m' /\
    exists n, size <= n /\ hs + 12 <= p /\ p + n <= hs + total /\
      used_payloads hs bs' ≡ₚ (p, n) :: used_payloads hs bs /\
      forall q k, (q, k) ∈ used_payloads hs bs -> q <> p -> p + n <= q \/ q + k <= p)).
Proof.
  intros Hinv Hs. pose proof (align4_bounds size Hs) as Hal.
  pose proof (kmalloc_inv hs total m bs size Hinv) as H.
  destruct (alloc_blocks _ _ _) as [[p bs']|] eqn:E.
  - destruct H as (m' & Hk & Hinv' & Hag). exists p, m', bs'. split_and!; [done..|right].
    destruct (used_alloc _ _ _ _ _ E) as (n & Hn & Hperm).
    assert (Hin : (p, n) ∈ used_payloads hs bs') by (rewrite Hperm; apply list_elem_of_here).
    destruct (used_bounds _ _ _ _ _ _ Hinv' Hin) as (? & ? & ? & ?).
    pose proof (hi_start _ _ _ _ Hinv). split_and!; try done; [lia|].
    exists n. split_and!; [lia..|done|]. intros q k Hq Hne.
    apply (used_disjoint m' hs bs'); [apply Hinv'|done|rewrite Hperm|done].
    by apply list_elem_of_further.
  - exists 0, m, bs. split_and!; [done..|left]. by rewrite <- (alloc_blocks_None _ hs).
Qed.

Lemma kmalloc_correct_witness :
  exists p m' bs', kmalloc 1048576 4096 boot_memory = Some (p, m') /\
    heap_inv 1048576 1048576 m' bs' /\ p = 1048588.
Proof.
  destruct (kmalloc_correct 1048576 1048576 boot_memory boot_blocks 4096 boot_heap_inv)
    as (p & m' & bs' & Hk & Hinv & [(_ & _ & _ & H)|(_ & _ & H & _)]); [lia|..].
  - exfalso. apply Forall_cons in H as [H _]. specialize (H eq_refl). vm_compute in H. done.
  - exists p, m', bs'. split_and!; [done..|]. vm_compute in H. congruence.
Defined.

(** C3: [kfree] of a payload in use keeps the heap well-formed, frees exactly
    that payload (merging it with a free successor as the abstract allocator
    does), and writes nothing but the twelve bytes of its own header. *)
Theorem kfree_correct hs total m bs p n :
  heap_inv hs total m bs -> (p, n) ∈ used_payloads hs bs ->
  heap_inv hs total (kfree p m) (free_blocks p hs bs) /\
  used_payloads hs bs ≡ₚ (p, n) :: used_payloads hs (free_blocks p hs bs) /\
  agree_on (fun x => ~ range (p - 12) 12 x) m (kfree p m).
Proof.
  intros Hinv Hin. destruct (kfree_inv _ _ _ _ _ _ Hinv Hin) as [Hinv' Hag].
  split_and!; [done| |done]. eapply used_free, Hin. apply Hinv.
Qed.

(** A heap with one 4096-byte payload in use, as after the first [create_task]. *)
Definition busy_memory : memory :=
  match kmalloc 1048576 4096 boot_memory with Some (_, m) => m | None => boot_memory end.
Definition busy_blocks : list block := [Block 4096 false; Block 1044456 true].

Lemma busy_heap_inv : heap_inv 1048576 1048576 busy_memory busy_blocks.
Proof.
  pose proof (kmalloc_inv _ _ _ _ 4096 boot_heap_inv) as H.
  assert (E : alloc_blocks (align4 4096) 1048576 boot_blocks = Some (1048588, busy_blocks))
    by (vm_compute; reflexivity).
  rewrite E in H. destruct H as (m' & Hk & Hinv & _). unfold busy_memory. by rewrite Hk.
Qed.

Lemma kfree_correct_witness :
  (1048588, 4096) ∈ used_payloads 1048576 busy_blocks /\
  heap_inv 1048576 1048576 (kfree 1048588 busy_memory) boot_blocks.
Proof.
  assert (Hin : (1048588, 4096) ∈ used_payloads 1048576 busy_blocks)
    by (vm_compute; apply list_elem_of_here).
  split; [exact Hin|].
  exact (proj1 (kfree_correct _ _ _ _ _ _ busy_heap_inv Hin)).
Defined.

(** C4: over any sequence of [kmalloc], [kfree] of live payloads and writes
    inside live payloads, starting from [heap_init], the heap stays
    well-formed and no two live allocations ever overlap or leave the heap. *)
Theorem heap_trace_safe hs total m live :
  16 <= hs -> (4 | hs) -> 12 <= total <= 1048576 -> (4 | total) ->
  hs + total < 4294967296 -> heap_reach hs total m live ->
  (exists bs, heap_inv hs total m bs) /\
  (forall p n, live !! p = Some n -> hs + 12 <= p /\ p + n <= hs + total /\ (4 | p)) /\
  (forall p n q k, live !! p = Some n -> live !! q = Some k -> p <> q ->
    p + n <= q \/ q + k <= p).
Proof.
  intros ????? Hr. destruct (heap_reach_inv hs total m live) as (bs & Hinv & Ht); [done..|].
  split_and!; [by exists bs|..].
  - intros p n (k & Hk & Hin)%Ht. destruct (used_bounds _ _ _ _ _ _ Hinv Hin) as (?&?&?&?).
    split_and!; [lia..|done].
  - intros p n q k (n' & Hn & Hin)%Ht (k' & Hk & Hin')%Ht Hne.
    destruct (used_disjoint _ _ _ _ _ _ _ (hi_rep _ _ _ _ Hinv) Hin Hin' Hne); lia.
Qed.

Lemma heap_trace_safe_witness :
  exists bs, heap_inv 1048576 1048576 (heap_init 1048576 1048576 (fun _ => 0)).2 bs.
Proof.
  apply (heap_trace_safe 1048576 1048576 _ ∅);
    [done|by exists 262144|done|by exists 262144|done|apply reach_init].
Defined.

(** Releasing a fresh allocation undoes it.  When no two free blocks are
    adjacent, [kmalloc] followed by [kfree] of its result gives back exactly
    the same block list: a split is undone by the merge with the successor. *)
Theorem kmalloc_kfree_restores hs total m bs size p m' :
  heap_inv hs total m bs -> coalesced bs ->
  kmalloc hs size m = Some (p, m') -> p <> 0 ->
  heap_inv hs total (kfree p m') bs.
Proof.
  intros Hinv Hco Hk Hp. pose proof (kmalloc_inv hs total m bs size Hinv) as H.
  destruct (alloc_blocks _ _ _) as [[q bs']|] eqn:E; [|congruence].
  destruct H as (m2 & Hk' & Hinv' & _). simplify_eq.
  destruct (used_alloc _ _ _ _ _ E) as (n & _ & Hperm).
  rewrite <- (free_alloc _ _ _ _ _ (heap_rep_ok _ _ _ (hi_rep _ _ _ _ Hinv)) Hco E).
  eapply kfree_inv; [done|]. rewrite Hperm. apply list_elem_of_here.
Qed.

Lemma kmalloc_kfree_restores_witness :
  heap_inv 1048576 1048576 (kfree 1048588 busy_memory) boot_blocks.
Proof.
  apply (kmalloc_kfree_restores 1048576 1048576 boot_memory boot_blocks 4096);
    [apply boot_heap_inv|done| |done].
  pose proof (kmalloc_inv _ _ _ _ 4096 boot_heap_inv) as H.
  assert (E : alloc_blocks (align4 4096) 1048576 boot_blocks = Some (1048588, busy_blocks))
    by (vm_compute; reflexivity).
  rewrite E in H. destruct H as (m' & Hk & _). unfold busy_memory. by rewrite Hk.
Defined.

(** Counting the payloads. *)
Lemma heap_stats_ok hs total m bs :
  heap_inv hs total m bs ->
  heap_stats hs m = Some (total_size false bs, total_size true bs) /\
  total_size false bs + total_size true bs + 12 * Z.of_nat (length bs) = total.
Proof.
  intros Hinv. pose proof (heap_inv_fuel _ _ _ _ Hinv) as Hf.
  destruct Hinv as [Ha _ Hend Ht Hne Hext Hrep]. pose proof (total_size_extent bs) as Hsum.
  split; [|lia]. unfold heap_stats.
  replace hs with (cursor hs bs) at 1 by by destruct bs.
  pose proof (total_size_nonneg _ _ _ false Hrep). pose proof (total_size_nonneg _ _ _ true Hrep).
  rewrite heap_stats_loop_spec; [done|lia|lia|done|done|lia..].
Qed.

(** [heap_stats] terminates and reports the bytes of the used and of the
    free payloads; with twelve bytes of header per block they add up to the
    heap's size. *)
Theorem heap_stats_correct hs total m bs :
  heap_inv hs total m bs ->
  heap_stats hs m = Some (total_size false bs, total_size true bs) /\
  total_size false bs + total_size true bs + 12 * Z.of_nat (length bs) = total.
Proof. apply heap_stats_ok. Qed.

Lemma heap_stats_correct_witness : heap_stats 1048576 busy_memory = Some (4096, 1044456).
Proof. exact (proj1 (heap_stats_correct _ _ _ _ busy_heap_inv)). Defined.

(** A request of more than 2^32 - 4 bytes wraps to zero when it is rounded
    up, so it succeeds whenever some block is free: the caller is given a
    pointer whose claimed extent runs far past the end of the heap. *)
Theorem kmalloc_huge_request hs total m bs size :
  heap_inv hs total m bs -> Exists (fun b => bfree b = true) bs ->
  4294967293 <= size <= 4294967295 ->
  exists p m', kmalloc hs size m = Some (p, m') /\ p <> 0 /\ hs + total < p + size.
Proof.
  intros Hinv Hex Hs. pose proof (kmalloc_inv hs total m bs size Hinv) as H.
  pose proof (heap_rep_ok _ _ _ (hi_rep _ _ _ _ Hinv)) as Hok.
  pose proof (hi_start _ _ _ _ Hinv). pose proof (hi_end _ _ _ _ Hinv).
  assert (Hz : align4 size = 0) by (rewrite align4_val; word).
  destruct (alloc_blocks _ _ _) as [[p bs']|] eqn:E.
  - destruct H as (m' & Hk & Hinv' & _). exists p, m'.
    pose proof (alloc_range _ _ _ _ _ Hok E). split_and!; [done|lia|lia].
  - exfalso. rewrite alloc_blocks_None in E. apply Exists_exists in Hex as (b & Hb & Hfree).
    rewrite Forall_forall in E, Hok. specialize (E b Hb Hfree). destruct (Hok b Hb). lia.
Qed.

Lemma kmalloc_huge_request_witness :
  exists p m', kmalloc 1048576 4294967295 boot_memory = Some (p, m') /\ p <> 0 /\
    2097152 < p + 4294967295.
Proof.
  apply (kmalloc_huge_request 1048576 1048576 _ _ 4294967295 boot_heap_inv);
    [by constructor|lia].
Defined.
