(* ===== verification/Preempt.v ===== *)
(** * The allocator under preemption ([kernel/mem.c])

    The shell calls [kmalloc] (to start a program) and [kfree] (to kill one)
    with interrupts enabled; a task that runs meanwhile frees its own stack
    when it exits.  Here [kmalloc] is a machine that can be stopped after each
    test of a block and before the block is taken.  Left alone it computes
    [kmalloc]; stopped at the wrong place it gives out memory that is still
    free. *)
From stdpp Require Import base numbers list list_numbers.
From S2P Require Import Prelude Machine Heap.

(** Where a call of [kmalloc] is: before the test of [curr], before the
    statements that take [curr], or at its end. *)
Inductive kmalloc_pc := Testing (curr : Z) | Taking (curr : Z) | Returned (p : Z).

Definition kmalloc_step (size : Z) (pc : kmalloc_pc) (m : memory) : kmalloc_pc * memory :=
  match pc with
  | Testing curr =>
    if curr =? 0 then (Returned 0, m)
    else if negb (hdr_is_free m curr =? 0) && (size <=? hdr_size m curr) then (Taking curr, m)
    else (Testing (hdr_next m curr), m)
  | Taking curr =>
    let m := if (size ⊕ sizeof_header) ⊕ 4 <? hdr_size m curr then split_block curr size m else m in
    (Returned (curr ⊕ sizeof_header), set_is_free curr 0 m)
  | Returned p => (Returned p, m)
  end.

Fixpoint kmalloc_run (n : nat) (size : Z) (pc : kmalloc_pc) (m : memory) : kmalloc_pc * memory :=
  match n with
  | O => (pc, m)
  | S n => let '(pc, m) := kmalloc_step size pc m in kmalloc_run n size pc m
  end.

Lemma run_returned n size p m : kmalloc_run n size (Returned p) m = (Returned p, m).
Proof. by induction n. Qed.

Lemma run_loop fuel size curr m p m' : kmalloc_loop fuel size curr m = Some (p, m') ->
  kmalloc_run (S fuel) size (Testing curr) m = (Returned p, m').
Proof.
  revert curr. induction fuel as [|fuel IH]; intros curr; cbn [kmalloc_loop]; [done|]. intros E.
  change (kmalloc_run (S (S fuel)) size (Testing curr) m) with
    (let '(pc, m) := kmalloc_step size (Testing curr) m in kmalloc_run (S fuel) size pc m).
  unfold kmalloc_step at 1. destruct (curr =? 0); [injection E as <- <-; apply run_returned|].
  destruct (_ && _); [|by apply IH]. injection E as <- <-. cbn [kmalloc_run]. cbn [kmalloc_step]. by rewrite run_returned.
Qed.

(** Left alone, the machine returns what [kmalloc] returns. *)
Lemma kmalloc_run_correct hs total m bs size : heap_inv hs total m bs ->
  exists p m', kmalloc hs size m = Some (p, m') /\
    kmalloc_run (S heap_fuel) (align4 size) (Testing hs) m = (Returned p, m').
Proof.
  intros Hinv. pose proof (kmalloc_inv _ _ _ _ size Hinv) as H. pose proof (hi_start _ _ _ _ Hinv) as Hs.
  assert (E : exists p m', kmalloc hs size m = Some (p, m')).
  { destruct (alloc_blocks _ _ _) as [[p bs']|]; [|by eauto]. destruct H as (m' & E & _). by eauto. }
  destruct E as (p & m' & E). exists p, m'. split; [done|]. unfold kmalloc in E.
  rewrite (proj2 (Z.eqb_neq hs 0)) in E by lia. by apply run_loop.
Qed.

(** Interrupted.  In a heap whose first block is the stack of a task and whose
    second block is free, a call of [kmalloc] is stopped when it has chosen the
    second block; the task exits and its stack is freed, which merges the
    chosen block into it; the call takes the block nevertheless.  The next
    allocation is given the merged block: the two allocations overlap. *)
Lemma kmalloc_preempted_overlaps :
  heap_inv 1048576 1048576 busy_memory busy_blocks /\
  exists m1 m2 p q,
    kmalloc_run 2 4096 (Testing 1048576) busy_memory = (Taking 1052684, m1) /\
    kmalloc_step 4096 (Taking 1052684) (kfree 1048588 m1) = (Returned p, m2) /\
    (exists m3, kmalloc 1048576 8192 m2 = Some (q, m3)) /\
    q <> 0 /\ q < p + 4096 /\ p < q + 8192.
Proof.
  split; [exact busy_heap_inv|].
  exists busy_memory, (kmalloc_step 4096 (Taking 1052684) (kfree 1048588 busy_memory)).2, 1052696, 1048588.
  split; [by vm_compute|]. split; [by vm_compute|]. split; [|lia].
  assert (E : option_map fst (kmalloc 1048576 8192 (kmalloc_step 4096 (Taking 1052684) (kfree 1048588 busy_memory)).2) = Some 1048588)
    by (by vm_compute).
  destruct (kmalloc 1048576 8192 _) as [[q m3]|]; [|done]. injection E as ->. by exists m3.
Qed.
