(* ===== verification/BlockDev.v ===== *)
(** * Block devices: the contract between [drivers/ata.c] and [drivers/fs.c]

    The file system reaches the disk only through [ata_read_sector] and
    [ata_write_sector].  [BlockDevice] gives the two operations,
    [BlockDeviceLaws] what the file system relies on; [Ata.v] discharges the
    laws for the driver, and [RamDisk] below for an in-memory disk that serves
    as a concrete instance. *)
From stdpp Require Import base numbers list.
From S2P Require Import Prelude.

Definition SECTOR : Z := 512.

(** A 512-byte sector. *)
Definition is_sector (s : list Z) : Prop := alen s = SECTOR /\ Forall is_byte s.

(** [ata_read_sector lba] fills the caller's buffer only on success, so the
    sector read is the result; [ata_write_sector] reports success. *)
Class BlockDevice (D : Type) := {
  ata_read_sector : Z -> D -> option (list Z) * D;
  ata_write_sector : Z -> list Z -> D -> bool * D;
}.

(** [disk d lba] is the content of a sector; [working d] says that accesses
    to sectors below [nsectors] succeed. *)
Class BlockDeviceLaws (D : Type) `{BlockDevice D} := {
  disk : D -> Z -> list Z;
  working : D -> Prop;
  nsectors : Z;
  nsectors_lba28 : nsectors <= 268435456;
  disk_sector d lba : is_sector (disk d lba);
  read_value lba d s d' : 0 <= lba < 268435456 ->
    ata_read_sector lba d = (Some s, d') -> s = disk d lba;
  read_frame lba d r d' l : ata_read_sector lba d = (r, d') -> disk d' l = disk d l;
  write_value lba s d d' : 0 <= lba < 268435456 -> is_sector s ->
    ata_write_sector lba s d = (true, d') -> disk d' lba = s;
  write_frame lba s d r d' l : 0 <= lba < 268435456 -> l <> lba ->
    ata_write_sector lba s d = (r, d') -> disk d' l = disk d l;
  working_read d lba : working d -> 0 <= lba < nsectors ->
    exists s d', ata_read_sector lba d = (Some s, d') /\ working d';
  working_write d lba s : working d -> is_sector s -> 0 <= lba < nsectors ->
    exists d', ata_write_sector lba s d = (true, d') /\ working d';
}.

(** ** An in-memory disk with scripted faults

    Each access consumes the head of [rd_faults]; [true] makes it fail. *)
Record ramdisk := RamDisk { rd_data : Z -> list Z; rd_faults : list bool }.

Definition sector_of (s : list Z) : list Z := build SECTOR (fun i => u8 s.[i]).

Lemma is_sector_of s : is_sector (sector_of s).
Proof.
  split; [by apply alen_build|]. apply arr_Forall. intros i Hi.
  unfold sector_of in *. rewrite alen_build in Hi by done.
  rewrite build_get by done. apply u8_range.
Qed.

Lemma sector_of_id s : is_sector s -> sector_of s = s.
Proof.
  intros [Hlen Hb]. apply arr_ext; unfold sector_of; rewrite alen_build by done; [done|].
  intros i Hi. rewrite build_get by done. apply u8_id.
  rewrite arr_Forall in Hb. apply Hb. lia.
Qed.

Definition next_fault (d : ramdisk) : bool * list bool :=
  match rd_faults d with [] => (false, []) | f :: fs => (f, fs) end.

#[export] Instance ramdisk_device : BlockDevice ramdisk := {
  ata_read_sector lba d :=
    let '(f, fs) := next_fault d in
    (if f then None else Some (sector_of (rd_data d lba)), RamDisk (rd_data d) fs);
  ata_write_sector lba s d :=
    let '(f, fs) := next_fault d in
    if f then (false, RamDisk (rd_data d) fs)
    else (true, RamDisk (fun l => if l =? lba then s else rd_data d l) fs);
}.

#[export, refine] Instance ramdisk_laws : BlockDeviceLaws ramdisk := {
  disk d lba := sector_of (rd_data d lba);
  working d := rd_faults d = [];
  nsectors := 602;
}.
Proof.
  - done.
  - intros. apply is_sector_of.
  - cbn. intros lba d s d' _. destruct (next_fault d) as [[|] fs]; congruence.
  - cbn. intros lba d r d' l. destruct (next_fault d) as [f fs]. by intros [= _ <-].
  - cbn. intros lba s d d' _ Hs. destruct (next_fault d) as [[|] fs]; [done|].
    intros [= <-]. cbn. rewrite Z.eqb_refl. by apply sector_of_id.
  - cbn. intros lba s d r d' l _ Hne. destruct (next_fault d) as [[|] fs]; intros [= _ <-]; [done|].
    cbn. by rewrite (proj2 (Z.eqb_neq l lba)).
  - cbn. unfold next_fault. intros d lba -> _. eauto.
  - cbn. unfold next_fault. intros d lba s -> _ _. eauto.
Defined.
