(* ===== verification/Fs.v ===== *)
(** * The file system: [drivers/fs.c] and [drivers/fs.h]

    A flat root directory of 32 entries and a one-byte-per-sector allocation
    map, both cached in RAM and written through to the disk.  The routines
    are computations over [fs], the static variables of [fs.c] together with
    the block device and the console text printed so far; they are generic in
    the block device ([BlockDev.v]). *)
From Stdlib Require Import String.
From stdpp Require Import base numbers list list_numbers.
From S2P Require Import Prelude BlockDev.

(** ** Data *)

Record FileEntry := mkFileEntry {
  name : list Z;        (* char name[24] *)
  start_lba : Z;
  size_sect : Z;
}.
Record RootDirectory := mkRoot {
  magic : Z;
  files : list FileEntry;  (* FileEntry files[FS_MAX_FILES] *)
  next_free_lba : Z;
  reserved : list Z;       (* uint8_t reserved[24] *)
}.

Definition FS_ROOT_LBA : Z := 81.
Definition FS_MAX_FILES : Z := 32.
Definition FS_BITMAP_LBA : Z := FS_ROOT_LBA + 4.
Definition FS_DATA_LBA : Z := FS_BITMAP_LBA + 1.
Definition FS_DATA_SECTORS : Z := 512.
Definition FS_DATA_END_LBA : Z := FS_BITMAP_LBA + FS_DATA_SECTORS.
Definition FS_MAGIC : Z := 827541069. (* 0x3153464D *)

#[export] Instance FileEntry_inhabited : Inhabited FileEntry :=
  populate (mkFileEntry [] 0 0).

(** The packed layout of [RootDirectory]: 4 + 32 * 32 + 4 + 24 bytes. *)
Definition sizeof_FileEntry : Z := 32.
Definition sizeof_RootDirectory : Z := 1056.
(** [(sizeof(RootDirectory) + 511) / 512] *)
Definition FS_ROOT_SECTORS : Z := (sizeof_RootDirectory + 511) / 512.

Definition encode_u32 (v : Z) : list Z :=
  [u8 v; u8 (v / 256); u8 (v / 65536); u8 (v / 16777216)].
Definition decode_u32 (b : list Z) : Z :=
  b.[0] + 256 * b.[1] + 65536 * b.[2] + 16777216 * b.[3].
Definition slice (o n : Z) (b : list Z) : list Z := take (Z.to_nat n) (drop (Z.to_nat o) b).

Definition encode_entry (e : FileEntry) : list Z :=
  name e ++ encode_u32 (start_lba e) ++ encode_u32 (size_sect e).
Definition decode_entry (b : list Z) : FileEntry :=
  mkFileEntry (slice 0 24 b) (decode_u32 (slice 24 4 b)) (decode_u32 (slice 28 4 b)).

(** [(uint8_t* )&root], and back. *)
Definition encode_root (r : RootDirectory) : list Z :=
  encode_u32 (magic r) ++ concat (map encode_entry (files r))
  ++ encode_u32 (next_free_lba r) ++ reserved r.
Definition decode_root (b : list Z) : RootDirectory :=
  mkRoot (decode_u32 (slice 0 4 b))
    (build FS_MAX_FILES (fun i => decode_entry (slice (4 + 32 * i) 32 b)))
    (decode_u32 (slice 1028 4 b)) (slice 1032 24 b).

(** ** Strings *)

(** [m_strcmp] (static in [fs.c]); a C string is the list of its characters,
    possibly followed by a terminator and more bytes of its array. *)
Fixpoint m_strcmp (s1 s2 : list Z) : Z :=
  match s1 with
  | [] => 0 - u8 s2.[0]
  | c1 :: s1' =>
    if negb (c1 =? 0) && (c1 =? s2.[0]) then m_strcmp s1' (tail s2)
    else u8 c1 - u8 s2.[0]
  end.

Definition valid_name (nm : list Z) : bool :=
  match find_index (fun i => nm.[i] =? 0) 24 0 with
  | Some i => 0 <? i
  | None => false
  end.

Section fs.
Context {D : Type} `{BlockDevice D}.

Record fs := mkFs {
  root : RootDirectory;
  bitmap : list Z;
  dev : D;
  console : list Z;
}.

Definition set_root (r : RootDirectory) (s : fs) : fs := mkFs r (bitmap s) (dev s) (console s).
Definition set_bitmap (b : list Z) (s : fs) : fs := mkFs (root s) b (dev s) (console s).
Definition set_dev (d : D) (s : fs) : fs := mkFs (root s) (bitmap s) d (console s).
Definition set_files (l : list FileEntry) (r : RootDirectory) : RootDirectory :=
  mkRoot (magic r) l (next_free_lba r) (reserved r).

Definition kprint (t : list Z) : M fs unit :=
  modify (fun s => mkFs (root s) (bitmap s) (dev s) (console s ++ t)).
Definition kprint_line (t : string) : M fs unit := kprint (text t ++ newline).

Definition read_sector (lba : Z) : M fs (option (list Z)) :=
  fun s => let '(r, d) := ata_read_sector lba (dev s) in (r, set_dev d s).
Definition write_sector (lba : Z) (b : list Z) : M fs bool :=
  fun s => let '(r, d) := ata_write_sector lba b (dev s) in (r, set_dev d s).

(** [print_text_buffer]: printable characters as they are, others as a dot. *)
Definition printable (c : Z) : bool :=
  (c =? 10) || (c =? 13) || (c =? 9) || ((32 <=? c) && (c <? 127)).
Definition print_text_buffer (data : list Z) (size : Z) : M fs unit :=
  kprint (build size (fun i => if printable data.[i] then data.[i] else 46)).

(** ** The cached root directory *)

Definition chunk_of (remaining : Z) : Z := if 512 <? remaining then 512 else remaining.

Fixpoint fs_root_load_from (n : nat) (s : Z) : M fs bool :=
  match n with
  | O => ret true
  | S n =>
    let! r := read_sector (FS_ROOT_LBA + s) in
    match r with
    | None => ret false
    | Some sector_buf =>
      let offset := s * 512 in
      let chunk := chunk_of (sizeof_RootDirectory - offset) in
      modify (fun st => set_root (decode_root
        (for_loop (Z.to_nat chunk) 0 (fun i raw => raw.[offset + i <- sector_buf.[i]])
           (encode_root (root st)))) st) ;;
      fs_root_load_from n (s + 1)
    end
  end.
Definition fs_root_load : M fs bool := fs_root_load_from (Z.to_nat FS_ROOT_SECTORS) 0.

Fixpoint fs_root_save_from (n : nat) (s : Z) : M fs bool :=
  match n with
  | O => ret true
  | S n =>
    let! r := gets root in
    let offset := s * 512 in
    let chunk := chunk_of (sizeof_RootDirectory - offset) in
    let raw := encode_root r in
    let sector_buf := build 512 (fun i => if i <? chunk then raw.[offset + i] else 0) in
    let! ok := write_sector (FS_ROOT_LBA + s) sector_buf in
    if ok then fs_root_save_from n (s + 1) else ret false
  end.
Definition fs_root_save : M fs bool := fs_root_save_from (Z.to_nat FS_ROOT_SECTORS) 0.

(** ** The allocation map *)

Definition bitmap_persist : M fs unit :=
  let! b := gets bitmap in
  write_sector FS_BITMAP_LBA b ;; ret tt.

(** The [for] loop of [bitmap_find_free_run]. *)
Fixpoint find_free_run_from (n : nat) (i run_start run_len count : Z) (bm : list Z) : Z :=
  match n with
  | O => 0
  | S n =>
    if bm.[i] =? 0 then
      let run_start := if run_len =? 0 then i else run_start in
      let run_len := run_len ⊕ 1 in
      if count <=? run_len then FS_DATA_LBA + run_start
      else find_free_run_from n (i + 1) run_start run_len count bm
    else find_free_run_from n (i + 1) run_start 0 count bm
  end.
Definition bitmap_find_free_run (count : Z) (bm : list Z) : Z :=
  find_free_run_from (Z.to_nat (FS_DATA_SECTORS - 1)) 0 0 0 count bm.

(** The loop of [bitmap_mark]; the bound [idx + i < FS_DATA_SECTORS - 1] ends
    it within 512 iterations. *)
Fixpoint mark_from (fuel : nat) (i idx count used : Z) (bm : list Z) : list Z :=
  match fuel with
  | O => bm
  | S fuel =>
    if (i <? count) && (idx ⊕ i <? FS_DATA_SECTORS - 1)
    then mark_from fuel (i ⊕ 1) idx count used (bm.[idx ⊕ i <- used])
    else bm
  end.
Definition bitmap_mark (start count used : Z) : M fs unit :=
  if start <? FS_DATA_LBA then ret tt
  else
    modify (fun st => set_bitmap
      (mark_from (Z.to_nat 512) 0 (start ⊖ FS_DATA_LBA) count used (bitmap st)) st) ;;
    bitmap_persist.

(** ** Initialisation *)

Definition zero_root : RootDirectory := decode_root (build sizeof_RootDirectory (fun _ => 0)).
Definition zero_bitmap : list Z := build 512 (fun _ => 0).

Definition fs_init : M fs unit :=
  let! ok := fs_root_load in
  let! r := gets root in
  if negb ok || negb (magic r =? FS_MAGIC) then
    modify (set_root (mkRoot FS_MAGIC (files zero_root) FS_DATA_LBA (reserved zero_root))) ;;
    modify (set_bitmap zero_bitmap) ;;
    bitmap_persist ;;
    fs_root_save ;; ret tt
  else
    let! b := read_sector FS_BITMAP_LBA in
    match b with
    | Some buf => modify (set_bitmap buf)
    | None => modify (set_bitmap zero_bitmap)
    end.

(** ** Directory look-ups *)

(** [valid_name(root.files[i].name) && m_strcmp(root.files[i].name, name) == 0] *)
Definition entry_matches (nm : list Z) (e : FileEntry) : bool :=
  valid_name (name e) && (m_strcmp (name e) nm =? 0).
(** The search loop shared by the look-ups: the first matching entry. *)
Definition find_entry (nm : list Z) (l : list FileEntry) : option Z :=
  find_index (fun i => entry_matches nm l.[i]) (Z.to_nat FS_MAX_FILES) 0.

(** A [char*] argument: [None] is [NULL].  [name_arg] is the test
    [!name || name[0] == 0], with the string when it passes. *)
Definition name_arg (nm : option (list Z)) : option (list Z) :=
  match nm with
  | Some n => if n.[0] =? 0 then None else Some n
  | None => None
  end.

Fixpoint fs_list_from (n : nat) (i : Z) : M fs unit :=
  match n with
  | O => ret tt
  | S n =>
    let! e := gets (fun st => (files (root st)).[i]) in
    when (valid_name (name e))
      (kprint (text "- ") ;; kprint (cstr (name e)) ;; kprint newline) ;;
    fs_list_from n (i + 1)
  end.
Definition fs_list : M fs unit :=
  kprint_line "Fichiers sur MxOS :" ;; fs_list_from (Z.to_nat FS_MAX_FILES) 0.

(** The guard on an entry's extent, shared by [fs_read_file] and
    [fs_load_file]. *)
Definition bad_metadata (e : FileEntry) : bool :=
  (start_lba e <? FS_DATA_LBA) || (size_sect e =? 0) || (1048576 <? size_sect e)
  || (4294967295 ⊖ size_sect e <? start_lba e).

Definition not_found (nm : list Z) : M fs unit :=
  kprint (text "Fichier introuvable : ") ;; kprint (cstr nm) ;; kprint newline.

(** Each iteration of the transfer loops moves 512 bytes or the rest, so
    [remaining / 512 + 1] iterations are enough. *)
Definition transfer_fuel (remaining : Z) : nat := S (Z.to_nat (remaining / 512)).

(** The [while (remaining > 0)] loop of [fs_read_file]. *)
Fixpoint read_loop (fuel : nat) (lba remaining : Z) : M fs unit :=
  if 0 <? remaining then
    match fuel with
    | O => ret tt
    | S fuel =>
      let! r := read_sector lba in
      match r with
      | None => kprint_line "Erreur de lecture disque."
      | Some buffer =>
        let chunk := chunk_of remaining in
        print_text_buffer buffer chunk ;;
        read_loop fuel (lba ⊕ 1) (remaining ⊖ chunk)
      end
    end
  else kprint newline.

Definition fs_read_file (nm : option (list Z)) : M fs unit :=
  match name_arg nm with
  | None => kprint_line "Nom de fichier invalide."
  | Some nm =>
    let! l := gets (fun st => files (root st)) in
    match find_entry nm l with
    | None => not_found nm
    | Some i =>
      let e := l.[i] in
      kprint (text "Lecture de : ") ;; kprint (cstr nm) ;; kprint newline ;;
      if bad_metadata e then kprint_line "Metadonnees de fichier invalides."
      else read_loop (transfer_fuel (size_sect e ⊗ 512)) (start_lba e) (size_sect e ⊗ 512)
    end
  end.

Definition fs_file_exists (nm : option (list Z)) : M fs bool :=
  match name_arg nm with
  | None => ret false
  | Some nm => gets (fun st => bool_decide (is_Some (find_entry nm (files (root st)))))
  end.

(** The copy loop of [fs_load_file]; the result is whether it completed and
    the bytes stored at [dest]. *)
Fixpoint load_loop (fuel : nat) (lba remaining : Z) (out : list Z) : M fs (bool * list Z) :=
  if 0 <? remaining then
    match fuel with
    | O => ret (false, out)
    | S fuel =>
      let! r := read_sector lba in
      match r with
      | None => kprint_line "Erreur de lecture disque." ;; ret (false, out)
      | Some buffer =>
        let chunk := chunk_of remaining in
        load_loop fuel (lba ⊕ 1) (remaining ⊖ chunk)
          (out ++ build chunk (fun k => buffer.[k]))
      end
    end
  else ret (true, out).

(** [fs_load_file]: [dest_null] says that [dest] is [NULL]; the result is the
    return value and the bytes stored from [dest] on, whose number is what a
    successful call leaves in [*out_size]. *)
Definition fs_load_file (nm : option (list Z)) (dest_null : bool) (max_size : Z)
  : M fs (bool * list Z) :=
  match name_arg nm, dest_null with
  | Some nm, false =>
    let! l := gets (fun st => files (root st)) in
    match find_entry nm l with
    | None => not_found nm ;; ret (false, [])
    | Some i =>
      let e := l.[i] in
      if bad_metadata e then
        kprint_line "Metadonnees de fichier invalides." ;; ret (false, [])
      else if max_size <? size_sect e ⊗ 512 then
        kprint_line "Programme trop volumineux pour la zone de chargement." ;; ret (false, [])
      else load_loop (transfer_fuel (size_sect e ⊗ 512)) (start_lba e) (size_sect e ⊗ 512) []
    end
  | _, _ => kprint_line "Parametres invalides." ;; ret (false, [])
  end.

(** ** Updates *)

(** The name-copying loop of [fs_add_entry]: stops after the terminator. *)
Fixpoint copy_name (n : nat) (j : Z) (src dst : list Z) : list Z :=
  match n with
  | O => dst
  | S n =>
    let dst := dst.[j <- src.[j]] in
    if src.[j] =? 0 then dst else copy_name n (j + 1) src dst
  end.

Definition fs_add_entry (nm : list Z) (start size : Z) : M fs bool :=
  let! l := gets (fun st => files (root st)) in
  match find_index (fun i => (name l.[i]).[0] =? 0) (Z.to_nat FS_MAX_FILES) 0 with
  | None => kprint_line "Erreur : Root Directory plein !" ;; ret false
  | Some i =>
    let nm' := (copy_name 23 0 nm (name l.[i])).[23 <- 0] in
    modify (fun st => set_root (set_files (l.[i <- mkFileEntry nm' start size]) (root st)) st) ;;
    let! ok := fs_root_save in
    if ok then ret true
    else kprint_line "Erreur d'ecriture disque." ;; ret false
  end.

Definition fs_create_file (nm : option (list Z)) (start size : Z) : M fs unit :=
  match name_arg nm with
  | Some nm =>
    if (start <? FS_DATA_LBA) || (size =? 0)
    then kprint_line "Metadonnees de fichier invalides."
    else
      let! ok := fs_add_entry nm start size in
      when ok (kprint_line "Fichier cree avec succes.")
  | None => kprint_line "Metadonnees de fichier invalides."
  end.

Definition fs_delete_file_impl (nm : option (list Z)) (verbose : bool) : M fs bool :=
  match name_arg nm with
  | None => when verbose (kprint_line "Nom de fichier invalide.") ;; ret false
  | Some nm =>
    let! l := gets (fun st => files (root st)) in
    match find_entry nm l with
    | None => when verbose (not_found nm) ;; ret false
    | Some i =>
      bitmap_mark (start_lba l.[i]) (size_sect l.[i]) 0 ;;
      modify (fun st => set_root (set_files
        (l.[i <- mkFileEntry (build 24 (fun _ => 0)) 0 0]) (root st)) st) ;;
      let! ok := fs_root_save in
      if ok then when verbose (kprint_line "Fichier supprime.") ;; ret true
      else when verbose (kprint_line "Erreur d'ecriture disque.") ;; ret false
    end
  end.
Definition fs_delete_file (nm : option (list Z)) : M fs bool := fs_delete_file_impl nm true.
Definition fs_delete_file_silent (nm : option (list Z)) : M fs bool :=
  fs_delete_file_impl nm false.

(** The sector-writing loop of [fs_write_file_impl]; [off] is how far [data]
    has advanced. *)
Fixpoint write_loop (fuel : nat) (lba : Z) (data : list Z) (off remaining : Z)
  (verbose : bool) : M fs bool :=
  if 0 <? remaining then
    match fuel with
    | O => ret false
    | S fuel =>
      let chunk := chunk_of remaining in
      let buffer := build 512 (fun i => if i <? chunk then data.[off + i] else 0) in
      let! ok := write_sector lba buffer in
      if ok then write_loop fuel (lba ⊕ 1) data (off + chunk) (remaining ⊖ chunk) verbose
      else when verbose (kprint_line "Erreur d'ecriture disque.") ;; ret false
    end
  else ret true.

(** The part of [fs_write_file_impl] after the old file of that name has been
    removed: allocate, write the sectors, mark them, register the entry. *)
Definition fs_write_new (nm bytes : list Z) (size_bytes : Z) (verbose : bool) : M fs bool :=
  let sects := (size_bytes ⊕ 511) / 512 in
  let! bm := gets bitmap in
  let start := bitmap_find_free_run sects bm in
  if start =? 0 then
    when verbose (kprint_line "Espace disque insuffisant.") ;; ret false
  else
    let! ok := write_loop (transfer_fuel size_bytes) start bytes 0 size_bytes verbose in
    if ok then
      bitmap_mark start sects 1 ;;
      let! added := fs_add_entry nm start sects in
      if added then
        when verbose (kprint_line "Fichier ecrit avec succes.") ;; ret true
      else bitmap_mark start sects 0 ;; ret false
    else ret false.

Definition fs_write_file_impl (nm : option (list Z)) (data : option (list Z))
  (size_bytes : Z) (verbose : bool) : M fs bool :=
  match name_arg nm, data with
  | Some n, Some bytes =>
    if size_bytes =? 0 then
      when verbose (kprint_line "Parametres invalides.") ;; ret false
    else
      let! ex := fs_file_exists nm in
      when ex (fs_delete_file_impl nm false ;; ret tt) ;;
      fs_write_new n bytes size_bytes verbose
  | _, _ => when verbose (kprint_line "Parametres invalides.") ;; ret false
  end.
Definition fs_write_file nm data size_bytes : M fs bool :=
  fs_write_file_impl nm data size_bytes true.
Definition fs_write_file_silent nm data size_bytes : M fs bool :=
  fs_write_file_impl nm data size_bytes false.
End fs.
Arguments fs D : clear implicits.
