(* ===== verification/FsData.v ===== *)
(** * The file system's data: names, directory layout, allocation map

    Lemmas on the pure parts of [drivers/fs.c]: C-string comparison, the
    on-disk layout of [RootDirectory] (encoding and decoding are inverse),
    and the allocation map ([bitmap_find_free_run] returns the first run of
    free sectors, [bitmap_mark] changes exactly the sectors of its range). *)
From stdpp Require Import base numbers list list_numbers.
From S2P Require Import Prelude Machine BlockDev Fs.

(** ** Names *)

Lemma m_strcmp_zero s1 : forall s2, Forall is_byte s1 -> Forall is_byte s2 ->
  m_strcmp s1 s2 = 0 <-> cstr s1 = cstr s2.
Proof.
  assert (Hnil : forall s2, Forall is_byte s2 -> 0 - u8 s2.[0] = 0 <-> [] = cstr s2).
  { intros [|c s2] Hb; [done|]. cbn [cstr]. apply Forall_cons in Hb as [Hc _].
    rewrite arr_get_cons_0, u8_id by done.
    destruct (Z.eqb_spec c 0) as [->|]; [done|]. split; [intros; exfalso; lia|done]. }
  induction s1 as [|c1 s1 IH]; intros s2 H1 H2; [by apply Hnil|].
  apply Forall_cons in H1 as [Hc1 H1]. cbn [m_strcmp cstr].
  destruct (Z.eqb_spec c1 0) as [->|Hne]; cbn [negb andb]; [by apply Hnil|].
  destruct s2 as [|c2 s2].
  { change (arr_get [] 0) with 0. rewrite (proj2 (Z.eqb_neq c1 0) Hne), (u8_id c1) by done.
    change (u8 0) with 0. split; [intros; exfalso; lia|done]. }
  apply Forall_cons in H2 as [Hc2 H2]. change ((c2 :: s2).[0]) with c2. cbn [tail cstr].
  destruct (Z.eqb_spec c1 c2) as [->|Hne2].
  - rewrite (proj2 (Z.eqb_neq c2 0) Hne), IH by done. split; [by intros ->|by intros [= ->]].
  - rewrite !u8_id by done. split; [intros; exfalso; lia|].
    destruct (c2 =? 0); congruence.
Qed.

Lemma cstr_id s : Forall (fun c => c <> 0) s -> cstr s = s.
Proof.
  induction 1 as [|c s Hc _ IH]; cbn; [done|].
  by rewrite (proj2 (Z.eqb_neq c 0) Hc), IH.
Qed.

(** The first terminator delimits the C string. *)
Lemma cstr_take (l : list Z) n : 0 <= n < alen l ->
  (forall i, 0 <= i < n -> l.[i] <> 0) -> l.[n] = 0 -> cstr l = take (Z.to_nat n) l.
Proof.
  revert n. induction l as [|c l IH]; intros n Hn Hpre Hz; [unfold alen in Hn; cbn in Hn; lia|].
  cbn [cstr]. destruct (decide (n = 0)) as [->|Hne].
  { change ((c :: l).[0]) with c in Hz. by rewrite Hz. }
  pose proof (Hpre 0 ltac:(lia)) as Hc. change ((c :: l).[0]) with c in Hc.
  rewrite (proj2 (Z.eqb_neq c 0) Hc).
  replace (Z.to_nat n) with (S (Z.to_nat (n - 1))) by lia. cbn [take]. f_equal.
  apply IH.
  - unfold alen in *. cbn in Hn. lia.
  - intros i Hi. rewrite <- (arr_get_cons_S c) by lia. apply Hpre. lia.
  - rewrite <- (arr_get_cons_S c) by lia. by replace (n - 1 + 1) with n by lia.
Qed.

Lemma copy_name_length n j src dst : length (copy_name n j src dst) = length dst.
Proof.
  revert j dst. induction n as [|n IH]; intros j dst; cbn [copy_name]; [done|].
  destruct (_ =? 0); [|rewrite IH]; apply length_arr_set.
Qed.

(** The copied prefix: every position up to the end of the source, which is
    copied with its terminator when it fits. *)
Lemma copy_name_get n : forall j src dst i,
  Forall (fun c => c <> 0) src -> 0 <= j <= alen src -> j + Z.of_nat n <= alen dst ->
  (copy_name n j src dst).[i] =
  if (j <=? i) && (i <? j + Z.of_nat n) && (i <=? alen src) then src.[i] else dst.[i].
Proof.
  induction n as [|n IH]; intros j src dst i Hnz Hj Hlen; cbn [copy_name]; [zcases|].
  destruct (decide (j = alen src)) as [->|Hne].
  - rewrite (arr_get_oob src (alen src)) by lia. rewrite Z.eqb_refl, arr_get_set by lia.
    destruct (Z.eqb_spec (alen src) i) as [<-|]; [|zcases].
    rewrite (arr_get_oob src (alen src)) by lia. zcases.
  - rewrite arr_Forall in Hnz. pose proof (Hnz j ltac:(lia)) as Hc.
    rewrite (proj2 (Z.eqb_neq _ 0) Hc), IH;
      [|by rewrite arr_Forall|lia|rewrite alen_arr_set; lia].
    rewrite arr_get_set by lia. destruct (Z.eqb_spec j i) as [<-|]; zcases.
Qed.

(** The name [fs_add_entry] leaves in an entry: the first 23 characters. *)
Lemma added_name nm dst : Forall (fun c => c <> 0) nm -> alen dst = 24 ->
  cstr ((copy_name 23 0 nm dst).[23 <- 0]) = take 23 nm.
Proof.
  intros Hnz Hd. set (l := (copy_name 23 0 nm dst).[23 <- 0]).
  set (n := Z.min 23 (alen nm)).
  assert (Hcl : alen (copy_name 23 0 nm dst) = 24)
    by (unfold alen in *; rewrite copy_name_length; lia).
  assert (Hl : alen l = 24) by (unfold l; by rewrite alen_arr_set).
  assert (Hn0 : 0 <= alen nm) by (unfold alen; lia).
  assert (Hget : forall i, 0 <= i <= n -> l.[i] = if i <? n then nm.[i] else 0).
  { intros i Hi. unfold l. rewrite arr_get_set by lia.
    rewrite copy_name_get by (done || lia).
    destruct (decide (i < n)); zcases. rewrite arr_get_oob; [done|lia]. }
  rewrite (cstr_take l n).
  - apply arr_ext.
    + unfold alen in *. rewrite !length_take. lia.
    + intros i Hi. assert (0 <= i < n) by (unfold alen in *; rewrite length_take in Hi; lia).
      unfold arr_get at 1 2. rewrite (proj2 (Z.leb_le 0 i)) by lia.
      rewrite !list_lookup_total_alt, !lookup_take_lt by lia.
      rewrite <- !list_lookup_total_alt.
      specialize (Hget i ltac:(lia)). unfold arr_get in Hget.
      rewrite (proj2 (Z.leb_le 0 i)), (proj2 (Z.ltb_lt i n)) in Hget by lia. done.
  - lia.
  - intros i Hi. rewrite Hget by lia. rewrite (proj2 (Z.ltb_lt i n)) by lia.
    rewrite arr_Forall in Hnz. apply Hnz. lia.
  - rewrite Hget by lia. by rewrite Z.ltb_irrefl.
Qed.

Lemma valid_name_wf l : l.[23] = 0 -> valid_name l = negb (l.[0] =? 0).
Proof.
  intros H23. unfold valid_name. destruct (find_index _ 24 0) as [i|] eqn:E.
  - apply find_index_Some in E as (Hi & Hz & Hmin).
    destruct (Z.ltb_spec 0 i).
    + specialize (Hmin 0 ltac:(lia)). by rewrite Hmin.
    + assert (i = 0) as -> by lia. by rewrite Hz.
  - pose proof (find_index_None _ _ _ E 23 ltac:(lia)) as H. cbn beta in H.
    by rewrite H23 in H.
Qed.

(** ** The on-disk layout *)

Lemma decode_encode_u32 v : is_u32 v -> decode_u32 (encode_u32 v) = v.
Proof.
  intros Hv. rewrite <- (u32_id v Hv) at 2. rewrite <- bytes_of_word. done.
Qed.

Lemma encode_decode_u32 b : alen b = 4 -> Forall is_byte b -> encode_u32 (decode_u32 b) = b.
Proof.
  intros Hlen Hb. unfold alen in Hlen.
  destruct b as [|b0 [|b1 [|b2 [|b3 [|]]]]]; cbn in Hlen; try lia.
  rewrite !Forall_cons in Hb. destruct Hb as (H0 & H1 & H2 & H3 & _).
  change (decode_u32 [b0; b1; b2; b3]) with (b0 + 256 * b1 + 65536 * b2 + 16777216 * b3).
  unfold encode_u32. repeat f_equal; word.
Qed.

Lemma alen_encode_u32 v : alen (encode_u32 v) = 4.
Proof. done. Qed.

Lemma alen_app {A} (l1 l2 : list A) : alen (l1 ++ l2) = alen l1 + alen l2.
Proof. unfold alen. rewrite length_app. lia. Qed.

Lemma alen_slice o n b : 0 <= o -> 0 <= n -> o + n <= alen b -> alen (slice o n b) = n.
Proof. unfold alen, slice. intros. rewrite length_take, length_drop. lia. Qed.

Lemma slice_app_l n l1 l2 : alen l1 = n -> slice 0 n (l1 ++ l2) = l1.
Proof.
  unfold alen, slice. intros <-. rewrite drop_0, Nat2Z.id. apply take_app_length.
Qed.

Lemma slice_app_r o n l1 l2 : alen l1 <= o -> slice o n (l1 ++ l2) = slice (o - alen l1) n l2.
Proof.
  unfold alen, slice. intros Ho. rewrite drop_app_ge by lia. do 2 f_equal. lia.
Qed.

Lemma slice_all n l : alen l = n -> slice 0 n l = l.
Proof. intros Hn. rewrite <- (app_nil_r l) at 1. by apply slice_app_l. Qed.

Lemma slice_split o n k b : 0 <= o -> 0 <= n -> 0 <= k ->
  slice o n b ++ slice (o + n) k b = slice o (n + k) b.
Proof.
  intros. unfold slice. rewrite !Z2Nat.inj_add, <- drop_drop by lia.
  by rewrite take_take_drop.
Qed.

Lemma slice_get o n b i : 0 <= o -> 0 <= i < n -> o + n <= alen b ->
  (slice o n b).[i] = b.[o + i].
Proof.
  intros Ho Hi Hlen. apply arr_get_lookup; [lia|]. unfold slice.
  rewrite lookup_take_lt, lookup_drop by lia.
  rewrite <- arr_lookup_get by lia. f_equal. lia.
Qed.

Lemma Forall_slice (P : Z -> Prop) o n b : Forall P b -> Forall P (slice o n b).
Proof. intros. by apply Forall_take, Forall_drop. Qed.

(** The [i]-th of equally long chunks laid end to end. *)
Lemma slice_concat k chunks rest i : 0 <= k -> Forall (fun c => alen c = k) chunks ->
  0 <= i < alen chunks -> slice (k * i) k (concat chunks ++ rest) = chunks.[i].
Proof.
  intros Hk Hall. revert i. induction Hall as [|c chunks Hc _ IH]; intros i Hi.
  { unfold alen in Hi. cbn in Hi. lia. }
  cbn [concat]. rewrite <- app_assoc. destruct (decide (i = 0)) as [->|].
  - rewrite Z.mul_0_r, slice_app_l by done. done.
  - rewrite slice_app_r by nia. replace (k * i - alen c) with (k * (i - 1)) by nia.
    rewrite IH by (unfold alen in *; cbn in Hi; lia).
    rewrite <- (arr_get_cons_S c) by lia. f_equal. lia.
Qed.

Lemma concat_slices k n o b : 0 <= k -> 0 <= o ->
  concat (map (fun i => slice (o + k * i) k b) (seqZ 0 (Z.of_nat n))) = slice o (k * Z.of_nat n) b.
Proof.
  intros Hk Ho. induction n as [|n IH].
  { rewrite Z.mul_0_r. unfold slice. by rewrite take_0. }
  rewrite seqZ_S, map_app, concat_app, IH. cbn [map concat]. rewrite app_nil_r.
  replace (k * Z.of_nat (S n)) with (k * Z.of_nat n + k) by lia.
  rewrite <- slice_split by lia. do 2 f_equal; lia.
Qed.

(** Well-typed entries and directories: the ranges of the C fields. *)
Record entry_typed (e : FileEntry) : Prop := {
  et_name : alen (name e) = 24;
  et_bytes : Forall is_byte (name e);
  et_start : is_u32 (start_lba e);
  et_size : is_u32 (size_sect e);
}.
Record root_typed (r : RootDirectory) : Prop := {
  rt_magic : is_u32 (magic r);
  rt_files : alen (files r) = FS_MAX_FILES;
  rt_entries : Forall entry_typed (files r);
  rt_next : is_u32 (next_free_lba r);
  rt_reserved : alen (reserved r) = 24;
  rt_rbytes : Forall is_byte (reserved r);
}.

Lemma alen_encode_entry e : entry_typed e -> alen (encode_entry e) = 32.
Proof. intros He. unfold encode_entry. rewrite !alen_app, (et_name _ He). done. Qed.

Lemma decode_encode_entry e : entry_typed e -> decode_entry (encode_entry e) = e.
Proof.
  intros [Hn _ Hs Hz]. unfold decode_entry, encode_entry. destruct e as [n st sz].
  cbn [name start_lba size_sect] in *.
  rewrite slice_app_l by done.
  rewrite (slice_app_r 24), (slice_app_r 28) by lia. rewrite Hn.
  change (24 - 24) with 0. change (28 - 24) with 4.
  rewrite slice_app_l by done. rewrite slice_app_r by done.
  change (4 - alen (encode_u32 st)) with 0. rewrite slice_all by done.
  by rewrite !decode_encode_u32.
Qed.

Lemma encode_decode_entry b : alen b = 32 -> Forall is_byte b ->
  encode_entry (decode_entry b) = b /\ entry_typed (decode_entry b).
Proof.
  intros Hlen Hb.
  assert (H4 : forall o, 0 <= o <= 28 -> alen (slice o 4 b) = 4) by (intros; apply alen_slice; lia).
  assert (Hu : forall o, 0 <= o <= 28 -> is_u32 (decode_u32 (slice o 4 b))).
  { intros o Ho. pose proof (Forall_slice is_byte o 4 b Hb) as Hs. rewrite arr_Forall, H4 in Hs by done.
    pose proof (Hs 0). pose proof (Hs 1). pose proof (Hs 2). pose proof (Hs 3).
    unfold decode_u32, is_byte, is_u32 in *. lia. }
  split.
  - unfold encode_entry, decode_entry. cbn [name start_lba size_sect].
    rewrite !encode_decode_u32 by (try apply H4; try apply Forall_slice; done || lia).
    rewrite (slice_split 24 4 4), (slice_split 0 24 8) by lia. by apply slice_all.
  - split; cbn; [apply alen_slice; lia|by apply Forall_slice|apply Hu; lia..].
Qed.

Lemma alen_concat k chunks : Forall (fun c : list Z => alen c = k) chunks ->
  alen (concat chunks) = k * alen chunks.
Proof.
  induction 1 as [|c cs Hc _ IH]; [unfold alen; cbn; lia|].
  cbn [concat]. rewrite alen_app, Hc, IH. unfold alen. cbn [length]. lia.
Qed.

Lemma encoded_chunks l : Forall entry_typed l -> Forall (fun c => alen c = 32) (map encode_entry l).
Proof. intros Hl. apply Forall_fmap. eapply Forall_impl, alen_encode_entry. done. Qed.

Lemma alen_map {A B} (f : A -> B) l : alen (map f l) = alen l.
Proof. unfold alen. by rewrite length_map. Qed.

Lemma alen_encode_root r : root_typed r -> alen (encode_root r) = sizeof_RootDirectory.
Proof.
  intros [_ Hf He _ Hr _]. unfold encode_root. rewrite !alen_app.
  rewrite (alen_concat 32) by by apply encoded_chunks.
  rewrite alen_map, Hf, Hr, !alen_encode_u32. done.
Qed.

Lemma Forall_encode_u32 v : Forall is_byte (encode_u32 v).
Proof. repeat constructor; apply u8_range. Qed.

Lemma encode_root_bytes r : root_typed r -> Forall is_byte (encode_root r).
Proof.
  intros [_ _ He _ _ Hr]. unfold encode_root.
  repeat apply Forall_app_2; try apply Forall_encode_u32; [|done].
  clear Hr. induction He as [|e l He _ IH]; cbn; [constructor|].
  apply Forall_app_2; [|done]. unfold encode_entry.
  repeat apply Forall_app_2; try apply Forall_encode_u32. apply He.
Qed.

Lemma decode_encode_root r : root_typed r -> decode_root (encode_root r) = r.
Proof.
  intros [Hm Hf He Hn Hr _]. destruct r as [mg fl nx rs].
  cbn [magic files next_free_lba reserved] in *.
  unfold decode_root, encode_root. cbn [magic files next_free_lba reserved].
  pose proof (encoded_chunks _ He) as Hch.
  assert (Hcl : alen (concat (map encode_entry fl)) = 1024)
    by (rewrite (alen_concat 32) by done; rewrite alen_map, Hf; done).
  rewrite slice_app_l, decode_encode_u32 by done. f_equal.
  - apply arr_ext; rewrite alen_build by done; [done|]. intros i Hi.
    rewrite build_get by done. rewrite slice_app_r by (rewrite alen_encode_u32; lia).
    rewrite alen_encode_u32. replace (4 + 32 * i - 4) with (32 * i) by lia.
    rewrite slice_concat by (rewrite ?alen_map; done || lia).
    rewrite arr_get_map by lia. apply decode_encode_entry.
    rewrite arr_Forall in He. apply He. lia.
  - rewrite !slice_app_r, !alen_encode_u32, ?Hcl by (rewrite ?alen_encode_u32, ?Hcl; lia).
    rewrite slice_app_l by done. by apply decode_encode_u32.
  - rewrite !slice_app_r, !alen_encode_u32, ?Hcl by (rewrite ?alen_encode_u32, ?Hcl; lia).
    by apply slice_all.
Qed.

Lemma map_build {A B} (g : A -> B) n f : map g (build n f) = build n (fun i => g (f i)).
Proof. unfold build. by rewrite map_map. Qed.

Lemma build_ext {A} n (f g : Z -> A) : (forall i, 0 <= i < n -> f i = g i) -> build n f = build n g.
Proof.
  intros Heq. unfold build. apply map_ext_in. intros i Hi.
  apply list_elem_of_In, elem_of_seqZ in Hi. apply Heq. lia.
Qed.

Lemma encode_decode_root b : alen b = sizeof_RootDirectory -> Forall is_byte b ->
  encode_root (decode_root b) = b /\ root_typed (decode_root b).
Proof.
  unfold sizeof_RootDirectory. intros Hlen Hb.
  assert (H4 : forall o, 0 <= o <= 1052 -> alen (slice o 4 b) = 4) by (intros; apply alen_slice; lia).
  assert (Hu : forall o, 0 <= o <= 1052 -> is_u32 (decode_u32 (slice o 4 b))).
  { intros o Ho. pose proof (Forall_slice is_byte o 4 b Hb) as Hs. rewrite arr_Forall, H4 in Hs by done.
    pose proof (Hs 0). pose proof (Hs 1). pose proof (Hs 2). pose proof (Hs 3).
    unfold decode_u32, is_byte, is_u32 in *. lia. }
  assert (Hent : forall i, 0 <= i < FS_MAX_FILES ->
    encode_entry (decode_entry (slice (4 + 32 * i) 32 b)) = slice (4 + 32 * i) 32 b /\
    entry_typed (decode_entry (slice (4 + 32 * i) 32 b))).
  { unfold FS_MAX_FILES. intros i Hi. apply encode_decode_entry;
      [apply alen_slice; lia|by apply Forall_slice]. }
  split.
  - unfold encode_root, decode_root. cbn [magic files next_free_lba reserved].
    rewrite !encode_decode_u32 by (try apply H4; try apply Forall_slice; done || lia).
    rewrite map_build, (build_ext _ _ (fun i => slice (4 + 32 * i) 32 b))
      by (intros; by apply Hent).
    unfold build, FS_MAX_FILES. change 32 with (Z.of_nat 32) at 3. rewrite concat_slices by lia.
    change (32 * Z.of_nat 32) with 1024.
    rewrite (slice_split 1028 4 24), (slice_split 4 1024 28), (slice_split 0 4 1052) by lia.
    by apply slice_all.
  - split; cbn; [apply Hu; lia|by apply alen_build| |apply Hu; lia|apply alen_slice; lia|by apply Forall_slice].
    apply arr_Forall. rewrite alen_build by done. intros i Hi. rewrite build_get by done. by apply Hent.
Qed.

(** ** The allocation map *)

(** Sectors [s, s + n) of the map are free. *)
Definition free_run (bm : list Z) (s n : Z) : Prop :=
  forall k, s <= k < s + n -> bm.[k] = 0.

(** [s] is the first run of [count] free sectors. *)
Definition first_free_run (bm : list Z) (count s : Z) : Prop :=
  0 <= s /\ s + count <= FS_DATA_SECTORS - 1 /\ free_run bm s count /\
  forall s', 0 <= s' < s -> ~ free_run bm s' count.

Lemma find_free_run_from_spec n : forall i rs rl count bm,
  i + Z.of_nat n = 511 -> 0 <= rl <= i -> rl < count -> (rl <> 0 -> rs = i - rl) ->
  free_run bm (i - rl) rl -> (forall s, 0 <= s < i - rl -> ~ free_run bm s count) ->
  let r := find_free_run_from n i rs rl count bm in
  (r = 0 /\ forall s, 0 <= s -> s + count <= FS_DATA_SECTORS - 1 -> ~ free_run bm s count) \/
  (exists s, r = FS_DATA_LBA + s /\ first_free_run bm count s).
Proof.
  unfold FS_DATA_SECTORS.
  induction n as [|n IH]; intros i rs rl count bm Hi Hrl Hlt Hrs Hfree Hmin;
    cbn [find_free_run_from].
  { left. split; [done|]. intros s Hs Hc. apply Hmin. lia. }
  destruct (Z.eqb_spec bm.[i] 0) as [Hz|Hnz].
  - assert (Hfree' : free_run bm (i - rl) (rl + 1)).
    { intros k Hk. destruct (decide (k = i)) as [->|]; [done|]. apply Hfree. lia. }
    rewrite (u32_id (rl + 1)) by (unfold is_u32; lia).
    assert (Hrs' : (if rl =? 0 then i else rs) = i - rl) by (zcases; auto; lia).
    rewrite Hrs'. destruct (Z.leb_spec count (rl + 1)).
    + right. exists (i - rl). split; [done|]. split_and!; [lia|unfold FS_DATA_SECTORS; lia| |done].
      intros k Hk. apply Hfree'. lia.
    + apply IH; try lia.
      * by replace (i + 1 - (rl + 1)) with (i - rl) by lia.
      * by replace (i + 1 - (rl + 1)) with (i - rl) by lia.
  - apply IH; try lia.
    + intros k Hk. lia.
    + intros s Hs Hrun. destruct (decide (s < i - rl)).
      * apply (Hmin s); [lia|done].
      * apply Hnz, Hrun. lia.
Qed.

Lemma bitmap_find_free_run_spec count bm : 0 < count ->
  (bitmap_find_free_run count bm = 0 /\
   forall s, 0 <= s -> s + count <= FS_DATA_SECTORS - 1 -> ~ free_run bm s count) \/
  (exists s, bitmap_find_free_run count bm = FS_DATA_LBA + s /\ first_free_run bm count s).
Proof.
  intros Hc. unfold bitmap_find_free_run, FS_DATA_SECTORS.
  apply find_free_run_from_spec; try (cbn; lia).
  intros k Hk. lia.
Qed.

Lemma mark_from_length fuel i idx count used bm :
  alen (mark_from fuel i idx count used bm) = alen bm.
Proof.
  revert i bm. induction fuel as [|fuel IH]; intros i bm; cbn [mark_from]; [done|].
  destruct (_ && _); [|done]. by rewrite IH, alen_arr_set.
Qed.

Lemma mark_from_get fuel : forall i idx count used bm j,
  alen bm = 512 -> 0 <= i -> is_u32 idx -> i = 0 \/ idx + i <= 511 ->
  511 < idx + i + Z.of_nat fuel ->
  (mark_from fuel i idx count used bm).[j] =
  if (idx + i <=? j) && (j <? idx + count) && (j <? 511) then used else bm.[j].
Proof.
  induction fuel as [|fuel IH]; intros i idx count used bm j Hlen Hi Hidx Hor Hf;
    cbn [mark_from]; [zcases|].
  unfold is_u32, FS_DATA_SECTORS in *. rewrite (u32_id (idx + i)) by (unfold is_u32; lia).
  destruct (Z.ltb_spec i count), (Z.ltb_spec (idx + i) (512 - 1)); cbn [andb]; [|zcases..].
  rewrite (u32_id (i + 1)) by (unfold is_u32; lia).
  rewrite IH by (rewrite ?alen_arr_set; unfold is_u32; lia).
  rewrite arr_get_set by lia. zcases.
Qed.

Lemma marked_get start count used bm j :
  FS_DATA_LBA <= start < 4294967296 -> alen bm = 512 ->
  (mark_from (Z.to_nat 512) 0 (start ⊖ FS_DATA_LBA) count used bm).[j] =
  if (start <=? FS_DATA_LBA + j) && (FS_DATA_LBA + j <? start + count)
     && (j <? FS_DATA_SECTORS - 1) then used else bm.[j].
Proof.
  intros Hs Hlen. unfold FS_DATA_LBA, FS_BITMAP_LBA, FS_ROOT_LBA, FS_DATA_SECTORS in *.
  rewrite u32_id by (unfold is_u32; lia).
  rewrite mark_from_get by (unfold is_u32; lia). zcases.
Qed.

(** From here on the marking loop is used through [marked_get] only. *)
#[global] Opaque mark_from.
