(* ===== verification/FsProofs.v ===== *)
(** * The file system implements a map from names to contents

    Against the block-device interface: an invariant that ties the cached
    directory, the allocation map and their copies on disk; lemmas that the
    C routines keep it and change the abstract map ([lookup_file]) as a
    write, a deletion or a look-up should; and the properties. *)
From Stdlib Require Import String.
From stdpp Require Import base numbers list list_numbers.
From S2P Require Import Prelude BlockDev Fs FsData.

(** ** Directory invariant *)

(** Entry [i] is in use. *)
Definition live (l : list FileEntry) (i : Z) : Prop :=
  0 <= i < FS_MAX_FILES /\ (name l.[i]).[0] <> 0.
(** Sector [lba] belongs to the file of entry [e]. *)
Definition covers (e : FileEntry) (lba : Z) : Prop :=
  start_lba e <= lba < start_lba e + size_sect e.
Definition extent_ok (e : FileEntry) : Prop :=
  FS_DATA_LBA <= start_lba e /\ 0 < size_sect e /\
  start_lba e + size_sect e <= FS_DATA_END_LBA.

Record dir_wf (l : list FileEntry) (bm : list Z) : Prop := {
  dw_len : alen l = FS_MAX_FILES;
  dw_typed : Forall entry_typed l;
  dw_term : forall i, 0 <= i < FS_MAX_FILES -> (name l.[i]).[23] = 0;
  dw_extent : forall i, live l i -> extent_ok l.[i];
  dw_names : forall i j, live l i -> live l j ->
    cstr (name l.[i]) = cstr (name l.[j]) -> i = j;
  dw_disjoint : forall i j lba, live l i -> live l j ->
    covers l.[i] lba -> covers l.[j] lba -> i = j;
  dw_bm_len : alen bm = 512;
  dw_bm_bytes : Forall is_byte bm;
  dw_map : forall k, 0 <= k < FS_DATA_SECTORS - 1 ->
    bm.[k] <> 0 <-> exists i, live l i /\ covers l.[i] (FS_DATA_LBA + k);
}.

Ltac fs_consts :=
  unfold FS_MAX_FILES, FS_DATA_END_LBA, FS_DATA_SECTORS, FS_DATA_LBA, FS_BITMAP_LBA,
    FS_ROOT_LBA, FS_ROOT_SECTORS, sizeof_RootDirectory, SECTOR in *.

(** A name that can be stored and found again. *)
Definition good_name (nm : list Z) : Prop :=
  nm <> [] /\ Forall is_byte nm /\ Forall (fun c => c <> 0) nm.

Lemma good_name_0 nm : good_name nm -> (nm.[0] =? 0) = false.
Proof.
  intros (Hne & _ & Hnz). destruct nm as [|c nm]; [done|].
  apply Forall_cons in Hnz as [Hc _]. rewrite arr_get_cons_0. by apply Z.eqb_neq.
Qed.

Lemma name_arg_good nm : good_name nm -> name_arg (Some nm) = Some nm.
Proof. intros H. unfold name_arg. by rewrite good_name_0. Qed.

Lemma cstr_nil_iff s : cstr s = [] <-> s.[0] = 0.
Proof.
  destruct s as [|c s]; [done|]. cbn [cstr]. rewrite arr_get_cons_0.
  destruct (Z.eqb_spec c 0); naive_solver.
Qed.

Lemma entry_matches_iff l bm nm i : dir_wf l bm -> good_name nm -> 0 <= i < FS_MAX_FILES ->
  entry_matches nm l.[i] = true <-> live l i /\ cstr (name l.[i]) = nm.
Proof.
  intros Hwf (Hne & Hb & Hnz) Hi. unfold entry_matches.
  rewrite valid_name_wf by by apply (dw_term _ _ Hwf).
  pose proof (dw_typed _ _ Hwf) as Ht. rewrite arr_Forall, (dw_len _ _ Hwf) in Ht.
  rewrite andb_true_iff, negb_true_iff, Z.eqb_neq, Z.eqb_eq.
  rewrite m_strcmp_zero by (try apply (Ht i Hi); done).
  rewrite (cstr_id nm) by done. unfold live. tauto.
Qed.

Lemma find_entry_Some l bm nm i : dir_wf l bm -> good_name nm ->
  find_entry nm l = Some i <-> live l i /\ cstr (name l.[i]) = nm.
Proof.
  intros Hwf Hnm. unfold find_entry. split.
  - intros E. apply find_index_Some in E as (Hi & Hm & _).
    rewrite <- entry_matches_iff; done.
  - intros [Hl Hc]. apply find_index_intro; [apply Hl| |].
    + rewrite entry_matches_iff; [done..|apply Hl].
    + intros k Hk. apply not_true_is_false. intros Hm.
      destruct Hl as [Hi Hz]. fs_consts.
      apply (entry_matches_iff l bm) in Hm as [Hlk Hck]; [|done..|fs_consts; lia].
      assert (k = i); [|lia]. eapply (dw_names _ _ Hwf); [done|by split|congruence].
Qed.

Lemma find_entry_None l bm nm : dir_wf l bm -> good_name nm ->
  find_entry nm l = None -> forall i, live l i -> cstr (name l.[i]) <> nm.
Proof.
  intros Hwf Hnm E i Hl Hc. assert (find_entry nm l = Some i); [|congruence].
  by apply (find_entry_Some l bm).
Qed.

(** Clearing an entry and its sectors. *)
Definition zero_entry : FileEntry := mkFileEntry (build 24 (fun _ => 0)) 0 0.

Lemma live_set l i e j : alen l = FS_MAX_FILES -> 0 <= i < FS_MAX_FILES ->
  live (l.[i <- e]) j <->
  (j = i /\ (name e).[0] <> 0) \/ (j <> i /\ live l j).
Proof.
  intros Hlen Hi. unfold live. rewrite arr_get_set by lia.
  destruct (Z.eqb_spec i j) as [->|]; [tauto|]. assert (j <> i) by congruence. tauto.
Qed.

Lemma zero_entry_typed : entry_typed zero_entry.
Proof.
  split; [done| |split; done..]. apply arr_Forall. unfold zero_entry. cbn [name].
  rewrite alen_build by done. intros i Hi. by rewrite build_get.
Qed.

Definition marked (e : FileEntry) (v : Z) (bm : list Z) : list Z :=
  mark_from (Z.to_nat 512) 0 (start_lba e ⊖ FS_DATA_LBA) (size_sect e) v bm.

Lemma marked_spec e v bm : extent_ok e -> alen bm = 512 ->
  alen (marked e v bm) = 512 /\
  forall k, 0 <= k < FS_DATA_SECTORS - 1 ->
    (covers e (FS_DATA_LBA + k) /\ (marked e v bm).[k] = v) \/
    (~ covers e (FS_DATA_LBA + k) /\ (marked e v bm).[k] = bm.[k]).
Proof.
  intros (H1 & H2 & H3) Hlen. unfold marked.
  split; [by rewrite mark_from_length|]. intros k Hk.
  rewrite marked_get by (fs_consts; lia || done). unfold covers. fs_consts.
  zcases; [left|right..]; split; done || lia.
Qed.

Lemma marked_bytes e v bm : extent_ok e -> is_byte v -> alen bm = 512 -> Forall is_byte bm ->
  Forall is_byte (marked e v bm).
Proof.
  intros (H1 & H2 & H3) Hv Hlen Hb. unfold marked. rewrite arr_Forall, mark_from_length in *.
  intros k Hk. rewrite marked_get by (fs_consts; lia || done).
  destruct (_ && _); [done|by apply Hb].
Qed.

Lemma dir_wf_delete l bm i : dir_wf l bm -> live l i ->
  dir_wf (l.[i <- zero_entry]) (marked l.[i] 0 bm).
Proof.
  intros Hwf Hl. pose proof Hwf as [Hlen Ht Hterm Hext Hnm Hdis Hbl Hbb Hmap].
  pose proof (Hext i Hl) as He. destruct (marked_spec _ 0 _ He Hbl) as [Hml Hm].
  destruct Hl as [Hi Hz].
  assert (Hlive : forall j, live (l.[i <- zero_entry]) j -> j <> i /\ live l j).
  { intros j. rewrite live_set by done. intros [[_ []]|?]; done. }
  assert (Hget : forall j, j <> i -> (l.[i <- zero_entry]).[j] = l.[j]).
  { intros j Hj. by apply arr_get_set_ne. }
  split.
  - by rewrite alen_arr_set.
  - rewrite arr_Forall in Ht |- *. rewrite alen_arr_set. intros j Hj.
    rewrite arr_get_set by lia. destruct (_ =? _); [apply zero_entry_typed|by apply Ht].
  - intros j Hj. rewrite arr_get_set by lia. destruct (_ =? _); [done|by apply Hterm].
  - intros j [Hj Hlj]%Hlive. rewrite Hget by done. by apply Hext.
  - intros j k [Hj Hlj]%Hlive [Hk Hlk]%Hlive. rewrite !Hget by done. by apply Hnm.
  - intros j k lba [Hj Hlj]%Hlive [Hk Hlk]%Hlive. rewrite !Hget by done. by apply Hdis.
  - done.
  - by apply marked_bytes.
  - intros k Hk. destruct (Hm k Hk) as [[Hc ->]|[Hc ->]].
    + split; [done|]. intros (j & [Hj Hlj]%Hlive & Hcj). rewrite Hget in Hcj by done.
      destruct Hj. by apply (Hdis j i (FS_DATA_LBA + k)).
    + rewrite Hmap by done. split; intros (j & Hlj & Hcj).
      * assert (j <> i) by congruence. exists j.
        rewrite live_set, Hget by done. split; [by right|done].
      * apply Hlive in Hlj as [Hj Hlj]. rewrite Hget in Hcj by done. eauto.
Qed.

(** Registering a file in a free slot, on a free run of sectors. *)
Lemma dir_wf_add l bm i e : dir_wf l bm -> 0 <= i < FS_MAX_FILES -> ~ live l i ->
  entry_typed e -> (name e).[23] = 0 -> extent_ok e ->
  (forall j, live l j -> cstr (name l.[j]) <> cstr (name e)) ->
  free_run bm (start_lba e - FS_DATA_LBA) (size_sect e) ->
  (name e).[0] <> 0 ->
  dir_wf (l.[i <- e]) (marked e 1 bm).
Proof.
  intros [Hlen Ht Hterm Hext Hnm Hdis Hbl Hbb Hmap] Hi Hnl Het He23 He Hnew Hrun Hz.
  destruct (marked_spec _ 1 _ He Hbl) as [Hml Hm].
  assert (Hlive : forall j, live (l.[i <- e]) j -> (j = i /\ (l.[i <- e]).[j] = e) \/
    (j <> i /\ live l j /\ (l.[i <- e]).[j] = l.[j])).
  { intros j. rewrite live_set by done. intros [[-> _]|[Hj Hlj]]; [left|right].
    - split; [done|]. apply arr_get_set_eq. lia.
    - split_and!; [done..|]. by apply arr_get_set_ne. }
  (** no live file covers a sector of the new one *)
  assert (Hfree : forall j lba, live l j -> covers l.[j] lba -> ~ covers e lba).
  { intros j lba Hlj Hcj Hce. destruct (Hext j Hlj) as (? & ? & ?), He as (? & ? & ?).
    unfold covers in Hce, Hcj.
    apply (proj2 (Hmap (lba - FS_DATA_LBA) ltac:(fs_consts; lia))).
    - exists j. split; [done|]. unfold covers. lia.
    - apply Hrun. lia. }
  split.
  - by rewrite alen_arr_set.
  - rewrite arr_Forall in Ht |- *. rewrite alen_arr_set. intros j Hj.
    rewrite arr_get_set by lia. destruct (_ =? _); [done|by apply Ht].
  - intros j Hj. rewrite arr_get_set by lia. destruct (_ =? _); [done|by apply Hterm].
  - intros j [[-> ->]|(? & ? & ->)]%Hlive; [done|by apply Hext].
  - intros j k [[-> ->]|(? & ? & ->)]%Hlive [[-> ->]|(? & ? & ->)]%Hlive Heq; [done|..].
    + by destruct (Hnew k).
    + by destruct (Hnew j).
    + by apply Hnm.
  - intros j k lba [[-> ->]|(? & ? & ->)]%Hlive [[-> ->]|(? & ? & ->)]%Hlive Hc Hc'; [done|..].
    + by destruct (Hfree k lba).
    + by destruct (Hfree j lba).
    + by eapply Hdis.
  - done.
  - by apply marked_bytes.
  - intros k Hk. destruct (Hm k Hk) as [[Hc ->]|[Hc ->]].
    + split; [intros _|done]. exists i. rewrite live_set, arr_get_set_eq by lia. auto.
    + rewrite Hmap by done. split.
      * intros (j & Hlj & Hcj). assert (j <> i) by (by intros ->). exists j.
        rewrite live_set, arr_get_set_ne by done. auto.
      * intros (j & [[-> Heq]|(? & ? & Heq)]%Hlive & Hcj); rewrite Heq in Hcj; [done|eauto].
Qed.

(** Marking a free run used and then free again is the identity. *)
Lemma marked_undo e bm : extent_ok e -> alen bm = 512 ->
  free_run bm (start_lba e - FS_DATA_LBA) (size_sect e) ->
  marked e 0 (marked e 1 bm) = bm.
Proof.
  intros (H1 & H2 & H3) Hlen Hrun. unfold marked.
  apply arr_ext; rewrite !mark_from_length; [done|]. intros k Hk.
  rewrite !marked_get by (rewrite ?mark_from_length; fs_consts; lia || done).
  destruct (_ && _ && _) eqn:E; [|done]. symmetry. apply Hrun.
  apply andb_true_iff in E as [[E1%Z.leb_le E2%Z.ltb_lt]%andb_true_iff _]. lia.
Qed.

(** ** Transfers on a working device *)

(** The sectors of the cached directory, and of a file being written. *)
Definition root_sector (r : RootDirectory) (s : Z) : list Z :=
  build 512 (fun i => if i <? chunk_of (sizeof_RootDirectory - s * 512)
                      then (encode_root r).[s * 512 + i] else 0).
Definition data_sector (data : list Z) (size k : Z) : list Z :=
  build 512 (fun i => if 512 * k + i <? size then data.[512 * k + i] else 0).

Lemma chunk_of_min r : chunk_of r = Z.min 512 r.
Proof. unfold chunk_of. zcases; lia. Qed.

Lemma is_sector_build (f : Z -> Z) : (forall i, 0 <= i < 512 -> is_byte (f i)) ->
  is_sector (build 512 f).
Proof.
  intros Hf. split; [by apply alen_build|]. apply arr_Forall. rewrite alen_build by done.
  intros i Hi. rewrite build_get by done. by apply Hf.
Qed.

Lemma build_get_id (l : list Z) n : alen l = n -> build n (fun k => l.[k]) = l.
Proof.
  intros Hl. assert (0 <= n) by (unfold alen in Hl; lia).
  apply arr_ext; rewrite alen_build by done; [done|].
  intros i Hi. by rewrite build_get.
Qed.

Lemma is_sector_root r s : root_typed r -> 0 <= s < 3 -> is_sector (root_sector r s).
Proof.
  intros Hr Hs. apply is_sector_build. intros i Hi. pose proof (alen_encode_root r Hr) as Hlen.
  pose proof (encode_root_bytes r Hr) as Hb. rewrite arr_Forall, Hlen in Hb.
  rewrite chunk_of_min. fs_consts. zcases; first [by split | apply Hb; lia].
Qed.

Lemma is_sector_data data size k : Forall is_byte data -> 0 <= k -> size <= alen data ->
  is_sector (data_sector data size k).
Proof.
  intros Hb Hk Hsz. apply is_sector_build. intros i Hi. rewrite arr_Forall in Hb.
  zcases; first [by split | apply Hb; lia].
Qed.

Lemma dir_wf_bitmap l bm : dir_wf l bm -> is_sector bm.
Proof. intros Hd. split; [exact (dw_bm_len _ _ Hd)|exact (dw_bm_bytes _ _ Hd)]. Qed.

Section working.
Context {D : Type} {BD : BlockDevice D} {BL : BlockDeviceLaws D}.
Context (big_enough : FS_DATA_END_LBA <= nsectors).
Implicit Types (s : fs D) (d : D).

(** [writes d d' lba n f]: between [d] and [d'] exactly the sectors
    [lba .. lba + n) changed, to [f 0], [f 1], ... *)
Definition writes d d' (lba n : Z) (f : Z -> list Z) : Prop :=
  working d' /\
  forall l, disk d' l = if (lba <=? l) && (l <? lba + n) then f (l - lba) else disk d l.

Lemma writes_nil d lba f : working d -> writes d d lba 0 f.
Proof. intros Hw. split; [done|]. intros l. zcases. Qed.

Lemma writes_cons d d1 d2 lba n f : 0 <= n ->
  writes d d1 lba 1 (fun _ => f 0) -> writes d1 d2 (lba + 1) n (fun j => f (j + 1)) ->
  writes d d2 lba (n + 1) f.
Proof.
  intros Hn [_ H1] [Hw H2]. split; [done|]. intros l. rewrite H2, H1.
  zcases; f_equal; lia.
Qed.

Lemma write_sector_ok s lba b : working (dev s) -> is_sector b -> 0 <= lba < nsectors ->
  exists d', write_sector lba b s = (true, set_dev d' s) /\
    writes (dev s) d' lba 1 (fun _ => b).
Proof.
  intros Hw Hb Hl. pose proof nsectors_lba28 as H28.
  destruct (working_write (dev s) lba b Hw Hb Hl) as (d' & E & Hw').
  exists d'. unfold write_sector. rewrite E. split; [done|]. split; [done|]. intros l.
  destruct (decide (l = lba)) as [->|Hne].
  - rewrite (write_value lba b (dev s)) by (done || lia). zcases.
  - rewrite (write_frame lba b (dev s) true d' l) by (done || lia). zcases.
Qed.

Lemma root_save_from_ok n : forall s k, working (dev s) -> root_typed (root s) ->
  0 <= k -> k + Z.of_nat n <= 3 ->
  exists d', fs_root_save_from n k s = (true, set_dev d' s) /\
    writes (dev s) d' (FS_ROOT_LBA + k) (Z.of_nat n) (fun j => root_sector (root s) (k + j)).
Proof.
  induction n as [|n IH]; intros s k Hw Hr Hk Hn; cbn [fs_root_save_from].
  { exists (dev s). split; [by destruct s|by apply writes_nil]. }
  unfold bind, gets.
  destruct (write_sector_ok s (FS_ROOT_LBA + k) (root_sector (root s) k)) as (d1 & E1 & W1);
    [done|apply is_sector_root; done || lia|fs_consts; lia|].
  unfold root_sector in E1. rewrite E1.
  destruct (IH (set_dev d1 s) (k + 1)) as (d2 & E2 & W2); [apply W1|done|lia|lia|].
  rewrite E2. exists d2. split; [done|].
  replace (Z.of_nat (S n)) with (Z.of_nat n + 1) by lia.
  apply writes_cons with d1; [lia|by rewrite Z.add_0_r|].
  replace (FS_ROOT_LBA + k + 1) with (FS_ROOT_LBA + (k + 1)) by lia.
  destruct W2 as [Hw2 W2]. split; [done|]. intros l. rewrite W2. cbn [dev set_dev root].
  replace (k + (l - (FS_ROOT_LBA + (k + 1)) + 1))
    with (k + 1 + (l - (FS_ROOT_LBA + (k + 1)))) by lia. done.
Qed.

Lemma root_save_ok s : working (dev s) -> root_typed (root s) ->
  exists d', fs_root_save s = (true, set_dev d' s) /\
    writes (dev s) d' FS_ROOT_LBA 3 (root_sector (root s)).
Proof.
  intros Hw Hr. destruct (root_save_from_ok 3 s 0) as (d' & E & W); [done..|].
  exists d'. split; [done|]. rewrite Z.add_0_r in W. exact W.
Qed.

Lemma bitmap_persist_ok s : working (dev s) -> is_sector (bitmap s) ->
  exists d', bitmap_persist s = (tt, set_dev d' s) /\
    writes (dev s) d' FS_BITMAP_LBA 1 (fun _ => bitmap s).
Proof.
  intros Hw Hb. unfold bitmap_persist, bind, gets, ret.
  destruct (write_sector_ok s FS_BITMAP_LBA (bitmap s)) as (d' & -> & W);
    [done..|fs_consts; lia|]. by exists d'.
Qed.

Lemma bitmap_mark_ok s e v : working (dev s) -> extent_ok e -> is_byte v ->
  is_sector (bitmap s) ->
  exists d', bitmap_mark (start_lba e) (size_sect e) v s =
      (tt, mkFs (root s) (marked e v (bitmap s)) d' (console s)) /\
    writes (dev s) d' FS_BITMAP_LBA 1 (fun _ => marked e v (bitmap s)).
Proof.
  intros Hw He Hv [Hl Hb]. unfold bitmap_mark.
  rewrite (proj2 (Z.ltb_ge _ _)) by (destruct He; lia). unfold bind at 1, modify.
  destruct (bitmap_persist_ok (set_bitmap (marked e v (bitmap s)) s)) as (d' & E & W); [done| |].
  - split; [exact (proj1 (marked_spec e v _ He Hl))|by apply marked_bytes].
  - exists d'. unfold marked in E at 1. rewrite E. done.
Qed.

(** The loop over the sectors of the data: [n] sectors remain. *)
Lemma write_loop_ok data size verbose n : Forall is_byte data ->
  0 <= size <= alen data -> size < 4294967296 ->
  forall fuel s lba off rem k, working (dev s) -> (n <= fuel)%nat -> 0 <= k ->
  0 <= lba -> lba + Z.of_nat n <= nsectors ->
  (n = O -> rem = 0) ->
  (n <> O -> off = 512 * k /\ rem = size - 512 * k /\
    512 * (Z.of_nat n - 1) < rem <= 512 * Z.of_nat n) ->
  exists d', write_loop fuel lba data off rem verbose s = (true, set_dev d' s) /\
    writes (dev s) d' lba (Z.of_nat n) (fun j => data_sector data size (k + j)).
Proof.
  intros Hb Hsz Hsz32. pose proof nsectors_lba28 as H28.
  induction n as [|n IH]; intros fuel s lba off rem k Hw Hf Hk Hl0 Hl H0 HS.
  { rewrite H0 by done. exists (dev s). split; [by destruct fuel, s|by apply writes_nil]. }
  destruct HS as (-> & -> & Hrem); [done|]. destruct fuel as [|fuel]; [lia|].
  cbn [write_loop]. rewrite (proj2 (Z.ltb_lt 0 _)) by lia. unfold bind.
  destruct (write_sector_ok s lba (data_sector data size k)) as (d1 & E1 & W1);
    [done|apply is_sector_data; done || lia|lia|].
  rewrite !chunk_of_min. rewrite (build_ext _ _
    (fun i => if 512 * k + i <? size then data.[512 * k + i] else 0)) by (intros; zcases).
  unfold data_sector in E1. rewrite E1.
  rewrite (u32_id (lba + 1)), (u32_id (_ - _)) by (unfold is_u32; lia).
  destruct (IH fuel (set_dev d1 s) (lba + 1) (512 * k + Z.min 512 (size - 512 * k))
    (size - 512 * k - Z.min 512 (size - 512 * k)) (k + 1)) as (d2 & E2 & W2);
    [apply W1|lia..|]. rewrite E2. exists d2. split; [done|].
  replace (Z.of_nat (S n)) with (Z.of_nat n + 1) by lia.
  apply writes_cons with d1; [lia|by rewrite Z.add_0_r|].
  destruct W2 as [Hw2 W2]. split; [done|]. intros l. rewrite W2. cbn [dev set_dev].
  by replace (k + (l - (lba + 1) + 1)) with (k + 1 + (l - (lba + 1))) by lia.
Qed.

(** Reads leave the disk as it is. *)
Definition same_disk d d' : Prop := working d' /\ forall l, disk d' l = disk d l.

Lemma read_sector_ok s lba : working (dev s) -> 0 <= lba < nsectors ->
  exists d', read_sector lba s = (Some (disk (dev s) lba), set_dev d' s) /\
    same_disk (dev s) d'.
Proof.
  intros Hw Hl. pose proof nsectors_lba28 as H28.
  destruct (working_read (dev s) lba Hw Hl) as (b & d' & E & Hw').
  exists d'. unfold read_sector. rewrite E. split.
  - do 3 f_equal. eapply read_value, E. lia.
  - split; [done|]. intros l. by eapply read_frame.
Qed.

Definition sectors d (lba : Z) (n : nat) : list Z :=
  concat (map (disk d) (seqZ lba (Z.of_nat n))).

Lemma sectors_S d lba n : sectors d lba (S n) = disk d lba ++ sectors d (lba + 1) n.
Proof.
  unfold sectors. rewrite seqZ_cons by lia. cbn [map concat]. do 4 f_equal; lia.
Qed.

Lemma sectors_ext d d' lba n :
  (forall l, lba <= l < lba + Z.of_nat n -> disk d' l = disk d l) ->
  sectors d' lba n = sectors d lba n.
Proof.
  intros Heq. unfold sectors. f_equal. apply map_ext_in. intros l Hl.
  apply list_elem_of_In, elem_of_seqZ in Hl. apply Heq. lia.
Qed.

Lemma load_loop_ok n : forall fuel s lba out, working (dev s) -> (n <= fuel)%nat ->
  0 <= lba -> lba + Z.of_nat n <= nsectors -> 512 * Z.of_nat n < 4294967296 ->
  exists d', load_loop fuel lba (512 * Z.of_nat n) out s =
      ((true, out ++ sectors (dev s) lba n), set_dev d' s) /\ same_disk (dev s) d'.
Proof.
  pose proof nsectors_lba28 as H28.
  induction n as [|n IH]; intros fuel s lba out Hw Hf Hl0 Hl Hn.
  { exists (dev s). split; [|done]. destruct fuel; cbn; unfold sectors; cbn;
      by rewrite app_nil_r; destruct s. }
  destruct fuel as [|fuel]; [lia|]. cbn [load_loop].
  rewrite (proj2 (Z.ltb_lt 0 _)) by lia. unfold bind.
  destruct (read_sector_ok s lba) as (d1 & -> & [Hw1 Hd1]); [done|lia|].
  rewrite chunk_of_min, Z.min_l, (u32_id (lba + 1)) by (unfold is_u32; lia).
  replace (512 * Z.of_nat (S n) - 512) with (512 * Z.of_nat n) by lia.
  rewrite u32_id by (unfold is_u32; lia).
  rewrite build_get_id by apply disk_sector.
  destruct (IH fuel (set_dev d1 s) (lba + 1) (out ++ disk (dev s) lba)) as (d2 & E2 & [Hw2 Hd2]);
    [done|lia..|]. rewrite E2. exists d2. split.
  - rewrite sectors_S, <- app_assoc. cbn [dev set_dev]. rewrite (sectors_ext (dev s) d1) by auto. done.
  - split; [done|]. intros l. rewrite Hd2. apply Hd1.
Qed.

(** ** The invariant of the whole file system *)

Record fs_wf s : Prop := {
  fw_root : root_typed (root s);
  fw_magic : magic (root s) = FS_MAGIC;
  fw_dir : dir_wf (files (root s)) (bitmap s);
  fw_dev : working (dev s);
  fw_sync_root : forall k, 0 <= k < 3 ->
    disk (dev s) (FS_ROOT_LBA + k) = root_sector (root s) k;
  fw_sync_map : disk (dev s) FS_BITMAP_LBA = bitmap s;
}.

(** The abstract file system: a name is bound to the bytes of its sectors. *)
Definition content d (e : FileEntry) : list Z :=
  sectors d (start_lba e) (Z.to_nat (size_sect e)).
Definition lookup_file s (nm : list Z) : option (list Z) :=
  match find_entry nm (files (root s)) with
  | Some i => Some (content (dev s) (files (root s)).[i])
  | None => None
  end.

(** [d'] holds the same data sectors as [d]. *)
Definition same_data d d' : Prop := forall l, FS_DATA_LBA <= l -> disk d' l = disk d l.

Lemma content_same_data d d' e : same_data d d' -> FS_DATA_LBA <= start_lba e ->
  content d' e = content d e.
Proof. intros Hd He. apply sectors_ext. intros l Hl. apply Hd. lia. Qed.

Lemma find_entry_delete l bm i nm : dir_wf l bm -> live l i -> good_name nm ->
  find_entry nm (l.[i <- zero_entry]) =
  if decide (nm = cstr (name l.[i])) then None else find_entry nm l.
Proof.
  intros Hwf Hl Hnm. pose proof (dir_wf_delete l bm i Hwf Hl) as Hwf'.
  pose proof (dw_len _ _ Hwf) as Hlen. pose proof (proj1 Hl) as Hi.
  assert (Hiff : forall j, find_entry nm (l.[i <- zero_entry]) = Some j <->
    (j <> i /\ find_entry nm l = Some j)).
  { intros j. rewrite (find_entry_Some _ _ nm j Hwf' Hnm), (find_entry_Some _ _ nm j Hwf Hnm).
    rewrite live_set by done. split.
    - intros [[[-> []]|[Hj Hlj]] Hc]; [done|]. rewrite arr_get_set_ne in Hc by done. done.
    - intros (Hj & Hlj & Hc). rewrite arr_get_set_ne by done. auto. }
  apply option_eq. intros j. rewrite Hiff. case_decide as Hd.
  - split; [|done]. intros [Hj Hf]. exfalso. apply Hj.
    apply (find_entry_Some _ bm) in Hf as [Hlj Hc]; [|done..].
    apply (dw_names _ _ Hwf); [done..|congruence].
  - split; [tauto|]. intros Hf. split; [|done]. intros ->.
    apply (find_entry_Some _ bm) in Hf as [_ Hc]; [|done..]. congruence.
Qed.

Lemma find_entry_add l bm bm' i e nm : dir_wf l bm -> dir_wf (l.[i <- e]) bm' ->
  0 <= i < FS_MAX_FILES -> ~ live l i -> (name e).[0] <> 0 -> good_name nm ->
  find_entry nm (l.[i <- e]) =
  if decide (nm = cstr (name e)) then Some i else find_entry nm l.
Proof.
  intros Hwf Hwf' Hi Hnl Hz Hnm. pose proof (dw_len _ _ Hwf) as Hlen.
  assert (Hiff : forall j, find_entry nm (l.[i <- e]) = Some j <->
    (j = i /\ cstr (name e) = nm) \/ (j <> i /\ find_entry nm l = Some j)).
  { intros j. rewrite (find_entry_Some _ _ nm j Hwf' Hnm), (find_entry_Some _ _ nm j Hwf Hnm).
    rewrite live_set by done. destruct (decide (j = i)) as [->|Hj].
    - rewrite arr_get_set_eq by lia. tauto.
    - rewrite arr_get_set_ne by done. tauto. }
  case_decide as Hd.
  - apply Hiff. left. auto.
  - apply option_eq. intros j. rewrite Hiff. split.
    + intros [[_ ?]|[_ ?]]; [congruence|done].
    + intros Hf. right. split; [|done]. intros ->.
      by apply (find_entry_Some _ bm) in Hf as [? _].
Qed.

(** ** Deletion *)

Lemma root_typed_set_files r l bm : root_typed r -> dir_wf l bm -> root_typed (set_files l r).
Proof. intros [??????] Hd. split; try done; apply Hd. Qed.

(** Saving the directory and the map re-establishes their copies on disk. *)
Lemma fs_wf_saved s r bm d1 d2 c : root_typed r -> magic r = FS_MAGIC ->
  dir_wf (files r) bm -> writes (dev s) d1 FS_BITMAP_LBA 1 (fun _ => bm) ->
  writes d1 d2 FS_ROOT_LBA 3 (root_sector r) ->
  fs_wf (mkFs r bm d2 c) /\ same_data (dev s) d2.
Proof.
  intros Hr Hm Hd [_ W1] [Hw W2]. split; [split; try done|].
  - intros k Hk. cbn. rewrite W2. fs_consts. zcases. f_equal. lia.
  - cbn. rewrite W2, W1. fs_consts. zcases.
  - intros l Hl. rewrite W2, W1. fs_consts. zcases.
Qed.

Lemma delete_ok s nm v i : fs_wf s -> good_name nm ->
  find_entry nm (files (root s)) = Some i ->
  let l := files (root s) in
  exists d' c',
    fs_delete_file_impl (Some nm) v s =
      (true, mkFs (set_files (l.[i <- zero_entry]) (root s)) (marked l.[i] 0 (bitmap s)) d' c') /\
    fs_wf (mkFs (set_files (l.[i <- zero_entry]) (root s)) (marked l.[i] 0 (bitmap s)) d' c') /\
    same_data (dev s) d'.
Proof.
  intros [Hr Hm Hd Hw _ _] Hnm Hf l. unfold fs_delete_file_impl.
  rewrite (name_arg_good nm) by done. unfold bind at 1, gets. cbn beta iota. rewrite Hf.
  apply (find_entry_Some _ (bitmap s)) in Hf as [Hl _]; [|done..].
  pose proof (dw_extent _ _ Hd i Hl) as He. pose proof (dir_wf_delete _ _ _ Hd Hl) as Hd'.
  pose proof (root_typed_set_files _ _ _ Hr Hd') as Hr'.
  destruct (bitmap_mark_ok s l.[i] 0) as (d1 & E1 & W1);
    [done|done|by split|by eapply dir_wf_bitmap|].
  unfold bind at 1. fold l. rewrite E1. unfold bind at 1, modify. cbn [root bitmap dev console].
  set (s1 := set_root _ _). destruct (root_save_ok s1) as (d2 & E2 & W2); [apply W1|done|].
  unfold bind at 1. rewrite E2. unfold bind, when, kprint_line, kprint, modify, ret.
  destruct (fs_wf_saved s (root s1) (marked l.[i] 0 (bitmap s)) d1 d2
    (console s ++ if v then text "Fichier supprime." ++ newline else [])) as [Hwf Hsame]; [done..|].
  eexists _, _. split; [|split; [exact Hwf|exact Hsame]].
  destruct v; [done|]. unfold s1. cbn. by rewrite app_nil_r.
Qed.

Lemma delete_none s nm v : good_name nm -> find_entry nm (files (root s)) = None ->
  exists c', fs_delete_file_impl (Some nm) v s =
    (false, mkFs (root s) (bitmap s) (dev s) c').
Proof.
  intros Hnm Hf. unfold fs_delete_file_impl. rewrite (name_arg_good nm) by done.
  unfold bind, gets. rewrite Hf. unfold when, not_found, kprint, bind, modify, ret.
  destruct v; cbn; [by eexists|exists (console s); by destruct s].
Qed.

(** ** Writing *)

(** What a file of [size] bytes of [data] reads back as: the data, padded with
    zeros to a whole number of sectors. *)
Definition padded (data : list Z) (size : Z) : list Z :=
  take (Z.to_nat size) data ++ replicate (Z.to_nat (512 * ((size + 511) / 512) - size)) 0.

Lemma data_sector_padded data size k :
  0 <= size <= alen data -> 0 <= k < (size + 511) / 512 ->
  data_sector data size k = slice (0 + 512 * k) 512 (padded data size).
Proof.
  intros Hsz Hk. pose proof (Z.div_mod (size + 511) 512 ltac:(lia)) as Hdm.
  pose proof (Z.mod_pos_bound (size + 511) 512 ltac:(lia)).
  assert (Htl : alen (take (Z.to_nat size) data) = size)
    by (unfold alen in *; rewrite length_take; lia).
  assert (Hpl : alen (padded data size) = 512 * ((size + 511) / 512)).
  { unfold padded. rewrite alen_app, Htl. unfold alen. rewrite length_replicate. lia. }
  apply arr_ext; [unfold data_sector; rewrite alen_build, alen_slice by lia; done|].
  unfold data_sector. rewrite alen_build by done. intros i Hi.
  rewrite build_get, slice_get by lia. unfold padded. zcases.
  - rewrite arr_get_app_l by lia. unfold arr_get. zcases.
    by rewrite !list_lookup_total_alt, lookup_take_lt by lia.
  - rewrite arr_get_app_r by lia. symmetry. apply arr_get_lookup; [lia|].
    apply lookup_replicate_2. lia.
Qed.

Lemma content_written d data size start :
  0 <= size <= alen data ->
  (forall l, start <= l < start + (size + 511) / 512 ->
    disk d l = data_sector data size (l - start)) ->
  sectors d start (Z.to_nat ((size + 511) / 512)) = padded data size.
Proof.
  intros Hsz Hd. pose proof (Z.div_mod (size + 511) 512 ltac:(lia)) as Hdm.
  pose proof (Z.mod_pos_bound (size + 511) 512 ltac:(lia)).
  set (n := (size + 511) / 512) in *.
  transitivity (slice 0 (512 * Z.of_nat (Z.to_nat n)) (padded data size)).
  - rewrite <- concat_slices by lia. unfold sectors. f_equal.
    assert (seqZ start (Z.of_nat (Z.to_nat n)) = map (Z.add start) (seqZ 0 (Z.of_nat (Z.to_nat n))))
      as -> by (etransitivity; [|symmetry; apply fmap_add_seqZ]; f_equal; lia).
    rewrite map_map. apply map_ext_in. intros k Hk.
    apply list_elem_of_In, elem_of_seqZ in Hk. rewrite Hd by lia.
    replace (start + k - start) with k by lia. apply data_sector_padded; [done|]. fold n. lia.
  - apply slice_all. unfold padded. rewrite alen_app. fold n. unfold alen in *.
    rewrite length_take, length_replicate. lia.
Qed.

(** The slot [fs_add_entry] takes, and the name it leaves there. *)
Definition free_slot (l : list FileEntry) : option Z :=
  find_index (fun i => (name l.[i]).[0] =? 0) (Z.to_nat FS_MAX_FILES) 0.
Definition new_entry (l : list FileEntry) (i : Z) (nm : list Z) (start size : Z) : FileEntry :=
  mkFileEntry ((copy_name 23 0 nm (name l.[i])).[23 <- 0]) start size.

Lemma free_slot_Some l i : free_slot l = Some i -> 0 <= i < FS_MAX_FILES /\ ~ live l i.
Proof.
  intros (Hi & Hz%Z.eqb_eq & _)%find_index_Some. fs_consts. split; [lia|]. by intros [_ ?].
Qed.

Lemma free_slot_None l : free_slot l = None -> forall i, 0 <= i < FS_MAX_FILES -> live l i.
Proof.
  intros E i Hi. split; [done|]. apply Z.eqb_neq.
  apply (find_index_None _ _ _ E i). fs_consts. lia.
Qed.

Lemma new_entry_typed l bm i nm start size : dir_wf l bm -> good_name nm ->
  0 <= i < FS_MAX_FILES -> is_u32 start -> is_u32 size ->
  entry_typed (new_entry l i nm start size) /\
  (name (new_entry l i nm start size)).[23] = 0 /\
  (name (new_entry l i nm start size)).[0] <> 0 /\
  cstr (name (new_entry l i nm start size)) = take 23 nm.
Proof.
  intros Hd (Hne & Hb & Hnz) Hi Hst Hsz. pose proof (dw_typed _ _ Hd) as Ht.
  rewrite arr_Forall, (dw_len _ _ Hd) in Ht. destruct (Ht i Hi) as [Hl Hbn _ _].
  assert (Hn0 : 0 <= alen nm) by (unfold alen; lia).
  set (c := copy_name 23 0 nm (name l.[i])).
  assert (Hcl : alen c = 24) by (unfold c, alen in *; rewrite copy_name_length; lia).
  assert (Hcs : cstr (c.[23 <- 0]) = take 23 nm) by (by apply added_name).
  assert (Hcb : forall k, 0 <= k < 24 -> is_byte c.[k]).
  { intros k Hk. unfold c. rewrite copy_name_get by (done || lia).
    rewrite arr_Forall in Hb, Hbn. destruct (_ && _) eqn:E; [|apply Hbn; lia].
    apply andb_true_iff in E as [[E1%Z.leb_le E2]%andb_true_iff E3%Z.leb_le].
    destruct (decide (k = alen nm)) as [->|]; [|apply Hb; lia].
    rewrite arr_get_oob by lia. by split. }
  unfold new_entry. cbn [name start_lba size_sect]. fold c. clearbody c.
  split_and!; [split|..]; cbn [name start_lba size_sect]; try done.
  - by rewrite alen_arr_set.
  - apply arr_Forall. rewrite alen_arr_set. intros k Hk. rewrite arr_get_set by lia.
    destruct (23 =? k); [by split|]. apply Hcb. lia.
  - by rewrite arr_get_set_eq by lia.
  - rewrite <- cstr_nil_iff, Hcs. by destruct nm.
Qed.

Lemma add_entry_ok s nm start size i : working (dev s) -> free_slot (files (root s)) = Some i ->
  root_typed (set_files ((files (root s)).[i <- new_entry (files (root s)) i nm start size]) (root s)) ->
  let r' := set_files ((files (root s)).[i <- new_entry (files (root s)) i nm start size]) (root s) in
  exists d', fs_add_entry nm start size s = (true, mkFs r' (bitmap s) d' (console s)) /\
    writes (dev s) d' FS_ROOT_LBA 3 (root_sector r').
Proof.
  intros Hw Hslot Hr r'. unfold fs_add_entry, bind at 1, gets. fold (free_slot (files (root s))).
  rewrite Hslot. unfold bind at 1, modify. fold (new_entry (files (root s)) i nm start size). fold r'.
  destruct (root_save_ok (set_root r' s)) as (d' & E & W); [done..|].
  unfold bind. rewrite E. by exists d'.
Qed.

Lemma add_entry_full s nm start size : free_slot (files (root s)) = None ->
  exists c', fs_add_entry nm start size s = (false, mkFs (root s) (bitmap s) (dev s) c').
Proof.
  intros Hslot. unfold fs_add_entry, bind at 1, gets. fold (free_slot (files (root s))).
  rewrite Hslot. by eexists.
Qed.

(** The outcome of writing [data] under a name not yet in the directory. *)
Definition no_room s (count : Z) : Prop :=
  (forall k, 0 <= k -> k + count <= FS_DATA_SECTORS - 1 -> ~ free_run (bitmap s) k count) \/
  (forall i, 0 <= i < FS_MAX_FILES -> live (files (root s)) i).

(** Sectors written to a free run are nobody's. *)
Lemma lookup_frame s r' d' bm c nm : fs_wf s -> good_name nm ->
  (forall e lba, FS_DATA_LBA <= lba -> (exists i, live (files (root s)) i /\
     e = (files (root s)).[i]) -> covers e lba -> disk d' lba = disk (dev s) lba) ->
  find_entry nm (files r') = find_entry nm (files (root s)) ->
  (forall i, find_entry nm (files (root s)) = Some i ->
     (files r').[i] = (files (root s)).[i]) ->
  lookup_file (mkFs r' bm d' c) nm = lookup_file s nm.
Proof.
  intros Hwf Hnm Hdisk Hfe Hent. unfold lookup_file. cbn [root dev]. rewrite Hfe.
  destruct (find_entry nm (files (root s))) as [i|] eqn:E; [|done].
  rewrite (Hent i) by done. f_equal. apply (find_entry_Some _ (bitmap s)) in E as [Hl _];
    [|apply Hwf|done].
  destruct (dw_extent _ _ (fw_dir _ Hwf) i Hl) as (? & ? & ?).
  apply sectors_ext. intros l Hlr. apply (Hdisk (files (root s)).[i]); [lia|by exists i|].
  unfold covers. lia.
Qed.

Lemma write_sects size : 0 < size -> size + 511 < 4294967296 ->
  (size ⊕ 511) / 512 = (size + 511) / 512 /\ 0 < (size + 511) / 512 /\
  size <= 512 * ((size + 511) / 512) < size + 512 /\
  (Z.to_nat ((size + 511) / 512) <= transfer_fuel size)%nat.
Proof.
  intros H1 H2. rewrite u32_id by (unfold is_u32; lia). unfold transfer_fuel.
  pose proof (Z.div_mod (size + 511) 512 ltac:(lia)). pose proof (Z.mod_pos_bound (size + 511) 512 ltac:(lia)).
  pose proof (Z.div_mod size 512 ltac:(lia)). pose proof (Z.mod_pos_bound size 512 ltac:(lia)).
  lia.
Qed.

Lemma fs_wf_console s c : fs_wf s -> fs_wf (mkFs (root s) (bitmap s) (dev s) c).
Proof. intros [??????]. by split. Qed.

(** No live file covers a sector of a free run. *)
Lemma free_run_not_live l bm k n i lba : dir_wf l bm -> free_run bm k n ->
  0 <= k -> k + n <= FS_DATA_SECTORS - 1 -> live l i -> covers l.[i] lba ->
  ~ (FS_DATA_LBA + k <= lba < FS_DATA_LBA + k + n).
Proof.
  intros Hd Hrun Hk Hkn Hl Hc Hr.
  apply (proj2 (dw_map _ _ Hd (lba - FS_DATA_LBA) ltac:(lia))).
  - exists i. split; [done|]. by replace (FS_DATA_LBA + (lba - FS_DATA_LBA)) with lba by lia.
  - apply Hrun. lia.
Qed.

(** Up to the registration of the entry: the data is on disk and its sectors
    are marked. *)
Lemma write_data_ok s nm data size v k :
  fs_wf s -> Forall is_byte data -> 0 < size <= alen data -> size + 511 < 4294967296 ->
  let n := (size + 511) / 512 in
  let e := mkFileEntry [] (FS_DATA_LBA + k) n in
  bitmap_find_free_run n (bitmap s) = FS_DATA_LBA + k ->
  first_free_run (bitmap s) n k ->
  extent_ok e /\
  exists d1 d2,
    writes (dev s) d1 (FS_DATA_LBA + k) n (data_sector data size) /\
    writes d1 d2 FS_BITMAP_LBA 1 (fun _ => marked e 1 (bitmap s)) /\
    fs_write_new nm data size v s =
      (let! added := fs_add_entry nm (FS_DATA_LBA + k) n in
       if added then when v (kprint_line "Fichier ecrit avec succes.") ;; ret true
       else bitmap_mark (FS_DATA_LBA + k) n 0 ;; ret false)
        (mkFs (root s) (marked e 1 (bitmap s)) d2 (console s)).
Proof.
  intros Hwf Hb Hsz Hov n e Hfind (Hk0 & Hkn & Hrun & _).
  destruct (write_sects size) as (Hs & Hn & Hbnd & Hfuel); [lia..|]. fold n in Hs, Hn, Hbnd, Hfuel.
  assert (He : extent_ok e) by (unfold extent_ok, e; cbn; fs_consts; lia).
  split; [done|]. unfold fs_write_new. rewrite Hs. unfold bind at 1, gets. rewrite Hfind.
  rewrite (proj2 (Z.eqb_neq _ 0)) by (fs_consts; lia).
  destruct (write_loop_ok data size v (Z.to_nat n) Hb ltac:(lia) ltac:(lia)
    (transfer_fuel size) s (FS_DATA_LBA + k) 0 size 0) as (d1 & E1 & W1);
    [apply Hwf|done|done|fs_consts; lia..| |].
  { intros _. split_and!; lia. }
  unfold bind at 1. rewrite E1.
  destruct (bitmap_mark_ok (set_dev d1 s) e 1) as (d2 & E2 & W2);
    [apply W1|done|by split|eapply dir_wf_bitmap, Hwf|].
  exists d1, d2. rewrite Z2Nat.id in W1 by lia. split_and!; [exact W1|exact W2|].
  unfold bind at 1. cbn [start_lba size_sect e] in E2. by rewrite E2.
Qed.

Lemma write_new_full s nm data size v k :
  fs_wf s -> Forall is_byte data -> 0 < size <= alen data -> size + 511 < 4294967296 ->
  bitmap_find_free_run ((size + 511) / 512) (bitmap s) = FS_DATA_LBA + k ->
  first_free_run (bitmap s) ((size + 511) / 512) k -> free_slot (files (root s)) = None ->
  exists s', fs_write_new nm data size v s = (false, s') /\ fs_wf s' /\ root s' = root s /\
    forall nm', good_name nm' -> lookup_file s' nm' = lookup_file s nm'.
Proof.
  intros Hwf Hb Hsz Hov Hfind Hrun Hslot. set (n := (size + 511) / 512) in *.
  set (e := mkFileEntry [] (FS_DATA_LBA + k) n).
  destruct (write_data_ok s nm data size v k) as (He & d1 & d2 & W1 & W2 & ->); [done..|].
  fold n in He, W1, W2 |- *. fold e in He, W2 |- *. destruct Hrun as (Hk0 & Hkn & Hrun & _).
  assert (Hrun' : free_run (bitmap s) (start_lba e - FS_DATA_LBA) (size_sect e)).
  { unfold e; cbn. by replace (FS_DATA_LBA + k - FS_DATA_LBA) with k by lia. }
  pose proof (fw_dir _ Hwf) as Hd. pose proof (dw_bm_len _ _ Hd) as Hbl.
  set (s2 := mkFs (root s) (marked e 1 (bitmap s)) d2 (console s)).
  destruct (add_entry_full s2 nm (FS_DATA_LBA + k) n Hslot) as (c' & E3).
  unfold bind at 1. rewrite E3.
  destruct (bitmap_mark_ok (mkFs (root s2) (bitmap s2) (dev s2) c') e 0) as (d4 & E4 & W4);
    [apply W2|done|by split| |].
  { split; [exact (proj1 (marked_spec e 1 _ He Hbl))|].
    apply marked_bytes; [done|by split|done|apply Hd]. }
  unfold e in E4 at 1 2. cbn [start_lba size_sect] in E4. unfold bind. rewrite E4.
  cbn [bitmap root dev console s2] in W4 |- *. rewrite marked_undo in W4 |- * by done.
  eexists. split; [reflexivity|].
  assert (Hdisk : forall l, l < FS_BITMAP_LBA \/ FS_DATA_LBA <= l ->
    ~ (FS_DATA_LBA + k <= l < FS_DATA_LBA + k + n) -> disk d4 l = disk (dev s) l).
  { intros l Hl Hnl. rewrite (proj2 W4), (proj2 W2), (proj2 W1). fs_consts. zcases. }
  split; [split; try apply Hwf; cbn|split; [done|]].
  - apply W4.
  - intros j Hj. rewrite Hdisk by (fs_consts; lia). by apply Hwf.
  - rewrite (proj2 W4). fs_consts. zcases.
  - intros nm' Hnm'. apply lookup_frame; try done.
    intros e' lba Hlba (i & Hl & ->) Hc. apply Hdisk; [by right|].
    by eapply free_run_not_live.
Qed.

(** The directory and the map once the file is registered. *)
Lemma write_new_dir s nm i k n : fs_wf s -> good_name nm -> first_free_run (bitmap s) n k ->
  0 < n -> free_slot (files (root s)) = Some i ->
  find_entry (take 23 nm) (files (root s)) = None ->
  let e := new_entry (files (root s)) i nm (FS_DATA_LBA + k) n in
  dir_wf ((files (root s)).[i <- e]) (marked e 1 (bitmap s)).
Proof.
  intros Hwf Hnm (Hk0 & Hkn & Hrun & _) Hn Hslot Hnone e.
  apply free_slot_Some in Hslot as [Hi Hnl]. pose proof (fw_dir _ Hwf) as Hd.
  destruct (new_entry_typed (files (root s)) (bitmap s) i nm (FS_DATA_LBA + k) n)
    as (Het & H23 & H0 & Hcs); [done|done|done|unfold is_u32; fs_consts; lia..|]. fold e in Het, H23, H0, Hcs.
  apply dir_wf_add; try done.
  - unfold extent_ok, e; cbn. fs_consts. lia.
  - rewrite Hcs. eapply find_entry_None; [done| |done].
    destruct Hnm as (Hne & Hb & Hnz). split_and!; [|by apply Forall_take..]. by destruct nm.
  - unfold e; cbn. by replace (FS_DATA_LBA + k - FS_DATA_LBA) with k by lia.
Qed.

Lemma write_new_added s nm data size v k i :
  fs_wf s -> good_name nm -> Forall is_byte data -> 0 < size <= alen data ->
  size + 511 < 4294967296 -> find_entry (take 23 nm) (files (root s)) = None ->
  bitmap_find_free_run ((size + 511) / 512) (bitmap s) = FS_DATA_LBA + k ->
  first_free_run (bitmap s) ((size + 511) / 512) k -> free_slot (files (root s)) = Some i ->
  exists s', fs_write_new nm data size v s = (true, s') /\ fs_wf s' /\
    forall nm', good_name nm' -> lookup_file s' nm' =
      if decide (nm' = take 23 nm) then Some (padded data size) else lookup_file s nm'.
Proof.
  intros Hwf Hnm Hb Hsz Hov Hnone Hfind Hrun Hslot.
  destruct (write_sects size) as (_ & Hn & _); [lia..|]. set (n := (size + 511) / 512) in *.
  destruct (write_data_ok s nm data size v k) as (_ & d1 & d2 & W1 & W2 & ->); [done..|].
  fold n in W1, W2 |- *. set (l := files (root s)) in *.
  pose proof (write_new_dir s nm i k n Hwf Hnm Hrun Hn Hslot Hnone) as Hd'. cbn zeta in Hd'.
  fold l in Hd'. set (e := new_entry l i nm (FS_DATA_LBA + k) n) in *.
  change (marked (mkFileEntry [] (FS_DATA_LBA + k) n)) with (marked e) in W2 |- *.
  pose proof (root_typed_set_files _ _ _ (fw_root _ Hwf) Hd') as Hr'.
  destruct (add_entry_ok (mkFs (root s) (marked e 1 (bitmap s)) d2 (console s))
    nm (FS_DATA_LBA + k) n i) as (d3 & E3 & W3); [apply W2|done|done|].
  unfold bind at 1. rewrite E3. cbn [root bitmap console files] in W3 |- *. fold l in W3 |- *.
  fold e in W3 |- *. set (r' := set_files (l.[i <- e]) (root s)) in *.
  exists (mkFs r' (marked e 1 (bitmap s)) d3
    (console s ++ if v then text "Fichier ecrit avec succes." ++ newline else [])).
  destruct (fs_wf_saved (set_dev d1 s) r' (marked e 1 (bitmap s)) d2 d3
    (console s ++ if v then text "Fichier ecrit avec succes." ++ newline else []))
    as [Hwf' Hsame]; [done|apply Hwf|done|exact W2|exact W3|].
  split; [destruct v; cbn; rewrite ?app_nil_r; done|]. split; [done|].
  intros nm' Hnm'. pose proof (proj1 (free_slot_Some _ _ Hslot)) as Hi.
  destruct (new_entry_typed l (bitmap s) i nm (FS_DATA_LBA + k) n)
    as (_ & _ & H0 & Hcs); [apply Hwf|done|done|unfold is_u32, first_free_run in *; fs_consts; lia..|].
  fold e in H0, Hcs. destruct Hrun as (Hk0 & Hkn & Hrun & _).
  assert (Hfe : find_entry nm' (files r') =
    if decide (nm' = take 23 nm) then Some i else find_entry nm' l).
  { rewrite <- Hcs. apply (find_entry_add l (bitmap s) (marked e 1 (bitmap s)));
      [apply Hwf|done|done|by apply free_slot_Some|done|done]. }
  destruct (decide (nm' = take 23 nm)) as [->|Hne].
  - unfold lookup_file. cbn [root dev]. rewrite Hfe. unfold r'. cbn [files set_files].
    rewrite arr_get_set_eq by (pose proof (dw_len _ _ (fw_dir _ Hwf)) as Hll; fold l in Hll; lia).
    f_equal. change (content d3 e) with (sectors d3 (FS_DATA_LBA + k) (Z.to_nat n)).
    apply content_written; [lia|]. fold n. intros lba Hl.
    rewrite (Hsame lba) by lia. cbn [dev set_dev]. rewrite (proj2 W1). zcases.
  - apply lookup_frame; [done|done| |done|].
    + intros e' lba Hlba (j & Hl & ->) Hc. rewrite (Hsame lba) by done. cbn [dev set_dev].
      rewrite (proj2 W1). pose proof (free_run_not_live l (bitmap s) k n j lba (fw_dir _ Hwf)
        Hrun Hk0 Hkn Hl Hc). zcases.
    + intros j Hj. unfold r'. cbn [files set_files]. apply arr_get_set_ne. intros <-.
      apply (find_entry_Some _ (bitmap s)) in Hj as [Hl _]; [|apply Hwf|done].
      by apply (free_slot_Some _ _ Hslot).
Qed.

(** ** Looking up, and overwriting *)

Lemma lookup_delete s nm nm' i bm d' c' : fs_wf s -> good_name nm -> good_name nm' ->
  find_entry nm (files (root s)) = Some i -> same_data (dev s) d' ->
  lookup_file (mkFs (set_files ((files (root s)).[i <- zero_entry]) (root s)) bm d' c') nm' =
  if decide (nm' = nm) then None else lookup_file s nm'.
Proof.
  intros Hwf Hnm Hnm' Hf Hsame. pose proof (fw_dir _ Hwf) as Hd.
  apply (find_entry_Some _ (bitmap s)) in Hf as [Hl Hc]; [|done..].
  unfold lookup_file. cbn [root dev files set_files].
  rewrite (find_entry_delete _ (bitmap s)), Hc by done. case_decide as Hdec; [done|].
  destruct (find_entry nm' (files (root s))) as [j|] eqn:E; [|done].
  apply (find_entry_Some _ (bitmap s)) in E as [Hlj Hcj]; [|done..].
  rewrite arr_get_set_ne by congruence. f_equal. apply content_same_data; [done|].
  by apply (dw_extent _ _ Hd j Hlj).
Qed.

Lemma fs_file_exists_ok s nm : good_name nm ->
  fs_file_exists (Some nm) s = (bool_decide (is_Some (lookup_file s nm)), s).
Proof.
  intros Hnm. unfold fs_file_exists, lookup_file, gets. rewrite (name_arg_good nm) by done.
  by destruct (find_entry nm (files (root s))).
Qed.

(** The state in which [fs_write_file_impl] starts to allocate: the old file
    of that name is gone, everything else is as before. *)
Lemma remove_old_ok s nm data size v : fs_wf s -> good_name nm -> size <> 0 ->
  exists s1, fs_write_file_impl (Some nm) (Some data) size v s = fs_write_new nm data size v s1 /\
    fs_wf s1 /\ forall nm', good_name nm' ->
      lookup_file s1 nm' = if decide (nm' = nm) then None else lookup_file s nm'.
Proof.
  intros Hwf Hnm Hsz. unfold fs_write_file_impl. rewrite (name_arg_good nm) by done.
  rewrite (proj2 (Z.eqb_neq size 0)) by done.
  unfold fs_file_exists. rewrite (name_arg_good nm) by done. unfold bind at 1, gets.
  destruct (find_entry nm (files (root s))) as [i|] eqn:E.
  - rewrite bool_decide_true by eauto. cbn [when].
    destruct (delete_ok s nm false i) as (d' & c' & E' & Hwf' & Hsame); [done..|].
    unfold bind. rewrite E'. eexists. split; [reflexivity|]. split; [done|].
    intros nm' Hnm'. by apply lookup_delete.
  - rewrite bool_decide_false by (by intros []). exists s. split; [done|]. split; [done|].
    intros nm' _. case_decide as Hd; [|done]. unfold lookup_file. by rewrite Hd, E.
Qed.
End working.
