(* ===== verification/FsProps.v ===== *)
(** * Properties of the file system

    Reboot recovery (loading the directory back from disk), and the
    theorems about [drivers/fs.c] that hold on any working block device. *)
From Stdlib Require Import String.
From stdpp Require Import base numbers list list_numbers.
From S2P Require Import Prelude BlockDev Fs FsData FsProofs.

Section reboot.
Context {D : Type} {BD : BlockDevice D} {BL : BlockDeviceLaws D}.
Context (big_enough : FS_DATA_END_LBA <= nsectors).
Implicit Types (s : fs D) (d : D).

(** The directory bytes on disk. *)
Definition disk_root d : list Z :=
  build sizeof_RootDirectory (fun i => (disk d (FS_ROOT_LBA + i / 512)).[i mod 512]).

Lemma disk_root_bytes d : Forall is_byte (disk_root d).
Proof.
  apply arr_Forall. unfold disk_root. rewrite alen_build by done. intros i Hi.
  rewrite build_get by done. destruct (disk_sector d (FS_ROOT_LBA + i / 512)) as [Hl Hb].
  rewrite arr_Forall, Hl in Hb. apply Hb. unfold SECTOR. apply Z.mod_pos_bound. lia.
Qed.

(** One iteration of the loading loop. *)
Lemma root_load_step k b raw : 0 <= k < 3 -> is_sector b ->
  alen raw = sizeof_RootDirectory -> Forall is_byte raw ->
  let chunk := chunk_of (sizeof_RootDirectory - k * 512) in
  let raw' := for_loop (Z.to_nat chunk) 0 (fun i r => r.[k * 512 + i <- b.[i]]) raw in
  alen raw' = sizeof_RootDirectory /\ Forall is_byte raw' /\
  forall i, 0 <= i < sizeof_RootDirectory ->
    raw'.[i] = if (k * 512 <=? i) && (i <? (k + 1) * 512) then b.[i - k * 512] else raw.[i].
Proof.
  intros Hk [Hbl Hbb] Hlen Hraw chunk raw'.
  assert (Hc : chunk = Z.min 512 (1056 - k * 512)) by apply chunk_of_min.
  assert (Hl : alen raw' = sizeof_RootDirectory) by (unfold raw', alen in *; by rewrite length_for_set).
  assert (Hget : forall i, 0 <= i < sizeof_RootDirectory ->
    raw'.[i] = if (k * 512 <=? i) && (i <? (k + 1) * 512) then b.[i - k * 512] else raw.[i]).
  { intros i Hi. unfold raw'. rewrite for_set_get by (fs_consts; lia). fs_consts. zcases. }
  split_and!; [done| |done]. apply arr_Forall. rewrite Hl. intros i Hi. rewrite Hget by done.
  rewrite arr_Forall in Hbb, Hraw. fs_consts. zcases; [apply Hbb|apply Hraw..]; lia.
Qed.

Lemma root_load_from_ok n : forall s k, working (dev s) -> root_typed (root s) ->
  0 <= k -> k + Z.of_nat n = 3 ->
  exists d' r, fs_root_load_from n k s = (true, mkFs r (bitmap s) d' (console s)) /\
    same_disk (dev s) d' /\ root_typed r /\
    forall i, 0 <= i < sizeof_RootDirectory -> (encode_root r).[i] =
      if k * 512 <=? i then (disk_root (dev s)).[i] else (encode_root (root s)).[i].
Proof.
  induction n as [|n IH]; intros s k Hw Hr Hk Hn.
  { exists (dev s), (root s). split_and!; [by destruct s|done|done|]. intros i Hi. fs_consts. zcases. }
  cbn [fs_root_load_from]. unfold bind at 1.
  destruct (read_sector_ok s (FS_ROOT_LBA + k)) as (d1 & -> & [Hw1 Hd1]); [done|fs_consts; lia|].
  unfold bind, modify. set (raw' := for_loop _ _ _ _).
  destruct (root_load_step k (disk (dev s) (FS_ROOT_LBA + k)) (encode_root (root s)))
    as (Hl & Hb & Hget); [lia|apply disk_sector|by apply alen_encode_root|by apply encode_root_bytes|].
  change (for_loop _ _ _ _) with raw' in Hl, Hb, Hget.
  destruct (encode_decode_root raw' Hl Hb) as [Henc Hty].
  destruct (IH (set_root (decode_root raw') (set_dev d1 s)) (k + 1)) as (d' & r & -> & [Hw' Hd'] & Hrt & Hr');
    [done|done|lia|lia|]. exists d', r. split_and!; [done|split; [done|]|done|].
  - intros l. rewrite Hd'. apply Hd1.
  - intros i Hi. rewrite Hr' by done. cbn [root dev set_root set_dev]. rewrite Henc, Hget by done.
    assert (Hsame : disk_root d1 = disk_root (dev s)) by (apply build_ext; intros; by rewrite Hd1).
    rewrite Hsame. unfold disk_root. fs_consts. rewrite build_get by lia.
    destruct (Z.leb_spec ((k + 1) * 512) i), (Z.leb_spec (k * 512) i), (Z.ltb_spec i ((k + 1) * 512));
      cbn [andb]; try lia.
    replace (i / 512) with k by (apply (Z.div_unique_pos i 512 k (i - k * 512)); lia).
    replace (i mod 512) with (i - k * 512) by (apply (Z.mod_unique_pos i 512 k); lia). done.
Qed.

Lemma root_load_ok s : working (dev s) -> root_typed (root s) ->
  exists d' r, fs_root_load s = (true, mkFs r (bitmap s) d' (console s)) /\
    same_disk (dev s) d' /\ root_typed r /\ encode_root r = disk_root (dev s).
Proof.
  intros Hw Hr. destruct (root_load_from_ok 3 s 0) as (d' & r & E & Hd & Hrt & Henc); [done..|].
  exists d', r. split_and!; try done. apply arr_ext.
  - by rewrite alen_encode_root; unfold disk_root; rewrite ?alen_build.
  - rewrite alen_encode_root by done. intros i Hi. rewrite Henc by done. fs_consts. zcases.
Qed.

(** On a well-formed file system the bytes on disk are those of the cached
    directory. *)
Lemma disk_root_synced s : fs_wf s -> disk_root (dev s) = encode_root (root s).
Proof.
  intros Hwf. pose proof (alen_encode_root _ (fw_root _ Hwf)) as Hlen.
  apply arr_ext; unfold disk_root; rewrite alen_build by done; [done|].
  intros i Hi. rewrite build_get by done. fs_consts.
  pose proof (Z.div_mod i 512 ltac:(lia)). pose proof (Z.mod_pos_bound i 512 ltac:(lia)).
  pose proof (fw_sync_root _ Hwf (i / 512) ltac:(lia)) as Hs. fs_consts. rewrite Hs.
  unfold root_sector. rewrite build_get by lia. rewrite chunk_of_min. fs_consts.
  zcases. f_equal. lia.
Qed.

Lemma init_ok s s0 : fs_wf s -> root_typed (root s0) -> dev s0 = dev s ->
  exists d', fs_init s0 = (tt, mkFs (root s) (bitmap s) d' (console s0)) /\ same_disk (dev s) d'.
Proof.
  intros Hwf Hr0 Hdev. destruct (root_load_ok s0) as (d1 & r & E & [Hw1 Hd1] & Hrt & Henc);
    [rewrite Hdev; apply Hwf|done|].
  rewrite Hdev in Henc, Hd1. rewrite disk_root_synced in Henc by done.
  assert (r = root s) as ->.
  { rewrite <- (decode_encode_root r Hrt), Henc. apply decode_encode_root, Hwf. }
  unfold fs_init, bind at 1. rewrite E. unfold bind at 1, gets. cbn [root negb orb].
  rewrite (fw_magic _ Hwf), Z.eqb_refl. cbn [negb].
  destruct (read_sector_ok (mkFs (root s) (bitmap s0) d1 (console s0)) FS_BITMAP_LBA)
    as (d2 & E2 & [Hw2 Hd2]); [done|fs_consts; lia|].
  unfold bind. rewrite E2. exists d2. cbn [dev] in *. rewrite Hd1, (fw_sync_map _ Hwf).
  split; [done|]. split; [done|]. intros l. by rewrite Hd2.
Qed.
End reboot.

(** ** Formatting *)

Definition formatted_root : RootDirectory :=
  mkRoot FS_MAGIC (files zero_root) FS_DATA_LBA (reserved zero_root).

Lemma zero_root_typed : root_typed zero_root.
Proof.
  apply encode_decode_root; [by apply alen_build|].
  apply arr_Forall. rewrite alen_build by done. intros i Hi. by rewrite build_get.
Qed.

Lemma zero_root_names i j : 0 <= i < FS_MAX_FILES -> 0 <= j < 24 ->
  (name (files zero_root).[i]).[j] = 0.
Proof.
  intros Hi Hj. unfold zero_root, decode_root. cbn [files]. rewrite build_get by done.
  unfold decode_entry. cbn [name]. fs_consts.
  assert (Hb : alen (build 1056 (fun _ => 0)) = 1056) by by apply alen_build.
  rewrite slice_get by (rewrite ?alen_slice by lia; lia). rewrite slice_get by lia.
  apply build_get. lia.
Qed.

Lemma zero_bitmap_sector : is_sector zero_bitmap.
Proof. apply is_sector_build. by split. Qed.

Lemma formatted_dir : dir_wf (files formatted_root) zero_bitmap.
Proof.
  assert (Hnone : forall i, ~ live (files formatted_root) i).
  { intros i [Hi Hn]. apply Hn, zero_root_names; [done|lia]. }
  split; try (intros i; intros; by destruct (Hnone i)).
  - apply zero_root_typed.
  - apply zero_root_typed.
  - intros i Hi. apply zero_root_names; [done|lia].
  - apply zero_bitmap_sector.
  - apply zero_bitmap_sector.
  - intros k Hk. split.
    + intros Hz. destruct Hz. apply build_get. fs_consts. lia.
    + intros (i & Hl & _). by destruct (Hnone i).
Qed.

Lemma formatted_typed : root_typed formatted_root.
Proof. destruct zero_root_typed as [??????]. by split. Qed.

Section props.
Context {D : Type} {BD : BlockDevice D} {BL : BlockDeviceLaws D}.
Context (big_enough : FS_DATA_END_LBA <= nsectors).
Implicit Types (s : fs D) (d : D).

Lemma format_ok s : working (dev s) -> root_typed (root s) ->
  magic (decode_root (disk_root (dev s))) <> FS_MAGIC ->
  exists s', fs_init s = (tt, s') /\ fs_wf s' /\ root s' = formatted_root.
Proof.
  intros Hw Hr Hmag. destruct (root_load_ok big_enough s Hw Hr) as (d1 & r & E & [Hw1 _] & Hrt & Henc).
  rewrite <- Henc, decode_encode_root in Hmag by done.
  unfold fs_init, bind at 1. rewrite E. unfold bind at 1, gets. cbn [root negb orb].
  rewrite (proj2 (Z.eqb_neq _ _) Hmag). cbn [negb]. unfold bind at 1 2, modify.
  set (s1 := set_bitmap _ _).
  destruct (bitmap_persist_ok big_enough s1) as (d2 & E2 & W2); [done|apply zero_bitmap_sector|].
  unfold bind at 1. rewrite E2.
  destruct (root_save_ok big_enough (set_dev d2 s1)) as (d3 & E3 & W3); [apply W2|apply formatted_typed|].
  unfold bind, ret. rewrite E3. eexists. split; [reflexivity|]. split; [|done].
  apply (fs_wf_saved s1 formatted_root zero_bitmap d2 d3); try done.
  - apply formatted_typed.
  - apply formatted_dir.
Qed.

Lemma lookup_formatted s nm : root s = formatted_root -> good_name nm -> lookup_file s nm = None.
Proof.
  intros Hr Hnm. unfold lookup_file. rewrite Hr.
  destruct (find_entry nm (files formatted_root)) as [i|] eqn:E; [|done].
  apply (find_entry_Some _ zero_bitmap) in E as [[Hi Hn] _]; [|apply formatted_dir|done].
  destruct Hn. apply zero_root_names; [done|lia].
Qed.

(** Writing a file. *)
Lemma fs_write_file_ok s nm data size v :
  fs_wf s -> good_name nm -> alen nm <= 23 -> Forall is_byte data ->
  0 < size <= alen data -> size + 511 < 4294967296 ->
  exists r s', fs_write_file_impl (Some nm) (Some data) size v s = (r, s') /\ fs_wf s' /\
  (forall nm', good_name nm' -> nm' <> nm -> lookup_file s' nm' = lookup_file s nm') /\
  ((r = true /\ lookup_file s' nm = Some (padded data size)) \/
   (r = false /\ lookup_file s' nm = None /\ no_room s' ((size + 511) / 512))).
Proof.
  intros Hwf Hnm Hlen Hb Hsz Hov.
  destruct (remove_old_ok big_enough s nm data size v) as (s1 & -> & Hwf1 & Hlk); [done|done|lia|].
  assert (Htake : take 23 nm = nm) by (apply take_ge; unfold alen in Hlen; lia).
  assert (Hnone : find_entry (take 23 nm) (files (root s1)) = None).
  { rewrite Htake. specialize (Hlk nm Hnm). rewrite decide_True in Hlk by done.
    unfold lookup_file in Hlk. by destruct (find_entry nm _). }
  assert (Hother : forall nm', good_name nm' -> nm' <> nm -> lookup_file s1 nm' = lookup_file s nm')
    by (intros; by rewrite Hlk, decide_False).
  assert (Hself : lookup_file s1 nm = None) by (by rewrite Hlk, decide_True).
  destruct (write_sects size) as (Hs & Hn & _); [lia..|].
  destruct (bitmap_find_free_run_spec ((size + 511) / 512) (bitmap s1) Hn)
    as [[Hz Hno]|(k & Hfind & Hrun)].
  - exists false. unfold fs_write_new, bind at 1, gets. rewrite Hs, Hz.
    unfold when, kprint_line, kprint, bind, modify, ret.
    destruct v; eexists; (split; [reflexivity|]).
    + split; [by apply fs_wf_console|]. split; [exact Hother|]. right.
      split_and!; [done|exact Hself|by left].
    + split_and!; [done..|]. right. split_and!; [done..|by left].
  - destruct (free_slot (files (root s1))) as [i|] eqn:Hslot.
    + destruct (write_new_added big_enough s1 nm data size v k i) as (s' & -> & Hwf' & Hlk'); [done..|].
      exists true, s'. rewrite Htake in Hlk'. split_and!; [done..| |].
      * intros nm' Hn' Hne. rewrite Hlk', decide_False by done. by apply Hother.
      * left. by rewrite Hlk', decide_True.
    + destruct (write_new_full big_enough s1 nm data size v k) as (s' & -> & Hwf' & Hr & Hlk'); [done..|].
      exists false, s'. split_and!; [done..| |].
      * intros nm' Hn' Hne. rewrite Hlk' by done. by apply Hother.
      * right. rewrite Hlk' by done. split_and!; [done..|]. right. rewrite Hr.
        by apply free_slot_None.
Qed.

(** C5: [fs_write_file] on a working device, for a name of at most 23 characters
    (the longest that the directory stores; see [fs_long_name_lost]) and a
    size from 1 to the length of the data, binds the name to the data padded to whole sectors
    and leaves every other file as it was.  It fails only for lack of a long
    enough run of free sectors or of a directory slot, and then the previous
    file of that name is gone (it was deleted first) and every other file is
    intact.  The invariant (directory, allocation map and their copies on
    disk) is kept in every case. *)
Theorem fs_write_file_correct s nm data size v :
  fs_wf s -> good_name nm -> alen nm <= 23 -> Forall is_byte data ->
  0 < size <= alen data -> size + 511 < 4294967296 ->
  exists r s', fs_write_file_impl (Some nm) (Some data) size v s = (r, s') /\ fs_wf s' /\
  (forall nm', good_name nm' -> nm' <> nm -> lookup_file s' nm' = lookup_file s nm') /\
  ((r = true /\ lookup_file s' nm = Some (padded data size)) \/
   (r = false /\ lookup_file s' nm = None /\ no_room s' ((size + 511) / 512))).
Proof. apply fs_write_file_ok. Qed.

(** Deleting a file. *)
Lemma fs_delete_file_ok s nm v :
  fs_wf s -> good_name nm ->
  exists s', fs_delete_file_impl (Some nm) v s = (bool_decide (is_Some (lookup_file s nm)), s') /\
    fs_wf s' /\ forall nm', good_name nm' ->
      lookup_file s' nm' = if decide (nm' = nm) then None else lookup_file s nm'.
Proof.
  intros Hwf Hnm. destruct (find_entry nm (files (root s))) as [i|] eqn:E.
  - destruct (delete_ok big_enough s nm v i) as (d' & c' & E' & Hwf' & Hsame); [done..|].
    eexists. rewrite E'. split; [|split; [exact Hwf'|]].
    + unfold lookup_file. by rewrite E.
    + intros nm' Hnm'. by apply lookup_delete.
  - destruct (delete_none s nm v Hnm E) as (c' & E'). eexists. rewrite E'.
    split; [unfold lookup_file; by rewrite E|]. split; [by apply fs_wf_console|].
    intros nm' _. unfold lookup_file at 1. cbn [root dev].
    case_decide as Hd; [by rewrite Hd, E|done].
Qed.

(** C6: [fs_delete_file] removes exactly the named file (reporting whether it
    was there), keeps the invariant, so the sectors it occupied become free
    again, and leaves every other file as it was. *)
Theorem fs_delete_file_correct s nm v :
  fs_wf s -> good_name nm ->
  exists s', fs_delete_file_impl (Some nm) v s = (bool_decide (is_Some (lookup_file s nm)), s') /\
    fs_wf s' /\ forall nm', good_name nm' ->
      lookup_file s' nm' = if decide (nm' = nm) then None else lookup_file s nm'.
Proof. apply fs_delete_file_ok. Qed.

(** What the guards of the readers see of a file that is there. *)
Lemma found_entry s nm i : fs_wf s -> good_name nm -> find_entry nm (files (root s)) = Some i ->
  let e := (files (root s)).[i] in
  bad_metadata e = false /\ size_sect e ⊗ 512 = 512 * size_sect e /\
  alen (content (dev s) e) = 512 * size_sect e /\
  FS_DATA_LBA <= start_lba e /\ 0 < size_sect e /\ start_lba e + size_sect e <= FS_DATA_END_LBA.
Proof.
  intros Hwf Hnm E. apply (find_entry_Some _ (bitmap s)) in E as [Hl _]; [|apply Hwf|done].
  destruct (dw_extent _ _ (fw_dir _ Hwf) i Hl) as (H1 & H2 & H3). cbn zeta.
  set (e := (files (root s)).[i]) in *. split_and!; [| | |done..].
  - unfold bad_metadata. rewrite u32_id by (unfold is_u32; fs_consts; lia). fs_consts. zcases.
  - rewrite u32_id by (unfold is_u32; fs_consts; lia). lia.
  - unfold content, sectors. rewrite (alen_concat 512).
    + rewrite alen_map. unfold alen. rewrite length_seqZ. lia.
    + apply Forall_fmap, Forall_true. intros l. apply disk_sector.
Qed.

Lemma fs_load_file_ok s nm max_size :
  fs_wf s -> good_name nm ->
  exists s', root s' = root s /\ bitmap s' = bitmap s /\ same_disk (dev s) (dev s') /\
  fs_load_file (Some nm) false max_size s =
    (match lookup_file s nm with
     | Some c => if alen c <=? max_size then (true, c) else (false, [])
     | None => (false, [])
     end, s').
Proof.
  intros Hwf Hnm. unfold fs_load_file. rewrite (name_arg_good nm) by done.
  unfold bind at 1, gets, lookup_file.
  assert (Hsd : same_disk (dev s) (dev s)) by (split; [apply Hwf|done]).
  destruct (find_entry nm (files (root s))) as [i|] eqn:E;
    [|by refine (ex_intro _ _ (conj _ (conj _ (conj _ eq_refl))))].
  destruct (found_entry s nm i Hwf Hnm E) as (Hbad & Hmul & Hal & H1 & H2 & H3).
  set (e := (files (root s)).[i]) in *. rewrite Hbad, Hal, Hmul.
  destruct (Z.ltb_spec max_size (512 * size_sect e)).
  { rewrite (proj2 (Z.leb_gt _ _)) by done.
    by refine (ex_intro _ _ (conj _ (conj _ (conj _ eq_refl)))). }
  rewrite (proj2 (Z.leb_le _ _)) by done.
  destruct (load_loop_ok (Z.to_nat (size_sect e)) (transfer_fuel (512 * size_sect e)) s (start_lba e) [])
    as (d' & El & Hd'); [apply Hwf| |fs_consts; lia..|].
  - unfold transfer_fuel. rewrite Z.mul_comm, Z.div_mul by lia. lia.
  - rewrite Z2Nat.id in El by lia. rewrite El. by exists (set_dev d' s).
Qed.

(** C7: [fs_load_file] returns exactly the contents bound to the name when
    they fit in the caller's buffer, and fails otherwise (no such file, or
    file larger than [max_size]); it never changes the file system. *)
Theorem fs_load_file_correct s nm max_size :
  fs_wf s -> good_name nm ->
  exists s', root s' = root s /\ bitmap s' = bitmap s /\ same_disk (dev s) (dev s') /\
  fs_load_file (Some nm) false max_size s =
    (match lookup_file s nm with
     | Some c => if alen c <=? max_size then (true, c) else (false, [])
     | None => (false, [])
     end, s').
Proof. apply fs_load_file_ok. Qed.

(** A character as [print_text_buffer] shows it. *)
Definition shown (c : Z) : Z := if printable c then c else 46.

Lemma read_loop_ok n : forall fuel s lba, working (dev s) -> (n <= fuel)%nat ->
  0 <= lba -> lba + Z.of_nat n <= nsectors -> 512 * Z.of_nat n < 4294967296 ->
  exists d', read_loop fuel lba (512 * Z.of_nat n) s =
      (tt, mkFs (root s) (bitmap s) d'
             (console s ++ map shown (sectors (dev s) lba n) ++ newline)) /\
    same_disk (dev s) d'.
Proof.
  pose proof nsectors_lba28 as H28.
  induction n as [|n IH]; intros fuel s lba Hw Hf Hl0 Hl Hn.
  { exists (dev s). split; [|done]. by destruct fuel. }
  destruct fuel as [|fuel]; [lia|]. cbn [read_loop].
  rewrite (proj2 (Z.ltb_lt 0 _)) by lia. unfold bind.
  destruct (read_sector_ok s lba) as (d1 & -> & [Hw1 Hd1]); [done|lia|].
  rewrite chunk_of_min, Z.min_l, (u32_id (lba + 1)) by (unfold is_u32; lia).
  replace (512 * Z.of_nat (S n) - 512) with (512 * Z.of_nat n) by lia.
  rewrite u32_id by (unfold is_u32; lia). unfold print_text_buffer, kprint, modify.
  match goal with |- context [console (set_dev _ _) ++ ?t] => set (line := t) end.
  assert (Hline : line = map shown (disk (dev s) lba)).
  { rewrite <- (build_get_id (disk (dev s) lba) 512) by apply disk_sector. by rewrite map_build. }
  destruct (IH fuel (mkFs (root s) (bitmap s) d1 (console s ++ line)) (lba + 1))
    as (d2 & E2 & [Hw2 Hd2]); [done|lia..|]. cbn [root bitmap dev console set_dev].
  rewrite E2. exists d2. split.
  - cbn [root bitmap dev console]. rewrite (sectors_ext (dev s) d1) by auto.
    by rewrite Hline, sectors_S, map_app, <- !app_assoc.
  - split; [done|]. intros l. rewrite Hd2. apply Hd1.
Qed.

(** Printing a file. *)
Lemma fs_read_file_ok s nm : fs_wf s -> good_name nm ->
  exists d', same_disk (dev s) d' /\
  fs_read_file (Some nm) s = (tt, mkFs (root s) (bitmap s) d' (console s ++
    match lookup_file s nm with
    | Some c => text "Lecture de : " ++ cstr nm ++ newline ++ map shown c ++ newline
    | None => text "Fichier introuvable : " ++ cstr nm ++ newline
    end)).
Proof.
  intros Hwf Hnm. unfold fs_read_file. rewrite (name_arg_good nm) by done.
  unfold bind at 1, gets, lookup_file.
  destruct (find_entry nm (files (root s))) as [i|] eqn:E.
  - destruct (found_entry s nm i Hwf Hnm E) as (Hbad & Hmul & _ & H1 & H2 & H3).
    set (e := (files (root s)).[i]) in *. rewrite Hbad, Hmul.
    unfold bind, kprint, modify. cbn [root bitmap dev console].
    match goal with |- context [read_loop _ _ _ ?st] => set (s1 := st) end.
    destruct (read_loop_ok (Z.to_nat (size_sect e)) (transfer_fuel (512 * size_sect e)) s1 (start_lba e))
      as (d' & El & Hd'); [apply Hwf| |fs_consts; lia..|].
    + unfold transfer_fuel. rewrite Z.mul_comm, Z.div_mul by lia. lia.
    + rewrite Z2Nat.id in El by lia. rewrite El. exists d'. split; [exact Hd'|].
      unfold s1. cbn [root bitmap dev console]. by rewrite <- !app_assoc.
  - exists (dev s). split; [split; [apply Hwf|done]|].
    unfold not_found, bind, kprint, modify. cbn [root bitmap dev console]. by rewrite <- !app_assoc.
Qed.

(** [fs_read_file] prints the header line and the file's content with
    unprintable characters as dots, or the not-found message; nothing else
    changes. *)
Theorem fs_read_file_correct s nm : fs_wf s -> good_name nm ->
  exists d', same_disk (dev s) d' /\
  fs_read_file (Some nm) s = (tt, mkFs (root s) (bitmap s) d' (console s ++
    match lookup_file s nm with
    | Some c => text "Lecture de : " ++ cstr nm ++ newline ++ map shown c ++ newline
    | None => text "Fichier introuvable : " ++ cstr nm ++ newline
    end)).
Proof. apply fs_read_file_ok. Qed.

(** Reloading a disk. *)
Lemma fs_reboot_ok s s0 :
  fs_wf s -> root_typed (root s0) -> dev s0 = dev s ->
  exists s', fs_init s0 = (tt, s') /\ fs_wf s' /\ root s' = root s /\ bitmap s' = bitmap s /\
    forall nm, lookup_file s' nm = lookup_file s nm.
Proof.
  intros Hwf Hr Hdev. destruct (init_ok big_enough s s0 Hwf Hr Hdev) as (d' & E & [Hw Hd]).
  eexists. rewrite E. split; [reflexivity|]. split_and!; try done.
  - destruct Hwf as [??? _ Hs Hm]. split; cbn; try done.
    + intros k Hk. rewrite Hd. by apply Hs.
    + by rewrite Hd.
  - intros nm. unfold lookup_file. cbn [root dev]. destruct (find_entry _ _); [|done].
    f_equal. by apply sectors_ext.
Qed.

(** C8: a reboot loses nothing.  Starting [fs_init] with any contents of the
    RAM copies on the disk a well-formed file system has left gives back the
    same directory, the same allocation map and the same files. *)
Theorem fs_reboot_recovers s s0 :
  fs_wf s -> root_typed (root s0) -> dev s0 = dev s ->
  exists s', fs_init s0 = (tt, s') /\ fs_wf s' /\ root s' = root s /\ bitmap s' = bitmap s /\
    forall nm, lookup_file s' nm = lookup_file s nm.
Proof. apply fs_reboot_ok. Qed.

(** On a disk that does not carry the file system's signature [fs_init]
    creates a well-formed empty file system, on disk as well as in RAM. *)
Theorem fs_init_formats s : working (dev s) -> root_typed (root s) ->
  magic (decode_root (disk_root (dev s))) <> FS_MAGIC ->
  exists s', fs_init s = (tt, s') /\ fs_wf s' /\
    forall nm, good_name nm -> lookup_file s' nm = None.
Proof.
  intros Hw Hr Hm. destruct (format_ok s Hw Hr Hm) as (s' & E & Hwf & Hroot).
  exists s'. split_and!; [done..|]. intros. by apply lookup_formatted.
Qed.

(** A name of more than 23 characters is stored cut to 23, so the file
    written under it cannot be found again by the name it was written with:
    the write succeeds, but binds the cut name. *)
Theorem fs_long_name_lost s nm data size v :
  fs_wf s -> good_name nm -> 23 < alen nm -> lookup_file s (take 23 nm) = None ->
  Forall is_byte data -> 0 < size <= alen data -> size + 511 < 4294967296 ->
  exists r s', fs_write_file_impl (Some nm) (Some data) size v s = (r, s') /\
    lookup_file s' nm = None /\
    (r = true -> lookup_file s' (take 23 nm) = Some (padded data size)).
Proof.
  intros Hwf Hnm Hlen Hcut Hb Hsz Hov.
  assert (Hne : nm <> take 23 nm).
  { intros Heq. apply (f_equal length) in Heq. rewrite length_take in Heq.
    unfold alen in Hlen. lia. }
  assert (Hcg : good_name (take 23 nm)).
  { destruct Hnm as (Hn0 & Hbb & Hz). split_and!; [|by apply Forall_take..]. by destruct nm. }
  destruct (remove_old_ok big_enough s nm data size v) as (s1 & -> & Hwf1 & Hlk); [done|done|lia|].
  assert (Hself : lookup_file s1 nm = None) by (by rewrite Hlk, decide_True).
  assert (Hnone : find_entry (take 23 nm) (files (root s1)) = None).
  { specialize (Hlk _ Hcg). rewrite decide_False, Hcut in Hlk by done.
    unfold lookup_file in Hlk. by destruct (find_entry (take 23 nm) _). }
  destruct (write_sects size) as (Hs & Hn & _); [lia..|].
  destruct (bitmap_find_free_run_spec ((size + 511) / 512) (bitmap s1) Hn)
    as [[Hz Hno]|(k & Hfind & Hrun)].
  - exists false. unfold fs_write_new, bind at 1, gets. rewrite Hs, Hz.
    destruct v; eexists; (split; [reflexivity|]); split; done.
  - destruct (free_slot (files (root s1))) as [i|] eqn:Hslot.
    + destruct (write_new_added big_enough s1 nm data size v k i) as (s' & -> & _ & Hlk'); [done..|].
      exists true, s'. split_and!; [done| |intros _]; rewrite Hlk' by done;
        [by rewrite decide_False|by rewrite decide_True].
    + destruct (write_new_full big_enough s1 nm data size v k) as (s' & -> & _ & _ & Hlk'); [done..|].
      exists false, s'. split_and!; [done|by rewrite Hlk'|done].
Qed.
End props.

(** ** Concrete runs on an in-memory disk *)

Definition blank : fs ramdisk := mkFs zero_root zero_bitmap (RamDisk (fun _ => []) []) [].
Definition formatted : fs ramdisk := snd (fs_init blank).
Definition hello_data : list Z := text "bonjour".

Lemma ramdisk_big_enough : FS_DATA_END_LBA <= nsectors (D := ramdisk).
Proof. by vm_compute. Qed.

Lemma blank_unsigned : magic (decode_root (disk_root (dev blank))) <> FS_MAGIC.
Proof. by lazy. Qed.

Lemma formatted_wf : fs_wf formatted.
Proof.
  destruct (format_ok ramdisk_big_enough blank) as (s' & E & Hwf & _);
    [done|apply zero_root_typed|exact blank_unsigned|].
  unfold formatted. by rewrite E.
Qed.

Lemma good_hello : good_name (text "hello").
Proof. split; [done|]. vm_compute. by repeat constructor. Qed.

Lemma good_long : good_name (text "notes-de-reunion-du-mois-de-mars").
Proof. split; [done|]. vm_compute. by repeat constructor. Qed.

Lemma hello_bytes : Forall is_byte hello_data.
Proof. vm_compute. by repeat constructor. Qed.

Lemma fs_init_formats_witness : exists s', fs_init blank = (tt, s') /\ fs_wf s' /\
    forall nm, good_name nm -> lookup_file s' nm = None.
Proof.
  apply (fs_init_formats ramdisk_big_enough blank);
    [reflexivity|apply zero_root_typed|exact blank_unsigned].
Defined.

Lemma fs_write_file_correct_witness : exists r s',
  fs_write_file_impl (Some (text "hello")) (Some hello_data) 7 true formatted = (r, s') /\
  fs_wf s' /\
  (forall nm', good_name nm' -> nm' <> text "hello" ->
    lookup_file s' nm' = lookup_file formatted nm') /\
  ((r = true /\ lookup_file s' (text "hello") = Some (padded hello_data 7)) \/
   (r = false /\ lookup_file s' (text "hello") = None /\ no_room s' ((7 + 511) / 512))).
Proof.
  apply (fs_write_file_correct ramdisk_big_enough formatted (text "hello") hello_data 7 true);
    [apply formatted_wf|apply good_hello|by vm_compute|apply hello_bytes|by vm_compute|lia].
Defined.

Lemma fs_delete_file_correct_witness : exists s',
  fs_delete_file_impl (Some (text "hello")) true formatted =
    (bool_decide (is_Some (lookup_file formatted (text "hello"))), s') /\
  fs_wf s' /\ forall nm', good_name nm' ->
    lookup_file s' nm' = if decide (nm' = text "hello") then None else lookup_file formatted nm'.
Proof.
  apply (fs_delete_file_correct ramdisk_big_enough formatted (text "hello") true);
    [apply formatted_wf|apply good_hello].
Defined.

Lemma fs_load_file_correct_witness : exists s',
  root s' = root formatted /\ bitmap s' = bitmap formatted /\
  same_disk (dev formatted) (dev s') /\
  fs_load_file (Some (text "hello")) false 4096 formatted =
    (match lookup_file formatted (text "hello") with
     | Some c => if alen c <=? 4096 then (true, c) else (false, [])
     | None => (false, [])
     end, s').
Proof.
  apply (fs_load_file_correct ramdisk_big_enough formatted (text "hello") 4096);
    [apply formatted_wf|apply good_hello].
Defined.

Lemma fs_read_file_correct_witness : exists d', same_disk (dev formatted) d' /\
  fs_read_file (Some (text "hello")) formatted =
    (tt, mkFs (root formatted) (bitmap formatted) d' (console formatted ++
      match lookup_file formatted (text "hello") with
      | Some c => text "Lecture de : " ++ cstr (text "hello") ++ newline ++ map shown c ++ newline
      | None => text "Fichier introuvable : " ++ cstr (text "hello") ++ newline
      end)).
Proof.
  apply (fs_read_file_correct ramdisk_big_enough formatted (text "hello"));
    [apply formatted_wf|apply good_hello].
Defined.

Lemma rebooted_dev (s0 s : fs ramdisk) : dev (set_dev (dev s) s0) = dev s.
Proof. reflexivity. Qed.

Lemma rebooted_typed (d : ramdisk) : root_typed (root (set_dev d blank)).
Proof. exact zero_root_typed. Qed.

Lemma fs_reboot_recovers_witness : exists s',
  fs_init (set_dev (dev formatted) blank) = (tt, s') /\ fs_wf s' /\
  root s' = root formatted /\ bitmap s' = bitmap formatted /\
  forall nm, lookup_file s' nm = lookup_file formatted nm.
Proof.
  exact (fs_reboot_recovers ramdisk_big_enough formatted (set_dev (dev formatted) blank)
    formatted_wf (rebooted_typed _) (rebooted_dev _ _)).
Defined.

Lemma fs_long_name_lost_witness : exists r s',
  fs_write_file_impl (Some (text "notes-de-reunion-du-mois-de-mars")) (Some hello_data) 7 false
    formatted = (r, s') /\
  lookup_file s' (text "notes-de-reunion-du-mois-de-mars") = None /\
  (r = true -> lookup_file s' (take 23 (text "notes-de-reunion-du-mois-de-mars")) =
    Some (padded hello_data 7)).
Proof.
  apply (fs_long_name_lost ramdisk_big_enough formatted
    (text "notes-de-reunion-du-mois-de-mars") hello_data 7 false);
    [apply formatted_wf|apply good_long|by vm_compute|by vm_compute|apply hello_bytes
    |by vm_compute|lia].
Defined.

(** A formatted disk whose [n]-th access from now on fails, the others
    succeeding. *)
Definition failing_at (n : nat) : fs ramdisk :=
  set_dev (RamDisk (rd_data (dev formatted)) (repeat false n ++ [true])) formatted.
Definition write (nm : list Z) : M (fs ramdisk) bool :=
  fs_write_file_impl (Some nm) (Some hello_data) 7 false.

(** A write whose directory update fails on disk frees the sectors of the
    new file but keeps its entry in the cached directory, so the next file is
    given the same sectors: both names then read the same data, and the
    directory the second write saves contains both. *)
Theorem fs_failed_save_aliases :
  let '(r1, s1) := write (text "a") (failing_at 2) in
  let '(r2, s2) := write (text "b") s1 in
  r1 = false /\ r2 = true /\
  find_entry (text "a") (files (root s2)) = Some 0 /\
  find_entry (text "b") (files (root s2)) = Some 1 /\
  start_lba (files (root s2)).[0] = start_lba (files (root s2)).[1] /\
  decode_root (disk_root (dev s2)) = root s2.
Proof. vm_compute. by repeat split. Qed.
