(* ===== verification/Paging.v ===== *)
(** * Paging ([kernel/paging.c])

    The identity-mapped page tables, the six address spaces for ring-3 tasks
    and the CR3 register.  The page walk of the processor is written out as
    [walk], so that the theorems are about the memory a task can reach rather
    than about the words stored in the tables.  The addresses the linker
    chooses (the arrays, and the bounds [__text_start] and [__ro_end] of the
    shared image) are a [Layout]. *)
From Stdlib Require Import String.
From stdpp Require Import base numbers list.
From S2P Require Import Prelude.

Definition MAX_ADDR_SPACES : Z := 6.

(** Link-time addresses. *)
Record Layout := {
  text_start : Z;
  ro_end : Z;
  page_directory_at : Z;
  first_page_table_at : Z;
  task_directories_at : Z;
  task_tables_at : Z;
}.

(** The static data of [paging.c], and CR3. *)
Record paging := mkPaging {
  page_directory : list Z;
  first_page_table : list Z;
  task_directories : list (list Z);
  task_tables : list (list Z);
  task_dir_used : list Z;
  cr3 : Z;
  paging_on : bool;
}.

Section operations.
Context (L : Layout).

Definition page_flags (user_start user_end code_start code_end phys : Z) : Z :=
  let flags := 3 in
  let flags := if (text_start L <? phys ⊕ 4096) && (phys <? ro_end L) then 7 else flags in
  let flags := if negb (user_start =? user_end) && (user_start <? phys ⊕ 4096)
                  && (phys <? user_end) then 7 else flags in
  if negb (code_start =? code_end) && (code_start <? phys ⊕ 4096)
     && (phys <? code_end) then 7 else flags.

Definition fill_identity_table (user_start user_end code_start code_end : Z)
  (table : list Z) : list Z :=
  for_loop 1024 0 (fun i table =>
    let phys := u32 (i * 4096) in
    table.[i <- Z.lor phys (page_flags user_start user_end code_start code_end phys)]) table.

(** [for (j = 0; j < 1024; j++) d[j] = 0x00000002;] *)
Definition clear_directory (d : list Z) : list Z :=
  for_loop 1024 0 (fun j d => d.[j <- 2]) d.

Definition paging_init (p : paging) : paging * list Z :=
  let table := fill_identity_table 0 0 0 0 (first_page_table p) in
  let dir := (clear_directory (page_directory p)).[0 <- Z.lor (first_page_table_at L) 7] in
  (mkPaging dir table (task_directories p) (task_tables p) (task_dir_used p)
     (page_directory_at L) true,
   text "Paging enabled (per-task isolation ready)." ++ newline).

Definition paging_kernel_directory_phys : Z := page_directory_at L.

Definition paging_create_task_directory_ex
  (code_base code_size user_stack_base user_stack_size : Z) (p : paging) : Z * paging :=
  match find_index (fun i => (task_dir_used p).[i] =? 0) (Z.to_nat MAX_ADDR_SPACES) 0 with
  | Some i =>
    let table := fill_identity_table user_stack_base (user_stack_base ⊕ user_stack_size)
                   code_base (code_base ⊕ code_size) (task_tables p).[i] in
    let dir := (clear_directory (task_directories p).[i])
                 .[0 <- Z.lor (u32 (task_tables_at L + 4096 * i)) 7] in
    (i, mkPaging (page_directory p) (first_page_table p)
          ((task_directories p).[i <- dir]) ((task_tables p).[i <- table])
          ((task_dir_used p).[i <- 1]) (cr3 p) (paging_on p))
  | None => (-1, p)
  end.

Definition paging_create_task_directory (user_stack_base user_stack_size : Z)
  : paging -> Z * paging :=
  paging_create_task_directory_ex 0 0 user_stack_base user_stack_size.

Definition paging_task_directory_phys (idx : Z) : Z :=
  if (idx <? 0) || (MAX_ADDR_SPACES <=? idx) then paging_kernel_directory_phys
  else u32 (task_directories_at L + 4096 * idx).

Definition paging_free_task_directory (idx : Z) (p : paging) : paging :=
  if (0 <=? idx) && (idx <? MAX_ADDR_SPACES) then
    mkPaging (page_directory p) (first_page_table p) (task_directories p) (task_tables p)
      ((task_dir_used p).[idx <- 0]) (cr3 p) (paging_on p)
  else p.

Definition paging_switch_directory (phys_addr : Z) (p : paging) : paging :=
  mkPaging (page_directory p) (first_page_table p) (task_directories p) (task_tables p)
    (task_dir_used p) phys_addr (paging_on p).

(** ** The page walk of the processor

    A directory entry holds the physical address of a table, a table entry
    that of a page; bit 0 is Present, bit 1 Writable, bit 2 User.  An access
    from ring 3 needs the User bit at both levels, and to write the Writable
    bit at both levels. *)

(** The 4 KiB of [paging.c]'s data at a physical address. *)
Definition frame_at (p : paging) (a : Z) : option (list Z) :=
  if a =? page_directory_at L then Some (page_directory p)
  else if a =? first_page_table_at L then Some (first_page_table p)
  else
    let dirs := a - task_directories_at L in
    let tabs := a - task_tables_at L in
    if (0 <=? dirs) && (dirs <? 4096 * MAX_ADDR_SPACES) && (dirs mod 4096 =? 0)
    then Some (task_directories p).[dirs / 4096]
    else if (0 <=? tabs) && (tabs <? 4096 * MAX_ADDR_SPACES) && (tabs mod 4096 =? 0)
    then Some (task_tables p).[tabs / 4096]
    else None.

Definition entry_ok (user write : bool) (e : Z) : bool :=
  Z.testbit e 0 && (negb user || (Z.testbit e 2 && (negb write || Z.testbit e 1))).

Definition entry_base (e : Z) : Z := Z.ldiff e 4095.

(** [walk p user write cr3 v]: the physical address a linear address [v] is
    translated to, [None] for a page fault. *)
Definition walk (p : paging) (user write : bool) (cr3 v : Z) : option Z :=
  match frame_at p cr3 with
  | Some dir =>
    let pde := dir.[v / 4194304] in
    if entry_ok user write pde then
      match frame_at p (entry_base pde) with
      | Some table =>
        let pte := table.[v / 4096 mod 1024] in
        if entry_ok user write pte then Some (entry_base pte + v mod 4096) else None
      | None => None
      end
    else None
  | None => None
  end.
End operations.

(** ** Well-formed layouts and states *)

(** Every array of [paging.c] is page aligned, below 4 GiB and disjoint from
    the others. *)
Record layout_ok (L : Layout) : Prop := {
  lo_text : 0 <= text_start L < ro_end L;
  lo_end : ro_end L <= 4194304;
  lo_dir : page_directory_at L mod 4096 = 0 /\ 0 <= page_directory_at L < 4294967296;
  lo_tab : first_page_table_at L mod 4096 = 0 /\ 0 <= first_page_table_at L < 4294967296;
  lo_dirs : task_directories_at L mod 4096 = 0 /\
    0 <= task_directories_at L /\ task_directories_at L + 24576 <= 4294967296;
  lo_tabs : task_tables_at L mod 4096 = 0 /\
    0 <= task_tables_at L /\ task_tables_at L + 24576 <= 4294967296;
  lo_1 : page_directory_at L <> first_page_table_at L;
  lo_2 : ~ (task_directories_at L <= page_directory_at L < task_directories_at L + 24576);
  lo_3 : ~ (task_tables_at L <= page_directory_at L < task_tables_at L + 24576);
  lo_4 : ~ (task_directories_at L <= first_page_table_at L < task_directories_at L + 24576);
  lo_5 : ~ (task_tables_at L <= first_page_table_at L < task_tables_at L + 24576);
  lo_6 : task_directories_at L + 24576 <= task_tables_at L \/
         task_tables_at L + 24576 <= task_directories_at L;
}.

Definition table_sized (t : list Z) : Prop := alen t = 1024.

Record paging_sized (p : paging) : Prop := {
  ps_dir : table_sized (page_directory p);
  ps_tab : table_sized (first_page_table p);
  ps_ndirs : alen (task_directories p) = MAX_ADDR_SPACES;
  ps_ntabs : alen (task_tables p) = MAX_ADDR_SPACES;
  ps_dirs : forall i, 0 <= i < MAX_ADDR_SPACES -> table_sized (task_directories p).[i];
  ps_tabs : forall i, 0 <= i < MAX_ADDR_SPACES -> table_sized (task_tables p).[i];
  ps_used : alen (task_dir_used p) = MAX_ADDR_SPACES;
}.

(** ** Table entries *)

Lemma page_bits_low b n k : 0 <= k < n -> Z.testbit (2 ^ n * b) k = false.
Proof. intros. rewrite Z.mul_comm. apply Z.mul_pow2_bits_low. lia. Qed.

Lemma entry_bits b f k : 0 <= k < 12 -> Z.testbit (Z.lor (4096 * b) f) k = Z.testbit f k.
Proof.
  intros. rewrite Z.lor_spec. change 4096 with (2 ^ 12). by rewrite page_bits_low by lia.
Qed.

Lemma entry_ok_flags u w b f : entry_ok u w (Z.lor (4096 * b) f) = entry_ok u w f.
Proof. unfold entry_ok. by rewrite !entry_bits by lia. Qed.

Lemma entry_base_flags b f : 0 <= f < 4096 -> entry_base (Z.lor (4096 * b) f) = 4096 * b.
Proof.
  intros Hf. unfold entry_base. change 4095 with (Z.ones 12).
  rewrite Z.ldiff_ones_r, Z.shiftr_lor, Z.shiftr_div_pow2, Z.shiftr_div_pow2 by lia.
  change (2 ^ 12) with 4096.
  rewrite (Z.mul_comm 4096 b), Z.div_mul, (Z.div_small f), Z.lor_0_r by lia.
  by rewrite Z.shiftl_mul_pow2.
Qed.

Lemma for_fill_get {A} `{!Inhabited A} (f : Z -> A) n (l : list A) j : alen l = Z.of_nat n ->
  0 <= j < Z.of_nat n -> (for_loop n 0 (fun k a => a.[k <- f k]) l).[j] = f j.
Proof.
  intros Hl Hj. etransitivity; [exact (for_set_get f 0 n 0 l j ltac:(lia) ltac:(lia))|].
  zcases. f_equal. lia.
Qed.

Lemma length_for_fill {A} (f : Z -> A) n (l : list A) :
  length (for_loop n 0 (fun k a => a.[k <- f k]) l) = length l.
Proof. exact (length_for_set f 0 n 0 l). Qed.

(** ** The abstract address spaces

    A space gives ring 3 a code window and a stack window. *)
Record window := mkWindow { w_code : Z; w_code_size : Z; w_stack : Z; w_stack_size : Z }.
Definition spaces : Type := list (option window).

(** The page of [v] meets the non-empty interval [base, base + size). *)
Definition touches (base size v : Z) : bool :=
  (0 <? size) && (base <? 4096 * (v / 4096) + 4096) && (4096 * (v / 4096) <? base + size).

(** What ring 3 may reach in a space: the pages of the shared image, of the
    code window and of the stack window. *)
Definition reachable (L : Layout) (w : window) (v : Z) : bool :=
  touches (text_start L) (ro_end L - text_start L) v
  || touches (w_stack w) (w_stack_size w) v || touches (w_code w) (w_code_size w) v.

Definition window_ok (w : window) : Prop :=
  0 <= w_code w /\ 0 <= w_code_size w /\ w_code w + w_code_size w < 4294967296 /\
  0 <= w_stack w /\ 0 <= w_stack_size w /\ w_stack w + w_stack_size w < 4294967296.

Definition spec_create (w : window) (sp : spaces) : Z * spaces :=
  match find_index (fun i => bool_decide (sp.[i] = None)) 6 0 with
  | Some i => (i, sp.[i <- Some w])
  | None => (-1, sp)
  end.
Definition spec_free (i : Z) (sp : spaces) : spaces := sp.[i <- None].

#[global] Instance window_eq_dec : EqDecision window.
Proof. solve_decision. Defined.

(** ** The refinement relation *)

Definition directory_to (at_ : Z) (d : list Z) : Prop :=
  d.[0] = Z.lor at_ 7 /\ forall j, 0 < j < 1024 -> d.[j] = 2.

Definition table_of (L : Layout) (w : window) (t : list Z) : Prop :=
  forall j, 0 <= j < 1024 ->
    t.[j] = Z.lor (4096 * j) (if reachable L w (4096 * j) then 7 else 3).

Definition no_window : window := mkWindow 0 0 0 0.

Record implements (L : Layout) (p : paging) (sp : spaces) : Prop := {
  im_sized : paging_sized p;
  im_len : alen sp = MAX_ADDR_SPACES;
  im_kernel : directory_to (first_page_table_at L) (page_directory p);
  im_ktable : table_of L no_window (first_page_table p);
  im_free i : 0 <= i < MAX_ADDR_SPACES -> (task_dir_used p).[i] = 0 <-> sp.[i] = None;
  im_space i w : 0 <= i < MAX_ADDR_SPACES -> sp.[i] = Some w ->
    directory_to (task_tables_at L + 4096 * i) (task_directories p).[i] /\
    table_of L w (task_tables p).[i];
}.

Lemma page_flags_reachable L w j : layout_ok L -> window_ok w -> 0 <= j < 1024 ->
  page_flags L (w_stack w) (w_stack w ⊕ w_stack_size w) (w_code w) (w_code w ⊕ w_code_size w)
    (4096 * j) = if reachable L w (4096 * j) then 7 else 3.
Proof.
  intros HL (H1 & H2 & H3 & H4 & H5 & H6) Hj. pose proof (lo_text _ HL). unfold page_flags, reachable, touches.
  rewrite !u32_id by (unfold is_u32; lia).
  rewrite (Z.mul_comm 4096 j), Z.div_mul, (Z.mul_comm 4096 j) by lia.
  replace (text_start L + (ro_end L - text_start L)) with (ro_end L) by lia.
  rewrite (proj2 (Z.ltb_lt 0 (ro_end L - _))) by lia. cbn [andb].
  destruct ((text_start L <? _) && _); cbn [orb].
  { by repeat case_match. }
  zcases.
Qed.

Lemma fill_identity_table_ok L w t : layout_ok L -> window_ok w -> table_sized t ->
  let t' := fill_identity_table L (w_stack w) (w_stack w ⊕ w_stack_size w)
              (w_code w) (w_code w ⊕ w_code_size w) t in
  table_sized t' /\ table_of L w t'.
Proof.
  intros HL Hw Ht t'. unfold t', fill_identity_table. split.
  - unfold table_sized, alen in *. by rewrite length_for_fill.
  - intros j Hj. rewrite for_fill_get by (unfold table_sized in Ht; lia).
    rewrite u32_id, Z.mul_comm by (unfold is_u32; lia). by rewrite page_flags_reachable.
Qed.

Lemma cleared_directory_ok at_ d : table_sized d ->
  table_sized ((clear_directory d).[0 <- Z.lor at_ 7]) /\
  directory_to at_ ((clear_directory d).[0 <- Z.lor at_ 7]).
Proof.
  intros Hd. assert (Hc : table_sized (clear_directory d)).
  { unfold table_sized, clear_directory, alen in *. by rewrite length_for_fill. }
  split; [unfold table_sized in *; by rewrite alen_arr_set|].
  unfold table_sized in *. split; [apply arr_get_set_eq; lia|].
  intros j Hj. rewrite arr_get_set_ne by lia. by apply (for_fill_get (fun _ => 2)); lia.
Qed.

#[global] Opaque fill_identity_table clear_directory.

Lemma no_window_ok : window_ok no_window.
Proof. unfold window_ok; cbn. lia. Qed.

(** ** Simulation of the operations *)

(** The state before [paging_init]: the arrays are in the BSS. *)
Definition paging_boot : paging :=
  let zeros := build 1024 (fun _ => 0) in
  mkPaging zeros zeros (build 6 (fun _ => zeros)) (build 6 (fun _ => zeros))
    (build 6 (fun _ => 0)) 0 false.

Definition no_spaces : spaces := build 6 (fun _ => None).

Lemma paging_boot_sized : paging_sized paging_boot.
Proof.
  split; cbn [paging_boot page_directory first_page_table task_directories task_tables
    task_dir_used]; try (by apply alen_build); intros i Hi; rewrite build_get by done;
    by apply alen_build.
Qed.

Lemma paging_init_implements L p : layout_ok L -> paging_sized p ->
  (forall i, 0 <= i < MAX_ADDR_SPACES -> (task_dir_used p).[i] = 0) ->
  implements L (paging_init L p).1 no_spaces.
Proof.
  intros HL [H1 H2 H3 H4 H5 H6 H7] Hz.
  destruct (cleared_directory_ok (first_page_table_at L) (page_directory p) H1) as [Hd1 Hd2].
  destruct (fill_identity_table_ok L no_window _ HL no_window_ok H2) as [Ht1 Ht2].
  cbn [w_stack w_stack_size w_code w_code_size no_window] in Ht1, Ht2.
  change (0 ⊕ 0) with 0 in Ht1, Ht2.
  assert (Hns : forall i, 0 <= i < MAX_ADDR_SPACES -> no_spaces.[i] = None)
    by (intros i Hi; exact (build_get 6 (fun _ => None) i Hi)).
  split; [split|by apply alen_build|..]; cbn [paging_init fst page_directory first_page_table
    task_directories task_tables task_dir_used]; try assumption.
  - intros i Hi. rewrite Hns, Hz by done. by split.
  - intros i w Hi. by rewrite Hns.
Qed.

Lemma create_simulates L p sp w : layout_ok L -> window_ok w -> implements L p sp ->
  let '(r, p') := paging_create_task_directory_ex L (w_code w) (w_code_size w)
                    (w_stack w) (w_stack_size w) p in
  let '(r', sp') := spec_create w sp in
  r = r' /\ implements L p' sp'.
Proof.
  intros HL Hw [Hs Hlen Hk Hkt Hfree Hsp]. unfold paging_create_task_directory_ex, spec_create.
  rewrite (find_index_ext (fun i => (task_dir_used p).[i] =? 0)
    (fun i => bool_decide (sp.[i] = None))).
  2:{ intros k Hkk. specialize (Hfree k ltac:(unfold MAX_ADDR_SPACES in *; lia)). case_bool_decide as Hd.
      - by apply Z.eqb_eq, Hfree. - apply Z.eqb_neq. tauto. }
  change (Z.to_nat MAX_ADDR_SPACES) with 6%nat.
  destruct (find_index _ 6 0) as [i|] eqn:E; [|by split].
  apply find_index_Some in E as (Hi & _ & _). split; [done|].
  assert (Hi' : 0 <= i < MAX_ADDR_SPACES) by (unfold MAX_ADDR_SPACES; lia).
  destruct Hs as [H1 H2 H3 H4 H5 H6 H7].
  destruct (cleared_directory_ok (u32 (task_tables_at L + 4096 * i)) _ (H5 i Hi')) as [Hd1 Hd2].
  destruct (fill_identity_table_ok L w _ HL Hw (H6 i Hi')) as [Ht1 Ht2].
  pose proof (lo_tabs _ HL). rewrite u32_id in Hd1, Hd2 |- * by (unfold is_u32; lia).
  split; [split|..]; cbn [page_directory first_page_table task_directories task_tables task_dir_used];
    rewrite ?alen_arr_set; try assumption.
  - intros j Hj. rewrite arr_get_set by lia. destruct (i =? j); auto.
  - intros j Hj. rewrite arr_get_set by lia. destruct (i =? j); auto.
  - intros j Hj. rewrite !arr_get_set by lia. destruct (i =? j); [|by apply Hfree].
    split; discriminate.
  - intros j w' Hj. rewrite !arr_get_set by lia. destruct (Z.eqb_spec i j) as [<-|]; [|by apply Hsp].
    intros [= <-]. by split.
Qed.

Lemma free_simulates L p sp i : implements L p sp ->
  implements L (paging_free_task_directory i p) (spec_free i sp).
Proof.
  intros [Hs Hlen Hk Hkt Hfree Hsp]. unfold paging_free_task_directory, spec_free.
  destruct (Z.leb_spec 0 i), (Z.ltb_spec i MAX_ADDR_SPACES); cbn [andb].
  2-4: replace (sp.[i <- None]) with sp by
    (symmetry; apply arr_ext; rewrite alen_arr_set; [done|]; intros j Hj;
     apply arr_get_set_ne; lia); done.
  destruct Hs as [H1 H2 H3 H4 H5 H6 H7].
  split; [split|..]; cbn [page_directory first_page_table task_directories task_tables task_dir_used];
    rewrite ?alen_arr_set; try assumption.
  - intros j Hj. rewrite !arr_get_set by lia. destruct (i =? j); [by split|by apply Hfree].
  - intros j w' Hj. rewrite arr_get_set by lia. destruct (Z.eqb_spec i j) as [<-|]; [done|].
    by apply Hsp.
Qed.

(** ** What a walk finds *)

Section walks.
Context (L : Layout) (HL : layout_ok L).

Lemma frame_kernel_dir p : frame_at L p (page_directory_at L) = Some (page_directory p).
Proof. unfold frame_at. by rewrite Z.eqb_refl. Qed.

Lemma frame_kernel_table p : frame_at L p (first_page_table_at L) = Some (first_page_table p).
Proof.
  unfold frame_at. pose proof (lo_1 _ HL). rewrite (proj2 (Z.eqb_neq _ _)) by lia.
  by rewrite Z.eqb_refl.
Qed.

Lemma slot_offset i : 0 <= i < MAX_ADDR_SPACES ->
  (0 <=? 4096 * i) && (4096 * i <? 4096 * MAX_ADDR_SPACES) && (4096 * i mod 4096 =? 0) = true.
Proof.
  intros Hi. rewrite (Z.mul_comm 4096 i), Z.mod_mul by lia. zcases.
Qed.

Lemma frame_task_dir p i : 0 <= i < MAX_ADDR_SPACES ->
  frame_at L p (task_directories_at L + 4096 * i) = Some (task_directories p).[i].
Proof.
  intros Hi. pose proof (slot_offset i Hi) as Hs. destruct HL. unfold frame_at, MAX_ADDR_SPACES in *.
  rewrite !(proj2 (Z.eqb_neq _ _)) by lia. cbn zeta.
  replace (task_directories_at L + 4096 * i - task_directories_at L) with (4096 * i) by lia.
  by rewrite Hs, (Z.mul_comm 4096 i), Z.div_mul by lia.
Qed.

Lemma frame_task_table p i : 0 <= i < MAX_ADDR_SPACES ->
  frame_at L p (task_tables_at L + 4096 * i) = Some (task_tables p).[i].
Proof.
  intros Hi. pose proof (slot_offset i Hi) as Hs. destruct HL. unfold frame_at, MAX_ADDR_SPACES in *.
  rewrite !(proj2 (Z.eqb_neq _ _)) by lia. cbn zeta.
  replace (task_tables_at L + 4096 * i - task_tables_at L) with (4096 * i) by lia.
  rewrite Hs, (Z.mul_comm 4096 i), Z.div_mul by lia.
  clear Hs. zcases.
Qed.

Lemma touches_page b n v : touches b n (4096 * (v / 4096)) = touches b n v.
Proof.
  unfold touches. replace (4096 * (v / 4096) / 4096) with (v / 4096); [done|].
  by rewrite (Z.mul_comm 4096 (v / 4096)), Z.div_mul by lia.
Qed.

Lemma reachable_page w v : reachable L w (4096 * (v / 4096)) = reachable L w v.
Proof. unfold reachable. by rewrite !touches_page. Qed.

Lemma walk_via p c d a t w user write v :
  frame_at L p c = Some d -> directory_to (4096 * a) d -> frame_at L p (4096 * a) = Some t ->
  table_of L w t -> is_u32 v ->
  walk L p user write c v =
    if (v <? 4194304) && (negb user || reachable L w v) then Some v else None.
Proof.
  intros Hc [Hd0 Hd] Ha Ht Hv. unfold is_u32 in Hv. unfold walk. rewrite Hc. cbn zeta.
  destruct (Z.ltb_spec v 4194304); cbn [andb].
  - rewrite (Z.div_small v 4194304), Hd0, entry_ok_flags, entry_base_flags, Ha by lia.
    replace (entry_ok user write 7) with true by (by destruct user, write).
    assert (Hj : 0 <= v / 4096 < 1024)
      by (split; [apply Z.div_pos|apply Z.div_lt_upper_bound]; lia).
    rewrite (Z.mod_small (v / 4096)), (Ht _ Hj), entry_ok_flags by done.
    rewrite entry_base_flags by (destruct (reachable L w _); lia). rewrite reachable_page.
    rewrite <- Z.div_mod by lia.
    by destruct (reachable L w v), user, write.
  - rewrite Hd; [by destruct user, write|].
    split; [apply Z.div_str_pos|apply Z.div_lt_upper_bound]; lia.
Qed.

Lemma aligned_eq a : a mod 4096 = 0 -> a = 4096 * (a / 4096).
Proof. intros H. pose proof (Z.div_mod a 4096 ltac:(lia)). lia. Qed.

(** The window a CR3 value obtained from [paging_task_directory_phys]
    gives access to. *)
Definition space_window (sp : spaces) (idx : Z) (w : window) : Prop :=
  (0 <= idx < MAX_ADDR_SPACES /\ sp.[idx] = Some w) \/
  (~ (0 <= idx < MAX_ADDR_SPACES) /\ w = no_window).

Lemma walk_space p sp idx w user write v :
  implements L p sp -> space_window sp idx w -> is_u32 v ->
  walk L p user write (paging_task_directory_phys L idx) v =
    if (v <? 4194304) && (negb user || reachable L w v) then Some v else None.
Proof.
  intros Him Hsp Hv. unfold paging_task_directory_phys. destruct Hsp as [[Hi Hw]|[Hi ->]].
  - destruct (im_space _ _ _ Him idx w Hi Hw) as [Hd Ht].
    pose proof (lo_dirs _ HL). pose proof (lo_tabs _ HL) as (Ha & _).
    replace ((idx <? 0) || (MAX_ADDR_SPACES <=? idx)) with false by (symmetry; zcases).
    rewrite u32_id by (unfold is_u32, MAX_ADDR_SPACES in *; lia).
    rewrite (aligned_eq _ Ha) in Hd. replace (4096 * (task_tables_at L / 4096) + 4096 * idx)
      with (4096 * (task_tables_at L / 4096 + idx)) in Hd by lia.
    eapply walk_via; [by apply frame_task_dir|exact Hd| |exact Ht|done].
    replace (4096 * (task_tables_at L / 4096 + idx)) with (task_tables_at L + 4096 * idx)
      by (rewrite (aligned_eq _ Ha) at 1; lia).
    by apply frame_task_table.
  - replace ((idx <? 0) || (MAX_ADDR_SPACES <=? idx)) with true by (symmetry; zcases).
    destruct (lo_tab _ HL) as [Ha _]. pose proof (im_kernel _ _ _ Him) as Hd.
    rewrite (aligned_eq _ Ha) in Hd.
    eapply walk_via; [apply frame_kernel_dir|exact Hd| |apply Him|done].
    rewrite <- aligned_eq by done. apply frame_kernel_table.
Qed.
End walks.

(** ** Traces of address-space operations *)

Inductive space_op := SpaceCreate (w : window) | SpaceFree (idx : Z).

(** The result of an operation is what the caller sees ([0] for the [void]
    one). *)
Definition run_space_op (L : Layout) (o : space_op) (p : paging) : Z * paging :=
  match o with
  | SpaceCreate w =>
    paging_create_task_directory_ex L (w_code w) (w_code_size w) (w_stack w) (w_stack_size w) p
  | SpaceFree idx => (0, paging_free_task_directory idx p)
  end.
Definition spec_space_op (o : space_op) (sp : spaces) : Z * spaces :=
  match o with
  | SpaceCreate w => spec_create w sp
  | SpaceFree idx => (0, spec_free idx sp)
  end.

Fixpoint run_space_ops (L : Layout) (os : list space_op) (p : paging) : list Z * paging :=
  match os with
  | [] => ([], p)
  | o :: os =>
    let '(r, p) := run_space_op L o p in
    let '(rs, p) := run_space_ops L os p in (r :: rs, p)
  end.
Fixpoint spec_space_ops (os : list space_op) (sp : spaces) : list Z * spaces :=
  match os with
  | [] => ([], sp)
  | o :: os =>
    let '(r, sp) := spec_space_op o sp in
    let '(rs, sp) := spec_space_ops os sp in (r :: rs, sp)
  end.

Definition space_op_ok (o : space_op) : Prop :=
  match o with SpaceCreate w => window_ok w | SpaceFree _ => True end.

Lemma run_space_op_simulates L o p sp : layout_ok L -> space_op_ok o -> implements L p sp ->
  (run_space_op L o p).1 = (spec_space_op o sp).1 /\
  implements L (run_space_op L o p).2 (spec_space_op o sp).2.
Proof.
  intros HL Ho Him. destruct o as [w|idx]; cbn [run_space_op spec_space_op].
  - pose proof (create_simulates L p sp w HL Ho Him) as H.
    by destruct (paging_create_task_directory_ex _ _ _ _ _ _), (spec_create w sp).
  - split; [done|by apply free_simulates].
Qed.

Lemma run_space_ops_simulates L os : layout_ok L -> Forall space_op_ok os -> forall p sp,
  implements L p sp ->
  (run_space_ops L os p).1 = (spec_space_ops os sp).1 /\
  implements L (run_space_ops L os p).2 (spec_space_ops os sp).2.
Proof.
  intros HL. induction 1 as [|o os Ho _ IH]; intros p sp Him; [done|].
  cbn [run_space_ops spec_space_ops].
  destruct (run_space_op_simulates L o p sp HL Ho Him) as [Hr Him'].
  destruct (run_space_op L o p) as [r p'], (spec_space_op o sp) as [r' sp'].
  cbn [fst snd] in *. destruct (IH p' sp' Him') as [Hrs Him''].
  destruct (run_space_ops L os p') as [rs p''], (spec_space_ops os sp') as [rs' sp''].
  cbn [fst snd] in *. by subst.
Qed.

(** C15: from the boot state, any sequence of creations and releases of
    address spaces returns the indices of the abstract allocator (the first
    free one of six, [-1] when none is left) and ends in tables that
    implement its windows. *)
Theorem paging_trace_refines L os : layout_ok L -> Forall space_op_ok os ->
  let '(rs, p) := run_space_ops L os (paging_init L paging_boot).1 in
  let '(rs', sp) := spec_space_ops os no_spaces in
  rs = rs' /\ implements L p sp.
Proof.
  intros HL Hos.
  assert (Him : implements L (paging_init L paging_boot).1 no_spaces).
  { apply paging_init_implements; [done|apply paging_boot_sized|].
    intros i Hi. exact (build_get 6 (fun _ => 0) i Hi). }
  pose proof (run_space_ops_simulates L os HL Hos _ _ Him) as H.
  by destruct (run_space_ops L os _), (spec_space_ops os _).
Qed.

(** C16: translation is the identity on the first 4 MiB and faults above; the
    kernel reaches all of it, ring 3 only the pages of the shared image and
    of the windows of its own space, for reading and for writing alike.  An
    index that is not one of the six gives the kernel's directory. *)
Theorem paging_access L p sp idx w user write v :
  layout_ok L -> implements L p sp -> space_window sp idx w -> is_u32 v ->
  walk L p user write (paging_task_directory_phys L idx) v =
    if (v <? 4194304) && (negb user || reachable L w v) then Some v else None.
Proof. intros HL. by apply walk_space. Qed.

Definition in_windows (w : window) (v : Z) : Prop :=
  w_code w <= v < w_code w + w_code_size w \/ w_stack w <= v < w_stack w + w_stack_size w.
Definition page_aligned (w : window) : Prop :=
  w_code w mod 4096 = 0 /\ w_code_size w mod 4096 = 0 /\
  w_stack w mod 4096 = 0 /\ w_stack_size w mod 4096 = 0.

Lemma touches_aligned b n v : b mod 4096 = 0 -> n mod 4096 = 0 ->
  touches b n v = true -> b <= v < b + n.
Proof.
  unfold touches. intros Hb Hn H.
  apply andb_true_iff in H as [[H1%Z.ltb_lt H2%Z.ltb_lt]%andb_true_iff H3%Z.ltb_lt].
  Z.div_mod_to_equations. lia.
Qed.

Lemma image_or_windows L w v : page_aligned w -> reachable L w v = true ->
  touches (text_start L) (ro_end L - text_start L) v = true \/ in_windows w v.
Proof.
  intros (H1 & H2 & H3 & H4) [[H|H]%orb_true_iff|H]%orb_true_iff; [by left|right..].
  - right. by apply touches_aligned.
  - left. by apply touches_aligned.
Qed.

(** C17: isolation.  When the windows of two spaces are page aligned and
    disjoint, ring 3 running in one of them faults on every byte of the
    other's windows that is not in the shared image. *)
Theorem paging_isolation L p sp i j wi wj write v :
  layout_ok L -> implements L p sp ->
  0 <= i < MAX_ADDR_SPACES -> sp.[i] = Some wi -> page_aligned wi ->
  sp.[j] = Some wj -> (forall a, in_windows wi a -> in_windows wj a -> False) ->
  in_windows wj v -> is_u32 v ->
  touches (text_start L) (ro_end L - text_start L) v = false ->
  walk L p true write (paging_task_directory_phys L i) v = None.
Proof.
  intros HL Him Hi Hwi Hali Hwj Hdisj Hv Hvr Himg.
  rewrite (walk_space L HL p sp i wi) by (done || by left). cbn [negb orb].
  destruct (reachable L wi v) eqn:Hr; [|by rewrite andb_false_r].
  apply image_or_windows in Hr as [Hr|Hr]; [congruence| |done].
  by destruct (Hdisj v).
Qed.

(** Without page alignment isolation fails: when two 4 KiB stacks are
    adjacent and do not start on a page boundary, as the stacks of
    [exec.c] (declared with 16-byte alignment) may, ring 3 in the lower one's
    space can write the first bytes of the upper stack, where the argument
    vector of the other program is. *)
Theorem paging_adjacent_stacks_shared L p sp i w1 w2 v :
  layout_ok L -> implements L p sp ->
  0 <= i < MAX_ADDR_SPACES -> sp.[i] = Some w1 ->
  w_stack_size w1 = 4096 -> w_stack_size w2 = 4096 -> w_stack w2 = w_stack w1 + 4096 ->
  0 <= w_stack w1 -> w_stack w1 mod 4096 <> 0 ->
  w_stack w2 <= v < w_stack w2 + (4096 - w_stack w2 mod 4096) -> v < 4194304 ->
  in_windows w2 v /\
  walk L p true true (paging_task_directory_phys L i) v = Some v.
Proof.
  intros HL Him Hi Hw1 Hs1 Hs2 Hst H0 Hmod Hv Hlt.
  pose proof (Z.mod_pos_bound (w_stack w2) 4096 ltac:(lia)).
  split; [right; lia|].
  rewrite (walk_space L HL p sp i w1) by (done || (by left) || (unfold is_u32; lia)).
  rewrite (proj2 (Z.ltb_lt _ _)) by done. cbn [negb orb andb].
  assert (Ht : touches (w_stack w1) (w_stack_size w1) v = true).
  { unfold touches. rewrite Hs1, !andb_true_iff, !Z.ltb_lt. Z.div_mod_to_equations. lia. }
  unfold reachable. by rewrite Ht, orb_true_r.
Qed.

(** ** A concrete layout *)

Definition demo_layout : Layout := {|
  text_start := 32768; ro_end := 73728; page_directory_at := 81920; first_page_table_at := 86016;
  task_directories_at := 90112; task_tables_at := 114688 |}.
Definition demo_w0 : window := mkWindow 3145728 131072 143376 4096.
Definition demo_w1 : window := mkWindow 3342336 131072 147472 4096.
Definition demo_w2 : window := mkWindow 3538944 131072 155648 4096.
Definition demo_ops : list space_op :=
  [SpaceCreate demo_w0; SpaceCreate demo_w1; SpaceCreate demo_w2].
Definition demo_spaces : spaces := (spec_space_ops demo_ops no_spaces).2.
Definition demo_paging : paging :=
  (run_space_ops demo_layout demo_ops (paging_init demo_layout paging_boot).1).2.

Lemma demo_layout_ok : layout_ok demo_layout.
Proof. split; cbn -[Z.modulo]; try lia; (split; [reflexivity|lia]). Qed.

Lemma demo_ops_ok : Forall space_op_ok demo_ops.
Proof. repeat constructor; cbn; lia. Qed.

Lemma demo_implements : implements demo_layout demo_paging demo_spaces.
Proof.
  apply run_space_ops_simulates; [apply demo_layout_ok|apply demo_ops_ok|].
  apply paging_init_implements; [apply demo_layout_ok|apply paging_boot_sized|].
  intros i Hi. exact (build_get 6 (fun _ => 0) i Hi).
Qed.

Lemma paging_trace_refines_witness :
  let '(rs, p) := run_space_ops demo_layout demo_ops (paging_init demo_layout paging_boot).1 in
  let '(rs', sp) := spec_space_ops demo_ops no_spaces in
  rs = rs' /\ implements demo_layout p sp.
Proof. exact (paging_trace_refines demo_layout demo_ops demo_layout_ok demo_ops_ok). Defined.

Lemma demo_window2 : demo_spaces.[2] = Some demo_w2.
Proof. reflexivity. Qed.

Lemma demo_window1 : demo_spaces.[1] = Some demo_w1.
Proof. reflexivity. Qed.

Lemma demo_window0 : demo_spaces.[0] = Some demo_w0.
Proof. reflexivity. Qed.

#[local] Opaque demo_paging demo_spaces walk.

Lemma paging_access_witness :
  walk demo_layout demo_paging true true (paging_task_directory_phys demo_layout 2) 3538944 =
    if (3538944 <? 4194304) && (negb true || reachable demo_layout demo_w2 3538944)
    then Some 3538944 else None.
Proof.
  apply (paging_access demo_layout demo_paging demo_spaces 2 demo_w2);
    [apply demo_layout_ok|apply demo_implements| |by split].
  left. split; [by split|apply demo_window2].
Defined.

Lemma paging_isolation_witness :
  walk demo_layout demo_paging true true (paging_task_directory_phys demo_layout 2) 147473 = None.
Proof.
  apply (paging_isolation demo_layout demo_paging demo_spaces 2 1 demo_w2 demo_w1);
    [apply demo_layout_ok|apply demo_implements|by split|apply demo_window2|by repeat split
    |apply demo_window1| | |by split|reflexivity].
  - unfold in_windows. cbn. lia.
  - unfold in_windows. cbn. lia.
Defined.

Lemma paging_adjacent_stacks_shared_witness :
  in_windows demo_w1 147500 /\
  walk demo_layout demo_paging true true (paging_task_directory_phys demo_layout 0) 147500 =
    Some 147500.
Proof.
  apply (paging_adjacent_stacks_shared demo_layout demo_paging demo_spaces 0 demo_w0 demo_w1);
    [apply demo_layout_ok|apply demo_implements|by split|apply demo_window0|reflexivity..| | | |];
    by vm_compute.
Defined.
