(* ===== verification/Pit.v ===== *)
(** * The interval timer ([kernel/pit.c])

    The tick counter and the frequency are the static variables of [pit.c];
    [port_log] records the bytes sent to the timer's ports. *)
From stdpp Require Import base numbers list.
From S2P Require Import Prelude.

Definition PIT_CHANNEL0 : Z := 64.
Definition PIT_COMMAND : Z := 67.
Definition PIT_BASE_FREQ : Z := 1193182.

Record pit := mkPit { ticks : Z; frequency : Z; port_log : list (Z * Z) }.

Definition outb (port data : Z) (p : pit) : pit :=
  mkPit (ticks p) (frequency p) (port_log p ++ [(port, data)]).

Definition pit_divisor (frequency_hz : Z) : Z :=
  let divisor := PIT_BASE_FREQ / frequency_hz in
  let divisor := if divisor =? 0 then 1 else divisor in
  if 65535 <? divisor then 65535 else divisor.

Definition pit_init (frequency_hz : Z) (p : pit) : pit :=
  let frequency_hz := if frequency_hz =? 0 then 100 else frequency_hz in
  let p := mkPit (ticks p) frequency_hz (port_log p) in
  let divisor := pit_divisor frequency_hz in
  let p := outb PIT_COMMAND 54 p in
  let p := outb PIT_CHANNEL0 (u8 (Z.land divisor 255)) p in
  let p := outb PIT_CHANNEL0 (u8 (Z.land (Z.shiftr divisor 8) 255)) p in
  mkPit 0 (frequency p) (port_log p).

Definition timer_tick (p : pit) : pit := mkPit (ticks p ⊕ 1) (frequency p) (port_log p).
Definition get_ticks (p : pit) : Z := ticks p.
Definition pit_get_frequency (p : pit) : Z := frequency p.

(** The number of ticks [task_sleep] waits for, shared by its two variants in
    [sched.c]. *)
Definition ticks_to_wait (ms : Z) (p : pit) : Z :=
  let t := (ms ⊗ pit_get_frequency p) / 1000 in
  if t =? 0 then 1 else t.

Lemma land_255 x : Z.land x 255 = u8 x.
Proof. change 255 with (Z.ones 8). by rewrite Z.land_ones. Qed.

Lemma pit_divisor_range f : 0 < f -> 1 <= pit_divisor f <= 65535.
Proof.
  intros Hf. unfold pit_divisor, PIT_BASE_FREQ.
  pose proof (Z.div_pos 1193182 f ltac:(lia) Hf). zcases; lia.
Qed.

(** [pit_init] resets the clock and programs channel 0 in mode 3 with a
    divisor that fits the timer's 16 bits and is the quotient of the base
    frequency whenever that one fits; a zero frequency means 100 Hz, so the
    stored frequency is never zero. *)
Theorem pit_init_correct hz p : is_u32 hz ->
  let p' := pit_init hz p in
  ticks p' = 0 /\ 0 < frequency p' /\ (hz <> 0 -> frequency p' = hz) /\
  exists lo hi, port_log p' = port_log p ++ [(PIT_COMMAND, 54); (PIT_CHANNEL0, lo); (PIT_CHANNEL0, hi)] /\
    is_byte lo /\ is_byte hi /\ 1 <= lo + 256 * hi <= 65535 /\
    (19 <= frequency p' <= PIT_BASE_FREQ -> lo + 256 * hi = PIT_BASE_FREQ / frequency p').
Proof.
  intros Hhz. unfold is_u32 in Hhz. cbn zeta. unfold pit_init.
  set (f := if hz =? 0 then 100 else hz).
  assert (Hf : 0 < f) by (unfold f; zcases; lia).
  pose proof (pit_divisor_range f Hf) as Hd. cbn [ticks frequency port_log outb].
  split; [done|]. split; [done|]. split; [intros; unfold f; zcases|].
  exists (u8 (pit_divisor f)), (u8 (pit_divisor f / 256)).
  rewrite !land_255, Z.shiftr_div_pow2 by lia. change (2 ^ 8) with 256.
  assert (Hid : forall x, u8 (u8 x) = u8 x) by (intros; apply u8_id, u8_range).
  rewrite !Hid, <- !app_assoc. split; [done|]. split; [apply u8_range|]. split; [apply u8_range|].
  assert (Hsum : u8 (pit_divisor f) + 256 * u8 (pit_divisor f / 256) = pit_divisor f) by word.
  rewrite Hsum. split; [done|]. unfold PIT_BASE_FREQ. intros Hr. unfold pit_divisor, PIT_BASE_FREQ.
  assert (1 <= 1193182 / f) by (apply Z.div_le_lower_bound; lia).
  assert (1193182 / f < 65536) by (apply Z.div_lt_upper_bound; lia).
  rewrite (proj2 (Z.eqb_neq _ 0)) by lia. zcases.
Qed.

Definition pit_boot : pit := mkPit 0 100 [].

Lemma pit_init_correct_witness :
  let p' := pit_init 100 pit_boot in
  ticks p' = 0 /\ 0 < frequency p' /\ (100 <> 0 -> frequency p' = 100) /\
  exists lo hi, port_log p' = port_log pit_boot ++
      [(PIT_COMMAND, 54); (PIT_CHANNEL0, lo); (PIT_CHANNEL0, hi)] /\
    is_byte lo /\ is_byte hi /\ 1 <= lo + 256 * hi <= 65535 /\
    (19 <= frequency p' <= PIT_BASE_FREQ -> lo + 256 * hi = PIT_BASE_FREQ / frequency p').
Proof. apply (pit_init_correct 100 pit_boot). by split. Defined.

Lemma ticks_to_wait_pos ms p : 0 <= pit_get_frequency p -> 0 < ticks_to_wait ms p.
Proof.
  intros Hf. unfold ticks_to_wait. pose proof (u32_range (ms * pit_get_frequency p)) as H.
  unfold is_u32 in H. pose proof (Z.div_pos (ms ⊗ pit_get_frequency p) 1000).
  zcases; lia.
Qed.
