(* ===== verification/Sched.v ===== *)
(** * The scheduler and its IPC ([kernel/sched.c], [kernel/sched.h])

    The definitions: the task table, the election of the next task, the
    context switch, task creation and termination, sleeping, priorities and
    mailboxes.  [SchedProps.v] and [Ipc.v] hold the theorems.

    The kernel state gathers what these functions reach: the static variables
    of [sched.c], the memory with the heap of [mem.c] in it, the page tables,
    the timer, the ring-0 stack pointer of the TSS and the console.  Addresses
    fixed at link time ([task_exit], the literal ["Shell"], the layout of the
    page tables) are section variables. *)
From Stdlib Require Import String.
From stdpp Require Import base numbers list.
From S2P Require Import Prelude Machine Heap Paging Pit.

Definition MAX_TASKS : Z := 16.
Definition TASK_STACK_SIZE : Z := 4096.
Definition MAILBOX_QUEUE_SIZE : Z := 4.
Definition MAILBOX_SIZE : Z := 128. (* sizeof(mailbox[0]) *)
Definition SEL_USER_CODE : Z := 27.
Definition SEL_USER_DATA : Z := 35.

(** [Task]; [name] is the pointer, not the characters. *)
Record Task := mkTask {
  esp : Z;
  stack_base : Z;
  active : bool;
  name : Z;
  sleeping : bool;
  wake_tick : Z;
  addr_space : Z;
  mailbox : list (list Z);
  mailbox_len : list Z;
  mailbox_sender : list Z;
  mailbox_head : Z;
  mailbox_count : Z;
  priority : Z;
}.

(** The table is in the BSS. *)
Definition zero_task : Task :=
  mkTask 0 0 false 0 false 0 0 (build 4 (fun _ => build 128 (fun _ => 0)))
    (build 4 (fun _ => 0)) (build 4 (fun _ => 0)) 0 0 0.
#[export] Instance task_inhabited : Inhabited Task := populate zero_task.

Definition set_esp v t := mkTask v (stack_base t) (active t) (name t) (sleeping t) (wake_tick t)
  (addr_space t) (mailbox t) (mailbox_len t) (mailbox_sender t) (mailbox_head t)
  (mailbox_count t) (priority t).
Definition set_stack_base v t := mkTask (esp t) v (active t) (name t) (sleeping t) (wake_tick t)
  (addr_space t) (mailbox t) (mailbox_len t) (mailbox_sender t) (mailbox_head t)
  (mailbox_count t) (priority t).
Definition set_active v t := mkTask (esp t) (stack_base t) v (name t) (sleeping t) (wake_tick t)
  (addr_space t) (mailbox t) (mailbox_len t) (mailbox_sender t) (mailbox_head t)
  (mailbox_count t) (priority t).
Definition set_name v t := mkTask (esp t) (stack_base t) (active t) v (sleeping t) (wake_tick t)
  (addr_space t) (mailbox t) (mailbox_len t) (mailbox_sender t) (mailbox_head t)
  (mailbox_count t) (priority t).
Definition set_sleeping v t := mkTask (esp t) (stack_base t) (active t) (name t) v (wake_tick t)
  (addr_space t) (mailbox t) (mailbox_len t) (mailbox_sender t) (mailbox_head t)
  (mailbox_count t) (priority t).
Definition set_wake_tick v t := mkTask (esp t) (stack_base t) (active t) (name t) (sleeping t) v
  (addr_space t) (mailbox t) (mailbox_len t) (mailbox_sender t) (mailbox_head t)
  (mailbox_count t) (priority t).
Definition set_addr_space v t := mkTask (esp t) (stack_base t) (active t) (name t) (sleeping t)
  (wake_tick t) v (mailbox t) (mailbox_len t) (mailbox_sender t) (mailbox_head t)
  (mailbox_count t) (priority t).
Definition set_priority v t := mkTask (esp t) (stack_base t) (active t) (name t) (sleeping t)
  (wake_tick t) (addr_space t) (mailbox t) (mailbox_len t) (mailbox_sender t) (mailbox_head t)
  (mailbox_count t) v.
(** The six mailbox fields, updated together by the IPC. *)
Definition set_mailbox mb lens senders head count t := mkTask (esp t) (stack_base t) (active t)
  (name t) (sleeping t) (wake_tick t) (addr_space t) mb lens senders head count (priority t).

Record kernel := mkKernel {
  tasks : list Task;
  current_task : Z;
  multitasking_enabled : bool;
  task_count : Z;
  mem : memory;
  heap_start : Z;
  pages : paging;
  clock : pit;
  tss_esp0 : Z;
  console : list Z;
}.

Definition set_tasks v k := mkKernel v (current_task k) (multitasking_enabled k) (task_count k)
  (mem k) (heap_start k) (pages k) (clock k) (tss_esp0 k) (console k).
Definition set_current_task v k := mkKernel (tasks k) v (multitasking_enabled k) (task_count k)
  (mem k) (heap_start k) (pages k) (clock k) (tss_esp0 k) (console k).
Definition set_multitasking_enabled v k := mkKernel (tasks k) (current_task k) v (task_count k)
  (mem k) (heap_start k) (pages k) (clock k) (tss_esp0 k) (console k).
Definition set_task_count v k := mkKernel (tasks k) (current_task k) (multitasking_enabled k) v
  (mem k) (heap_start k) (pages k) (clock k) (tss_esp0 k) (console k).
Definition set_mem v k := mkKernel (tasks k) (current_task k) (multitasking_enabled k)
  (task_count k) v (heap_start k) (pages k) (clock k) (tss_esp0 k) (console k).
Definition set_pages v k := mkKernel (tasks k) (current_task k) (multitasking_enabled k)
  (task_count k) (mem k) (heap_start k) v (clock k) (tss_esp0 k) (console k).
Definition set_clock v k := mkKernel (tasks k) (current_task k) (multitasking_enabled k)
  (task_count k) (mem k) (heap_start k) (pages k) v (tss_esp0 k) (console k).
(** [tss_set_kernel_stack] of [gdt.c]. *)
Definition tss_set_kernel_stack v k := mkKernel (tasks k) (current_task k)
  (multitasking_enabled k) (task_count k) (mem k) (heap_start k) (pages k) (clock k) v (console k).
Definition kprint t k := mkKernel (tasks k) (current_task k) (multitasking_enabled k)
  (task_count k) (mem k) (heap_start k) (pages k) (clock k) (tss_esp0 k) (console k ++ t).

Definition task (k : kernel) (i : Z) : Task := (tasks k).[i].
Definition upd_task (i : Z) (f : Task -> Task) (k : kernel) : kernel :=
  set_tasks ((tasks k).[i <- f (tasks k).[i]]) k.

(** A function that does not come back stops the machine ([Halted]: the
    [cli; hlt] loops); [OutOfFuel] is the allocator's search running out of
    fuel, which a well-formed heap rules out. *)
Inductive outcome (A : Type) :=
  | Done (a : A) (k : kernel)
  | Halted (k : kernel)
  | OutOfFuel.
Arguments Done {A} a k.
Arguments Halted {A} k.
Arguments OutOfFuel {A}.

(** ** Election *)

(** The body of the first loop of [find_next_task]; the state is the task
    table, [next_task] and [best_priority]. *)
Definition visit_candidate (current now i : Z) (st : list Task * Z * Z) : list Task * Z * Z :=
  let '(ts, next_task, best_priority) := st in
  let candidate := (current + i) mod MAX_TASKS in
  let t := ts.[candidate] in
  if negb (active t) then st
  else if sleeping t && (now <? wake_tick t) then st
  else
    let ts := if sleeping t then ts.[candidate <- set_sleeping false t] else ts in
    if best_priority <? priority t then (ts, candidate, priority t)
    else (ts, next_task, best_priority).

Definition first_active (ts : list Task) : option Z :=
  find_index (fun i => active ts.[i]) (Z.to_nat MAX_TASKS) 0.

Definition find_next_task (k : kernel) : Z * kernel :=
  let '(ts, next_task, _) :=
    for_loop (Z.to_nat MAX_TASKS) 1 (visit_candidate (current_task k) (get_ticks (clock k)))
      (tasks k, -1, -1) in
  let next_task :=
    if next_task <? 0 then
      match first_active ts with Some i => i | None => next_task end
    else next_task in
  (next_task, set_tasks ts k).

Section sched.
Context (L : Layout) (task_exit_at shell_name : Z).

Definition schedule (last_esp : Z) (k : kernel) : outcome Z :=
  let k := set_clock (timer_tick (clock k)) k in
  if negb (multitasking_enabled k) then Done last_esp k
  else
    let k := upd_task (current_task k) (set_esp last_esp) k in
    let '(next_task, k) := find_next_task k in
    if next_task <? 0 then Halted k
    else
      let k := set_current_task next_task k in
      let t := task k next_task in
      let k := tss_set_kernel_stack (stack_base t ⊕ TASK_STACK_SIZE) k in
      let k :=
        if 0 <=? addr_space t then
          set_pages (paging_switch_directory (paging_task_directory_phys L (addr_space t)) (pages k)) k
        else
          set_pages (paging_switch_directory (paging_kernel_directory_phys L) (pages k)) k in
      Done (esp t) k.

(** ** Termination *)

(** The release of a task's resources, the same statements in
    [task_exit_current], [task_exit_and_reschedule] and [task_kill]. *)
Definition release_task (pid : Z) (k : kernel) : kernel :=
  let k := upd_task pid (set_active false) k in
  let k := upd_task pid (set_sleeping false) k in
  let k := if 0 <? task_count k then set_task_count (task_count k - 1) k else k in
  let k :=
    if negb (stack_base (task k pid) =? 0) then
      let k := set_mem (kfree (stack_base (task k pid)) (mem k)) k in
      upd_task pid (set_stack_base 0) k
    else k in
  if 0 <=? addr_space (task k pid) then
    let k := set_pages (paging_free_task_directory (addr_space (task k pid)) (pages k)) k in
    upd_task pid (set_addr_space (-1)) k
  else k.

(** [task_exit_current]: the state in which its final [hlt] loop waits to be
    preempted. *)
Definition task_exit_current (k : kernel) : kernel :=
  if active (task k (current_task k)) then release_task (current_task k) k else k.

Definition task_exit_and_reschedule (current_esp : Z) (k : kernel) : outcome Z :=
  let k := if active (task k (current_task k)) then release_task (current_task k) k else k in
  if task_count k =? 0 then
    Halted (kprint (text "Toutes les taches sont terminees. Arret du systeme." ++ newline) k)
  else schedule current_esp k.

(** ** Sleeping *)

(** [task_sleep] up to its [hlt] loop, which ends when [find_next_task]
    clears [sleeping]. *)
Definition task_sleep (ms : Z) (k : kernel) : kernel :=
  let k := upd_task (current_task k)
    (set_wake_tick (get_ticks (clock k) ⊕ ticks_to_wait ms (clock k))) k in
  upd_task (current_task k) (set_sleeping true) k.

Definition task_sleep_and_reschedule (ms current_esp : Z) (k : kernel) : outcome Z :=
  schedule current_esp (task_sleep ms k).

(** ** Creation *)

Definition mailbox_reset (t : Task) : Task :=
  let lens := for_loop 4 0 (fun k a => a.[k <- 0]) (mailbox_len t) in
  let senders := for_loop 4 0 (fun k a => a.[k <- -1]) (mailbox_sender t) in
  set_mailbox (mailbox t) lens senders 0 0 t.

(** [*(--stack) = v] *)
Definition push (v : Z) (ms : memory * Z) : memory * Z :=
  let '(m, stack) := ms in (store32 m (stack ⊖ 4) v, stack ⊖ 4).
Definition push_all (vs : list Z) (ms : memory * Z) : memory * Z :=
  fold_left (fun ms v => push v ms) vs ms.

Definition free_task_slot (k : kernel) : option Z :=
  find_index (fun i => negb (active (task k i))) (Z.to_nat MAX_TASKS) 0.

(** The fields set once the initial stack is built. *)
Definition init_task (stack_address esp name space : Z) (t : Task) : Task :=
  let t := set_stack_base ((stack_address ⊕ TASK_STACK_SIZE) ⊖ TASK_STACK_SIZE) t in
  let t := set_sleeping false t in
  let t := set_wake_tick 0 t in
  let t := set_esp esp t in
  let t := set_active true t in
  let t := set_name name t in
  let t := set_addr_space space t in
  let t := mailbox_reset t in
  set_priority 0 t.

Definition create_task (entry name : Z) (k : kernel) : outcome Z :=
  if MAX_TASKS <=? task_count k then Done (-1) k
  else
    match free_task_slot k with
    | None => Done (-1) k
    | Some i =>
      match kmalloc (heap_start k) TASK_STACK_SIZE (mem k) with
      | None => OutOfFuel
      | Some (stack_address, m) =>
        let k := set_mem m k in
        if stack_address =? 0 then Done (-1) k
        else
          let '(m, stack) :=
            push_all ([task_exit_at; 514; 8; entry] ++ repeat 0 8)
              (mem k, stack_address ⊕ TASK_STACK_SIZE) in
          let k := set_mem m k in
          let k := upd_task i (init_task stack_address stack name (-1)) k in
          Done i (set_task_count (task_count k + 1) k)
      end
    end.

Definition create_user_task_argv (entry name user_stack_top user_stack_size
    code_base code_size init_ebx init_ecx : Z) (k : kernel) : outcome Z :=
  if MAX_TASKS <=? task_count k then Done (-1) k
  else
    match free_task_slot k with
    | None => Done (-1) k
    | Some i =>
      match kmalloc (heap_start k) TASK_STACK_SIZE (mem k) with
      | None => OutOfFuel
      | Some (stack_address, m) =>
        let k := set_mem m k in
        if stack_address =? 0 then Done (-1) k
        else
          let '(space, p) :=
            paging_create_task_directory_ex L code_base code_size
              (user_stack_top ⊖ user_stack_size) user_stack_size (pages k) in
          let k := set_pages p k in
          if space <? 0 then Done (-1) (set_mem (kfree stack_address (mem k)) k)
          else
            let '(m, stack) :=
              push_all ([SEL_USER_DATA; user_stack_top; 514; SEL_USER_CODE; entry]
                        ++ [0; init_ecx; 0; init_ebx; 0; 0; 0; 0])
                (mem k, stack_address ⊕ TASK_STACK_SIZE) in
            let k := set_mem m k in
            let k := upd_task i (init_task stack_address stack name space) k in
            Done i (set_task_count (task_count k + 1) k)
      end
    end.

Definition create_user_task_ex (entry name user_stack_top user_stack_size
    code_base code_size : Z) : kernel -> outcome Z :=
  create_user_task_argv entry name user_stack_top user_stack_size code_base code_size 0 0.
Definition create_user_task (entry name user_stack_top user_stack_size : Z)
  : kernel -> outcome Z :=
  create_user_task_ex entry name user_stack_top user_stack_size 0 0.

(** The body of the loop of [init_multitasking]. *)
Definition reset_task (t : Task) : Task :=
  mailbox_reset (set_priority 0 (set_addr_space (-1) (set_wake_tick 0
    (set_sleeping false (set_active false t))))).

Definition init_multitasking (k : kernel) : kernel :=
  let k := for_loop (Z.to_nat MAX_TASKS) 0 (fun i k => upd_task i reset_task k) k in
  let k := upd_task 0 (fun t => set_priority 0 (set_active true (set_name shell_name t))) k in
  set_multitasking_enabled true (set_current_task 0 (set_task_count 1 k)).

(** ** Queries and controls *)

Definition task_is_active (pid : Z) (k : kernel) : bool :=
  if (pid <? 0) || (MAX_TASKS <=? pid) then false else active (task k pid).

Definition sched_current_pid (k : kernel) : Z := current_task k.

Definition task_kill (pid : Z) (k : kernel) : bool * kernel :=
  if (pid <? 0) || (MAX_TASKS <=? pid) || negb (active (task k pid)) then (false, k)
  else if pid =? current_task k then (false, k)
  else
    let k := release_task pid k in
    (true, upd_task pid mailbox_reset k).

Definition task_set_priority (pid prio : Z) (k : kernel) : kernel :=
  if (pid <? 0) || (MAX_TASKS <=? pid) || negb (active (task k pid)) then k
  else upd_task pid (set_priority prio) k.

(** ** Mailboxes *)

Definition ipc_send (target_pid data len : Z) (k : kernel) : Z * kernel :=
  if (target_pid <? 0) || (MAX_TASKS <=? target_pid) || negb (active (task k target_pid))
  then (-1, k)
  else
    let dst := task k target_pid in
    if MAILBOX_QUEUE_SIZE <=? mailbox_count dst then (0, k)
    else
      let len := if MAILBOX_SIZE <? len then MAILBOX_SIZE else len in
      let slot := (mailbox_head dst + mailbox_count dst) mod MAILBOX_QUEUE_SIZE in
      let msg := for_loop (Z.to_nat len) 0
        (fun i a => a.[i <- load8 (mem k) (data ⊕ i)]) (mailbox dst).[slot] in
      (1, upd_task target_pid (set_mailbox ((mailbox dst).[slot <- msg])
            ((mailbox_len dst).[slot <- len]) ((mailbox_sender dst).[slot <- current_task k])
            (mailbox_head dst) (mailbox_count dst + 1)) k).

(** [ipc_recv]: [None] for the return value 0, otherwise the length and the
    sender, which the callers of this kernel always ask for. *)
Definition ipc_recv (out : Z) (k : kernel) : option (Z * Z) * kernel :=
  let self := task k (current_task k) in
  if mailbox_count self =? 0 then (None, k)
  else
    let slot := mailbox_head self in
    let len := (mailbox_len self).[slot] in
    let m := for_loop (Z.to_nat len) 0
      (fun i m => store8 m (out ⊕ i) (u8 (mailbox self).[slot].[i])) (mem k) in
    let k := set_mem m k in
    let k := upd_task (current_task k) (set_mailbox (mailbox self) (mailbox_len self)
      (mailbox_sender self) ((slot + 1) mod MAILBOX_QUEUE_SIZE) (mailbox_count self - 1)) k in
    (Some (len, (mailbox_sender self).[slot]), k).

(** ** Interrupt frames

    What the processor and [pushal] leave on the ring-0 stack when a task is
    interrupted, and what [popal] and [iret] restore from it. *)

Record cpu := mkCpu {
  r_eax : Z; r_ecx : Z; r_edx : Z; r_ebx : Z; r_ebp : Z; r_esi : Z; r_edi : Z;
  r_esp : Z; r_eip : Z; r_cs : Z; r_eflags : Z; r_ss : Z;
}.

Definition in_ring3 (cs : Z) : bool := Z.land cs 3 =? 3.
Definition SEL_KERNEL_DATA : Z := 16.

(** Interrupt entry: from ring 3 the processor switches to [tss.esp0] and
    pushes SS and ESP; then EFLAGS, CS, EIP, and [pushal]. *)
Definition interrupt_entry (c : cpu) (k : kernel) : Z * kernel :=
  let '(m, sp) :=
    if in_ring3 (r_cs c) then push_all [r_ss c; r_esp c] (mem k, tss_esp0 k)
    else (mem k, r_esp c) in
  let '(m, sp) := push_all [r_eflags c; r_cs c; r_eip c] (m, sp) in
  let '(m, sp) := push_all [r_eax c; r_ecx c; r_edx c; r_ebx c; sp; r_ebp c; r_esi c; r_edi c]
                    (m, sp) in
  (sp, set_mem m k).

(** [popal; iret] with the stack pointer at [sp]. *)
Definition interrupt_return (sp : Z) (m : memory) : cpu :=
  let w i := load32 m (sp ⊕ i) in
  let ring3 := in_ring3 (w 36) in
  mkCpu (w 28) (w 24) (w 20) (w 16) (w 8) (w 4) (w 0)
    (if ring3 then w 44 else sp ⊕ 44) (w 32) (w 36) (w 40)
    (if ring3 then w 48 else SEL_KERNEL_DATA).

(** The handler.  Below the frame [pushl] and [call] write the argument of
    [schedule] and the address [ret_at] of the instruction after the call; both
    are left behind when ESP is replaced by the result. *)
Definition timer_handler (ret_at : Z) (c : cpu) (k : kernel) : outcome cpu :=
  let '(sp, k) := interrupt_entry c k in
  let '(m, _) := push_all [sp; ret_at] (mem k, sp) in
  let k := set_mem m k in
  match schedule sp k with
  | Done sp' k => Done (interrupt_return sp' (mem k)) k
  | Halted k => Halted k
  | OutOfFuel => OutOfFuel
  end.
End sched.
