(* ===== verification/SchedProps.v ===== *)
(** * Election and context switching: the theorems

    The election loop of [find_next_task] against the policy it documents
    (highest priority first, round robin among equals, any active task as a
    fall-back), the context switch of [schedule], fairness, and the frames
    that [popal] and [iret] read. *)
From stdpp Require Import base numbers list.
From S2P Require Import Prelude Machine Paging Pit Sched.

(** ** The policy *)

(** A task that pass 1 considers: active, and awake or due to wake up. *)
Definition ready (now : Z) (t : Task) : bool :=
  active t && (negb (sleeping t) || (wake_tick t <=? now)).
(** What the loop does to a task it passes over. *)
Definition wake (now : Z) (t : Task) : Task :=
  if ready now t && sleeping t then set_sleeping false t else t.
(** How many places after the current task a slot comes, from 0. *)
Definition offset (cur c : Z) : Z := (c - cur - 1) mod 16.

(** [c] is the choice of pass 1: ready, of the highest priority, and the
    first after [cur] among the ready tasks of that priority. *)
Definition elected (cur now : Z) (ts : list Task) (c : Z) : Prop :=
  0 <= c < 16 /\ ready now ts.[c] = true /\ 0 <= priority ts.[c] /\
  forall c', 0 <= c' < 16 -> ready now ts.[c'] = true ->
    priority ts.[c'] <= priority ts.[c] /\
    (priority ts.[c'] = priority ts.[c] -> offset cur c <= offset cur c').

Lemma offset_range cur c : 0 <= offset cur c < 16.
Proof. unfold offset. by apply Z.mod_pos_bound. Qed.

Lemma offset_candidate cur i : 1 <= i <= 16 -> offset cur ((cur + i) mod 16) = i - 1.
Proof. intros Hi. unfold offset. Z.div_mod_to_equations. lia. Qed.

Lemma candidate_offset cur c : 0 <= c < 16 -> c = (cur + (offset cur c + 1)) mod 16.
Proof. intros Hc. unfold offset. Z.div_mod_to_equations. lia. Qed.

Lemma offset_inj cur c c' : 0 <= c < 16 -> 0 <= c' < 16 ->
  offset cur c = offset cur c' -> c = c'.
Proof.
  intros Hc Hc' H. by rewrite (candidate_offset cur c), (candidate_offset cur c'), H.
Qed.

(** ** The election loop *)

(** The loop body in terms of the policy. *)
Lemma visit_candidate_eq cur now i ts next best : alen ts = 16 ->
  let c := (cur + i) mod 16 in
  visit_candidate cur now i (ts, next, best) =
  if ready now ts.[c] then
    (ts.[c <- wake now ts.[c]],
     if best <? priority ts.[c] then c else next,
     if best <? priority ts.[c] then priority ts.[c] else best)
  else (ts, next, best).
Proof.
  intros Hlen c. unfold visit_candidate. change MAX_TASKS with 16. fold c.
  assert (Hid : ts.[c <- ts.[c]] = ts).
  { assert (0 <= c < 16) by (by apply Z.mod_pos_bound).
    apply arr_ext; rewrite alen_arr_set; [done|]. intros j Hj. rewrite arr_get_set by lia.
    destruct (Z.eqb_spec c j); by subst. }
  unfold wake, ready. destruct (active ts.[c]); [|done]. cbn [negb andb].
  destruct (sleeping ts.[c]); cbn [negb andb orb].
  - rewrite (Z.ltb_antisym _ now). destruct (wake_tick _ <=? now); cbn [negb];
      [by destruct (best <? _)|done].
  - rewrite Hid. by destruct (_ <? _).
Qed.

Definition seen (cur now : Z) (ts0 : list Task) (i c : Z) : Prop :=
  0 <= c < 16 /\ offset cur c < i - 1 /\ ready now ts0.[c] = true.

Definition best_of (cur now : Z) (ts0 : list Task) (i next best : Z) : Prop :=
  (next = -1 /\ best = -1 /\ forall c, seen cur now ts0 i c -> priority ts0.[c] < 0) \/
  (seen cur now ts0 i next /\ best = priority ts0.[next] /\ 0 <= best /\
   forall c, seen cur now ts0 i c -> priority ts0.[c] <= best /\
     (priority ts0.[c] = best -> offset cur next <= offset cur c)).

(** After the offsets below [i - 1] have been visited. *)
Definition visited (cur now : Z) (ts0 : list Task) (i : Z) (st : list Task * Z * Z) : Prop :=
  let '(ts, next, best) := st in
  alen ts = 16 /\
  (forall c, 0 <= c < 16 ->
     ts.[c] = if offset cur c <? i - 1 then wake now ts0.[c] else ts0.[c]) /\
  best_of cur now ts0 i next best.

Lemma seen_next cur now ts0 i c c' : 0 <= c < 16 -> offset cur c = i - 1 ->
  seen cur now ts0 (i + 1) c' <->
  (c' = c /\ ready now ts0.[c] = true) \/ seen cur now ts0 i c'.
Proof.
  intros Hc Ho. unfold seen. split.
  - intros (H1 & H2 & H3). destruct (decide (c' = c)) as [->|Hne]; [by left|right].
    assert (offset cur c' <> offset cur c) by (intros ?; by apply Hne, (offset_inj cur)).
    split_and!; lia || done.
  - intros [[-> H]|(H1 & H2 & H3)]; split_and!; lia || done.
Qed.

Lemma best_of_skip cur now ts0 i c next best : 0 <= c < 16 -> offset cur c = i - 1 ->
  ready now ts0.[c] = false -> best_of cur now ts0 i next best ->
  best_of cur now ts0 (i + 1) next best.
Proof.
  intros Hc Ho Hr Hb. assert (Hs : forall c', seen cur now ts0 (i + 1) c' <-> seen cur now ts0 i c').
  { intros c'. rewrite (seen_next cur now ts0 i c c') by done. split; [|by right].
    intros [[_ ?]|?]; [congruence|done]. }
  destruct Hb as [(-> & -> & Hb)|(Hn & -> & Hb0 & Hb)]; [left|right].
  - split_and!; [done..|]. intros c' Hc'%Hs. by apply Hb.
  - split_and!; [by apply Hs|done|done|]. intros c' Hc'%Hs. by apply Hb.
Qed.

Lemma best_of_take cur now ts0 i c next best : 0 <= c < 16 -> offset cur c = i - 1 ->
  ready now ts0.[c] = true -> best_of cur now ts0 i next best ->
  best_of cur now ts0 (i + 1)
    (if best <? priority ts0.[c] then c else next)
    (if best <? priority ts0.[c] then priority ts0.[c] else best).
Proof.
  intros Hc Ho Hr Hb. pose proof (fun c' => seen_next cur now ts0 i c c' Hc Ho) as Hs.
  assert (Hsc : seen cur now ts0 (i + 1) c) by (apply Hs; by left).
  destruct (Z.ltb_spec best (priority ts0.[c])).
  - right. split_and!; [done|done| |].
    + destruct Hb as [(-> & -> & _)|(_ & -> & ? & _)]; lia.
    + intros c' [[-> _]|Hc']%Hs; [lia|].
      destruct Hb as [(-> & -> & Hb)|(_ & -> & ? & Hb)];
        [specialize (Hb c' Hc')|destruct (Hb c' Hc')]; lia.
  - destruct Hb as [(-> & -> & Hb)|(Hn & -> & Hb0 & Hb)]; [left|right].
    + split_and!; [done..|]. intros c' [[-> _]|Hc']%Hs; [lia|by apply Hb].
    + split_and!; [apply Hs; by right|done|done|].
      intros c' [[-> _]|Hc']%Hs; [|by apply Hb]. destruct Hn as (_ & ? & _). lia.
Qed.

Lemma visit_step cur now ts0 i st : 1 <= i <= 16 ->
  visited cur now ts0 i st -> visited cur now ts0 (i + 1) (visit_candidate cur now i st).
Proof.
  intros Hi. destruct st as [[ts next] best]. intros (Hlen & Hts & Hbest).
  rewrite visit_candidate_eq by done. cbn zeta. set (c := (cur + i) mod 16).
  assert (Hc : 0 <= c < 16) by (by apply Z.mod_pos_bound).
  assert (Hoc : offset cur c = i - 1) by (by apply offset_candidate). clearbody c.
  assert (Htc : ts.[c] = ts0.[c]) by (rewrite Hts, Hoc by done; zcases). rewrite Htc.
  assert (Hne : forall c', 0 <= c' < 16 -> c' <> c -> offset cur c' <> i - 1).
  { intros c' Hc' Hne Heq. apply Hne, (offset_inj cur); congruence. }
  destruct (ready now ts0.[c]) eqn:Hr; (split; [by rewrite ?alen_arr_set|split]).
  - intros c' Hc'. rewrite arr_get_set by lia. destruct (Z.eqb_spec c c') as [<-|Hcc];
      [zcases|]. rewrite Hts by done. specialize (Hne c' Hc' ltac:(congruence)). zcases.
  - by apply best_of_take.
  - intros c' Hc'. rewrite Hts by done. destruct (decide (c' = c)) as [->|Hcc].
    + unfold wake. rewrite Hr. cbn. by destruct (_ <? _), (_ <? _).
    + specialize (Hne c' Hc' Hcc). zcases.
  - by apply (best_of_skip _ _ _ _ c).
Qed.

(** ** [find_next_task] *)

Lemma wake_active now t : active (wake now t) = active t.
Proof. unfold wake. by destruct (_ && _). Qed.

Lemma wake_priority now t : priority (wake now t) = priority t.
Proof. unfold wake. by destruct (_ && _). Qed.

Lemma wake_esp now t : esp (wake now t) = esp t.
Proof. unfold wake. by destruct (_ && _). Qed.

Lemma wake_stack now t : stack_base (wake now t) = stack_base t.
Proof. unfold wake. by destruct (_ && _). Qed.

Lemma wake_space now t : addr_space (wake now t) = addr_space t.
Proof. unfold wake. by destruct (_ && _). Qed.

#[export] Hint Rewrite wake_active wake_priority wake_esp wake_stack wake_space : mx.

(** The table after an election: every due sleeper is awake. *)
Definition woken (now : Z) (ts : list Task) : list Task := map (wake now) ts.

Lemma woken_get now ts c : alen ts = 16 -> 0 <= c < 16 -> (woken now ts).[c] = wake now ts.[c].
Proof. intros Hl Hc. apply arr_get_map. lia. Qed.

Lemma alen_woken now ts : alen (woken now ts) = alen ts.
Proof. unfold alen, woken. by rewrite length_map. Qed.

Lemma first_active_woken now ts : alen ts = 16 ->
  first_active (woken now ts) = first_active ts.
Proof.
  intros Hl. apply find_index_ext. intros c Hc. change (Z.to_nat MAX_TASKS) with 16%nat in Hc.
  rewrite woken_get by lia. apply wake_active.
Qed.

Lemma first_active_None ts : first_active ts = None ->
  forall i, 0 <= i < 16 -> active ts.[i] = false.
Proof. intros H i Hi. by apply (find_index_None _ _ _ H). Qed.

(** Nothing that pass 1 would accept is ready. *)
Definition none_ready (now : Z) (ts : list Task) : Prop :=
  forall c, 0 <= c < 16 -> ready now ts.[c] = true -> priority ts.[c] < 0.

Lemma find_next_task_spec k : alen (tasks k) = 16 ->
  let now := ticks (clock k) in
  exists r, find_next_task k = (r, set_tasks (woken now (tasks k)) k) /\
  (elected (current_task k) now (tasks k) r \/
   none_ready now (tasks k) /\
   (first_active (tasks k) = Some r \/ first_active (tasks k) = None /\ r = -1)).
Proof.
  intros Hlen now. unfold find_next_task, get_ticks. fold now.
  pose proof (for_loop_ind (visited (current_task k) now (tasks k))
    (visit_candidate (current_task k) now) 16 1 (tasks k, -1, -1)) as Hloop.
  change (Z.to_nat MAX_TASKS) with 16%nat. change (1 + Z.of_nat 16) with 17 in Hloop.
  destruct (for_loop 16 1 _ _) as [[ts next] best].
  destruct Hloop as (Hl & Hts & Hbest).
  { split; [done|]. split.
    - intros c Hc. pose proof (offset_range (current_task k) c). zcases.
    - left. split_and!; [done..|]. intros c (_ & Ho & _).
      pose proof (offset_range (current_task k) c). lia. }
  { intros j t Hj. apply visit_step. lia. }
  assert (ts = woken now (tasks k)) as ->.
  { apply arr_ext; rewrite ?alen_woken; [congruence|]. intros c Hc.
    rewrite woken_get, Hts by lia. pose proof (offset_range (current_task k) c). zcases. }
  assert (Hseen : forall c, 0 <= c < 16 -> ready now (tasks k).[c] = true ->
    seen (current_task k) now (tasks k) 17 c).
  { intros c Hc Hr. split_and!; [lia..| |done]. pose proof (offset_range (current_task k) c). lia. }
  rewrite first_active_woken by done.
  destruct Hbest as [(-> & -> & Hb)|((Hn & _ & Hr) & -> & Hb0 & Hb)].
  - eexists. split; [done|]. right. split; [intros c Hc Hrc; by apply Hb, Hseen|].
    cbn. destruct (first_active (tasks k)); [by left|by right].
  - exists next. split; [by rewrite (proj2 (Z.ltb_ge _ _)) by lia|]. left.
    split_and!; [lia|lia|done|done|]. intros c' Hc' Hrc'. by apply Hb, Hseen.
Qed.

(** The election follows the documented policy.  The task chosen is the
    first, in round-robin order after the current one, among the ready tasks
    of the highest priority; when no task of non-negative priority is ready
    it is the active task of the smallest index, and -1 exactly when no task
    is active.  The only effect on the table is to wake the sleepers that are
    due. *)
Theorem find_next_task_correct k : alen (tasks k) = 16 ->
  let now := ticks (clock k) in
  exists r, find_next_task k = (r, set_tasks (woken now (tasks k)) k) /\
  (elected (current_task k) now (tasks k) r \/
   none_ready now (tasks k) /\ 0 <= r < 16 /\ active (tasks k).[r] = true /\
     (forall i, 0 <= i < r -> active (tasks k).[i] = false) \/
   r = -1 /\ forall i, 0 <= i < 16 -> active (tasks k).[i] = false).
Proof.
  intros Hlen now. destruct (find_next_task_spec k Hlen) as (r & Hf & [He|[Hn [Hr|[Hr ->]]]]);
    exists r || exists (-1); (split; [exact Hf|]).
  - by left.
  - right. left. apply find_index_Some in Hr as (Hr & Ha & Hmin).
    split_and!; try done; change (Z.to_nat MAX_TASKS) with 16%nat in Hr; lia.
  - right. right. split; [done|]. by apply first_active_None.
Qed.

(** ** [schedule] *)

Section schedule.
Context (L : Layout).

(** The state [find_next_task] is called in. *)
Definition saved (last_esp : Z) (k : kernel) : kernel :=
  upd_task (current_task k) (set_esp last_esp) (set_clock (timer_tick (clock k)) k).

(** The context [schedule] installs for task [c]. *)
Definition switched (c : Z) (k : kernel) : kernel :=
  let t := task k c in
  set_pages (paging_switch_directory
      (if 0 <=? addr_space t then paging_task_directory_phys L (addr_space t)
       else paging_kernel_directory_phys L) (pages k))
    (tss_set_kernel_stack (stack_base t ⊕ TASK_STACK_SIZE) (set_current_task c k)).

Lemma schedule_unfold last_esp k : multitasking_enabled k = true -> alen (tasks k) = 16 ->
  let s := saved last_esp k in
  let now := ticks (clock s) in
  exists r, find_next_task s = (r, set_tasks (woken now (tasks s)) s) /\
  schedule L last_esp k =
    let k' := set_tasks (woken now (tasks s)) s in
    if r <? 0 then Halted k' else Done (esp (task k' r)) (switched r k').
Proof.
  intros Hm Hlen s now.
  assert (Hlen' : alen (tasks s) = 16) by (cbn; by rewrite alen_arr_set).
  destruct (find_next_task_spec s Hlen') as (r & Hf & _). fold now in Hf.
  exists r. split; [done|]. unfold schedule. cbn [multitasking_enabled set_clock]. rewrite Hm. cbn [negb].
  change (upd_task _ _ _) with s. rewrite Hf. cbn zeta. destruct (r <? 0); [done|].
  unfold switched, task. cbn [tasks set_tasks set_current_task tss_set_kernel_stack pages].
  by destruct (0 <=? _).
Qed.

Lemma saved_get e k c : alen (tasks k) = 16 -> 0 <= current_task k < 16 ->
  (tasks (saved e k)).[c] = if current_task k =? c then set_esp e (tasks k).[c] else (tasks k).[c].
Proof.
  intros Hl Hc. unfold saved, upd_task. cbn [tasks set_tasks set_clock].
  rewrite arr_get_set by lia. destruct (Z.eqb_spec (current_task k) c); by subst.
Qed.

Lemma ready_saved e k now c : alen (tasks k) = 16 -> 0 <= current_task k < 16 ->
  ready now (tasks (saved e k)).[c] = ready now (tasks k).[c] /\
  priority (tasks (saved e k)).[c] = priority (tasks k).[c] /\
  active (tasks (saved e k)).[c] = active (tasks k).[c].
Proof. intros Hl Hc. rewrite saved_get by done. by destruct (_ =? _). Qed.

Lemma elected_saved e k now c : alen (tasks k) = 16 -> 0 <= current_task k < 16 ->
  elected (current_task k) now (tasks (saved e k)) c ->
  elected (current_task k) now (tasks k) c.
Proof.
  intros Hl Hc. pose proof (fun c' => ready_saved e k now c' Hl Hc) as H.
  intros (H1 & H2 & H3 & H4). destruct (H c) as (E1 & E2 & _). rewrite E1, E2 in *.
  split_and!; [lia|lia|done|done|]. intros c' Hc' Hr. destruct (H c') as (E3 & E4 & _).
  specialize (H4 c' Hc'). rewrite E3, E4 in H4. by apply H4.
Qed.

Definition choice (cur now : Z) (ts : list Task) (c : Z) : Prop :=
  elected cur now ts c \/
  none_ready now ts /\ 0 <= c < 16 /\ active ts.[c] = true.

Lemma choice_active cur now ts c : choice cur now ts c -> 0 <= c < 16 /\ active ts.[c] = true.
Proof.
  intros [(Hc & Hr & _)|(_ & Hc & Ha)]; [|done]. split; [done|].
  unfold ready in Hr. by destruct (active _).
Qed.

Lemma choice_saved e k now c : alen (tasks k) = 16 -> 0 <= current_task k < 16 ->
  choice (current_task k) now (tasks (saved e k)) c -> choice (current_task k) now (tasks k) c.
Proof.
  intros Hl Hc [H|(Hn & Hr & Ha)]; [left; by eapply elected_saved|right].
  split_and!; [|lia..|by destruct (ready_saved e k now c Hl Hc) as (_ & _ & <-)].
  intros c' Hc' Hr'. destruct (ready_saved e k now c' Hl Hc) as (E1 & <- & _).
  apply Hn; [done|congruence].
Qed.

Lemma schedule_step e k : multitasking_enabled k = true -> alen (tasks k) = 16 ->
  0 <= current_task k < 16 ->
  let now := ticks (clock k) ⊕ 1 in
  let k1 := set_tasks (woken now (tasks (saved e k))) (saved e k) in
  (exists c, choice (current_task k) now (tasks k) c /\
     schedule L e k = Done (esp (task k1 c)) (switched c k1)) \/
  ((forall i, 0 <= i < 16 -> active (tasks k).[i] = false) /\ schedule L e k = Halted k1).
Proof.
  intros Hm Hl Hc now k1. destruct (schedule_unfold e k Hm Hl) as (r & Hf & ->).
  change (ticks (clock (saved e k))) with now in *. cbn zeta. fold k1.
  assert (Hl' : alen (tasks (saved e k)) = 16) by (cbn; by rewrite alen_arr_set).
  destruct (find_next_task_spec (saved e k) Hl') as (r' & Hf' & Hcase).
  change (ticks (clock (saved e k))) with now in *. rewrite Hf in Hf'.
  injection Hf' as <-. change (current_task (saved e k)) with (current_task k) in Hcase.
  assert (Hch : 0 <= r < 16 -> choice (current_task k) now (tasks (saved e k)) r ->
    exists c, choice (current_task k) now (tasks k) c /\
      (if r <? 0 then Halted k1 else Done (esp (task k1 r)) (switched r k1)) =
        Done (esp (task k1 c)) (switched c k1)).
  { intros Hr Hch. exists r. split; [by eapply choice_saved|].
    by rewrite (proj2 (Z.ltb_ge _ _)) by lia. }
  destruct Hcase as [He|[Hn [Hr|[Hr ->]]]].
  - left. apply Hch; [apply He|by left].
  - left. apply find_index_Some in Hr as (Hr & Ha & _).
    change (Z.to_nat MAX_TASKS) with 16%nat in Hr. apply Hch; [lia|right]. split_and!; [done|lia..|done].
  - right. split; [|done]. intros i Hi. destruct (ready_saved e k now i Hl Hc) as (_ & _ & <-).
    by apply first_active_None.
Qed.

(** C10: the context switch.  [schedule] saves the stack pointer it is given
    in the current task, advances the clock by one tick, and returns the saved
    stack pointer of the task that the policy chooses (the argument itself
    when that is the task that was running), having pointed the TSS at the top
    of its kernel stack and CR3 at its page directory.  Memory is untouched,
    no other task's saved stack pointer changes, and the machine stops exactly
    when no task is active. *)
Theorem schedule_correct e k : multitasking_enabled k = true -> alen (tasks k) = 16 ->
  0 <= current_task k < 16 ->
  match schedule L e k with
  | Done e' k' =>
    let c := current_task k' in
    let t := task k c in
    choice (current_task k) (ticks (clock k')) (tasks k) c /\
    e' = (if c =? current_task k then e else esp t) /\
    tss_esp0 k' = stack_base t ⊕ TASK_STACK_SIZE /\
    cr3 (pages k') = (if 0 <=? addr_space t then paging_task_directory_phys L (addr_space t)
                      else paging_kernel_directory_phys L) /\
    ticks (clock k') = ticks (clock k) ⊕ 1 /\ mem k' = mem k /\
    (forall i, 0 <= i < 16 -> esp (task k' i) = if i =? current_task k then e else esp (task k i))
  | Halted k' => forall i, 0 <= i < 16 -> active (task k i) = false
  | OutOfFuel => False
  end.
Proof.
  intros Hm Hl Hc. destruct (schedule_step e k Hm Hl Hc) as [(c & Hch & ->)|[Hn ->]]; [|exact Hn].
  pose proof (choice_active _ _ _ _ Hch) as [Hcr _]. cbn zeta.
  set (now := ticks (clock k) ⊕ 1) in *.
  set (k1 := set_tasks (woken now (tasks (saved e k))) (saved e k)).
  assert (Hl' : alen (tasks (saved e k)) = 16) by (cbn; by rewrite alen_arr_set).
  assert (Hget : forall i, 0 <= i < 16 -> task k1 i =
    wake now (if current_task k =? i then set_esp e (task k i) else task k i)).
  { intros i Hi. unfold task, k1. cbn [tasks set_tasks]. by rewrite woken_get, saved_get. }
  assert (Hesp : forall i, 0 <= i < 16 ->
    esp (task k1 i) = if i =? current_task k then e else esp (task k i)).
  { intros i Hi. rewrite Hget, wake_esp, (Z.eqb_sym i) by done. by destruct (_ =? _). }
  assert (Hst : stack_base (task k1 c) = stack_base (task k c)).
  { rewrite Hget, wake_stack by done. by destruct (_ =? _). }
  assert (Hsp : addr_space (task k1 c) = addr_space (task k c)).
  { rewrite Hget, wake_space by done. by destruct (_ =? _). }
  unfold switched. rewrite Hst, Hsp. cbn [current_task set_pages set_current_task tss_set_kernel_stack
    tss_esp0 pages clock mem cr3 paging_switch_directory].
  split_and!; [done|by apply Hesp|done|done|done|done|]. exact Hesp.
Qed.
End schedule.

(** ** Fairness *)

Section fairness.
Context (L : Layout).

(** The tasks elected by a sequence of ticks, each saving some stack pointer. *)
Fixpoint elections (esps : list Z) (k : kernel) : list Z :=
  match esps with
  | [] => []
  | e :: esps =>
    match schedule L e k with
    | Done _ k' => current_task k' :: elections esps k'
    | _ => []
    end
  end.

(** [j] is awake, its priority is not negative (a task of negative priority is
    never elected, only taken as a last resort) and no active task has a
    higher one. *)
Definition contender (k : kernel) (j : Z) : Prop :=
  multitasking_enabled k = true /\ alen (tasks k) = 16 /\ 0 <= current_task k < 16 /\
  0 <= j < 16 /\ active (task k j) = true /\ sleeping (task k j) = false /\
  0 <= priority (task k j) /\
  forall i, 0 <= i < 16 -> active (task k i) = true -> priority (task k i) <= priority (task k j).

Lemma contender_step e k j : contender k j -> exists e' k', schedule L e k = Done e' k' /\
  contender k' j /\
  (current_task k' = j \/ offset (current_task k') j < offset (current_task k) j).
Proof.
  intros (Hm & Hl & Hc & Hj & Ha & Hs & Hp & Hmax).
  destruct (schedule_step L e k Hm Hl Hc) as [(c & Hch & ->)|[Hn _]].
  2:{ unfold task in Ha. rewrite Hn in Ha by done. done. }
  set (now := ticks (clock k) ⊕ 1) in *.
  assert (Hrj : ready now (task k j) = true) by (unfold ready; by rewrite Ha, Hs).
  destruct Hch as [(Hcr & Hrc & Hpc & Hbest)|(Hn & _)].
  2:{ specialize (Hn j Hj Hrj). unfold task in Hp. lia. }
  assert (Hl' : alen (tasks (saved e k)) = 16) by (cbn; by rewrite alen_arr_set).
  set (k1 := set_tasks (woken now (tasks (saved e k))) (saved e k)).
  assert (Hget : forall i, 0 <= i < 16 -> active (task k1 i) = active (task k i) /\
    priority (task k1 i) = priority (task k i) /\
    (sleeping (task k i) = false -> sleeping (task k1 i) = false)).
  { intros i Hi. unfold task, k1. cbn [tasks set_tasks]. rewrite woken_get by done.
    rewrite wake_active, wake_priority, saved_get by done. unfold wake.
    split_and!; [by destruct (_ =? _)..|].
    intros Hsi. by destruct (current_task k =? i), (_ && _). }
  eexists _, _. split; [reflexivity|].
  change (current_task (switched L c k1)) with c. split.
  - destruct (Hget j Hj) as (E1 & E2 & E3).
    assert (Ht : forall i, task (switched L c k1) i = task k1 i) by done.
    unfold contender. rewrite !Ht, E1, E2. change (current_task (switched L c k1)) with c.
    split_and!; try done; try lia; [|by apply E3|].
    + change (alen (woken now (tasks (saved e k))) = 16). by rewrite alen_woken.
    + intros i Hi. rewrite Ht. destruct (Hget i Hi) as (-> & -> & _). by apply Hmax.
  - destruct (decide (c = j)) as [|Hne]; [by left|right].
    destruct (Hbest j Hj Hrj) as [Hle Hoff].
    assert (Hac : active (task k c) = true) by (by apply andb_true_iff in Hrc as [? _]).
    specialize (Hmax c Hcr Hac). unfold task in Hmax. specialize (Hoff ltac:(lia)).
    assert (offset (current_task k) c <> offset (current_task k) j)
      by (intros Heq; by apply Hne, (offset_inj (current_task k))).
    pose proof (offset_range (current_task k) c).
    unfold offset in *. Z.div_mod_to_equations. lia.
Qed.

Lemma elections_reach n : forall k j esps, contender k j ->
  offset (current_task k) j < Z.of_nat n -> (n <= length esps)%nat -> j ∈ elections esps k.
Proof.
  induction n as [|n IH]; intros k j esps Hk Ho Hn.
  { pose proof (offset_range (current_task k) j). lia. }
  destruct esps as [|e esps]; [cbn in Hn; lia|]. cbn [elections length] in *.
  destruct (contender_step e k j Hk) as (e' & k' & -> & Hk' & [<-|Hlt]); [by left|].
  right. apply IH; [done|lia|lia].
Qed.

(** C11: fairness.  While multitasking is enabled, a task that is awake, whose
    priority is not negative and which no active task exceeds runs within the
    next sixteen ticks. *)
Theorem schedule_fair k j esps : contender k j -> (16 <= length esps)%nat ->
  j ∈ elections (take 16 esps) k.
Proof.
  intros Hk Hn. apply (elections_reach 16); [done| |].
  - pose proof (offset_range (current_task k) j). lia.
  - rewrite length_take. lia.
Qed.
End fairness.

(** ** A concrete table: three ready tasks, the last of a higher priority *)

Definition demo_task (e prio : Z) : Task := set_priority prio (set_esp e (set_active true zero_task)).
Definition demo_table : list Task :=
  ((build 16 (fun _ => zero_task)).[0 <- demo_task 4096 0]).[1 <- demo_task 8192 0].
Definition demo_sched : kernel :=
  mkKernel demo_table 0 true 2 (fun _ => 0) 0 (paging_init demo_layout paging_boot).1 pit_boot 0 [].

Lemma find_next_task_correct_witness :
  let now := ticks (clock demo_sched) in
  exists r, find_next_task demo_sched = (r, set_tasks (woken now (tasks demo_sched)) demo_sched) /\
  (elected (current_task demo_sched) now (tasks demo_sched) r \/
   none_ready now (tasks demo_sched) /\ 0 <= r < 16 /\ active (tasks demo_sched).[r] = true /\
     (forall i, 0 <= i < r -> active (tasks demo_sched).[i] = false) \/
   r = -1 /\ forall i, 0 <= i < 16 -> active (tasks demo_sched).[i] = false).
Proof. apply (find_next_task_correct demo_sched). reflexivity. Defined.

Lemma demo_contender : contender demo_sched 1.
Proof.
  unfold contender. split_and!; try done. intros i Hi _.
  unfold task, demo_sched, demo_table. cbn [tasks].
  rewrite !arr_get_set, build_get by done.
  destruct (1 =? i), (0 =? i); done.
Qed.

Lemma schedule_fair_witness : 1 ∈ elections demo_layout (take 16 (repeat 4096 16)) demo_sched.
Proof. apply (schedule_fair demo_layout demo_sched 1 (repeat 4096 16)); [apply demo_contender|done]. Defined.

Lemma schedule_correct_witness :
  match schedule demo_layout 4000 demo_sched with
  | Done e' k' =>
    let c := current_task k' in
    let t := task demo_sched c in
    choice (current_task demo_sched) (ticks (clock k')) (tasks demo_sched) c /\
    e' = (if c =? current_task demo_sched then 4000 else esp t) /\
    tss_esp0 k' = stack_base t ⊕ TASK_STACK_SIZE /\
    cr3 (pages k') = (if 0 <=? addr_space t
                      then paging_task_directory_phys demo_layout (addr_space t)
                      else paging_kernel_directory_phys demo_layout) /\
    ticks (clock k') = ticks (clock demo_sched) ⊕ 1 /\ mem k' = mem demo_sched /\
    (forall i, 0 <= i < 16 ->
       esp (task k' i) = if i =? current_task demo_sched then 4000 else esp (task demo_sched i))
  | Halted k' => forall i, 0 <= i < 16 -> active (task demo_sched i) = false
  | OutOfFuel => False
  end.
Proof.
  apply (schedule_correct demo_layout 4000 demo_sched); [reflexivity|reflexivity|by split].
Defined.
