(* ===== verification/Frames.v ===== *)
(** * Interrupt frames: saving and restoring a context

    [interrupt_entry] and [interrupt_return] of [Sched.v] (the processor,
    [pushal]/[popal] and [iret] around [schedule] in [timer_handler]) are
    inverse to each other on an intact stack, so a task that is preempted
    resumes with the registers it had. *)
From stdpp Require Import base numbers list.
From S2P Require Import Prelude Machine Paging Pit Sched SchedProps.

(** ** Pushing words *)

Lemma push_all_app vs ws ms : push_all (vs ++ ws) ms = push_all ws (push_all vs ms).
Proof. apply fold_left_app. Qed.

Lemma push_all_bytes vs : forall m sp, mem_bytes m -> mem_bytes (push_all vs (m, sp)).1.
Proof. induction vs as [|v vs IH]; intros m sp Hm; [done|]. apply IH. auto with mx. Qed.

Lemma push_all_spec vs : forall m sp, 4 * alen vs <= sp < 4294967296 ->
  exists m', push_all vs (m, sp) = (m', sp - 4 * alen vs) /\
    agree_on (fun x => ~ range (sp - 4 * alen vs) (4 * alen vs) x) m m' /\
    forall i v, vs !! i = Some v -> load32 m' (sp - 4 * (Z.of_nat i + 1)) = u32 v.
Proof.
  induction vs as [|v vs IH]; intros m sp Hsp.
  { exists m. split_and!; [|done|done].
    change (push_all [] (m, sp)) with (m, sp). f_equal. unfold alen. cbn [length]. lia. }
  assert (Hal : alen (v :: vs) = alen vs + 1) by (unfold alen; cbn; lia). rewrite Hal in *.
  assert (0 <= alen vs) by (unfold alen; lia).
  cbn [push_all fold_left push]. rewrite u32_id by (unfold is_u32; lia).
  destruct (IH (store32 m (sp - 4) v) (sp - 4) ltac:(lia)) as (m' & E & Hag & Hld).
  exists m'. split_and!.
  - etransitivity; [exact E|]. f_equal. lia.
  - intros x Hx. rewrite Hag by (unfold range in *; lia).
    apply (store32_frame _ _ _ (fun y => y = x)); [lia|lia| |done].
    intros y ->. unfold range in *. lia.
  - intros [|i] w Hi; cbn in Hi.
    + injection Hi as ->. replace (sp - 4 * (Z.of_nat 0 + 1)) with (sp - 4) by lia.
      rewrite (load32_agree (store32 m (sp - 4) w) m'); [|lia|lia|].
      * apply load32_store32_eq; lia.
      * intros x Hx. apply Hag. unfold range in *. lia.
    + rewrite <- (Hld i w Hi). f_equal. lia.
Qed.

(** The words [popal] and [iret] read, from the pushed ones. *)
Lemma pushed_word vs m sp m' sp' i v : push_all vs (m, sp) = (m', sp') ->
  4 * alen vs <= sp < 4294967296 -> vs !! i = Some v -> is_u32 v ->
  forall m'', agree_on (range sp' (4 * alen vs)) m' m'' ->
  load32 m'' (sp' ⊕ (4 * (alen vs - Z.of_nat i - 1))) = v.
Proof.
  intros E Hsp Hi Hv m'' Hag. destruct (push_all_spec vs m sp Hsp) as (m1 & E1 & _ & Hld).
  rewrite E1 in E. injection E as <- <-. pose proof (lookup_lt_Some _ _ _ Hi).
  unfold alen in *. rewrite u32_id by (unfold is_u32; lia).
  rewrite (load32_agree m1); [|lia|lia|intros x Hx; apply Hag; unfold range in *; lia].
  rewrite <- (u32_id v Hv), <- (Hld i v Hi). f_equal. lia.
Qed.

Lemma agree_on_refl P m : agree_on P m m.
Proof. done. Qed.

(** The registers a frame restores, from the pushed words: [pre] is what the
    processor pushes before EFLAGS (SS and ESP, coming from ring 3). *)
Definition frame_words (pre : list Z) (c : cpu) (dummy : Z) : list Z :=
  pre ++ [r_eflags c; r_cs c; r_eip c] ++
  [r_eax c; r_ecx c; r_edx c; r_ebx c; dummy; r_ebp c; r_esi c; r_edi c].

Definition cpu_typed (c : cpu) : Prop :=
  Forall is_u32 [r_eax c; r_ecx c; r_edx c; r_ebx c; r_ebp c; r_esi c; r_edi c;
                 r_esp c; r_eip c; r_cs c; r_eflags c; r_ss c].

Lemma frame_low_words pre c dummy m sp m' sp' m'' :
  push_all (frame_words pre c dummy) (m, sp) = (m', sp') ->
  4 * alen pre + 44 <= sp < 4294967296 -> cpu_typed c ->
  agree_on (range sp' (4 * alen pre + 44)) m' m'' ->
  let w i := load32 m'' (sp' ⊕ i) in
  w 0 = r_edi c /\ w 4 = r_esi c /\ w 8 = r_ebp c /\ w 16 = r_ebx c /\ w 20 = r_edx c /\
  w 24 = r_ecx c /\ w 28 = r_eax c /\ w 32 = r_eip c /\ w 36 = r_cs c /\ w 40 = r_eflags c.
Proof.
  intros E Hsp Hc Hag w. unfold cpu_typed in Hc. rewrite !Forall_cons in Hc. destruct_and! Hc.
  assert (Hlen : alen (frame_words pre c dummy) = alen pre + 11)
    by (unfold frame_words, alen; rewrite length_app; cbn [length app]; lia).
  assert (Hw : forall (i : nat) v, frame_words pre c dummy !! (length pre + i)%nat = Some v -> is_u32 v ->
    w (4 * (10 - Z.of_nat i)) = v).
  { intros i v Hi Hv. unfold w. rewrite <- (pushed_word _ _ _ _ _ _ v E ltac:(lia) Hi Hv m'').
    - do 3 f_equal. rewrite Hlen. unfold alen. lia.
    - intros x Hx. apply Hag. rewrite Hlen in Hx. unfold range in *. lia. }
  assert (Hlk : forall i, frame_words pre c dummy !! (length pre + i)%nat =
    ([r_eflags c; r_cs c; r_eip c] ++
     [r_eax c; r_ecx c; r_edx c; r_ebx c; dummy; r_ebp c; r_esi c; r_edi c]) !! i).
  { intros i. unfold frame_words. rewrite lookup_app_r by lia. f_equal. lia. }
  split_and!.
  - by apply (Hw 10%nat); rewrite ?Hlk.
  - by apply (Hw 9%nat); rewrite ?Hlk.
  - by apply (Hw 8%nat); rewrite ?Hlk.
  - by apply (Hw 6%nat); rewrite ?Hlk.
  - by apply (Hw 5%nat); rewrite ?Hlk.
  - by apply (Hw 4%nat); rewrite ?Hlk.
  - by apply (Hw 3%nat); rewrite ?Hlk.
  - by apply (Hw 2%nat); rewrite ?Hlk.
  - by apply (Hw 1%nat); rewrite ?Hlk.
  - by apply (Hw 0%nat); rewrite ?Hlk.
Qed.

Lemma frame_restores_ring3 c dummy m sp m' sp' m'' :
  push_all (frame_words [r_ss c; r_esp c] c dummy) (m, sp) = (m', sp') ->
  52 <= sp < 4294967296 -> cpu_typed c -> in_ring3 (r_cs c) = true ->
  agree_on (range sp' 52) m' m'' -> interrupt_return sp' m'' = c.
Proof.
  intros E Hsp Hc H3 Hag.
  destruct (frame_low_words _ _ _ _ _ _ _ m'' E Hsp Hc Hag)
    as (H0 & H4 & H8 & H16 & H20 & H24 & H28 & H32 & H36 & H40).
  assert (Hlen : alen (frame_words [r_ss c; r_esp c] c dummy) = 13) by done.
  unfold cpu_typed in Hc. rewrite !Forall_cons in Hc.
  assert (Hesp : load32 m'' (sp' ⊕ 44) = r_esp c).
  { apply (pushed_word _ _ _ _ _ 1 (r_esp c) E); [lia|done|apply Hc|done]. }
  assert (Hss : load32 m'' (sp' ⊕ 48) = r_ss c).
  { apply (pushed_word _ _ _ _ _ 0 (r_ss c) E); [lia|done|apply Hc|done]. }
  unfold interrupt_return. rewrite H0, H4, H8, H16, H20, H24, H28, H32, H36, H40, Hesp, Hss, H3.
  by destruct c.
Qed.

Lemma frame_restores_ring0 pre c dummy m sp m' sp' m'' :
  push_all (frame_words pre c dummy) (m, sp) = (m', sp') ->
  4 * alen pre + 44 <= sp < 4294967296 -> cpu_typed c ->
  in_ring3 (r_cs c) = false -> r_ss c = SEL_KERNEL_DATA -> r_esp c = sp - 4 * alen pre ->
  agree_on (range sp' (4 * alen pre + 44)) m' m'' -> interrupt_return sp' m'' = c.
Proof.
  intros E Hsp Hc H3 Hss Hesp Hag.
  destruct (frame_low_words _ _ _ _ _ _ _ m'' E Hsp Hc Hag)
    as (H0 & H4 & H8 & H16 & H20 & H24 & H28 & H32 & H36 & H40).
  assert (Hlen : alen (frame_words pre c dummy) = alen pre + 11)
    by (unfold frame_words, alen; rewrite length_app; cbn [length app]; lia).
  destruct (push_all_spec (frame_words pre c dummy) m sp) as (m1 & E1 & _); [lia|].
  rewrite E1 in E. injection E as _ Hsp'.
  assert (0 <= alen pre) by (unfold alen; lia).
  assert (Htop : sp' ⊕ 44 = r_esp c).
  { rewrite <- Hsp', Hesp, Hlen, u32_id by (unfold is_u32; lia). lia. }
  unfold interrupt_return. rewrite H0, H4, H8, H16, H20, H24, H28, H32, H36, H40, H3, <- Hss.
  rewrite Htop. by destruct c.
Qed.

(** ** Entering and leaving an interrupt *)

(** The top of the stack the frame of [c] is pushed on. *)
Definition frame_top (c : cpu) (k : kernel) : Z :=
  if in_ring3 (r_cs c) then tss_esp0 k else r_esp c.
Definition frame_size (c : cpu) : Z := if in_ring3 (r_cs c) then 52 else 44.

(** The stack has room for a frame; in ring 0 SS is the kernel's. *)
Definition frame_room (c : cpu) (k : kernel) : Prop :=
  cpu_typed c /\ frame_size c <= frame_top c k < 4294967296 /\
  (in_ring3 (r_cs c) = false -> r_ss c = SEL_KERNEL_DATA).

Lemma interrupt_entry_spec c k : frame_room c k ->
  exists m', interrupt_entry c k = (frame_top c k - frame_size c, set_mem m' k) /\
    agree_on (fun x => ~ range (frame_top c k - frame_size c) (frame_size c) x) (mem k) m' /\
    forall m'', agree_on (range (frame_top c k - frame_size c) (frame_size c)) m' m'' ->
      interrupt_return (frame_top c k - frame_size c) m'' = c.
Proof.
  unfold frame_room, frame_top, frame_size, interrupt_entry. intros (Hc & Hroom & Hss).
  destruct (in_ring3 (r_cs c)) eqn:H3.
  - destruct (push_all [r_ss c; r_esp c] (mem k, tss_esp0 k)) as [m1 sp1] eqn:E1.
    destruct (push_all [r_eflags c; r_cs c; r_eip c] (m1, sp1)) as [m2 sp2] eqn:E2.
    rewrite <- E1, <- push_all_app in E2. rewrite <- E2, <- push_all_app.
    change (([r_ss c; r_esp c] ++ [r_eflags c; r_cs c; r_eip c]) ++
      [r_eax c; r_ecx c; r_edx c; r_ebx c; sp2; r_ebp c; r_esi c; r_edi c])
      with (frame_words [r_ss c; r_esp c] c sp2).
    destruct (push_all_spec (frame_words [r_ss c; r_esp c] c sp2) (mem k) (tss_esp0 k))
      as (m' & E & Hag & _); [done|]. rewrite E. exists m'. split_and!; [done|exact Hag|].
    intros m'' Hm''. by apply (frame_restores_ring3 c sp2 (mem k) (tss_esp0 k) m').
  - destruct (push_all [r_eflags c; r_cs c; r_eip c] (mem k, r_esp c)) as [m2 sp2] eqn:E2.
    rewrite <- E2, <- push_all_app.
    change ([r_eflags c; r_cs c; r_eip c] ++
      [r_eax c; r_ecx c; r_edx c; r_ebx c; sp2; r_ebp c; r_esi c; r_edi c])
      with (frame_words [] c sp2).
    destruct (push_all_spec (frame_words [] c sp2) (mem k) (r_esp c))
      as (m' & E & Hag & _); [done|]. rewrite E. exists m'. split_and!; [done|exact Hag|].
    intros m'' Hm''. apply (frame_restores_ring0 [] c sp2 (mem k) (r_esp c) m');
      try done; [by apply Hss|unfold alen; cbn [length]; lia].
Qed.

(** C12: preemption is transparent.  When the timer interrupts a task, the
    frame it leaves restores exactly the task's registers, now (if the policy
    elects the same task) or whenever the task is elected again with its stack
    intact; only the frame's bytes and the two words of the call of [schedule]
    below it are written, and the task elected instead resumes from its own
    saved frame. *)
Theorem timer_handler_correct L ret_at c k :
  multitasking_enabled k = true -> alen (tasks k) = 16 -> 0 <= current_task k < 16 ->
  frame_room c k -> frame_size c + 8 <= frame_top c k ->
  match timer_handler L ret_at c k with
  | Done c' k' =>
    let prev := current_task k in
    let next := current_task k' in
    (next = prev -> c' = c) /\
    (next <> prev -> c' = interrupt_return (esp (task k next)) (mem k')) /\
    (forall m, agree_on (range (esp (task k' prev)) (frame_size c)) (mem k') m ->
       interrupt_return (esp (task k' prev)) m = c) /\
    agree_on (fun x => ~ range (frame_top c k - frame_size c - 8) (frame_size c + 8) x) (mem k) (mem k')
  | Halted _ => forall i, 0 <= i < 16 -> active (task k i) = false
  | OutOfFuel => False
  end.
Proof.
  intros Hm Hl Hc Hroom Hcall. destruct (interrupt_entry_spec c k Hroom) as (m0 & E & Hag0 & Hret0).
  assert (Hfs : 44 <= frame_size c) by (unfold frame_size; destruct (in_ring3 _); lia).
  destruct Hroom as (_ & Htop & _). unfold timer_handler. rewrite E. cbn [mem set_mem].
  destruct (push_all_spec [frame_top c k - frame_size c; ret_at] m0 (frame_top c k - frame_size c)) as (m' & E' & Hag' & _);
    [unfold alen; cbn [length]; lia|]. change (4 * alen [_; _]) with 8 in *. rewrite E'. change (set_mem m' (set_mem m0 k)) with (set_mem m' k).
  assert (Hret : forall m, agree_on (range (frame_top c k - frame_size c) (frame_size c)) m' m ->
    interrupt_return (frame_top c k - frame_size c) m = c).
  { intros m Hmm. apply Hret0. eapply agree_on_trans; [|exact Hmm]. eapply agree_on_weaken; [|exact Hag']. unfold range. lia. }
  assert (Hag : agree_on (fun x => ~ range (frame_top c k - frame_size c - 8) (frame_size c + 8) x) (mem k) m').
  { eapply agree_on_trans; [eapply agree_on_weaken; [|exact Hag0]|eapply agree_on_weaken; [|exact Hag']]; unfold range; lia. }
  destruct (schedule_step L (frame_top c k - frame_size c) (set_mem m' k) Hm Hl Hc)
    as [(n & Hch & E2)|[Hn E2]]; rewrite E2; [|exact Hn].
  pose proof (choice_active _ _ _ _ Hch) as [Hnr _]. clear E2 Hch.
  set (sp := frame_top c k - frame_size c) in *. cbn zeta.
  set (k1 := set_tasks (woken _ (tasks (saved sp (set_mem m' k)))) (saved sp (set_mem m' k))).
  change (current_task (switched L n k1)) with n.
  assert (Hmem : mem (switched L n k1) = m') by done. rewrite Hmem.
  assert (Hesp : forall i, 0 <= i < 16 ->
    esp (task k1 i) = if current_task k =? i then sp else esp (task k i)).
  { intros i Hi. unfold task, k1. cbn [tasks set_tasks].
    rewrite woken_get, wake_esp, saved_get by (done || by (cbn; rewrite alen_arr_set)).
    cbn [current_task set_mem tasks]. by destruct (_ =? _). }
  change (task (switched L n k1) (current_task k)) with (task k1 (current_task k)).
  rewrite !Hesp, Z.eqb_refl by done. split_and!.
  - intros ->. rewrite Z.eqb_refl. by apply Hret.
  - intros Hne. by rewrite (proj2 (Z.eqb_neq _ _)) by congruence.
  - exact Hret.
  - exact Hag.
Qed.

Definition demo_cpu : cpu := mkCpu 1 2 3 4 5 6 7 4096 32768 8 514 SEL_KERNEL_DATA.

Lemma timer_handler_correct_witness :
  match timer_handler demo_layout 33000 demo_cpu demo_sched with
  | Done c' k' =>
    let prev := current_task demo_sched in
    let next := current_task k' in
    (next = prev -> c' = demo_cpu) /\
    (next <> prev -> c' = interrupt_return (esp (task demo_sched next)) (mem k')) /\
    (forall m, agree_on (range (esp (task k' prev)) (frame_size demo_cpu)) (mem k') m ->
       interrupt_return (esp (task k' prev)) m = demo_cpu) /\
    agree_on (fun x => ~ range (frame_top demo_cpu demo_sched - frame_size demo_cpu - 8)
                         (frame_size demo_cpu + 8) x) (mem demo_sched) (mem k')
  | Halted _ => forall i, 0 <= i < 16 -> active (task demo_sched i) = false
  | OutOfFuel => False
  end.
Proof.
  apply (timer_handler_correct demo_layout 33000 demo_cpu demo_sched); [reflexivity|reflexivity|by split| |by vm_compute].
  split_and!; [|done|done|done]. repeat constructor; done.
Defined.
