(* ===== verification/SchedInv.v ===== *)
(** * Ownership: the kernel's resource invariant

    Every kernel stack on the heap belongs to exactly one task, every address
    space in use belongs to exactly one task, and [task_count] counts the
    active tasks.  The invariant is preserved by every operation of
    [sched.c], in any order, interleaved with the tasks' own writes. *)
From stdpp Require Import base numbers list relations.
From S2P Require Import Prelude Machine Heap Paging Pit Sched SchedProps Frames.

(** ** What a task owns *)

Definition own_stack (t : Task) : list Z := if stack_base t =? 0 then [] else [stack_base t].
Definition own_space (t : Task) : list Z := if 0 <=? addr_space t then [addr_space t] else [].
Definition own_slot (t : Task) : list unit := if active t then [tt] else [].

Definition owned {A} (f : Task -> list A) (ts : list Task) : list A := concat (map f ts).

(** The other tasks. *)
Definition others (i : Z) (ts : list Task) : list Task :=
  take (Z.to_nat i) ts ++ drop (S (Z.to_nat i)) ts.

Lemma owned_middle {A} (f : Task -> list A) l1 t l2 :
  owned f (l1 ++ t :: l2) ≡ₚ f t ++ owned f (l1 ++ l2).
Proof.
  unfold owned. rewrite !map_app, !concat_app. cbn.
  rewrite !app_assoc. f_equiv. apply Permutation_app_comm.
Qed.

Lemma owned_split {A} (f : Task -> list A) ts i : 0 <= i < alen ts ->
  owned f ts ≡ₚ f ts.[i] ++ owned f (others i ts).
Proof.
  intros Hi. pose proof (arr_lookup_get ts i Hi) as Hl. unfold others.
  rewrite <- owned_middle. by rewrite take_drop_middle.
Qed.

(** Updating one task replaces its contribution. *)
Lemma owned_update {A} (f : Task -> list A) ts i t' : 0 <= i < alen ts ->
  owned f (ts.[i <- t']) ≡ₚ f t' ++ owned f (others i ts).
Proof.
  intros Hi. unfold arr_set, others. rewrite (proj2 (Z.leb_le 0 i)) by lia.
  rewrite insert_take_drop by (unfold alen in Hi; lia). apply owned_middle.
Qed.

Lemma others_elem ts i j : 0 <= i < alen ts -> 0 <= j < alen ts -> i <> j ->
  ts.[j] ∈ others i ts.
Proof.
  intros Hi Hj Hne. pose proof (arr_lookup_get ts j Hj) as Hl. unfold others.
  apply elem_of_app. destruct (Z.lt_ge_cases j i); [left|right].
  - apply (list_elem_of_lookup_2 _ (Z.to_nat j)). by rewrite lookup_take_lt by lia.
  - apply (list_elem_of_lookup_2 _ (Z.to_nat j - S (Z.to_nat i))%nat).
    rewrite lookup_drop. rewrite <- Hl. f_equal. lia.
Qed.

Lemma owned_same {A} (f : Task -> list A) ts i t' : 0 <= i < alen ts -> f t' = f ts.[i] ->
  owned f (ts.[i <- t']) ≡ₚ owned f ts.
Proof. intros Hi Hf. by rewrite owned_update, (owned_split f ts i), Hf by done. Qed.

Lemma owned_map {A} (f : Task -> list A) g ts : (forall t, f (g t) = f t) ->
  owned f (map g ts) = owned f ts.
Proof. intros H. unfold owned. rewrite map_map. f_equal. apply map_ext, H. Qed.

Lemma owned_elem {A} (f : Task -> list A) ts x :
  x ∈ owned f ts <-> exists i, 0 <= i < alen ts /\ x ∈ f ts.[i].
Proof.
  unfold owned. rewrite list_elem_of_In, in_concat. split.
  - intros (l & Hl & Hx). apply in_map_iff in Hl as (t & <- & Ht).
    apply list_elem_of_In, list_elem_of_lookup in Ht as [i Hi].
    exists (Z.of_nat i). pose proof (lookup_lt_Some _ _ _ Hi). split; [unfold alen; lia|].
    rewrite (arr_get_lookup ts _ t); [by apply list_elem_of_In|lia|by rewrite Nat2Z.id].
  - intros (i & Hi & Hx). exists (f ts.[i]). split; [|by apply list_elem_of_In].
    apply in_map, list_elem_of_In. eapply list_elem_of_lookup_2, arr_lookup_get, Hi.
Qed.

Lemma owned_in {A} (f : Task -> list A) ts t x : t ∈ ts -> x ∈ f t -> x ∈ owned f ts.
Proof.
  intros Ht Hx. apply list_elem_of_In, in_concat. exists (f t).
  split; [by apply in_map, list_elem_of_In|by apply list_elem_of_In].
Qed.

(** Two tasks of a duplicate-free table do not own the same thing. *)
Lemma owned_inj {A} (f : Task -> list A) ts i j x : NoDup (owned f ts) ->
  0 <= i < alen ts -> 0 <= j < alen ts -> x ∈ f ts.[i] -> x ∈ f ts.[j] -> i = j.
Proof.
  intros Hnd Hi Hj Hxi Hxj. destruct (decide (i = j)) as [|Hne]; [done|exfalso].
  rewrite (owned_split f ts i Hi) in Hnd. apply NoDup_app in Hnd as (_ & Hd & _).
  apply (Hd x Hxi). by eapply owned_in; [apply others_elem|].
Qed.

(** ** What the allocators have handed out *)

Lemma used_keys_NoDup m a bs : heap_rep m a bs -> NoDup (used_payloads a bs).*1.
Proof.
  revert a. induction bs as [|b rest IH]; intros a; cbn [used_payloads]; [intros; constructor|].
  intros (H1 & H2 & H3 & [Hb Hb4] & Hr). destruct (bfree b); cbn [app]; [by apply IH|].
  cbn [fmap list_fmap fst]. constructor; [|by apply IH].
  intros Hin. apply list_elem_of_fmap in Hin as ([q n] & Heq & Hq). cbn in Heq. subst q.
  pose proof (used_payloads_range _ _ _ _ _ Hr Hq). lia.
Qed.

(** The indices of the address spaces in use. *)
Definition used_spaces (sp : spaces) : list Z :=
  filter (fun i => sp.[i] <> None) (seqZ 0 MAX_ADDR_SPACES).

Lemma used_spaces_elem sp i : i ∈ used_spaces sp <-> 0 <= i < MAX_ADDR_SPACES /\ sp.[i] <> None.
Proof. unfold used_spaces. rewrite list_elem_of_filter, elem_of_seqZ. lia || tauto. Qed.

Lemma used_spaces_NoDup sp : NoDup (used_spaces sp).
Proof. apply NoDup_filter, NoDup_seqZ. Qed.

Lemma used_spaces_create sp i w : alen sp = MAX_ADDR_SPACES -> 0 <= i < MAX_ADDR_SPACES ->
  sp.[i] = None -> used_spaces (sp.[i <- Some w]) ≡ₚ i :: used_spaces sp.
Proof.
  intros Hl Hi Hn. apply NoDup_Permutation.
  - apply used_spaces_NoDup.
  - constructor; [|apply used_spaces_NoDup]. rewrite used_spaces_elem. tauto.
  - intros x. rewrite elem_of_cons, !used_spaces_elem, arr_get_set by lia.
    destruct (Z.eqb_spec i x) as [<-|]; [split; [by left|]|];
      [intros _; split; [done|discriminate]|]. naive_solver.
Qed.

Lemma used_spaces_free sp i : alen sp = MAX_ADDR_SPACES -> 0 <= i < MAX_ADDR_SPACES ->
  sp.[i] <> None -> used_spaces sp ≡ₚ i :: used_spaces (spec_free i sp).
Proof.
  intros Hl Hi Hn. apply NoDup_Permutation.
  - apply used_spaces_NoDup.
  - constructor; [|apply used_spaces_NoDup]. rewrite used_spaces_elem. unfold spec_free.
    rewrite arr_get_set_eq by lia. tauto.
  - intros x. unfold spec_free. rewrite elem_of_cons, !used_spaces_elem, arr_get_set by lia.
    destruct (Z.eqb_spec i x) as [<-|]; [tauto|]. split; [by right|]. by intros [->|].
Qed.

(** ** The invariant *)

Definition mailbox_wf (t : Task) : Prop :=
  alen (mailbox t) = 4 /\ (forall s, 0 <= s < 4 -> alen (mailbox t).[s] = 128) /\
  alen (mailbox_len t) = 4 /\ alen (mailbox_sender t) = 4 /\
  0 <= mailbox_head t < 4 /\ 0 <= mailbox_count t <= 4 /\
  forall s, 0 <= s < 4 -> 0 <= (mailbox_len t).[s] <= 128.

Section invariant.
Context (L : Layout) (total : Z).

(** [bs] are the blocks of the heap and [sp] the windows of the address
    spaces. *)
Record kernel_wf (k : kernel) (bs : list block) (sp : spaces) : Prop := {
  kw_len : alen (tasks k) = 16;
  kw_cur : 0 <= current_task k < 16;
  kw_count : task_count k = alen (owned own_slot (tasks k));
  kw_idle i : 0 <= i < 16 -> active (task k i) = false ->
    own_stack (task k i) = [] /\ own_space (task k i) = [];
  kw_heap : heap_inv (heap_start k) total (mem k) bs;
  kw_stacks : (used_payloads (heap_start k) bs).*1 ≡ₚ owned own_stack (tasks k);
  kw_sizes p n : (p, n) ∈ used_payloads (heap_start k) bs -> TASK_STACK_SIZE <= n;
  kw_pages : implements L (pages k) sp;
  kw_spaces : used_spaces sp ≡ₚ owned own_space (tasks k);
  kw_mail i : 0 <= i < 16 -> mailbox_wf (task k i);
}.

(** Tables with the same owners satisfy the same invariant. *)
Definition same_owner (t' t : Task) : Prop :=
  active t' = active t /\ stack_base t' = stack_base t /\ addr_space t' = addr_space t /\
  (mailbox_wf t -> mailbox_wf t').

Lemma owned_ext {A} (f : Task -> list A) ts ts' : alen ts' = alen ts ->
  (forall i, 0 <= i < alen ts -> f ts'.[i] = f ts.[i]) -> owned f ts' = owned f ts.
Proof.
  intros Hl H. unfold owned. f_equal. apply arr_ext; unfold alen in *; rewrite !length_map; [lia|].
  intros i Hi. rewrite !arr_get_map by (unfold alen; lia). apply H. lia.
Qed.

Lemma wf_same_owners k bs sp ts' : kernel_wf k bs sp -> alen ts' = 16 ->
  (forall i, 0 <= i < 16 -> same_owner ts'.[i] (task k i)) ->
  kernel_wf (set_tasks ts' k) bs sp.
Proof.
  intros [Hlen Hcur Hcount Hidle Hheap Hstacks Hsizes Hpages Hspaces Hmail] Hl H.
  assert (Hslot : owned own_slot ts' = owned own_slot (tasks k)).
  { apply owned_ext; [congruence|]. intros i Hi. destruct (H i ltac:(lia)) as (E & _).
    unfold own_slot. by rewrite E. }
  assert (Hst : owned own_stack ts' = owned own_stack (tasks k)).
  { apply owned_ext; [congruence|]. intros i Hi. destruct (H i ltac:(lia)) as (_ & E & _).
    unfold own_stack. by rewrite E. }
  assert (Hsp : owned own_space ts' = owned own_space (tasks k)).
  { apply owned_ext; [congruence|]. intros i Hi. destruct (H i ltac:(lia)) as (_ & _ & E & _).
    unfold own_space. by rewrite E. }
  split; cbn [tasks set_tasks current_task task_count mem heap_start pages]; rewrite ?Hslot, ?Hst, ?Hsp;
    try done.
  - intros i Hi. destruct (H i Hi) as (E1 & E2 & E3 & _). unfold task, own_stack, own_space.
    cbn [tasks set_tasks]. rewrite E1, E2, E3. by apply Hidle.
  - intros i Hi. by apply H, Hmail.
Qed.

Lemma wf_upd_same_owner k bs sp i f : kernel_wf k bs sp -> 0 <= i < 16 ->
  same_owner (f (task k i)) (task k i) -> kernel_wf (upd_task i f k) bs sp.
Proof.
  intros Hwf Hi Hf. pose proof (kw_len _ _ _ Hwf). unfold upd_task. apply wf_same_owners; [done|..].
  - by rewrite alen_arr_set.
  - intros j Hj. rewrite arr_get_set by lia. destruct (Z.eqb_spec i j) as [<-|]; [done|]. by split_and!.
Qed.

Lemma implements_switch p sp a : implements L p sp -> implements L (paging_switch_directory a p) sp.
Proof. intros [[] ? ? ? ? ?]. by split; [split|..]. Qed.

(** ** [schedule] *)

Lemma schedule_wf e k bs sp e' k' : kernel_wf k bs sp -> schedule L e k = Done e' k' ->
  kernel_wf k' bs sp.
Proof.
  intros Hwf E. pose proof (kw_len _ _ _ Hwf) as Hl. pose proof (kw_cur _ _ _ Hwf) as Hc.
  destruct (multitasking_enabled k) eqn:Hm.
  2:{ unfold schedule in E. cbn [multitasking_enabled set_clock] in E. rewrite Hm in E.
      injection E as _ <-. by destruct Hwf. }
  destruct (schedule_step L e k Hm Hl Hc) as [(c & Hch & E2)|[_ E2]]; rewrite E in E2; [|done].
  injection E2 as _ ->. destruct (choice_active _ _ _ _ Hch) as [Hcr _].
  set (now := ticks (clock k) ⊕ 1).
  assert (Hsaved : alen (tasks (saved e k)) = 16) by (cbn; by rewrite alen_arr_set).
  assert (Hk1 : kernel_wf (set_tasks (woken now (tasks (saved e k))) k) bs sp).
  { apply wf_same_owners; [done|by rewrite alen_woken|]. intros i Hi.
    rewrite woken_get, saved_get by done. unfold same_owner.
    rewrite wake_active, wake_stack, wake_space. fold (task k i).
    split_and!; [by destruct (_ =? _)..|]. unfold wake. by destruct (_ =? _), (_ && _). }
  destruct Hk1 as [H1 H2 H3 H4 H5 H6 H7 H8 H9 H10]. split; try done. by apply implements_switch.
Qed.

(** ** Termination *)

Definition released (t : Task) : Task :=
  set_addr_space (if 0 <=? addr_space t then -1 else addr_space t)
    (set_stack_base 0 (set_sleeping false (set_active false t))).

Lemma upd_task_upd_task i f g k : 0 <= i < alen (tasks k) ->
  upd_task i g (upd_task i f k) = upd_task i (fun t => g (f t)) k.
Proof.
  intros Hi. unfold upd_task. cbn [tasks set_tasks]. rewrite arr_get_set_eq by done.
  by rewrite arr_set_set.
Qed.

Lemma task_upd i f k : 0 <= i < alen (tasks k) -> task (upd_task i f k) i = f (task k i).
Proof. intros Hi. unfold task, upd_task. cbn [tasks set_tasks]. by apply arr_get_set_eq. Qed.

(** The effect of [release_task] in one step. *)
Lemma release_task_eq pid k : 0 <= pid < alen (tasks k) ->
  let t := task k pid in
  release_task pid k =
    set_pages (if 0 <=? addr_space t then paging_free_task_directory (addr_space t) (pages k)
               else pages k)
      (set_mem (if stack_base t =? 0 then mem k else kfree (stack_base t) (mem k))
        (set_task_count (if 0 <? task_count k then task_count k - 1 else task_count k)
          (set_tasks ((tasks k).[pid <- released t]) k))).
Proof.
  intros Hpid t. unfold release_task. rewrite upd_task_upd_task by done.
  set (k1 := upd_task pid (fun t => set_sleeping false (set_active false t)) k).
  assert (Ht1 : task k1 pid = set_sleeping false (set_active false t)) by (by apply task_upd).
  assert (Hl1 : alen (tasks k1) = alen (tasks k)) by (by cbn; rewrite alen_arr_set).
  set (k2 := if 0 <? task_count k1 then _ else _).
  assert (Hk2 : k2 = set_task_count (if 0 <? task_count k then task_count k - 1 else task_count k) k1).
  { unfold k2. change (task_count k1) with (task_count k). by destruct (0 <? _). }
  clearbody k2. subst k2. set (k2 := set_task_count _ k1).
  change (task k2 pid) with (task k1 pid). rewrite Ht1. cbn [stack_base set_sleeping set_active].
  change (mem k2) with (mem k).
  destruct (Z.eqb_spec (stack_base t) 0) as [Hs|Hs]; cbn [negb].
  - change (task k2 pid) with (task k1 pid). rewrite Ht1. cbn [addr_space set_sleeping set_active].
    assert (Hrel : forall b, set_addr_space b (set_sleeping false (set_active false t)) =
      set_addr_space b (set_stack_base 0 (set_sleeping false (set_active false t))))
      by (intros; unfold set_stack_base; cbn; by rewrite <- Hs).
    unfold released. rewrite <- Hrel. destruct (0 <=? addr_space t) eqn:Ha.
    + unfold upd_task. cbn. fold (task k1 pid). rewrite arr_get_set_eq, arr_set_set by done. done.
    + done.
  - set (k3 := upd_task pid (set_stack_base 0) _).
    assert (Ht3 : task k3 pid = set_stack_base 0 (set_sleeping false (set_active false t))).
    { unfold k3. rewrite task_upd by (cbn; by rewrite alen_arr_set). f_equal. exact Ht1. }
    rewrite Ht3. cbn [addr_space set_stack_base set_sleeping set_active].
    unfold released, k3, upd_task. destruct (0 <=? addr_space t) eqn:Ha;
      cbn; rewrite ?arr_get_set_eq, ?arr_set_set by (rewrite ?alen_arr_set; done); done.
Qed.

Lemma released_owns t : own_slot (released t) = [] /\ own_stack (released t) = [] /\
  own_space (released t) = [] /\ (mailbox_wf t -> mailbox_wf (released t)).
Proof.
  split_and!; try done. unfold own_space, released. cbn [addr_space set_addr_space].
  destruct (0 <=? addr_space t) eqn:E; [done|]. by rewrite E.
Qed.

(** Giving back the heap block of a stack. *)
Lemma free_stack_owned hs m bs s R n : heap_inv hs total m bs ->
  (s, n) ∈ used_payloads hs bs -> (used_payloads hs bs).*1 ≡ₚ s :: R ->
  heap_inv hs total (kfree s m) (free_blocks s hs bs) /\
  (used_payloads hs (free_blocks s hs bs)).*1 ≡ₚ R /\
  used_payloads hs bs ≡ₚ (s, n) :: used_payloads hs (free_blocks s hs bs).
Proof.
  intros Hinv Hin Hperm. destruct (kfree_inv _ _ _ _ _ _ Hinv Hin) as [Hinv' _].
  pose proof (used_free _ _ _ _ _ (hi_rep _ _ _ _ Hinv) Hin) as Hfree.
  split_and!; [done| |done]. rewrite Hfree in Hperm. cbn in Hperm.
  by apply Permutation_cons_inv in Hperm.
Qed.

Lemma stack_in_heap k bs sp i : kernel_wf k bs sp -> 0 <= i < 16 -> stack_base (task k i) <> 0 ->
  exists n, (stack_base (task k i), n) ∈ used_payloads (heap_start k) bs /\ TASK_STACK_SIZE <= n.
Proof.
  intros Hwf Hi Hs. pose proof (kw_len _ _ _ Hwf).
  assert (Hin : stack_base (task k i) ∈ (used_payloads (heap_start k) bs).*1).
  { rewrite (kw_stacks _ _ _ Hwf). apply owned_elem. exists i. split; [lia|].
    unfold own_stack. fold (task k i). rewrite (proj2 (Z.eqb_neq _ _)) by done.
    apply list_elem_of_here. }
  apply list_elem_of_fmap in Hin as ([p n] & Heq & Hin). cbn in Heq. subst p.
  exists n. split; [done|]. by eapply kw_sizes.
Qed.

Lemma wf_release_heap k bs sp pid : kernel_wf k bs sp -> 0 <= pid < 16 ->
  let s := stack_base (task k pid) in
  exists bs', heap_inv (heap_start k) total (if s =? 0 then mem k else kfree s (mem k)) bs' /\
    (used_payloads (heap_start k) bs').*1 ≡ₚ owned own_stack (others pid (tasks k)) /\
    forall p n, (p, n) ∈ used_payloads (heap_start k) bs' -> TASK_STACK_SIZE <= n.
Proof.
  intros Hwf Hpid s. pose proof (kw_len _ _ _ Hwf) as Hl. pose proof (kw_stacks _ _ _ Hwf) as Hst.
  rewrite (owned_split own_stack (tasks k) pid) in Hst by lia.
  unfold own_stack at 1 in Hst. fold (task k pid) in Hst. fold s in Hst.
  destruct (Z.eqb_spec s 0) as [Hs|Hs].
  - exists bs. split_and!; [apply Hwf|done|apply Hwf].
  - destruct (stack_in_heap k bs sp pid Hwf Hpid Hs) as (n & Hin & Hn). fold s in Hin.
    destruct (free_stack_owned _ _ _ s _ n (kw_heap _ _ _ Hwf) Hin Hst) as (H1 & H2 & H3).
    exists (free_blocks s (heap_start k) bs). split_and!; [done|done|].
    intros p' n' Hin'. apply (kw_sizes _ _ _ Hwf p'). rewrite H3. by right.
Qed.

Lemma wf_release_spaces k bs sp pid : kernel_wf k bs sp -> 0 <= pid < 16 ->
  let a := addr_space (task k pid) in
  exists sp', implements L (if 0 <=? a then paging_free_task_directory a (pages k) else pages k) sp' /\
    used_spaces sp' ≡ₚ owned own_space (others pid (tasks k)).
Proof.
  intros Hwf Hpid a. pose proof (kw_len _ _ _ Hwf) as Hl. pose proof (kw_spaces _ _ _ Hwf) as Hsp.
  rewrite (owned_split own_space (tasks k) pid) in Hsp by lia.
  unfold own_space at 1 in Hsp. fold (task k pid) in Hsp. fold a in Hsp.
  destruct (0 <=? a) eqn:Ha.
  - assert (Hin : a ∈ used_spaces sp) by (rewrite Hsp; apply list_elem_of_here).
    apply used_spaces_elem in Hin as [Har Hused]. exists (spec_free a sp).
    split; [by apply free_simulates, Hwf|].
    rewrite (used_spaces_free sp a) in Hsp by (done || apply (im_len _ _ _ (kw_pages _ _ _ Hwf))).
    by apply Permutation_cons_inv in Hsp.
  - exists sp. split; [apply Hwf|done].
Qed.

Lemma release_wf k bs sp pid : kernel_wf k bs sp -> 0 <= pid < 16 ->
  active (task k pid) = true -> exists bs' sp', kernel_wf (release_task pid k) bs' sp'.
Proof.
  intros Hwf Hpid Ha. pose proof (kw_len _ _ _ Hwf) as Hl.
  destruct (wf_release_heap k bs sp pid Hwf Hpid) as (bs' & Hh & Hst & Hsz).
  destruct (wf_release_spaces k bs sp pid Hwf Hpid) as (sp' & Hp & Hsp).
  destruct (released_owns (task k pid)) as (O1 & O2 & O3 & O4).
  pose proof (kw_count _ _ _ Hwf) as Hcount.
  assert (Hslots : owned own_slot (tasks k) ≡ₚ tt :: owned own_slot (others pid (tasks k))).
  { rewrite (owned_split own_slot (tasks k) pid) by lia. unfold own_slot at 1.
    fold (task k pid). by rewrite Ha. }
  assert (Hupd : forall {A} (f : Task -> list A), f (released (task k pid)) = [] ->
    owned f ((tasks k).[pid <- released (task k pid)]) ≡ₚ owned f (others pid (tasks k))).
  { intros A f Hf. by rewrite owned_update, Hf by lia. }
  exists bs', sp'. rewrite release_task_eq by lia. cbn zeta.
  split; cbn [tasks current_task task_count mem heap_start pages set_pages set_mem set_task_count set_tasks];
    try done.
  - by rewrite alen_arr_set.
  - apply Hwf.
  - unfold alen in *. rewrite (Hupd _ own_slot O1). rewrite Hslots in Hcount. cbn in Hcount. zcases. lia.
  - intros i Hi. unfold task. cbn [tasks set_pages set_mem set_task_count set_tasks].
    rewrite arr_get_set by lia. destruct (Z.eqb_spec pid i); [by subst|]. by apply Hwf.
  - by rewrite (Hupd _ own_stack O2).
  - by rewrite (Hupd _ own_space O3).
  - intros i Hi. unfold task. cbn [tasks set_pages set_mem set_task_count set_tasks].
    rewrite arr_get_set by lia. destruct (Z.eqb_spec pid i); [subst; apply O4|]; by apply Hwf.
Qed.

(** ** Creation *)

Lemma mailbox_reset_wf t : mailbox_wf t -> mailbox_wf (mailbox_reset t).
Proof.
  intros (H1 & H2 & H3 & H4 & H5 & H6 & H7). unfold mailbox_wf, mailbox_reset.
  cbn [mailbox mailbox_len mailbox_sender mailbox_head mailbox_count set_mailbox].
  split_and!; try done.
  - unfold alen in *. by rewrite (length_for_fill (fun _ => 0) 4).
  - unfold alen in *. by rewrite (length_for_fill (fun _ => -1) 4).
  - intros s Hs. by rewrite (for_fill_get (fun _ => 0) 4) by (done || lia).
Qed.

Lemma init_task_owns p e nm space t : 0 < p -> p + 4096 < 4294967296 ->
  let t' := init_task p e nm space t in
  own_slot t' = [tt] /\ own_stack t' = [p] /\
  own_space t' = (if 0 <=? space then [space] else []) /\ (mailbox_wf t -> mailbox_wf t').
Proof.
  intros Hp Hp' t'. split_and!; [done| |done|by apply mailbox_reset_wf].
  unfold own_stack, t', init_task. cbn [stack_base set_priority mailbox_reset set_mailbox set_addr_space
    set_name set_active set_esp set_wake_tick set_sleeping set_stack_base].
  unfold TASK_STACK_SIZE. rewrite (u32_id (p + 4096)) by (unfold is_u32; lia).
  replace (p + 4096 - 4096) with p by lia. rewrite u32_id by (unfold is_u32; lia). zcases.
Qed.

Lemma alloc_stack k bs sp : kernel_wf k bs sp ->
  kmalloc (heap_start k) TASK_STACK_SIZE (mem k) = Some (0, mem k) \/
  exists p n m bs', kmalloc (heap_start k) TASK_STACK_SIZE (mem k) = Some (p, m) /\
    0 < p /\ p + n < 4294967296 /\ 4096 <= n /\ (4 | p) /\ heap_inv (heap_start k) total m bs' /\
    used_payloads (heap_start k) bs' ≡ₚ (p, n) :: used_payloads (heap_start k) bs /\
    alloc_blocks 4096 (heap_start k) bs = Some (p, bs') /\ agree_on (kept (heap_start k) bs) (mem k) m.
Proof.
  intros Hwf. pose proof (kmalloc_inv _ _ _ _ TASK_STACK_SIZE (kw_heap _ _ _ Hwf)) as H.
  change (align4 TASK_STACK_SIZE) with 4096 in H.
  destruct (alloc_blocks 4096 _ bs) as [[p bs']|] eqn:E; [right|by left].
  destruct H as (m & Hk & Hinv & Hag). destruct (used_alloc _ _ _ _ _ E) as (n & Hn & Hperm).
  assert (Hin : (p, n) ∈ used_payloads (heap_start k) bs') by (rewrite Hperm; apply list_elem_of_here).
  destruct (used_bounds _ _ _ _ _ _ Hinv Hin) as (H1 & H2 & H3 & H4).
  pose proof (hi_start _ _ _ _ Hinv). pose proof (hi_end _ _ _ _ Hinv).
  exists p, n, m, bs'. split_and!; done || lia.
Qed.

(** A new stack is none of the memory that was kept. *)
Lemma new_stack_apart hs m m' bs bs' p n x : heap_inv hs total m bs -> heap_inv hs total m' bs' ->
  used_payloads hs bs' ≡ₚ (p, n) :: used_payloads hs bs -> kept hs bs x -> ~ range p n x.
Proof.
  intros Hinv Hinv' Hused Hx Hr. assert (Hin : (p, n) ∈ used_payloads hs bs') by (rewrite Hused; apply list_elem_of_here).
  destruct (used_bounds _ _ _ _ _ _ Hinv' Hin) as (B1 & B2 & B3 & _). unfold kept, range in *. rewrite (hi_extent _ _ _ _ Hinv) in Hx.
  destruct Hx as [Hx|[Hx|(q & l & Hq & Hxq)]]; [lia..|]. unfold range in Hxq.
  assert (Hq' : (q, l) ∈ used_payloads hs bs') by (rewrite Hused; by right).
  pose proof (used_keys_NoDup _ _ _ (hi_rep _ _ _ _ Hinv')) as Hnd. rewrite Hused in Hnd. cbn in Hnd.
  apply NoDup_cons in Hnd as [Hnot _].
  assert (Hne : p <> q) by (intros ->; apply Hnot; apply list_elem_of_fmap; by exists (q, l)).
  destruct (used_disjoint _ _ _ _ _ _ _ (hi_rep _ _ _ _ Hinv') Hin Hq' Hne); lia.
Qed.

(** Writes inside an allocated stack keep the heap. *)
Lemma push_in_stack hs m bs p n vs : heap_inv hs total m bs -> (p, n) ∈ used_payloads hs bs ->
  0 < p -> p + n < 4294967296 -> 4096 <= n -> alen vs <= 1024 ->
  exists m', push_all vs (m, p ⊕ TASK_STACK_SIZE) = (m', p + 4096 - 4 * alen vs) /\
    heap_inv hs total m' bs /\ agree_on (fun x => ~ range p n x) m m'.
Proof.
  intros Hinv Hin Hp Hpn Hn Hvs. unfold TASK_STACK_SIZE. rewrite u32_id by (unfold is_u32; lia).
  destruct (push_all_spec vs m (p + 4096)) as (m' & E & Hag & _); [lia|].
  exists m'. split; [done|]. split.
  - apply (heap_inv_client _ _ m); [done|].
    eapply agree_on_weaken, Hag. intros x Hx Hr. apply Hx. exists p, n. split; [done|].
    unfold range in *. lia.
  - eapply agree_on_weaken, Hag. unfold range. lia.
Qed.

Lemma wf_new_task k bs sp i p n e nm space m' pgs bs' sp' :
  kernel_wf k bs sp -> 0 <= i < 16 -> active (task k i) = false ->
  0 < p -> p + n < 4294967296 -> 4096 <= n -> heap_inv (heap_start k) total m' bs' ->
  used_payloads (heap_start k) bs' ≡ₚ (p, n) :: used_payloads (heap_start k) bs ->
  implements L pgs sp' ->
  used_spaces sp' ≡ₚ (if 0 <=? space then [space] else []) ++ used_spaces sp ->
  kernel_wf (set_task_count (task_count k + 1)
    (upd_task i (init_task p e nm space) (set_mem m' (set_pages pgs k)))) bs' sp'.
Proof.
  intros Hwf Hi Hna Hp Hpn Hn Hinv Hused Hpg Hsp. pose proof (kw_len _ _ _ Hwf) as Hl.
  destruct (init_task_owns p e nm space (task k i)) as (O1 & O2 & O3 & O4); [done|lia|].
  destruct (kw_idle _ _ _ Hwf i Hi Hna) as [I1 I2].
  assert (I0 : own_slot (task k i) = []) by (unfold own_slot; by rewrite Hna).
  set (t' := init_task p e nm space (task k i)) in *.
  assert (Hupd : forall {A} (f : Task -> list A), f (task k i) = [] ->
    owned f ((tasks k).[i <- t']) ≡ₚ f t' ++ owned f (tasks k)).
  { intros A f Hf. rewrite owned_update, (owned_split f (tasks k) i) by lia.
    fold (task k i). by rewrite Hf. }
  split; cbn [tasks current_task task_count mem heap_start pages set_pages set_mem set_task_count
    set_tasks upd_task]; fold (task k i); fold t'; try done.
  - by rewrite alen_arr_set.
  - apply Hwf.
  - unfold alen. rewrite (Hupd _ own_slot I0), O1, (kw_count _ _ _ Hwf). cbn [app length]. unfold alen. lia.
  - intros j Hj. unfold task. cbn [tasks set_pages set_mem set_task_count set_tasks upd_task].
    fold (task k i). fold t'. rewrite arr_get_set by lia. destruct (Z.eqb_spec i j); [done|]. by apply Hwf.
  - rewrite (Hupd _ own_stack I1), O2, Hused. cbn. f_equiv. apply Hwf.
  - intros q k' Hin. rewrite Hused in Hin. apply elem_of_cons in Hin as [[= -> ->]|Hin]; [done|].
    by eapply kw_sizes.
  - rewrite (Hupd _ own_space I2), O3, Hsp. f_equiv. apply Hwf.
  - intros j Hj. unfold task. cbn [tasks set_pages set_mem set_task_count set_tasks upd_task].
    fold (task k i). fold t'. rewrite arr_get_set by lia.
    destruct (Z.eqb_spec i j); [subst; apply O4|]; by apply Hwf.
Qed.

Lemma free_task_slot_Some k i : free_task_slot k = Some i -> 0 <= i < 16 /\ active (task k i) = false.
Proof.
  intros H. apply find_index_Some in H as (Hi & Ha & _).
  change (Z.to_nat MAX_TASKS) with 16%nat in Hi. split; [lia|]. by destruct (active _).
Qed.

Lemma free_task_slot_None k i : free_task_slot k = None -> 0 <= i < 16 -> active (task k i) = true.
Proof.
  intros H Hi. pose proof (find_index_None _ _ _ H i Hi) as Ha. cbn in Ha. by destruct (active _).
Qed.

Lemma owned_slots_le ts : alen (owned own_slot ts) <= alen ts.
Proof.
  unfold alen, owned. induction ts as [|t ts IH]; cbn; [lia|]. rewrite length_app.
  unfold own_slot at 1. destruct (active t); cbn [length]; lia.
Qed.

(** The count reaches [MAX_TASKS] only when every slot is taken. *)
Lemma full_table k bs sp i : kernel_wf k bs sp -> MAX_TASKS <= task_count k -> 0 <= i < 16 ->
  active (task k i) = true.
Proof.
  intros Hwf Hc Hi. pose proof (kw_len _ _ _ Hwf) as Hl. rewrite (kw_count _ _ _ Hwf) in Hc.
  destruct (active (task k i)) eqn:Ha; [done|exfalso]. unfold alen in Hc.
  rewrite (owned_split own_slot (tasks k) i) in Hc by lia. unfold own_slot at 1 in Hc.
  fold (task k i) in Hc. rewrite Ha in Hc. cbn [app] in Hc.
  pose proof (owned_slots_le (others i (tasks k))) as Hle. unfold alen, others in *.
  rewrite length_app, length_take, length_drop in Hle. unfold MAX_TASKS in Hc. lia.
Qed.

(** Why no task was created: no slot, no memory, or ([full]) no address
    space. *)
Definition no_resources (k : kernel) (bs : list block) (full : Prop) : Prop :=
  (forall i, 0 <= i < 16 -> active (task k i) = true) \/
  Forall (fun b => bfree b = true -> bsize b < TASK_STACK_SIZE) bs \/ full.

(** The new task [r] in state [k'], which starts in context [c]. *)
Definition spawned (k k' : kernel) (r : Z) (c : cpu) : Prop :=
  0 <= r < 16 /\ active (task k r) = false /\ active (task k' r) = true /\
  sleeping (task k' r) = false /\ priority (task k' r) = 0 /\ mailbox_count (task k' r) = 0 /\
  (forall j, 0 <= j < 16 -> j <> r -> task k' j = task k j) /\
  interrupt_return (esp (task k' r)) (mem k') = c.

(** Where the resources of the new task come from: the first free slot and a
    block of the heap, at whose end [words] words are the initial frame; the
    memory outside the heap and in its used blocks is kept. *)
Definition took (k : kernel) (bs : list block) (k' : kernel) (bs' : list block) (r nm words : Z) : Prop :=
  free_task_slot k = Some r /\ alloc_blocks 4096 (heap_start k) bs = Some (stack_base (task k' r), bs') /\
  esp (task k' r) = stack_base (task k' r) + 4096 - 4 * words /\ Sched.name (task k' r) = nm /\
  task_count k' = task_count k + 1 /\ current_task k' = current_task k /\ heap_start k' = heap_start k /\
  agree_on (kept (heap_start k) bs) (mem k) (mem k') /\ (mem_bytes (mem k) -> mem_bytes (mem k')).

Lemma took_intro k bs sp i p n e nm space m m' pgs bs' vs : kernel_wf k bs sp ->
  free_task_slot k = Some i -> 0 <= i < 16 -> 0 < p -> p + n < 4294967296 -> 4096 <= n ->
  kmalloc (heap_start k) TASK_STACK_SIZE (mem k) = Some (p, m) ->
  alloc_blocks 4096 (heap_start k) bs = Some (p, bs') -> heap_inv (heap_start k) total m bs' ->
  used_payloads (heap_start k) bs' ≡ₚ (p, n) :: used_payloads (heap_start k) bs ->
  agree_on (kept (heap_start k) bs) (mem k) m ->
  push_all vs (m, p ⊕ TASK_STACK_SIZE) = (m', e) -> e = p + 4096 - 4 * alen vs ->
  agree_on (fun x => ~ range p n x) m m' ->
  took k bs (set_task_count (task_count k + 1)
    (upd_task i (init_task p e nm space) (set_mem m' (set_pages pgs k)))) bs' i nm (alen vs).
Proof.
  intros Hwf Hslot Hi Hp Hpn Hn Hk Ha Hinv Hused Hag Hpush He Hag'. set (k' := set_task_count _ _).
  assert (Ht : task k' i = init_task p e nm space (task k i)).
  { unfold k'. apply arr_get_set_eq. cbn. rewrite (kw_len _ _ _ Hwf). lia. }
  unfold took. rewrite Ht. cbn [init_task stack_base esp Sched.name set_priority mailbox_reset set_addr_space set_name
    set_active set_esp set_wake_tick set_sleeping set_stack_base set_mailbox].
  assert (Hpp : (p ⊕ TASK_STACK_SIZE) ⊖ TASK_STACK_SIZE = p).
  { unfold TASK_STACK_SIZE. rewrite (u32_id (p + 4096)), u32_id by (unfold is_u32; lia). lia. }
  rewrite Hpp. split_and!; try done.
  - eapply agree_on_trans; [exact Hag|]. eapply agree_on_weaken; [|exact Hag'].
    intros x Hx. by eapply new_stack_apart; [apply Hwf|exact Hinv|exact Hused|].
  - intros Hm. apply kmalloc_bytes in Hk; [|done]. pose proof (push_all_bytes vs m (p ⊕ TASK_STACK_SIZE) Hk) as H.
    by rewrite Hpush in H.
Qed.

Lemma spawned_intro k i p e nm space m' pgs c : alen (tasks k) = 16 -> 0 <= i < 16 ->
  active (task k i) = false -> interrupt_return e m' = c ->
  let k' := set_task_count (task_count k + 1)
    (upd_task i (init_task p e nm space) (set_mem m' (set_pages pgs k))) in
  spawned k k' i c /\ addr_space (task k' i) = space.
Proof.
  intros Hl Hi Ha Hc k'.
  assert (Ht : task k' i = init_task p e nm space (task k i)).
  { unfold k'. by apply arr_get_set_eq; cbn; lia. }
  unfold spawned. rewrite Ht. split; [|done]. split_and!; try done; try lia.
  intros j Hj Hne. unfold k', task. by apply arr_get_set_ne.
Qed.

Lemma no_room_for_stack k bs sp : kernel_wf k bs sp ->
  kmalloc (heap_start k) TASK_STACK_SIZE (mem k) = Some (0, mem k) ->
  Forall (fun b => bfree b = true -> bsize b < TASK_STACK_SIZE) bs.
Proof.
  intros Hwf E. pose proof (kmalloc_inv _ _ _ _ TASK_STACK_SIZE (kw_heap _ _ _ Hwf)) as H.
  change (align4 TASK_STACK_SIZE) with 4096 in H.
  destruct (alloc_blocks 4096 _ bs) as [[p bs']|] eqn:Ea; [exfalso|by apply alloc_blocks_None in Ea].
  destruct H as (m & Hk & _). rewrite E in Hk. injection Hk as <- _.
  apply alloc_range in Ea; [|by eapply heap_rep_ok, (hi_rep _ _ _ _ (kw_heap _ _ _ Hwf))].
  pose proof (hi_start _ _ _ _ (kw_heap _ _ _ Hwf)). lia.
Qed.

(** The context in which a ring-0 task starts: the return address on its
    stack is [task_exit]. *)
Definition kernel_context (entry top : Z) : cpu :=
  mkCpu 0 0 0 0 0 0 0 top entry 8 514 SEL_KERNEL_DATA.

Lemma kernel_context_typed entry top : is_u32 entry -> is_u32 top ->
  cpu_typed (kernel_context entry top).
Proof.
  intros He Ht. unfold cpu_typed. cbn. rewrite !Forall_cons.
  by split_and!; try done; constructor.
Qed.

Lemma create_task_ok te entry nm k bs sp : kernel_wf k bs sp -> is_u32 entry ->
  exists r k' bs' sp', create_task te entry nm k = Done r k' /\ kernel_wf k' bs' sp' /\
  ((r = -1 /\ tasks k' = tasks k /\ no_resources k bs False) \/
   exists top, spawned k k' r (kernel_context entry top) /\ addr_space (task k' r) = -1 /\
     took k bs k' bs' r nm 12).
Proof.
  intros Hwf He. pose proof (kw_len _ _ _ Hwf) as Hl. unfold create_task.
  destruct (Z.leb_spec MAX_TASKS (task_count k)) as [Hfull|_].
  { exists (-1), k, bs, sp. split_and!; [done|done|left]. split_and!; [done|done|left].
    intros i. by apply (full_table k bs sp). }
  destruct (free_task_slot k) as [i|] eqn:Hslot.
  2:{ exists (-1), k, bs, sp. split_and!; [done|done|left]. split_and!; [done|done|left].
      intros i. by apply free_task_slot_None. }
  pose proof (free_task_slot_Some _ _ Hslot) as [Hi Hna].
  destruct (alloc_stack k bs sp Hwf) as [E|(p & n & m & bs' & E & Hp & Hpn & Hn & _ & Hinv & Hused & Hal & Hag)]; rewrite E.
  { exists (-1), k, bs, sp. split_and!; [by destruct k|done|left]. split_and!; [done|done|right; left].
    by eapply no_room_for_stack. }
  rewrite (proj2 (Z.eqb_neq p 0)) by lia.
  set (c := kernel_context entry (p + 4092)).
  change ([te; 514; 8; entry] ++ repeat 0 8) with (frame_words [te] c 0).
  assert (Hin : (p, n) ∈ used_payloads (heap_start k) bs') by (rewrite Hused; apply list_elem_of_here).
  destruct (push_in_stack _ m bs' p n (frame_words [te] c 0) Hinv Hin) as (m' & Epush & Hinv' & Hag');
    [done|done|done|done|]. cbn [mem set_mem]. rewrite Epush.
  set (e := p + 4096 - 4 * alen (frame_words [te] c 0)) in *.
  assert (Hret : interrupt_return e m' = c).
  { unfold TASK_STACK_SIZE in Epush. rewrite u32_id in Epush by (unfold is_u32; lia).
    apply (frame_restores_ring0 [te] c 0 m (p + 4096) m'); try done.
    - unfold alen; cbn [length]. lia.
    - apply kernel_context_typed; [done|unfold is_u32; lia].
    - unfold alen; cbn. lia. }
  destruct (spawned_intro k i p e nm (-1) m' (pages k) c Hl Hi Hna Hret) as [Hs Ha].
  eexists i, _, bs', sp. split; [reflexivity|].
  split; [|right; exists (p + 4092); split; [exact Hs|split; [exact Ha|]];
    by eapply (took_intro k bs sp i p n e nm (-1) m m' (pages k) bs' (frame_words [te] c 0))].
  by apply (wf_new_task k bs sp i p n e nm (-1) m' (pages k)); try done; apply Hwf.
Qed.

(** The context in which a ring-3 task starts. *)
Definition user_context (entry user_stack_top init_ebx init_ecx : Z) : cpu :=
  mkCpu 0 init_ecx 0 init_ebx 0 0 0 user_stack_top entry SEL_USER_CODE 514 SEL_USER_DATA.

Lemma user_context_typed entry top ebx ecx : is_u32 entry -> is_u32 top -> is_u32 ebx ->
  is_u32 ecx -> cpu_typed (user_context entry top ebx ecx).
Proof.
  intros. unfold cpu_typed. cbn. rewrite !Forall_cons. by split_and!; try done; constructor.
Qed.

(** The address space requested for a task, and its failure. *)
Lemma create_space p sp w : layout_ok L -> implements L p sp -> window_ok w ->
  exists s p', paging_create_task_directory_ex L (w_code w) (w_code_size w) (w_stack w)
      (w_stack_size w) p = (s, p') /\
  ((s = -1 /\ p' = p /\ forall i, 0 <= i < MAX_ADDR_SPACES -> sp.[i] <> None) \/
   exists sp', 0 <= s < MAX_ADDR_SPACES /\ implements L p' sp' /\ sp'.[s] = Some w /\
     used_spaces sp' ≡ₚ s :: used_spaces sp).
Proof.
  intros HL Him Hw. pose proof (create_simulates L p sp w HL Hw Him) as Hsim.
  destruct (paging_create_task_directory_ex _ _ _ _ _ _) as [s p'] eqn:E.
  exists s, p'. split; [done|]. unfold spec_create in Hsim.
  pose proof (im_len _ _ _ Him) as Hlen.
  destruct (find_index _ 6 0) as [i|] eqn:Ef.
  - destruct Hsim as [-> Him']. right. exists (sp.[i <- Some w]).
    apply find_index_Some in Ef as (Hi & Hd & _). apply bool_decide_eq_true in Hd.
    assert (Hi' : 0 <= i < MAX_ADDR_SPACES) by (unfold MAX_ADDR_SPACES; lia).
    split_and!; [lia|lia|done|apply arr_get_set_eq; lia|by apply used_spaces_create].
  - destruct Hsim as [-> _]. left. pose proof (find_index_None _ _ _ Ef) as Hn.
    split_and!; [done| |].
    + unfold paging_create_task_directory_ex in E. destruct (find_index _ _ 0) as [j|] eqn:Ej; [|congruence].
      apply find_index_Some in Ej as (Hj & _). injection E as Hj1 _. lia.
    + intros i Hi. specialize (Hn i ltac:(unfold MAX_ADDR_SPACES in *; lia)).
      by apply bool_decide_eq_false in Hn.
Qed.

Definition user_window (top size code_base code_size : Z) : window :=
  mkWindow code_base code_size (top ⊖ size) size.

(** When the address space is refused the stack is given back. *)
Lemma give_back_stack k bs sp p n m bs' : kernel_wf k bs sp ->
  heap_inv (heap_start k) total m bs' ->
  used_payloads (heap_start k) bs' ≡ₚ (p, n) :: used_payloads (heap_start k) bs ->
  exists bs'', kernel_wf (set_mem (kfree p m) k) bs'' sp.
Proof.
  intros Hwf Hinv Hused. set (hs := heap_start k) in *.
  assert (Hin : (p, n) ∈ used_payloads hs bs') by (rewrite Hused; apply list_elem_of_here).
  assert (Hkeys : (used_payloads hs bs').*1 ≡ₚ p :: (used_payloads hs bs).*1) by (by rewrite Hused).
  destruct (free_stack_owned hs m bs' p _ n Hinv Hin Hkeys) as (H1 & H2 & H3).
  exists (free_blocks p hs bs'). destruct Hwf as [W1 W2 W3 W4 W5 W6 W7 W8 W9 W10].
  split; try done; cbn [heap_start set_mem]; fold hs.
  - by rewrite H2.
  - intros q l Hq. apply (W7 q l). rewrite Hused in H3. apply Permutation_cons_inv in H3.
    fold hs. by rewrite H3.
Qed.

Lemma create_user_task_ok entry nm top size cb cs ebx ecx k bs sp :
  layout_ok L -> kernel_wf k bs sp -> window_ok (user_window top size cb cs) ->
  is_u32 entry -> is_u32 top -> is_u32 ebx -> is_u32 ecx ->
  exists r k' bs' sp', create_user_task_argv L entry nm top size cb cs ebx ecx k = Done r k' /\
  kernel_wf k' bs' sp' /\
  ((r = -1 /\ tasks k' = tasks k /\
    no_resources k bs (forall i, 0 <= i < MAX_ADDR_SPACES -> sp.[i] <> None)) \/
   (spawned k k' r (user_context entry top ebx ecx) /\
    0 <= addr_space (task k' r) < MAX_ADDR_SPACES /\
    sp'.[addr_space (task k' r)] = Some (user_window top size cb cs) /\ took k bs k' bs' r nm 13)).
Proof.
  intros HL Hwf Hw He Ht Hb Hx. pose proof (kw_len _ _ _ Hwf) as Hl. unfold create_user_task_argv.
  destruct (Z.leb_spec MAX_TASKS (task_count k)) as [Hfull|_].
  { exists (-1), k, bs, sp. split_and!; [done|done|left]. split_and!; [done|done|left].
    intros i. by apply (full_table k bs sp). }
  destruct (free_task_slot k) as [i|] eqn:Hslot.
  2:{ exists (-1), k, bs, sp. split_and!; [done|done|left]. split_and!; [done|done|left].
      intros i. by apply free_task_slot_None. }
  pose proof (free_task_slot_Some _ _ Hslot) as [Hi Hna].
  destruct (alloc_stack k bs sp Hwf) as [E|(p & n & m & bs' & E & Hp & Hpn & Hn & _ & Hinv & Hused & Hal & Hag)]; rewrite E.
  { exists (-1), k, bs, sp. split_and!; [by destruct k|done|left]. split_and!; [done|done|right; left].
    by eapply no_room_for_stack. }
  rewrite (proj2 (Z.eqb_neq p 0)) by lia. cbn [mem pages set_mem].
  destruct (create_space (pages k) sp _ HL (kw_pages _ _ _ Hwf) Hw) as (s & p' & Es & Hcase).
  cbn [w_code w_code_size w_stack w_stack_size user_window] in Es. rewrite Es.
  destruct Hcase as [(-> & -> & Hnone)|(sp' & Hs & Him & Hsw & Hsp)].
  { destruct (give_back_stack k bs sp p n m bs' Hwf Hinv Hused) as (bs'' & Hwf'').
    exists (-1), (set_mem (kfree p m) k), bs'', sp. split_and!; [done|done|left].
    split_and!; [done|done|by right; right]. }
  rewrite (proj2 (Z.ltb_ge s 0)) by lia. set (c := user_context entry top ebx ecx).
  change ([SEL_USER_DATA; top; 514; SEL_USER_CODE; entry] ++ [0; ecx; 0; ebx; 0; 0; 0; 0])
    with (frame_words [r_ss c; r_esp c] c 0).
  assert (Hin : (p, n) ∈ used_payloads (heap_start k) bs') by (rewrite Hused; apply list_elem_of_here).
  destruct (push_in_stack _ m bs' p n (frame_words [r_ss c; r_esp c] c 0) Hinv Hin) as (m' & Epush & Hinv' & Hag');
    [done|done|done|done|]. cbn [mem set_pages set_mem]. rewrite Epush.
  set (e := p + 4096 - 4 * alen (frame_words [r_ss c; r_esp c] c 0)) in *.
  assert (Hret : interrupt_return e m' = c).
  { unfold TASK_STACK_SIZE in Epush. rewrite u32_id in Epush by (unfold is_u32; lia).
    apply (frame_restores_ring3 c 0 m (p + 4096) m'); try done; [lia|by apply user_context_typed]. }
  destruct (spawned_intro k i p e nm s m' p' c Hl Hi Hna Hret) as [Hsn Ha].
  eexists i, _, bs', sp'. split; [reflexivity|].
  split; [|right; split; [exact Hsn|setoid_rewrite Ha; split_and!; [lia|lia|exact Hsw|];
    by eapply (took_intro k bs sp i p n e nm s m m' p' bs' (frame_words [r_ss c; r_esp c] c 0))]].
  apply (wf_new_task k bs sp i p n e nm s m' p'); try done.
  by rewrite (proj2 (Z.leb_le 0 s)) by lia.
Qed.

(** Creation writes nothing outside the heap. *)
(** ** What the operations write *)

(** Nothing outside the heap, and only bytes. *)
Definition heap_only (k k' : kernel) : Prop :=
  heap_start k' = heap_start k /\ (mem_bytes (mem k) -> mem_bytes (mem k')) /\
  agree_on (fun x => ~ range (heap_start k) total x) (mem k) (mem k').

Lemma heap_only_same k k' : heap_start k' = heap_start k -> mem k' = mem k -> heap_only k k'.
Proof. intros Hs Hm. unfold heap_only. by rewrite Hs, Hm. Qed.

(** A stack that was just allocated, and its initial frame. *)
Lemma stack_frame k bs sp p m : kernel_wf k bs sp ->
  kmalloc (heap_start k) TASK_STACK_SIZE (mem k) = Some (p, m) ->
  let outside := agree_on (fun x => ~ range (heap_start k) total x) (mem k) in
  outside m /\ (p <> 0 -> outside (kfree p m) /\
    forall ws, alen ws <= 1024 -> outside (push_all ws (m, p ⊕ TASK_STACK_SIZE)).1).
Proof.
  intros Hwf Ek outside. pose proof (kw_heap _ _ _ Hwf) as Hh.
  pose proof (kmalloc_inv _ _ _ _ TASK_STACK_SIZE Hh) as H. change (align4 TASK_STACK_SIZE) with 4096 in H.
  destruct (alloc_blocks 4096 _ bs) as [[p' bs']|] eqn:E; [|rewrite H in Ek; by injection Ek as <- <-].
  destruct H as (m' & Ek' & Hinv & Hag). rewrite Ek' in Ek. injection Ek as -> ->.
  destruct (used_alloc _ _ _ _ _ E) as (n & Hn & Hperm).
  assert (Hin : (p, n) ∈ used_payloads (heap_start k) bs') by (rewrite Hperm; apply list_elem_of_here).
  destruct (used_bounds _ _ _ _ _ _ Hinv Hin) as (H1 & H2 & H3 & H4).
  pose proof (hi_start _ _ _ _ Hinv). pose proof (hi_end _ _ _ _ Hinv).
  assert (Hm : outside m).
  { eapply agree_on_weaken; [|exact Hag]. intros x Hx. unfold kept, range in *. rewrite (hi_extent _ _ _ _ Hh). lia. }
  split; [done|]. intros _. split.
  - destruct (kfree_inv _ _ _ _ _ _ Hinv Hin) as [_ Hk]. eapply agree_on_trans; [exact Hm|].
    eapply agree_on_weaken; [|exact Hk]. unfold range. lia.
  - intros ws Hws. unfold TASK_STACK_SIZE. rewrite u32_id by (unfold is_u32; lia).
    destruct (push_all_spec ws m (p + 4096)) as (m' & -> & Hp & _); [lia|].
    eapply agree_on_trans; [exact Hm|]. eapply agree_on_weaken; [|exact Hp]. unfold range. lia.
Qed.

Lemma create_task_memory te entry nm k bs sp r k' : kernel_wf k bs sp ->
  create_task te entry nm k = Done r k' -> heap_only k k'.
Proof.
  intros Hwf. unfold create_task. destruct (MAX_TASKS <=? _); [by intros [= _ <-]|].
  destruct (free_task_slot k); [|by intros [= _ <-]].
  destruct (kmalloc _ _ _) as [[p m]|] eqn:Ek; [|done]. destruct (stack_frame k bs sp p m Hwf Ek) as [Hm Hp].
  pose proof (fun Hb => kmalloc_bytes _ _ _ _ _ Hb Ek) as Hby.
  destruct (Z.eqb_spec p 0) as [->|Hne]; [by intros [= _ <-]|]. destruct (Hp Hne) as [_ Hpush]. cbn [mem set_mem].
  set (ws := _ ++ _). specialize (Hpush ws ltac:(by vm_compute)).
  pose proof (fun Hb => push_all_bytes ws m (p ⊕ TASK_STACK_SIZE) (Hby Hb)) as Hpb.
  destruct (push_all ws _) as [m' e]. by intros [= _ <-].
Qed.

Lemma create_user_task_memory entry nm top size cb cs ebx ecx k bs sp r k' : kernel_wf k bs sp ->
  create_user_task_argv L entry nm top size cb cs ebx ecx k = Done r k' -> heap_only k k'.
Proof.
  intros Hwf. unfold create_user_task_argv. destruct (MAX_TASKS <=? _); [by intros [= _ <-]|].
  destruct (free_task_slot k); [|by intros [= _ <-]].
  destruct (kmalloc _ _ _) as [[p m]|] eqn:Ek; [|done]. destruct (stack_frame k bs sp p m Hwf Ek) as [Hm Hp].
  pose proof (fun Hb => kmalloc_bytes _ _ _ _ _ Hb Ek) as Hby.
  destruct (Z.eqb_spec p 0) as [->|Hne]; [by intros [= _ <-]|]. destruct (Hp Hne) as [Hfree Hpush].
  destruct (paging_create_task_directory_ex _ _ _ _ _ _) as [s pg]. cbn [mem set_mem set_pages].
  destruct (s <? 0); [intros [= _ <-]; split_and!; [done|intros Hb; by apply kfree_bytes, Hby|exact Hfree]|].
  set (ws := [SEL_USER_DATA; _; _; _; _] ++ _). assert (Hws : alen ws = 13) by done. specialize (Hpush ws ltac:(lia)).
  pose proof (fun Hb => push_all_bytes ws m (p ⊕ TASK_STACK_SIZE) (Hby Hb)) as Hpb.
  destruct (push_all ws _) as [m' e]. by intros [= _ <-].
Qed.

Lemma release_memory k bs sp pid : kernel_wf k bs sp -> 0 <= pid < 16 -> heap_only k (release_task pid k).
Proof.
  intros Hwf Hpid. rewrite release_task_eq by (rewrite (kw_len _ _ _ Hwf); lia). cbn zeta. unfold heap_only.
  cbn [mem heap_start set_pages set_mem set_task_count set_tasks]. destruct (Z.eqb_spec (stack_base (task k pid)) 0) as [|Hs]; [done|].
  split; [done|]. split; [apply kfree_bytes|]. destruct (stack_in_heap k bs sp pid Hwf Hpid Hs) as (n & Hin & _).
  destruct (kfree_inv _ _ _ _ _ _ (kw_heap _ _ _ Hwf) Hin) as [_ Hag]. eapply agree_on_weaken; [|exact Hag].
  destruct (used_bounds _ _ _ _ _ _ (kw_heap _ _ _ Hwf) Hin). unfold range. lia.
Qed.

Lemma schedule_memory e k r k' : schedule L e k = Done r k' -> heap_only k k'.
Proof.
  unfold schedule, find_next_task. destruct (negb _); [by intros [= _ <-]|]. destruct (for_loop _ _ _ _) as [[ts n] b].
  cbn zeta. destruct (_ <? 0); [done|]. intros [= _ <-]. destruct (0 <=? _); by apply heap_only_same.
Qed.

(** ** The other operations *)

Lemma same_owner_sleep w t : same_owner (set_sleeping true (set_wake_tick w t)) t.
Proof. by split_and!. Qed.

Lemma task_sleep_wf ms k bs sp : kernel_wf k bs sp -> kernel_wf (task_sleep ms k) bs sp.
Proof.
  intros Hwf. pose proof (kw_cur _ _ _ Hwf). unfold task_sleep.
  apply (wf_upd_same_owner _ bs sp); [|done|by split_and!].
  by apply wf_upd_same_owner; [|done|split_and!].
Qed.

Lemma task_exit_current_wf k bs sp : kernel_wf k bs sp ->
  exists bs' sp', kernel_wf (task_exit_current k) bs' sp'.
Proof.
  intros Hwf. unfold task_exit_current. destruct (active _) eqn:Ha; [|by exists bs, sp].
  by eapply release_wf; [|apply Hwf|].
Qed.

Lemma task_kill_wf pid k bs sp : kernel_wf k bs sp ->
  exists bs' sp', kernel_wf (task_kill pid k).2 bs' sp'.
Proof.
  intros Hwf. unfold task_kill.
  destruct (Z.ltb_spec pid 0); [by exists bs, sp|].
  destruct (Z.leb_spec MAX_TASKS pid); [by exists bs, sp|]. cbn [orb].
  destruct (active (task k pid)) eqn:Ha; [|by exists bs, sp]. cbn [negb].
  destruct (pid =? current_task k); [by exists bs, sp|]. unfold MAX_TASKS in *.
  destruct (release_wf k bs sp pid Hwf ltac:(lia) Ha) as (bs' & sp' & Hwf').
  exists bs', sp'. apply wf_upd_same_owner; [done|lia|].
  split_and!; [done..|apply mailbox_reset_wf].
Qed.

Lemma task_set_priority_wf pid v k bs sp : kernel_wf k bs sp ->
  kernel_wf (task_set_priority pid v k) bs sp.
Proof.
  intros Hwf. unfold task_set_priority. destruct (Z.ltb_spec pid 0); [done|].
  destruct (Z.leb_spec MAX_TASKS pid); [done|]. destruct (active _); [|done]. cbn [orb negb].
  unfold MAX_TASKS in *. apply wf_upd_same_owner; [done|lia|by split_and!].
Qed.

Lemma ipc_send_wf pid data len k bs sp : 0 <= len -> kernel_wf k bs sp ->
  kernel_wf (ipc_send pid data len k).2 bs sp.
Proof.
  intros Hlen Hwf. unfold ipc_send. destruct (Z.ltb_spec pid 0); [done|].
  destruct (Z.leb_spec MAX_TASKS pid); [done|]. destruct (active _); [|done]. cbn [orb negb].
  unfold MAX_TASKS, MAILBOX_QUEUE_SIZE, MAILBOX_SIZE in *.
  destruct (Z.leb_spec 4 (mailbox_count (task k pid))); [done|]. cbn [snd].
  apply wf_upd_same_owner; [done|lia|]. split_and!; [done..|].
  intros (M1 & M2 & M3 & M4 & M5 & M6 & M7). unfold mailbox_wf.
  cbn [mailbox mailbox_len mailbox_sender mailbox_head mailbox_count set_mailbox].
  set (slot := (_ + _) mod 4). assert (Hslot : 0 <= slot < 4) by (by apply Z.mod_pos_bound).
  rewrite !alen_arr_set. split_and!; try done; try lia; intros s Hs; rewrite arr_get_set by lia;
    destruct (Z.eqb_spec slot s); try by auto.
  - unfold alen. rewrite (length_for_fill (fun i => load8 (mem k) (data ⊕ i))). by apply M2.
  - destruct (Z.ltb_spec 128 len); lia.
Qed.

(** Where a task may write without damaging the heap: anywhere outside it,
    and in the kernel stacks. *)
Definition client_may_write (k : kernel) (x : Z) : Prop :=
  ~ range (heap_start k) total x \/
  exists i, 0 <= i < 16 /\ stack_base (task k i) <> 0 /\ range (stack_base (task k i)) 4096 x.

Lemma client_write_wf k bs sp m' : kernel_wf k bs sp ->
  agree_on (fun x => ~ client_may_write k x) (mem k) m' -> kernel_wf (set_mem m' k) bs sp.
Proof.
  intros Hwf Hag. assert (Hinv : heap_inv (heap_start k) total m' bs).
  { pose proof (kw_heap _ _ _ Hwf) as Hinv. set (hs := heap_start k) in *.
    set (m1 := fun x => if bool_decide (hs <= x < hs + total) then m' x else mem k x).
    assert (H1 : heap_inv hs total m1 bs).
    { apply (heap_inv_client _ _ (mem k)); [done|]. intros x Hx. unfold m1.
      case_bool_decide as Hr; [|done]. apply Hag. intros [Hn|(i & Hi & Hs & Hrange)]; [by apply Hn|].
      apply Hx. destruct (stack_in_heap k bs sp i Hwf Hi Hs) as (n & Hin & Hn).
      exists (stack_base (task k i)), n. split; [done|].
      unfold range, TASK_STACK_SIZE in *. lia. }
    destruct H1 as [I1 I2 I3 I4 I5 I6 I7]. split; try done.
    apply (heap_rep_agree m1); [lia|lia| |done]. rewrite I6. intros x Hx. unfold m1.
    by rewrite bool_decide_eq_true_2 by exact Hx. }
  destruct Hwf as [W1 W2 W3 W4 W5 W6 W7 W8 W9 W10]. by split.
Qed.

Lemma store_loop_agree n out (f : Z -> Z) m (P : Z -> Prop) :
  (forall i, 0 <= i < Z.of_nat n -> ~ P (out ⊕ i)) ->
  agree_on P m (for_loop n 0 (fun i m => store8 m (out ⊕ i) (f i)) m).
Proof.
  intros H. apply (for_loop_ind (fun _ m' => agree_on P m m')); [done|].
  intros j m' Hj IH x Hx. unfold store8. rewrite u32_idemp.
  destruct (Z.eqb_spec x (out ⊕ j)) as [->|]; [|by apply IH]. by destruct (H j ltac:(lia)).
Qed.

Lemma ipc_recv_wf out k bs sp : kernel_wf k bs sp ->
  (forall i, 0 <= i < 128 -> client_may_write k (out ⊕ i)) ->
  kernel_wf (ipc_recv out k).2 bs sp.
Proof.
  intros Hwf Hsafe. pose proof (kw_cur _ _ _ Hwf) as Hc.
  pose proof (kw_mail _ _ _ Hwf _ Hc) as (H1 & H2 & H3 & H4 & H5 & H6 & H7).
  unfold ipc_recv. set (self := task k (current_task k)) in *.
  destruct (Z.eqb_spec (mailbox_count self) 0); [done|]. cbn [snd current_task set_mem].
  set (m' := for_loop _ 0 _ (mem k)).
  assert (Hm : kernel_wf (set_mem m' k) bs sp).
  { apply client_write_wf; [done|]. apply store_loop_agree. intros i Hi Hn. apply Hn, Hsafe.
    specialize (H7 (mailbox_head self) H5). lia. }
  apply wf_upd_same_owner; [done|done|]. split_and!; [done..|]. intros _. unfold mailbox_wf.
  cbn [mailbox mailbox_len mailbox_sender mailbox_head mailbox_count set_mailbox].
  change MAILBOX_QUEUE_SIZE with 4. pose proof (Z.mod_pos_bound (mailbox_head self + 1) 4 ltac:(lia)).
  split_and!; done || lia.
Qed.

(** ** Boot *)

Lemma for_upd_tasks n f : forall i k, 0 <= i -> i + Z.of_nat n <= alen (tasks k) ->
  let k' := for_loop n i (fun j k => upd_task j f k) k in
  k' = set_tasks (tasks k') k /\ alen (tasks k') = alen (tasks k) /\
  forall c, 0 <= c < alen (tasks k) ->
    (tasks k').[c] = if (i <=? c) && (c <? i + Z.of_nat n) then f (tasks k).[c] else (tasks k).[c].
Proof.
  induction n as [|n IH]; intros i k Hi Hn; cbn [for_loop].
  { split_and!; [by destruct k|done|]. intros c Hc. zcases. }
  destruct (IH (i + 1) (upd_task i f k)) as (E & Hl & Hget); [lia|cbn; rewrite alen_arr_set; lia|].
  cbn zeta in *. set (k' := for_loop n (i + 1) _ _) in *. split_and!.
  - rewrite E at 1. done.
  - rewrite Hl. cbn. by rewrite alen_arr_set.
  - intros c Hc. rewrite Hget by (cbn; by rewrite alen_arr_set). cbn [tasks upd_task set_tasks].
    rewrite arr_get_set by lia. destruct (Z.eqb_spec i c) as [<-|]; zcases.
Qed.

(** The state before [init_multitasking]: a zeroed task table, a fresh heap
    and no address space. *)
Record booted (k : kernel) (bs : list block) : Prop := {
  bo_len : alen (tasks k) = 16;
  bo_zero i : 0 <= i < 16 -> task k i = zero_task;
  bo_heap : heap_inv (heap_start k) total (mem k) bs;
  bo_unused : used_payloads (heap_start k) bs = [];
  bo_pages : implements L (pages k) no_spaces;
}.

Lemma zero_task_mailbox : mailbox_wf zero_task.
Proof.
  unfold mailbox_wf. cbn [mailbox mailbox_len mailbox_sender mailbox_head mailbox_count zero_task].
  split_and!; try done; intros s Hs; by rewrite build_get.
Qed.

Lemma owned_nil {A} (f : Task -> list A) ts :
  (forall i, 0 <= i < alen ts -> f ts.[i] = []) -> owned f ts = [].
Proof.
  intros H. destruct (owned f ts) as [|x l] eqn:E; [done|].
  assert (Hx : x ∈ owned f ts) by (rewrite E; apply list_elem_of_here).
  apply owned_elem in Hx as (i & Hi & Hx). rewrite H in Hx by done. by apply not_elem_of_nil in Hx.
Qed.

Lemma reset_task_owns t : stack_base t = 0 ->
  own_slot (reset_task t) = [] /\ own_stack (reset_task t) = [] /\
  own_space (reset_task t) = [] /\ (mailbox_wf t -> mailbox_wf (reset_task t)).
Proof.
  intros Hs. split_and!; [done| |done|by intros; apply mailbox_reset_wf].
  unfold own_stack, reset_task, mailbox_reset. cbn [stack_base set_mailbox set_priority set_addr_space
    set_wake_tick set_sleeping set_active]. by rewrite Hs.
Qed.

(** The table after the loop of [init_multitasking]. *)
Lemma reset_loop k bs : booted k bs ->
  let k1 := for_loop (Z.to_nat MAX_TASKS) 0 (fun i k => upd_task i reset_task k) k in
  mem k1 = mem k /\ heap_start k1 = heap_start k /\ pages k1 = pages k /\
  alen (tasks k1) = 16 /\ forall i, 0 <= i < 16 -> (tasks k1).[i] = reset_task zero_task.
Proof.
  intros [Hl Hz _ _ _]. pose proof (for_upd_tasks (Z.to_nat MAX_TASKS) reset_task 0 k) as H.
  cbn zeta in *. set (k1 := for_loop _ 0 _ k) in *. clearbody k1.
  destruct H as (E & Hl' & Hget); [lia|unfold MAX_TASKS; lia|].
  split_and!; [by rewrite E..|congruence|].
  intros i Hi. rewrite Hget by lia. fold (task k i). rewrite Hz by done.
  unfold MAX_TASKS. zcases.
Qed.

Lemma init_shell_wf shell k1 bs t0 : heap_inv (heap_start k1) total (mem k1) bs ->
  used_payloads (heap_start k1) bs = [] -> implements L (pages k1) no_spaces ->
  alen (tasks k1) = 16 -> (forall i, 0 <= i < 16 -> (tasks k1).[i] = t0) ->
  own_slot t0 = [] -> own_stack t0 = [] -> own_space t0 = [] -> mailbox_wf t0 ->
  kernel_wf (set_multitasking_enabled true (set_current_task 0 (set_task_count 1
    (upd_task 0 (fun t => set_priority 0 (set_active true (set_name shell t))) k1)))) bs no_spaces.
Proof.
  intros Hheap Hun Hpg Hl Ht O1 O2 O3 O4.
  set (t1 := set_priority 0 (set_active true (set_name shell t0))).
  assert (Hupd : forall {A} (f : Task -> list A), f t0 = [] ->
    owned f ((tasks k1).[0 <- t1]) ≡ₚ f t1).
  { intros A f Hf. assert (Hn : owned f (tasks k1) = []).
    { apply owned_nil. intros i Hi. by rewrite Ht by lia. }
    pose proof (owned_split f (tasks k1) 0 ltac:(lia)) as Hs. rewrite Hn, Ht, Hf in Hs by lia.
    cbn [app] in Hs. apply Permutation_nil in Hs. by rewrite owned_update, Hs, app_nil_r by lia. }
  split; cbn [tasks current_task task_count mem heap_start pages set_multitasking_enabled
    set_current_task set_task_count upd_task set_tasks]; rewrite ?(Ht 0) by done;
    fold t1.
  - by rewrite alen_arr_set.
  - done.
  - unfold alen. by rewrite (Hupd _ own_slot O1).
  - intros i Hi _. unfold task. cbn [tasks set_multitasking_enabled set_current_task set_task_count
      upd_task set_tasks]. rewrite (Ht 0) by done. fold t1. rewrite arr_get_set by lia.
    destruct (0 =? i); [exact (conj O2 O3)|by rewrite Ht].
  - exact Hheap.
  - rewrite Hun, (Hupd _ own_stack O2). change (own_stack t1) with (own_stack t0). by rewrite O2.
  - intros p n. rewrite Hun. intros Hin. by apply not_elem_of_nil in Hin.
  - exact Hpg.
  - rewrite (Hupd _ own_space O3). change (own_space t1) with (own_space t0). by rewrite O3.
  - intros i Hi. unfold task. cbn [tasks set_multitasking_enabled set_current_task set_task_count
      upd_task set_tasks]. rewrite (Ht 0) by done. fold t1. rewrite arr_get_set by lia.
    destruct (0 =? i); [exact O4|by rewrite Ht].
Qed.

Lemma init_multitasking_wf shell k bs : booted k bs ->
  kernel_wf (init_multitasking shell k) bs no_spaces.
Proof.
  intros Hboot. destruct (reset_loop k bs Hboot) as (Hm & Hhs & Hp & Hl & Ht).
  destruct Hboot as [_ _ Hheap Hun Hpg].
  destruct (reset_task_owns zero_task eq_refl) as (O1 & O2 & O3 & O4).
  apply (init_shell_wf shell _ bs (reset_task zero_task)); rewrite ?Hm, ?Hhs, ?Hp; try assumption.
  apply O4, zero_task_mailbox.
Qed.

(** ** Every run keeps the invariant *)

Context (task_exit_at : Z).

(** One operation of the kernel; its arguments are words of C. *)
Inductive kernel_op : kernel -> kernel -> Prop :=
  | op_tick e k r k' : is_u32 e -> schedule L e k = Done r k' -> kernel_op k k'
  | op_exit e k r k' : is_u32 e -> task_exit_and_reschedule L e k = Done r k' -> kernel_op k k'
  | op_exit_current k : kernel_op k (task_exit_current k)
  | op_sleep ms k : kernel_op k (task_sleep ms k)
  | op_sleep_syscall ms e k r k' : is_u32 e ->
      task_sleep_and_reschedule L ms e k = Done r k' -> kernel_op k k'
  | op_create entry nm k r k' : is_u32 entry -> is_u32 nm ->
      create_task task_exit_at entry nm k = Done r k' -> kernel_op k k'
  | op_create_user entry nm top size cb cs ebx ecx k r k' :
      window_ok (user_window top size cb cs) ->
      is_u32 entry -> is_u32 nm -> is_u32 top -> is_u32 ebx -> is_u32 ecx ->
      create_user_task_argv L entry nm top size cb cs ebx ecx k = Done r k' -> kernel_op k k'
  | op_kill pid k : kernel_op k (task_kill pid k).2
  | op_priority pid v k : is_s32 v -> kernel_op k (task_set_priority pid v k)
  | op_send pid data len k : 0 <= len -> kernel_op k (ipc_send pid data len k).2
  | op_print t k : kernel_op k (kprint t k).

(** An operation, the delivery of a message in the memory of a task, or any
    amount of work of the tasks that stays within the memory they may write.
    That the tasks, and the addresses that they give to SYS_RECV, respect
    [client_may_write] is an assumption on the tasks: nothing in the code
    enforces it for SYS_RECV.  The static variables of the kernel are not in
    this memory: a task that overwrites them is outside the relation too. *)
Inductive kernel_step : kernel -> kernel -> Prop :=
  | step_op k k' : kernel_op k k' -> kernel_step k k'
  | step_recv out k : (forall i, 0 <= i < 128 -> client_may_write k (out ⊕ i)) ->
      kernel_step k (ipc_recv out k).2
  | step_client m k : agree_on (fun x => ~ client_may_write k x) (mem k) m ->
      kernel_step k (set_mem m k).

Lemma task_exit_wf e k bs sp r k' : kernel_wf k bs sp ->
  task_exit_and_reschedule L e k = Done r k' -> exists bs' sp', kernel_wf k' bs' sp'.
Proof.
  intros Hwf E. destruct (task_exit_current_wf k bs sp Hwf) as (bs' & sp' & Hwf').
  exists bs', sp'. unfold task_exit_and_reschedule in E. fold (task_exit_current k) in E.
  destruct (task_count (task_exit_current k) =? 0); [done|]. by eapply schedule_wf.
Qed.

Lemma task_sleep_syscall_wf ms e k bs sp r k' : kernel_wf k bs sp ->
  task_sleep_and_reschedule L ms e k = Done r k' -> kernel_wf k' bs sp.
Proof. intros Hwf E. exact (schedule_wf e _ bs sp r k' (task_sleep_wf ms k bs sp Hwf) E). Qed.

Lemma kernel_op_wf k k' : layout_ok L -> kernel_op k k' ->
  (exists bs sp, kernel_wf k bs sp) -> exists bs sp, kernel_wf k' bs sp.
Proof.
  intros HL Hstep (bs & sp & Hwf). destruct Hstep.
  - exists bs, sp. by eapply schedule_wf.
  - by eapply task_exit_wf.
  - by eapply task_exit_current_wf.
  - exists bs, sp. by apply task_sleep_wf.
  - exists bs, sp. by eapply task_sleep_syscall_wf.
  - edestruct (create_task_ok task_exit_at entry nm) as (r' & k'' & bs' & sp' & E & Hwf' & _);
      [exact Hwf|done|]. exists bs', sp'. congruence.
  - edestruct (create_user_task_ok entry nm top size cb cs ebx ecx)
      as (r' & k'' & bs' & sp' & E & Hwf' & _); [exact HL|exact Hwf|done..|]. exists bs', sp'. congruence.
  - by eapply task_kill_wf.
  - exists bs, sp. by apply task_set_priority_wf.
  - exists bs, sp. by apply ipc_send_wf.
  - exists bs, sp. by destruct Hwf; split.
Qed.

Lemma kernel_step_wf k k' : layout_ok L -> kernel_step k k' ->
  (exists bs sp, kernel_wf k bs sp) -> exists bs sp, kernel_wf k' bs sp.
Proof.
  intros HL [k0 k1 Hop|out k0 Hout|m k0 Hag] Hk; [by eapply kernel_op_wf|..]; destruct Hk as (bs & sp & Hwf); exists bs, sp.
  - by apply ipc_recv_wf.
  - by apply client_write_wf.
Qed.

(** The operations write only in the heap. *)
Lemma exit_memory k bs sp : kernel_wf k bs sp -> heap_only k (task_exit_current k).
Proof.
  intros Hwf. unfold task_exit_current. destruct (active _); [|done]. eapply release_memory; [done|apply Hwf].
Qed.

Lemma kernel_op_memory k k' bs sp : kernel_wf k bs sp -> kernel_op k k' -> heap_only k k'.
Proof.
  intros Hwf Hstep. destruct Hstep.
  - by eapply schedule_memory.
  - pose proof (exit_memory k bs sp Hwf) as (E1 & E2 & E3).
    unfold task_exit_and_reschedule in *. fold (task_exit_current k) in *. destruct (_ =? 0); [done|].
    match goal with E : schedule _ _ _ = _ |- _ => destruct (schedule_memory _ _ _ _ E) as (S1 & S2 & S3) end.
    split_and!; [congruence|auto|]. rewrite E1 in S3. by eapply agree_on_trans.
  - by eapply exit_memory.
  - by apply heap_only_same.
  - match goal with E : task_sleep_and_reschedule _ _ _ _ = _ |- _ => exact (schedule_memory _ _ _ _ E) end.
  - by eapply create_task_memory.
  - by eapply create_user_task_memory.
  - unfold task_kill. destruct (_ || _) eqn:E; [done|]. destruct (_ =? _); [done|]. cbn [snd].
    exact (release_memory k bs sp pid Hwf ltac:(apply orb_false_iff in E as [E _]; unfold MAX_TASKS in E; zcases; lia)).
  - unfold task_set_priority. destruct (_ || _); [done|]. by apply heap_only_same.
  - unfold ipc_send. destruct (_ || _); [done|]. destruct (_ <=? _); [done|]. by apply heap_only_same.
  - by apply heap_only_same.
Qed.

Lemma reachable_wf shell k0 bs0 k : layout_ok L -> booted k0 bs0 ->
  rtc kernel_step (init_multitasking shell k0) k -> exists bs sp, kernel_wf k bs sp.
Proof.
  intros HL Hboot Hrun.
  assert (H0 : exists bs sp, kernel_wf (init_multitasking shell k0) bs sp)
    by (exists bs0, no_spaces; by apply init_multitasking_wf).
  revert H0. induction Hrun as [|x y z Hxy _ IH]; [done|].
  intros Hx. apply IH. by eapply kernel_step_wf.
Qed.

Lemma stacks_disjoint k bs sp i j : kernel_wf k bs sp -> 0 <= i < 16 -> 0 <= j < 16 -> i <> j ->
  stack_base (task k i) <> 0 -> stack_base (task k j) <> 0 ->
  stack_base (task k i) + 4096 <= stack_base (task k j) \/
  stack_base (task k j) + 4096 <= stack_base (task k i).
Proof.
  intros Hwf Hi Hj Hne Hsi Hsj. pose proof (kw_len _ _ _ Hwf) as Hl.
  destruct (stack_in_heap k bs sp i Hwf Hi Hsi) as (n & Hin & Hn).
  destruct (stack_in_heap k bs sp j Hwf Hj Hsj) as (n' & Hin' & Hn').
  assert (Hd : stack_base (task k i) <> stack_base (task k j)).
  { intros Heq. apply Hne. apply (owned_inj own_stack (tasks k) i j (stack_base (task k i))); [|lia|lia|..].
    - rewrite <- (kw_stacks _ _ _ Hwf). by eapply used_keys_NoDup, (hi_rep _ _ _ _ (kw_heap _ _ _ Hwf)).
    - unfold own_stack. fold (task k i). zcases. apply list_elem_of_here.
    - unfold own_stack. fold (task k j). rewrite Heq. zcases. apply list_elem_of_here. }
  destruct (used_disjoint _ _ _ _ _ _ _ (hi_rep _ _ _ _ (kw_heap _ _ _ Hwf)) Hin Hin' Hd);
    unfold TASK_STACK_SIZE in *; lia.
Qed.

(** C9: in every state reached from [init_multitasking] by scheduling, creation,
    termination, sleeping, priorities, messages and the tasks' own work, in any
    order, where the tasks write, and SYS_RECV delivers messages, only outside
    the heap or in the stacks of tasks (the code does not check the address of
    a message) and not in the kernel's static variables: [task_count] is the
    number of active tasks; the kernel stacks of two tasks never overlap and
    lie in the heap; two tasks never share an address space; a task that has
    ended owns nothing; and nothing leaks: the heap blocks in use are exactly
    the stacks, the address spaces in use exactly those of the tasks. *)
Theorem kernel_reachable_safe shell k0 bs0 k : layout_ok L -> booted k0 bs0 ->
  rtc kernel_step (init_multitasking shell k0) k ->
  task_count k = alen (owned own_slot (tasks k)) /\
  (forall i, 0 <= i < 16 -> stack_base (task k i) <> 0 ->
     heap_start k <= stack_base (task k i) /\
     stack_base (task k i) + 4096 <= heap_start k + total) /\
  (forall i j, 0 <= i < 16 -> 0 <= j < 16 -> i <> j ->
     stack_base (task k i) <> 0 -> stack_base (task k j) <> 0 ->
     stack_base (task k i) + 4096 <= stack_base (task k j) \/
     stack_base (task k j) + 4096 <= stack_base (task k i)) /\
  (forall i j, 0 <= i < 16 -> 0 <= j < 16 -> i <> j -> 0 <= addr_space (task k i) ->
     addr_space (task k i) <> addr_space (task k j)) /\
  (forall i, 0 <= i < 16 -> active (task k i) = false ->
     stack_base (task k i) = 0 /\ addr_space (task k i) < 0) /\
  exists bs sp, heap_inv (heap_start k) total (mem k) bs /\
    (used_payloads (heap_start k) bs).*1 ≡ₚ owned own_stack (tasks k) /\
    implements L (pages k) sp /\ used_spaces sp ≡ₚ owned own_space (tasks k).
Proof.
  intros HL Hboot Hrun. destruct (reachable_wf shell k0 bs0 k HL Hboot Hrun) as (bs & sp & Hwf).
  pose proof (kw_len _ _ _ Hwf) as Hl. split_and!.
  - apply Hwf.
  - intros i Hi Hs. destruct (stack_in_heap k bs sp i Hwf Hi Hs) as (n & Hin & Hn).
    pose proof (used_bounds _ _ _ _ _ _ (kw_heap _ _ _ Hwf) Hin).
    unfold TASK_STACK_SIZE in *. lia.
  - intros i j. by eapply stacks_disjoint.
  - intros i j Hi Hj Hne Ha Heq. apply Hne.
    apply (owned_inj own_space (tasks k) i j (addr_space (task k i))); [|lia|lia|..].
    + rewrite <- (kw_spaces _ _ _ Hwf). apply used_spaces_NoDup.
    + unfold own_space. fold (task k i). zcases. apply list_elem_of_here.
    + unfold own_space. fold (task k j). rewrite <- Heq. zcases. apply list_elem_of_here.
  - intros i Hi Ha. destruct (kw_idle _ _ _ Hwf i Hi Ha) as [H1 H2].
    unfold own_stack in H1. unfold own_space in H2. split.
    + by destruct (Z.eqb_spec (stack_base (task k i)) 0).
    + by destruct (Z.leb_spec 0 (addr_space (task k i))).
  - exists bs, sp. split_and!; apply Hwf.
Qed.

(** [create_user_task_argv] always returns.  It fails ([-1], the task
    table unchanged and nothing leaked) only when all slots, the heap or the
    address spaces are exhausted; otherwise the new task is in a slot that was
    free, no other task changes, the first time it is elected it starts in
    ring 3 at [entry] on its own stack with [argc] in EBX and [argv] in ECX,
    and ring 3 reaches exactly its two windows and the shared image. *)
Theorem create_user_task_argv_correct entry nm top size cb cs ebx ecx k bs sp :
  layout_ok L -> kernel_wf k bs sp -> window_ok (user_window top size cb cs) ->
  is_u32 entry -> is_u32 top -> is_u32 ebx -> is_u32 ecx ->
  exists r k' bs' sp', create_user_task_argv L entry nm top size cb cs ebx ecx k = Done r k' /\
  kernel_wf k' bs' sp' /\
  ((r = -1 /\ tasks k' = tasks k /\
    no_resources k bs (forall i, 0 <= i < MAX_ADDR_SPACES -> sp.[i] <> None)) \/
   (spawned k k' r (user_context entry top ebx ecx) /\
    forall write v, is_u32 v ->
      walk L (pages k') true write (paging_task_directory_phys L (addr_space (task k' r))) v =
      if (v <? 4194304) && reachable L (user_window top size cb cs) v then Some v else None)).
Proof.
  intros HL Hwf Hw He Ht Hb Hc.
  destruct (create_user_task_ok entry nm top size cb cs ebx ecx k bs sp HL Hwf Hw He Ht Hb Hc)
    as (r & k' & bs' & sp' & E & Hwf' & Hcase).
  exists r, k', bs', sp'. split_and!; [done|done|].
  destruct Hcase as [Hfail|(Hs & Ha & Hsw & _)]; [by left|right]. split; [done|].
  intros write v Hv.
  rewrite (walk_space L HL _ sp' _ (user_window top size cb cs)); [done|apply Hwf'| |done].
  left. by split.
Qed.

(** [create_task] likewise, for a ring-0 task: it starts at [entry] in
    the kernel's address space. *)
Theorem create_task_correct entry nm k bs sp : kernel_wf k bs sp -> is_u32 entry ->
  exists r k' bs' sp', create_task task_exit_at entry nm k = Done r k' /\ kernel_wf k' bs' sp' /\
  ((r = -1 /\ tasks k' = tasks k /\ no_resources k bs False) \/
   exists top, spawned k k' r (kernel_context entry top) /\ addr_space (task k' r) = -1).
Proof.
  intros Hwf He. destruct (create_task_ok task_exit_at entry nm k bs sp Hwf He)
    as (r & k' & bs' & sp' & E & Hwf' & Hcase). exists r, k', bs', sp'. split_and!; [done|done|].
  destruct Hcase as [Hfail|(top & Hs & Ha & _)]; [by left|right]. by exists top.
Qed.

(** C13: [task_kill] refuses the current task and anything that is not an
    active task, changing nothing; otherwise the task becomes inactive with
    an empty mailbox, no other task changes, and what it owned is given back
    to the heap and to the address-space allocator. *)
Theorem task_kill_correct pid k bs sp : kernel_wf k bs sp ->
  let '(ok, k') := task_kill pid k in
  ok = (0 <=? pid) && (pid <? 16) && active (task k pid) && negb (pid =? current_task k) /\
  (ok = false -> k' = k) /\
  (ok = true -> active (task k' pid) = false /\ mailbox_count (task k' pid) = 0 /\
     (forall j, 0 <= j < 16 -> j <> pid -> task k' j = task k j) /\
     exists bs' sp', kernel_wf k' bs' sp' /\
       (used_payloads (heap_start k) bs).*1 ≡ₚ
         own_stack (task k pid) ++ (used_payloads (heap_start k) bs').*1 /\
       used_spaces sp ≡ₚ own_space (task k pid) ++ used_spaces sp').
Proof.
  intros Hwf. pose proof (kw_len _ _ _ Hwf) as Hl. pose proof (task_kill_wf pid k bs sp Hwf) as Hwf'.
  unfold task_kill in *. change MAX_TASKS with 16 in *.
  destruct (Z.ltb_spec pid 0), (Z.leb_spec 16 pid), (Z.leb_spec 0 pid), (Z.ltb_spec pid 16);
    try lia; cbn [orb andb] in *; try (by split_and!).
  destruct (active (task k pid)) eqn:Ha; cbn [negb andb] in *; [|by split_and!].
  destruct (Z.eqb_spec pid (current_task k)); cbn [negb andb] in *; [by split_and!|].
  split_and!; [done|done|]. intros _. cbn [snd] in Hwf'. destruct Hwf' as (bs' & sp' & Hwf').
  rewrite release_task_eq in * by lia. cbn zeta in *. set (k1 := set_pages _ _) in *.
  assert (Ht1 : tasks k1 = (tasks k).[pid <- released (task k pid)]) by done.
  set (t' := mailbox_reset (released (task k pid))).
  assert (Ht : tasks (upd_task pid mailbox_reset k1) = (tasks k).[pid <- t']).
  { unfold upd_task. cbn [tasks set_tasks]. rewrite Ht1, arr_get_set_eq, arr_set_set by lia. done. }
  unfold task. rewrite Ht, arr_get_set_eq by lia. split_and!; [done|done| |].
  - intros j Hj Hne. by apply arr_get_set_ne.
  - destruct (released_owns (task k pid)) as (_ & O2 & O3 & _).
    exists bs', sp'. split; [done|]. fold (task k pid). split.
    + pose proof (kw_stacks _ _ _ Hwf') as Hst.
      change (heap_start (upd_task pid mailbox_reset k1)) with (heap_start k) in Hst.
      rewrite (kw_stacks _ _ _ Hwf), Hst, Ht, (owned_split own_stack (tasks k) pid),
        owned_update by lia. change (own_stack t') with (own_stack (released (task k pid))). by rewrite O2.
    + rewrite (kw_spaces _ _ _ Hwf), (kw_spaces _ _ _ Hwf'), Ht, (owned_split own_space (tasks k) pid),
        owned_update by lia. change (own_space t') with (own_space (released (task k pid))). by rewrite O3.
Qed.
End invariant.

(** ** A concrete kernel *)

Definition boot_kernel : kernel :=
  mkKernel (build 16 (fun _ => zero_task)) 0 false 0 boot_memory 1048576
    (paging_init demo_layout paging_boot).1 pit_boot 0 [].

Lemma boot_kernel_booted : booted demo_layout 1048576 boot_kernel boot_blocks.
Proof.
  split; [reflexivity| |exact boot_heap_inv|reflexivity|].
  - intros i Hi. unfold task, boot_kernel. cbn [tasks]. by rewrite build_get.
  - apply paging_init_implements; [apply demo_layout_ok|apply paging_boot_sized|].
    intros i Hi. exact (build_get 6 (fun _ => 0) i Hi).
Qed.

Definition running_kernel : kernel := init_multitasking 0 boot_kernel.

Lemma running_kernel_wf : kernel_wf demo_layout 1048576 running_kernel boot_blocks no_spaces.
Proof. apply init_multitasking_wf, boot_kernel_booted. Qed.

Definition demo_user_window : window := user_window 147472 4096 3145728 131072.

Lemma demo_user_window_ok : window_ok demo_user_window.
Proof. unfold window_ok. cbn. unfold u32. split_and!; done. Qed.

(** A task is created, then the clock ticks. *)
Lemma kernel_reachable_safe_witness : exists r k, create_task 40000 33000 1024 running_kernel = Done r k /\
  forall e r' k', is_u32 e -> schedule demo_layout e k = Done r' k' -> task_count k' = alen (owned own_slot (tasks k')).
Proof.
  destruct (create_task_ok demo_layout 1048576 40000 33000 1024 running_kernel boot_blocks no_spaces running_kernel_wf ltac:(done))
    as (r & k & bs' & sp' & E & _). exists r, k. split; [exact E|]. intros e r' k' He E'.
  apply (kernel_reachable_safe demo_layout 1048576 40000 0 boot_kernel boot_blocks k' demo_layout_ok boot_kernel_booted).
  apply rtc_l with k; [|apply rtc_once].
  - apply step_op. by apply (op_create demo_layout 40000 33000 1024 running_kernel r k).
  - apply step_op. by apply (op_tick demo_layout 40000 e k r' k').
Defined.

Lemma create_user_task_argv_correct_witness : exists r k' bs' sp',
  create_user_task_argv demo_layout 3145728 0 147472 4096 3145728 131072 2 143376 running_kernel =
    Done r k' /\ kernel_wf demo_layout 1048576 k' bs' sp' /\
  ((r = -1 /\ tasks k' = tasks running_kernel /\
    no_resources running_kernel boot_blocks
      (forall i, 0 <= i < MAX_ADDR_SPACES -> no_spaces.[i] <> None)) \/
   (spawned running_kernel k' r (user_context 3145728 147472 2 143376) /\
    forall write v, is_u32 v ->
      walk demo_layout (pages k') true write
        (paging_task_directory_phys demo_layout (addr_space (task k' r))) v =
      if (v <? 4194304) && reachable demo_layout demo_user_window v then Some v else None)).
Proof.
  apply (create_user_task_argv_correct demo_layout 1048576 3145728 0 147472 4096 3145728 131072 2 143376
    running_kernel boot_blocks no_spaces);
    [apply demo_layout_ok|apply running_kernel_wf|apply demo_user_window_ok|by split..].
Defined.

Lemma create_task_correct_witness : exists r k' bs' sp',
  create_task 40000 33000 0 running_kernel = Done r k' /\
  kernel_wf demo_layout 1048576 k' bs' sp' /\
  ((r = -1 /\ tasks k' = tasks running_kernel /\ no_resources running_kernel boot_blocks False) \/
   exists top, spawned running_kernel k' r (kernel_context 33000 top) /\
     addr_space (task k' r) = -1).
Proof.
  apply (create_task_correct demo_layout 1048576 40000 33000 0 running_kernel boot_blocks no_spaces);
    [apply running_kernel_wf|by split].
Defined.

Lemma task_kill_correct_witness :
  let '(ok, k') := task_kill 3 running_kernel in
  ok = (0 <=? 3) && (3 <? 16) && active (task running_kernel 3)
       && negb (3 =? current_task running_kernel) /\
  (ok = false -> k' = running_kernel) /\
  (ok = true -> active (task k' 3) = false /\ mailbox_count (task k' 3) = 0 /\
     (forall j, 0 <= j < 16 -> j <> 3 -> task k' j = task running_kernel j) /\
     exists bs' sp', kernel_wf demo_layout 1048576 k' bs' sp' /\
       (used_payloads (heap_start running_kernel) boot_blocks).*1 ≡ₚ
         own_stack (task running_kernel 3) ++
         (used_payloads (heap_start running_kernel) bs').*1 /\
       used_spaces no_spaces ≡ₚ own_space (task running_kernel 3) ++ used_spaces sp').
Proof.
  apply (task_kill_correct demo_layout 1048576 3 running_kernel boot_blocks no_spaces).
  apply running_kernel_wf.
Defined.
