(* ===== verification/Typed.v ===== *)
(** * Widths ([kernel/sched.h], [kernel/sched.c])

    The model computes with integers; the C code with [uint32_t], [int] and
    [char].  Here every field of the task table and every variable of the
    scheduler is shown to hold a value of its C type in every state that the
    kernel reaches: no operation of the model leaves the range of the variable
    it assigns, so none of them hides an overflow that the C code would have. *)
From stdpp Require Import base numbers list list_numbers relations.
From S2P Require Import Prelude Machine Heap Paging Pit Sched SchedProps Frames SchedInv.

(** ** The types *)

Record task_typed (t : Task) : Prop := {
  ty_esp : is_u32 (esp t);
  ty_stack : is_u32 (stack_base t);
  ty_name : is_u32 (name t);
  ty_wake : is_u32 (wake_tick t);
  ty_space : is_s32 (addr_space t);
  ty_mailbox : Forall (Forall is_byte) (mailbox t);
  ty_lens : Forall is_u32 (mailbox_len t);
  ty_senders : Forall is_s32 (mailbox_sender t);
  ty_head : is_s32 (mailbox_head t);
  ty_count : is_s32 (mailbox_count t);
  ty_priority : is_s32 (priority t);
}.

Record kernel_typed (k : kernel) : Prop := {
  ky_tasks : Forall task_typed (tasks k);
  ky_current : is_s32 (current_task k);
  ky_task_count : is_s32 (task_count k);
  ky_mem : mem_bytes (mem k);
  ky_heap : is_u32 (heap_start k);
  ky_ticks : is_u32 (ticks (clock k));
  ky_tss : is_u32 (tss_esp0 k);
}.

(** ** Setting a field *)

Lemma typed_arr_set {A} (P : A -> Prop) l i x : Forall P l -> P x -> Forall P (l.[i <- x]).
Proof. intros Hl Hx. unfold arr_set. destruct (0 <=? i); [by apply Forall_insert|done]. Qed.

Lemma typed_get {A} `{!Inhabited A} (P : A -> Prop) l i : Forall P l -> P inhabitant -> P l.[i].
Proof.
  intros Hl Hd. destruct (decide (0 <= i < alen l)) as [Hi|Hi]; [rewrite arr_Forall in Hl; by apply Hl|].
  by rewrite arr_get_oob by lia.
Qed.

Lemma typed_build {A} (P : A -> Prop) n f : (forall i, P (f i)) -> Forall P (build n f).
Proof. intros Hf. apply Forall_fmap, Forall_true. exact Hf. Qed.

Lemma zero_task_typed : task_typed zero_task.
Proof. split; try done; repeat (apply typed_build; intros); done. Qed.

Lemma typed_task k i : kernel_typed k -> task_typed (task k i).
Proof. intros Hk. exact (typed_get task_typed (tasks k) i (ky_tasks _ Hk) zero_task_typed). Qed.

Lemma typed_upd i f k : kernel_typed k -> (task_typed (task k i) -> task_typed (f (task k i))) -> kernel_typed (upd_task i f k).
Proof.
  intros Hk Hf. pose proof (Hf (typed_task k i Hk)) as Ht. destruct Hk. split; try done. by apply typed_arr_set.
Qed.

Lemma typed_mailbox_reset t : task_typed t -> task_typed (mailbox_reset t).
Proof.
  intros []. split; try done.
  - apply (for_loop_ind (fun _ => Forall is_u32)); [done|]. intros j l _ Hl. by apply typed_arr_set.
  - apply (for_loop_ind (fun _ => Forall is_s32)); [done|]. intros j l _ Hl. by apply typed_arr_set.
Qed.

Lemma typed_tasks ts k : kernel_typed k -> Forall task_typed ts -> kernel_typed (set_tasks ts k).
Proof. by intros [] Hts; split. Qed.
Lemma typed_set_mem m k : kernel_typed k -> mem_bytes m -> kernel_typed (set_mem m k).
Proof. by intros [] Hm; split. Qed.
Lemma typed_set_pages p k : kernel_typed k -> kernel_typed (set_pages p k).
Proof. by intros []; split. Qed.
Lemma typed_set_count n k : kernel_typed k -> is_s32 n -> kernel_typed (set_task_count n k).
Proof. by intros [] Hn; split. Qed.
Lemma typed_set_current n k : kernel_typed k -> is_s32 n -> kernel_typed (set_current_task n k).
Proof. by intros [] Hn; split. Qed.
Lemma typed_set_tss v k : kernel_typed k -> is_u32 v -> kernel_typed (tss_set_kernel_stack v k).
Proof. by intros [] Hv; split. Qed.
Lemma typed_tick k : kernel_typed k -> kernel_typed (set_clock (timer_tick (clock k)) k).
Proof. intros []. split; try done. apply u32_range. Qed.
Lemma typed_enable b k : kernel_typed k -> kernel_typed (set_multitasking_enabled b k).
Proof. by intros []; split. Qed.
Lemma typed_reset t : task_typed t -> task_typed (reset_task t).
Proof. intros Ht. unfold reset_task. apply typed_mailbox_reset. by destruct Ht; split. Qed.
Lemma typed_first shell t : is_u32 shell -> task_typed t -> task_typed (set_priority 0 (set_active true (set_name shell t))).
Proof. by intros Hs []; split. Qed.
Create HintDb typed.
#[local] Hint Resolve typed_tasks typed_set_mem typed_set_pages typed_set_count typed_set_current typed_set_tss typed_tick
  typed_mailbox_reset u32_range kfree_bytes : typed.

(** ** The operations *)

Lemma typed_visit cur now i ts next best : Forall task_typed ts -> -1 <= next < 16 ->
  let '(ts', next', _) := visit_candidate cur now i (ts, next, best) in Forall task_typed ts' /\ -1 <= next' < 16.
Proof.
  intros Hts Hn. unfold visit_candidate. set (c := (cur + i) mod MAX_TASKS).
  assert (Hc : 0 <= c < 16) by (by apply Z.mod_pos_bound). pose proof (typed_get task_typed ts c Hts zero_task_typed) as Ht.
  destruct (negb _); [done|]. destruct (_ && _); [done|].
  assert (Hts' : Forall task_typed (if sleeping ts.[c] then ts.[c <- set_sleeping false ts.[c]] else ts)).
  { destruct (sleeping _); [|done]. apply typed_arr_set; [done|]. by destruct Ht; split. }
  destruct (_ <? _); split; try done; lia.
Qed.

Lemma typed_find_next k : kernel_typed k ->
  let '(r, k') := find_next_task k in kernel_typed k' /\ -1 <= r < 16.
Proof.
  intros Hk. unfold find_next_task.
  pose proof (for_loop_ind (fun _ st => Forall task_typed st.1.1 /\ -1 <= st.1.2 < 16)
    (visit_candidate (current_task k) (get_ticks (clock k))) (Z.to_nat MAX_TASKS) 1 (tasks k, -1, -1)) as H.
  destruct (for_loop _ _ _ _) as [[ts next] best]. destruct H as [Hts Hn].
  - split; [apply Hk|cbn; lia].
  - intros j [[ts' n'] b'] _ [H1 H2]. cbn [fst snd] in *. pose proof (typed_visit (current_task k) (get_ticks (clock k)) j ts' n' b' H1 H2) as Hv.
    by destruct (visit_candidate _ _ _ _) as [[ts'' n''] b''].
  - cbn [fst snd] in *. split; [by apply typed_tasks|]. destruct (next <? 0); [|done].
    destruct (first_active ts) as [i|] eqn:E; [|done]. apply find_index_Some in E as (Hi & _). unfold MAX_TASKS in Hi. lia.
Qed.

Section typed.
Context (L : Layout) (total task_exit_at : Z).

Lemma typed_schedule e k r k' : kernel_typed k -> is_u32 e -> schedule L e k = Done r k' -> kernel_typed k' /\ is_u32 r.
Proof.
  intros Hk He. unfold schedule. set (k0 := set_clock _ k). assert (H0 : kernel_typed k0) by (by apply typed_tick).
  destruct (negb _); [by intros [= <- <-]|].
  assert (H1 : kernel_typed (upd_task (current_task k0) (set_esp e) k0)) by (apply typed_upd; [done|]; by intros []; split).
  pose proof (typed_find_next _ H1) as Hf. destruct (find_next_task _) as [n k1]. destruct Hf as [H2 Hn].
  cbn zeta. destruct (Z.ltb_spec n 0); [done|]. set (t := task (set_current_task n k1) n). intros [= <- <-].
  split; [|apply (typed_task k1 n H2)]. assert (Hs : is_s32 n) by (unfold is_s32; lia).
  destruct (0 <=? _); auto 6 with typed.
Qed.

Lemma typed_release pid k : kernel_typed k -> kernel_typed (release_task pid k).
Proof.
  intros Hk. unfold release_task. set (k1 := upd_task pid (set_sleeping false) _).
  assert (H1 : kernel_typed k1) by (do 2 (apply typed_upd; [|by intros []; split]); done).
  set (k2 := if 0 <? task_count k1 then _ else _).
  assert (H2 : kernel_typed k2).
  { unfold k2. pose proof (ky_task_count _ H1) as Hc. destruct (Z.ltb_spec 0 (task_count k1)); [|done].
    apply typed_set_count; [done|]. unfold is_s32 in *. lia. }
  set (k3 := if negb _ then _ else k2).
  assert (H3 : kernel_typed k3).
  { unfold k3. destruct (negb _); [|done]. apply typed_upd; [|by intros []; split]. apply typed_set_mem; [done|].
    apply kfree_bytes, H2. }
  destruct (0 <=? _); [|done]. apply typed_upd; [by apply typed_set_pages|]. by intros []; split.
Qed.

Lemma typed_exit_current k : kernel_typed k -> kernel_typed (task_exit_current k).
Proof. intros Hk. unfold task_exit_current. destruct (active _); [by apply typed_release|done]. Qed.

Lemma typed_sleep ms k : kernel_typed k -> kernel_typed (task_sleep ms k).
Proof.
  intros Hk. unfold task_sleep. apply typed_upd; [apply typed_upd; [done|]|by intros []; split].
  intros []. split; try done. apply u32_range.
Qed.

(** A new task. *)
Lemma push_all_sp vs m sp : is_u32 sp -> is_u32 (push_all vs (m, sp)).2.
Proof.
  revert m sp. induction vs as [|v vs IH]; intros m sp Hsp; [done|]. cbn [push_all fold_left]. apply IH, u32_range.
Qed.

Lemma typed_new_task i p e nm space m k : kernel_typed k -> mem_bytes m -> is_u32 e -> is_u32 nm -> is_s32 space ->
  task_count k < 16 -> kernel_typed (set_task_count (task_count k + 1) (upd_task i (init_task p e nm space) (set_mem m k))).
Proof.
  intros Hk Hm He Hnm Hs Hc. apply typed_set_count; [|pose proof (ky_task_count _ Hk) as H; unfold is_s32 in *; lia].
  apply typed_upd; [by apply typed_set_mem|]. intros Ht. unfold init_task. cbv zeta.
  assert (Hp : forall t, task_typed t -> task_typed (set_priority 0 t)) by (by intros t []; split).
  apply Hp, typed_mailbox_reset. destruct Ht. split; try done. apply u32_range.
Qed.

Lemma typed_create te entry nm k r k' : kernel_typed k -> is_u32 nm -> create_task te entry nm k = Done r k' -> kernel_typed k'.
Proof.
  intros Hk Hnm. unfold create_task. destruct (Z.leb_spec MAX_TASKS (task_count k)) as [|Hc]; [by intros [= _ <-]|].
  destruct (free_task_slot k) as [i|]; [|by intros [= _ <-]].
  destruct (kmalloc _ _ _) as [[p m]|] eqn:Ek; [|done]. pose proof (kmalloc_bytes _ _ _ _ _ (ky_mem _ Hk) Ek) as Hm.
  assert (H1 : kernel_typed (set_mem m k)) by (by apply typed_set_mem). destruct (p =? 0); [by intros [= _ <-]|].
  cbn [mem set_mem]. set (ws := _ ++ _). pose proof (push_all_bytes ws m (p ⊕ TASK_STACK_SIZE) Hm) as Hb.
  pose proof (push_all_sp ws m (p ⊕ TASK_STACK_SIZE) (u32_range _)) as Hsp. destruct (push_all ws _) as [m' e]. intros [= _ <-].
  by apply (typed_new_task i p e nm (-1) m' k).
Qed.

Lemma space_range a b c d pg : let '(s, _) := paging_create_task_directory_ex L a b c d pg in is_s32 s.
Proof.
  unfold paging_create_task_directory_ex. destruct (find_index _ _ _) as [i|] eqn:E; [|done].
  apply find_index_Some in E as (Hi & _). unfold MAX_ADDR_SPACES in Hi. unfold is_s32. lia.
Qed.

Lemma typed_create_user entry nm top size cb cs ebx ecx k r k' : kernel_typed k -> is_u32 nm ->
  create_user_task_argv L entry nm top size cb cs ebx ecx k = Done r k' -> kernel_typed k'.
Proof.
  intros Hk Hnm. unfold create_user_task_argv. destruct (Z.leb_spec MAX_TASKS (task_count k)) as [|Hc]; [by intros [= _ <-]|].
  destruct (free_task_slot k) as [i|]; [|by intros [= _ <-]].
  destruct (kmalloc _ _ _) as [[p m]|] eqn:Ek; [|done]. pose proof (kmalloc_bytes _ _ _ _ _ (ky_mem _ Hk) Ek) as Hm.
  assert (H1 : kernel_typed (set_mem m k)) by (by apply typed_set_mem). destruct (p =? 0); [by intros [= _ <-]|].
  pose proof (space_range cb cs (top ⊖ size) size (pages (set_mem m k))) as Hs.
  destruct (paging_create_task_directory_ex _ _ _ _ _ _) as [s pg]. cbn [mem set_mem set_pages].
  destruct (s <? 0); [intros [= _ <-]; auto 6 with typed|].
  set (ws := [SEL_USER_DATA; _; _; _; _] ++ _). pose proof (push_all_bytes ws m (p ⊕ TASK_STACK_SIZE) Hm) as Hb.
  pose proof (push_all_sp ws m (p ⊕ TASK_STACK_SIZE) (u32_range _)) as Hsp. destruct (push_all ws _) as [m' e]. intros [= _ <-].
  by apply (typed_new_task i p e nm s m' (set_pages pg k)); [apply typed_set_pages| | | | |].
Qed.

(** Messages. *)
Lemma typed_send pid data len k : kernel_typed k -> 0 <= len -> kernel_typed (ipc_send pid data len k).2.
Proof.
  intros Hk Hlen. unfold ipc_send. destruct (_ || _); [done|]. destruct (Z.leb_spec MAILBOX_QUEUE_SIZE (mailbox_count (task k pid))) as [|Hc]; [done|].
  cbn [snd]. unfold MAILBOX_QUEUE_SIZE in Hc. pose proof (ky_current _ Hk) as Hcur. pose proof (ky_mem _ Hk) as Hm.
  apply typed_upd; [done|]. intros []. split; try done; cbn [mailbox mailbox_len mailbox_sender mailbox_count set_mailbox].
  - apply typed_arr_set; [done|]. apply (for_loop_ind (fun _ => Forall is_byte)); [by apply typed_get|].
    intros j l _ Hl. apply typed_arr_set; [done|apply Hm].
  - apply typed_arr_set; [done|]. unfold MAILBOX_SIZE, is_u32. destruct (Z.ltb_spec 128 len); lia.
  - by apply typed_arr_set.
  - unfold is_s32 in *. lia.
Qed.

Lemma typed_recv out k : kernel_typed k -> 0 <= mailbox_count (task k (current_task k)) -> kernel_typed (ipc_recv out k).2.
Proof.
  intros Hk Hc. unfold ipc_recv. destruct (Z.eqb_spec (mailbox_count (task k (current_task k))) 0); [done|]. cbn [snd].
  apply typed_upd.
  - apply typed_set_mem; [done|]. apply (for_loop_ind (fun _ => mem_bytes)); [apply Hk|]. intros; auto with mx.
  - pose proof (typed_task k (current_task k) Hk) as []. intros []. split; try done; cbn [mailbox_head mailbox_count set_mailbox].
    + pose proof (Z.mod_pos_bound (mailbox_head (task k (current_task k)) + 1) MAILBOX_QUEUE_SIZE eq_refl) as H.
      unfold MAILBOX_QUEUE_SIZE, is_s32 in *. lia.
    + unfold is_s32 in *. lia.
Qed.

Lemma typed_op k k' : kernel_typed k -> kernel_op L task_exit_at k k' -> kernel_typed k'.
Proof.
  intros Hk Hop. destruct Hop as [e k r k' He E|e k r k' He E|k|ms k|ms e k r k' He E|entry nm k r k' _ Hnm E
    |entry nm top size cb cs ebx ecx k r k' _ _ Hnm _ _ _ E|pid k|pid v k Hv|pid data len k Hlen|t k].
  - by eapply typed_schedule.
  - unfold task_exit_and_reschedule in E. fold (task_exit_current k) in E. destruct (_ =? 0); [done|].
    eapply typed_schedule; [by apply typed_exit_current|exact He|exact E].
  - by apply typed_exit_current.
  - by apply typed_sleep.
  - eapply typed_schedule; [by apply (typed_sleep ms)|exact He|exact E].
  - by eapply typed_create.
  - by eapply typed_create_user.
  - unfold task_kill. destruct (_ || _); [done|]. destruct (_ =? _); [done|]. apply typed_upd; [by apply typed_release|apply typed_mailbox_reset].
  - unfold task_set_priority. destruct (_ || _); [done|]. apply typed_upd; [done|]. by intros []; split.
  - by apply typed_send.
  - by destruct Hk; split.
Qed.

Lemma typed_boot shell k : kernel_typed k -> is_u32 shell -> kernel_typed (init_multitasking shell k).
Proof.
  intros Hk Hs. unfold init_multitasking.
  assert (H1 : kernel_typed (for_loop (Z.to_nat MAX_TASKS) 0 (fun i k => upd_task i reset_task k) k)).
  { apply (for_loop_ind (fun _ => kernel_typed)); [exact Hk|]. intros j k1 _ H1. apply typed_upd; [exact H1|]. apply typed_reset. }
  revert H1. generalize (for_loop (Z.to_nat MAX_TASKS) 0 (fun i k => upd_task i reset_task k) k). intros k1 H1. cbv zeta.
  apply typed_enable, typed_set_current; [apply typed_set_count; [|done]|done].
  apply typed_upd; [exact H1|]. by apply typed_first.
Qed.

(** The steps of [SchedInv.kernel_step], where what the tasks write are bytes;
    nothing is asked of what the kernel writes. *)
Inductive typed_step : kernel -> kernel -> Prop :=
  | tstep_op k k' : kernel_op L task_exit_at k k' -> typed_step k k'
  | tstep_recv out k : (forall i, 0 <= i < 128 -> client_may_write total k (out ⊕ i)) -> typed_step k (ipc_recv out k).2
  | tstep_client m k : agree_on (fun x => ~ client_may_write total k x) (mem k) m -> mem_bytes m -> typed_step k (set_mem m k).

Lemma typed_step_kernel k k' : typed_step k k' -> kernel_step L total task_exit_at k k'.
Proof. intros []; by constructor. Qed.

End typed.

(** ** A run *)

Lemma boot_kernel_typed : kernel_typed boot_kernel.
Proof.
  split; try done; [by apply typed_build; intros; apply zero_task_typed|].
  unfold boot_kernel, boot_memory, heap_init, set_is_free, set_next, set_size. cbn [mem snd].
  apply mem_bytes_store8. do 2 apply mem_bytes_store32. by intros x.
Qed.

