(* ===== verification/Ipc.v ===== *)
(** * Mailboxes: the circular buffers implement bounded FIFO queues

    [ipc_send] and [ipc_recv] of [sched.c] against the queue of pending
    messages of a task, each message with its sender. *)
From stdpp Require Import base numbers list list_numbers.
From S2P Require Import Prelude Machine Paging Pit Sched SchedProps Frames SchedInv.

(** ** The abstract queue *)

Definition slot_of (t : Task) (j : Z) : Z := (mailbox_head t + j) mod 4.

(** The [j]-th pending message: who sent it, and its bytes. *)
Definition message (t : Task) (j : Z) : Z * list Z :=
  ((mailbox_sender t).[slot_of t j],
   take (Z.to_nat (mailbox_len t).[slot_of t j]) (mailbox t).[slot_of t j]).

Definition queue (t : Task) : list (Z * list Z) := build (mailbox_count t) (message t).

(** The bytes of a message of [len] bytes at [data]; longer ones are cut. *)
Definition payload (m : memory) (data len : Z) : list Z :=
  build (Z.min len 128) (fun i => load8 m (data ⊕ i)).

Lemma slot_range t j : 0 <= slot_of t j < 4.
Proof. by apply Z.mod_pos_bound. Qed.

(** The slots of the pending messages and the next one are distinct. *)
Lemma slot_fresh t j : mailbox_wf t -> 0 <= j < mailbox_count t -> mailbox_count t < 4 ->
  slot_of t (mailbox_count t) <> slot_of t j.
Proof. intros Hwf Hj Hc. unfold slot_of. Z.div_mod_to_equations. lia. Qed.

(** ** Sending *)

Definition delivered (t : Task) (msg : list Z) (len sender : Z) : Task :=
  let slot := slot_of t (mailbox_count t) in
  set_mailbox ((mailbox t).[slot <- msg]) ((mailbox_len t).[slot <- len])
    ((mailbox_sender t).[slot <- sender]) (mailbox_head t) (mailbox_count t + 1) t.

Lemma queue_delivered t msg len sender : mailbox_wf t -> mailbox_count t < 4 ->
  queue (delivered t msg len sender) = queue t ++ [(sender, take (Z.to_nat len) msg)].
Proof.
  intros Hwf Hc. pose proof Hwf as (H1 & _ & H3 & H4 & _ & H6 & _).
  unfold queue. cbn [mailbox_count delivered set_mailbox]. rewrite build_snoc by lia.
  pose proof (slot_range t (mailbox_count t)) as Hs. f_equal.
  - apply build_ext_range; [lia|]. intros j Hj. pose proof (slot_fresh t j Hwf Hj Hc) as Hne.
    unfold message. change (slot_of (delivered t msg len sender) j) with (slot_of t j).
    cbn [mailbox mailbox_len mailbox_sender delivered set_mailbox].
    by rewrite !arr_get_set_ne by done.
  - unfold message. change (slot_of (delivered t msg len sender) (mailbox_count t))
      with (slot_of t (mailbox_count t)).
    cbn [mailbox mailbox_len mailbox_sender delivered set_mailbox].
    by rewrite !arr_get_set_eq by lia.
Qed.

(** The copy loop leaves the payload in the first bytes of the slot. *)
Lemma copied_payload m data len (buf : list Z) : 0 <= len <= 128 -> alen buf = 128 ->
  take (Z.to_nat len) (for_loop (Z.to_nat len) 0 (fun i a => a.[i <- load8 m (data ⊕ i)]) buf) =
  payload m data len.
Proof.
  intros Hlen Hbuf. set (f := fun i => load8 m (data ⊕ i)).
  set (l := for_loop _ _ _ _).
  assert (Hl : length l = length buf) by apply (length_for_fill f).
  unfold payload. rewrite Z.min_l by lia. fold f.
  assert (Hal : alen (take (Z.to_nat len) l) = len).
  { unfold alen in *. rewrite length_take. lia. }
  apply arr_ext; rewrite Hal, ?alen_build by lia; [done|]. intros i Hi. rewrite build_get by done.
  apply arr_get_lookup; [lia|]. rewrite lookup_take_lt by lia.
  rewrite arr_lookup_get by (unfold alen in *; lia). f_equal.
  pose proof (for_set_get f 0 (Z.to_nat len) 0 buf i ltac:(lia) ltac:(lia)) as H.
  etransitivity; [exact H|]. zcases. f_equal. lia.
Qed.

Lemma delivered_wf t msg len sender : mailbox_wf t -> mailbox_count t < 4 ->
  alen msg = 128 -> 0 <= len <= 128 -> mailbox_wf (delivered t msg len sender).
Proof.
  intros (M1 & M2 & M3 & M4 & M5 & M6 & M7) Hc Hmsg Hlen. unfold mailbox_wf.
  pose proof (slot_range t (mailbox_count t)) as Hs.
  cbn [mailbox mailbox_len mailbox_sender mailbox_head mailbox_count delivered set_mailbox].
  rewrite !alen_arr_set. split_and!; try done; try lia; intros s Hss; rewrite arr_get_set by lia;
    destruct (_ =? s); auto.
Qed.

(** [ipc_send] on an active task with room. *)
Lemma ipc_send_delivers pid data len k : alen (tasks k) = 16 -> 0 <= len -> 0 <= pid < 16 ->
  mailbox_wf (task k pid) -> active (task k pid) = true -> mailbox_count (task k pid) < 4 ->
  exists msg len', 0 <= len' <= 128 /\ alen msg = 128 /\
    take (Z.to_nat len') msg = payload (mem k) data len /\
    ipc_send pid data len k =
      (1, upd_task pid (fun t => delivered t msg len' (current_task k)) k).
Proof.
  intros Hl Hlen Hpid Hwf Ha Hroom. pose proof Hwf as (_ & M2 & _).
  set (t := task k pid) in *. set (len' := if 128 <? len then 128 else len).
  assert (Hlen' : len' = Z.min len 128) by (unfold len'; zcases; lia).
  set (f := fun i => load8 (mem k) (data ⊕ i)).
  set (msg := for_loop (Z.to_nat len') 0 (fun i a => a.[i <- f i])
    (mailbox t).[slot_of t (mailbox_count t)]).
  specialize (M2 _ (slot_range t (mailbox_count t))).
  exists msg, len'. split_and!; [lia|lia| | |].
  - unfold msg, alen. rewrite (length_for_fill f). exact M2.
  - unfold msg, f. rewrite copied_payload by (lia || done). unfold payload. rewrite Hlen'.
    by rewrite (Z.min_l (Z.min len 128)) by lia.
  - unfold ipc_send, MAX_TASKS, MAILBOX_QUEUE_SIZE. fold t.
    rewrite (proj2 (Z.ltb_ge pid 0)), (proj2 (Z.leb_gt 16 pid)), Ha, (proj2 (Z.leb_gt 4 _)) by lia.
    done.
Qed.

(** [ipc_send] appends the message (cut to 128 bytes) and its sender to
    the queue of an active task and returns 1; it returns 0 exactly when the
    target already has four pending messages and -1 exactly when the target is
    not an active task, changing nothing in both cases.  No other task and no
    memory is affected. *)
Theorem ipc_send_correct pid data len k : alen (tasks k) = 16 -> 0 <= len ->
  (forall i, 0 <= i < 16 -> mailbox_wf (task k i)) ->
  let '(r, k') := ipc_send pid data len k in
  let valid := (0 <=? pid) && (pid <? 16) && active (task k pid) in
  r = (if negb valid then -1 else if alen (queue (task k pid)) =? 4 then 0 else 1) /\
  mem k' = mem k /\ (r <> 1 -> k' = k) /\
  (r = 1 -> queue (task k' pid) = queue (task k pid) ++ [(current_task k, payload (mem k) data len)] /\
     (forall j, 0 <= j < 16 -> j <> pid -> task k' j = task k j) /\
     alen (tasks k') = 16 /\ mailbox_wf (task k' pid)).
Proof.
  intros Hl Hlen Hmail.
  destruct (decide (0 <= pid < 16)) as [Hpid|Hpid].
  2:{ unfold ipc_send, MAX_TASKS. by destruct (Z.ltb_spec pid 0), (Z.leb_spec 16 pid),
        (Z.leb_spec 0 pid), (Z.ltb_spec pid 16); try lia; split_and!. }
  rewrite (proj2 (Z.leb_le 0 pid)), (proj2 (Z.ltb_lt pid 16)) by lia. cbn [andb].
  pose proof (Hmail pid Hpid) as Hwf. pose proof Hwf as (_ & _ & _ & _ & _ & M6 & _).
  assert (Hq : alen (queue (task k pid)) = mailbox_count (task k pid)) by (apply alen_build; lia).
  rewrite Hq. destruct (active (task k pid)) eqn:Ha; cbn [negb].
  2:{ unfold ipc_send, MAX_TASKS. rewrite (proj2 (Z.ltb_ge pid 0)), (proj2 (Z.leb_gt 16 pid)), Ha by lia.
      by split_and!. }
  destruct (Z.eqb_spec (mailbox_count (task k pid)) 4) as [Hfull|Hroom].
  { unfold ipc_send, MAX_TASKS, MAILBOX_QUEUE_SIZE.
    rewrite (proj2 (Z.ltb_ge pid 0)), (proj2 (Z.leb_gt 16 pid)), Ha, Hfull by lia. by split_and!. }
  destruct (ipc_send_delivers pid data len k) as (msg & len' & Hl' & Hm & Hp & ->); [done..|lia|].
  split; [done|]. split; [done|]. split; [done|]. intros _. rewrite task_upd by lia. split; [by rewrite queue_delivered, Hp by (lia || done)|].
  split; [intros j Hj Hne; unfold task, upd_task; cbn [tasks set_tasks]; by apply arr_get_set_ne|].
  split; [cbn [tasks upd_task set_tasks]; by rewrite alen_arr_set|apply delivered_wf; (lia || done)].
Qed.

(** ** Receiving *)

Definition popped (t : Task) : Task :=
  set_mailbox (mailbox t) (mailbox_len t) (mailbox_sender t) ((mailbox_head t + 1) mod 4)
    (mailbox_count t - 1) t.

Lemma queue_popped t : mailbox_wf t -> mailbox_count t <> 0 ->
  queue t = message t 0 :: queue (popped t).
Proof.
  intros (_ & _ & _ & _ & _ & H6 & _) Hc. unfold queue. rewrite build_cons by lia. f_equal.
  cbn [mailbox_count popped set_mailbox]. apply build_ext_range; [lia|]. intros j Hj.
  unfold message. cbn [mailbox mailbox_len mailbox_sender popped set_mailbox].
  assert (Hs : slot_of (popped t) j = slot_of t (j + 1)).
  { unfold slot_of. cbn [mailbox_head popped set_mailbox].
    rewrite Zplus_mod_idemp_l. f_equal. lia. }
  by rewrite Hs.
Qed.

Lemma slot_of_0 t : mailbox_wf t -> slot_of t 0 = mailbox_head t.
Proof.
  intros (_ & _ & _ & _ & H5 & _). unfold slot_of. rewrite Z.add_0_r. by apply Z.mod_small.
Qed.

Lemma popped_wf t : mailbox_wf t -> mailbox_count t <> 0 -> mailbox_wf (popped t).
Proof.
  intros (M1 & M2 & M3 & M4 & M5 & M6 & M7) Hc. unfold mailbox_wf.
  cbn [mailbox mailbox_len mailbox_sender mailbox_head mailbox_count popped set_mailbox].
  pose proof (Z.mod_pos_bound (mailbox_head t + 1) 4 ltac:(lia)). split_and!; done || lia.
Qed.

(** [ipc_recv] with a message pending. *)
Lemma ipc_recv_pops out k : 0 <= current_task k < 16 -> alen (tasks k) = 16 ->
  mailbox_wf (task k (current_task k)) -> mailbox_count (task k (current_task k)) <> 0 ->
  0 <= out -> out + 128 <= 4294967296 ->
  let c := current_task k in
  let '(sender, bytes) := message (task k c) 0 in
  exists m, ipc_recv out k = (Some (alen bytes, sender), upd_task c popped (set_mem m k)) /\
    0 <= alen bytes <= 128 /\
    forall x, m x = if (out <=? x) && (x <? out + alen bytes) then u8 (bytes.[x - out]) else mem k x.
Proof.
  intros Hc Hl Hwf Hnz Ho Ho' c. fold c in Hwf, Hnz. set (t := task k c) in *.
  unfold message. rewrite (slot_of_0 t Hwf). pose proof Hwf as (M1 & M2 & M3 & M4 & M5 & M6 & M7).
  set (slot := mailbox_head t) in *. specialize (M2 slot M5). specialize (M7 slot M5).
  set (len := (mailbox_len t).[slot]) in *. set (buf := (mailbox t).[slot]) in *.
  assert (Hlen : alen (take (Z.to_nat len) buf) = len).
  { unfold alen in *. rewrite length_take. lia. }
  assert (Hget : forall i, 0 <= i < len -> (take (Z.to_nat len) buf).[i] = buf.[i]).
  { intros i Hi. apply arr_get_lookup; [lia|]. rewrite lookup_take_lt by lia.
    apply arr_lookup_get. lia. }
  rewrite Hlen. exists (store_bytes (Z.to_nat len) out (fun i => u8 buf.[i]) (mem k)).
  split_and!; [|lia|lia|].
  - unfold ipc_recv. fold c. fold t. rewrite (proj2 (Z.eqb_neq _ 0)) by done.
    reflexivity.
  - intros x. rewrite store_bytes_spec, Z2Nat.id by lia.
    destruct (Z.leb_spec out x), (Z.ltb_spec x (out + len)); cbn [andb]; try done.
    rewrite Hget by lia. apply u8_id, u8_range.
Qed.

(** [ipc_recv] takes the oldest pending message of the current task: it
    returns its length and sender, stores its bytes at [out] (whatever that
    address is: it is not checked) and nothing else, and leaves the other
    messages and the other tasks alone.  It fails, changing nothing, exactly
    when there is no message. *)
Theorem ipc_recv_correct out k : alen (tasks k) = 16 -> 0 <= current_task k < 16 ->
  mailbox_wf (task k (current_task k)) -> 0 <= out -> out + 128 <= 4294967296 ->
  let c := current_task k in
  match ipc_recv out k with
  | (None, k') => queue (task k c) = [] /\ k' = k
  | (Some (len, sender), k') => exists bytes,
      queue (task k c) = (sender, bytes) :: queue (task k' c) /\
      alen bytes = len /\ 0 <= len <= 128 /\
      (forall x, mem k' x = if (out <=? x) && (x <? out + len) then u8 (bytes.[x - out]) else mem k x) /\
      (forall j, 0 <= j < 16 -> j <> c -> task k' j = task k j)
  end.
Proof.
  intros Hl Hc Hwf Ho Ho' c. fold c in Hwf.
  destruct (decide (mailbox_count (task k c) = 0)) as [Hz|Hnz].
  { unfold ipc_recv. fold c. rewrite Hz. split; [|done]. unfold queue. by rewrite Hz. }
  pose proof (ipc_recv_pops out k Hc Hl Hwf Hnz Ho Ho') as H. cbn zeta in H. fold c in H.
  pose proof (queue_popped (task k c) Hwf Hnz) as Hq.
  destruct (message (task k c) 0) as [sender bytes]. destruct H as (m & -> & Hlen & Hm).
  exists bytes. rewrite task_upd by (cbn [tasks set_mem]; unfold c in *; lia).
  split_and!; [exact Hq|done|lia|lia|exact Hm|].
  intros j Hj Hne. unfold task, upd_task. cbn [tasks set_tasks set_mem]. by apply arr_get_set_ne.
Qed.

(** ** Traces *)

(** Sends by any task to task [t], and receptions by [t]. *)
Inductive ipc_event := EvSend (from data len : Z) | EvRecv (out : Z).

(** The messages accepted and the messages received, in order; a received
    message is what the receiver finds in its buffer. *)
Fixpoint run_ipc (t : Z) (evs : list ipc_event) (k : kernel)
  : list (Z * list Z) * list (Z * list Z) * kernel :=
  match evs with
  | [] => ([], [], k)
  | EvSend from data len :: evs =>
    let '(r, k1) := ipc_send t data len (set_current_task from k) in
    let '(acc, got, k2) := run_ipc t evs k1 in
    (if r =? 1 then (from, payload (mem k) data len) :: acc else acc, got, k2)
  | EvRecv out :: evs =>
    let '(r, k1) := ipc_recv out (set_current_task t k) in
    let '(acc, got, k2) := run_ipc t evs k1 in
    match r with
    | Some (len, sender) =>
      (acc, (sender, build len (fun i => load8 (mem k1) (out ⊕ i))) :: got, k2)
    | None => (acc, got, k2)
    end
  end.

Definition ipc_event_ok (e : ipc_event) : Prop :=
  match e with
  | EvSend from _ len => 0 <= from < 16 /\ 0 <= len
  | EvRecv out => 0 <= out /\ out + 128 <= 4294967296
  end.

(** Sound mailboxes, byte-valued memory and messages. *)
Definition ipc_inv (t : Z) (k : kernel) : Prop :=
  alen (tasks k) = 16 /\ 0 <= t < 16 /\ (forall i, 0 <= i < 16 -> mailbox_wf (task k i)) /\
  mem_bytes (mem k) /\ Forall (fun q => Forall is_byte q.2) (queue (task k t)).

Lemma payload_bytes m data len : mem_bytes m -> 0 <= len -> Forall is_byte (payload m data len).
Proof.
  intros Hm Hl. apply arr_Forall. unfold payload. rewrite alen_build by lia. intros i Hi.
  rewrite build_get by done. apply Hm.
Qed.

Lemma ipc_inv_intro t k k' : ipc_inv t k -> alen (tasks k') = 16 ->
  (forall j, 0 <= j < 16 -> j <> t -> task k' j = task k j) -> mailbox_wf (task k' t) ->
  mem_bytes (mem k') -> Forall (fun q => Forall is_byte q.2) (queue (task k' t)) -> ipc_inv t k'.
Proof.
  intros (H1 & H2 & H3 & H4 & H5) Hl Hj Ht Hm Hq. split_and!; try done; try lia.
  intros i Hi. destruct (decide (i = t)) as [->|Hne]; [done|]. rewrite Hj by done. by apply H3.
Qed.

(** One send: the queue grows by what was accepted. *)
Lemma ipc_send_event t from data len k : ipc_inv t k -> 0 <= from < 16 -> 0 <= len ->
  let '(r, k1) := ipc_send t data len (set_current_task from k) in
  ipc_inv t k1 /\
  queue (task k1 t) =
    queue (task k t) ++ (if r =? 1 then [(from, payload (mem k) data len)] else []).
Proof.
  intros Hinv Hfrom Hlen. pose proof Hinv as (Hl & Ht & Hmail & Hmem & Hq).
  set (k0 := set_current_task from k). change (task k t) with (task k0 t).
  destruct (active (task k0 t)) eqn:Ha.
  2:{ unfold ipc_send. rewrite Ha, !orb_true_r. by rewrite app_nil_r. }
  pose proof (Hmail t Ht) as Hwf. change (task k t) with (task k0 t) in Hwf.
  pose proof Hwf as (_ & _ & _ & _ & _ & M6 & _).
  destruct (Z.leb_spec 4 (mailbox_count (task k0 t))) as [Hfull|Hroom].
  { unfold ipc_send, MAX_TASKS, MAILBOX_QUEUE_SIZE.
    rewrite (proj2 (Z.ltb_ge t 0)), (proj2 (Z.leb_gt 16 t)), Ha, (proj2 (Z.leb_le 4 _)) by lia.
    cbn [orb negb Z.eqb]. by rewrite app_nil_r. }
  destruct (ipc_send_delivers t data len k0) as (msg & len' & Hl' & Hm & Hp & ->); [done..|].
  set (k1 := upd_task t _ k0).
  assert (Ht1 : task k1 t = delivered (task k0 t) msg len' from) by (by apply task_upd; cbn; lia).
  assert (Hqd : queue (task k1 t) = queue (task k0 t) ++ [(from, payload (mem k) data len)])
    by (by rewrite Ht1, queue_delivered, Hp).
  split; [|exact Hqd]. apply (ipc_inv_intro t k); try done.
  - unfold k1, upd_task. cbn [tasks set_tasks]. by rewrite alen_arr_set.
  - intros j Hj Hne. unfold k1, task, upd_task. cbn [tasks set_tasks]. by apply arr_get_set_ne.
  - rewrite Ht1. by apply delivered_wf.
  - rewrite Hqd. apply Forall_app. split; [exact Hq|]. constructor; [by apply payload_bytes|constructor].
Qed.

(** One reception: what is found in the buffer is the head of the queue. *)
Lemma ipc_recv_event t out k : ipc_inv t k -> 0 <= out -> out + 128 <= 4294967296 ->
  let '(r, k1) := ipc_recv out (set_current_task t k) in
  ipc_inv t k1 /\
  queue (task k t) =
    match r with
    | Some (len, sender) => [(sender, build len (fun i => load8 (mem k1) (out ⊕ i)))]
    | None => []
    end ++ queue (task k1 t).
Proof.
  intros Hinv Ho Ho'. pose proof Hinv as (Hl & Ht & Hmail & Hmem & Hq).
  set (k0 := set_current_task t k). change (task k t) with (task k0 t).
  pose proof (Hmail t Ht) as Hwf. change (task k t) with (task k0 t) in Hwf, Hq.
  destruct (decide (mailbox_count (task k0 t) = 0)) as [Hz|Hnz].
  { unfold ipc_recv. change (current_task k0) with t. by rewrite Hz. }
  pose proof (ipc_recv_pops out k0 Ht Hl Hwf Hnz Ho Ho') as H.
  change (current_task k0) with t in H. cbn zeta in H.
  pose proof (queue_popped (task k0 t) Hwf Hnz) as Hpop. rewrite Hpop in Hq.
  destruct (message (task k0 t) 0) as [sender bytes]. destruct H as (m & -> & Hlen & Hm).
  apply Forall_cons in Hq as [Hb Hq]. cbn [snd] in Hb. rewrite arr_Forall in Hb.
  set (k1 := upd_task t popped (set_mem m k0)).
  assert (Ht1 : task k1 t = popped (task k0 t)).
  { exact (task_upd t popped (set_mem m k0) ltac:(cbn [tasks set_mem set_current_task k0]; lia)). }
  split.
  - apply (ipc_inv_intro t k); try done.
    + unfold k1, upd_task. cbn [tasks set_tasks]. by rewrite alen_arr_set.
    + intros j Hj Hne. unfold k1, task, upd_task. cbn [tasks set_tasks set_mem]. by apply arr_get_set_ne.
    + rewrite Ht1. by apply popped_wf.
    + intros x. change (mem k1) with m. rewrite Hm. destruct (_ && _); [apply u8_range|apply Hmem].
    + by rewrite Ht1.
  - rewrite Ht1, Hpop. cbn [app]. do 2 f_equal. apply arr_ext; rewrite ?alen_build by lia; [done|].
    intros i Hi. rewrite build_get by done. change (mem k1) with m. unfold load8.
    rewrite u32_idemp, u32_id, Hm by (unfold is_u32; lia).
    replace (out + i - out) with i by lia. zcases. symmetry. by apply u8_id, Hb.
Qed.

Lemma run_ipc_queue t evs : Forall ipc_event_ok evs -> forall k, ipc_inv t k ->
  let '(acc, got, k') := run_ipc t evs k in
  queue (task k t) ++ acc = got ++ queue (task k' t).
Proof.
  induction 1 as [|[from data len|out] evs Hok _ IH]; intros k Hinv; cbn [run_ipc].
  - by rewrite app_nil_r.
  - destruct Hok as [Hf Hl]. pose proof (ipc_send_event t from data len k Hinv Hf Hl) as H.
    destruct (ipc_send t data len _) as [r k1]. destruct H as [Hinv1 Hq].
    specialize (IH k1 Hinv1). destruct (run_ipc t evs k1) as [[acc got] k2].
    rewrite <- IH, Hq, <- app_assoc. by destruct (r =? 1).
  - destruct Hok as [Ho Ho']. pose proof (ipc_recv_event t out k Hinv Ho Ho') as H.
    destruct (ipc_recv out _) as [r k1]. destruct H as [Hinv1 Hq].
    specialize (IH k1 Hinv1). destruct (run_ipc t evs k1) as [[acc got] k2].
    rewrite Hq. destruct r as [[len sender]|]; cbn [app]; [by rewrite <- IH|done].
Qed.

(** C14: over any sequence of sends to a task and of receptions by it, starting
    from an empty mailbox, the messages received followed by those still
    pending are exactly the messages accepted, in the order of their sending:
    none is lost, duplicated, reordered or altered, and each carries its
    sender. *)
Theorem ipc_fifo t evs k : ipc_inv t k -> queue (task k t) = [] -> Forall ipc_event_ok evs ->
  let '(accepted, received, k') := run_ipc t evs k in
  accepted = received ++ queue (task k' t).
Proof.
  intros Hinv Hq Hevs. pose proof (run_ipc_queue t evs Hevs k Hinv) as H.
  destruct (run_ipc t evs k) as [[acc got] k']. by rewrite Hq in H.
Qed.

(** ** Concrete runs *)

Lemma demo_sched_ipc : ipc_inv 1 demo_sched.
Proof.
  split_and!; [done|done|done| |by intros a|by constructor].
  intros i Hi. unfold task, demo_sched, demo_table. cbn [tasks].
  rewrite !arr_get_set, build_get by done.
  by destruct (1 =? i), (0 =? i); apply zero_task_mailbox.
Qed.

Definition demo_events : list ipc_event :=
  [EvSend 0 5000 3; EvSend 2 6000 200; EvRecv 7000; EvSend 0 5000 1; EvRecv 7000].

Lemma demo_events_ok : Forall ipc_event_ok demo_events.
Proof. repeat constructor; lia. Qed.

Lemma ipc_fifo_witness :
  let '(accepted, received, k') := run_ipc 1 demo_events demo_sched in
  accepted = received ++ queue (task k' 1).
Proof.
  exact (ipc_fifo 1 demo_events demo_sched demo_sched_ipc eq_refl demo_events_ok).
Defined.

Lemma ipc_send_correct_witness :
  let '(r, k') := ipc_send 1 5000 3 demo_sched in
  let valid := (0 <=? 1) && (1 <? 16) && active (task demo_sched 1) in
  r = (if negb valid then -1 else if alen (queue (task demo_sched 1)) =? 4 then 0 else 1) /\
  mem k' = mem demo_sched /\ (r <> 1 -> k' = demo_sched) /\
  (r = 1 -> queue (task k' 1) = queue (task demo_sched 1) ++
       [(current_task demo_sched, payload (mem demo_sched) 5000 3)] /\
     (forall j, 0 <= j < 16 -> j <> 1 -> task k' j = task demo_sched j) /\
     alen (tasks k') = 16 /\ mailbox_wf (task k' 1)).
Proof.
  apply (ipc_send_correct 1 5000 3 demo_sched); [reflexivity|lia|apply demo_sched_ipc].
Defined.

(** Task 1 of the table, with the message of task 0 pending. *)
Definition demo_pending : kernel :=
  set_current_task 1 (ipc_send 1 5000 3 demo_sched).2.

Lemma demo_pending_wf : mailbox_wf (task demo_pending 1).
Proof.
  destruct (ipc_send_event 1 0 5000 3 demo_sched demo_sched_ipc) as [(_ & _ & H & _) _]; [lia|lia|].
  exact (H 1 ltac:(lia)).
Qed.

Lemma ipc_recv_correct_witness :
  match ipc_recv 7000 demo_pending with
  | (None, k') => queue (task demo_pending 1) = [] /\ k' = demo_pending
  | (Some (len, sender), k') => exists bytes,
      queue (task demo_pending 1) = (sender, bytes) :: queue (task k' 1) /\
      alen bytes = len /\ 0 <= len <= 128 /\
      (forall x, mem k' x = if (7000 <=? x) && (x <? 7000 + len) then u8 (bytes.[x - 7000])
                            else mem demo_pending x) /\
      (forall j, 0 <= j < 16 -> j <> 1 -> task k' j = task demo_pending j)
  end.
Proof.
  apply (ipc_recv_correct 7000 demo_pending);
    [by vm_compute|by split|apply demo_pending_wf|lia|lia].
Defined.
