(* ===== verification/Elf.v ===== *)
(** * The ELF loader ([kernel/elf.c])

    The image is in memory (the staging buffer of [exec.c]) and every field
    of its headers is a load from it, as in the C code; the loader copies the
    PT_LOAD segments to the program's window and applies the R_386_32
    relocations.  The loader is confined to the window for every image whose
    segments have [p_filesz <= p_memsz], which it does not check itself. *)
From Stdlib Require Import String.
From stdpp Require Import base numbers list list_numbers.
From S2P Require Import Prelude Machine.

Definition load16 (m : memory) (a : Z) : Z := load8 m a + 256 * load8 m (a + 1).

(** ** The structures, by the offsets of their fields *)

Definition sizeof_Ehdr : Z := 52.
Definition e_ident (m : memory) (eh i : Z) : Z := load8 m (eh ⊕ i).
Definition e_machine (m : memory) (eh : Z) : Z := load16 m (eh ⊕ 18).
Definition e_entry (m : memory) (eh : Z) : Z := load32 m (eh ⊕ 24).
Definition e_phoff (m : memory) (eh : Z) : Z := load32 m (eh ⊕ 28).
Definition e_shoff (m : memory) (eh : Z) : Z := load32 m (eh ⊕ 32).
Definition e_phnum (m : memory) (eh : Z) : Z := load16 m (eh ⊕ 44).
Definition e_shnum (m : memory) (eh : Z) : Z := load16 m (eh ⊕ 48).

Record Elf32_Phdr := mkPhdr {
  p_type : Z; p_offset : Z; p_vaddr : Z; p_filesz : Z; p_memsz : Z }.
Definition sizeof_Phdr : Z := 32.
Definition read_phdr (m : memory) (ph : Z) : Elf32_Phdr :=
  mkPhdr (load32 m ph) (load32 m (ph ⊕ 4)) (load32 m (ph ⊕ 8))
    (load32 m (ph ⊕ 16)) (load32 m (ph ⊕ 20)).

Record Elf32_Shdr := mkShdr { sh_type : Z; sh_offset : Z; sh_size : Z; sh_entsize : Z }.
Definition sizeof_Shdr : Z := 40.
Definition read_shdr (m : memory) (sh : Z) : Elf32_Shdr :=
  mkShdr (load32 m (sh ⊕ 4)) (load32 m (sh ⊕ 16)) (load32 m (sh ⊕ 20)) (load32 m (sh ⊕ 36)).

Record Elf32_Rel := mkRel { r_offset : Z; r_info : Z }.
Definition sizeof_Rel : Z := 8.
Definition read_rel (m : memory) (rel : Z) : Elf32_Rel :=
  mkRel (load32 m rel) (load32 m (rel ⊕ 4)).

Definition PT_LOAD : Z := 1.
Definition SHT_REL : Z := 9.
Definition R_386_32 : Z := 1.

Definition in_window (off len window_size : Z) : bool :=
  if window_size <? len then false
  else if window_size ⊖ len <? off then false
  else true.

(** The outcome: the entry point, or the message printed; in both cases the
    memory as the loader left it. *)
Inductive elf_outcome :=
  | ElfOk (entry : Z) (m : memory)
  | ElfError (msg : list Z) (m : memory).

Section elf_load.
Context (image image_size load_base window_size link_base : Z).

(** One PT_LOAD segment: copy [p_filesz] bytes, clear the rest. *)
Definition copy_segment (p : Elf32_Phdr) (m : memory) : memory :=
  let dest := load_base ⊕ (p_vaddr p ⊖ link_base) in
  let src := image ⊕ p_offset p in
  let m := for_loop (Z.to_nat (p_filesz p)) 0
    (fun k m => store8 m (dest ⊕ k) (load8 m (src ⊕ k))) m in
  for_loop (Z.to_nat (p_memsz p - p_filesz p)) (p_filesz p)
    (fun k m => store8 m (dest ⊕ k) 0) m.

(** The loop over the program headers; [ph] is the address of the table. *)
Fixpoint load_segments (n : nat) (i ph : Z) (m : memory) : memory + list Z * memory :=
  match n with
  | O => inl m
  | S n =>
    let p := read_phdr m (ph ⊕ (sizeof_Phdr * i)) in
    if negb (p_type p =? PT_LOAD) then load_segments n (i + 1) ph m
    else if negb (in_window (p_vaddr p ⊖ link_base) (p_memsz p) window_size) then
      inr (text "ELF invalide : segment PT_LOAD hors de la fenetre memoire." ++ newline, m)
    else if image_size <? p_offset p ⊕ p_filesz p then
      inr (text "ELF invalide : segment PT_LOAD hors du fichier." ++ newline, m)
    else load_segments n (i + 1) ph (copy_segment p m)
  end.

(** One relocation entry. *)
Definition relocate (e : Elf32_Rel) (m : memory) : memory :=
  let type := Z.land (r_info e) 255 in
  if negb (type =? R_386_32) then m
  else
    let dest_off := r_offset e ⊖ link_base in
    if negb (in_window dest_off 4 window_size) then m
    else
      let word := load_base ⊕ dest_off in
      store32 m word (load32 m word ⊕ (load_base - link_base)).

(** One section: the entries of a relocation section that is in the file. *)
Definition apply_section (s : Elf32_Shdr) (m : memory) : memory :=
  if negb (sh_type s =? SHT_REL) then m
  else if image_size <? sh_offset s ⊕ sh_size s then m
  else
    let rel_count := if sh_entsize s =? 0 then 0 else sh_size s / sh_entsize s in
    for_loop (Z.to_nat rel_count) 0
      (fun r m => relocate (read_rel m ((image ⊕ sh_offset s) ⊕ (sizeof_Rel * r))) m) m.

Definition apply_relocations (m : memory) : memory :=
  if negb (e_shoff m image =? 0)
     && (e_shoff m image ⊕ (e_shnum m image * sizeof_Shdr) <=? image_size)
  then
    let sh := image ⊕ e_shoff m image in
    for_loop (Z.to_nat (e_shnum m image)) 0
      (fun s m => apply_section (read_shdr m (sh ⊕ (sizeof_Shdr * s))) m) m
  else m.

Definition bad_signature (m : memory) : bool :=
  negb (e_ident m image 0 =? 127) || negb (e_ident m image 1 =? 69)
  || negb (e_ident m image 2 =? 76) || negb (e_ident m image 3 =? 70)
  || negb (e_ident m image 4 =? 1) || negb (e_machine m image =? 3).

Definition elf_load (m : memory) : elf_outcome :=
  if image_size <? sizeof_Ehdr then
    ElfError (text "ELF invalide : fichier trop court." ++ newline) m
  else if bad_signature m then
    ElfError (text "ELF invalide : signature/format inattendu." ++ newline) m
  else if image_size <? e_phoff m image ⊕ (e_phnum m image * sizeof_Phdr) then
    ElfError (text "ELF invalide : table de programme hors fichier." ++ newline) m
  else
    match load_segments (Z.to_nat (e_phnum m image)) 0 (image ⊕ e_phoff m image) m with
    | inr (msg, m) => ElfError msg m
    | inl m =>
      let m := apply_relocations m in
      ElfOk (load_base ⊕ (e_entry m image ⊖ link_base)) m
    end.
End elf_load.

Lemma elf_entry_u32 image image_size load_base window_size link_base m entry m' :
  elf_load image image_size load_base window_size link_base m = ElfOk entry m' -> is_u32 entry.
Proof.
  unfold elf_load. destruct (_ <? _); [done|]. destruct (bad_signature _ _); [done|].
  destruct (_ <? _); [done|]. destruct (load_segments _ _ _ _ _ _ _ _ _) as [m1|[msg m1]]; [|done].
  intros [= <- _]. apply u32_range.
Qed.

(** ** Confinement *)

Definition outcome_memory (o : elf_outcome) : memory :=
  match o with ElfOk _ m => m | ElfError _ m => m end.

Lemma in_window_spec off len win : is_u32 off -> 0 <= len -> is_u32 win ->
  in_window off len win = true <-> off + len <= win.
Proof.
  intros Ho Hl Hw. unfold in_window, is_u32 in *. destruct (Z.ltb_spec win len).
  - split; [done|lia].
  - rewrite u32_id by (unfold is_u32; lia). destruct (Z.ltb_spec (win - len) off); split; done || lia.
Qed.

Section confinement.
Context (image image_size load_base window_size link_base : Z).
Context (window_fits : 0 <= load_base /\ 0 <= window_size /\ load_base + window_size <= 4294967295).

(** Everything but the window. *)
Definition outside (x : Z) : Prop := ~ range load_base window_size x.

Lemma store_loop_outside n i dest (f : Z -> memory -> Z) m :
  load_base <= dest -> 0 <= i -> dest + i + Z.of_nat n <= load_base + window_size ->
  agree_on outside m (for_loop n i (fun k m => store8 m (dest ⊕ k) (f k m)) m).
Proof.
  intros Hd Hi Hn. apply (for_loop_ind (fun _ m' => agree_on outside m m')); [done|].
  intros j m' Hj IH. eapply agree_on_trans; [exact IH|]. rewrite u32_id by (unfold is_u32; lia).
  apply store8_frame; [unfold is_u32; lia|]. intros x Hx ->. apply Hx. unfold range. lia.
Qed.

Lemma copy_segment_outside p m : 0 <= p_filesz p <= p_memsz p ->
  (p_vaddr p ⊖ link_base) + p_memsz p <= window_size ->
  agree_on outside m (copy_segment image load_base link_base p m).
Proof.
  intros Hf Hw. unfold copy_segment. pose proof (u32_range (p_vaddr p - link_base)) as Hr.
  set (off := p_vaddr p ⊖ link_base) in *. unfold is_u32 in Hr.
  rewrite (u32_id (load_base + off)) by (unfold is_u32; lia).
  eapply agree_on_trans.
  - apply (store_loop_outside (Z.to_nat (p_filesz p)) 0 (load_base + off)
      (fun k m => load8 m ((image ⊕ p_offset p) ⊕ k))); lia.
  - apply (store_loop_outside (Z.to_nat (p_memsz p - p_filesz p)) (p_filesz p)
      (load_base + off) (fun _ _ => 0)); lia.
Qed.

Lemma relocate_outside e m : agree_on outside m (relocate load_base window_size link_base e m).
Proof.
  unfold relocate. destruct (negb _); [done|]. destruct (in_window _ _ _) eqn:E; [|done]. cbn [negb].
  pose proof (u32_range (r_offset e - link_base)) as Hr.
  apply in_window_spec in E; [|done|lia|unfold is_u32; lia].
  set (off := r_offset e ⊖ link_base) in *. unfold is_u32 in Hr.
  rewrite (u32_id (load_base + off)) by (unfold is_u32; lia).
  apply store32_frame; [lia|lia|]. intros x Hx Hr'. apply Hx. unfold range in *. lia.
Qed.

Lemma apply_relocations_outside m :
  agree_on outside m (apply_relocations image image_size load_base window_size link_base m).
Proof.
  unfold apply_relocations. destruct (_ && _); [|done].
  apply (for_loop_ind (fun _ m' => agree_on outside m m')); [done|].
  intros j m' _ IH. eapply agree_on_trans; [exact IH|]. unfold apply_section.
  destruct (negb _); [done|]. destruct (_ <? _); [done|].
  apply (for_loop_ind (fun _ m'' => agree_on outside m' m'')); [done|].
  intros r m'' _ IH'. eapply agree_on_trans; [exact IH'|]. apply relocate_outside.
Qed.

(** ** The headers are read from an image that does not change *)

Context (image_fits : 0 <= image /\ 0 <= image_size /\ image + image_size <= 4294967295).
Context (image_apart : image + image_size <= load_base \/ load_base + window_size <= image).

Lemma image_load8 m m' a : agree_on outside m m' -> image <= a -> a < image + image_size ->
  load8 m' a = load8 m a.
Proof.
  intros Hag H1 H2. apply load8_agree; [unfold is_u32; lia|].
  intros x Hx. apply Hag. unfold outside, range in *. lia.
Qed.

Lemma image_load32 m m' a : agree_on outside m m' -> image <= a -> a + 4 <= image + image_size ->
  load32 m' a = load32 m a.
Proof.
  intros Hag H1 H2. apply load32_agree; [lia|lia|].
  intros x Hx. apply Hag. unfold outside, range in *. lia.
Qed.

Lemma image_read_phdr m m' o : agree_on outside m m' -> 0 <= o -> o + 32 <= image_size ->
  read_phdr m' (image + o) = read_phdr m (image + o).
Proof.
  intros Hag H1 H2. unfold read_phdr. rewrite !u32_id by (unfold is_u32; lia).
  by rewrite !(image_load32 m m') by (done || lia).
Qed.

Lemma image_read_shdr m m' o : agree_on outside m m' -> 0 <= o -> o + 40 <= image_size ->
  read_shdr m' (image + o) = read_shdr m (image + o).
Proof.
  intros Hag H1 H2. unfold read_shdr. rewrite !u32_id by (unfold is_u32; lia).
  by rewrite !(image_load32 m m') by (done || lia).
Qed.

Lemma image_read_rel m m' o : agree_on outside m m' -> 0 <= o -> o + 8 <= image_size ->
  read_rel m' (image + o) = read_rel m (image + o).
Proof.
  intros Hag H1 H2. unfold read_rel. rewrite !u32_id by (unfold is_u32; lia).
  by rewrite !(image_load32 m m') by (done || lia).
Qed.

(** The program headers of the file, when the table lies in it. *)
Definition phdr (m : memory) (i : Z) : Elf32_Phdr :=
  read_phdr m (image + e_phoff m image + 32 * i).

Definition ph_table_ok (m : memory) : Prop :=
  0 <= e_phoff m image /\ e_phoff m image + 32 * e_phnum m image <= image_size.

Lemma phdr_read m m' i : agree_on outside m m' -> ph_table_ok m -> 0 <= i < e_phnum m image ->
  read_phdr m' ((image ⊕ e_phoff m image) ⊕ (sizeof_Phdr * i)) = phdr m i.
Proof.
  intros Hag [H1 H2] Hi. unfold sizeof_Phdr.
  rewrite (u32_id (image + e_phoff m image)), u32_id by (unfold is_u32; lia).
  unfold phdr. rewrite <- Z.add_assoc. apply image_read_phdr; [done|lia|lia].
Qed.

(** The end of the table, as a 32-bit sum, does not wrap around: the check of
    the loader then says whether the table lies in the file. *)
Definition ph_no_wrap (m : memory) : Prop :=
  0 <= e_phoff m image /\ 0 <= e_phnum m image /\ e_phoff m image + 32 * e_phnum m image < 4294967296.

(** If the table lies in the file, its segments do not claim more file bytes
    than memory bytes. *)
Definition sizes_ok (m : memory) : Prop :=
  ph_table_ok m -> forall i, 0 <= i < e_phnum m image -> p_type (phdr m i) = PT_LOAD ->
    0 <= p_filesz (phdr m i) <= p_memsz (phdr m i).

Lemma load_segments_outside m0 n : ph_table_ok m0 -> sizes_ok m0 -> forall i m,
  0 <= i -> i + Z.of_nat n <= e_phnum m0 image -> agree_on outside m0 m ->
  agree_on outside m0
    (match load_segments image image_size load_base window_size link_base n i
             (image ⊕ e_phoff m0 image) m with inl m' => m' | inr (_, m') => m' end).
Proof.
  intros Htab Hsz. specialize (Hsz Htab). induction n as [|n IH]; intros i m Hi Hn Hag; cbn [load_segments]; [done|].
  rewrite (phdr_read m0) by (done || lia). specialize (Hsz i ltac:(lia)).
  destruct (Z.eqb_spec (p_type (phdr m0 i)) PT_LOAD) as [Ht|_]; cbn [negb]; [|by apply IH; lia || done].
  specialize (Hsz Ht). destruct (in_window _ _ _) eqn:Ew; cbn [negb]; [|done].
  destruct (image_size <? _); [done|]. apply IH; [lia|lia|].
  eapply agree_on_trans; [exact Hag|]. apply copy_segment_outside; [done|].
  apply in_window_spec in Ew; [done|apply u32_range|lia|unfold is_u32; lia].
Qed.

Lemma elf_load_outside m : ph_no_wrap m -> sizes_ok m ->
  agree_on outside m
    (outcome_memory (elf_load image image_size load_base window_size link_base m)).
Proof.
  intros (H0 & Hn & Hw) Hsz. unfold elf_load. destruct (_ <? _); [done|]. destruct (bad_signature _ _); [done|].
  unfold sizeof_Phdr. rewrite u32_id by (unfold is_u32; lia).
  destruct (Z.ltb_spec image_size (e_phoff m image + e_phnum m image * 32)) as [|Hin]; [done|].
  assert (Htab : ph_table_ok m) by (unfold ph_table_ok; lia).
  pose proof (load_segments_outside m (Z.to_nat (e_phnum m image)) Htab Hsz 0 m ltac:(lia) ltac:(lia) ltac:(done)) as H.
  destruct (load_segments _ _ _ _ _ _ _ _ _) as [m'|[msg m']]; cbn [outcome_memory]; [|done].
  eapply agree_on_trans; [exact H|apply apply_relocations_outside].
Qed.

(** C18: confinement.  For every image in memory apart from the window whose
    program header table does not wrap around the address space, and whose PT_LOAD segments, if the table lies in
    the file, have no more file bytes than memory bytes, the loader changes
    nothing outside the program's window, whether it succeeds or fails with
    any of its errors.  (The loader checks neither; [elf_load_escapes] and
    [elf_load_wraps] are images for which it writes past the window.) *)
Theorem elf_load_confined m : ph_no_wrap m -> sizes_ok m ->
  agree_on outside m
    (outcome_memory (elf_load image image_size load_base window_size link_base m)).
Proof. apply elf_load_outside. Qed.

(** ** What a successful load leaves in the window *)

(** A segment in place: its file bytes, then zeroes. *)
Definition placed (file : memory) (p : Elf32_Phdr) (m : memory) : memory := fun x =>
  let d := load_base + (p_vaddr p - link_base) in
  if (d <=? x) && (x <? d + p_memsz p) then
    if x <? d + p_filesz p then file (image + p_offset p + (x - d)) else 0
  else m x.

Definition place_all (file : memory) (ps : list Elf32_Phdr) (m : memory) : memory :=
  fold_left (fun m p => if p_type p =? PT_LOAD then placed file p m else m) ps m.

Definition segment_ok (p : Elf32_Phdr) : Prop :=
  p_type p = PT_LOAD ->
  0 <= p_filesz p <= p_memsz p /\ link_base <= p_vaddr p /\
  p_vaddr p - link_base + p_memsz p <= window_size /\
  0 <= p_offset p /\ p_offset p + p_filesz p <= image_size.

Lemma copy_loop_spec n d src m x : mem_bytes m -> load_base <= d ->
  d + Z.of_nat n <= load_base + window_size -> image <= src ->
  src + Z.of_nat n <= image + image_size ->
  for_loop n 0 (fun k m => store8 m (d ⊕ k) (load8 m (src ⊕ k))) m x =
    if (d <=? x) && (x <? d + Z.of_nat n) then m (src + (x - d)) else m x.
Proof.
  intros Hm Hd Hdn Hs Hsn. revert x.
  apply (for_loop_ind (fun j m' => forall x, m' x =
    if (d <=? x) && (x <? d + j) then m (src + (x - d)) else m x)).
  { intros x. zcases. }
  intros j m' Hj IH x. unfold store8. rewrite !u32_idemp, u32_id by (unfold is_u32; lia).
  unfold load8. rewrite u32_idemp, (u32_id (src + j)), IH by (unfold is_u32; lia).
  destruct (Z.eqb_spec x (d + j)) as [->|Hne].
  - replace (src + (d + j - d)) with (src + j) by lia. zcases.
    all: apply u8_id, Hm.
  - rewrite IH. zcases.
Qed.

Lemma clear_loop_spec n i d m x : load_base <= d -> 0 <= i ->
  d + i + Z.of_nat n <= load_base + window_size ->
  for_loop n i (fun k m => store8 m (d ⊕ k) 0) m x =
    if (d + i <=? x) && (x <? d + (i + Z.of_nat n)) then 0 else m x.
Proof.
  intros Hd Hi Hn. revert x. apply (for_loop_ind (fun j m' => forall x, m' x =
    if (d + i <=? x) && (x <? d + j) then 0 else m x)).
  { intros x. zcases. }
  intros j m' Hj IH x. unfold store8. rewrite u32_idemp, u32_id, IH by (unfold is_u32; lia).
  destruct (Z.eqb_spec x (d + j)) as [->|]; zcases.
Qed.

Lemma copy_segment_spec p m x : mem_bytes m -> p_type p = PT_LOAD -> segment_ok p ->
  copy_segment image load_base link_base p m x = placed m p m x.
Proof.
  intros Hm Ht Hok. destruct (Hok Ht) as (Hf & Hv & Hw & Ho & Hi). unfold copy_segment, placed.
  rewrite (u32_id (p_vaddr p - link_base)), (u32_id (image + p_offset p)),
    (u32_id (load_base + _)) by (unfold is_u32; lia).
  set (d := load_base + (p_vaddr p - link_base)).
  assert (Hd : load_base <= d /\ d + p_memsz p <= load_base + window_size) by (unfold d; lia).
  rewrite clear_loop_spec, copy_loop_spec by (done || lia).
  rewrite !Z2Nat.id by lia. zcases.
Qed.

Lemma copy_segment_bytes p m : mem_bytes m -> mem_bytes (copy_segment image load_base link_base p m).
Proof.
  intros Hm. unfold copy_segment. apply (for_loop_ind (fun _ => mem_bytes)); [|auto with mx].
  apply (for_loop_ind (fun _ => mem_bytes)); auto with mx.
Qed.

(** The loader stores bytes. *)
Lemma load_segments_bytes n i ph m : mem_bytes m ->
  match load_segments image image_size load_base window_size link_base n i ph m with
  | inl m' => mem_bytes m'
  | inr (_, m') => mem_bytes m'
  end.
Proof.
  revert i m. induction n as [|n IH]; intros i m Hm; cbn [load_segments]; [done|].
  destruct (negb _); [by apply IH|]. destruct (negb _); [done|]. destruct (_ <? _); [done|].
  by apply IH, copy_segment_bytes.
Qed.

Lemma apply_section_bytes sh m : mem_bytes m ->
  mem_bytes (apply_section image image_size load_base window_size link_base sh m).
Proof.
  intros Hm. unfold apply_section. destruct (negb _); [done|]. destruct (_ <? _); [done|].
  apply (for_loop_ind (fun _ => mem_bytes)); [done|]. intros j m' _ Hm'. unfold relocate.
  destruct (negb _); [done|]. destruct (negb _); [done|]. auto with mx.
Qed.

Lemma elf_load_bytes m : mem_bytes m ->
  mem_bytes (outcome_memory (elf_load image image_size load_base window_size link_base m)).
Proof.
  intros Hm. unfold elf_load. destruct (_ <? _); [done|]. destruct (bad_signature _ _); [done|].
  destruct (_ <? _); [done|].
  pose proof (load_segments_bytes (Z.to_nat (e_phnum m image)) 0 (image ⊕ e_phoff m image) m Hm) as H.
  destruct (load_segments _ _ _ _ _ _ _ _ _) as [m'|[msg m']]; cbn [outcome_memory]; [|done].
  unfold apply_relocations. destruct (_ && _); [|done].
  apply (for_loop_ind (fun _ => mem_bytes)); [done|]. intros j m'' _ Hm''. by apply apply_section_bytes.
Qed.

Definition ph_list (m : memory) (i : Z) (n : nat) : list Elf32_Phdr :=
  map (phdr m) (seqZ i (Z.of_nat n)).

Lemma ph_list_S m i n : ph_list m i (S n) = phdr m i :: ph_list m (i + 1) n.
Proof.
  unfold ph_list. rewrite seqZ_cons by lia. cbn [map]. do 2 f_equal.
  replace (Z.pred (Z.of_nat (S n))) with (Z.of_nat n) by lia. by replace (Z.succ i) with (i + 1) by lia.
Qed.

(** Placing depends on memory only pointwise. *)
Lemma place_all_ext file file' ps m m' : (forall x, m x = m' x) ->
  (forall p, p ∈ ps -> p_type p = PT_LOAD -> forall x, image + p_offset p <= x ->
     x < image + p_offset p + p_filesz p -> file x = file' x) ->
  forall x, place_all file ps m x = place_all file' ps m' x.
Proof.
  revert m m'. induction ps as [|p ps IH]; intros m m' Hm Hf x; cbn [place_all fold_left]; [done|].
  apply IH; [|intros q Hq; by apply Hf; right]. intros y.
  destruct (Z.eqb_spec (p_type p) PT_LOAD) as [Ht|]; [|apply Hm]. unfold placed.
  destruct (Z.leb_spec (load_base + (p_vaddr p - link_base)) y),
    (Z.ltb_spec y (load_base + (p_vaddr p - link_base) + p_memsz p)); cbn [andb]; try apply Hm.
  destruct (Z.ltb_spec y (load_base + (p_vaddr p - link_base) + p_filesz p)); [|done].
  apply (Hf p); [by left|done|lia|lia].
Qed.

Lemma load_segments_spec m0 n : ph_table_ok m0 -> forall i m,
  (forall j, i <= j < i + Z.of_nat n -> segment_ok (phdr m0 j)) ->
  0 <= i -> i + Z.of_nat n <= e_phnum m0 image -> agree_on outside m0 m -> mem_bytes m ->
  exists m', load_segments image image_size load_base window_size link_base n i
      (image ⊕ e_phoff m0 image) m = inl m' /\
    agree_on outside m0 m' /\ mem_bytes m' /\
    forall x, m' x = place_all m0 (ph_list m0 i n) m x.
Proof.
  intros Htab. induction n as [|n IH]; intros i m Hok Hi Hn Hag Hm; cbn [load_segments].
  { by exists m. }
  rewrite (phdr_read m0) by (done || lia). rewrite ph_list_S. cbn [place_all fold_left].
  fold (place_all m0 (ph_list m0 (i + 1) n)). set (p := phdr m0 i).
  assert (Hp : segment_ok p) by (apply Hok; lia).
  assert (Hok' : forall j, i + 1 <= j < i + 1 + Z.of_nat n -> segment_ok (phdr m0 j))
    by (intros; apply Hok; lia).
  destruct (Z.eqb_spec (p_type p) PT_LOAD) as [Ht|Ht]; cbn [negb]; [|by apply IH; lia || done].
  pose proof (Hp Ht) as (Hf & Hv & Hw & Ho & Hi').
  assert (Hwin : in_window (p_vaddr p ⊖ link_base) (p_memsz p) window_size = true).
  { apply in_window_spec; [apply u32_range|lia|unfold is_u32; lia|].
    rewrite u32_id by (unfold is_u32; lia). lia. }
  rewrite Hwin.
  rewrite (u32_id (p_offset p + _)), (proj2 (Z.ltb_ge _ _)) by (unfold is_u32; lia). cbn [negb].
  assert (Hag1 : agree_on outside m (copy_segment image load_base link_base p m)).
  { apply copy_segment_outside; [done|]. rewrite u32_id by (unfold is_u32; lia). lia. }
  destruct (IH (i + 1) (copy_segment image load_base link_base p m)) as (m' & E & H1 & H2 & H3);
    [done|lia|lia|by eapply agree_on_trans|by apply copy_segment_bytes|].
  exists m'. split_and!; [done|done|done|]. intros x. rewrite H3. apply place_all_ext; [|done].
  intros y. rewrite copy_segment_spec by done. unfold placed.
  destruct (Z.leb_spec (load_base + (p_vaddr p - link_base)) y); [|done].
  destruct (_ <? _); [|done]. cbn [andb].
  destruct (Z.ltb_spec y (load_base + (p_vaddr p - link_base) + p_filesz p)); [|done].
  apply Hag. unfold outside, range. lia.
Qed.

(** ** Relocations *)

(** The offset in the window that an entry designates, if it is an R_386_32
    entry in the window. *)
Definition target (e : Elf32_Rel) : option Z :=
  if (Z.land (r_info e) 255 =? R_386_32) && in_window (r_offset e ⊖ link_base) 4 window_size
  then Some (r_offset e ⊖ link_base) else None.

Definition shift_word (off : Z) (m : memory) : memory :=
  store32 m (load_base + off) (load32 m (load_base + off) ⊕ (load_base - link_base)).

Lemma target_range e off : target e = Some off -> 0 <= off /\ off + 4 <= window_size.
Proof.
  unfold target. destruct (_ && _) eqn:E; [|done]. intros [= <-].
  apply andb_true_iff in E as [_ E]. pose proof (u32_range (r_offset e - link_base)) as Hr.
  apply in_window_spec in E; [|done|lia|unfold is_u32; lia]. unfold is_u32 in Hr. lia.
Qed.

Lemma relocate_target e m : relocate load_base window_size link_base e m =
  match target e with Some off => shift_word off m | None => m end.
Proof.
  unfold relocate. destruct (target e) as [off|] eqn:E.
  - pose proof (target_range e off E). unfold target in E.
    destruct (_ && _) eqn:Eb; [|done]. injection E as <-. apply andb_true_iff in Eb as [-> ->].
    cbn [negb]. unfold shift_word. by rewrite (u32_id (load_base + _)) by (unfold is_u32; lia).
  - unfold target in E. destruct (_ =? R_386_32); [|done].
    by destruct (in_window _ 4 _).
Qed.

(** Entries that designate non-overlapping words. *)
Fixpoint apart (offs : list Z) : Prop :=
  match offs with
  | [] => True
  | a :: offs => Forall (fun b => a + 4 <= b \/ b + 4 <= a) offs /\ apart offs
  end.

Definition targets (es : list Elf32_Rel) : list Z := omap target es.

Lemma relocs_spec es : forall m, apart (targets es) ->
  let m' := fold_left (fun m e => relocate load_base window_size link_base e m) es m in
  (forall off, off ∈ targets es ->
     load32 m' (load_base + off) = load32 m (load_base + off) ⊕ (load_base - link_base)) /\
  (forall x, (forall off, off ∈ targets es -> ~ range (load_base + off) 4 x) -> m' x = m x).
Proof.
  induction es as [|e es IH]; intros m Hap.
  { split; [intros off Hin; by apply not_elem_of_nil in Hin|done]. }
  cbn zeta in *. cbn [fold_left]. rewrite relocate_target. unfold targets in *. cbn [omap list_omap] in *.
  destruct (target e) as [o|] eqn:Et; [|by apply IH].
  destruct Hap as [Ho Hap]. destruct (IH (shift_word o m) Hap) as [IH1 IH2].
  pose proof (target_range e o Et) as Hr. rewrite Forall_forall in Ho.
  assert (Hrange : forall b, b ∈ omap target es -> 0 <= b /\ b + 4 <= window_size).
  { intros b Hb. apply list_elem_of_omap in Hb as (e' & _ & Ht). by apply target_range in Ht. }
  split.
  - intros off [->|Hin]%elem_of_cons.
    + rewrite (load32_agree (shift_word o m)); [|lia|lia|].
      * unfold shift_word. rewrite load32_store32_eq by lia. apply u32_idemp.
      * intros x Hx. apply IH2. intros b Hb Hbx. specialize (Ho b Hb). unfold range in *. lia.
    + rewrite IH1 by done. unfold shift_word. specialize (Ho off Hin). specialize (Hrange off Hin).
      by rewrite load32_store32_ne by lia.
  - intros x Hx. rewrite IH2 by (intros b Hb; apply Hx; by right). unfold shift_word.
    apply (store32_frame _ _ _ (fun y => y = x)); [lia|lia| |done].
    intros y ->. apply Hx. by left.
Qed.

(** The entries of the file, when its tables lie in it. *)
Definition shdr (m : memory) (i : Z) : Elf32_Shdr :=
  read_shdr m (image + e_shoff m image + 40 * i).
Definition rel_entries (m : memory) (s : Elf32_Shdr) : list Elf32_Rel :=
  if sh_type s =? SHT_REL then
    map (fun r => read_rel m (image + sh_offset s + 8 * r)) (seqZ 0 (sh_size s / sh_entsize s))
  else [].
Definition rel_list (m : memory) : list Elf32_Rel :=
  if e_shoff m image =? 0 then []
  else concat (map (fun i => rel_entries m (shdr m i)) (seqZ 0 (e_shnum m image))).

Definition sh_table_ok (m : memory) : Prop :=
  52 <= image_size /\ 0 <= e_shoff m image /\ 0 <= e_shnum m image /\
  e_shoff m image + 40 * e_shnum m image <= image_size /\
  forall i, 0 <= i < e_shnum m image -> sh_type (shdr m i) = SHT_REL ->
    0 <= sh_offset (shdr m i) /\ 0 <= sh_size (shdr m i) /\
    sh_offset (shdr m i) + sh_size (shdr m i) <= image_size /\ 8 <= sh_entsize (shdr m i).

(** A loop whose body reads its entry from a state where it is constant. *)
Lemma for_loop_entries {S E} (P : S -> Prop) (f : S -> E -> S) (rd : Z -> S -> E) (es : Z -> E)
    n : forall i s, P s -> (forall j t, i <= j < i + Z.of_nat n -> P t -> rd j t = es j) ->
  (forall j t, i <= j < i + Z.of_nat n -> P t -> P (f t (es j))) ->
  for_loop n i (fun j t => f t (rd j t)) s = fold_left f (map es (seqZ i (Z.of_nat n))) s /\
  P (for_loop n i (fun j t => f t (rd j t)) s).
Proof.
  induction n as [|n IH]; intros i s Hs Hrd Hf; [done|].
  rewrite seqZ_cons by lia. cbn [for_loop map fold_left]. rewrite Hrd by (done || lia).
  replace (Z.pred (Z.of_nat (Datatypes.S n))) with (Z.of_nat n) by lia.
  replace (Z.succ i) with (i + 1) by lia.
  apply IH; [apply Hf; [lia|done]|intros; apply Hrd; lia || done|intros; apply Hf; lia || done].
Qed.

Lemma apply_section_fold m0 m i : sh_table_ok m0 -> 0 <= i < e_shnum m0 image ->
  agree_on outside m0 m ->
  apply_section image image_size load_base window_size link_base (shdr m0 i) m =
    fold_left (fun m e => relocate load_base window_size link_base e m)
      (rel_entries m0 (shdr m0 i)) m /\
  agree_on outside m0
    (apply_section image image_size load_base window_size link_base (shdr m0 i) m).
Proof.
  intros (_ & _ & _ & _ & Hsec) Hi Hag. specialize (Hsec i Hi). set (s := shdr m0 i) in *.
  unfold apply_section, rel_entries.
  destruct (Z.eqb_spec (sh_type s) SHT_REL) as [Ht|]; cbn [negb]; [|done].
  destruct (Hsec Ht) as (Ho & Hs & Hin & Hent).
  rewrite (u32_id (sh_offset s + _)), (proj2 (Z.ltb_ge _ _)), (proj2 (Z.eqb_neq _ 0))
    by (unfold is_u32; lia).
  pose proof (Z.div_pos (sh_size s) (sh_entsize s) Hs ltac:(lia)) as Hq.
  assert (Hq8 : 8 * (sh_size s / sh_entsize s) <= sh_size s).
  { pose proof (Z.mul_div_le (sh_size s) (sh_entsize s) ltac:(lia)). nia. }
  set (q := sh_size s / sh_entsize s) in *.
  pose proof (for_loop_entries (agree_on outside m0)
    (fun m e => relocate load_base window_size link_base e m)
    (fun r m => read_rel m ((image ⊕ sh_offset s) ⊕ (sizeof_Rel * r)))
    (fun r => read_rel m0 (image + sh_offset s + 8 * r)) (Z.to_nat q) 0 m Hag) as H.
  rewrite Z2Nat.id in H by lia. apply H.
  - intros j t Hj Ht'. unfold sizeof_Rel.
    rewrite (u32_id (image + sh_offset s)), u32_id, <- Z.add_assoc by (unfold is_u32; lia).
    apply image_read_rel; [done|lia|lia].
  - intros j t _ Ht'. eapply agree_on_trans; [exact Ht'|apply relocate_outside].
Qed.

Lemma image_shnum m0 m : sh_table_ok m0 -> agree_on outside m0 m ->
  e_shoff m image = e_shoff m0 image /\ e_shnum m image = e_shnum m0 image /\
  e_entry m image = e_entry m0 image.
Proof.
  intros (H52 & _) Hag. unfold e_shoff, e_shnum, e_entry, load16.
  rewrite !(u32_id (image + _)) by (unfold is_u32; lia).
  by rewrite !(image_load32 m0 m), !(image_load8 m0 m) by (done || lia).
Qed.

Lemma apply_relocations_fold m0 m : sh_table_ok m0 -> agree_on outside m0 m ->
  apply_relocations image image_size load_base window_size link_base m =
    fold_left (fun m e => relocate load_base window_size link_base e m) (rel_list m0) m.
Proof.
  intros Htab Hag. destruct (image_shnum m0 m Htab Hag) as (Eo & En & _).
  pose proof Htab as (_ & H1 & H2 & H3 & _). unfold apply_relocations, rel_list. rewrite Eo, En.
  destruct (Z.eqb_spec (e_shoff m0 image) 0); cbn [negb andb]; [done|].
  rewrite u32_id, (proj2 (Z.leb_le _ _)) by (unfold is_u32, sizeof_Shdr; lia).
  set (sect := apply_section image image_size load_base window_size link_base).
  pose proof (for_loop_entries (agree_on outside m0) (fun m s => sect s m)
    (fun i m => read_shdr m ((image ⊕ e_shoff m0 image) ⊕ (sizeof_Shdr * i)))
    (shdr m0) (Z.to_nat (e_shnum m0 image)) 0 m Hag) as H.
  rewrite Z2Nat.id in H by lia. destruct H as [-> _].
  - intros j t Hj Ht'. unfold sizeof_Shdr.
    rewrite (u32_id (image + e_shoff m0 image)), u32_id by (unfold is_u32; lia).
    unfold shdr. rewrite <- Z.add_assoc. apply image_read_shdr; [done|lia|lia].
  - intros j t Hj Ht'. by apply apply_section_fold.
  - assert (Hidx : Forall (fun i => 0 <= i < e_shnum m0 image) (seqZ 0 (e_shnum m0 image))).
    { apply Forall_forall. intros i Hi. apply elem_of_seqZ in Hi. lia. }
    revert m Hag Eo En. induction Hidx as [|i idx Hi _ IH]; intros m Hag _ _; [done|].
    cbn [map concat fold_left]. rewrite fold_left_app.
    destruct (apply_section_fold m0 m i Htab Hi Hag) as [E Hag']. unfold sect at 2. rewrite E in *.
    destruct (image_shnum m0 _ Htab Hag') as (Eo' & En' & _). by apply IH.
Qed.

(** C19: a well-formed image is loaded exactly.  The loader succeeds; the
    entry point is the linked one moved by [load_base - link_base]; every word
    designated by an R_386_32 entry is the word of the placed segments moved
    by the same amount, and every other byte is that of the segments (file
    bytes, then zeroes) or unchanged. *)
Theorem elf_load_correct m : mem_bytes m -> 52 <= image_size -> bad_signature image m = false ->
  0 <= e_phnum m image -> ph_table_ok m -> sh_table_ok m ->
  (forall i, 0 <= i < e_phnum m image -> segment_ok (phdr m i)) ->
  apart (targets (rel_list m)) ->
  let seg := place_all m (ph_list m 0 (Z.to_nat (e_phnum m image))) m in
  exists m', elf_load image image_size load_base window_size link_base m =
      ElfOk (load_base ⊕ (e_entry m image ⊖ link_base)) m' /\
    (forall off, off ∈ targets (rel_list m) ->
       load32 m' (load_base + off) = load32 seg (load_base + off) ⊕ (load_base - link_base)) /\
    (forall x, (forall off, off ∈ targets (rel_list m) -> ~ range (load_base + off) 4 x) ->
       m' x = seg x).
Proof.
  intros Hb Hsz Hsig Hnum Hph Hsh Hseg Hap seg. unfold elf_load.
  rewrite (proj2 (Z.ltb_ge _ _)), Hsig by (unfold sizeof_Ehdr; lia).
  pose proof Hph as [Hp1 Hp2].
  rewrite u32_id, (proj2 (Z.ltb_ge _ _)) by (unfold is_u32, sizeof_Phdr; lia).
  destruct (load_segments_spec m (Z.to_nat (e_phnum m image)) Hph 0 m) as (m1 & E & Hag & _ & Hplace);
    [intros; apply Hseg; lia|lia|lia|done|done|]. rewrite E.
  rewrite (apply_relocations_fold m m1 Hsh Hag).
  destruct (relocs_spec (rel_list m) m1 Hap) as [R1 R2].
  set (m2 := fold_left _ (rel_list m) m1) in *. exists m2. split_and!.
  - assert (Hag2 : agree_on outside m m2).
    { eapply agree_on_trans; [exact Hag|]. unfold m2. rewrite <- (apply_relocations_fold m m1) by done.
      apply apply_relocations_outside. }
    by destruct (image_shnum m m2 Hsh Hag2) as (_ & _ & ->).
  - intros off Hoff. rewrite R1 by done. f_equal. f_equal.
    unfold load32, load8. by rewrite !Hplace.
  - intros x Hx. by rewrite R2, Hplace.
Qed.
End confinement.

(** ** Concrete images *)

Definition w16 (v : Z) : list Z := [u8 v; u8 (v / 256)].
Definition w32 (v : Z) : list Z := [u8 v; u8 (v / 256); u8 (v / 65536); u8 (v / 16777216)].

(** An executable with one segment of [filesz]/[memsz] bytes linked at
    [vaddr], whose first word is the address 0x300004 and is relocated by the
    only entry of a relocation section. *)
Definition demo_elf (vaddr filesz memsz : Z) : list Z :=
  [127; 69; 76; 70; 1; 1; 1; 0; 0; 0; 0; 0; 0; 0; 0; 0]
  ++ w16 2 ++ w16 3 ++ w32 1 ++ w32 3145728 ++ w32 52 ++ w32 84 ++ w32 0
  ++ w16 52 ++ w16 32 ++ w16 1 ++ w16 40 ++ w16 1 ++ w16 0
  ++ w32 1 ++ w32 132 ++ w32 vaddr ++ w32 vaddr ++ w32 filesz ++ w32 memsz ++ w32 7 ++ w32 4096
  ++ w32 0 ++ w32 9 ++ w32 0 ++ w32 0 ++ w32 124 ++ w32 8 ++ w32 0 ++ w32 0 ++ w32 4 ++ w32 8
  ++ w32 3145728 ++ w32 257
  ++ w32 3145732 ++ w32 42.

(** An image in memory at 0x10000. *)
Definition staged (bytes : list Z) : memory := fun x => bytes.[x - 65536].
Definition demo_image : memory := staged (demo_elf 3145728 8 16).

Lemma staged_bytes bytes : Forall is_byte bytes -> mem_bytes (staged bytes).
Proof.
  intros H a. unfold staged. destruct (decide (0 <= a - 65536 < alen bytes)).
  - rewrite arr_Forall in H. by apply H.
  - by rewrite arr_get_oob by lia.
Qed.

Lemma demo_image_bytes : mem_bytes demo_image.
Proof. apply staged_bytes. vm_compute. by repeat constructor. Qed.

Lemma demo_phdr : e_phnum demo_image 65536 = 1 /\
  phdr 65536 demo_image 0 = mkPhdr 1 132 3145728 8 16.
Proof. by vm_compute. Qed.

Lemma demo_shdr : e_shnum demo_image 65536 = 1 /\ e_shoff demo_image 65536 = 84 /\
  shdr 65536 demo_image 0 = mkShdr 9 124 8 8.
Proof. by vm_compute. Qed.

Lemma demo_ph_table : ph_table_ok 65536 140 demo_image.
Proof. split; by vm_compute. Qed.

Lemma demo_sh_table : sh_table_ok 65536 140 demo_image.
Proof.
  destruct demo_shdr as (En & Eo & Es). unfold sh_table_ok. rewrite En, Eo.
  split_and!; [lia..|]. intros i Hi _. replace i with 0 by lia. rewrite Es. cbn. lia.
Qed.

Lemma demo_segment i : 0 <= i < e_phnum demo_image 65536 ->
  segment_ok 140 131072 3145728 (phdr 65536 demo_image i).
Proof.
  destruct demo_phdr as [En Ep]. rewrite En. intros Hi _. replace i with 0 by lia.
  rewrite Ep. cbn. lia.
Qed.

Lemma demo_no_wrap : ph_no_wrap 65536 demo_image.
Proof. split_and!; by vm_compute. Qed.

Lemma elf_load_confined_witness :
  agree_on (outside 3342336 131072) demo_image
    (outcome_memory (elf_load 65536 140 3342336 131072 3145728 demo_image)).
Proof.
  apply (elf_load_confined 65536 140 3342336 131072 3145728);
    [lia|lia|lia|apply demo_no_wrap|].
  intros _ i Hi Ht. by destruct (demo_segment i Hi Ht).
Defined.

Lemma elf_load_correct_witness :
  let seg := place_all 65536 3342336 3145728 demo_image
    (ph_list 65536 demo_image 0 (Z.to_nat (e_phnum demo_image 65536))) demo_image in
  exists m', elf_load 65536 140 3342336 131072 3145728 demo_image =
      ElfOk (3342336 ⊕ (e_entry demo_image 65536 ⊖ 3145728)) m' /\
    (forall off, off ∈ targets 131072 3145728 (rel_list 65536 demo_image) ->
       load32 m' (3342336 + off) = load32 seg (3342336 + off) ⊕ (3342336 - 3145728)) /\
    (forall x, (forall off, off ∈ targets 131072 3145728 (rel_list 65536 demo_image) ->
        ~ range (3342336 + off) 4 x) -> m' x = seg x).
Proof.
  apply (elf_load_correct 65536 140 3342336 131072 3145728);
    [lia|lia|lia|apply demo_image_bytes|lia|by vm_compute|by vm_compute|apply demo_ph_table
    |apply demo_sh_table|apply demo_segment|].
  vm_compute. repeat constructor.
Defined.

(** The loader trusts [p_filesz]: a segment with no memory bytes at the
    very end of the window passes the window check, and its file bytes are
    written past the window, into the memory of whatever comes next. *)
Theorem elf_load_escapes :
  let m := staged (demo_elf (3145728 + 131072) 8 0) in
  match elf_load 65536 140 3342336 131072 3145728 m with
  | ElfOk _ m' => m (3342336 + 131072 + 4) = 0 /\ m' (3342336 + 131072 + 4) = 42
  | ElfError _ _ => False
  end.
Proof. vm_compute. by split. Qed.

(** The check of the program header table adds in 32 bits.  An image that puts
    its only header at [e_phoff] = 0xFFFFFFE0 passes it, the loader takes the
    32 bytes before the image for the header, and writes past the window. *)
Definition wrapping_elf : list Z :=
  w32 1 ++ w32 0 ++ w32 (3145728 + 131072) ++ w32 0 ++ w32 4 ++ w32 0 ++ w32 7 ++ w32 4096
  ++ [127; 69; 76; 70; 1; 1; 1; 0; 0; 0; 0; 0; 0; 0; 0; 0]
  ++ w16 2 ++ w16 3 ++ w32 1 ++ w32 3145728 ++ w32 4294967264 ++ w32 0 ++ w32 0
  ++ w16 52 ++ w16 32 ++ w16 1 ++ w16 40 ++ w16 0 ++ w16 0.
Theorem elf_load_wraps :
  let m : memory := fun x => wrapping_elf.[x - 65504] in
  match elf_load 65536 52 3342336 131072 3145728 m with
  | ElfOk _ m' => m (3342336 + 131072) = 0 /\ m' (3342336 + 131072) = 127
  | ElfError _ _ => False
  end.
Proof. vm_compute. by split. Qed.
