(* ===== verification/Keyboard.v ===== *)
(** * The keyboard driver ([kernel/keyboard.c])

    The interrupt handler decodes the scancodes and pushes characters in a
    ring of 256 bytes; the shell takes them out with [keyboard_read_char],
    which the handler may interrupt.  The ring is a bounded FIFO queue under
    every interleaving of the two, and typing a text gives that text back. *)
From Stdlib Require Import String.
From stdpp Require Import base numbers list list_numbers sets.
From S2P Require Import Prelude.

Definition KEY_ARROW_UP : Z := 17.
Definition KEY_ARROW_DOWN : Z := 18.

(** The static variables; [kbd_ports] is the list of the [outb]s, oldest
    first. *)
Record keyboard := mkKeyboard {
  key_queue : list Z;
  queue_read : Z;
  queue_write : Z;
  shift_pressed : Z;
  extended_prefix : Z;
  kbd_ports : list (Z * Z);
}.

Definition keyboard_boot : keyboard := mkKeyboard (build 256 (fun _ => 0)) 0 0 0 0 [].

Definition set_queue q w s :=
  mkKeyboard q (queue_read s) w (shift_pressed s) (extended_prefix s) (kbd_ports s).
Definition set_queue_read r s :=
  mkKeyboard (key_queue s) r (queue_write s) (shift_pressed s) (extended_prefix s) (kbd_ports s).
Definition set_shift_pressed v s :=
  mkKeyboard (key_queue s) (queue_read s) (queue_write s) v (extended_prefix s) (kbd_ports s).
Definition set_extended_prefix v s :=
  mkKeyboard (key_queue s) (queue_read s) (queue_write s) (shift_pressed s) v (kbd_ports s).
Definition kbd_outb port v s :=
  mkKeyboard (key_queue s) (queue_read s) (queue_write s) (shift_pressed s) (extended_prefix s)
    (kbd_ports s ++ [(port, v)]).

Definition queue_push (c : Z) (s : keyboard) : keyboard :=
  let next := u8 (queue_write s + 1) in
  if negb (next =? queue_read s)
  then set_queue ((key_queue s).[queue_write s <- c]) next s
  else s.

Definition kbd : list Z :=
  [0; 27; 49; 50; 51; 52; 53; 54; 55; 56; 57; 48; 45; 61; 8; 9; 113; 119; 101; 114; 116; 121;
   117; 105; 111; 112; 91; 93; 10; 0; 97; 115; 100; 102; 103; 104; 106; 107; 108; 59; 39; 96;
   0; 92; 122; 120; 99; 118; 98; 110; 109; 44; 46; 47; 0; 42; 0; 32].
Definition kbd_shift : list Z :=
  [0; 27; 33; 64; 35; 36; 37; 94; 38; 42; 40; 41; 95; 43; 8; 9; 81; 87; 69; 82; 84; 89; 85;
   73; 79; 80; 123; 125; 10; 0; 65; 83; 68; 70; 71; 72; 74; 75; 76; 58; 34; 126; 0; 124; 90;
   88; 67; 86; 66; 78; 77; 60; 62; 63; 0; 42; 0; 32].

(** [sc] is the byte that [inb(0x60)] returns. *)
Definition keyboard_handler (sc : Z) (s : keyboard) : keyboard :=
  if sc =? 224 then kbd_outb 32 32 (set_extended_prefix 1 s)
  else
    let make := Z.land sc 128 =? 0 in
    let code := Z.land sc 127 in
    if negb (extended_prefix s =? 0) then
      let s := set_extended_prefix 0 s in
      let s :=
        if make then
          if code =? 72 then queue_push KEY_ARROW_UP s
          else if code =? 80 then queue_push KEY_ARROW_DOWN s else s
        else s in
      kbd_outb 32 32 s
    else if (sc =? 42) || (sc =? 54) then kbd_outb 32 32 (set_shift_pressed 1 s)
    else if (sc =? 170) || (sc =? 182) then kbd_outb 32 32 (set_shift_pressed 0 s)
    else
      let s :=
        if make then
          if code <? alen kbd then
            let c := if negb (shift_pressed s =? 0) then kbd_shift.[code] else kbd.[code] in
            if negb (c =? 0) then queue_push c s else s
          else s
        else s in
      kbd_outb 32 32 s.

(** The result is [*out] when the call returns 1. *)
Definition keyboard_read_char (s : keyboard) : option Z * keyboard :=
  if queue_read s =? queue_write s then (None, s)
  else
    let c := (key_queue s).[queue_read s] in
    (Some c, set_queue_read (u8 (queue_read s + 1)) s).

(** ** Interleaving

    The handler runs with interrupts disabled, so it is atomic for the
    reader; the reader can be interrupted between its three accesses: the
    test, the load of the character and the update of [queue_read]. *)
Inductive reader := Entry | Tested | Loaded (c : Z).

(** What an observer sees: the interrupts, and the calls that return. *)
Inductive label := Key (sc : Z) | Read (r : option Z).

(** A step of the reader; the label is there when the call returns. *)
Definition read_step (p : reader) (s : keyboard) : reader * keyboard * list label :=
  match p with
  | Entry =>
    if queue_read s =? queue_write s then (Entry, s, [Read None]) else (Tested, s, [])
  | Tested => (Loaded (key_queue s).[queue_read s], s, [])
  | Loaded c => (Entry, set_queue_read (u8 (queue_read s + 1)) s, [Read (Some c)])
  end.

(** The scheduler of the interleaving: an interrupt or a step of the reader. *)
Inductive move := Interrupt (sc : Z) | Reader.

Definition kbd_step (mv : move) (ps : reader * keyboard) : reader * keyboard * list label :=
  let '(p, s) := ps in
  match mv with
  | Interrupt sc => (p, keyboard_handler sc s, [Key sc])
  | Reader => read_step p s
  end.

Fixpoint kbd_run (mvs : list move) (ps : reader * keyboard) : reader * keyboard * list label :=
  match mvs with
  | [] => (ps, [])
  | mv :: mvs =>
    let '(ps, l) := kbd_step mv ps in
    let '(ps, l') := kbd_run mvs ps in
    (ps, l ++ l')
  end.

(** Without interrupts the steps are the function. *)
Lemma read_steps_function s :
  kbd_run (if queue_read s =? queue_write s then [Reader] else [Reader; Reader; Reader]) (Entry, s) =
  let '(r, s') := keyboard_read_char s in (Entry, s', [Read r]).
Proof.
  unfold keyboard_read_char. destruct (queue_read s =? queue_write s) eqn:E; cbn; by rewrite E.
Qed.

(** ** The specification: a queue of at most 255 characters *)

(** The decoder: the state of Shift and of the prefix, and the character. *)
Definition decode (shift ext : bool) (sc : Z) : bool * bool * option Z :=
  if sc =? 224 then (shift, true, None)
  else if ext then
    (shift, false,
     if sc =? 72 then Some KEY_ARROW_UP else if sc =? 80 then Some KEY_ARROW_DOWN else None)
  else if bool_decide (sc ∈ [42; 54]) then (true, false, None)
  else if bool_decide (sc ∈ [170; 182]) then (false, false, None)
  else
    let c := (if shift then kbd_shift else kbd).[sc] in
    (shift, false, if c =? 0 then None else Some c).

Record spec := Spec { sp_shift : bool; sp_ext : bool; sp_queue : list Z }.

Definition enqueue (oc : option Z) (q : list Z) : list Z :=
  match oc with Some c => if alen q <? 255 then q ++ [c] else q | None => q end.

Definition spec_key (sc : Z) (a : spec) : spec :=
  let '(sh, ex, oc) := decode (sp_shift a) (sp_ext a) sc in
  Spec sh ex (enqueue oc (sp_queue a)).

(** [None] when the queue does not allow that label. *)
Definition spec_step (l : label) (a : spec) : option spec :=
  match l, sp_queue a with
  | Key sc, _ => Some (spec_key sc a)
  | Read None, [] => Some a
  | Read (Some c), c' :: q => if c =? c' then Some (Spec (sp_shift a) (sp_ext a) q) else None
  | Read _, _ => None
  end.

Fixpoint spec_exec (ls : list label) (a : spec) : option spec :=
  match ls with
  | [] => Some a
  | l :: ls => match spec_step l a with Some a => spec_exec ls a | None => None end
  end.

(** ** The abstraction *)

Definition count (s : keyboard) : Z := (queue_write s - queue_read s) mod 256.
Definition pending (s : keyboard) : list Z :=
  build (count s) (fun j => (key_queue s).[(queue_read s + j) mod 256]).
Definition abs (s : keyboard) : spec :=
  Spec (negb (shift_pressed s =? 0)) (negb (extended_prefix s =? 0)) (pending s).

Definition kbd_wf (s : keyboard) : Prop :=
  alen (key_queue s) = 256 /\ is_byte (queue_read s) /\ is_byte (queue_write s).

(** What the reader has read is still the first pending character. *)
Definition reader_ok (p : reader) (s : keyboard) : Prop :=
  match p with
  | Entry => True
  | Tested => 0 < count s
  | Loaded c => 0 < count s /\ c = (key_queue s).[queue_read s]
  end.

Lemma count_range s : 0 <= count s < 256.
Proof. by apply Z.mod_pos_bound. Qed.

Lemma alen_pending s : alen (pending s) = count s.
Proof. apply alen_build, count_range. Qed.

Lemma count_zero s : kbd_wf s -> count s = 0 <-> queue_read s = queue_write s.
Proof. intros (_ & Hr & Hw). unfold count, is_byte in *. Z.div_mod_to_equations. lia. Qed.

(** A push writes past every pending character. *)
Lemma push_spec c s : kbd_wf s ->
  kbd_wf (queue_push c s) /\ pending (queue_push c s) = enqueue (Some c) (pending s) /\
  queue_read (queue_push c s) = queue_read s /\ count s <= count (queue_push c s) /\
  (0 < count s -> (key_queue (queue_push c s)).[queue_read s] = (key_queue s).[queue_read s]).
Proof.
  intros Hwf. pose proof Hwf as (Hl & Hr & Hw). unfold enqueue. rewrite alen_pending.
  unfold queue_push. destruct (Z.eqb_spec (u8 (queue_write s + 1)) (queue_read s)) as [E|E]; cbn [negb].
  - assert (count s = 255) as ->; [|split_and!; done || lia].
    unfold count, u8, is_byte in *. Z.div_mod_to_equations. lia.
  - set (s' := set_queue _ _ s).
    assert (Hc : count s' = count s + 1 /\ count s < 255).
    { unfold count, s', u8, is_byte in *. cbn. Z.div_mod_to_equations. lia. }
    pose proof (count_range s) as Hcr. destruct Hc as [Hc Hlt].
    rewrite (proj2 (Z.ltb_lt _ _)) by done. split_and!; [| |done|lia|].
    + unfold kbd_wf, s'. cbn. rewrite alen_arr_set. split_and!; [done|done|apply u8_range].
    + unfold pending at 1. rewrite Hc, build_snoc by lia. f_equal.
      * apply build_ext_range; [lia|]. intros j Hj. cbn. apply arr_get_set_ne.
        unfold count, is_byte in *. Z.div_mod_to_equations. lia.
      * cbn. f_equal. replace ((_ + count s) mod 256) with (queue_write s).
        { apply arr_get_set_eq. unfold is_byte in *. lia. }
        unfold count, is_byte in *. Z.div_mod_to_equations. lia.
    + intros Hpos. cbn. apply arr_get_set_ne. unfold count, is_byte in *.
      Z.div_mod_to_equations. lia.
Qed.

(** [pushed oc s s']: from [s], the characters of [oc] have been queued and
    the reader's view has not changed. *)
Definition pushed (oc : option Z) (s s' : keyboard) : Prop :=
  kbd_wf s' /\ pending s' = enqueue oc (pending s) /\ count s <= count s' /\
  queue_read s' = queue_read s /\
  (0 < count s -> (key_queue s').[queue_read s] = (key_queue s).[queue_read s]).

Lemma pushed_none s : kbd_wf s -> pushed None s s.
Proof. intros. unfold pushed. split_and!; done || lia. Qed.

Lemma pushed_push c s : kbd_wf s -> pushed (Some c) s (queue_push c s).
Proof. intros Hwf. destruct (push_spec c s Hwf) as (? & ? & ? & ? & ?). unfold pushed. by split_and!. Qed.

Lemma queue_push_state c s :
  shift_pressed (queue_push c s) = shift_pressed s /\
  extended_prefix (queue_push c s) = extended_prefix s /\ kbd_ports (queue_push c s) = kbd_ports s.
Proof. unfold queue_push. by destruct (negb _). Qed.

(** The two tests on the bits of a scancode. *)
Lemma scancode_bits sc : is_byte sc ->
  (Z.land sc 128 =? 0) = (sc <? 128) /\ Z.land sc 127 = sc mod 128.
Proof.
  intros H. split; [|by apply (Z.land_ones sc 7)].
  assert (E : forallb (fun b => eqb (Z.land b 128 =? 0) (b <? 128)) (seqZ 0 256) = true) by done.
  rewrite forallb_forall in E. apply eqb_prop, E, list_elem_of_In, elem_of_seqZ.
  unfold is_byte in H. lia.
Qed.

(** The handler ends by acknowledging the interrupt. *)
Lemma handled oc s s' ext sh : pushed oc s s' ->
  kbd_ports s' = kbd_ports s ->
  negb (shift_pressed s' =? 0) = sh -> negb (extended_prefix s' =? 0) = ext ->
  exists oc', (sh, ext, oc) = (negb (shift_pressed (kbd_outb 32 32 s') =? 0),
      negb (extended_prefix (kbd_outb 32 32 s') =? 0), oc') /\
    pushed oc' s (kbd_outb 32 32 s') /\
    kbd_ports (kbd_outb 32 32 s') = kbd_ports s ++ [(32, 32)].
Proof. intros Hp Hports <- <-. exists oc. split_and!; [done|exact Hp|by cbn; rewrite Hports]. Qed.

(** The handler is the decoder followed by the push, and one acknowledgement
    of the interrupt. *)
Lemma handler_spec sc s : kbd_wf s -> is_byte sc ->
  exists oc, decode (negb (shift_pressed s =? 0)) (negb (extended_prefix s =? 0)) sc =
      (negb (shift_pressed (keyboard_handler sc s) =? 0),
       negb (extended_prefix (keyboard_handler sc s) =? 0), oc) /\
    pushed oc s (keyboard_handler sc s) /\
    kbd_ports (keyboard_handler sc s) = kbd_ports s ++ [(32, 32)].
Proof.
  intros Hwf Hsc. destruct (scancode_bits sc Hsc) as [Hm Hc].
  unfold keyboard_handler, decode. rewrite Hm, Hc.
  destruct (Z.eqb_spec sc 224) as [->|N1]; [by apply handled; try exact (pushed_none s Hwf)|].
  destruct (extended_prefix s =? 0) eqn:Eext; cbn [negb].
  - rewrite (bool_decide_ext (sc ∈ [42; 54]) (sc = 42 \/ sc = 54)) by set_solver.
    rewrite (bool_decide_ext (sc ∈ [170; 182]) (sc = 170 \/ sc = 182)) by set_solver.
    destruct (Z.eqb_spec sc 42), (Z.eqb_spec sc 54); cbn [orb];
      try (rewrite bool_decide_true by lia; apply handled; [exact (pushed_none s Hwf)|done..|by cbn; rewrite Eext]).
    rewrite bool_decide_false by lia.
    destruct (Z.eqb_spec sc 170), (Z.eqb_spec sc 182); cbn [orb];
      try (rewrite bool_decide_true by lia; apply handled; [exact (pushed_none s Hwf)|done..|by cbn; rewrite Eext]).
    rewrite bool_decide_false by lia.
    set (c := (if negb (shift_pressed s =? 0) then kbd_shift else kbd).[sc]).
    assert (Hz : ~ sc < 58 -> (c =? 0) = true).
    { intros Hge. apply Z.eqb_eq. unfold c. destruct (negb _); (rewrite arr_get_oob; [done|right; change (58 <= sc); lia]). }
    destruct (Z.ltb_spec sc 128) as [H128|H128].
    + rewrite Z.mod_small by (unfold is_byte in Hsc; lia). change (alen kbd) with 58.
      replace (if negb (shift_pressed s =? 0) then kbd_shift.[sc] else kbd.[sc]) with c
        by (unfold c; by destruct (negb _)).
      destruct (queue_push_state c s) as (Q1 & Q2 & Q3).
      destruct (Z.ltb_spec sc 58); [|rewrite Hz by lia]; [destruct (c =? 0)|]; cbn [negb];
        apply handled; rewrite ?Q1, ?Q2, ?Q3, ?Eext; try done; auto using pushed_none, pushed_push.
    + rewrite Hz by lia. apply handled; cbn; rewrite ?Eext; try done; auto using pushed_none.
  - assert (Hs : pushed None s (set_extended_prefix 0 s)) by exact (pushed_none s Hwf).
    assert (Hwf0 : kbd_wf (set_extended_prefix 0 s)) by exact Hwf.
    destruct (queue_push_state KEY_ARROW_UP (set_extended_prefix 0 s)) as (U1 & U2 & U3).
    destruct (queue_push_state KEY_ARROW_DOWN (set_extended_prefix 0 s)) as (D1 & D2 & D3).
    destruct (Z.eqb_spec sc 72) as [->|]; [|destruct (Z.eqb_spec sc 80) as [->|]].
    + change (72 mod 128 =? 72) with true. cbn [Z.ltb Z.compare]. apply handled; cbn; rewrite ?U1, ?U2, ?U3; try done. exact (pushed_push _ _ Hwf0).
    + change (80 mod 128 =? 72) with false. change (80 mod 128 =? 80) with true.
      apply handled; cbn; rewrite ?D1, ?D2, ?D3; try done. exact (pushed_push _ _ Hwf0).
    + destruct (Z.ltb_spec sc 128); [|by apply handled].
      rewrite Z.mod_small by (unfold is_byte in Hsc; lia).
      rewrite (proj2 (Z.eqb_neq sc 72)), (proj2 (Z.eqb_neq sc 80)) by done. by apply handled.
Qed.

Lemma handler_sim sc s : kbd_wf s -> is_byte sc ->
  kbd_wf (keyboard_handler sc s) /\ abs (keyboard_handler sc s) = spec_key sc (abs s).
Proof.
  intros Hwf Hsc. destruct (handler_spec sc s Hwf Hsc) as (oc & Hd & (Hwf' & Hp & _) & _).
  split; [done|]. unfold spec_key, abs at 2 3. cbn [sp_shift sp_ext]. rewrite Hd.
  unfold abs. by rewrite Hp.
Qed.

(** Taking out the first character. *)
Lemma pop_spec s : kbd_wf s -> 0 < count s ->
  let s' := set_queue_read (u8 (queue_read s + 1)) s in
  kbd_wf s' /\ pending s = (key_queue s).[queue_read s] :: pending s'.
Proof.
  intros (Hl & Hr & Hw) Hc s'. pose proof (count_range s).
  assert (Hc' : count s' = count s - 1).
  { unfold count, s', u8, is_byte in *. cbn. Z.div_mod_to_equations. lia. }
  split; [split_and!; [done|apply u8_range|done]|].
  unfold pending at 1. rewrite build_cons by done. f_equal.
  - f_equal. unfold is_byte in Hr. rewrite Z.mod_small; lia.
  - unfold pending. rewrite Hc'. apply build_ext_range; [lia|]. intros j Hj. cbn. f_equal.
    unfold u8. rewrite Zplus_mod_idemp_l. f_equal. lia.
Qed.

Lemma keyboard_read_char_sim s : kbd_wf s ->
  let '(r, s') := keyboard_read_char s in
  kbd_wf s' /\ spec_step (Read r) (abs s) = Some (abs s').
Proof.
  intros Hwf. unfold keyboard_read_char. pose proof (count_zero s Hwf) as Hz.
  pose proof (count_range s) as Hr.
  destruct (Z.eqb_spec (queue_read s) (queue_write s)) as [E|E].
  - split; [done|]. cbn. unfold pending. by rewrite (proj2 Hz E).
  - destruct (pop_spec s Hwf) as [Hwf' Hp]; [lia|]. split; [done|]. cbn.
    rewrite Hp. by rewrite Z.eqb_refl.
Qed.

Definition sim (p : reader) (s : keyboard) (a : spec) : Prop :=
  kbd_wf s /\ reader_ok p s /\ a = abs s.

(** One move of either side, with its visible label, is allowed by the
    specification. *)
Lemma kbd_step_sim mv p s a : sim p s a ->
  (forall sc, mv = Interrupt sc -> is_byte sc) ->
  let '(p', s', l) := kbd_step mv (p, s) in
  exists a', spec_exec l a = Some a' /\ sim p' s' a'.
Proof.
  intros (Hwf & Hp & ->) Hmv. destruct mv as [sc|]; cbn [kbd_step].
  - specialize (Hmv sc eq_refl). destruct (handler_sim sc s Hwf Hmv) as [Hwf' Ha].
    destruct (handler_spec sc s Hwf Hmv) as (oc & _ & (_ & _ & Hc & Hq & Hh) & _).
    exists (abs (keyboard_handler sc s)). split; [by cbn; rewrite Ha|]. split_and!; [done| |done].
    destruct p as [| |c]; cbn in *; [done|lia|]. destruct Hp as [Hp ->].
    split; [lia|]. by rewrite Hq, Hh.
  - destruct p as [| |c]; cbn [read_step].
    + pose proof (count_zero s Hwf) as Hz. pose proof (count_range s) as Hr.
      destruct (Z.eqb_spec (queue_read s) (queue_write s)) as [E|E].
      * exists (abs s). split; [|by split_and!]. cbn. unfold pending. by rewrite (proj2 Hz E).
      * exists (abs s). split; [done|]. split; [done|]. split; [cbn; lia|done].
    + exists (abs s). by split_and!.
    + destruct Hp as [Hp ->]. destruct (pop_spec s Hwf Hp) as [Hwf' E].
      exists (abs (set_queue_read (u8 (queue_read s + 1)) s)).
      split; [|by split_and!]. cbn. rewrite E. by rewrite Z.eqb_refl.
Qed.

Lemma spec_exec_app l1 l2 a :
  spec_exec (l1 ++ l2) a = match spec_exec l1 a with Some a' => spec_exec l2 a' | None => None end.
Proof.
  revert a. induction l1 as [|l l1 IH]; intros a; cbn; [done|].
  destruct (spec_step l a); [apply IH|done].
Qed.

(** C20: under every interleaving of keyboard interrupts with the three memory
    accesses of [keyboard_read_char], what the driver shows (the interrupts
    and the results of the calls) is a behaviour of a queue of at most 255
    characters fed by the decoder: the characters read are the characters
    decoded, in order and unchanged, except those decoded while 255 were
    waiting; a read fails only when the queue is empty. *)
Theorem keyboard_refines_queue mvs p s a : sim p s a ->
  (forall sc, Interrupt sc ∈ mvs -> is_byte sc) ->
  let '(p', s', l) := kbd_run mvs (p, s) in
  exists a', spec_exec l a = Some a' /\ sim p' s' a'.
Proof.
  revert p s a. induction mvs as [|mv mvs IH]; intros p s a Hs Hb; cbn [kbd_run].
  - by exists a.
  - pose proof (kbd_step_sim mv p s a Hs) as Hstep.
    destruct (kbd_step mv (p, s)) as [[p1 s1] l1].
    destruct Hstep as (a1 & E1 & Hs1); [intros sc ->; apply Hb, list_elem_of_here|].
    specialize (IH p1 s1 a1 Hs1). destruct (kbd_run mvs (p1, s1)) as [[p2 s2] l2].
    destruct IH as (a2 & E2 & Hs2); [intros sc Hsc; by apply Hb, list_elem_of_further|].
    exists a2. split; [|done]. by rewrite spec_exec_app, E1.
Qed.

Lemma boot_sim : sim Entry keyboard_boot (Spec false false []).
Proof. by vm_compute. Qed.

(** A key arrives between the test and the load, and one between the load
    and the update. *)
Lemma keyboard_refines_queue_witness :
  let '(p, s, l) := kbd_run [Interrupt 30; Reader; Interrupt 48; Reader; Interrupt 46; Reader]
    (Entry, keyboard_boot) in
  exists a', spec_exec l (Spec false false []) = Some a' /\ sim p s a'.
Proof.
  apply (keyboard_refines_queue _ Entry keyboard_boot _ boot_sim).
  intros sc. rewrite !elem_of_cons, elem_of_nil. unfold is_byte. intros H.
  repeat (destruct H as [H|H]; [first [discriminate H | injection H as ->; lia]|]). done.
Defined.

(** ** Typing *)

(** The US keyboard, written down from the keys and not from the driver: for
    each row, the scancode (set 1) of its first key, the characters of its keys
    from left to right and those with Shift.  The last key of the third row is
    the one left of 1, whose scancode follows that of the quote; the fourth row
    starts with the backslash. *)
Definition us_keyboard : list (Z * list Z * list Z) :=
  [(2, text "1234567890-=", text "!@#$%^&*()_+");
   (16, text "qwertyuiop[]", text "QWERTYUIOP{}");
   (30, text "asdfghjkl;'`", text "ASDFGHJKL:" ++ [34] ++ text "~");
   (43, text "\zxcvbnm,./", text "|ZXCVBNM<>?");
   (57, text " ", text " ")].

(** The key of a character, and whether Shift is held. *)
Definition key_in_row (c : Z) (row : Z * list Z * list Z) : option (Z * bool) :=
  let '(first, plain, shifted) := row in
  match find_index (fun i => plain.[i] =? c) (length plain) 0 with
  | Some i => Some (first + i, false)
  | None =>
    match find_index (fun i => shifted.[i] =? c) (length shifted) 0 with
    | Some i => Some (first + i, true)
    | None => None
    end
  end.
Fixpoint key_of (c : Z) (rows : list (Z * list Z * list Z)) : option (Z * bool) :=
  match rows with
  | [] => None
  | row :: rows => match key_in_row c row with Some k => Some k | None => key_of c rows end
  end.

(** The scancodes of a character: the key pressed and released, between the
    press and the release of Shift if it needs it. *)
Definition keystroke (c : Z) : list Z :=
  match key_of c us_keyboard with
  | Some (k, false) => [k; k + 128]
  | Some (k, true) => [42; k; k + 128; 170]
  | None => []
  end.

Definition press_all (scs : list Z) (s : keyboard) : keyboard :=
  fold_left (fun s sc => keyboard_handler sc s) scs s.
Definition type_text (t : list Z) (s : keyboard) : keyboard := press_all (concat (map keystroke t)) s.

Fixpoint read_chars (n : nat) (s : keyboard) : list (option Z) * keyboard :=
  match n with
  | O => ([], s)
  | S n =>
    let '(r, s) := keyboard_read_char s in
    let '(rs, s) := read_chars n s in (r :: rs, s)
  end.

Definition spec_keys (scs : list Z) (a : spec) : spec := fold_left (fun a sc => spec_key sc a) scs a.

(** What a sequence of scancodes decodes to, whatever the queue. *)
Fixpoint decode_all (sh ex : bool) (scs : list Z) : bool * bool * list (option Z) :=
  match scs with
  | [] => (sh, ex, [])
  | sc :: scs =>
    let '(sh, ex, oc) := decode sh ex sc in
    let '(sh, ex, ocs) := decode_all sh ex scs in (sh, ex, oc :: ocs)
  end.

Lemma spec_keys_decode scs sh ex q : spec_keys scs (Spec sh ex q) =
  let '(sh', ex', ocs) := decode_all sh ex scs in
  Spec sh' ex' (fold_left (fun q oc => enqueue oc q) ocs q).
Proof.
  revert sh ex q. induction scs as [|sc scs IH]; intros sh ex q; cbn; [done|].
  unfold spec_key. cbn [sp_shift sp_ext sp_queue]. destruct (decode sh ex sc) as [[sh1 ex1] oc].
  rewrite IH. by destruct (decode_all sh1 ex1 scs) as [[? ?] ?].
Qed.

Definition typable (c : Z) : Prop := 32 <= c <= 126.

Definition keystroke_ok (c : Z) : bool :=
  bool_decide (Forall is_byte (keystroke c)) &&
  match decode_all false false (keystroke c) with
  | (false, false, ocs) => bool_decide (omap id ocs = [c])
  | _ => false
  end.

Lemma keystroke_decodes c : typable c -> Forall is_byte (keystroke c) /\
  exists ocs, decode_all false false (keystroke c) = (false, false, ocs) /\ omap id ocs = [c].
Proof.
  intros Hc. assert (E : forallb keystroke_ok (seqZ 32 95) = true) by (vm_compute; done).
  rewrite forallb_forall in E. specialize (E c).
  unfold keystroke_ok in E. unfold typable in Hc.
  rewrite <- list_elem_of_In, elem_of_seqZ, andb_true_iff in E.
  destruct E as [E1 E2]; [lia|]. apply bool_decide_eq_true_1 in E1.
  destruct (decode_all false false (keystroke c)) as [[[] []] ocs]; try done.
  apply bool_decide_eq_true_1 in E2. eauto.
Qed.

Lemma enqueue_all ocs q :
  fold_left (fun q oc => enqueue oc q) ocs q = fold_left (fun q c => enqueue (Some c) q) (omap id ocs) q.
Proof.
  revert q. induction ocs as [|[c|] ocs IH]; intros q; cbn; [done|apply IH|apply IH].
Qed.

(** Typing a text queues its characters. *)
Lemma spec_keys_text t q : Forall typable t -> alen q + alen t <= 255 ->
  Forall is_byte (concat (map keystroke t)) /\
  spec_keys (concat (map keystroke t)) (Spec false false q) = Spec false false (q ++ t).
Proof.
  intros Ht. revert q. induction Ht as [|c t Hc Ht IH]; intros q Hq; cbn [map concat].
  - by rewrite app_nil_r.
  - assert (alen (c :: t) = alen t + 1) by (unfold alen; cbn; lia).
    destruct (keystroke_decodes c Hc) as (Hb & ocs & Ed & Eo).
    destruct (IH (q ++ [c])) as [Hb' Eq].
    { unfold alen in *. rewrite length_app. cbn in *. lia. }
    split; [by apply Forall_app|]. unfold spec_keys in *. rewrite fold_left_app.
    fold (spec_keys (keystroke c) (Spec false false q)).
    rewrite spec_keys_decode, Ed, enqueue_all, Eo. cbn [fold_left enqueue].
    rewrite (proj2 (Z.ltb_lt _ _)) by (unfold alen in *; lia).
    rewrite Eq. by rewrite <- app_assoc.
Qed.

Lemma press_all_sim scs s : kbd_wf s -> Forall is_byte scs ->
  kbd_wf (press_all scs s) /\ abs (press_all scs s) = spec_keys scs (abs s).
Proof.
  intros Hwf Hb. revert s Hwf. induction Hb as [|sc scs Hsc Hb IH]; intros s Hwf; cbn; [done|].
  destruct (handler_sim sc s Hwf Hsc) as [Hwf' <-]. by apply IH.
Qed.

Lemma read_chars_spec t s : kbd_wf s -> pending s = t ->
  let '(rs, s') := read_chars (length t) s in
  rs = map Some t /\ kbd_wf s' /\ fst (keyboard_read_char s') = None.
Proof.
  revert s. induction t as [|c t IH]; intros s Hwf Hp; cbn [length read_chars].
  - split_and!; [done|done|]. pose proof (keyboard_read_char_sim s Hwf) as H.
    destruct (keyboard_read_char s) as [[c|] s']; [|done]. destruct H as [_ H].
    cbn in H. by rewrite Hp in H.
  - pose proof (keyboard_read_char_sim s Hwf) as H.
    destruct (keyboard_read_char s) as [r s1]. destruct H as [Hwf1 H]. cbn in H. rewrite Hp in H.
    destruct r as [c'|]; [|done]. destruct (Z.eqb_spec c' c) as [->|]; [|done].
    injection H as _ _ Ht. specialize (IH s1 Hwf1 (eq_sym Ht)).
    destruct (read_chars (length t) s1) as [rs s2]. destruct IH as (-> & ? & ?). by split_and!.
Qed.

(** C21: typing.  On an idle keyboard (nothing in the ring, Shift up, no
    prefix pending), pressing and releasing the keys that a US keyboard has for
    a text of at most 255 printable ASCII characters, with Shift where it is
    needed, makes the next reads return exactly that text, and the read after
    them fail: the tables of the driver are those of that keyboard and no key
    release produces anything. *)
Theorem typing_roundtrip t s : kbd_wf s -> abs s = Spec false false [] ->
  Forall typable t -> alen t <= 255 ->
  let '(rs, s') := read_chars (length t) (type_text t s) in
  rs = map Some t /\ kbd_wf s' /\ fst (keyboard_read_char s') = None.
Proof.
  intros Hwf Ha Ht Hlen. destruct (spec_keys_text t []) as [Hb Hk]; [done..|].
  destruct (press_all_sim _ s Hwf Hb) as [Hwf' Ha']. rewrite Ha, Hk in Ha'.
  apply read_chars_spec; [done|]. by injection Ha'.
Qed.

Lemma typing_roundtrip_witness :
  let '(rs, s) := read_chars 4 (type_text [76; 115; 32; 126] keyboard_boot) in
  rs = map Some [76; 115; 32; 126] /\ kbd_wf s /\ fst (keyboard_read_char s) = None.
Proof.
  apply (typing_roundtrip [76; 115; 32; 126] keyboard_boot);
    [apply boot_sim|by vm_compute|repeat constructor; done|done].
Defined.
