(* ===== verification/Ata.v ===== *)
(** * The disk driver ([drivers/ata.c])

    The driver is a client of a drive reached through I/O ports.  The drive
    is not part of the program: [PortIO] gives the port instructions of
    [cpu.c] and [AtaDrive] what the ATA standard documents of a drive in PIO
    mode (registers, the data phase of the two commands, the status bits).
    The driver writes FLUSH CACHE without waiting until the drive has taken in
    the sector, which the standard forbids while BSY is set; [EarlyFlush] says
    that the drive bears it.  For every such drive the driver satisfies the
    block-device contract that the file system relies on ([BlockDev.v]).
    [pio] are concrete drives, one of which obeys the standard and does not
    bear the early command. *)
From stdpp Require Import base numbers list list_numbers.
From S2P Require Import Prelude BlockDev.

Definition ATA_DATA : Z := 496.
Definition ATA_SECTOR_CNT : Z := 498.
Definition ATA_LBA_LOW : Z := 499.
Definition ATA_LBA_MID : Z := 500.
Definition ATA_LBA_HIGH : Z := 501.
Definition ATA_DRIVE_SEL : Z := 502.
Definition ATA_COMMAND : Z := 503.
Definition ATA_STATUS : Z := 503.
Definition ATA_CMD_READ : Z := 32.
Definition ATA_CMD_WRITE : Z := 48.
Definition ATA_MAX_RETRIES : Z := 3.

(** The port instructions. *)
Class PortIO (D : Type) := {
  inb : Z -> M D Z;
  outb : Z -> Z -> M D unit;
  inw : Z -> M D Z;
  outw : Z -> Z -> M D unit;
}.

(** ** The driver *)

Section driver.
Context {D : Type} `{PortIO D}.

(** [n] is what is left of the 1000000 polls. *)
Fixpoint bsy_clear_loop (n : nat) : M D bool :=
  match n with
  | O => ret false
  | S n =>
    let! status := inb ATA_STATUS in
    if negb (Z.land status 1 =? 0) then ret false
    else if Z.land status 128 =? 0 then ret true
    else bsy_clear_loop n
  end.
Definition ata_wait_bsy_clear : M D bool := bsy_clear_loop (Z.to_nat 1000000).

Fixpoint ready_loop (n : nat) : M D bool :=
  match n with
  | O => ret false
  | S n =>
    let! status := inb ATA_STATUS in
    if negb (Z.land status 1 =? 0) then ret false
    else if (Z.land status 128 =? 0) && negb (Z.land status 8 =? 0) then ret true
    else ready_loop n
  end.
Definition ata_wait_ready : M D bool := ready_loop (Z.to_nat 1000000).

(** The five registers, and the command. *)
Definition issue_command (lba cmd : Z) : M D unit :=
  outb ATA_DRIVE_SEL (u8 (Z.lor 224 (Z.land (Z.shiftr lba 24) 15))) ;;
  outb ATA_SECTOR_CNT 1 ;;
  outb ATA_LBA_LOW (u8 lba) ;;
  outb ATA_LBA_MID (u8 (Z.shiftr lba 8)) ;;
  outb ATA_LBA_HIGH (u8 (Z.shiftr lba 16)) ;;
  outb ATA_COMMAND cmd.

(** [for (i = 0; i < 256; i++) buffer[i] = inw(ATA_DATA);] on the bytes of
    the buffer. *)
Fixpoint read_words (n : nat) (buf : list Z) : M D (list Z) :=
  match n with
  | O => ret buf
  | S n =>
    let! w := inw ATA_DATA in
    read_words n (buf ++ [u8 w; u8 (Z.shiftr w 8)])
  end.

Definition ata_read_sector_once (lba : Z) : M D (option (list Z)) :=
  let! ok := ata_wait_bsy_clear in
  if negb ok then ret None
  else
    issue_command lba ATA_CMD_READ ;;
    let! ok := ata_wait_ready in
    if negb ok then ret None
    else let! buffer := read_words 256 [] in ret (Some buffer).

(** [buffer[i]], a 16-bit access to the bytes of the buffer. *)
Definition word (buf : list Z) (i : Z) : Z := buf.[2 * i] + 256 * buf.[2 * i + 1].

Fixpoint write_words (n : nat) (i : Z) (buf : list Z) : M D unit :=
  match n with
  | O => ret tt
  | S n => outw ATA_DATA (word buf i) ;; write_words n (i + 1) buf
  end.

Definition ata_write_sector_once (lba : Z) (buffer : list Z) : M D bool :=
  let! ok := ata_wait_bsy_clear in
  if negb ok then ret false
  else
    issue_command lba ATA_CMD_WRITE ;;
    let! ok := ata_wait_ready in
    if negb ok then ret false
    else
      write_words 256 0 buffer ;;
      outb ATA_COMMAND 231 ;;
      ata_wait_bsy_clear.

Fixpoint read_attempts (n : nat) (lba : Z) : M D (option (list Z)) :=
  match n with
  | O => ret None
  | S n =>
    let! r := ata_read_sector_once lba in
    match r with Some buffer => ret (Some buffer) | None => read_attempts n lba end
  end.
Definition ata_read_sector (lba : Z) : M D (option (list Z)) :=
  read_attempts (Z.to_nat ATA_MAX_RETRIES) lba.

Fixpoint write_attempts (n : nat) (lba : Z) (buffer : list Z) : M D bool :=
  match n with
  | O => ret false
  | S n =>
    let! ok := ata_write_sector_once lba buffer in
    if ok then ret true else write_attempts n lba buffer
  end.
Definition ata_write_sector (lba : Z) (buffer : list Z) : M D bool :=
  write_attempts (Z.to_nat ATA_MAX_RETRIES) lba buffer.
End driver.

(** ** The drive *)

Inductive transfer :=
  | NoTransfer
  | Sending (lba k : Z)            (* words [k ..] of the sector are left to read *)
  | Receiving (lba : Z) (ws : list Z). (* the words received so far *)

Record drive := mkDrive {
  media : Z -> list Z;
  reg_sel : Z; reg_cnt : Z; reg_low : Z; reg_mid : Z; reg_high : Z;
  xfer : transfer;
}.

Definition set_xfer t (v : drive) : drive :=
  mkDrive (media v) (reg_sel v) (reg_cnt v) (reg_low v) (reg_mid v) (reg_high v) t.
Definition set_register (p x : Z) (v : drive) : drive :=
  mkDrive (media v)
    (if p =? 502 then x else reg_sel v) (if p =? 498 then x else reg_cnt v)
    (if p =? 499 then x else reg_low v) (if p =? 500 then x else reg_mid v)
    (if p =? 501 then x else reg_high v) (xfer v).

(** The 28-bit address in the registers. *)
Definition addressed (v : drive) : Z :=
  reg_low v + 256 * reg_mid v + 65536 * reg_high v + 16777216 * Z.land (reg_sel v) 15.

Definition bytes_of_words (ws : list Z) : list Z :=
  concat (map (fun w => [u8 w; u8 (Z.shiftr w 8)]) ws).

Definition err (status : Z) : bool := negb (Z.land status 1 =? 0).
Definition bsy (status : Z) : bool := negb (Z.land status 128 =? 0).
Definition drq (status : Z) : bool := negb (Z.land status 8 =? 0).

(** [settles accept n d d']: within [n] reads of the status register, none
    with the error bit, [accept] holds of the last one, which leaves [d']. *)
Inductive settles {D} `{PortIO D} (accept : Z -> bool) : nat -> D -> D -> Prop :=
  | settles_now n d s d' :
      inb ATA_STATUS d = (s, d') -> err s = false -> accept s = true ->
      settles accept (S n) d d'
  | settles_later n d s d1 d' :
      inb ATA_STATUS d = (s, d1) -> err s = false -> accept s = false ->
      settles accept n d1 d' -> settles accept (S n) d d'.

(** What the standard documents.  [accepting]: BSY has been seen clear, the
    registers may be written; [requesting]: DRQ has been seen set, the data
    register may be accessed; [healthy]: the drive answers in time and
    without errors for the sectors below [capacity]. *)
Class AtaDrive (D : Type) `{PortIO D} := {
  view : D -> drive;
  accepting : D -> Prop;
  requesting : D -> Prop;
  healthy : D -> Prop;
  capacity : Z;
  capacity_lba28 : capacity <= 268435456;
  media_sector d lba : is_sector (media (view d) lba);
  status_read d s d' : inb ATA_STATUS d = (s, d') ->
    view d' = view d /\ (bsy s = false -> accepting d') /\
    (bsy s = false -> drq s = true -> requesting d') /\ (healthy d -> healthy d');
  register_write p x d d' : accepting d -> 498 <= p <= 502 -> is_byte x ->
    outb p x d = (tt, d') ->
    view d' = set_register p x (view d) /\ accepting d' /\ (healthy d -> healthy d');
  read_command d d' : accepting d -> reg_cnt (view d) = 1 ->
    outb ATA_COMMAND ATA_CMD_READ d = (tt, d') ->
    view d' = set_xfer (Sending (addressed (view d)) 0) (view d) /\ (healthy d -> healthy d');
  write_command d d' : accepting d -> reg_cnt (view d) = 1 ->
    outb ATA_COMMAND ATA_CMD_WRITE d = (tt, d') ->
    view d' = set_xfer (Receiving (addressed (view d)) []) (view d) /\ (healthy d -> healthy d');
  flush_command d d' : accepting d -> outb ATA_COMMAND 231 d = (tt, d') ->
    media (view d') = media (view d) /\ (healthy d -> healthy d');
  data_in d w d' lba k : requesting d -> xfer (view d) = Sending lba k -> 0 <= k < 256 ->
    inw ATA_DATA d = (w, d') ->
    w = word (media (view d) lba) k /\ view d' = set_xfer (Sending lba (k + 1)) (view d) /\
    (k < 255 -> requesting d') /\ (healthy d -> healthy d');
  data_out d w d' lba ws : requesting d -> xfer (view d) = Receiving lba ws -> alen ws < 256 ->
    outw ATA_DATA w d = (tt, d') ->
    (forall l, media (view d') l =
       if (alen ws =? 255) && (l =? lba) then bytes_of_words (ws ++ [w]) else media (view d) l) /\
    (alen ws < 255 -> xfer (view d') = Receiving lba (ws ++ [w]) /\ requesting d') /\
    (healthy d -> healthy d');
  healthy_settles d : healthy d -> exists d', settles (fun s => negb (bsy s)) (Z.to_nat 1000000) d d';
  healthy_ready d lba : healthy d -> 0 <= lba < capacity ->
    xfer (view d) = Sending lba 0 \/ xfer (view d) = Receiving lba [] ->
    exists d', settles (fun s => negb (bsy s) && drq s) (Z.to_nat 1000000) d d';
}.

(** What the driver needs beyond the standard.  After the last word of a sector
    the standard lets a drive set BSY, and forbids commands until it is clear;
    the driver writes FLUSH CACHE at once.  Either the drive has already taken
    the sector in, or it ignores the command written too early. *)
Definition ignores_flush {D} `{AtaDrive D} (d : D) : Prop :=
  forall d', outb ATA_COMMAND 231 d = (tt, d') -> view d' = view d /\ (healthy d -> healthy d').
Class EarlyFlush (D : Type) `{AtaDrive D} := {
  sector_taken d w d' lba ws : requesting d -> xfer (view d) = Receiving lba ws -> alen ws = 255 ->
    outw ATA_DATA w d = (tt, d') -> accepting d' \/ ignores_flush d';
}.

(** ** Words and bytes *)

Lemma word_bytes s k : is_sector s -> 0 <= k < 256 ->
  u8 (word s k) = s.[2 * k] /\ u8 (Z.shiftr (word s k) 8) = s.[2 * k + 1].
Proof.
  intros [Hl Hb] Hk. rewrite arr_Forall in Hb. unfold word.
  pose proof (Hb (2 * k)) as H1. pose proof (Hb (2 * k + 1)) as H2. rewrite Hl in *.
  unfold SECTOR in *. specialize (H1 ltac:(lia)). specialize (H2 ltac:(lia)).
  rewrite Z.shiftr_div_pow2 by lia. unfold u8, is_byte in *. change (2 ^ 8) with 256.
  split; Z.div_mod_to_equations; lia.
Qed.

(** The words from [k] on are the bytes from [2 * k] on. *)
Lemma words_from s k n : is_sector s -> 0 <= k -> k + Z.of_nat n = 256 ->
  bytes_of_words (map (word s) (seqZ k (Z.of_nat n))) = drop (Z.to_nat (2 * k)) s.
Proof.
  intros Hs. revert k. induction n as [|n IH]; intros k Hk Hn.
  - rewrite drop_ge; [done|]. destruct Hs as [Hl _]. unfold alen, SECTOR in Hl. lia.
  - rewrite seqZ_cons by lia. cbn [map]. replace (Z.pred (Z.of_nat (S n))) with (Z.of_nat n) by lia.
    unfold bytes_of_words in *. cbn [map concat app]. replace (Z.succ k) with (k + 1) by lia.
    rewrite IH by lia. destruct (word_bytes s k Hs ltac:(lia)) as [-> ->]. destruct Hs as [Hl _].
    unfold SECTOR in Hl. rewrite (drop_S s s.[2 * k] (Z.to_nat (2 * k))) by (apply arr_lookup_get; lia).
    f_equal. replace (S (Z.to_nat (2 * k))) with (Z.to_nat (2 * k + 1)) by lia.
    rewrite (drop_S s s.[2 * k + 1] (Z.to_nat (2 * k + 1))) by (apply arr_lookup_get; lia).
    f_equal. f_equal. lia.
Qed.

Lemma all_words s : is_sector s -> bytes_of_words (map (word s) (seqZ 0 256)) = s.
Proof. intros Hs. by apply (words_from s 0 256). Qed.

(** The bits that the driver puts in the registers give the address back. *)
Lemma addressed_lba lba v : 0 <= lba < 268435456 ->
  reg_sel v = u8 (Z.lor 224 (Z.land (Z.shiftr lba 24) 15)) ->
  reg_low v = u8 lba -> reg_mid v = u8 (Z.shiftr lba 8) -> reg_high v = u8 (Z.shiftr lba 16) ->
  addressed v = lba.
Proof.
  intros Hl Hs Hlo Hmi Hhi. unfold addressed. rewrite Hs, Hlo, Hmi, Hhi.
  set (x := Z.land (Z.shiftr lba 24) 15).
  assert (Hx : x = lba / 16777216).
  { unfold x. rewrite (Z.land_ones _ 4), Z.shiftr_div_pow2 by lia.
    change (2 ^ 24) with 16777216. change (2 ^ 4) with 16. Z.div_mod_to_equations. lia. }
  assert (Hsel : Z.land (u8 (Z.lor 224 x)) 15 = x).
  { assert (E : forallb (fun y => Z.land (u8 (Z.lor 224 y)) 15 =? y) (seqZ 0 16) = true) by done.
    rewrite forallb_forall in E. apply Z.eqb_eq, E, list_elem_of_In, elem_of_seqZ.
    rewrite Hx. Z.div_mod_to_equations. lia. }
  rewrite Hsel, Hx, !Z.shiftr_div_pow2 by lia. unfold u8.
  change (2 ^ 8) with 256. change (2 ^ 16) with 65536. Z.div_mod_to_equations. lia.
Qed.

(** ** The driver against the drive *)

Section refinement.
Context {D : Type} `{HP : PortIO D} `{HA : !AtaDrive D} `{HE : !EarlyFlush D}.
Implicit Types d : D.

Lemma bsy_clear_loop_spec n d r d' : bsy_clear_loop n d = (r, d') ->
  view d' = view d /\ (healthy d -> healthy d') /\ (r = true -> accepting d').
Proof.
  revert d. induction n as [|n IH]; intros d; cbn; [by intros [= <- <-]|].
  unfold bind. destruct (inb ATA_STATUS d) as [s d1] eqn:E.
  destruct (status_read _ _ _ E) as (Hv & Ha & _ & Hh). fold (err s). unfold ret.
  destruct (err s); [by intros [= <- <-]|].
  destruct (Z.land s 128 =? 0) eqn:Eb.
  - intros [= <- <-]. split_and!; [done|done|]. intros _. apply Ha. unfold bsy. by rewrite Eb.
  - intros Hl. destruct (IH d1 Hl) as (Hv' & Hh' & Ha'). split_and!; [by rewrite Hv'|auto|done].
Qed.

Lemma ready_loop_spec n d r d' : ready_loop n d = (r, d') ->
  view d' = view d /\ (healthy d -> healthy d') /\ (r = true -> requesting d').
Proof.
  revert d. induction n as [|n IH]; intros d; cbn; [by intros [= <- <-]|].
  unfold bind. destruct (inb ATA_STATUS d) as [s d1] eqn:E.
  destruct (status_read _ _ _ E) as (Hv & _ & Hr & Hh). fold (err s) (drq s). unfold ret.
  destruct (err s); [by intros [= <- <-]|].
  destruct (Z.land s 128 =? 0) eqn:Eb, (drq s) eqn:Ed; cbn [andb];
    try (intros Hl; destruct (IH d1 Hl) as (Hv' & Hh' & Ha'); split_and!; [by rewrite Hv'|auto|done]).
  intros [= <- <-]. split_and!; [done|done|]. intros _. apply Hr; [|done]. unfold bsy. by rewrite Eb.
Qed.

Lemma settles_bsy n d d' : settles (fun s => negb (bsy s)) n d d' -> bsy_clear_loop n d = (true, d').
Proof.
  induction 1 as [n d s d' E He Ha|n d s d1 d' E He Ha _ IH]; cbn; unfold bind; rewrite E;
    fold (err s); rewrite He; unfold bsy in Ha; rewrite negb_involutive in Ha; by rewrite Ha.
Qed.

Lemma settles_ready n d d' : settles (fun s => negb (bsy s) && drq s) n d d' ->
  ready_loop n d = (true, d').
Proof.
  induction 1 as [n d s d' E He Ha|n d s d1 d' E He Ha _ IH]; cbn; unfold bind; rewrite E;
    fold (err s); rewrite He; fold (drq s); unfold bsy in Ha; rewrite negb_involutive in Ha; by rewrite Ha.
Qed.

(** The registers hold the address when the command is written. *)
Lemma issue_command_spec lba cmd d d' : accepting d ->
  issue_command lba cmd d = (tt, d') ->
  exists d5, outb ATA_COMMAND cmd d5 = (tt, d') /\ accepting d5 /\ media (view d5) = media (view d) /\
    reg_cnt (view d5) = 1 /\ (0 <= lba < 268435456 -> addressed (view d5) = lba) /\
    (healthy d -> healthy d5).
Proof.
  intros Ha. unfold issue_command, bind.
  destruct (outb ATA_DRIVE_SEL _ d) as [[] d1] eqn:E1.
  apply register_write in E1 as (V1 & A1 & H1); [|done|done|apply u8_range].
  destruct (outb ATA_SECTOR_CNT _ d1) as [[] d2] eqn:E2.
  apply register_write in E2 as (V2 & A2 & H2); [|done|done|done].
  destruct (outb ATA_LBA_LOW _ d2) as [[] d3] eqn:E3.
  apply register_write in E3 as (V3 & A3 & H3); [|done|done|apply u8_range].
  destruct (outb ATA_LBA_MID _ d3) as [[] d4] eqn:E4.
  apply register_write in E4 as (V4 & A4 & H4); [|done|done|apply u8_range].
  destruct (outb ATA_LBA_HIGH _ d4) as [[] d5] eqn:E5.
  apply register_write in E5 as (V5 & A5 & H5); [|done|done|apply u8_range].
  rewrite V4, V3, V2, V1 in V5. intros Hc. exists d5. rewrite V5.
  split_and!; [done|done|done|done|intros Hl; by apply addressed_lba|tauto].
Qed.

Lemma read_words_spec n buf d buf' d' lba k : read_words n buf d = (buf', d') ->
  requesting d -> xfer (view d) = Sending lba k -> 0 <= k -> k + Z.of_nat n = 256 ->
  buf' = buf ++ bytes_of_words (map (word (media (view d) lba)) (seqZ k (Z.of_nat n))) /\
  media (view d') = media (view d) /\ (healthy d -> healthy d').
Proof.
  revert buf d k. induction n as [|n IH]; intros buf d k; cbn [read_words].
  - intros [= <- <-] _ _ _ _. by rewrite app_nil_r.
  - unfold bind. destruct (inw ATA_DATA d) as [w d1] eqn:E. intros Hr Hq Hx Hk Hn.
    destruct (data_in d w d1 lba k Hq Hx) as (Hw & Hv & Hq1 & Hh); [lia|done|].
    destruct n as [|n].
    + injection Hr as <- <-. rewrite Hv. split_and!; [|done|done].
      rewrite seqZ_cons by lia. cbn. by rewrite <- Hw.
    + apply (IH _ _ (k + 1)) in Hr as (-> & Hm & Hh'); [|apply Hq1; lia|by rewrite Hv|lia|lia].
      rewrite Hm, Hv. split_and!; [|done|auto]. rewrite <- app_assoc. f_equal.
      rewrite (seqZ_cons k) by lia. replace (Z.pred (Z.of_nat (S (S n)))) with (Z.of_nat (S n)) by lia.
      replace (Z.succ k) with (k + 1) by lia. cbn [map bytes_of_words concat app]. by rewrite <- Hw.
Qed.

Lemma write_words_spec n i buf d d' lba : write_words (S n) i buf d = (tt, d') ->
  requesting d -> xfer (view d) = Receiving lba (map (word buf) (seqZ 0 i)) ->
  0 <= i -> i + Z.of_nat (S n) = 256 ->
  (forall l, media (view d') l =
     if l =? lba then bytes_of_words (map (word buf) (seqZ 0 256)) else media (view d) l) /\
  (accepting d' \/ ignores_flush d') /\ (healthy d -> healthy d').
Proof.
  revert i d. induction n as [|n IH]; intros i d Hw Hq Hx Hi Hn;
    cbn [write_words] in Hw; unfold bind in Hw;
    destruct (outw ATA_DATA (word buf i) d) as [[] d1] eqn:E;
    (assert (Hlen : alen (map (word buf) (seqZ 0 i)) = i) by (unfold alen; rewrite length_map, length_seqZ; lia));
    pose proof (fun Hl => sector_taken _ _ _ _ _ Hq Hx Hl E) as Hf; rewrite Hlen in Hf;
    destruct (data_out _ _ _ _ _ Hq Hx ltac:(lia) E) as (Hv & Hq1 & Hh); rewrite Hlen in Hv, Hq1;
    (assert (Hsnoc : map (word buf) (seqZ 0 i) ++ [word buf i] = map (word buf) (seqZ 0 (i + 1)))
       by (rewrite seqZ_app by lia; by rewrite map_app)); rewrite Hsnoc in Hv, Hq1.
  - injection Hw as <-. replace i with 255 in * by lia. split_and!; [done|by apply Hf|done].
  - rewrite (proj2 (Z.eqb_neq i 255)) in Hv by lia. destruct Hq1 as [Hx1 Hq1]; [lia|].
    destruct (IH (i + 1) d1 Hw) as (Hm & Hf' & Hh'); [done|done|lia|lia|].
    split; [|auto]. intros l. rewrite Hm. by rewrite Hv.
Qed.

(** The command written after the sector. *)
Lemma early_flush_spec d d' : accepting d \/ ignores_flush d -> outb ATA_COMMAND 231 d = (tt, d') ->
  media (view d') = media (view d) /\ (healthy d -> healthy d').
Proof. intros [Ha|Hi] E; [by apply flush_command|]. by destruct (Hi _ E) as [-> ?]. Qed.

(** One attempt at a read. *)
Lemma read_once_spec lba d r d' : ata_read_sector_once lba d = (r, d') ->
  (0 <= lba < 268435456 -> forall s, r = Some s -> s = media (view d) lba) /\
  media (view d') = media (view d) /\ (healthy d -> healthy d') /\
  (healthy d -> 0 <= lba < capacity -> r <> None).
Proof.
  pose proof capacity_lba28 as Hcl. unfold ata_read_sector_once, bind, ata_wait_bsy_clear, ata_wait_ready.
  pose proof (healthy_settles d) as Hset. pose proof (fun d => healthy_ready d lba) as Hrdy.
  revert Hset Hrdy. generalize (Z.to_nat 1000000). intros N Hset Hrdy.
  destruct (bsy_clear_loop N d) as [ok d1] eqn:E1. destruct (bsy_clear_loop_spec _ _ _ _ E1) as (V1 & H1 & A1).
  destruct ok; cbn [negb ret].
  2:{ intros [= <- <-]. rewrite V1. split_and!; [done|done|done|].
      intros Hh. destruct (Hset Hh) as [d2 Hs]. apply settles_bsy in Hs. congruence. }
  destruct (issue_command lba ATA_CMD_READ d1) as [[] d2] eqn:E2.
  destruct (issue_command_spec _ _ _ _ (A1 eq_refl) E2) as (d5 & Ec & Aa & Hm & Hc & Had & Hh5).
  destruct (read_command _ _ Aa Hc Ec) as [V2 H2]. set (a := addressed (view d5)) in *.
  destruct (ready_loop N d2) as [ok d3] eqn:E3. destruct (ready_loop_spec _ _ _ _ E3) as (V3 & H3 & Q3).
  assert (Hm3 : media (view d3) = media (view d)) by (rewrite V3, V2; cbn; by rewrite Hm, V1).
  destruct ok; cbn [negb].
  2:{ intros [= <- <-]. split_and!; [done|done|auto 10|].
      intros Hh Hcap. rewrite Had in V2 by lia.
      destruct (Hrdy d2) as [d4 Hs]; [auto 10|lia|left; by rewrite V2|].
      apply settles_ready in Hs. congruence. }
  destruct (read_words 256 [] d3) as [buf d4] eqn:E4. intros [= <- <-].
  apply (read_words_spec _ _ _ _ _ a 0) in E4 as (Hbuf & Hm4 & Hh4);
    [|by apply Q3|by rewrite V3, V2|lia|lia].
  change (Z.of_nat 256) with 256 in Hbuf. rewrite app_nil_l, all_words in Hbuf by apply media_sector.
  split_and!; [|congruence|auto 10|done]. intros Hl s [= <-]. by rewrite Hbuf, Hm3, Had.
Qed.

(** One attempt at a write: it changes at most the sector written. *)
Lemma write_once_spec lba s d r d' : 0 <= lba < 268435456 ->
  ata_write_sector_once lba s d = (r, d') ->
  (is_sector s -> r = true -> media (view d') lba = s) /\
  (forall l, l <> lba -> media (view d') l = media (view d) l) /\
  (healthy d -> healthy d') /\ (healthy d -> lba < capacity -> r = true).
Proof.
  intros Hl. unfold ata_write_sector_once, bind, ata_wait_bsy_clear, ata_wait_ready.
  pose proof healthy_settles as Hset. pose proof (fun d => healthy_ready d lba) as Hrdy.
  revert Hset Hrdy. generalize (Z.to_nat 1000000). intros N Hset Hrdy.
  destruct (bsy_clear_loop N d) as [ok d1] eqn:E1. destruct (bsy_clear_loop_spec _ _ _ _ E1) as (V1 & H1 & A1).
  destruct ok; cbn [negb ret].
  2:{ intros [= <- <-]. rewrite V1. split_and!; [done|done|done|].
      intros Hh. destruct (Hset _ Hh) as [d2 Hs2]. apply settles_bsy in Hs2. congruence. }
  destruct (issue_command lba ATA_CMD_WRITE d1) as [[] d2] eqn:E2.
  destruct (issue_command_spec _ _ _ _ (A1 eq_refl) E2) as (d5 & Ec & Aa & Hm & Hc & Had & Hh5).
  destruct (write_command _ _ Aa Hc Ec) as [V2 H2]. rewrite (Had Hl) in V2.
  destruct (ready_loop N d2) as [ok d3] eqn:E3. destruct (ready_loop_spec _ _ _ _ E3) as (V3 & H3 & Q3).
  assert (Hm3 : media (view d3) = media (view d)) by (rewrite V3, V2; cbn; by rewrite Hm, V1).
  destruct ok; cbn [negb].
  2:{ intros [= <- <-]. rewrite Hm3. split_and!; [done|done|auto 10|].
      intros Hh Hcap. destruct (Hrdy d2) as [d4 Hs4]; [auto 10|lia|right; by rewrite V2|].
      apply settles_ready in Hs4. congruence. }
  destruct (write_words 256 0 s d3) as [[] d4] eqn:E4.
  apply (write_words_spec _ _ _ _ _ lba) in E4 as (Hm4 & Hf4 & Hh4); [|by apply Q3|by rewrite V3, V2|lia|lia].
  destruct (outb ATA_COMMAND 231 d4) as [[] d6] eqn:E6.
  destruct (early_flush_spec _ _ Hf4 E6) as [Hm6 Hh6].
  intros E7. destruct (bsy_clear_loop_spec _ _ _ _ E7) as (V7 & H7 & _). rewrite V7, Hm6.
  split_and!; [|intros l Hne|auto 10|].
  - intros Hs _. by rewrite Hm4, Z.eqb_refl, all_words.
  - by rewrite Hm4, (proj2 (Z.eqb_neq _ _)), Hm3.
  - intros Hh _. destruct (Hset d6) as [d8 Hs8]; [auto 10|]. apply settles_bsy in Hs8. congruence.
Qed.

Lemma read_attempts_spec n lba d r d' : read_attempts n lba d = (r, d') ->
  (0 <= lba < 268435456 -> forall s, r = Some s -> s = media (view d) lba) /\
  media (view d') = media (view d) /\ (healthy d -> healthy d') /\
  (healthy d -> 0 <= lba < capacity -> (0 < n)%nat -> r <> None).
Proof.
  revert d. induction n as [|n IH]; intros d; cbn [read_attempts].
  - intros [= <- <-]. split_and!; done || lia.
  - unfold bind. destruct (ata_read_sector_once lba d) as [r1 d1] eqn:E1.
    destruct (read_once_spec _ _ _ _ E1) as (V1 & M1 & H1 & N1). destruct r1 as [s|].
    + intros [= <- <-]. split_and!; auto.
    + intros E2. destruct (IH _ E2) as (V2 & M2 & H2 & N2). rewrite M1 in *.
      split_and!; [done|done|auto|]. intros Hh Hc. by destruct (N1 Hh Hc).
Qed.

Lemma write_attempts_spec n lba s d r d' : 0 <= lba < 268435456 ->
  write_attempts n lba s d = (r, d') ->
  (is_sector s -> r = true -> media (view d') lba = s) /\
  (forall l, l <> lba -> media (view d') l = media (view d) l) /\
  (healthy d -> healthy d') /\ (healthy d -> lba < capacity -> (0 < n)%nat -> r = true).
Proof.
  intros Hl. revert d. induction n as [|n IH]; intros d; cbn [write_attempts].
  - intros [= <- <-]. split_and!; done || lia.
  - unfold bind. destruct (ata_write_sector_once lba s d) as [r1 d1] eqn:E1.
    destruct (write_once_spec _ _ _ _ _ Hl E1) as (V1 & M1 & H1 & N1). destruct r1.
    + intros [= <- <-]. split_and!; auto.
    + intros E2. destruct (IH _ E2) as (V2 & M2 & H2 & N2).
      split_and!; [done| |auto|]; [|intros Hh Hc; specialize (N1 Hh Hc); done].
      intros l Hne. by rewrite M2, M1.
Qed.

Lemma retries_positive : (0 < Z.to_nat ATA_MAX_RETRIES)%nat.
Proof. unfold ATA_MAX_RETRIES. lia. Qed.


(** The contract of the file system. *)
#[export] Instance ata_device : BlockDevice D := {
  BlockDev.ata_read_sector := ata_read_sector;
  BlockDev.ata_write_sector := ata_write_sector;
}.

#[export, refine] Instance ata_device_laws : BlockDeviceLaws D := {
  disk d lba := media (view d) lba;
  working := healthy;
  nsectors := capacity;
}.
Proof.
  - apply capacity_lba28.
  - intros. apply media_sector.
  - intros lba d s d' Hl E. by apply (read_attempts_spec _ _ _ _ _ E).
  - intros lba d r d' l E. by destruct (read_attempts_spec _ _ _ _ _ E) as (_ & -> & _).
  - intros lba s d d' Hl Hs E. by apply (write_attempts_spec _ _ _ _ _ _ Hl E).
  - intros lba s d r d' l Hl Hne E. by apply (write_attempts_spec _ _ _ _ _ _ Hl E).
  - intros d lba Hh Hl. destruct (ata_read_sector lba d) as [[s|] d'] eqn:E;
      destruct (read_attempts_spec _ _ _ _ _ E) as (_ & _ & Hh' & Hn); [by eauto|].
    destruct (Hn Hh Hl); [apply retries_positive|done].
  - intros d lba s Hh Hs Hl. pose proof capacity_lba28.
    destruct (ata_write_sector lba s d) as [r d'] eqn:E.
    assert (Hr : 0 <= lba < 268435456) by lia.
    destruct (write_attempts_spec _ _ _ _ _ _ Hr E) as (_ & _ & Hh' & Hn).
    exists d'. rewrite Hn in E by (done || lia || apply retries_positive). split; [exact E|auto].
Defined.
End refinement.

(** ** Concrete drives

    After a command, and after the last word of a sector, the drive is busy for
    [p_latency] polls; each command takes the head of [p_faults], and when it
    is [true] ends with the error bit set, which stays until the next command.
    A command written while the drive is busy is ignored, or aborted with the
    error bit when the drive is [strict]: the standard allows both. *)
Record pio (strict : bool) := mkPio {
  p_drive : drive;
  p_busy : nat;
  p_latency : nat;
  p_error : bool;
  p_faults : list bool;
}.
Arguments mkPio {strict} _ _ _ _ _.
Arguments p_drive {strict} _.
Arguments p_busy {strict} _.
Arguments p_latency {strict} _.
Arguments p_error {strict} _.
Arguments p_faults {strict} _.

Definition store_sector lba s (v : drive) : drive :=
  mkDrive (fun l => if l =? lba then s else media v l)
    (reg_sel v) (reg_cnt v) (reg_low v) (reg_mid v) (reg_high v) NoTransfer.

Definition transferring (t : transfer) : bool :=
  match t with NoTransfer => false | Sending _ k => k <? 256 | Receiving _ _ => true end.

Section pio.
Context {strict : bool}.
Implicit Types d : pio strict.

Definition with_drive v (d : pio strict) : pio strict :=
  mkPio v (p_busy d) (p_latency d) (p_error d) (p_faults d).

Definition pio_status (d : pio strict) : Z * pio strict :=
  match p_busy d with
  | S n => (128, mkPio (p_drive d) n (p_latency d) (p_error d) (p_faults d))
  | O => (if p_error d then 65 else if transferring (xfer (p_drive d)) then 72 else 64, d)
  end.

Definition pio_command (cmd : Z) (d : pio strict) : pio strict :=
  match p_busy d with
  | S _ => if strict then mkPio (p_drive d) (p_busy d) (p_latency d) true (p_faults d) else d
  | O =>
    let v := p_drive d in
    let v :=
      if cmd =? ATA_CMD_READ then set_xfer (Sending (addressed v) 0) v
      else if cmd =? ATA_CMD_WRITE then set_xfer (Receiving (addressed v) []) v
      else v in
    mkPio v (p_latency d) (p_latency d)
      (match p_faults d with f :: _ => f | [] => false end) (tail (p_faults d))
  end.

#[export] Instance pio_ports : PortIO (pio strict) := {
  inb p d := if p =? ATA_STATUS then pio_status d else (0, d);
  outb p x d := (tt, if p =? ATA_COMMAND then pio_command x d
                     else with_drive (set_register p x (p_drive d)) d);
  inw p d :=
    match xfer (p_drive d) with
    | Sending lba k => (word (sector_of (media (p_drive d) lba)) k,
                        with_drive (set_xfer (Sending lba (k + 1)) (p_drive d)) d)
    | _ => (0, d)
    end;
  outw p w d :=
    (tt, match xfer (p_drive d) with
         | Receiving lba ws =>
           if alen ws =? 255
           then mkPio (store_sector lba (bytes_of_words (ws ++ [w])) (p_drive d)) (p_latency d) (p_latency d)
                  (p_error d) (p_faults d)
           else with_drive (set_xfer (Receiving lba (ws ++ [w])) (p_drive d)) d
         | _ => d
         end);
}.

Definition pio_view (d : pio strict) : drive :=
  let v := p_drive d in
  mkDrive (fun l => sector_of (media v l))
    (reg_sel v) (reg_cnt v) (reg_low v) (reg_mid v) (reg_high v) (xfer v).

Definition pio_healthy (d : pio strict) : Prop :=
  p_error d = false /\ p_faults d = [] /\ (p_busy d < Z.to_nat 1000000)%nat /\
  (p_latency d < Z.to_nat 1000000)%nat.

Lemma pio_settles accept n d : (p_busy d < n)%nat -> accept 128 = false ->
  p_error d = false ->
  accept (if transferring (xfer (p_drive d)) then 72 else 64) = true ->
  exists d', settles accept n d d'.
Proof.
  revert d. induction n as [|n IH]; intros d Hb H128 He Ha; [lia|].
  destruct (p_busy d) as [|b] eqn:Eb.
  - exists d. apply (settles_now _ _ _ (if transferring (xfer (p_drive d)) then 72 else 64));
      [|by destruct (transferring _)|exact Ha]. cbn. unfold pio_status. by rewrite Eb, He.
  - destruct (IH (mkPio (p_drive d) b (p_latency d) (p_error d) (p_faults d))) as [d' Hd'];
      [cbn; lia|done|done|done|].
    exists d'. refine (settles_later _ _ d 128 _ _ _ eq_refl H128 Hd').
    cbn. unfold pio_status. by rewrite Eb.
Qed.

Lemma is_sector_words ws : alen ws = 256 -> is_sector (bytes_of_words ws).
Proof.
  intros Hl. assert (H : alen (bytes_of_words ws) = 2 * alen ws /\ Forall is_byte (bytes_of_words ws)).
  { clear Hl. unfold bytes_of_words. induction ws as [|w ws [IH1 IH2]]; [done|]. cbn. split.
    - unfold alen in *. cbn [length] in *. lia.
    - repeat constructor; auto; apply u8_range. }
  destruct H as [H1 H2]. split; [|done]. rewrite H1, Hl. done.
Qed.

Lemma pio_commanded cmd d : p_busy d = O -> p_faults d = [] ->
  pio_healthy d -> pio_healthy (pio_command cmd d).
Proof. intros Hb Hf (He & _ & _ & Hl). unfold pio_healthy, pio_command. rewrite Hb, Hf. by cbn. Qed.

#[export, refine] Instance pio_laws : AtaDrive (pio strict) := {
  view := pio_view;
  accepting d := p_busy d = O;
  requesting d := True;
  healthy := pio_healthy;
  capacity := 602;
}.
Proof.
  - done.
  - intros. apply is_sector_of.
  - intros d s d'. cbn. unfold pio_status, pio_healthy. destruct (p_busy d) as [|n] eqn:Eb.
    + intros [= <- <-]. by rewrite Eb.
    + intros [= <- <-]. cbn. split_and!; [done|done|done|]. intros (? & ? & ? & ?). split_and!; [done|done|lia|done].
  - intros p x d d' Ha Hp Hx. cbn. unfold ATA_COMMAND. rewrite (proj2 (Z.eqb_neq p 503)) by lia.
    by intros [= <-].
  - intros d d' Ha Hc [= <-]. split; [unfold pio_command; by rewrite Ha|]. intros Hh. by apply pio_commanded; [|apply Hh|].
  - intros d d' Ha Hc [= <-]. split; [unfold pio_command; by rewrite Ha|]. intros Hh. by apply pio_commanded; [|apply Hh|].
  - intros d d' Ha [= <-]. split; [unfold pio_command; by rewrite Ha|]. intros Hh. by apply pio_commanded; [|apply Hh|].
  - intros d w d' lba k _ Hx Hk. cbn in *. rewrite Hx. by intros [= <- <-].
  - intros d w d' lba ws _ Hx Hws. cbn in *. rewrite Hx. intros [= <-].
    destruct (Z.eqb_spec (alen ws) 255) as [E|E]; cbn; (split_and!; [|split; done || lia|]); [|by intros (? & ? & ? & ?)|done|done].
    intros l. destruct (l =? lba); [|done]. apply sector_of_id, is_sector_words.
    unfold alen in *. rewrite length_app. cbn. lia.
  - intros d (He & Hf & Hb & Hl). apply pio_settles; [done|done|done|]. by destruct (transferring _).
  - intros d lba (He & Hf & Hb & Hl) _ Hx. apply pio_settles; [done|done|done|]. cbn in Hx.
    by destruct Hx as [-> | ->].
Defined.

Definition blank_drive : drive := mkDrive (fun _ => []) 0 0 0 0 0 NoTransfer.
Definition demo_pio : pio strict := mkPio blank_drive 1 2 false [].

Lemma demo_healthy : pio_healthy demo_pio.
Proof. unfold pio_healthy. cbn [p_error p_faults p_busy p_latency demo_pio]. split_and!; [done|done|lia|lia]. Qed.
End pio.

(** The drive that ignores early commands. *)
#[export] Instance pio_early_flush : EarlyFlush (pio false).
Proof.
  split. intros d w d' lba ws _ Hx Hl. cbn in *. rewrite Hx, Hl. intros [= <-].
  destruct (p_latency d) as [|n] eqn:E; [by left|right]. intros d'. cbn. unfold pio_command. cbn [p_busy].
  by intros [= <-].
Qed.

(** The strict drive: it obeys the standard and answers in time, but the early
    command ends in error, so the driver reports a failed write although the
    sector was stored, and refuses every access from then on. *)
Lemma ata_early_flush_fails : let d := demo_pio (strict := true) in let '(r, d') := ata_write_sector 5 (sector_of [1; 2]) d in
  healthy d /\ r = false /\ media (view d') 5 = sector_of [1; 2] /\ fst (ata_read_sector 7 d') = None.
Proof.
  cbv zeta. pose proof (@demo_healthy true) as Hd.
  assert (E : let '(r, d') := ata_write_sector 5 (sector_of [1; 2]) (demo_pio (strict := true)) in
    r = false /\ media (view d') 5 = sector_of [1; 2] /\ fst (ata_read_sector 7 d') = None) by (by vm_compute).
  destruct (ata_write_sector _ _ _) as [r d']. by split.
Qed.


(** ** Errors are never cleared *)

Section sticky.
Context {D : Type} `{PortIO D}.

(** The state after [n] reads of the status register. *)
Fixpoint polls (n : nat) (d : D) : D :=
  match n with O => d | S n => polls n (snd (inb ATA_STATUS d)) end.

Inductive access := ReadAt (lba : Z) | WriteAt (lba : Z) (s : list Z).

(** Whether the access succeeds. *)
Definition perform (a : access) : M D bool :=
  match a with
  | ReadAt lba => let! r := ata_read_sector lba in ret (bool_decide (is_Some r))
  | WriteAt lba s => ata_write_sector lba s
  end.

Fixpoint perform_all (l : list access) : M D (list bool) :=
  match l with
  | [] => ret []
  | a :: l => let! b := perform a in let! bs := perform_all l in ret (b :: bs)
  end.

(** The status register shows the error bit however often it is read. *)
Definition error_latched (d : D) : Prop := forall n, err (fst (inb ATA_STATUS (polls n d))) = true.

Lemma latched_next d : error_latched d -> error_latched (polls 1 d).
Proof. intros Hd n. apply (Hd (S n)). Qed.

Lemma latched_wait n d : error_latched d -> bsy_clear_loop (S n) d = (false, polls 1 d).
Proof.
  intros Hd. specialize (Hd 0%nat). cbn in *. unfold bind.
  destruct (inb ATA_STATUS d) as [s d1]. unfold err in Hd. cbn in Hd. by rewrite Hd.
Qed.

Lemma latched_bsy_clear d : error_latched d -> ata_wait_bsy_clear d = (false, polls 1 d).
Proof.
  intros Hd. unfold ata_wait_bsy_clear.
  replace (Z.to_nat 1000000) with (S (Z.to_nat 999999)) by lia. by apply latched_wait.
Qed.

Lemma latched_attempts k d : error_latched d ->
  (forall lba, read_attempts k lba d = (None, polls k d)) /\
  (forall lba s, write_attempts k lba s d = (false, polls k d)).
Proof.
  revert d. induction k as [|k IH]; intros d Hd; [done|].
  destruct (IH _ (latched_next d Hd)) as [H1 H2].
  split; intros; cbn [read_attempts write_attempts]; unfold bind, ata_read_sector_once,
    ata_write_sector_once, bind; rewrite latched_bsy_clear by done; cbn [negb ret]; [apply H1|apply H2].
Qed.

Lemma polls_add n k d : polls n (polls k d) = polls (k + n) d.
Proof. revert d. induction k as [|k IH]; intros d; cbn; [done|]. apply IH. Qed.

Lemma latched_perform a d : error_latched d -> perform a d = (false, polls 3 d).
Proof.
  intros Hd. destruct (latched_attempts 3 d Hd) as [H1 H2]. unfold perform.
  destruct a as [lba|lba s]; [|apply H2]. unfold bind. change (ata_read_sector lba d) with (read_attempts 3 lba d).
  by rewrite H1.
Qed.

(** C23: the driver looks for the error bit before it issues a command, and a
    drive keeps that bit until its next command; so once a command has ended
    in error, every later read and write fails, whatever the number of
    retries, without any command reaching the drive: the only accesses left
    are reads of the status register. *)
Theorem ata_error_sticky d ops : error_latched d ->
  perform_all ops d = (repeat false (length ops), polls (3 * length ops) d).
Proof.
  revert d. induction ops as [|a ops IH]; intros d Hd; cbn [perform_all length repeat]; [done|].
  unfold bind. rewrite latched_perform by done.
  rewrite IH by (intros n; rewrite polls_add; apply Hd). unfold ret. by rewrite polls_add, Nat.mul_succ_r, Nat.add_comm.
Qed.
End sticky.

(** One command that fails once, on a drive without any other fault. *)
Definition failed_pio : pio false := snd (ata_read_sector_once 5 (mkPio blank_drive 0 2 false [true])).

Lemma failed_pio_latched : p_faults failed_pio = [] /\ error_latched failed_pio.
Proof.
  assert (E : p_faults failed_pio = [] /\ inb ATA_STATUS failed_pio = (65, failed_pio)) by (by vm_compute).
  destruct E as [Ef E]. split; [exact Ef|]. intros n. induction n as [|n IH].
  - cbn [polls]. by rewrite E.
  - cbn [polls]. rewrite E. exact IH.
Qed.

Lemma ata_error_sticky_witness :
  p_faults failed_pio = [] /\
  perform_all [ReadAt 5; WriteAt 5 []; ReadAt 7] failed_pio = ([false; false; false], polls 9 failed_pio).
Proof.
  split; [apply failed_pio_latched|].
  apply (ata_error_sticky failed_pio [ReadAt 5; WriteAt 5 []; ReadAt 7]). apply failed_pio_latched.
Defined.
