(* ===== verification/Screen.v ===== *)
(** * The console ([kernel/screen.c], [kernel/serial.c])

    Characters go to the serial line and to the VGA text memory at 0xB8000,
    which is part of physical memory: an out-of-range cursor would write
    elsewhere.  The console refines a terminal of 25 rows of 80 characters,
    and the decimal and hexadecimal texts denote the number printed. *)
From stdpp Require Import base numbers list list_numbers.
From S2P Require Import Prelude Machine.

Definition VIDEO_ADDRESS : Z := 753664.
Definition MAX_ROWS : Z := 25.
Definition MAX_COLS : Z := 80.

(** The static variables, the memory, and what has been sent to the serial
    line ([serial_write_char] waits for the transmitter, then sends) and to
    the VGA ports, oldest first. *)
Record screen := mkScreen {
  vmem : memory;
  cursor_x : Z;
  cursor_y : Z;
  current_color : Z;
  serial : list Z;
  vga_ports : list (Z * Z);
}.

Definition set_vmem m s := mkScreen m (cursor_x s) (cursor_y s) (current_color s) (serial s) (vga_ports s).
Definition set_cursor x y s := mkScreen (vmem s) x y (current_color s) (serial s) (vga_ports s).
Definition serial_write_char c s :=
  mkScreen (vmem s) (cursor_x s) (cursor_y s) (current_color s) (serial s ++ [u8 c]) (vga_ports s).
Definition vga_outb port v s :=
  mkScreen (vmem s) (cursor_x s) (cursor_y s) (current_color s) (serial s) (vga_ports s ++ [(port, v)]).

Definition update_cursor (s : screen) : screen :=
  let pos := u16 (cursor_y s * MAX_COLS + cursor_x s) in
  vga_outb 981 (u8 (Z.land (Z.shiftr pos 8) 255))
    (vga_outb 980 14 (vga_outb 981 (u8 (Z.land pos 255)) (vga_outb 980 15 s))).

(** [vidmem[i] = ' '; vidmem[i+1] = current_color;] for the [n] cells from
    cell [c] on. *)
Definition blank_cells (n : nat) (c color : Z) (m : memory) : memory :=
  for_loop n c (fun j m => store8 (store8 m (VIDEO_ADDRESS + 2 * j) 32) (VIDEO_ADDRESS + (2 * j + 1)) color) m.

Definition scroll (s : screen) : screen :=
  let m := for_loop (Z.to_nat ((MAX_ROWS - 1) * MAX_COLS * 2)) 0
    (fun i m => store8 m (VIDEO_ADDRESS + i) (load8 m (VIDEO_ADDRESS + (i + MAX_COLS * 2)))) (vmem s) in
  let m := blank_cells (Z.to_nat MAX_COLS) ((MAX_ROWS - 1) * MAX_COLS) (current_color s) m in
  set_cursor (cursor_x s) (MAX_ROWS - 1) (set_vmem m s).

Definition clear_screen (s : screen) : screen :=
  let m := blank_cells (Z.to_nat (MAX_ROWS * MAX_COLS)) 0 (current_color s) (vmem s) in
  update_cursor (set_cursor 0 0 (set_vmem m s)).

Definition kprint_char_at (c x y : Z) (s : screen) : screen :=
  let offset := (y * MAX_COLS + x) * 2 in
  set_vmem (store8 (store8 (vmem s) (VIDEO_ADDRESS + offset) c)
    (VIDEO_ADDRESS + (offset + 1)) (current_color s)) s.

(** The end of [kprint_char]: line wrap, scrolling, hardware cursor. *)
Definition settle_cursor (s : screen) : screen :=
  let s := if MAX_COLS <=? cursor_x s then set_cursor 0 (cursor_y s + 1) s else s in
  let s := if MAX_ROWS <=? cursor_y s then scroll s else s in
  update_cursor s.

Definition kprint_char (c : Z) (s : screen) : screen :=
  let s := serial_write_char c s in
  if c =? 10 then settle_cursor (set_cursor 0 (cursor_y s + 1) s)
  else if c =? 8 then
    let s :=
      if 0 <? cursor_x s then set_cursor (cursor_x s - 1) (cursor_y s) s
      else if 0 <? cursor_y s then set_cursor (MAX_COLS - 1) (cursor_y s - 1) s
      else s in
    update_cursor (kprint_char_at 32 (cursor_x s) (cursor_y s) s)
  else
    let s := kprint_char_at c (cursor_x s) (cursor_y s) s in
    settle_cursor (set_cursor (cursor_x s + 1) (cursor_y s) s).

(** [kprint] on the characters of the string, up to its terminator. *)
Fixpoint kprint (str : list Z) (s : screen) : screen :=
  match str with
  | [] => s
  | c :: str => if c =? 0 then s else kprint str (kprint_char c s)
  end.

Definition kprint_at (str : list Z) (x y : Z) (s : screen) : screen := kprint str (set_cursor x y s).

(** ** Numbers *)

(** The [while (value > 0 && i > 0)] loop; [n] is [i]. *)
Fixpoint dec_digits (n : nat) (value : Z) (buffer : list Z) : Z * list Z :=
  match n with
  | O => (0, buffer)
  | S i =>
    if 0 <? value then dec_digits i (value / 10) (buffer.[Z.of_nat i <- 48 + value mod 10])
    else (Z.of_nat n, buffer)
  end.

(** The characters printed by [kprint_dec]. *)
Definition dec_text (value : Z) : list Z :=
  if value =? 0 then [48]
  else
    let '(i, buffer) := dec_digits 10 value ((build 11 (fun _ => 0)).[10 <- 0]) in
    drop (Z.to_nat i) buffer.
Definition kprint_dec (value : Z) (s : screen) : screen := kprint (dec_text value) s.

Definition digits : list Z := [48; 49; 50; 51; 52; 53; 54; 55; 56; 57; 65; 66; 67; 68; 69; 70].

Definition hex_text (value : Z) : list Z :=
  let buffer := ((build 11 (fun _ => 0)).[0 <- 48]).[1 <- 120] in
  let buffer := for_loop 8 0
    (fun i b => b.[2 + i <- digits.[Z.land (Z.shiftr value ((7 - i) * 4)) 15]]) buffer in
  buffer.[10 <- 0].
Definition kprint_hex (value : Z) (s : screen) : screen := kprint (hex_text value) s.

(** ** The terminal *)

Record term := Term { rows : list (list Z); tx : Z; ty : Z }.

Definition blank_row : list Z := build 80 (fun _ => 32).

Definition next_line (t : term) : term :=
  if ty t =? 24 then Term (drop 1 (rows t) ++ [blank_row]) 0 24 else Term (rows t) 0 (ty t + 1).
Definition put (c x y : Z) (r : list (list Z)) : list (list Z) := r.[y <- r.[y].[x <- c]].

Definition term_char (t : term) (c : Z) : term :=
  if c =? 10 then next_line t
  else if c =? 8 then
    let '(x, y) := if 0 <? tx t then (tx t - 1, ty t) else if 0 <? ty t then (79, ty t - 1) else (0, 0) in
    Term (put 32 x y (rows t)) x y
  else
    let t' := Term (put c (tx t) (ty t) (rows t)) (tx t + 1) (ty t) in
    if tx t' =? 80 then next_line t' else t'.

(** The characters of the memory, and the invariant: the cursor is on the
    screen, every cell has the current colour, and the cursor registers of the
    VGA controller (index at port 0x3D4, data at 0x3D5) hold its position. *)
Definition cell (m : memory) (x y : Z) : Z := m (VIDEO_ADDRESS + 2 * (80 * y + x)).
Definition attr (m : memory) (x y : Z) : Z := m (VIDEO_ADDRESS + (2 * (80 * y + x) + 1)).
Definition grid (m : memory) : list (list Z) := build 25 (fun y => build 80 (fun x => cell m x y)).
Definition term_of (s : screen) : term := Term (grid (vmem s)) (cursor_x s) (cursor_y s).

Definition crtc_write (st : Z * Z * Z) (w : Z * Z) : Z * Z * Z :=
  let '(idx, hi, lo) := st in
  let '(port, v) := w in
  if port =? 980 then (v, hi, lo)
  else if port =? 981 then
    if idx =? 14 then (idx, v, lo) else if idx =? 15 then (idx, hi, v) else st
  else st.
Definition hw_cursor (ports : list (Z * Z)) : Z :=
  let '(_, hi, lo) := fold_left crtc_write ports (0, 0, 0) in 256 * hi + lo.

Definition on_screen (x y : Z) : Prop := 0 <= x < 80 /\ 0 <= y < 25.
Definition colours_ok (m : memory) (color : Z) : Prop := forall x y, on_screen x y -> attr m x y = color.

Record screen_wf (s : screen) : Prop := {
  wf_bytes : mem_bytes (vmem s);
  wf_cursor : on_screen (cursor_x s) (cursor_y s);
  wf_color : is_byte (current_color s);
  wf_colours : colours_ok (vmem s) (current_color s);
  wf_hw : hw_cursor (vga_ports s) = 80 * cursor_y s + cursor_x s;
}.

Definition off_screen (a : Z) : Prop := ~ range VIDEO_ADDRESS 4000 a.

(** *** Memory effects *)

Lemma video_u32 i : 0 <= i < 5000 -> is_u32 (VIDEO_ADDRESS + i).
Proof. unfold is_u32, VIDEO_ADDRESS. lia. Qed.

Lemma char_at_spec c x y s a : on_screen x y ->
  vmem (kprint_char_at c x y s) a =
  if a =? VIDEO_ADDRESS + 2 * (80 * y + x) then u8 c
  else if a =? VIDEO_ADDRESS + (2 * (80 * y + x) + 1) then u8 (current_color s) else vmem s a.
Proof.
  intros [Hx Hy]. unfold kprint_char_at, MAX_COLS, store8. cbn.
  rewrite !u32_id by (apply video_u32; lia).
  replace ((y * 80 + x) * 2) with (2 * (80 * y + x)) by lia. zcases.
Qed.

Lemma blank_cells_spec n c color m a : 0 <= c -> c + Z.of_nat n <= 2000 ->
  blank_cells n c color m a =
  if (VIDEO_ADDRESS + 2 * c <=? a) && (a <? VIDEO_ADDRESS + 2 * (c + Z.of_nat n))
  then (if (a - VIDEO_ADDRESS) mod 2 =? 0 then 32 else u8 color) else m a.
Proof.
  intros Hc Hn. unfold blank_cells.
  apply (for_loop_ind (fun i m' => m' a =
    if (VIDEO_ADDRESS + 2 * c <=? a) && (a <? VIDEO_ADDRESS + 2 * i)
    then (if (a - VIDEO_ADDRESS) mod 2 =? 0 then 32 else u8 color) else m a)).
  - zcases.
  - intros j t Hj IH. unfold store8. rewrite !u32_id by (apply video_u32; lia).
    destruct (Z.eqb_spec a (VIDEO_ADDRESS + (2 * j + 1))) as [->|N1];
      [|destruct (Z.eqb_spec a (VIDEO_ADDRESS + 2 * j)) as [->|N2]].
    + rewrite (proj2 (Z.leb_le _ _)), (proj2 (Z.ltb_lt _ _)) by lia. cbn [andb].
      rewrite (proj2 (Z.eqb_neq _ 0)); [done|]. Z.div_mod_to_equations. lia.
    + rewrite (proj2 (Z.leb_le _ _)), (proj2 (Z.ltb_lt _ _)) by lia. cbn [andb].
      rewrite (proj2 (Z.eqb_eq _ 0)); [done|]. Z.div_mod_to_equations. lia.
    + rewrite IH. destruct (Z.leb_spec (VIDEO_ADDRESS + 2 * c) a),
        (Z.ltb_spec a (VIDEO_ADDRESS + 2 * j)), (Z.ltb_spec a (VIDEO_ADDRESS + 2 * (j + 1))); try done; lia.
Qed.

(** The copy runs forwards, so it reads each byte before overwriting it. *)
Lemma scroll_copy_spec n m a : 0 <= Z.of_nat n <= 3840 -> mem_bytes m ->
  for_loop n 0 (fun i m => store8 m (VIDEO_ADDRESS + i) (load8 m (VIDEO_ADDRESS + (i + MAX_COLS * 2)))) m a =
  if (VIDEO_ADDRESS <=? a) && (a <? VIDEO_ADDRESS + Z.of_nat n) then m (a + 160) else m a.
Proof.
  intros Hn Hm. revert a.
  apply (for_loop_ind (fun i m' => forall a, m' a =
    if (VIDEO_ADDRESS <=? a) && (a <? VIDEO_ADDRESS + i) then m (a + 160) else m a)).
  - intros a. zcases.
  - intros j t Hj IH a. unfold store8, load8, MAX_COLS. rewrite !u32_id by (apply video_u32; lia).
    destruct (Z.eqb_spec a (VIDEO_ADDRESS + j)) as [->|N].
    + rewrite IH. rewrite (proj2 (Z.ltb_ge _ _)) by lia. rewrite andb_false_r.
      rewrite (proj2 (Z.leb_le _ _)), (proj2 (Z.ltb_lt _ _)) by lia. cbn [andb].
      rewrite u8_id by apply Hm. f_equal. lia.
    + rewrite IH. destruct (Z.leb_spec VIDEO_ADDRESS a), (Z.ltb_spec a (VIDEO_ADDRESS + j)),
        (Z.ltb_spec a (VIDEO_ADDRESS + (j + 1))); try done; lia.
Qed.

Lemma scroll_spec s a : mem_bytes (vmem s) ->
  vmem (scroll s) a =
  if (VIDEO_ADDRESS <=? a) && (a <? VIDEO_ADDRESS + 3840) then vmem s (a + 160)
  else if (VIDEO_ADDRESS + 3840 <=? a) && (a <? VIDEO_ADDRESS + 4000)
  then (if (a - VIDEO_ADDRESS) mod 2 =? 0 then 32 else u8 (current_color s)) else vmem s a.
Proof.
  intros Hm. unfold scroll. cbn [vmem set_cursor set_vmem].
  change (Z.to_nat MAX_COLS) with 80%nat. change ((MAX_ROWS - 1) * MAX_COLS) with 1920.
  rewrite blank_cells_spec by lia. rewrite scroll_copy_spec by (done || lia).
  change (Z.of_nat (Z.to_nat (1920 * 2))) with 3840. change (2 * (1920 + Z.of_nat 80)) with 4000.
  change (2 * 1920) with 3840. zcases.
Qed.

(** *** Grids *)

Lemma grid_row m y : 0 <= y < 25 -> (grid m).[y] = build 80 (fun x => cell m x y).
Proof. intros Hy. unfold grid. by rewrite build_get. Qed.

Lemma alen_grid m : alen (grid m) = 25.
Proof. by apply alen_build. Qed.

Lemma grid_ext m (r : list (list Z)) : alen r = 25 ->
  (forall y, 0 <= y < 25 -> alen r.[y] = 80 /\ forall x, 0 <= x < 80 -> cell m x y = r.[y].[x]) ->
  grid m = r.
Proof.
  intros Hl H. apply arr_ext; rewrite alen_grid; [done|]. intros y Hy. rewrite grid_row by done.
  destruct (H y Hy) as [Hr Hc]. apply arr_ext; rewrite alen_build by done; [done|].
  intros x Hx. rewrite build_get by done. by apply Hc.
Qed.

Lemma grid_put m m' c x y : on_screen x y ->
  (forall x' y', on_screen x' y' ->
     cell m' x' y' = if (x' =? x) && (y' =? y) then c else cell m x' y') ->
  grid m' = put c x y (grid m).
Proof.
  intros [Hx Hy] H. unfold put. apply grid_ext; [by rewrite alen_arr_set, alen_grid|].
  intros y' Hy'. rewrite arr_get_set by (rewrite alen_grid; lia). rewrite !grid_row by done.
  destruct (Z.eqb_spec y y') as [<-|Ny].
  - rewrite alen_arr_set, alen_build by done. split; [done|]. intros x' Hx'.
    rewrite arr_get_set by (rewrite alen_build; lia). rewrite build_get by done.
    rewrite H by done. rewrite Z.eqb_refl, andb_true_r. by rewrite (Z.eqb_sym x' x).
  - rewrite alen_build by done. split; [done|]. intros x' Hx'. rewrite build_get by done.
    rewrite H by done. rewrite (proj2 (Z.eqb_neq y' y)) by lia. by rewrite andb_false_r.
Qed.

Lemma grid_scroll m m' :
  (forall x y, on_screen x y -> cell m' x y = if y <? 24 then cell m x (y + 1) else 32) ->
  grid m' = drop 1 (grid m) ++ [blank_row].
Proof.
  intros H. assert (Hd : alen (drop 1 (grid m)) = 24).
  { pose proof (alen_grid m). unfold alen in *. rewrite length_drop. lia. }
  apply grid_ext; [unfold alen in *; rewrite length_app; cbn [length]; lia|].
  intros y Hy. destruct (Z.ltb_spec y 24) as [Hlt|Hge].
  - rewrite arr_get_app_l by lia. replace ((drop 1 (grid m)).[y]) with (grid m).[y + 1].
    2:{ symmetry. apply arr_get_lookup; [lia|]. rewrite lookup_drop.
        replace (1 + Z.to_nat y)%nat with (Z.to_nat (y + 1)) by lia.
        apply arr_lookup_get. rewrite alen_grid. lia. }
    rewrite grid_row by lia. rewrite alen_build by done. split; [done|]. intros x Hx.
    rewrite build_get by done. rewrite H by done. by rewrite (proj2 (Z.ltb_lt y 24)).
  - rewrite arr_get_app_r by lia. rewrite Hd. replace (y - 24) with 0 by lia.
    rewrite arr_get_cons_0. split; [done|]. intros x Hx. unfold blank_row. rewrite build_get by done.
    rewrite H by done. by rewrite (proj2 (Z.ltb_ge y 24)).
Qed.

(** *** The hardware cursor *)

Lemma hw_update s : on_screen (cursor_x s) (cursor_y s) ->
  hw_cursor (vga_ports (update_cursor s)) = 80 * cursor_y s + cursor_x s.
Proof.
  intros [Hx Hy]. unfold update_cursor, hw_cursor. cbn [vga_ports vga_outb].
  rewrite <- !app_assoc, fold_left_app.
  destruct (fold_left crtc_write (vga_ports s) (0, 0, 0)) as [[idx hi] lo]. cbn.
  rewrite !(Z.land_ones _ 8), Z.shiftr_div_pow2 by lia. unfold MAX_COLS, u8, u16.
  change (2 ^ 8) with 256. Z.div_mod_to_equations. lia.
Qed.

Lemma wf_update s : mem_bytes (vmem s) -> on_screen (cursor_x s) (cursor_y s) ->
  is_byte (current_color s) -> colours_ok (vmem s) (current_color s) -> screen_wf (update_cursor s).
Proof. intros Hm Hc Hb Ha. split; try done. exact (hw_update s Hc). Qed.

(** *** Steps *)

(** What every output operation preserves of the memory: bytes, colours, and
    everything off the screen. *)
Definition draws (color : Z) (m m' : memory) : Prop :=
  mem_bytes m' /\ colours_ok m' color /\ agree_on off_screen m m'.

Lemma draws_trans color m1 m2 m3 : draws color m1 m2 -> draws color m2 m3 -> draws color m1 m3.
Proof.
  intros (_ & _ & H1) (H2 & H3 & H4). split_and!; [done|done|]. by eapply agree_on_trans.
Qed.

Lemma draws_refl color m : mem_bytes m -> colours_ok m color -> draws color m m.
Proof. intros. split_and!; [done|done|]. done. Qed.

Lemma char_at_draws c x y s : on_screen x y -> mem_bytes (vmem s) -> is_byte (current_color s) ->
  colours_ok (vmem s) (current_color s) ->
  draws (current_color s) (vmem s) (vmem (kprint_char_at c x y s)) /\
  grid (vmem (kprint_char_at c x y s)) = put (u8 c) x y (grid (vmem s)).
Proof.
  intros Hxy Hm Hb Hc. pose proof Hxy as [Hx Hy]. split; [split_and!|].
  - intros a. rewrite char_at_spec by done. zcases; apply u8_range || apply Hm.
  - intros x' y' [Hx' Hy']. unfold attr. rewrite char_at_spec by done.
    rewrite (proj2 (Z.eqb_neq _ _)) by lia. rewrite u8_id by done.
    destruct (_ =? _); [done|]. by apply Hc.
  - intros a Ha. unfold off_screen, range in Ha. rewrite char_at_spec by done. zcases.
  - apply grid_put; [done|]. intros x' y' [Hx' Hy']. unfold cell. rewrite char_at_spec by done.
    destruct (Z.eqb_spec x' x) as [->|], (Z.eqb_spec y' y) as [->|]; cbn [andb]; zcases.
Qed.

Lemma scroll_draws s : mem_bytes (vmem s) -> is_byte (current_color s) ->
  colours_ok (vmem s) (current_color s) ->
  draws (current_color s) (vmem s) (vmem (scroll s)) /\
  grid (vmem (scroll s)) = drop 1 (grid (vmem s)) ++ [blank_row].
Proof.
  intros Hm Hb Hc. split; [split_and!|].
  - intros a. rewrite scroll_spec by done.
    destruct (_ && _); [apply Hm|]. destruct (_ && _); [|apply Hm].
    destruct (_ =? 0); [done|apply u8_range].
  - intros x y [Hx Hy]. unfold attr. rewrite scroll_spec by done.
    rewrite u8_id by done. specialize (Hc x (y + 1)). unfold attr, on_screen in Hc.
    zcases; first [exfalso; Z.div_mod_to_equations; lia | rewrite <- Hc by lia; f_equal; lia].
  - intros a Ha. unfold off_screen, range in Ha. rewrite scroll_spec by done. zcases.
  - apply grid_scroll. intros x y [Hx Hy]. unfold cell. rewrite scroll_spec by done.
    zcases; first [exfalso; Z.div_mod_to_equations; lia | f_equal; lia].
Qed.

(** A screen whose cursor may have run off the right or the bottom edge. *)
Definition screen_pre (s : screen) : Prop :=
  mem_bytes (vmem s) /\ is_byte (current_color s) /\ colours_ok (vmem s) (current_color s) /\
  0 <= cursor_x s <= 80 /\ 0 <= cursor_y s <= 25 /\ (cursor_x s = 80 -> cursor_y s < 25).

Definition settled (t : term) : term :=
  let t := if tx t =? 80 then Term (rows t) 0 (ty t + 1) else t in
  if ty t =? 25 then Term (drop 1 (rows t) ++ [blank_row]) (tx t) 24 else t.

Lemma settle_step s : screen_pre s ->
  screen_wf (settle_cursor s) /\ term_of (settle_cursor s) = settled (term_of s) /\
  draws (current_color s) (vmem s) (vmem (settle_cursor s)) /\
  serial (settle_cursor s) = serial s /\ current_color (settle_cursor s) = current_color s.
Proof.
  intros (Hm & Hb & Hc & Hx & Hy & Hxy). unfold settle_cursor, MAX_COLS, MAX_ROWS.
  set (s1 := if 80 <=? cursor_x s then set_cursor 0 (cursor_y s + 1) s else s).
  assert (H1 : vmem s1 = vmem s /\ current_color s1 = current_color s /\ serial s1 = serial s /\
    0 <= cursor_x s1 < 80 /\ 0 <= cursor_y s1 <= 25 /\
    settled (term_of s) = if cursor_y s1 =? 25 then Term (drop 1 (grid (vmem s)) ++ [blank_row]) (cursor_x s1) 24
                          else Term (grid (vmem s)) (cursor_x s1) (cursor_y s1)).
  { unfold s1, settled. cbn [tx ty rows term_of].
    destruct (Z.leb_spec 80 (cursor_x s)), (Z.eqb_spec (cursor_x s) 80); cbn; split_and!; try done; lia. }
  clearbody s1. destruct H1 as (Em & Ec & Es & Hx1 & Hy1 & ->).
  rewrite <- Em, <- Ec in *. clear Hx Hy Hxy.
  destruct (Z.leb_spec 25 (cursor_y s1)), (Z.eqb_spec (cursor_y s1) 25); try lia.
  - destruct (scroll_draws s1 Hm Hb Hc) as ((D1 & D2 & D3) & Hg).
    split; [|split; [|split; [|split]]]; [| |by split_and!|exact Es|reflexivity].
    + apply wf_update; [exact D1|cbn; unfold on_screen, MAX_ROWS; lia|exact Hb|exact D2].
    + unfold term_of. cbn [vmem cursor_x cursor_y update_cursor vga_outb]. by rewrite Hg.
  - split; [|split; [|split; [|split]]]; [|reflexivity|by apply draws_refl|exact Es|reflexivity].
    apply wf_update; [exact Hm|unfold on_screen; lia|exact Hb|exact Hc].
Qed.

(** Backspace. *)
Lemma erase_step s : mem_bytes (vmem s) -> on_screen (cursor_x s) (cursor_y s) ->
  is_byte (current_color s) -> colours_ok (vmem s) (current_color s) ->
  let s1 := if 0 <? cursor_x s then set_cursor (cursor_x s - 1) (cursor_y s) s
    else if 0 <? cursor_y s then set_cursor (MAX_COLS - 1) (cursor_y s - 1) s else s in
  let s' := update_cursor (kprint_char_at 32 (cursor_x s1) (cursor_y s1) s1) in
  screen_wf s' /\ term_of s' = term_char (term_of s) 8 /\
  draws (current_color s) (vmem s) (vmem s') /\ serial s' = serial s /\
  current_color s' = current_color s.
Proof.
  intros Hm [Hx Hy] Hb Hc s1.
  assert (H1 : vmem s1 = vmem s /\ current_color s1 = current_color s /\ serial s1 = serial s /\
    on_screen (cursor_x s1) (cursor_y s1) /\
    term_char (term_of s) 8 = Term (put 32 (cursor_x s1) (cursor_y s1) (grid (vmem s))) (cursor_x s1) (cursor_y s1)).
  { unfold s1, term_char, on_screen, MAX_COLS. cbn [tx ty rows term_of Z.eqb Pos.eqb].
    destruct (Z.ltb_spec 0 (cursor_x s)), (Z.ltb_spec 0 (cursor_y s)); cbn; split_and!; try done; try lia.
    by replace (cursor_x s) with 0 by lia; replace (cursor_y s) with 0 by lia. }
  clearbody s1. destruct H1 as (Em & Ec & Es & Hxy & ->). rewrite <- Em, <- Ec in *.
  destruct (char_at_draws 32 (cursor_x s1) (cursor_y s1) s1 Hxy Hm Hb Hc) as [(D1 & D2 & D3) G1].
  split; [|split; [|split; [|split]]]; [|unfold term_of; cbn [vmem cursor_x cursor_y update_cursor vga_outb]; by rewrite G1|by split_and!|exact Es|reflexivity].
  apply wf_update; [exact D1|exact Hxy|exact Hb|exact D2].
Qed.

(** One character. *)
Lemma kprint_char_step c s : screen_wf s -> is_byte c ->
  let s' := kprint_char c s in
  screen_wf s' /\ term_of s' = term_char (term_of s) c /\
  draws (current_color s) (vmem s) (vmem s') /\ serial s' = serial s ++ [c] /\
  current_color s' = current_color s.
Proof.
  intros [Hm [Hx Hy] Hb Hc Hw] Hbc. unfold kprint_char. set (s0 := serial_write_char c s).
  assert (Hser : serial s0 = serial s ++ [c]) by (cbn; by rewrite u8_id).
  change (cursor_x s0) with (cursor_x s). change (cursor_y s0) with (cursor_y s).
  destruct (Z.eqb_spec c 10) as [->|N10]; [|destruct (Z.eqb_spec c 8) as [->|N8]].
  - destruct (settle_step (set_cursor 0 (cursor_y s + 1) s0)) as (W & T & Dr & Se & Co).
    { unfold screen_pre. cbn. split_and!; done || lia. }
    split; [exact W|]. split; [|split; [exact Dr|split; [by rewrite Se|exact Co]]].
    rewrite T. unfold settled, term_char, next_line. cbn.
    destruct (Z.eqb_spec (cursor_y s + 1) 25), (Z.eqb_spec (cursor_y s) 24); done || lia.
  - unfold term_char. change (cursor_x s) with (cursor_x s0). change (cursor_y s) with (cursor_y s0).
    apply (erase_step s0); done.
  - set (s1 := set_cursor _ _ (kprint_char_at c (cursor_x s) (cursor_y s) s0)).
    destruct (char_at_draws c (cursor_x s) (cursor_y s) s0) as [D1 G1]; [done|done|done|done|].
    destruct (settle_step s1) as (W & T & Dr & Se & Co).
    { destruct D1 as (B1 & C1 & _). unfold screen_pre. cbn. split_and!; done || lia. }
    split; [exact W|]. split; [|split; [by eapply draws_trans|split; [by rewrite Se|exact Co]]].
    rewrite T. unfold settled, term_char, next_line.
    rewrite (proj2 (Z.eqb_neq c 10)), (proj2 (Z.eqb_neq c 8)) by done.
    change (term_of s1) with (Term (grid (vmem (kprint_char_at c (cursor_x s) (cursor_y s) s0)))
      (cursor_x s + 1) (cursor_y s)).
    rewrite G1, u8_id by done. cbn [tx ty rows].
    change (rows (term_of s)) with (grid (vmem s)).
    change (tx (term_of s)) with (cursor_x s). change (ty (term_of s)) with (cursor_y s).
    change (vmem s0) with (vmem s).
    destruct (Z.eqb_spec (cursor_x s + 1) 80); cbn [tx ty rows].
    + destruct (Z.eqb_spec (cursor_y s + 1) 25), (Z.eqb_spec (cursor_y s) 24); done || lia.
    + destruct (Z.eqb_spec (cursor_y s) 25); done || lia.
Qed.

(** C24: printing any text on a well-formed screen does what a terminal of 25
    rows of 80 characters does (line feed, wrap at the right edge, scrolling
    at the bottom, backspace), keeps the cursor on the screen and the hardware
    cursor with it, writes no memory but the screen, and sends exactly the
    text to the serial line. *)
Theorem kprint_refines_terminal t s : screen_wf s -> Forall (fun c => 0 < c < 256) t ->
  let s' := kprint t s in
  screen_wf s' /\ term_of s' = fold_left term_char t (term_of s) /\
  agree_on off_screen (vmem s) (vmem s') /\ serial s' = serial s ++ t.
Proof.
  intros Hw Ht. revert s Hw. induction Ht as [|c t Hc Ht IH]; intros s Hw; cbn [kprint fold_left].
  - rewrite app_nil_r. done.
  - rewrite (proj2 (Z.eqb_neq c 0)) by lia.
    destruct (kprint_char_step c s Hw) as (W & T & (_ & _ & D) & S & _); [unfold is_byte; lia|].
    destruct (IH _ W) as (W' & T' & D' & S'). rewrite T in T'. rewrite S, <- app_assoc in S'.
    split_and!; [exact W'|exact T'|by eapply agree_on_trans|exact S'].
Qed.

(** [clear_screen] makes any screen well formed, and blank. *)
Lemma clear_screen_spec s : mem_bytes (vmem s) -> is_byte (current_color s) ->
  screen_wf (clear_screen s) /\ term_of (clear_screen s) = Term (build 25 (fun _ => blank_row)) 0 0 /\
  agree_on off_screen (vmem s) (vmem (clear_screen s)) /\ serial (clear_screen s) = serial s.
Proof.
  intros Hm Hb. unfold clear_screen. set (m := blank_cells _ _ _ _).
  assert (E : forall a, m a = if (VIDEO_ADDRESS <=? a) && (a <? VIDEO_ADDRESS + 4000)
    then (if (a - VIDEO_ADDRESS) mod 2 =? 0 then 32 else current_color s) else vmem s a).
  { intros a. unfold m. change (Z.to_nat (MAX_ROWS * MAX_COLS)) with (Z.to_nat 2000).
    rewrite blank_cells_spec, u8_id by (done || lia). by rewrite Z2Nat.id. }
  clearbody m. split; [|split; [|split]]; [| | |reflexivity].
  - apply wf_update; cbn; [|done|done|].
    + intros a. rewrite E. destruct (_ && _); [|apply Hm]. by destruct (_ =? 0).
    + intros x y [Hx Hy]. unfold attr. rewrite E. zcases; exfalso; Z.div_mod_to_equations; lia.
  - unfold term_of. cbn. f_equal. apply grid_ext; [done|]. intros y Hy. rewrite build_get by done.
    split; [done|]. intros x Hx. unfold blank_row. rewrite build_get by done. unfold cell. rewrite E.
    zcases; exfalso; Z.div_mod_to_equations; lia.
  - intros a Ha. cbn. unfold off_screen, range in Ha. rewrite E. zcases.
Qed.

Definition cleared : screen := clear_screen (mkScreen (fun _ => 0) 0 0 31 [] []).

Lemma cleared_wf : screen_wf cleared.
Proof. apply clear_screen_spec; done. Qed.

Lemma kprint_refines_terminal_witness :
  let s' := kprint [72; 105; 10; 8; 33] cleared in
  screen_wf s' /\ term_of s' = fold_left term_char [72; 105; 10; 8; 33] (term_of cleared) /\
  agree_on off_screen (vmem cleared) (vmem s') /\ serial s' = serial cleared ++ [72; 105; 10; 8; 33].
Proof.
  apply (kprint_refines_terminal [72; 105; 10; 8; 33] cleared cleared_wf).
  repeat constructor; lia.
Defined.

(** ** The texts of numbers *)

Definition parse (base : Z) (digit : Z -> Z) (l : list Z) : Z :=
  fold_left (fun acc c => base * acc + digit c) l 0.
Definition dec_value (c : Z) : Z := c - 48.
(** A hexadecimal digit is one of 0-9 and A-F; another character has no
    value. *)
Definition is_hex (c : Z) : Prop := 48 <= c <= 57 \/ 65 <= c <= 70.
Definition hex_value (c : Z) : Z :=
  if (48 <=? c) && (c <=? 57) then c - 48 else if (65 <=? c) && (c <=? 70) then c - 55 else -1.
Lemma hex_value_is_hex c : 0 <= hex_value c -> is_hex c.
Proof.
  unfold hex_value, is_hex. destruct (Z.leb_spec 48 c), (Z.leb_spec c 57), (Z.leb_spec 65 c), (Z.leb_spec c 70); cbn [andb]; lia.
Qed.

Lemma kprint_cstr l s : kprint l s = kprint (cstr l) s.
Proof.
  revert s. induction l as [|c l IH]; intros s; cbn; [done|].
  destruct (c =? 0) eqn:E; cbn; [done|]. by rewrite E, IH.
Qed.

Lemma settle_serial s : serial (settle_cursor s) = serial s.
Proof. unfold settle_cursor. destruct (MAX_COLS <=? _), (MAX_ROWS <=? _); reflexivity. Qed.

(** Every character printed is sent to the serial line. *)
Lemma kprint_serial l s : Forall is_byte (cstr l) -> serial (kprint l s) = serial s ++ cstr l.
Proof.
  rewrite kprint_cstr. generalize (cstr_nonzero l). generalize (cstr l). clear l. intros l Hn Hl. revert s.
  induction Hl as [|c l Hc Hl IH]; intros s; cbn [kprint]; [by rewrite app_nil_r|].
  apply Forall_cons in Hn as [Hc0 Hn]. rewrite (proj2 (Z.eqb_neq c 0)) by done. rewrite IH by done.
  assert (E : serial (kprint_char c s) = serial s ++ [u8 c]).
  { unfold kprint_char. destruct (c =? 10); [apply settle_serial|]. destruct (c =? 8); [|apply settle_serial].
    cbn. by destruct (0 <? cursor_x s), (0 <? cursor_y s). }
  by rewrite E, u8_id, <- app_assoc.
Qed.

(** The decimal digits of a number of at most [n] digits, most significant
    first. *)
Fixpoint dec_ref (n : nat) (v : Z) : list Z :=
  match n with
  | O => []
  | S n => if 0 <? v then dec_ref n (v / 10) ++ [48 + v mod 10] else []
  end.

Lemma dec_digits_ref n v buf : 0 <= v < 10 ^ Z.of_nat n -> (n <= 10)%nat -> alen buf = 11 ->
  let '(i, buf') := dec_digits n v buf in
  drop (Z.to_nat i) buf' = dec_ref n v ++ drop n buf.
Proof.
  revert v buf. induction n as [|n IH]; intros v buf Hv Hn Hl; cbn [dec_digits dec_ref]; [done|].
  destruct (Z.ltb_spec 0 v) as [Hp|Hp].
  - rewrite Nat2Z.inj_succ, Z.pow_succ_r in Hv by lia.
    specialize (IH (v / 10) (buf.[Z.of_nat n <- 48 + v mod 10])). rewrite alen_arr_set in IH.
    destruct (dec_digits n (v / 10) _) as [i buf']. rewrite IH; [|Z.div_mod_to_equations; lia|lia|done].
    rewrite <- app_assoc. f_equal. rewrite (drop_S _ (48 + v mod 10) n).
    + cbn. f_equal. unfold arr_set. rewrite (proj2 (Z.leb_le 0 _)), Nat2Z.id by lia.
      apply drop_insert_lt. lia.
    + unfold alen in Hl. unfold arr_set. rewrite (proj2 (Z.leb_le 0 _)), Nat2Z.id by lia.
      apply list_lookup_insert_eq. lia.
  - by rewrite Nat2Z.id.
Qed.

Lemma parse_snoc base digit l c : parse base digit (l ++ [c]) = base * parse base digit l + digit c.
Proof. unfold parse. by rewrite fold_left_app. Qed.

Lemma dec_ref_spec n v : 0 <= v < 10 ^ Z.of_nat n ->
  parse 10 dec_value (dec_ref n v) = v /\ Forall (fun c => 48 <= c <= 57) (dec_ref n v) /\
  (0 < v -> exists c l, dec_ref n v = c :: l /\ c <> 48).
Proof.
  revert v. induction n as [|n IH]; intros v Hv; cbn [dec_ref].
  - replace v with 0 by (cbn in Hv; lia). split_and!; [done|done|lia].
  - destruct (Z.ltb_spec 0 v) as [Hp|Hp]; [|split_and!; [cbn; lia|done|lia]].
    rewrite Nat2Z.inj_succ, Z.pow_succ_r in Hv by lia.
    destruct (IH (v / 10)) as (P & F & H0); [Z.div_mod_to_equations; lia|].
    pose proof (Z.mod_pos_bound v 10 ltac:(lia)). split_and!.
    + rewrite parse_snoc, P. unfold dec_value. pose proof (Z.div_mod v 10). lia.
    + apply Forall_app. split; [done|]. repeat constructor; lia.
    + intros _. destruct (decide (0 < v / 10)) as [Hq|Hq].
      * destruct (H0 Hq) as (c & l & -> & Hc). by exists c, (l ++ [48 + v mod 10]).
      * replace (dec_ref n (v / 10)) with (@nil Z).
        { exists (48 + v mod 10), []. split; [done|]. Z.div_mod_to_equations. lia. }
        destruct n; cbn; [done|]. by rewrite (proj2 (Z.ltb_ge _ _)) by lia.
Qed.

Lemma dec_text_spec v : is_u32 v ->
  cstr (dec_text v) = if v =? 0 then [48] else dec_ref 10 v.
Proof.
  intros Hv. unfold dec_text. destruct (Z.eqb_spec v 0) as [->|Hn]; [done|].
  pose proof (dec_digits_ref 10 v ((build 11 (fun _ => 0)).[10 <- 0])) as H.
  assert (Hb : 0 <= v < 10 ^ Z.of_nat 10) by (unfold is_u32 in Hv; lia).
  destruct (dec_digits 10 v _) as [i buf]. rewrite H by done.
  change (drop 10 _) with [0]. apply cstr_terminated.
  destruct (dec_ref_spec 10 v Hb) as (_ & F & _). eapply Forall_impl; [exact F|]. cbn. lia.
Qed.

Definition hex_digits (v : Z) : list Z :=
  map (fun j => digits.[v / 16 ^ j mod 16]) [7; 6; 5; 4; 3; 2; 1; 0].

Lemma digit_ok k : 0 <= k < 16 -> hex_value digits.[k] = k /\ is_hex digits.[k].
Proof.
  intros Hk. assert (E : forallb (fun k => hex_value digits.[k] =? k) (seqZ 0 16) = true) by done.
  rewrite forallb_forall in E. specialize (E k). rewrite <- list_elem_of_In, elem_of_seqZ in E.
  specialize (E ltac:(lia)). split; [lia|]. apply hex_value_is_hex. lia.
Qed.

Lemma hex_digits_hex v : Forall is_hex (hex_digits v).
Proof.
  apply Forall_fmap, Forall_forall. intros j _. cbn. by apply digit_ok, Z.mod_pos_bound.
Qed.

Lemma hex_text_spec v : cstr (hex_text v) = 48 :: 120 :: hex_digits v.
Proof.
  assert (E : hex_text v = (48 :: 120 :: map (fun i => digits.[Z.land (Z.shiftr v ((7 - i) * 4)) 15])
    [0; 1; 2; 3; 4; 5; 6; 7]) ++ [0]) by reflexivity.
  assert (H : map (fun i => digits.[Z.land (Z.shiftr v ((7 - i) * 4)) 15]) [0; 1; 2; 3; 4; 5; 6; 7] =
    hex_digits v).
  { unfold hex_digits. cbn [map]. rewrite !(Z.land_ones _ 4), !Z.shiftr_div_pow2 by lia. done. }
  rewrite E, H. apply cstr_terminated. do 2 (constructor; [done|]).
  eapply Forall_impl; [apply hex_digits_hex|]. unfold is_hex. cbn. lia.
Qed.

Lemma hex_digits_value v : is_u32 v -> parse 16 hex_value (hex_digits v) = v.
Proof.
  intros Hv. unfold parse, hex_digits. cbn [map fold_left].
  rewrite !(fun k => proj1 (digit_ok (k mod 16) (Z.mod_pos_bound k 16 ltac:(lia)))).
  assert (S : forall j, 0 <= j -> v / 16 ^ j = 16 * (v / 16 ^ (j + 1)) + v / 16 ^ j mod 16).
  { intros j Hj. rewrite Z.pow_add_r, <- Z.div_div by lia. apply Z.div_mod. lia. }
  pose proof (S 0 ltac:(lia)) as S0. pose proof (S 1 ltac:(lia)) as S1.
  pose proof (S 2 ltac:(lia)) as S2. pose proof (S 3 ltac:(lia)) as S3.
  pose proof (S 4 ltac:(lia)) as S4. pose proof (S 5 ltac:(lia)) as S5.
  pose proof (S 6 ltac:(lia)) as S6. pose proof (S 7 ltac:(lia)) as S7.
  change (0 + 1) with 1 in S0. change (1 + 1) with 2 in S1. change (2 + 1) with 3 in S2.
  change (3 + 1) with 4 in S3. change (4 + 1) with 5 in S4. change (5 + 1) with 6 in S5.
  change (6 + 1) with 7 in S6. change (7 + 1) with 8 in S7. clear S.
  assert (E8 : v / 16 ^ 8 = 0) by (apply Z.div_small; exact Hv).
  assert (E0 : v / 16 ^ 0 = v) by apply Z.div_1_r.
  revert S0 S1 S2 S3 S4 S5 S6 S7 E8 E0. clear Hv.
  generalize (v / 16 ^ 0) (v / 16 ^ 1) (v / 16 ^ 2) (v / 16 ^ 3) (v / 16 ^ 4) (v / 16 ^ 5)
    (v / 16 ^ 6) (v / 16 ^ 7) (v / 16 ^ 8). intros. lia.
Qed.

(** C25: [kprint_dec] prints the decimal digits of its argument, without
    leading zeros, and [kprint_hex] prints "0x" and its eight hexadecimal
    digits, each one of 0-9 and A-F, for every 32-bit value: reading the
    digits gives the value back. *)
Theorem kprint_numbers v s : is_u32 v ->
  (exists ds, serial (kprint_dec v s) = serial s ++ ds /\ parse 10 dec_value ds = v /\
     Forall (fun c => 48 <= c <= 57) ds /\
     (ds = [48] \/ exists c l, ds = c :: l /\ c <> 48)) /\
  (exists hs, serial (kprint_hex v s) = serial s ++ [48; 120] ++ hs /\ length hs = 8%nat /\
     Forall is_hex hs /\ parse 16 hex_value hs = v).
Proof.
  intros Hv. unfold kprint_dec, kprint_hex.
  assert (Hp : forall l, Forall (fun c => 48 <= c <= 120) (cstr l) ->
    serial (kprint l s) = serial s ++ cstr l).
  { intros l Hl. apply kprint_serial. eapply Forall_impl; [exact Hl|]. unfold is_byte. cbn. lia. }
  split.
  - assert (Hb : 0 <= v < 10 ^ Z.of_nat 10) by (unfold is_u32 in Hv; lia).
    destruct (dec_ref_spec 10 v Hb) as (P & F & H0). exists (cstr (dec_text v)).
    rewrite dec_text_spec in * by done. destruct (Z.eqb_spec v 0) as [->|Hn].
    + split_and!; [|done|by repeat constructor|by left].
      apply Hp. rewrite dec_text_spec by done. repeat constructor; lia.
    + split_and!; [|done|done|right; apply H0; unfold is_u32 in Hv; lia].
      replace (dec_ref 10 v) with (cstr (dec_text v))
        by (rewrite dec_text_spec by done; by rewrite (proj2 (Z.eqb_neq v 0))).
      apply Hp. rewrite dec_text_spec, (proj2 (Z.eqb_neq v 0)) by done.
      eapply Forall_impl; [exact F|]. cbn. lia.
  - exists (hex_digits v). split_and!; [|done|apply hex_digits_hex|by apply hex_digits_value].
    change ([48; 120] ++ hex_digits v) with (48 :: 120 :: hex_digits v). rewrite <- hex_text_spec.
    apply Hp. rewrite hex_text_spec. do 2 (constructor; [lia|]).
    eapply Forall_impl; [apply hex_digits_hex|]. unfold is_hex. cbn. lia.
Qed.

Lemma kprint_numbers_witness :
  (exists ds, serial (kprint_dec 4096 cleared) = serial cleared ++ ds /\ parse 10 dec_value ds = 4096 /\
     Forall (fun c => 48 <= c <= 57) ds /\ (ds = [48] \/ exists c l, ds = c :: l /\ c <> 48)) /\
  (exists hs, serial (kprint_hex 4096 cleared) = serial cleared ++ [48; 120] ++ hs /\
     length hs = 8%nat /\ Forall is_hex hs /\ parse 16 hex_value hs = 4096).
Proof. apply (kprint_numbers 4096 cleared). unfold is_u32. lia. Defined.
