(* ===== verification/Syscall.v ===== *)
(** * System calls ([kernel/syscall.c])

    [int 0x80] saves the caller's registers on its kernel stack;
    [syscall_dispatch] reads the call and its arguments from that frame in
    memory, acts, writes the result in the saved EAX and gives the stack
    pointer from which the registers are restored: the caller's, or the one of
    the task elected by SYS_EXIT and SYS_SLEEP. *)
From stdpp Require Import base numbers list relations.
From S2P Require Import Prelude Machine Heap Paging Pit Sched SchedProps Frames SchedInv.

Definition SYS_PRINT : Z := 1.
Definition SYS_EXIT : Z := 2.
Definition SYS_SLEEP : Z := 3.
Definition SYS_SEND : Z := 4.
Definition SYS_RECV : Z := 5.

(** [struct registers], at the stack pointer that [pushal] leaves. *)
Definition regs_ebx (m : memory) (regs : Z) : Z := load32 m (regs ⊕ 16).
Definition regs_edx (m : memory) (regs : Z) : Z := load32 m (regs ⊕ 20).
Definition regs_ecx (m : memory) (regs : Z) : Z := load32 m (regs ⊕ 24).
Definition regs_eax (m : memory) (regs : Z) : Z := load32 m (regs ⊕ 28).
Definition set_regs_eax (v : Z) (regs : Z) (k : kernel) : kernel :=
  set_mem (store32 (mem k) (regs ⊕ 28) v) k.

(** [if (p) *p = v;] *)
Definition store_if (p v : Z) (k : kernel) : kernel :=
  if negb (p =? 0) then set_mem (store32 (mem k) p v) k else k.

Section syscall.
Context (L : Layout) (print_fuel : nat).

Definition syscall_dispatch (regs : Z) (k : kernel) : outcome Z :=
  let call := regs_eax (mem k) regs in
  if call =? SYS_PRINT then
    match string_at print_fuel (mem k) (regs_ebx (mem k) regs) with
    | Some t => Done regs (kprint t k)
    | None => OutOfFuel
    end
  else if call =? SYS_EXIT then task_exit_and_reschedule L regs k
  else if call =? SYS_SLEEP then task_sleep_and_reschedule L (regs_ebx (mem k) regs) regs k
  else if call =? SYS_SEND then
    let '(r, k) := ipc_send (s32 (regs_ebx (mem k) regs)) (regs_ecx (mem k) regs)
                     (regs_edx (mem k) regs) k in
    Done regs (set_regs_eax r regs k)
  else if call =? SYS_RECV then
    let '(got, k) := ipc_recv (regs_ebx (mem k) regs) k in
    match got with
    | Some (len, sender) =>
      let k := store_if (regs_ecx (mem k) regs) len k in
      let k := store_if (regs_edx (mem k) regs) sender k in
      Done regs (set_regs_eax 1 regs k)
    | None => Done regs (set_regs_eax 0 regs k)
    end
  else Done regs k.

Definition syscall_handler (c : cpu) (k : kernel) : outcome cpu :=
  let '(sp, k) := interrupt_entry c k in
  match syscall_dispatch sp k with
  | Done sp' k => Done (interrupt_return sp' (mem k)) k
  | Halted k => Halted k
  | OutOfFuel => OutOfFuel
  end.
End syscall.

(** ** The saved registers *)

Definition set_eax (v : Z) (c : cpu) : cpu :=
  mkCpu v (r_ecx c) (r_edx c) (r_ebx c) (r_ebp c) (r_esi c) (r_edi c)
    (r_esp c) (r_eip c) (r_cs c) (r_eflags c) (r_ss c).

Definition frame_at (c : cpu) (k : kernel) : Z := frame_top c k - frame_size c.
Definition in_frame (c : cpu) (k : kernel) : Z -> Prop := range (frame_at c k) (frame_size c).

(** [regs]' memory shows the registers of [c]. *)
Definition shows (c : cpu) (k : kernel) (m : memory) : Prop :=
  interrupt_return (frame_at c k) m = c.

Lemma shows_args c k m : shows c k m ->
  regs_eax m (frame_at c k) = r_eax c /\ regs_ebx m (frame_at c k) = r_ebx c /\
  regs_ecx m (frame_at c k) = r_ecx c /\ regs_edx m (frame_at c k) = r_edx c.
Proof.
  intros H. split_and!;
    [exact (f_equal r_eax H)|exact (f_equal r_ebx H)|exact (f_equal r_ecx H)|exact (f_equal r_edx H)].
Qed.

(** Writing the saved EAX changes that register only. *)
Lemma shows_set_eax c k m v : frame_room c k -> shows c k m ->
  interrupt_return (frame_at c k) (store32 m (frame_at c k ⊕ 28) v) = set_eax (u32 v) c.
Proof.
  intros (Hc & Hroom & _) H.
  transitivity (set_eax (u32 v) (interrupt_return (frame_at c k) m)); [|by rewrite H].
  set (sp := frame_at c k) in *.
  assert (Hsp : 0 <= sp /\ sp + 44 <= 4294967296 /\
    (in_ring3 (load32 m (sp ⊕ 36)) = true -> sp + 52 <= 4294967296)).
  { rewrite (f_equal r_cs H : load32 m (sp ⊕ 36) = r_cs c).
    unfold sp, frame_at, frame_size in *. destruct (in_ring3 (r_cs c)); split_and!; try done; lia. }
  destruct Hsp as (H0 & H44 & H52). unfold interrupt_return, set_eax. cbn zeta.
  cbn [r_eax r_ecx r_edx r_ebx r_ebp r_esi r_edi r_esp r_eip r_cs r_eflags r_ss].
  rewrite (u32_id (sp + 36)) in H52 by (unfold is_u32; lia).
  rewrite (u32_id (sp + 0)), (u32_id (sp + 4)), (u32_id (sp + 8)), (u32_id (sp + 16)),
    (u32_id (sp + 20)), (u32_id (sp + 24)), (u32_id (sp + 28)), (u32_id (sp + 32)),
    (u32_id (sp + 36)), (u32_id (sp + 40)) by (unfold is_u32; lia).
  rewrite load32_store32_eq by lia.
  assert (Hld : forall i, i <> 28 -> 0 <= i -> i mod 4 = 0 -> sp + i + 4 <= 4294967296 ->
    load32 (store32 m (sp + 28) v) (sp + i) = load32 m (sp + i)).
  { intros i Hi Hi0 Hi4 Hr. apply load32_store32_ne; Z.div_mod_to_equations; lia. }
  rewrite !Hld by (done || lia).
  destruct (in_ring3 (load32 m (sp + 36))) eqn:E3; [|done]. specialize (H52 eq_refl).
  rewrite (u32_id (sp + 44)), (u32_id (sp + 48)) by (unfold is_u32; lia).
  by rewrite !Hld by (done || lia).
Qed.

(** ** Calls that return to the caller *)

Section calls.
Context (L : Layout) (print_fuel : nat).

(** Entering the kernel writes the frame and nothing else, and any memory
    with that frame shows the caller's registers. *)
Lemma syscall_entry c k : frame_room c k -> exists m0,
  interrupt_entry c k = (frame_at c k, set_mem m0 k) /\
  agree_on (fun x => ~ in_frame c k x) (mem k) m0 /\
  forall m, agree_on (in_frame c k) m0 m -> shows c k m.
Proof.
  intros Hroom. destruct (interrupt_entry_spec c k Hroom) as (m0 & E & Hag & Hret).
  exists m0. split_and!; [exact E|exact Hag|exact Hret].
Qed.

(** The [n] bytes at [a] are not in the caller's frame. *)
Definition clear_of (c : cpu) (k : kernel) (a n : Z) : Prop :=
  forall i, 0 <= i < n -> ~ in_frame c k (a ⊕ i).

Lemma store32_agree m a v (P : Z -> Prop) :
  (forall i, 0 <= i < 4 -> ~ P (a ⊕ i)) -> agree_on P m (store32 m a v).
Proof.
  intros H x Hx. unfold store32, store8.
  assert (N : forall i, 0 <= i < 4 -> (x =? u32 (a + i)) = false).
  { intros i Hi. apply Z.eqb_neq. intros ->. by apply (H i Hi). }
  rewrite (N 1), (N 2), (N 3) by lia. pose proof (N 0 ltac:(lia)) as N0.
  rewrite Z.add_0_r in N0. by rewrite N0.
Qed.

Lemma store_if_agree p v k (P : Z -> Prop) :
  (p <> 0 -> forall i, 0 <= i < 4 -> ~ P (p ⊕ i)) -> agree_on P (mem k) (mem (store_if p v k)).
Proof.
  intros H. unfold store_if. destruct (Z.eqb_spec p 0); cbn; [done|]. by apply store32_agree, H.
Qed.

(** The message of [ipc_recv] is at most 128 bytes. *)
Lemma ipc_recv_agree out k (P : Z -> Prop) : 0 <= current_task k < 16 ->
  mailbox_wf (task k (current_task k)) -> (forall i, 0 <= i < 128 -> ~ P (out ⊕ i)) ->
  agree_on P (mem k) (mem (ipc_recv out k).2).
Proof.
  intros Hc (_ & _ & _ & _ & H5 & _ & H7) H. unfold ipc_recv.
  destruct (mailbox_count _ =? 0); [done|]. cbn [snd mem upd_task set_tasks set_mem].
  apply store_loop_agree. intros i Hi. apply H. specialize (H7 _ H5). lia.
Qed.


(** ** The invariant *)

Context (total task_exit_at : Z).

(** The kernel's stack takes the frame, and what the arguments of SYS_RECV
    point to is memory of the tasks. *)
Definition frame_owned (c : cpu) (k : kernel) : Prop :=
  forall x, in_frame c k x -> client_may_write total k x.
Definition buffers_owned (c : cpu) (k : kernel) : Prop :=
  r_eax c = SYS_RECV ->
  (forall i, 0 <= i < 128 -> client_may_write total k (r_ebx c ⊕ i)) /\
  (r_ecx c <> 0 -> forall i, 0 <= i < 4 -> client_may_write total k (r_ecx c ⊕ i)) /\
  (r_edx c <> 0 -> forall i, 0 <= i < 4 -> client_may_write total k (r_edx c ⊕ i)) /\
  clear_of c k (r_ebx c) 128 /\
  (r_ecx c <> 0 -> clear_of c k (r_ecx c) 4) /\ (r_edx c <> 0 -> clear_of c k (r_edx c) 4).

(** Two kernels in which the tasks may write the same memory. *)
Lemma may_write_same k k' x : heap_start k' = heap_start k ->
  (forall i, 0 <= i < 16 -> stack_base (task k' i) = stack_base (task k i)) ->
  client_may_write total k x -> client_may_write total k' x.
Proof.
  intros Hh Hs [Hn|(i & Hi & H1 & H2)].
  - left. by rewrite Hh.
  - right. exists i. by rewrite !Hs.
Qed.

Lemma ipc_send_stacks pid data len k i : 0 <= i < 16 -> alen (tasks k) = 16 ->
  heap_start (ipc_send pid data len k).2 = heap_start k /\
  stack_base (task (ipc_send pid data len k).2 i) = stack_base (task k i).
Proof.
  intros Hi Hl. unfold ipc_send. destruct (Z.ltb_spec pid 0); [done|].
  destruct (Z.leb_spec MAX_TASKS pid); [done|]. destruct (active _); [|done]. cbn [orb negb].
  destruct (_ <=? _); [done|]. split; [done|]. unfold MAX_TASKS in *.
  cbn [snd]. unfold task, upd_task. cbn [tasks set_tasks]. rewrite arr_get_set by lia.
  by destruct (Z.eqb_spec pid i) as [->|].
Qed.

Lemma ipc_recv_stacks out k i : 0 <= i < 16 -> alen (tasks k) = 16 -> 0 <= current_task k < 16 ->
  heap_start (ipc_recv out k).2 = heap_start k /\
  stack_base (task (ipc_recv out k).2 i) = stack_base (task k i).
Proof.
  intros Hi Hl Hc. unfold ipc_recv. destruct (_ =? 0); [done|]. split; [done|].
  cbn [snd]. unfold task, upd_task. cbn [tasks set_tasks set_mem current_task]. rewrite arr_get_set by lia.
  by destruct (Z.eqb_spec (current_task k) i) as [->|].
Qed.

(** Writing the saved EAX, or an output argument, is work of the caller. *)
Lemma step_set_eax c k k' v : frame_room c k -> frame_owned c k ->
  heap_start k' = heap_start k ->
  (forall i, 0 <= i < 16 -> stack_base (task k' i) = stack_base (task k i)) ->
  kernel_step L total task_exit_at k' (set_regs_eax v (frame_at c k) k').
Proof.
  intros (_ & Hroom & _) Hown Hh Hs. apply step_client, store32_agree. intros i Hi Hn.
  apply Hn, (may_write_same k); [done|done|]. apply Hown. unfold in_frame, range.
  assert (44 <= frame_size c) by (unfold frame_size; destruct (in_ring3 _); lia).
  unfold frame_at in *. rewrite (u32_id (_ + 28)) by (unfold is_u32; lia).
  rewrite u32_id by (unfold is_u32; lia). lia.
Qed.

Lemma step_store_if k k' p v : heap_start k' = heap_start k ->
  (forall i, 0 <= i < 16 -> stack_base (task k' i) = stack_base (task k i)) ->
  (p <> 0 -> forall i, 0 <= i < 4 -> client_may_write total k (p ⊕ i)) ->
  rtc (kernel_step L total task_exit_at) k' (store_if p v k').
Proof.
  intros Hh Hs Hp. unfold store_if. destruct (Z.eqb_spec p 0) as [->|Hn]; cbn; [done|].
  apply rtc_once, step_client, store32_agree. intros i Hi Hw. by apply Hw, (may_write_same k), Hp.
Qed.

Lemma store_if_same p v k : heap_start (store_if p v k) = heap_start k /\
  forall i, task (store_if p v k) i = task k i.
Proof. unfold store_if. by destruct (negb _). Qed.

(** With no task left, none is active. *)
Lemma no_task_active k bs sp i : kernel_wf L total k bs sp -> task_count k = 0 -> 0 <= i < 16 ->
  active (task k i) = false.
Proof.
  intros Hwf H0 Hi. pose proof (kw_count _ _ _ _ _ Hwf) as Hc. pose proof (kw_len _ _ _ _ _ Hwf) as Hl.
  destruct (active (task k i)) eqn:Ha; [|done]. exfalso.
  assert (Hin : tt ∈ owned own_slot (tasks k)).
  { apply owned_elem. exists i. split; [lia|]. unfold own_slot. fold (task k i). rewrite Ha. apply list_elem_of_here. }
  rewrite H0 in Hc. unfold alen in Hc. destruct (owned own_slot (tasks k)); [by apply not_elem_of_nil in Hin|done].
Qed.

Lemma schedule_halts e k bs sp k' : kernel_wf L total k bs sp -> schedule L e k = Halted k' ->
  forall i, 0 <= i < 16 -> active (task k' i) = false.
Proof.
  intros Hwf E i Hi. pose proof (kw_len _ _ _ _ _ Hwf) as Hl. pose proof (kw_cur _ _ _ _ _ Hwf) as Hc.
  destruct (multitasking_enabled k) eqn:Hm.
  2:{ unfold schedule in E. cbn [multitasking_enabled set_clock] in E. by rewrite Hm in E. }
  destruct (schedule_step L e k Hm Hl Hc) as [(c & _ & E2)|[Hn E2]]; rewrite E2 in E; [done|].
  injection E as <-. unfold task. cbn [tasks set_tasks].
  rewrite woken_get, wake_active by (done || by (cbn; rewrite alen_arr_set)).
  rewrite arr_get_set by lia. destruct (Z.eqb_spec (current_task k) i) as [->|]; by apply Hn.
Qed.

(** [schedule] never runs out of fuel. *)
Lemma schedule_total e k : schedule L e k <> OutOfFuel.
Proof.
  unfold schedule. destruct (negb _); [done|]. destruct (find_next_task _) as [n k1]. by destruct (n <? 0).
Qed.

Lemma halts_on_exit e k bs sp : kernel_wf L total k bs sp ->
  match task_exit_and_reschedule L e k with
  | Done _ k' => True
  | Halted k' => forall i, 0 <= i < 16 -> active (task k' i) = false
  | OutOfFuel => False
  end.
Proof.
  intros Hwf. destruct (task_exit_current_wf L total k bs sp Hwf) as (bs' & sp' & Hwf').
  unfold task_exit_and_reschedule. fold (task_exit_current k).
  destruct (Z.eqb_spec (task_count (task_exit_current k)) 0) as [H0|].
  - intros i Hi. by eapply (no_task_active _ _ _ i Hwf').
  - destruct (schedule L e _) eqn:E; [done| |by apply schedule_total in E].
    intros i Hi. by eapply schedule_halts.
Qed.

(** SYS_RECV: the reception, the two output arguments, the result. *)
Lemma recv_steps c k m0 bs sp : frame_room c k -> frame_owned c k -> buffers_owned c k ->
  r_eax c = SYS_RECV -> kernel_wf L total (set_mem m0 k) bs sp ->
  (forall m, agree_on (in_frame c k) m0 m -> shows c k m) ->
  let '(got, k1) := ipc_recv (r_ebx c) (set_mem m0 k) in
  match match got with
        | Some (len, sender) =>
          let k2 := store_if (regs_ecx (mem k1) (frame_at c k)) len k1 in
          let k3 := store_if (regs_edx (mem k2) (frame_at c k)) sender k2 in
          Done (frame_at c k) (set_regs_eax 1 (frame_at c k) k3)
        | None => Done (frame_at c k) (set_regs_eax 0 (frame_at c k) k1)
        end with
  | Done _ k' => rtc (kernel_step L total task_exit_at) (set_mem m0 k) k'
  | Halted k' => forall i, 0 <= i < 16 -> active (task k' i) = false
  | OutOfFuel => r_eax c = SYS_PRINT /\ string_at print_fuel m0 (r_ebx c) = None
  end.
Proof.
  intros Hroom Hown Hbuf E5 Hwf Hsh. destruct (Hbuf E5) as (B1 & B2 & B3 & C1 & C2 & C3).
  pose proof (kw_len _ _ _ _ _ Hwf) as Hl. pose proof (kw_cur _ _ _ _ _ Hwf) as Hc.
  pose proof (ipc_recv_agree (r_ebx c) _ (in_frame c k) Hc (kw_mail _ _ _ _ _ Hwf _ Hc) C1) as Hm.
  pose proof (fun i Hi => ipc_recv_stacks (r_ebx c) (set_mem m0 k) i Hi Hl Hc) as Hst.
  pose proof (step_recv L total task_exit_at (r_ebx c) (set_mem m0 k) B1) as Hstep.
  destruct (ipc_recv _ _) as [got k1]. cbn [snd] in *.
  assert (Hh : heap_start k1 = heap_start k) by (apply (Hst 0); lia).
  assert (Hs : forall i, 0 <= i < 16 -> stack_base (task k1 i) = stack_base (task k i)) by (intros; by apply Hst).
  assert (Hgo : forall k', rtc (kernel_step L total task_exit_at) k1 k' ->
    rtc (kernel_step L total task_exit_at) (set_mem m0 k) k') by (intros; by eapply rtc_l).
  destruct got as [[len sender]|]; [|by apply Hgo, rtc_once, step_set_eax].
  destruct (shows_args c k (mem k1)) as (_ & _ & -> & _); [by apply Hsh|].
  pose proof (step_store_if k k1 (r_ecx c) len Hh Hs B2) as S2.
  pose proof (store_if_agree (r_ecx c) len k1 (in_frame c k) C2) as Hm2.
  destruct (store_if_same (r_ecx c) len k1) as [Hh2 Ht2]. set (k2 := store_if (r_ecx c) len k1) in *.
  destruct (shows_args c k (mem k2)) as (_ & _ & _ & ->); [by apply Hsh; eapply agree_on_trans|].
  assert (Hs2 : forall i, 0 <= i < 16 -> stack_base (task k2 i) = stack_base (task k i))
    by (intros i Hi; rewrite Ht2; by apply Hs).
  pose proof (step_store_if k k2 (r_edx c) sender ltac:(congruence) Hs2 B3) as S3.
  destruct (store_if_same (r_edx c) sender k2) as [Hh3 Ht3]. set (k3 := store_if (r_edx c) sender k2) in *.
  apply Hgo. etransitivity; [exact S2|]. etransitivity; [exact S3|].
  apply rtc_once, step_set_eax; [done|done|congruence|]. intros i Hi. rewrite Ht3. by apply Hs2.
Qed.

(** The steps of a call once the frame is on the stack. *)
Lemma dispatch_steps c k m0 bs sp : frame_room c k -> frame_owned c k -> buffers_owned c k ->
  kernel_wf L total (set_mem m0 k) bs sp ->
  (forall m, agree_on (in_frame c k) m0 m -> shows c k m) ->
  match syscall_dispatch L print_fuel (frame_at c k) (set_mem m0 k) with
  | Done _ k' => rtc (kernel_step L total task_exit_at) (set_mem m0 k) k'
  | Halted k' => forall i, 0 <= i < 16 -> active (task k' i) = false
  | OutOfFuel => r_eax c = SYS_PRINT /\ string_at print_fuel m0 (r_ebx c) = None
  end.
Proof.
  intros Hroom Hown Hbuf Hwf Hsh. set (k0 := set_mem m0 k) in *.
  pose proof (kw_len _ _ _ _ _ Hwf) as Hl. pose proof (kw_cur _ _ _ _ _ Hwf) as Hc.
  destruct (shows_args c k m0 (Hsh m0 (agree_on_refl _ _))) as (Ea & Eb & Ec & Ed).
  assert (Hat : is_u32 (frame_at c k)).
  { destruct Hroom as (_ & H1 & H2). unfold is_u32, frame_at, frame_size in *. destruct (in_ring3 _); lia. }
  unfold syscall_dispatch. change (mem k0) with m0. rewrite Ea, Eb, Ec, Ed.
  destruct (Z.eqb_spec (r_eax c) SYS_PRINT) as [E1|_].
  { destruct (string_at _ _ _) eqn:Es; [|done]. apply rtc_once, step_op, op_print. }
  destruct (Z.eqb_spec (r_eax c) SYS_EXIT) as [E2|_].
  { pose proof (halts_on_exit (frame_at c k) k0 bs sp Hwf) as Hx.
    destruct (task_exit_and_reschedule _ _ _) eqn:E; [by eapply rtc_once, step_op, op_exit|done|done]. }
  destruct (Z.eqb_spec (r_eax c) SYS_SLEEP) as [E3|_].
  { destruct (task_sleep_and_reschedule _ _ _ _) eqn:E; [by eapply rtc_once, step_op, op_sleep_syscall| |].
    - eapply schedule_halts; [by apply task_sleep_wf|exact E].
    - by apply schedule_total in E. }
  destruct (Z.eqb_spec (r_eax c) SYS_SEND) as [E4|_].
  { destruct (ipc_send _ _ _ _) as [r k1] eqn:Es.
    pose proof (fun i Hi => ipc_send_stacks (s32 (r_ebx c)) (r_ecx c) (r_edx c) k0 i Hi Hl) as Hst.
    rewrite Es in Hst. cbn [snd] in Hst.
    eapply (rtc_l _ _ k1).
    - replace k1 with (ipc_send (s32 (r_ebx c)) (r_ecx c) (r_edx c) k0).2 by (by rewrite Es).
      apply step_op, op_send. destruct Hroom as (Ht & _). unfold cpu_typed in Ht. rewrite !Forall_cons in Ht.
      destruct Ht as (_ & _ & [He _] & _). exact He.
    - apply rtc_once, step_set_eax; [done|done|apply (Hst 0); lia|intros; by apply Hst]. }
  destruct (Z.eqb_spec (r_eax c) SYS_RECV) as [E5|_]; [|done].
  pose proof (recv_steps c k m0 bs sp Hroom Hown Hbuf E5 Hwf Hsh) as Hr. fold k0 in Hr.
  by destruct (ipc_recv (r_ebx c) k0) as [[[len sender]|] k1].
Qed.

(** C26: a system call whose frame is on a stack of the tasks and, for SYS_RECV,
    whose pointers designate memory of the tasks outside that frame (which the
    code does not check) leaves the kernel in a state that its operations can
    reach, so the invariant of the kernel (task count, disjoint stacks,
    unshared address spaces, nothing leaked) holds after it, whatever the
    number and the other arguments.  It ends, SYS_PRINT if there is a
    terminator outside the frame within the first [print_fuel] bytes, and it
    stops the machine only when no task is left. *)
Theorem syscall_safe c k bs sp : layout_ok L -> kernel_wf L total k bs sp ->
  frame_room c k -> frame_owned c k -> buffers_owned c k ->
  match syscall_handler L print_fuel c k with
  | Done _ k' => rtc (kernel_step L total task_exit_at) k k' /\
                 exists bs' sp', kernel_wf L total k' bs' sp'
  | Halted k' => forall i, 0 <= i < 16 -> active (task k' i) = false
  | OutOfFuel => r_eax c = SYS_PRINT /\
      forall i, 0 <= i < Z.of_nat print_fuel -> ~ in_frame c k (r_ebx c ⊕ i) -> load8 (mem k) (r_ebx c ⊕ i) <> 0
  end.
Proof.
  intros HL Hwf Hroom Hown Hbuf. destruct (syscall_entry c k Hroom) as (m0 & E & Hag & Hsh).
  unfold syscall_handler. rewrite E.
  assert (Hw : agree_on (fun x => ~ client_may_write total k x) (mem k) m0).
  { eapply agree_on_weaken; [|exact Hag]. intros x Hx Hin. by apply Hx, Hown. }
  pose proof (step_client L total task_exit_at m0 k Hw) as Hstep.
  pose proof (client_write_wf L total k bs sp m0 Hwf Hw) as Hwf0.
  pose proof (dispatch_steps c k m0 bs sp Hroom Hown Hbuf Hwf0 Hsh) as Hd.
  destruct (syscall_dispatch _ _ _ _) as [r k'|k'|]; [|done|].
  2:{ destruct Hd as [Ep Hs]. split; [exact Ep|]. intros i Hi Hn. pose proof (string_at_None _ _ _ Hs i Hi) as H0.
      unfold load8 in *. rewrite u32_idemp in *. by rewrite <- (Hag _ Hn). }
  assert (Hrun : rtc (kernel_step L total task_exit_at) k k') by (by eapply rtc_l).
  split; [done|]. clear - HL Hwf Hrun.
  assert (H0 : exists bs sp, kernel_wf L total k bs sp) by eauto. clear Hwf. revert H0.
  induction Hrun as [|x y z Hxy _ IH]; [done|]. intros Hx. apply IH. by eapply kernel_step_wf.
Qed.
End calls.

(** ** Concrete calls: the shell's task, in ring 0 with its stack at 0x9000 *)

Definition call_cpu (eax ebx ecx edx : Z) : cpu :=
  mkCpu eax ecx edx ebx 0 0 0 36864 32768 8 514 SEL_KERNEL_DATA.

Lemma call_cpu_room eax ebx ecx edx k : is_u32 eax -> is_u32 ebx -> is_u32 ecx -> is_u32 edx ->
  frame_room (call_cpu eax ebx ecx edx) k.
Proof.
  intros. split_and!; [|done|done|done]. unfold cpu_typed. rewrite !Forall_cons, Forall_nil. by split_and!.
Qed.


Lemma syscall_safe_witness :
  match syscall_handler demo_layout 100 (call_cpu SYS_RECV 8192 12288 12292) running_kernel with
  | Done _ k' => rtc (kernel_step demo_layout 1048576 0) running_kernel k' /\
                 exists bs' sp', kernel_wf demo_layout 1048576 k' bs' sp'
  | Halted k' => forall i, 0 <= i < 16 -> active (task k' i) = false
  | OutOfFuel => SYS_RECV = SYS_PRINT /\
      forall i, 0 <= i < 100 -> ~ in_frame (call_cpu SYS_RECV 8192 12288 12292) running_kernel (8192 ⊕ i) ->
        load8 (mem running_kernel) (8192 ⊕ i) <> 0
  end.
Proof.
  assert (Hlow : forall a n i, 0 <= i < n -> 0 <= a -> a + n <= 1048576 ->
    client_may_write 1048576 running_kernel (a ⊕ i)).
  { intros a n i Hi Ha Hn. left. rewrite u32_id by (unfold is_u32; lia). unfold range.
    change (heap_start running_kernel) with 1048576. lia. }
  assert (Hclear : forall a n, 0 <= a -> a + n <= 36820 ->
    clear_of (call_cpu SYS_RECV 8192 12288 12292) running_kernel a n).
  { intros a n Ha Hn i Hi. rewrite u32_id by (unfold is_u32; lia).
    change (~ range 36820 44 (a + i)). unfold range. lia. }
  apply (syscall_safe demo_layout 100 1048576 0 (call_cpu SYS_RECV 8192 12288 12292)
    running_kernel boot_blocks no_spaces).
  - apply demo_layout_ok.
  - apply running_kernel_wf.
  - by apply call_cpu_room.
  - intros x Hx. change (range 36820 44 x) in Hx. unfold range in Hx.
    replace x with (36820 ⊕ (x - 36820)) by (rewrite u32_id by (unfold is_u32; lia); lia).
    apply (Hlow 36820 44); lia.
  - intros _. cbn [r_ebx r_ecx r_edx call_cpu].
    split_and!; intros; try (by apply Hclear); by eapply Hlow.
Defined.
