(* ===== verification/Exec.v ===== *)
(** * Loading programs ([kernel/exec.c])

    [exec_run] composes the file system, the ELF loader, the argument area
    and the creation of a ring-3 task; four slots of memory are given to
    programs and taken back when their task has ended. *)
From Stdlib Require Import String.
From stdpp Require Import base numbers list list_numbers relations.
From S2P Require Import Prelude Machine Heap BlockDev Fs FsData FsProofs FsProps Paging Pit Sched SchedProps Frames SchedInv Elf.

Definition USER_PROG_MAX_SIZE : Z := 131072.
Definition SLOT_STRIDE : Z := 196608.
Definition SLOT_BASE (i : Z) : Z := 3145728 ⊕ (i * SLOT_STRIDE).
Definition LINK_BASE : Z := SLOT_BASE 0.
Definition MAX_EXEC_SLOTS : Z := 4.
Definition ARGV_AREA_SIZE : Z := 512.

(** [for (i = 0; i < USER_PROG_MAX_SIZE; i++) ((uint8_t* )base)[i] = 0;] *)
Definition clear_window (base : Z) (m : memory) : memory :=
  store_bytes (Z.to_nat USER_PROG_MAX_SIZE) base (fun _ => 0) m.

Section exec.
Context {D : Type} `{BlockDevice D}.
(** The page tables, the addresses of [exec_stacks] and [elf_staging], and
    how far a string is read in search of its terminator. *)
Context (L : Layout) (exec_stacks elf_staging : Z) (str_fuel : nat).

Record exec := mkExec { ek : kernel; efs : fs D; slot_pid : list Z }.

Definition set_ek k st := mkExec k (efs st) (slot_pid st).
Definition exec_print (t : list Z) (st : exec) : exec := set_ek (Sched.kprint t (ek st)) st.

(** A call to the file system: its messages go to the same console. *)
Definition on_fs {A} (op : M (fs D) A) : M exec A := fun st =>
  let f := efs st in
  let '(a, f') := op (mkFs (root f) (bitmap f) (dev f) []) in
  (a, mkExec (Sched.kprint (Fs.console f') (ek st)) f' (slot_pid st)).

Definition find_free_slot (st : exec) : option Z :=
  find_index (fun i => ((slot_pid st).[i] <? 0) || negb (task_is_active (slot_pid st).[i] (ek st)))
    (Z.to_nat MAX_EXEC_SLOTS) 0.

(** The loop of [build_argv] over the arguments from [i] on; [argv] are the
    pointers. *)
Fixpoint copy_args (n : nat) (i used str_area stack_base argc : Z) (argv : list Z) (m : memory)
  : option memory :=
  match n with
  | O => Some m
  | S n =>
    match string_at str_fuel m argv.[i] with
    | None => None
    | Some s =>
      let len := alen s + 1 in
      if ARGV_AREA_SIZE <? used ⊕ len then
        let m := store32 m (stack_base ⊕ (4 * i)) 0 in
        Some (for_loop (Z.to_nat (argc - i)) i (fun j m => store32 m (stack_base ⊕ (4 * j)) 0) m)
      else
        let m := for_loop (Z.to_nat len) 0
          (fun k m => store8 m (str_area ⊕ k) (load8 m (argv.[i] ⊕ k))) m in
        let m := store32 m (stack_base ⊕ (4 * i)) (stack_base ⊕ used) in
        copy_args n (i + 1) (used ⊕ len) (str_area ⊕ len) stack_base argc argv m
    end
  end.

Definition build_argv (stack_base argc : Z) (argv : list Z) (m : memory) : option (Z * memory) :=
  let used := u32 (argc + 1) ⊗ 4 in
  match copy_args (Z.to_nat argc) 0 used (stack_base ⊕ used) stack_base argc argv m with
  | None => None
  | Some m => Some (stack_base, store32 m (stack_base ⊕ (4 * argc)) 0)
  end.

(** The second half of [exec_run], once the file is in the staging buffer:
    load, build the arguments, create the task.  [None]: a string without
    terminator. *)
Definition exec_start (slot elf_size name argc : Z) (argv : list Z) (st : exec) : option (Z * exec) :=
  let base := SLOT_BASE slot in
  let k := ek st in
  match elf_load elf_staging elf_size base USER_PROG_MAX_SIZE LINK_BASE (mem k) with
  | ElfError msg m => Some (-1, exec_print msg (set_ek (set_mem m k) st))
  | ElfOk entry m =>
    let k := set_mem m k in
    let argv_base := exec_stacks ⊕ (4096 * slot) in
    let stack_top := argv_base ⊕ 4096 in
    match build_argv argv_base argc argv (mem k) with
    | None => None
    | Some (argv_ptr, m) =>
      let k := set_mem m k in
      match create_user_task_argv L entry name stack_top 4096 base USER_PROG_MAX_SIZE
              (u32 argc) argv_ptr k with
      | Done pid k =>
        if pid <? 0 then Some (-1, exec_print
          (text "Impossible de creer la tache (limite atteinte)." ++ newline) (set_ek k st))
        else Some (pid, mkExec k (efs st) ((slot_pid st).[slot <- pid]))
      | _ => None
      end
    end
  end.

Definition exec_run (name argc : Z) (argv : list Z) (st : exec) : option (Z * exec) :=
  match find_free_slot st with
  | None => Some (-1, exec_print
      (text "Trop de programmes charges simultanement (limite atteinte)." ++ newline) st)
  | Some slot =>
    let base := SLOT_BASE slot in
    let k := ek st in
    let k := set_mem (clear_window base (mem k)) k in
    match string_at str_fuel (mem k) name with
    | None => None
    | Some nm =>
      let '((ok, bytes), st) :=
        on_fs (fs_load_file (Some nm) (elf_staging =? 0) USER_PROG_MAX_SIZE) (set_ek k st) in
      let k := ek st in
      let k := set_mem (store_bytes (length bytes) elf_staging (fun i => bytes.[i]) (mem k)) k in
      let st := set_ek k st in
      if negb ok then Some (-1, st)
      else exec_start slot (alen bytes) name argc argv st
    end
  end.

(** The programs embedded in the kernel image are written once. *)
Definition exec_seed_program (name : list Z) (blob : list Z) : M exec unit :=
  let! ex := on_fs (fs_file_exists (Some name)) in
  when (negb ex)
    (let size := u32 (alen blob) in
     when (0 <? size) (on_fs (fs_write_file (Some name) (Some blob) size) ;; ret tt)).
Definition exec_seed_programs (hello echo : list Z) : M exec unit :=
  exec_seed_program (text "hello") hello ;; exec_seed_program (text "echo") echo.
End exec.
Arguments exec D : clear implicits.

(** ** The argument area *)

(** The bytes [l] are at [p]; the C string [s] is at [p]. *)
Definition bytes_at (m : memory) (p : Z) (l : list Z) : Prop :=
  forall i, 0 <= i < alen l -> m (p + i) = l.[i].
Definition holds (m : memory) (p : Z) (s : list Z) : Prop :=
  bytes_at m p (s ++ [0]) /\ Forall (fun c => c <> 0) s.

Lemma alen_snoc {A} (s : list A) x : alen (s ++ [x]) = alen s + 1.
Proof. unfold alen. rewrite length_app. cbn. lia. Qed.

Lemma alen_cons {A} (x : A) l : alen (x :: l) = alen l + 1.
Proof. unfold alen. cbn [length]. lia. Qed.

Lemma alen_nonneg {A} (l : list A) : 0 <= alen l.
Proof. unfold alen. lia. Qed.

Lemma bytes_at_agree m m' p l : agree_on (range p (alen l)) m m' -> bytes_at m p l -> bytes_at m' p l.
Proof. intros Hag H i Hi. rewrite Hag by (unfold range; lia). by apply H. Qed.

Lemma holds_agree m m' p s : agree_on (range p (alen s + 1)) m m' -> holds m p s -> holds m' p s.
Proof. intros Hag [H Hn]. split; [|done]. eapply bytes_at_agree; [|done]. by rewrite alen_snoc. Qed.

(** Reading a string that is there. *)
Lemma string_at_holds n m p s : holds m p s -> 0 <= p -> p + alen s < 4294967296 ->
  alen s < Z.of_nat n -> string_at n m p = Some s.
Proof.
  intros [H Hn]. revert n p H. induction Hn as [|c s Hc Hn IH]; intros n p H Hp Hr Hf;
    (destruct n as [|n]; [pose proof (alen_nonneg (@nil Z)); unfold alen in *; cbn in *; lia|]);
    cbn [string_at].
  - specialize (H 0). cbn in H. rewrite Z.add_0_r in H. unfold load8. rewrite u32_id by (unfold is_u32, alen in *; cbn in *; lia).
    rewrite H by (unfold alen; cbn; lia). done.
  - assert (Hl : alen (c :: s) = alen s + 1) by (unfold alen; cbn; lia). pose proof (alen_nonneg s).
    assert (Hpc : m p = c).
    { specialize (H 0). rewrite Z.add_0_r in H. apply H. cbn [app]. unfold alen. cbn. lia. }
    unfold load8. rewrite u32_id by (unfold is_u32; lia). rewrite Hpc, (proj2 (Z.eqb_neq c 0)) by done.
    rewrite u32_id by (unfold is_u32; lia). rewrite IH; [done| |lia|lia|lia].
    intros i Hi. rewrite alen_snoc in Hi. replace (p + 1 + i) with (p + (i + 1)) by lia.
    rewrite H; [|cbn [app]; unfold alen in *; cbn; rewrite length_app; cbn; lia].
    cbn [app]. apply arr_get_cons_S. lia.
Qed.

(** The string [s] is at [p], with no wrap-around of the address space. *)
Definition str (m : memory) (p : Z) (s : list Z) : Prop :=
  holds m p s /\ 0 <= p /\ p + alen s < 4294967296.

Lemma str_nil m p : str m p [] -> load8 m p = 0.
Proof.
  intros ([H _] & H0 & H1). unfold load8. change (alen (@nil Z)) with 0 in H1. rewrite u32_id by (unfold is_u32; lia).
  specialize (H 0). rewrite Z.add_0_r in H. apply H. change (0 <= 0 < 1). lia.
Qed.

Lemma str_cons m p c s : str m p (c :: s) -> load8 m p = c /\ c <> 0 /\ u32 (p + 1) = p + 1 /\ str m (p + 1) s.
Proof.
  intros ([H Hn] & H0 & H1). rewrite alen_cons in H1. pose proof (alen_nonneg s). apply Forall_cons in Hn as [Hc Hn].
  split_and!.
  - unfold load8. rewrite u32_id by (unfold is_u32; lia). specialize (H 0). rewrite Z.add_0_r in H. apply H.
    cbn [app]. rewrite alen_cons. pose proof (alen_nonneg (s ++ [0])). lia.
  - done.
  - apply u32_id. unfold is_u32. lia.
  - split; [|lia]. split; [|done]. intros i Hi. replace (p + 1 + i) with (p + (i + 1)) by lia.
    rewrite H by (cbn [app]; rewrite alen_cons; lia). cbn [app]. apply arr_get_cons_S. lia.
Qed.

(** The head of a string decides a test that fails on the terminator. *)
Lemma str_head m p s : str m p s -> load8 m p = match s with [] => 0 | c :: _ => c end.
Proof. destruct s as [|c s]; intros H; [by apply str_nil|by destruct (str_cons _ _ _ _ H)]. Qed.

Lemma str_agree m m' p s : agree_on (range p (alen s + 1)) m m' -> str m p s -> str m' p s.
Proof. intros Hag [Hh Hr]. split; [by eapply holds_agree|done]. Qed.

(** The offsets, in the area, of the arguments that fit. *)
Fixpoint arg_offsets (off : Z) (args : list (list Z)) : list Z :=
  match args with
  | [] => []
  | s :: args =>
    if ARGV_AREA_SIZE <? off + (alen s + 1) then [] else off :: arg_offsets (off + (alen s + 1)) args
  end.

Lemma arg_offsets_length off args : alen (arg_offsets off args) <= alen args.
Proof.
  revert off. induction args as [|s args IH]; intros off; cbn [arg_offsets]; [done|].
  destruct (_ <? _); [unfold alen; cbn; lia|]. specialize (IH (off + (alen s + 1))).
  unfold alen in *. cbn [length]. lia.
Qed.

(** The bytes of the arguments with their terminators. *)
Definition args_size (args : list (list Z)) : Z := foldr (fun s n => alen s + 1 + n) 0 args.

Lemma args_size_nonneg args : 0 <= args_size args.
Proof. unfold args_size. induction args as [|s args IH]; cbn [foldr]; [done|]. pose proof (alen_nonneg s). lia. Qed.

(** All of them fit when the area can hold them. *)
Lemma arg_offsets_all off args : off + args_size args <= 512 -> alen (arg_offsets off args) = alen args.
Proof.
  revert off. induction args as [|s args IH]; intros off Hs; cbn [arg_offsets]; [done|].
  pose proof (args_size_nonneg args) as Hn. unfold args_size in *. cbn [foldr] in Hs.
  unfold ARGV_AREA_SIZE. rewrite (proj2 (Z.ltb_ge _ _)) by lia.
  specialize (IH (off + (alen s + 1)) ltac:(lia)). unfold alen in *. cbn [length]. lia.
Qed.

(** The copy of one string. *)
Lemma copy_string_spec m m' a p s : 0 <= a -> a + alen s + 1 <= 4294967296 -> 0 <= p ->
  p + alen s + 1 <= 4294967296 -> (p + alen s + 1 <= a \/ a + alen s + 1 <= p) -> mem_bytes m ->
  holds m p s ->
  m' = for_loop (Z.to_nat (alen s + 1)) 0 (fun k m => store8 m (a ⊕ k) (load8 m (p ⊕ k))) m ->
  holds m' a s /\ agree_on (fun x => ~ range a (alen s + 1) x) m m'.
Proof.
  intros Ha Ha2 Hp Hp2 Hdis Hm [Hb Hn] ->. pose proof (alen_nonneg s) as Hs. set (n := alen s + 1) in *.
  assert (E : forall x, for_loop (Z.to_nat n) 0 (fun k m => store8 m (a ⊕ k) (load8 m (p ⊕ k))) m x =
    if (a <=? x) && (x <? a + n) then m (p + (x - a)) else m x).
  { intros x. replace (a + n) with (a + (0 + Z.of_nat (Z.to_nat n))) by lia. revert x.
    apply (for_loop_ind (fun i m' => forall x, m' x = if (a <=? x) && (x <? a + i) then m (p + (x - a)) else m x)).
    - intros x. zcases.
    - intros j t Hj IH x. unfold store8, load8. rewrite !u32_idemp, !(u32_id (_ + j)) by (unfold is_u32; lia).
      destruct (Z.eqb_spec x (a + j)) as [->|N].
      + rewrite IH. rewrite u8_id by (destruct (_ && _); apply Hm). replace (p + (a + j - a)) with (p + j) by lia. zcases.
      + rewrite IH. destruct (Z.leb_spec a x), (Z.ltb_spec x (a + j)), (Z.ltb_spec x (a + (j + 1))); try done; lia. }
  split; [split; [|done]|].
  - intros i Hi. rewrite alen_snoc in Hi. rewrite E. rewrite (proj2 (Z.leb_le _ _)), (proj2 (Z.ltb_lt _ _)) by lia.
    cbn [andb]. replace (a + i - a) with i by lia. apply Hb. by rewrite alen_snoc.
  - intros x Hx. rewrite E. unfold range in Hx. zcases.
Qed.

Section argv.
Context (base argc : Z) (fuel : nat).
(** The lengths are [int]s. *)
Context (fuel_range : Z.of_nat fuel <= 2147483648).
Context (base_range : 0 <= base /\ base + 512 < 4294967296).
Context (argc_range : 0 <= argc /\ 4 * (argc + 1) <= 512).

(** The argument is a string outside the area. *)
Definition arg_ok (m : memory) (p : Z) (s : list Z) : Prop :=
  holds m p s /\ 0 <= p /\ p + alen s + 1 <= 4294967296 /\ alen s < Z.of_nat fuel /\
  (p + alen s + 1 <= base \/ base + 512 <= p).

Lemma zero_table n i m : 0 <= i -> i + Z.of_nat n <= argc + 1 -> mem_bytes m ->
  let m' := for_loop n i (fun j m => store32 m (base ⊕ (4 * j)) 0) m in
  mem_bytes m' /\ agree_on (fun x => ~ range (base + 4 * i) (4 * Z.of_nat n) x) m m' /\
  forall j, i <= j < i + Z.of_nat n -> load32 m' (base + 4 * j) = 0.
Proof.
  intros Hi Hn Hm m'.
  cut (mem_bytes m' /\ agree_on (fun x => ~ range (base + 4 * i) (4 * (i + Z.of_nat n - i)) x) m m' /\
    forall j, i <= j < i + Z.of_nat n -> load32 m' (base + 4 * j) = 0).
  { by replace (i + Z.of_nat n - i) with (Z.of_nat n) by lia. }
  apply (for_loop_ind (fun k m' => mem_bytes m' /\
    agree_on (fun x => ~ range (base + 4 * i) (4 * (k - i)) x) m m' /\
    forall j, i <= j < k -> load32 m' (base + 4 * j) = 0)).
  - split_and!; [done|done|lia].
  - intros k t Hk (H1 & H2 & H3). rewrite u32_id by (unfold is_u32; lia). split_and!.
    + auto with mx.
    + intros x Hx. unfold range in *. rewrite <- H2 by (unfold range; lia).
      apply (store32_frame _ _ _ (fun y => y = x)); [lia|lia| |done]. intros y ->. unfold range. lia.
    + intros j Hj. destruct (decide (j = k)) as [->|]; [by rewrite load32_store32_eq by lia|].
      rewrite load32_store32_ne by lia. apply H3. lia.
Qed.

Lemma arg_ok_agree m m' p s : agree_on (fun x => ~ range base 512 x) m m' ->
  arg_ok m p s -> arg_ok m' p s.
Proof.
  intros Hag (Hh & H1 & H2 & H3 & H4). split_and!; try done. eapply holds_agree; [|done].
  intros x Hx. apply Hag. unfold range in *. lia.
Qed.

(** What the loop leaves for the arguments [rest] from index [i] on. *)
Definition args_placed (m : memory) (i off : Z) (rest : list (list Z)) : Prop :=
  let offs := arg_offsets off rest in
  (forall j, 0 <= j < alen offs -> load32 m (base + 4 * (i + j)) = base + offs.[j] /\
     off <= offs.[j] /\ offs.[j] + alen rest.[j] + 1 <= 512 /\ holds m (base + offs.[j]) rest.[j]) /\
  (forall j, alen offs <= j < alen rest -> load32 m (base + 4 * (i + j)) = 0).

Lemma args_placed_agree m m' args : 4 * (alen args + 1) <= 512 -> agree_on (range base 512) m m' ->
  args_placed m 0 (4 * (alen args + 1)) args -> args_placed m' 0 (4 * (alen args + 1)) args.
Proof.
  intros Hl Hag [H1 H2]. pose proof (arg_offsets_length (4 * (alen args + 1)) args) as Ho.
  pose proof (alen_nonneg (arg_offsets (4 * (alen args + 1)) args)) as Hp.
  assert (Hld : forall j, 0 <= j < alen args -> load32 m' (base + 4 * (0 + j)) = load32 m (base + 4 * (0 + j))).
  { intros j Hj. apply load32_agree; [lia|lia|]. eapply agree_on_weaken; [|exact Hag]. unfold range. lia. }
  split; intros j Hj; rewrite Hld by lia; [|by apply H2].
  destruct (H1 j Hj) as (Q1 & Q2 & Q3 & Q4). split_and!; try done. eapply holds_agree; [|exact Q4].
  eapply agree_on_weaken; [|exact Hag]. unfold range. pose proof (alen_nonneg args). lia.
Qed.

(** Placing one more argument in front. *)
Lemma args_placed_cons m m' i off s rest : 0 <= i < argc -> 4 * (argc + 1) <= off ->
  off + (alen s + 1) <= 512 -> load32 m (base + 4 * i) = base + off -> holds m (base + off) s ->
  agree_on (fun x => ~ (range (base + 4 * (i + 1)) (4 * (argc - (i + 1))) x \/
    range (base + (off + (alen s + 1))) (512 - (off + (alen s + 1))) x)) m m' ->
  args_placed m' (i + 1) (off + (alen s + 1)) rest -> args_placed m' i off (s :: rest).
Proof.
  intros Hi Ho Hf Hp Hh Hag [H1 H2]. pose proof (alen_nonneg s). unfold args_placed. cbn [arg_offsets].
  unfold ARGV_AREA_SIZE. rewrite (proj2 (Z.ltb_ge _ _)) by lia.
  set (offs := arg_offsets (off + (alen s + 1)) rest) in *.
  assert (Hcons : forall {A} (x : A) l, alen (x :: l) = alen l + 1) by (intros; unfold alen; cbn; lia).
  split; intros j Hj; rewrite ?Hcons in Hj.
  - destruct (decide (j = 0)) as [->|Hne].
    + rewrite Z.add_0_r, !arr_get_cons_0. split_and!; [|lia|lia|].
      * rewrite (load32_agree m); [done|lia|lia|]. eapply agree_on_weaken; [|exact Hag].
        unfold range. intros x Hx [Hr|Hr]; lia.
      * eapply holds_agree; [|exact Hh]. eapply agree_on_weaken; [|exact Hag].
        unfold range. intros x Hx [Hr|Hr]; lia.
    + destruct (H1 (j - 1) ltac:(lia)) as (E & Hoff & Hlen & Hhold).
      replace (i + 1 + (j - 1)) with (i + j) in E by lia.
      replace j with (j - 1 + 1) by lia. rewrite !arr_get_cons_S by lia.
      replace (i + (j - 1 + 1)) with (i + j) by lia. split_and!; [done|lia|lia|done].
  - pose proof (alen_nonneg offs). replace (i + j) with (i + 1 + (j - 1)) by lia. apply H2.
    rewrite ?Hcons in Hj. lia.
Qed.

Lemma copy_args_spec rest : forall i off argv m,
  0 <= i -> i + alen rest = argc -> 4 * (argc + 1) <= off <= 512 -> mem_bytes m ->
  (forall j, 0 <= j < alen rest -> arg_ok m argv.[i + j] rest.[j]) ->
  exists m', copy_args fuel (length rest) i off (base + off) base argc argv m = Some m' /\
    mem_bytes m' /\
    agree_on (fun x => ~ (range (base + 4 * i) (4 * (argc - i)) x \/
                          range (base + off) (512 - off) x)) m m' /\
    args_placed m' i off rest.
Proof.
  induction rest as [|s rest IH]; intros i off argv m Hi Hlen Hoff Hm Hargs.
  { exists m. split_and!; [done|done|done|]. split; intros j Hj; unfold alen in Hj; cbn in Hj; lia. }
  assert (Hal : alen (s :: rest) = alen rest + 1) by (unfold alen; cbn; lia). rewrite Hal in *.
  pose proof (alen_nonneg s) as Hs. pose proof (alen_nonneg rest) as Hr.
  destruct (Hargs 0 ltac:(lia)) as (Hh & Hp & Hp2 & Hf & Hdis).
  rewrite Z.add_0_r, arr_get_cons_0 in *. set (p := argv.[i]) in *.
  cbn [length copy_args]. fold p. rewrite (string_at_holds fuel m p s Hh) by lia.
  unfold ARGV_AREA_SIZE. rewrite (u32_id (off + (alen s + 1))) by (unfold is_u32; lia).
  rewrite (u32_id (base + 4 * i)) by (unfold is_u32; lia).
  destruct (Z.ltb_spec 512 (off + (alen s + 1))) as [Hbig|Hfit].
  - destruct (zero_table (Z.to_nat (argc - i)) i (store32 m (base + 4 * i) 0)) as (Z1 & Z2 & Z3);
      [lia|lia|auto with mx|]. eexists. split; [reflexivity|]. split_and!; [exact Z1| |].
    + intros x Hx. rewrite Z2 by (unfold range in *; lia).
      apply (store32_frame _ _ _ (fun y => y = x)); [lia|lia| |done]. intros y ->. unfold range in *. lia.
    + unfold args_placed. cbn [arg_offsets]. unfold ARGV_AREA_SIZE. rewrite (proj2 (Z.ltb_lt _ _)) by lia.
      split; intros j Hj; [unfold alen in Hj; cbn in Hj; lia|]. rewrite Hal in Hj. apply Z3.
      unfold alen in Hj at 1. cbn in Hj. lia.
  - rewrite (u32_id (base + off)), (u32_id (base + off + (alen s + 1))) by (unfold is_u32; lia).
    set (m1 := for_loop _ 0 _ m).
    destruct (copy_string_spec m m1 (base + off) p s) as [Hc Hca]; [lia..|done|done|reflexivity|].
    set (m2 := store32 m1 (base + 4 * i) (base + off)).
    assert (Hm2 : mem_bytes m2).
    { unfold m2, m1. apply mem_bytes_store32. apply (for_loop_ind (fun _ => mem_bytes)); auto with mx. }
    assert (Hag : agree_on (fun x => ~ (range (base + 4 * i) 4 x \/ range (base + off) (alen s + 1) x)) m m2).
    { intros x Hx. unfold m2. rewrite (store32_frame m1 _ _ (fun y => y = x)); [apply Hca; tauto|lia|lia| |done].
      intros y ->. tauto. }
    destruct (IH (i + 1) (off + (alen s + 1)) argv m2) as (m' & E & Hb' & Hag' & Hpl);
      [lia|lia|lia|done| |].
    { intros j Hj. specialize (Hargs (j + 1) ltac:(lia)). rewrite arr_get_cons_S in Hargs by lia.
      replace (i + (j + 1)) with (i + 1 + j) in Hargs by lia. eapply arg_ok_agree; [|exact Hargs].
      eapply agree_on_weaken; [|exact Hag]. unfold range. intros x Hx [?|?]; lia. }
    exists m'. split_and!.
    + rewrite <- E. f_equal. lia.
    + done.
    + intros x Hx. rewrite Hag' by (unfold range in *; lia). apply Hag. unfold range in *. lia.
    + apply (args_placed_cons m2); try done; try lia.
      * unfold m2. rewrite load32_store32_eq by lia. by rewrite u32_id by (unfold is_u32; lia).
      * eapply holds_agree; [|exact Hc]. unfold m2. apply store32_frame; [lia|lia|]. unfold range. lia.
Qed.
End argv.

(** The pointer table and the strings that [build_argv] leaves. *)
Lemma build_argv_spec base argc fuel args argv m : Z.of_nat fuel <= 2147483648 ->
  0 <= base -> base + 512 < 4294967296 -> alen args = argc -> 4 * (argc + 1) <= 512 -> mem_bytes m ->
  (forall j, 0 <= j < argc -> arg_ok base fuel m argv.[j] args.[j]) ->
  exists m', build_argv fuel base argc argv m = Some (base, m') /\ mem_bytes m' /\
    agree_on (fun x => ~ range base 512 x) m m' /\
    args_placed base m' 0 (4 * (argc + 1)) args /\ load32 m' (base + 4 * argc) = 0.
Proof.
  intros Hf Hb Hb2 Hl Ha Hm Hargs. pose proof (alen_nonneg args).
  destruct (copy_args_spec base argc fuel Hf ltac:(lia) ltac:(lia) args 0 (4 * (argc + 1)) argv m)
    as (m1 & E & Hm1 & Hag & [P1 P2]); [lia|lia|lia|done|by rewrite Hl|].
  unfold build_argv. rewrite (u32_id (argc + 1)), (u32_id ((argc + 1) * 4)) by (unfold is_u32; lia).
  replace ((argc + 1) * 4) with (4 * (argc + 1)) by lia.
  rewrite (u32_id (base + 4 * (argc + 1))) by (unfold is_u32; lia).
  replace (Z.to_nat argc) with (length args) by (unfold alen in Hl; lia). rewrite E.
  rewrite u32_id by (unfold is_u32; lia). set (m2 := store32 m1 (base + 4 * argc) 0).
  assert (Hag2 : agree_on (fun x => ~ range (base + 4 * argc) 4 x) m1 m2)
    by (apply store32_frame; [lia|lia|done]).
  exists m2. split_and!; [done|unfold m2; auto with mx| | |unfold m2; by rewrite load32_store32_eq by lia].
  - intros x Hx. rewrite Hag2 by (unfold range in *; lia). apply Hag. unfold range in *. lia.
  - assert (Hsame : forall j, 0 <= j < argc -> load32 m2 (base + 4 * (0 + j)) = load32 m1 (base + 4 * (0 + j))).
    { intros j Hj. apply load32_store32_ne; lia. }
    assert (Hol : alen (arg_offsets (4 * (argc + 1)) args) <= alen args) by apply arg_offsets_length.
    pose proof (alen_nonneg (arg_offsets (4 * (argc + 1)) args)).
    split; intros j Hj; rewrite Hsame by lia; [|by apply P2].
    destruct (P1 j Hj) as (Q1 & Q2 & Q3 & Q4). split_and!; try done. eapply holds_agree; [|exact Q4].
    eapply agree_on_weaken; [|exact Hag2]. unfold range. intros x Hx. lia.
Qed.

(** ** Running a program *)

Section exec_props.
Context {D : Type} `{BlockDeviceLaws D}.
Context (L : Layout) (exec_stacks elf_staging total : Z) (str_fuel : nat).
Context (fuel_range : Z.of_nat str_fuel <= 2147483648).
Context (disk_large : FS_DATA_END_LBA <= nsectors).

(** Where the linker and [heap_init] put things: the staging buffer and the
    program stacks are kernel variables below the heap, the heap is below the
    program windows. *)
Record exec_layout (hs : Z) : Prop := {
  el_staging : 0 < elf_staging /\ elf_staging + 131072 <= hs;
  el_stacks : 0 <= exec_stacks /\ exec_stacks + 16384 <= hs;
  el_apart : elf_staging + 131072 <= exec_stacks \/ exec_stacks + 16384 <= elf_staging;
  el_heap : 0 <= total /\ hs + total <= 3145728;
}.

(** A string of the kernel: below the heap, outside the two buffers. *)
Definition kernel_string (hs : Z) (m : memory) (p : Z) (s : list Z) : Prop :=
  holds m p s /\ 0 <= p /\ p + alen s + 1 <= hs /\ alen s < Z.of_nat str_fuel /\
  (p + alen s + 1 <= elf_staging \/ elf_staging + 131072 <= p) /\
  (p + alen s + 1 <= exec_stacks \/ exec_stacks + 16384 <= p).

(** The file is not an executable, or the end of its program header table does
    not wrap around and, if the table lies in the file, no segment has more file
    bytes than memory bytes: what [elf_load] does not check. *)
Definition safe_image (c : list Z) : Prop := forall m, bytes_at m elf_staging c ->
  bad_signature elf_staging m = false ->
  ph_no_wrap elf_staging m /\ sizes_ok elf_staging (alen c) m.

Definition slot_stack (slot : Z) : Z := exec_stacks + 4096 * slot.

(** The memory that [elf_load] works on: the window cleared, the file in the
    staging buffer. *)
Definition staged_memory (slot : Z) (c : list Z) (m : memory) : memory :=
  store_bytes (length c) elf_staging (fun i => c.[i])
    (clear_window (SLOT_BASE slot) m).

Lemma slot_base_eq slot : 0 <= slot < 4 -> SLOT_BASE slot = 3145728 + slot * 196608.
Proof. intros Hs. unfold SLOT_BASE, SLOT_STRIDE. rewrite u32_id by (unfold is_u32; lia). done. Qed.

Lemma clear_agree slot m : 0 <= slot < 4 ->
  agree_on (fun x => ~ range (SLOT_BASE slot) 131072 x) m
    (clear_window (SLOT_BASE slot) m).
Proof.
  intros Hs x Hx. rewrite slot_base_eq in * by done. unfold clear_window, USER_PROG_MAX_SIZE.
  rewrite store_bytes_spec by lia. rewrite Z2Nat.id by lia. unfold range in Hx. zcases.
Qed.

Lemma staged_spec hs slot c m : exec_layout hs -> 0 <= slot < 4 -> alen c <= 131072 -> Forall is_byte c ->
  hs + 0 <= 3145728 -> mem_bytes m ->
  mem_bytes (staged_memory slot c m) /\ bytes_at (staged_memory slot c m) elf_staging c /\
  agree_on (fun x => ~ range (SLOT_BASE slot) 131072 x /\ ~ range elf_staging 131072 x) m (staged_memory slot c m).
Proof.
  intros HE Hs Hc Hb Hhs Hm. pose proof (el_staging _ HE) as [S1 S2]. pose proof (alen_nonneg c).
  unfold staged_memory. set (m1 := clear_window (SLOT_BASE slot) m).
  assert (E : forall x, store_bytes (length c) elf_staging (fun i => c.[i]) m1 x =
    if (elf_staging <=? x) && (x <? elf_staging + alen c) then u8 c.[x - elf_staging] else m1 x).
  { intros x. unfold alen in *. by rewrite store_bytes_spec by lia. }
  split_and!.
  - unfold m1, clear_window. auto with mx.
  - intros i Hi. rewrite E. rewrite (proj2 (Z.leb_le _ _)), (proj2 (Z.ltb_lt _ _)) by lia. cbn [andb].
    replace (elf_staging + i - elf_staging) with i by lia. apply u8_id. rewrite arr_Forall in Hb. by apply Hb.
  - intros x [Hx1 Hx2]. rewrite E. unfold range in Hx2.
    destruct (Z.leb_spec elf_staging x), (Z.ltb_spec x (elf_staging + alen c)); cbn [andb]; try lia;
      by apply clear_agree.
Qed.

Lemma elf_load_unsigned size m base window link : bad_signature elf_staging m = true ->
  outcome_memory (elf_load elf_staging size base window link m) = m.
Proof. intros E. unfold elf_load. rewrite E. by destruct (_ <? _). Qed.

Lemma clear_window_bytes base m : mem_bytes m -> mem_bytes (clear_window base m).
Proof. intros Hm. unfold clear_window. auto with mx. Qed.

#[local] Opaque clear_window store_bytes elf_load.

Lemma file_bytes f nm c : lookup_file f nm = Some c -> Forall is_byte c.
Proof.
  unfold lookup_file. destruct (find_entry _ _); [|done]. intros [= <-]. unfold content, sectors.
  apply Forall_concat, Forall_fmap, Forall_true. intros l. apply disk_sector.
Qed.

(** The file system's part of [exec_run]. *)
Lemma on_fs_load st nm : fs_wf (efs st) -> good_name nm -> 0 < elf_staging ->
  exists t f', root f' = root (efs st) /\ bitmap f' = bitmap (efs st) /\
    same_disk (dev (efs st)) (dev f') /\
    on_fs (fs_load_file (Some nm) (elf_staging =? 0) USER_PROG_MAX_SIZE) st =
      (match lookup_file (efs st) nm with
       | Some c => if alen c <=? USER_PROG_MAX_SIZE then (true, c) else (false, [])
       | None => (false, [])
       end, mkExec (Sched.kprint t (ek st)) f' (slot_pid st)).
Proof.
  intros Hwf Hnm Hs. set (f := mkFs (root (efs st)) (bitmap (efs st)) (dev (efs st)) []).
  assert (Hwf' : fs_wf f) by (destruct Hwf; by split).
  destruct (fs_load_file_ok disk_large f nm USER_PROG_MAX_SIZE Hwf' Hnm) as (f' & H1 & H2 & H3 & E).
  exists (Fs.console f'), f'. split; [done|]. split; [done|]. split; [done|].
  unfold on_fs. fold f. rewrite (proj2 (Z.eqb_neq elf_staging 0)) by lia. by rewrite E.
Qed.

(** The invariant of the kernel does not see the console, nor writes outside
    the heap. *)
Lemma wf_outside_heap k bs sp t m : kernel_wf L total k bs sp ->
  agree_on (range (heap_start k) total) (mem k) m ->
  kernel_wf L total (set_mem m (Sched.kprint t k)) bs sp.
Proof.
  intros Hwf Hag. assert (Hk : kernel_wf L total (Sched.kprint t k) bs sp) by (by destruct Hwf; split).
  apply client_write_wf; [done|]. intros x Hx. apply Hag.
  destruct (decide (heap_start k <= x < heap_start k + total)) as [|Hn]; [done|]. by destruct Hx; left.
Qed.

(** The kernel's invariant holds, the heap is where it was and the memory is
    one of bytes. *)
Definition kernel_fine (hs : Z) (k : kernel) : Prop :=
  (exists bs sp, kernel_wf L total k bs sp) /\ heap_start k = hs /\ mem_bytes (mem k).

Lemma kernel_fine_print hs k t : kernel_fine hs k -> kernel_fine hs (Sched.kprint t k).
Proof. intros ((bs & sp & []) & Hk). split; [exists bs, sp; by split|done]. Qed.

(** What a successful run leaves. *)
Definition program_started (st st' : exec D) (nm : list Z) (args : list (list Z)) (r : Z) : Prop :=
  exists slot c entry m,
    find_free_slot st = Some slot /\ lookup_file (efs st) nm = Some c /\
    elf_load elf_staging (alen c) (SLOT_BASE slot) USER_PROG_MAX_SIZE LINK_BASE
      (staged_memory slot c (mem (ek st))) = ElfOk entry m /\
    slot_pid st' = (slot_pid st).[slot <- r] /\
    spawned (ek st) (ek st') r
      (user_context entry (slot_stack slot + 4096) (alen args) (slot_stack slot)) /\
    agree_on (range (SLOT_BASE slot) USER_PROG_MAX_SIZE) m (mem (ek st')) /\
    args_placed (slot_stack slot) (mem (ek st')) 0 (4 * (alen args + 1)) args /\
    load32 (mem (ek st')) (slot_stack slot + 4 * alen args) = 0.

(** Why no program was started: no slot, no such file, a file that does not
    fit in the staging buffer, an image that the loader rejects, or no room
    for a task. *)
Definition run_refused (st : exec D) (nm : list Z) (bs : list block) (sp : spaces) : Prop :=
  match find_free_slot st, lookup_file (efs st) nm with
  | None, _ | _, None => True
  | Some slot, Some c =>
    USER_PROG_MAX_SIZE < alen c \/
    (exists msg m, elf_load elf_staging (alen c) (SLOT_BASE slot) USER_PROG_MAX_SIZE LINK_BASE
      (staged_memory slot c (mem (ek st))) = ElfError msg m) \/
    no_resources (ek st) bs (forall i, 0 <= i < MAX_ADDR_SPACES -> sp.[i] <> None)
  end.

Lemma run_refused_cases st nm bs sp slot c m : run_refused st nm bs sp -> find_free_slot st = Some slot ->
  lookup_file (efs st) nm = Some c -> mem (ek st) = m -> USER_PROG_MAX_SIZE < alen c \/
  (exists msg m', elf_load elf_staging (alen c) (SLOT_BASE slot) USER_PROG_MAX_SIZE LINK_BASE (staged_memory slot c m) = ElfError msg m') \/
  no_resources (ek st) bs (forall i, 0 <= i < MAX_ADDR_SPACES -> sp.[i] <> None).
Proof. unfold run_refused. intros Hno E1 E2 <-. by rewrite E1, E2 in Hno. Qed.

(** What a run may not write: all but the heap, the staging buffer, and the
    window and the argument area of its slot. *)
Definition untouched (st : exec D) (x : Z) : Prop :=
  match find_free_slot st with
  | None => True
  | Some slot => ~ range (heap_start (ek st)) total x /\ ~ range (SLOT_BASE slot) 131072 x /\
      ~ range elf_staging 131072 x /\ ~ range (slot_stack slot) 512 x
  end.

(** The state of the machine the theorems start from. *)
Record exec_ready (st : exec D) (name : Z) (argv : list Z) (nm : list Z) (args : list (list Z)) : Prop := {
  er_layout : exec_layout (heap_start (ek st));
  er_bytes : mem_bytes (mem (ek st));
  er_slots : alen (slot_pid st) = 4;
  er_fs : fs_wf (efs st);
  er_good : good_name nm;
  er_name : kernel_string (heap_start (ek st)) (mem (ek st)) name nm;
  er_args j : 0 <= j < alen args -> kernel_string (heap_start (ek st)) (mem (ek st)) argv.[j] args.[j];
  er_argc : alen args <= 126;
  er_image c : lookup_file (efs st) nm = Some c -> safe_image c;
}.

Lemma kernel_string_arg hs m m' slot p s : exec_layout hs -> 0 <= slot < 4 -> kernel_string hs m p s ->
  agree_on (fun x => ~ range (SLOT_BASE slot) 131072 x /\ ~ range elf_staging 131072 x) m m' ->
  arg_ok (slot_stack slot) str_fuel m' p s.
Proof.
  intros HE Hs (Hh & H1 & H2 & H3 & H4 & H5) Hag. pose proof (el_heap _ HE). pose proof (el_stacks _ HE).
  unfold arg_ok, slot_stack. split_and!; [|done|lia|done|lia]. eapply holds_agree; [|exact Hh].
  eapply agree_on_weaken; [|exact Hag]. rewrite slot_base_eq by done. unfold range. intros x Hx. lia.
Qed.

(** The heap is apart from the window and the staging buffer. *)
Lemma heap_apart slot hs : exec_layout hs -> 0 <= slot < 4 -> forall x, range hs total x ->
  ~ range (SLOT_BASE slot) 131072 x /\ ~ range elf_staging 131072 x.
Proof.
  intros HE Hs x Hx. pose proof (el_heap _ HE). pose proof (el_staging _ HE).
  rewrite slot_base_eq by done. unfold range in *. lia.
Qed.

(** The last two stages: arguments and task. *)
Lemma exec_spawn k slot argv nm_ptr args entry m bs sp : layout_ok L ->
  exec_layout (heap_start k) -> 0 <= slot < 4 ->
  kernel_wf L total (set_mem m k) bs sp -> mem_bytes m -> is_u32 entry ->
  alen args <= 126 -> (forall j, 0 <= j < alen args -> arg_ok (slot_stack slot) str_fuel m argv.[j] args.[j]) ->
  exists r k' m', build_argv str_fuel (slot_stack slot) (alen args) argv m = Some (slot_stack slot, m') /\
    create_user_task_argv L entry nm_ptr (slot_stack slot + 4096) 4096 (SLOT_BASE slot)
      USER_PROG_MAX_SIZE (alen args) (slot_stack slot) (set_mem m' k) = Done r k' /\
    kernel_fine (heap_start k) k' /\
    agree_on (range (SLOT_BASE slot) USER_PROG_MAX_SIZE) m (mem k') /\
    agree_on (fun x => ~ range (heap_start k) total x /\ ~ range (slot_stack slot) 512 x) m (mem k') /\
    ((r = -1 /\ tasks k' = tasks k /\
      no_resources k bs (forall i, 0 <= i < MAX_ADDR_SPACES -> sp.[i] <> None)) \/
     spawned k k' r (user_context entry (slot_stack slot + 4096) (alen args) (slot_stack slot)) /\
     args_placed (slot_stack slot) (mem k') 0 (4 * (alen args + 1)) args /\
     load32 (mem k') (slot_stack slot + 4 * alen args) = 0).
Proof.
  intros HL HE Hs Hwf Hm He Ha Hargs. pose proof (alen_nonneg args) as Hn.
  pose proof (el_heap _ HE) as [H1 H2]. pose proof (el_stacks _ HE) as [H3 H4].
  assert (Hst : 0 <= slot_stack slot /\ slot_stack slot + 4096 <= heap_start k) by (unfold slot_stack; lia).
  destruct (build_argv_spec (slot_stack slot) (alen args) str_fuel args argv m)
    as (m' & Eb & Hm' & Hag & Hpl & Hend); [done|lia|lia|done|lia|done|done|].
  assert (Hwf' : kernel_wf L total (set_mem m' k) bs sp).
  { change (set_mem m' k) with (set_mem m' (set_mem m k)). apply client_write_wf; [done|].
    eapply agree_on_weaken; [|exact Hag]. intros x Hx Hr. apply Hx. left. cbn. unfold range in *. lia. }
  assert (Hw : window_ok (user_window (slot_stack slot + 4096) 4096 (SLOT_BASE slot) USER_PROG_MAX_SIZE)).
  { unfold window_ok, USER_PROG_MAX_SIZE. cbn. rewrite slot_base_eq, u32_id by (done || unfold is_u32; lia). lia. }
  destruct (create_user_task_ok L total entry nm_ptr (slot_stack slot + 4096) 4096 (SLOT_BASE slot)
    USER_PROG_MAX_SIZE (alen args) (slot_stack slot) (set_mem m' k) bs sp HL Hwf' Hw)
    as (r & k' & bs' & sp' & Ec & Hwf'' & Hcase); [done|unfold is_u32; lia..|].
  destruct (create_user_task_memory _ _ _ _ _ _ _ _ _ _ _ _ _ _ _ Hwf' Ec) as (Hhs & Hby & Hfr). cbn [mem set_mem heap_start] in Hhs, Hby, Hfr.
  exists r, k', m'. split; [done|]. split; [done|]. split; [split; [by eauto|split; [done|by apply Hby]]|]. split.
  - intros x Hx. unfold USER_PROG_MAX_SIZE in Hx. rewrite slot_base_eq in Hx by done. unfold range in Hx.
    rewrite Hfr by (unfold range; lia). apply Hag. unfold range. lia.
  - split; [intros x [Hx1 Hx2]; by rewrite Hfr, Hag|]. destruct Hcase as [(-> & Ht & Hno)|(Hsp & _)]; [by left|right]. split; [exact Hsp|].
    assert (Hin : agree_on (range (slot_stack slot) 512) m' (mem k')).
    { eapply agree_on_weaken; [|exact Hfr]. unfold range. intros x Hx. lia. }
    split; [apply (args_placed_agree (slot_stack slot) str_fuel ltac:(lia) m'); [lia|exact Hin|exact Hpl]|].
    rewrite (load32_agree m'); [done|lia|lia|]. eapply agree_on_weaken; [|exact Hin]. unfold range. lia.
Qed.

(** The stages from the loader on. *)
Lemma exec_start_ok st slot c nm name argv args t f' bs sp : layout_ok L ->
  kernel_wf L total (ek st) bs sp -> exec_ready st name argv nm args ->
  find_free_slot st = Some slot -> 0 <= slot < 4 -> lookup_file (efs st) nm = Some c ->
  alen c <= USER_PROG_MAX_SIZE ->
  root f' = root (efs st) -> bitmap f' = bitmap (efs st) -> same_disk (dev (efs st)) (dev f') ->
  forall st1, ek st1 = set_mem (staged_memory slot c (mem (ek st))) (Sched.kprint t (ek st)) ->
  efs st1 = f' -> slot_pid st1 = slot_pid st ->
  exists r st',
    exec_start L exec_stacks elf_staging str_fuel slot (alen c) name (alen args) argv st1 = Some (r, st') /\
    kernel_fine (heap_start (ek st)) (ek st') /\
    root (efs st') = root (efs st) /\ bitmap (efs st') = bitmap (efs st) /\
    same_disk (dev (efs st)) (dev (efs st')) /\
    agree_on (untouched st) (mem (ek st)) (mem (ek st')) /\
    ((r = -1 /\ slot_pid st' = slot_pid st /\ tasks (ek st') = tasks (ek st) /\
      run_refused st nm bs sp) \/
     program_started st st' nm args r).
Proof.
  intros HL Hwf [HE Hm Hl Hfs Hnm Hname Hargs Hargc Himg] Eslot Hs Ef Hfit F1 F2 F3 st1 Hk Hst1 Hsp1.
  unfold USER_PROG_MAX_SIZE in Hfit. pose proof (el_heap _ HE) as [H1 H2]. pose proof (el_staging _ HE) as [S1 S2].
  pose proof (el_stacks _ HE) as [T1 T2]. pose proof (alen_nonneg c). pose proof (alen_nonneg args).
  destruct (staged_spec (heap_start (ek st)) slot c (mem (ek st))) as (Hm2 & Hat & Hag2);
    [done|done|done|by eapply file_bytes|lia|done|].
  remember (staged_memory slot c (mem (ek st))) as m2 eqn:Em2. unfold exec_start.
  replace (mem (ek st1)) with m2 by (by rewrite Hk).
  assert (Hwin : 0 <= SLOT_BASE slot /\ 0 <= USER_PROG_MAX_SIZE /\ SLOT_BASE slot + USER_PROG_MAX_SIZE <= 4294967295)
    by (unfold USER_PROG_MAX_SIZE; rewrite slot_base_eq by done; lia).
  assert (Hout : agree_on (outside (SLOT_BASE slot) USER_PROG_MAX_SIZE) m2
    (outcome_memory (elf_load elf_staging (alen c) (SLOT_BASE slot) USER_PROG_MAX_SIZE LINK_BASE m2))).
  { destruct (bad_signature elf_staging m2) eqn:Es; [by rewrite elf_load_unsigned|].
    destruct (Himg c Ef m2 Hat Es) as [Hph Hsz].
    exact (elf_load_outside elf_staging (alen c) (SLOT_BASE slot) USER_PROG_MAX_SIZE LINK_BASE Hwin
      ltac:(lia) ltac:(unfold USER_PROG_MAX_SIZE; rewrite slot_base_eq by done; lia) m2 Hph Hsz). }
  pose proof (elf_load_bytes elf_staging (alen c) (SLOT_BASE slot) USER_PROG_MAX_SIZE LINK_BASE m2 Hm2) as Hm3.
  assert (Hag3 : agree_on (fun x => ~ range (SLOT_BASE slot) 131072 x /\ ~ range elf_staging 131072 x) (mem (ek st))
    (outcome_memory (elf_load elf_staging (alen c) (SLOT_BASE slot) USER_PROG_MAX_SIZE LINK_BASE m2))).
  { eapply agree_on_trans; [exact Hag2|]. eapply agree_on_weaken; [|exact Hout]. by intros x [Hx _]. }
  pose proof (wf_outside_heap (ek st) bs sp t _ Hwf (agree_on_weaken _ _ _ _ (heap_apart slot _ HE Hs) Hag3)) as Hwf3.
  destruct (elf_load elf_staging (alen c) (SLOT_BASE slot) USER_PROG_MAX_SIZE LINK_BASE m2)
    as [entry m3|msg m3] eqn:Eelf; cbn [outcome_memory] in *.
  2:{ do 2 eexists. split; [reflexivity|]. cbn [efs ek slot_pid exec_print set_ek]. rewrite Hst1, Hsp1, Hk.
      split; [apply kernel_fine_print; split; [by eauto|done]|]. split; [done|]. split; [done|]. split; [done|].
      split; [cbn [mem Sched.kprint set_mem]; eapply agree_on_weaken; [|exact Hag3];
        unfold untouched; rewrite Eslot; tauto|]. left. split_and!; [done..|].
      unfold run_refused. rewrite Eslot, Ef, <- Em2. right. left. by do 2 eexists. }
  rewrite (u32_id (exec_stacks + _)) by (unfold is_u32; lia). fold (slot_stack slot).
  assert (Hst : slot_stack slot + 4096 <= heap_start (ek st)) by (unfold slot_stack; lia).
  assert (Hst0 : 0 <= slot_stack slot) by (unfold slot_stack; lia).
  rewrite (u32_id (slot_stack slot + 4096)), (u32_id (alen args)) by (unfold is_u32; lia).
  destruct (exec_spawn (ek st1) slot argv name args entry m3 bs sp) as (r & k' & m' & Eb & Ec & Hwf' & Hwin' & Hfr & Hcase);
    [done|by rewrite Hk|done|by rewrite Hk|done|by eapply elf_entry_u32|done| |].
  { intros j Hj. by eapply kernel_string_arg; [| |apply Hargs|]. }
  assert (Hunt : agree_on (untouched st) (mem (ek st)) (mem k')).
  { intros x Hx. unfold untouched in Hx. rewrite Eslot in Hx. rewrite Hfr by (rewrite Hk; tauto). apply Hag3. tauto. }
  cbn [mem set_mem]. rewrite Eb. change (set_mem m' (set_mem m3 (ek st1))) with (set_mem m' (ek st1)). rewrite Ec.
  destruct Hcase as [(-> & Ht & Hno)|(Hsp & Hpl & Hend)].
  - do 2 eexists. split; [reflexivity|]. cbn [efs ek slot_pid exec_print set_ek]. rewrite Hst1, Hsp1.
    split; [apply kernel_fine_print; by rewrite Hk in Hwf'|].
    split; [done|]. split; [done|]. split; [done|]. split; [exact Hunt|]. left. split; [done|]. split; [done|].
    split; [cbn [tasks Sched.kprint]; by rewrite Ht, Hk|].
    unfold run_refused. rewrite Eslot, Ef. right. right. rewrite Hk in Hno. exact Hno.
  - assert (Hr : 0 <= r) by apply Hsp. rewrite (proj2 (Z.ltb_ge r 0)) by lia.
    do 2 eexists. split; [reflexivity|]. cbn [efs ek slot_pid]. rewrite Hst1, Hsp1.
    split; [by rewrite Hk in Hwf'|]. split; [done|]. split; [done|]. split; [done|]. split; [exact Hunt|]. right.
    exists slot, c, entry, m3. cbn [ek slot_pid]. rewrite <- Em2. split_and!; try done.
    rewrite Hk in Hsp. exact Hsp.
Qed.

Lemma staged_over (k : kernel) t (m : memory) (c : list Z) :
  let k1 := Sched.kprint t (set_mem m k) in
  set_mem (store_bytes (length c) elf_staging (fun i => c.[i]) (mem k1)) k1 =
  set_mem (store_bytes (length c) elf_staging (fun i => c.[i]) m) (Sched.kprint t k).
Proof. reflexivity. Qed.

Lemma staged_state (k : kernel) slot c t :
  let k1 := Sched.kprint t (set_mem (clear_window (SLOT_BASE slot) (mem k)) k) in
  set_mem (store_bytes (length c) elf_staging (fun i => c.[i]) (mem k1)) k1 =
  set_mem (staged_memory slot c (mem k)) (Sched.kprint t k).
Proof. exact (staged_over k t (clear_window (SLOT_BASE slot) (mem k)) c). Qed.

Lemma exec_run_ok st name argv nm args bs sp : layout_ok L ->
  kernel_wf L total (ek st) bs sp -> exec_ready st name argv nm args ->
  exists r st', exec_run L exec_stacks elf_staging str_fuel name (alen args) argv st = Some (r, st') /\
    kernel_fine (heap_start (ek st)) (ek st') /\
    root (efs st') = root (efs st) /\ bitmap (efs st') = bitmap (efs st) /\
    same_disk (dev (efs st)) (dev (efs st')) /\
    agree_on (untouched st) (mem (ek st)) (mem (ek st')) /\
    ((r = -1 /\ slot_pid st' = slot_pid st /\ tasks (ek st') = tasks (ek st) /\
      run_refused st nm bs sp) \/
     program_started st st' nm args r).
Proof.
  intros HL Hwf Hready. pose proof Hready as [HE Hm _ Hfs Hnm Hname _ _ _]. unfold exec_run.
  assert (Hsd : same_disk (dev (efs st)) (dev (efs st))) by (split; [apply Hfs|done]).
  pose proof (el_heap _ HE) as [H1 H2]. pose proof (el_staging _ HE) as [S1 S2].
  destruct (find_free_slot st) as [slot|] eqn:Eslot.
  2:{ do 2 eexists. split; [reflexivity|]. split; [apply kernel_fine_print; split; [by eauto|done]|].
      split; [done|]. split; [done|]. split; [done|]. split; [done|]. left. split_and!; [done..|].
      unfold run_refused. by rewrite Eslot. }
  pose proof (find_index_Some _ _ _ _ Eslot) as (Hs & _). change (Z.of_nat (Z.to_nat MAX_EXEC_SLOTS)) with 4 in Hs.
  set (m1 := clear_window _ (mem (ek st))). cbn [mem set_mem].
  pose proof (clear_agree slot (mem (ek st)) ltac:(lia)) as Hc1. fold m1 in Hc1.
  destruct Hname as (Nh & N1 & N2 & N3 & _). rewrite (string_at_holds str_fuel m1 name nm); [|..].
  2:{ eapply holds_agree; [|exact Nh]. eapply agree_on_weaken; [|exact Hc1].
      rewrite slot_base_eq by lia. unfold range. lia. }
  2-4: lia.
  destruct (on_fs_load (set_ek (set_mem m1 (ek st)) st) nm Hfs Hnm S1) as (t & f' & F1 & F2 & F3 & ->).
  cbn [efs ek slot_pid set_ek]. set (k1 := Sched.kprint t (ek st)).
  assert (Hfail : forall m, agree_on (range (heap_start (ek st)) total) (mem (ek st)) m -> mem_bytes m -> forall t',
    kernel_fine (heap_start (ek st)) (Sched.kprint t' (set_mem m k1))).
  { intros m Hag Hmb t'. apply kernel_fine_print. split; [|done]. exists bs, sp. by apply wf_outside_heap. }
  assert (Hmb : mem_bytes m1) by (by apply clear_window_bytes).
  assert (Hheap : agree_on (range (heap_start (ek st)) total) (mem (ek st)) m1).
  { eapply agree_on_weaken; [|exact Hc1]. rewrite slot_base_eq by lia. unfold range. lia. }
  destruct (lookup_file (efs st) nm) as [c|] eqn:Ef;
    [destruct (Z.leb_spec (alen c) USER_PROG_MAX_SIZE) as [Hfit|Hbig]|]; cbn [negb length].
  2-3: clearbody m1; do 2 eexists; split; [reflexivity|]; split;
    [destruct (Hfail m1 Hheap Hmb []) as ((bs' & sp' & []) & ? & ?); split; [exists bs', sp'; by split|done]|];
    split; [exact F1|]; split; [exact F2|]; split; [exact F3|];
    (split; [eapply agree_on_weaken; [|exact Hc1]; unfold untouched; rewrite Eslot; tauto|]); left; (split; [done|]); (split; [done|]); (split; [done|]);
    unfold run_refused; rewrite Eslot, Ef; first [by left|done].
  pose proof (staged_state (ek st) slot c t) as Hk. cbn zeta in Hk. fold m1 in Hk.
  match goal with |- context [exec_start _ _ _ _ _ _ _ _ _ ?s] => set (st1 := s) end.
  change (ek st1 = set_mem (staged_memory slot c (mem (ek st))) (Sched.kprint t (ek st))) in Hk.
  apply (exec_start_ok st slot c nm name argv args t f' bs sp HL Hwf Hready Eslot ltac:(lia) Ef Hfit F1 F2 F3
    st1 Hk eq_refl eq_refl).
Qed.

(** C28: [exec_run] returns.  Its name and its at most 126 arguments are strings
    of the kernel, apart from the buffers of the loader, and the file of that
    name, if there is one, is not an ELF image or one that the loader handles
    safely ([safe_image]: the table of program headers does not wrap around and
    no segment has more file bytes than memory bytes).  It fails with -1, the
    slots and the task table as they were, for lack of a slot, of the file, of
    room for it, of a loadable image or of a task's resources; otherwise it
    starts the program: in the first free slot, from the file of that name, at
    the entry point that the loader computed; the program's window holds what
    the loader put there, the task starts in ring 3 with the number of
    arguments in EBX and in ECX the table of pointers to copies of the
    arguments, followed by zeroes.  In both cases the kernel's invariant
    holds, the file system is unchanged, and nothing is written but the heap,
    the staging buffer and the slot's window and argument area. *)
Theorem exec_run_correct st name argv nm args bs sp : layout_ok L ->
  kernel_wf L total (ek st) bs sp -> exec_ready st name argv nm args ->
  exists r st', exec_run L exec_stacks elf_staging str_fuel name (alen args) argv st = Some (r, st') /\
    kernel_fine (heap_start (ek st)) (ek st') /\
    root (efs st') = root (efs st) /\ bitmap (efs st') = bitmap (efs st) /\
    same_disk (dev (efs st)) (dev (efs st')) /\
    agree_on (untouched st) (mem (ek st)) (mem (ek st')) /\
    ((r = -1 /\ slot_pid st' = slot_pid st /\ tasks (ek st') = tasks (ek st) /\
      run_refused st nm bs sp) \/
     program_started st st' nm args r).
Proof. apply exec_run_ok. Qed.

(** ** Programs that run at the same time *)

(** A running program: its task and its slot. *)
Definition program : Type := Z * Z.
Definition running (k : kernel) (p : program) : bool := task_is_active p.1 k.

(** The programs of a run, in any order with everything else that the kernel
    does: a successful [exec_run] adds one; the others stay as long as their
    task is active. *)
Inductive exec_step (task_exit_at : Z) : exec D * list program -> exec D * list program -> Prop :=
  | exec_step_run st live name argv nm args r st' : exec_ready st name argv nm args ->
      exec_run L exec_stacks elf_staging str_fuel name (alen args) argv st = Some (r, st') ->
      exec_step task_exit_at (st, live)
        (st', if 0 <=? r then (r, default 0 (find_free_slot st)) :: live else live)
  | exec_step_kernel st live k' : kernel_step L total task_exit_at (ek st) k' ->
      exec_step task_exit_at (st, live) (set_ek k' st, List.filter (running k') live)
  | exec_step_files st live f : exec_step task_exit_at (st, live) (mkExec (ek st) f (slot_pid st), live).

(** Each running program has its slot for itself. *)
Record programs_ok (sl : exec D * list program) : Prop := {
  po_kernel : exists bs sp, kernel_wf L total (ek sl.1) bs sp;
  po_slots : alen (slot_pid sl.1) = 4;
  po_live p : p ∈ sl.2 -> running (ek sl.1) p = true /\ 0 <= p.2 < 4 /\ (slot_pid sl.1).[p.2] = p.1;
  po_nodup : NoDup (map snd sl.2);
}.

Lemma running_task k p : running k p = true -> 0 <= p.1 < 16 /\ active (task k p.1) = true.
Proof.
  unfold running, task_is_active, MAX_TASKS.
  destruct (Z.ltb_spec p.1 0), (Z.leb_spec 16 p.1); cbn [orb]; done.
Qed.

Lemma find_free_slot_spec (st : exec D) slot : find_free_slot st = Some slot -> 0 <= slot < 4 /\
  forall p, running (ek st) p = true -> (slot_pid st).[slot] = p.1 -> False.
Proof.
  intros E. apply find_index_Some in E as (Hs & Hp & _). change (Z.of_nat (Z.to_nat MAX_EXEC_SLOTS)) with 4 in Hs.
  split; [lia|]. intros p Hr Hq. destruct (running_task _ _ Hr) as [Hb _]. unfold running in Hr.
  rewrite Hq, Hr, (proj2 (Z.ltb_ge p.1 0)) in Hp by lia. done.
Qed.

Lemma exec_step_ok te sl sl' : layout_ok L -> exec_step te sl sl' -> programs_ok sl -> programs_ok sl'.
Proof.
  intros HL Hstep [(bs & sp & Hwf) Hlen Hlive Hnd]. destruct Hstep as [st live name argv nm args r st' Hr E|st live k' Hk|];
    cbn [fst snd] in *; [| |by split; eauto].
  - destruct (exec_run_ok st name argv nm args bs sp HL Hwf Hr) as (r' & st1 & E' & [Hwf' _] & _ & _ & _ & _ & Hcase).
    rewrite E in E'. injection E' as <- <-. destruct Hcase as [(-> & Hp & Ht & _)|Hst].
    + split; cbn [fst snd]; [done|by rewrite Hp| |done]. intros p Hin. rewrite Hp.
      destruct (Hlive p Hin) as (H1 & H2 & H3). split; [|by split]. unfold running, task_is_active, task in *. by rewrite Ht.
    + destruct Hst as (slot & c & entry & m & Es & _ & _ & Hp & Hsp & _). rewrite Es; change (default 0 (Some slot)) with slot.
      destruct Hsp as (Hr1 & Hr2 & Hr3 & _ & _ & _ & Hr4 & _). rewrite (proj2 (Z.leb_le 0 r)) by lia.
      destruct (find_free_slot_spec st slot Es) as [Hs Hfree].
      split; cbn [fst snd]; [done|by rewrite Hp, alen_arr_set| |].
      * intros p. rewrite elem_of_cons. intros [->|Hin]; cbn [fst snd]; rewrite Hp.
        -- split; [|split; [exact Hs|by rewrite arr_get_set_eq by lia]].
           unfold running, task_is_active, MAX_TASKS. cbn [fst].
           by rewrite (proj2 (Z.ltb_ge r 0)), (proj2 (Z.leb_gt 16 r)) by lia.
        -- destruct (Hlive p Hin) as (H1 & H2 & H3). assert (p.2 <> slot) by (intros Eq; rewrite Eq in H3; by eapply Hfree).
           split; [|split; [done|by rewrite arr_get_set_ne by lia]].
           destruct (running_task _ _ H1) as [Hb Ha]. assert (p.1 <> r) by congruence.
           unfold running, task_is_active in *. by rewrite Hr4.
      * cbn [map snd]. constructor; [|done]. intros Hin. apply list_elem_of_fmap in Hin as (p & -> & Hin).
        destruct (Hlive p Hin) as (H1 & H2 & H3). by eapply Hfree.
  - split; cbn [fst snd ek slot_pid set_ek]; [eapply kernel_step_wf; eauto|done| |].
    + intros p Hin. apply list_elem_of_In, filter_In in Hin as [Hin Hr]. apply list_elem_of_In in Hin.
      split; [done|]. apply (Hlive p Hin).
    + clear -Hnd. induction live as [|p live IH]; cbn; [done|]. inversion Hnd as [|? ? Hn Hnd']; subst.
      destruct (running k' p); cbn; [|by apply IH]. constructor; [|by apply IH].
      intros Hin. apply Hn. apply list_elem_of_fmap in Hin as (q & Hq & Hin). apply list_elem_of_fmap.
      apply list_elem_of_In, filter_In in Hin as [Hin _]. exists q. split; [done|by apply list_elem_of_In].
Qed.

(** C29: loaded programs are kept apart.  In any order of starts of programs
    with safe images ([exec_ready], [safe_image]), kernel steps
    ([kernel_step]: the tasks write only memory that is theirs to write) and
    file-system changes, the running programs have distinct slots; and when
    another program with a safe image is started, or fails to start, not a
    byte of their windows and stacks changes. *)
Theorem exec_programs_isolated te st0 st live bs sp : layout_ok L ->
  kernel_wf L total (ek st0) bs sp -> alen (slot_pid st0) = 4 -> rtc (exec_step te) (st0, []) (st, live) ->
  NoDup (map snd live) /\
  (forall p q, p ∈ live -> q ∈ live -> p <> q ->
     SLOT_BASE p.2 + USER_PROG_MAX_SIZE <= SLOT_BASE q.2 \/ SLOT_BASE q.2 + USER_PROG_MAX_SIZE <= SLOT_BASE p.2) /\
  forall name argv nm args r st', exec_ready st name argv nm args ->
    exec_run L exec_stacks elf_staging str_fuel name (alen args) argv st = Some (r, st') ->
    forall p, p ∈ live ->
      agree_on (range (SLOT_BASE p.2) USER_PROG_MAX_SIZE) (mem (ek st)) (mem (ek st')) /\
      agree_on (range (slot_stack p.2) 4096) (mem (ek st)) (mem (ek st')).
Proof.
  intros HL Hwf Hlen Hrun. assert (Hok : programs_ok (st, live)).
  { assert (Hini : programs_ok (st0, [])) by (split; cbn [fst snd]; [by eauto|done|intros p Hp; by inversion Hp|constructor]).
    revert Hini. generalize (st0, @nil program) (st, live) Hrun. clear - HL fuel_range disk_large. intros a b Hrun.
    induction Hrun; [done|]. intros Hx. by eapply IHHrun, exec_step_ok. }
  clear bs sp Hwf. destruct Hok as [(bs & sp & Hwf) Hl Hlive Hnd]. cbn [fst snd] in *. split; [done|]. split.
  - intros p q Hp Hq Hne. destruct (Hlive p Hp) as (_ & Bp & Ep), (Hlive q Hq) as (_ & Bq & Eq).
    assert (p.2 <> q.2). { intros E. apply Hne. destruct p, q. cbn in *. congruence. }
    rewrite !slot_base_eq by done. unfold USER_PROG_MAX_SIZE. lia.
  - intros name argv nm args r st' Hr E p Hp.
    destruct (exec_run_ok st name argv nm args bs sp HL Hwf Hr) as (r' & st1 & E' & _ & _ & _ & _ & Hunt & _).
    rewrite E in E'. injection E' as <- <-. destruct (Hlive p Hp) as (Hr1 & Bp & Ep).
    pose proof (er_layout _ _ _ _ _ Hr) as HE. pose proof (el_heap _ HE). pose proof (el_staging _ HE).
    pose proof (el_stacks _ HE). pose proof (el_apart _ HE).
    assert (Hx : forall x, range (SLOT_BASE p.2) 131072 x \/ range (slot_stack p.2) 4096 x -> untouched st x).
    { intros x Hx. unfold untouched. destruct (find_free_slot st) as [slot|] eqn:Es; [|done].
      destruct (find_free_slot_spec st slot Es) as [Hs Hfree].
      assert (p.2 <> slot) by (intros Eq; rewrite Eq in Ep; by eapply Hfree).
      unfold range, slot_stack in *. rewrite slot_base_eq in * by done. lia. }
    split; (eapply agree_on_weaken; [|exact Hunt]); unfold USER_PROG_MAX_SIZE; auto.
Qed.
End exec_props.

(** ** A concrete run: [exec hello un] *)

(** The file system with the demonstration program in it. *)
Definition demo_fs : fs ramdisk :=
  snd (fs_write_new (text "hello") (demo_elf 3145728 8 16) 140 false formatted).

Lemma demo_fs_ok : fs_wf demo_fs /\
  lookup_file demo_fs (text "hello") = Some (padded (demo_elf 3145728 8 16) 140).
Proof.
  destruct (write_new_added ramdisk_big_enough formatted (text "hello") (demo_elf 3145728 8 16) 140 false 0 0)
    as (s' & E & Hwf & Hlk);
    [apply formatted_wf|apply good_hello|vm_compute; by repeat constructor|by vm_compute|lia
    |by vm_compute|by vm_compute| |by vm_compute|].
  - split; [done|]. split; [done|]. split; [|lia]. intros i Hi.
    replace i with 0 by (change ((140 + 511) / 512) with 1 in Hi; lia). by vm_compute.
  - unfold demo_fs. rewrite E. split; [done|]. rewrite Hlk by apply good_hello. by rewrite decide_True by reflexivity.
Qed.

(** The words at the command line's addresses. *)
Definition demo_line : memory := fun x =>
  if (4096 <=? x) && (x <? 4102) then (text "hello" ++ [0]).[x - 4096]
  else if (4112 <=? x) && (x <? 4115) then (text "un" ++ [0]).[x - 4112]
  else mem running_kernel x.
Definition demo_exec : exec ramdisk :=
  mkExec (set_mem demo_line (Sched.kprint [] running_kernel)) demo_fs [-1; -1; -1; -1].

Lemma demo_exec_wf : kernel_wf demo_layout 1048576 (ek demo_exec) boot_blocks no_spaces.
Proof.
  apply wf_outside_heap; [apply running_kernel_wf|]. intros x Hx. change (heap_start running_kernel) with 1048576 in Hx.
  unfold demo_line, range in *. zcases.
Qed.

Lemma demo_image_safe : safe_image 65536 (padded (demo_elf 3145728 8 16) 140).
Proof.
  intros m Hm _. assert (Hag : agree_on (range 65536 140) demo_image m).
  { intros x Hx. unfold range in Hx. replace x with (65536 + (x - 65536)) at 1 by lia. rewrite Hm.
    - unfold padded, demo_image, staged. rewrite take_ge by (vm_compute; lia).
      by rewrite arr_get_app_l by (change (0 <= x - 65536 < 140); lia).
    - change (0 <= x - 65536 < 512). lia. }
  assert (H32 : forall o, 0 <= o <= 136 -> load32 m (65536 + o) = load32 demo_image (65536 + o)).
  { intros o Ho. apply load32_agree; [lia|lia|]. eapply agree_on_weaken; [|exact Hag]. unfold range. lia. }
  assert (Hoff : e_phoff m 65536 = 52) by (unfold e_phoff; rewrite u32_id by done; rewrite H32 by lia; by vm_compute).
  assert (Hnum : e_phnum m 65536 = 1).
  { unfold e_phnum, load16. rewrite !u32_id by done. unfold load8.
    rewrite !u32_id by done. rewrite !Hag by (unfold range; lia). by vm_compute. }
  split; [unfold ph_no_wrap; rewrite Hoff, Hnum; lia|].
  intros _ i Hi _. rewrite Hnum in Hi. replace i with 0 by lia. unfold phdr, read_phdr. cbn [p_filesz p_memsz].
  rewrite Hoff, !u32_id by done. change (65536 + 52 + 32 * 0) with (65536 + 52). rewrite <- !Z.add_assoc.
  rewrite !H32 by lia. by vm_compute.
Qed.

Lemma demo_line_bytes : mem_bytes demo_line.
Proof.
  assert (Hl : forall l i, Forall is_byte l -> is_byte (l.[i])).
  { intros l i Hl. destruct (decide (0 <= i < alen l)); [|by rewrite arr_get_oob by lia].
    rewrite arr_Forall in Hl. by apply Hl. }
  intros x. unfold demo_line. destruct (_ && _); [apply Hl; vm_compute; by repeat constructor|].
  destruct (_ && _); [apply Hl; vm_compute; by repeat constructor|].
  change (is_byte (boot_memory x)). revert x. change (mem_bytes boot_memory).
  unfold boot_memory, heap_init, set_is_free, set_next, set_size. cbn [snd]. apply mem_bytes_store8. do 2 apply mem_bytes_store32. intros x. unfold is_byte. lia.
Qed.

Lemma demo_string p s : (p = 4096 /\ s = text "hello") \/ (p = 4112 /\ s = text "un") ->
  kernel_string 250000 65536 200 1048576 demo_line p s.
Proof.
  intros Hp. assert (Hs : p + alen s + 1 <= 4115 /\ 4096 <= p /\ alen s <= 5)
    by (destruct Hp as [[-> ->]|[-> ->]]; by vm_compute).
  split_and!; [|lia..]. split; [|destruct Hp as [[-> ->]|[-> ->]]; vm_compute; by repeat constructor].
  intros i Hi. rewrite alen_snoc in Hi. unfold demo_line.
  destruct Hp as [[-> ->]|[-> ->]]; [change (alen (text "hello")) with 5 in *|change (alen (text "un")) with 2 in *].
  - rewrite (proj2 (Z.leb_le _ _)), (proj2 (Z.ltb_lt _ _)) by lia. cbn [andb]. f_equal. lia.
  - rewrite (proj2 (Z.ltb_ge _ 4102)) by lia. rewrite andb_false_r.
    rewrite (proj2 (Z.leb_le _ _)), (proj2 (Z.ltb_lt _ _)) by lia. cbn [andb]. f_equal. lia.
Qed.

Lemma demo_exec_parts : heap_start (ek demo_exec) = 1048576 /\ mem (ek demo_exec) = demo_line /\
  efs demo_exec = demo_fs /\ alen (slot_pid demo_exec) = 4.
Proof. split; [reflexivity|]. split; [reflexivity|]. split; reflexivity. Qed.

Lemma demo_exec_ready :
  exec_ready 250000 65536 1048576 200 demo_exec 4096 [4096; 4112] (text "hello") [text "hello"; text "un"].
Proof.
  destruct demo_exec_parts as (E1 & E2 & E3 & E4). split; rewrite ?E1, ?E2, ?E3.
  - split; lia.
  - exact demo_line_bytes.
  - exact E4.
  - exact (proj1 demo_fs_ok).
  - exact good_hello.
  - apply demo_string. left. split; reflexivity.
  - intros j Hj. apply demo_string. change (0 <= j < 2) in Hj.
    assert (j = 0 \/ j = 1) as [-> | ->] by lia; [left|right]; split; reflexivity.
  - change (2 <= 126). lia.
  - intros c Hc. rewrite (proj2 demo_fs_ok) in Hc. apply Some_inj in Hc. subst c. exact demo_image_safe.
Qed.

Lemma exec_run_correct_witness :
  exists r st', exec_run demo_layout 250000 65536 200 4096 2 [4096; 4112] demo_exec = Some (r, st') /\
    kernel_fine demo_layout 1048576 (heap_start (ek demo_exec)) (ek st') /\
    root (efs st') = root (efs demo_exec) /\ bitmap (efs st') = bitmap (efs demo_exec) /\
    same_disk (dev (efs demo_exec)) (dev (efs st')) /\
    agree_on (untouched 250000 65536 1048576 demo_exec) (mem (ek demo_exec)) (mem (ek st')) /\
    ((r = -1 /\ slot_pid st' = slot_pid demo_exec /\ tasks (ek st') = tasks (ek demo_exec) /\
      run_refused 65536 demo_exec (text "hello") boot_blocks no_spaces) \/
     program_started 250000 65536 demo_exec st' (text "hello") [text "hello"; text "un"] r).
Proof.
  apply (exec_run_correct demo_layout 250000 65536 1048576 200 ltac:(lia) ramdisk_big_enough demo_exec 4096
    [4096; 4112] (text "hello") [text "hello"; text "un"] boot_blocks no_spaces demo_layout_ok demo_exec_wf
    demo_exec_ready).
Defined.

Definition loads (o : elf_outcome) : bool := if o is ElfOk _ _ then true else false.
Lemma demo_loads : loads (elf_load 65536 (alen (padded (demo_elf 3145728 8 16) 140)) (SLOT_BASE 0) USER_PROG_MAX_SIZE LINK_BASE
  (staged_memory 65536 0 (padded (demo_elf 3145728 8 16) 140) demo_line)) = true.
Proof. by vm_compute. Qed.

(** The demonstration program starts: it is task [r], in slot 0. *)
Lemma demo_runs : exists r st, exec_run demo_layout 250000 65536 200 4096 2 [4096; 4112] demo_exec = Some (r, st) /\ 0 <= r /\
  find_free_slot demo_exec = Some 0.
Proof.
  destruct (exec_run_ok demo_layout 250000 65536 1048576 200 ltac:(lia) ramdisk_big_enough demo_exec 4096
    [4096; 4112] (text "hello") [text "hello"; text "un"] boot_blocks no_spaces demo_layout_ok demo_exec_wf demo_exec_ready)
    as (r & st & E & _ & _ & _ & _ & _ & Hcase). assert (Hs : find_free_slot demo_exec = Some 0) by reflexivity.
  exists r, st. split; [exact E|]. split; [|exact Hs]. destruct Hcase as [(_ & _ & _ & Hno)|(slot & c & entry & m & _ & _ & _ & _ & Hsp & _)].
  2:{ apply Hsp. }
  exfalso. clear E. destruct demo_exec_parts as (_ & Em & Ef & _). assert (Elk : lookup_file (efs demo_exec) (text "hello") = Some (padded (demo_elf 3145728 8 16) 140)) by (rewrite Ef; apply demo_fs_ok).
  destruct (run_refused_cases 65536 demo_exec (text "hello") boot_blocks no_spaces 0 _ _ Hno Hs Elk Em) as [H|[(msg & m & H)|[H|[H|H]]]]; clear Hno Hs Elk Em Ef.
  - revert H. by vm_compute.
  - generalize demo_loads. intros Hok. apply (f_equal loads) in H. exact (diff_true_false (eq_trans (eq_sym Hok) H)).
  - specialize (H 5 ltac:(lia)). revert H. by vm_compute.
  - apply Forall_cons in H as [H _]. specialize (H eq_refl). revert H. by vm_compute.
  - exact (H 0 ltac:(unfold MAX_ADDR_SPACES; lia) eq_refl).
Qed.

Lemma exec_programs_isolated_witness : exists r st, rtc (exec_step demo_layout 250000 65536 1048576 200 40000) (demo_exec, []) (st, [(r, 0)]) /\
  forall name argv nm args r' st', exec_ready 250000 65536 1048576 200 st name argv nm args ->
    exec_run demo_layout 250000 65536 200 name (alen args) argv st = Some (r', st') ->
    agree_on (range 3145728 131072) (mem (ek st)) (mem (ek st')) /\ agree_on (range 250000 4096) (mem (ek st)) (mem (ek st')).
Proof.
  destruct demo_runs as (r & st & E & Hr & Hs). exists r, st.
  assert (Hrun : rtc (exec_step demo_layout 250000 65536 1048576 200 40000) (demo_exec, []) (st, [(r, 0)])).
  { apply rtc_once. pose proof (exec_step_run demo_layout 250000 65536 1048576 200 40000 demo_exec [] 4096 [4096; 4112] (text "hello")
      [text "hello"; text "un"] r st demo_exec_ready E) as Hstep.
    rewrite (proj2 (Z.leb_le 0 r) Hr), Hs in Hstep. exact Hstep. }
  split; [exact Hrun|].
  destruct (exec_programs_isolated demo_layout 250000 65536 1048576 200 ltac:(lia) ramdisk_big_enough 40000 demo_exec
    st [(r, 0)] boot_blocks no_spaces demo_layout_ok demo_exec_wf (proj2 (proj2 (proj2 demo_exec_parts))) Hrun) as (_ & _ & H3).
  intros name argv nm args r' st' Hready E'. exact (H3 name argv nm args r' st' Hready E' (r, 0) (list_elem_of_here _ _)).
Defined.
