(* ===== verification/Shell.v ===== *)
(** * The shell ([kernel/shell.c])

    The command line, its history and the commands.  The shell calls every
    other component: the kernel state, the file system and the program slots
    are those of [Exec.v]; the command line itself is in memory, since
    programs get pointers into it.  The theorems are in [ShellProps.v]. *)
From Stdlib Require Import String.
From stdpp Require Import base numbers list list_numbers.
From S2P Require Import Prelude Machine Heap BlockDev Fs Paging Pit Sched Elf Keyboard Screen Exec.

Definition HISTORY_SIZE : Z := 8.
Definition HISTORY_FILE : list Z := text "history.dat".
Definition MOTD_FILE : list Z := text "motd".
Definition EXEC_MAX_ARGS : Z := 8.
(** [sizeof(buf)] in [history_save] and [history_load_from_disk], and in
    [shell_show_motd]. *)
Definition sizeof_history_buf : Z := HISTORY_SIZE * 256.
Definition sizeof_motd_buf : Z := 512.

(** ** Strings

    [m_strcmp] and [m_strncmp] compare the string at [p] with a literal. *)
Fixpoint m_strcmp (m : memory) (p : Z) (s2 : list Z) : Z :=
  match s2 with
  | [] => load8 m p
  | c :: s2 =>
    if negb (load8 m p =? 0) && (load8 m p =? c) then m_strcmp m (p ⊕ 1) s2 else load8 m p - c
  end.

Fixpoint m_strncmp (m : memory) (p : Z) (s2 : list Z) (n : nat) : Z :=
  match n with
  | O => 0
  | S n =>
    match s2 with
    | [] => load8 m p
    | c :: s2 =>
      if negb (load8 m p =? 0) && (load8 m p =? c) then m_strncmp m (p ⊕ 1) s2 n else load8 m p - c
    end
  end.

(** [while (f( *p)) p++;], for at most the 256 bytes of a command line. *)
Fixpoint scan (f : Z -> bool) (n : nat) (m : memory) (p : Z) : Z :=
  match n with
  | O => p
  | S n => if f (load8 m p) then scan f n m (p ⊕ 1) else p
  end.
Definition line_fuel : nat := 256.
Definition is_space (c : Z) : bool := c =? 32.
Definition in_word (c : Z) : bool := negb (c =? 0) && negb (c =? 32).
Definition is_digit (c : Z) : bool := (48 <=? c) && (c <=? 57).
Definition skip_spaces (m : memory) (p : Z) : Z := scan is_space line_fuel m p.

(** [while ( *p >= '0' && *p <= '9') { v = v * 10 + ( *p - '0'); p++; }] *)
Fixpoint parse_digits (n : nat) (m : memory) (p v : Z) : Z * Z :=
  match n with
  | O => (v, p)
  | S n =>
    if is_digit (load8 m p) then parse_digits n m (p ⊕ 1) (s32 (v * 10 + (load8 m p - 48))) else (v, p)
  end.
Definition parse_int (m : memory) (p : Z) : Z * Z := parse_digits line_fuel m p 0.

(** The splitting loop of the [exec] command, with room for [n] more
    arguments: the pointers, and the memory where the separators are zero. *)
Fixpoint split_args (n : nat) (m : memory) (p : Z) : list Z * memory :=
  match n with
  | O => ([], m)
  | S n =>
    if load8 m p =? 0 then ([], m)
    else
      let q := scan in_word line_fuel m p in
      let '(m, q) :=
        if load8 m q =? 32 then let m := store8 m q 0 in (m, skip_spaces m (q ⊕ 1)) else (m, q) in
      let '(argv, m) := split_args n m q in (p :: argv, m)
  end.

(** [trim_to_first_nul] *)
Definition trim_to_first_nul (buf : list Z) (size : Z) : Z :=
  match find_index (fun i => buf.[i] =? 0) (Z.to_nat size) 0 with
  | Some i => i
  | None => size
  end.

Section shell.
Context {D : Type} `{BlockDevice D}.
(** The page tables, the addresses of [exec_stacks], [elf_staging],
    [input_buffer] and of the [buf] of [shell_poll_ipc]. *)
Context (L : Layout) (exec_stacks elf_staging input_buffer poll_buf : Z) (str_fuel : nat).

(** The static variables of [shell.c], with the system below.  [clears]
    records where in the console text [clear_screen] was called. *)
Record shell := mkShell {
  sys : exec D;
  buffer_idx : Z;
  history : list (list Z);
  history_len : list Z;
  history_count : Z;
  history_nav : Z;
  saved_line : list Z;
  saved_line_len : Z;
  clears : list Z;
}.

Definition set_sys v st := mkShell v (buffer_idx st) (history st) (history_len st) (history_count st)
  (history_nav st) (saved_line st) (saved_line_len st) (clears st).
Definition set_buffer_idx v st := mkShell (sys st) v (history st) (history_len st) (history_count st)
  (history_nav st) (saved_line st) (saved_line_len st) (clears st).
Definition set_history h l c st := mkShell (sys st) (buffer_idx st) h l c
  (history_nav st) (saved_line st) (saved_line_len st) (clears st).
Definition set_history_nav v st := mkShell (sys st) (buffer_idx st) (history st) (history_len st)
  (history_count st) v (saved_line st) (saved_line_len st) (clears st).
Definition set_saved l n st := mkShell (sys st) (buffer_idx st) (history st) (history_len st)
  (history_count st) (history_nav st) l n (clears st).

Definition sh_mem (st : shell) : memory := mem (ek (sys st)).
Definition set_sh_mem m st := set_sys (set_ek (set_mem m (ek (sys st))) (sys st)) st.
Definition sh_print (t : list Z) (st : shell) : shell := set_sys (exec_print t (sys st)) st.
Definition sh_clear_screen (st : shell) : shell :=
  mkShell (sys st) (buffer_idx st) (history st) (history_len st) (history_count st)
    (history_nav st) (saved_line st) (saved_line_len st)
    (clears st ++ [alen (Sched.console (ek (sys st)))]).
Definition sh_fs {A} (op : M (fs D) A) (st : shell) : A * shell :=
  let '(a, e) := on_fs op (sys st) in (a, set_sys e st).

(** [input_buffer[i]] *)
Definition input_char (st : shell) (i : Z) : Z := load8 (sh_mem st) (input_buffer ⊕ i).
Definition set_input_char (i v : Z) (st : shell) : shell :=
  set_sh_mem (store8 (sh_mem st) (input_buffer ⊕ i) v) st.

(** ** The history *)

Definition max_steps (st : shell) : Z :=
  if history_count st <? HISTORY_SIZE then history_count st else HISTORY_SIZE.
(** [(history_count - 1 - steps_back + HISTORY_SIZE) % HISTORY_SIZE] *)
Definition history_slot (st : shell) (steps_back : Z) : Z :=
  Z.rem (history_count st - 1 - steps_back + HISTORY_SIZE) HISTORY_SIZE.

Definition history_push (cmd : Z -> Z) (len : Z) (st : shell) : shell :=
  let len := if 255 <? len then 255 else len in
  let slot := Z.rem (history_count st) HISTORY_SIZE in
  let row := for_loop (Z.to_nat len) 0 (fun i row => row.[i <- cmd i]) (history st).[slot] in
  set_history ((history st).[slot <- row]) ((history_len st).[slot <- len]) (history_count st + 1) st.

(** The two loops of [history_save]; [len] is the length of [buf]. *)
Definition save_line (row : list Z) (l : Z) (buf : list Z) : list Z :=
  let room (buf : list Z) := alen buf <? sizeof_history_buf - 1 in
  let buf := for_loop (Z.to_nat l) 0 (fun i buf => if room buf then buf ++ [row.[i]] else buf) buf in
  if room buf then buf ++ [10] else buf.
Definition history_text (st : shell) : list Z :=
  for_loop (Z.to_nat (max_steps st)) 0 (fun j buf =>
    let slot := history_slot st (max_steps st - 1 - j) in
    save_line (history st).[slot] (history_len st).[slot] buf) [].

Definition history_save (st : shell) : shell :=
  let buf := history_text st in
  if alen buf =? 0 then st
  else
    let '(_, st) := sh_fs (fs_delete_file_silent (Some HISTORY_FILE)) st in
    let '(_, st) := sh_fs (fs_write_file_silent (Some HISTORY_FILE) (Some buf) (alen buf)) st in
    st.

(** The loop of [history_load_from_disk] over the [size] bytes of [buf]. *)
Definition push_lines (buf : list Z) (size : Z) (st : shell) : shell :=
  snd (for_loop (Z.to_nat (size + 1)) 0 (fun i '(start, st) =>
    if (i =? size) || (buf.[i] =? 10) then
      (i + 1, if start <? i then history_push (fun k => buf.[start + k]) (i - start) st else st)
    else (start, st)) (0, st)).

Definition history_load_from_disk (st : shell) : shell :=
  let '(ex, st) := sh_fs (fs_file_exists (Some HISTORY_FILE)) st in
  if negb ex then st
  else
    let '((ok, buf), st) := sh_fs (fs_load_file (Some HISTORY_FILE) false sizeof_history_buf) st in
    if negb ok then st
    else push_lines buf (trim_to_first_nul buf (alen buf)) st.

Definition shell_show_motd (st : shell) : shell :=
  let '(ex, st) := sh_fs (fs_file_exists (Some MOTD_FILE)) st in
  if negb ex then st
  else
    let '((ok, buf), st) := sh_fs (fs_load_file (Some MOTD_FILE) false sizeof_motd_buf) st in
    if negb ok then st
    else
      let size := trim_to_first_nul buf (alen buf) in
      let st := sh_print (newline ++ text "--- " ++ MOTD_FILE ++ text " ---" ++ newline) st in
      let st := for_loop (Z.to_nat size) 0 (fun i st => sh_print [buf.[i]] st) st in
      sh_print newline st.

Definition prompt : list Z := text "> ".
Definition shell_init (st : shell) : shell :=
  let st := sh_print (newline ++ text "MxOS Shell v1.0" ++ newline
    ++ text "Tapez 'help' pour la liste des commandes." ++ newline) st in
  let st := history_load_from_disk st in
  let st := shell_show_motd st in
  set_buffer_idx 0 (sh_print prompt st).

(** ** Editing the command line *)

(** [while (buffer_idx > 0) { kprint_char('\b'); buffer_idx--; }] *)
Fixpoint erase_line (n : nat) (st : shell) : shell :=
  match n with
  | O => st
  | S n =>
    if 0 <? buffer_idx st then erase_line n (set_buffer_idx (buffer_idx st - 1) (sh_print [8] st)) else st
  end.
Definition redraw_input_line (new_len : Z) (st : shell) : shell :=
  let st := erase_line (Z.to_nat (buffer_idx st)) st in
  let st := for_loop (Z.to_nat new_len) 0 (fun i st => sh_print [input_char st i] st) st in
  set_buffer_idx new_len st.

Definition history_load (steps_back : Z) (st : shell) : shell :=
  let slot := history_slot st steps_back in
  let len := (history_len st).[slot] in
  let st := for_loop (Z.to_nat len) 0 (fun i st => set_input_char i (history st).[slot].[i] st) st in
  redraw_input_line len st.

Definition history_up (st : shell) : shell :=
  if history_count st =? 0 then st
  else
    let st :=
      if history_nav st =? -1 then
        let saved := for_loop (Z.to_nat (buffer_idx st)) 0
          (fun i saved => saved.[i <- input_char st i]) (saved_line st) in
        set_history_nav 0 (set_saved saved (buffer_idx st) st)
      else if history_nav st + 1 <? max_steps st then set_history_nav (history_nav st + 1) st
      else st in
    history_load (history_nav st) st.

Definition history_down (st : shell) : shell :=
  if history_nav st =? -1 then st
  else if history_nav st =? 0 then
    let st := set_history_nav (-1) st in
    let st := for_loop (Z.to_nat (saved_line_len st)) 0
      (fun i st => set_input_char i (saved_line st).[i] st) st in
    redraw_input_line (saved_line_len st) st
  else
    let st := set_history_nav (history_nav st - 1) st in
    history_load (history_nav st) st.

(** ** Commands

    A command comes back to the prompt, or resets the machine ([reboot] does
    not return); [Stuck] is a string without terminator or a heap list
    without end. *)
Inductive ended := Prompt (st : shell) | Rebooting (st : shell) | Stuck.

Definition with_string (p : Z) (st : shell) (f : list Z -> ended) : ended :=
  match string_at str_fuel (sh_mem st) p with Some s => f s | None => Stuck end.

(** [kprint_dec], with the conversion of its argument to [uint32_t]. *)
Definition dec (v : Z) : list Z := cstr (dec_text (u32 v)).

(** [sched_dump_tasks] of [sched.c]. *)
Fixpoint dump_tasks_from (n : nat) (i : Z) (k : kernel) : option (list Z) :=
  match n with
  | O => Some []
  | S n =>
    let t := task k i in
    if negb (active t) then dump_tasks_from n (i + 1) k
    else
      match (if Sched.name t =? 0 then Some (text "?") else string_at str_fuel (mem k) (Sched.name t)),
            dump_tasks_from n (i + 1) k with
      | Some nm, Some rest => Some (dec i ++ text "    " ++ nm ++ text "            "
          ++ (if i =? current_task k then text "en cours  "
              else if sleeping t then text "sommeil   " else text "prete     ")
          ++ (if 0 <=? addr_space t then text "isole (ring3)" else text "noyau partage")
          ++ newline ++ rest)
      | _, _ => None
      end
  end.
Definition sched_dump_tasks (st : shell) : ended :=
  match dump_tasks_from (Z.to_nat MAX_TASKS) 0 (ek (sys st)) with
  | Some t => Prompt (sh_print (text "PID  NOM              ETAT       ESPACE" ++ newline ++ t) st)
  | None => Stuck
  end.

Definition cmd_exec (st : shell) : ended :=
  let p := skip_spaces (sh_mem st) (input_buffer ⊕ 5) in
  let '(argv, m) := split_args (Z.to_nat EXEC_MAX_ARGS) (sh_mem st) p in
  let st := set_sh_mem m st in
  if alen argv =? 0 then Prompt (sh_print (text "Usage : exec <fichier> [arguments...]") st)
  else
    match exec_run L exec_stacks elf_staging str_fuel argv.[0] (alen argv) argv (sys st) with
    | Some (_, e) => Prompt (set_sys e st)
    | None => Stuck
    end.

Definition cmd_kill (st : shell) : ended :=
  let p := skip_spaces (sh_mem st) (input_buffer ⊕ 5) in
  if negb (is_digit (load8 (sh_mem st) p)) then Prompt (sh_print (text "Usage : kill <pid>") st)
  else
    let '(pid, _) := parse_int (sh_mem st) p in
    let '(ok, k) := task_kill pid (ek (sys st)) in
    let st := set_sys (set_ek k (sys st)) st in
    Prompt (sh_print (if ok then text "Tache " ++ dec pid ++ text " terminee."
      else text "Impossible de terminer cette tache (PID invalide, inactive, ou tache courante).") st).

Definition cmd_priority (st : shell) : ended :=
  let usage := Prompt (sh_print (text "Usage : priority <pid> <niveau>") st) in
  let m := sh_mem st in
  let p := skip_spaces m (input_buffer ⊕ 9) in
  if negb (is_digit (load8 m p)) then usage
  else
    let '(pid, p) := parse_int m p in
    let p := skip_spaces m p in
    let neg := load8 m p =? 45 in
    let p := if neg then p ⊕ 1 else p in
    if negb (is_digit (load8 m p)) then usage
    else
      let '(level, _) := parse_int m p in
      let level := if neg then s32 (- level) else level in
      let st := set_sys (set_ek (task_set_priority pid level (ek (sys st))) (sys st)) st in
      Prompt (sh_print (text "Priorite mise a jour.") st).

Definition cmd_write (st : shell) : ended :=
  let m := sh_mem st in
  let name := skip_spaces m (input_buffer ⊕ 6) in
  let sep := scan in_word line_fuel m name in
  if load8 m sep =? 32 then
    let st := set_sh_mem (store8 m sep 0) st in
    with_string name st (fun nm => with_string (sep ⊕ 1) st (fun content =>
      let '(_, st) := sh_fs (fs_write_file (Some nm) (Some content) (alen content)) st in
      Prompt st))
  else Prompt (sh_print (text "Usage : write <nom> <contenu>") st).

Definition cmd_mem (st : shell) : ended :=
  match heap_stats (heap_start (ek (sys st))) (sh_mem st) with
  | Some (used, free_bytes) =>
    Prompt (sh_print (text "Heap - utilisee : " ++ dec used ++ text " octets, libre : "
      ++ dec free_bytes ++ text " octets") st)
  | None => Stuck
  end.

Definition cmd_uptime (st : shell) : shell :=
  let ticks := get_ticks (clock (ek (sys st))) in
  let freq := pit_get_frequency (clock (ek (sys st))) in
  let seconds := if negb (freq =? 0) then ticks / freq else 0 in
  sh_print (text "Uptime : " ++ dec seconds ++ text " secondes (" ++ dec ticks ++ text " ticks)") st.

Definition help_text : list Z :=
  text "Commandes : help, clear, ver, ls, cat <file>, write <file> <contenu>," ++ newline
  ++ text "rm <file>, exec <file> [args...], ps, kill <pid>, priority <pid> <niveau>," ++ newline
  ++ text "mem, uptime, reboot".

(** The chain of comparisons of [shell_execute]. *)
Definition shell_command (st : shell) : ended :=
  let m := sh_mem st in
  let equals s := m_strcmp m input_buffer (text s) =? 0 in
  let starts s := m_strncmp m input_buffer (text s) (String.length s) =? 0 in
  if equals "help"%string then Prompt (sh_print help_text st)
  else if equals "clear"%string then Prompt (sh_clear_screen st)
  else if equals "ver"%string then Prompt (sh_print (text "MxOS Kernel v1.1.2 (Preemptive/ATA-PIO)") st)
  else if equals "ls"%string then Prompt (snd (sh_fs fs_list st))
  else if starts "cat "%string then
    with_string (input_buffer ⊕ 4) st (fun nm => Prompt (snd (sh_fs (fs_read_file (Some nm)) st)))
  else if starts "rm "%string then
    with_string (input_buffer ⊕ 3) st (fun nm => Prompt (snd (sh_fs (fs_delete_file (Some nm)) st)))
  else if starts "exec "%string then cmd_exec st
  else if equals "ps"%string then sched_dump_tasks st
  else if starts "kill "%string then cmd_kill st
  else if starts "priority "%string then cmd_priority st
  else if starts "write "%string then cmd_write st
  else if equals "mem"%string then cmd_mem st
  else if equals "uptime"%string then Prompt (cmd_uptime st)
  else if equals "reboot"%string then Rebooting (sh_print (text "Redemarrage..." ++ newline) st)
  else if 0 <? buffer_idx st then
    with_string input_buffer st (fun s => Prompt (sh_print (text "Commande inconnue : " ++ s) st))
  else Prompt st.

Definition shell_execute (st : shell) : ended :=
  let st := sh_print newline st in
  let st := set_input_char (buffer_idx st) 0 st in
  let st :=
    if 0 <? buffer_idx st then history_save (history_push (input_char st) (buffer_idx st) st) else st in
  let st := set_history_nav (-1) st in
  match shell_command st with
  | Prompt st => Prompt (set_buffer_idx 0 (sh_print (newline ++ prompt) st))
  | e => e
  end.

Definition shell_update (c : Z) (st : shell) : ended :=
  if c =? 10 then shell_execute st
  else if c =? 8 then
    Prompt (if 0 <? buffer_idx st then sh_print [c] (set_buffer_idx (buffer_idx st - 1) st) else st)
  else if c =? KEY_ARROW_UP then Prompt (history_up st)
  else if c =? KEY_ARROW_DOWN then Prompt (history_down st)
  else if buffer_idx st <? 255 then
    let st := set_input_char (buffer_idx st) c st in
    Prompt (sh_print [c] (set_buffer_idx (buffer_idx st + 1) st))
  else Prompt st.

Definition shell_poll_ipc (st : shell) : ended :=
  let '(r, k) := ipc_recv poll_buf (ek (sys st)) in
  let st := set_sys (set_ek k (sys st)) st in
  match r with
  | None => Prompt st
  | Some (len, sender) =>
    let len := if 128 <=? len then 127 else len in
    let st := set_sh_mem (store8 (sh_mem st) (poll_buf ⊕ len) 0) st in
    with_string poll_buf st (fun s =>
      Prompt (sh_print (newline ++ text "[IPC] Message de la tache " ++ dec sender ++ text " : " ++ s ++ newline) st))
  end.

(** [shell_poll]; the keyboard ring holds at most 255 characters. *)
Fixpoint poll_keys (n : nat) (kb : keyboard) (st : shell) : ended * keyboard :=
  match n with
  | O => (Stuck, kb)
  | S n =>
    match keyboard_read_char kb with
    | (None, kb) => (Prompt st, kb)
    | (Some c, kb) =>
      match shell_update c st with
      | Prompt st => poll_keys n kb st
      | e => (e, kb)
      end
    end
  end.
Definition shell_poll (kb : keyboard) (st : shell) : ended * keyboard :=
  match poll_keys 256 kb st with
  | (Prompt st, kb) => (shell_poll_ipc st, kb)
  | r => r
  end.
End shell.
Arguments shell D : clear implicits.
Arguments ended D : clear implicits.
