(* ===== verification/ShellEdit.v ===== *)
(** * The command line and its history

    The editing functions of [shell.c] refine a line editor with a bounded
    history; the history survives a restart through the file system. *)
From Stdlib Require Import String.
From stdpp Require Import base numbers list list_numbers.
From S2P Require Import Prelude Machine Heap BlockDev Fs FsData FsProofs FsProps Paging Pit Sched Elf Keyboard Screen Exec Shell.

(** ** The specification: a line editor

    [past] holds the last eight commands, most recent first; [nav] is how far
    the user has gone back, -1 on the line being typed, which is then kept in
    [draft]. *)
Record editor := mkEditor { ed_line : list Z; past : list (list Z); nav : Z; draft : list Z }.

Definition ed_up (e : editor) : editor :=
  if alen (past e) =? 0 then e
  else
    let '(n, d) :=
      if nav e =? -1 then (0, ed_line e)
      else if nav e + 1 <? alen (past e) then (nav e + 1, draft e) else (nav e, draft e) in
    mkEditor (past e).[n] (past e) n d.
Definition ed_down (e : editor) : editor :=
  if nav e =? -1 then e
  else if nav e =? 0 then mkEditor (draft e) (past e) (-1) (draft e)
  else mkEditor (past e).[nav e - 1] (past e) (nav e - 1) (draft e).
Definition ed_enter (e : editor) : editor :=
  mkEditor [] (if alen (ed_line e) =? 0 then past e else take 8 (ed_line e :: past e)) (-1) (draft e).

(** A key. *)
Definition ed_key (e : editor) (c : Z) : editor :=
  if c =? 10 then ed_enter e
  else if c =? 8 then mkEditor (take (length (ed_line e) - 1) (ed_line e)) (past e) (nav e) (draft e)
  else if c =? KEY_ARROW_UP then ed_up e
  else if c =? KEY_ARROW_DOWN then ed_down e
  else if alen (ed_line e) <? 255 then mkEditor (ed_line e ++ [c]) (past e) (nav e) (draft e)
  else e.

(** What a terminal shows of the line after the text [out]: a backspace
    removes the last character. *)
Definition show (l : list Z) (c : Z) : list Z := if c =? 8 then take (length l - 1) l else l ++ [c].

(** The characters of a command line. *)
Definition typed (c : Z) : Prop := is_byte c /\ c <> 0 /\ c <> 8 /\ c <> 10.

Definition command (s : list Z) : Prop := Forall typed s /\ 0 < alen s <= 255.

Lemma show_chars l s : Forall typed s -> fold_left show s l = l ++ s.
Proof.
  intros Hs. revert l. induction Hs as [|c s Hc Hs IH]; intros l; cbn [fold_left]; [by rewrite app_nil_r|].
  rewrite IH. unfold show. rewrite (proj2 (Z.eqb_neq c 8)) by apply Hc. by rewrite <- app_assoc.
Qed.

Lemma show_erase l n : (length l <= n)%nat -> fold_left show (replicate n 8) l = [].
Proof.
  revert l. induction n as [|n IH]; intros l Hl; cbn [replicate fold_left]; [by destruct l; cbn in Hl; [|lia]|].
  apply IH. change (show l 8) with (take (length l - 1) l). rewrite length_take. lia.
Qed.

(** ** The abstraction *)
Section edit.
Context {D : Type} `{BlockDevice D}.
Context (L : Layout) (exec_stacks elf_staging input_buffer poll_buf : Z) (str_fuel : nat).
Context (buffer_range : 0 <= input_buffer /\ input_buffer + 256 <= 4294967296).
Abbreviation input_char := (input_char input_buffer).
Abbreviation set_input_char := (set_input_char input_buffer).
Implicit Types st : shell D.

Definition line (st : shell D) : list Z := build (buffer_idx st) (input_char st).
Definition entry (st : shell D) (slot : Z) : list Z :=
  build (history_len st).[slot] (fun i => (history st).[slot].[i]).
Definition commands (st : shell D) : list (list Z) :=
  build (max_steps st) (fun s => entry st (history_slot st s)).
Definition editor_of (st : shell D) : editor :=
  mkEditor (line st) (commands st) (history_nav st)
    (build (saved_line_len st) (fun i => (saved_line st).[i])).

(** The invariant: every index is in its array, every character is typed. *)
Record edit_ok (st : shell D) : Prop := {
  eo_idx : 0 <= buffer_idx st <= 255;
  eo_rows : alen (history st) = 8;
  eo_row i : 0 <= i < 8 -> alen (history st).[i] = 256;
  eo_lens : alen (history_len st) = 8;
  eo_len i : 0 <= i < 8 -> 0 <= (history_len st).[i] <= 255;
  eo_count : 0 <= history_count st;
  eo_nav : -1 <= history_nav st < Z.max 0 (max_steps st);
  eo_saved : alen (saved_line st) = 256;
  eo_saved_len : 0 <= saved_line_len st <= 255;
  eo_line : Forall typed (line st);
  eo_commands : Forall command (commands st);
  eo_draft : Forall typed (draft (editor_of st));
}.

(** The history part of the state is unaffected by the rest. *)
Definition same_history (st st' : shell D) : Prop :=
  history st' = history st /\ history_len st' = history_len st /\ history_count st' = history_count st.

Lemma commands_same st st' : same_history st st' -> commands st' = commands st.
Proof.
  intros (H1 & H2 & H3). unfold commands, max_steps, entry, history_slot. by rewrite H1, H2, H3.
Qed.

(** ** The loops *)

Lemma set_sh_mem_id (st : shell D) : set_sh_mem (sh_mem st) st = st.
Proof. by destruct st as [[[] ? ?] ? ? ? ? ? ? ? ?]. Qed.

Lemma sh_print_nil (st : shell D) : sh_print [] st = st.
Proof.
  destruct st as [[[] ? ?] ? ? ? ? ? ? ? ?]. unfold sh_print, set_sys, exec_print, set_ek, Sched.kprint. cbn.
  by rewrite app_nil_r.
Qed.

Lemma sh_print_app t t' (st : shell D) : sh_print t' (sh_print t st) = sh_print (t ++ t') st.
Proof. unfold sh_print, set_sys, exec_print, set_ek, Sched.kprint. cbn. by rewrite app_assoc. Qed.

(** Filling the line. *)
Lemma fill_input n (g : shell D -> Z -> Z) st : (forall m, g (set_sh_mem m st) = g st) ->
  for_loop n 0 (fun i s => set_input_char i (g s i) s) st =
  set_sh_mem (store_bytes n input_buffer (g st) (sh_mem st)) st.
Proof.
  intros Hg. cut (forall k i m, for_loop k i (fun i s => set_input_char i (g s i) s) (set_sh_mem m st) =
    set_sh_mem (for_loop k i (fun i m => store8 m (input_buffer ⊕ i) (g st i)) m) st).
  { intros E. unfold store_bytes. rewrite <- E. f_equal. symmetry. apply set_sh_mem_id. }
  intros k. induction k as [|k IH]; intros i m; cbn [for_loop]; [done|].
  rewrite <- IH. f_equal. unfold set_input_char. by rewrite Hg.
Qed.

(** Printing the line. *)
Lemma print_input n st : for_loop n 0 (fun i s => sh_print [input_char s i] s) st =
  sh_print (build (Z.of_nat n) (input_char st)) st.
Proof.
  set (P := fun i (s : shell D) => s = sh_print (build i (input_char st)) st).
  change (P (0 + Z.of_nat n) (for_loop n 0 (fun i s => sh_print [input_char s i] s) st)).
  apply (for_loop_ind P); unfold P.
  - cbn. by rewrite sh_print_nil.
  - intros j t Hj ->. rewrite sh_print_app, build_snoc by lia. done.
Qed.

Lemma erase_line_spec n st : buffer_idx st = Z.of_nat n ->
  erase_line n st = set_buffer_idx 0 (sh_print (replicate n 8) st).
Proof.
  revert st. induction n as [|n IH]; intros st Hn; cbn [erase_line].
  - rewrite sh_print_nil. destruct st. cbn in Hn. by subst.
  - rewrite (proj2 (Z.ltb_lt 0 _)) by lia. rewrite IH by (cbn; lia).
    cbn [replicate]. change (8 :: replicate n 8) with ([8] ++ replicate n 8). by rewrite <- sh_print_app.
Qed.

Lemma redraw_spec len st : 0 <= buffer_idx st -> 0 <= len ->
  redraw_input_line input_buffer len st =
  set_buffer_idx len (sh_print (replicate (Z.to_nat (buffer_idx st)) 8 ++ build len (input_char st)) st).
Proof.
  intros H0 Hl. unfold redraw_input_line. rewrite erase_line_spec by lia.
  rewrite print_input, Z2Nat.id by lia. rewrite <- sh_print_app. done.
Qed.

(** The line after filling it. *)
Lemma filled_char n f st i : Z.of_nat n <= 255 -> 0 <= i < Z.of_nat n -> is_byte (f i) ->
  input_char (set_sh_mem (store_bytes n input_buffer f (sh_mem st)) st) i = f i.
Proof.
  intros Hn Hi Hb. unfold Shell.input_char, sh_mem. cbn [mem ek sys set_sh_mem set_sys set_ek set_mem].
  unfold load8. rewrite u32_idemp, u32_id by (unfold is_u32; lia). rewrite store_bytes_spec by lia.
  rewrite (proj2 (Z.leb_le _ _)), (proj2 (Z.ltb_lt _ _)) by lia. cbn [andb].
  replace (input_buffer + i - input_buffer) with i by lia. by apply u8_id.
Qed.

(** ** The history ring *)

Lemma max_steps_range st : 0 <= history_count st -> 0 <= max_steps st <= 8 /\ max_steps st <= history_count st.
Proof. intros Hc. unfold max_steps, HISTORY_SIZE. zcases; lia. Qed.

Lemma history_slot_eq st s : 0 <= history_count st -> 0 <= s < max_steps st ->
  history_slot st s = (history_count st - 1 - s) mod 8 /\ 0 <= history_slot st s < 8.
Proof.
  intros Hc Hs. pose proof (max_steps_range st Hc). unfold history_slot, HISTORY_SIZE.
  rewrite Z.rem_mod_nonneg by lia. replace (_ + 8) with (history_count st - 1 - s + 1 * 8) by lia.
  rewrite Z_mod_plus_full. split; [done|]. by apply Z.mod_pos_bound.
Qed.

Lemma commands_get st s : edit_ok st -> 0 <= s < max_steps st ->
  (commands st).[s] = entry st (history_slot st s).
Proof. intros Hok Hs. unfold commands. by rewrite build_get. Qed.

Lemma alen_commands st : 0 <= history_count st -> alen (commands st) = max_steps st.
Proof. intros Hc. apply alen_build, max_steps_range, Hc. Qed.

Lemma take_build {A} `{!Inhabited A} n k (f : Z -> A) : 0 <= k <= n -> take (Z.to_nat k) (build n f) = build k f.
Proof.
  intros Hk. unfold build. rewrite firstn_map. f_equal. replace n with (k + (n - k)) by lia.
  rewrite seqZ_app by lia. by rewrite take_app_length' by (rewrite length_seqZ; lia).
Qed.

(** A new command in front of the others, of which at most seven are kept. *)
Lemma history_push_commands cmd len st : edit_ok st -> 0 < len <= 255 ->
  let st' := history_push cmd len st in
  commands st' = take 8 (build len cmd :: commands st) /\
  alen (history st') = 8 /\ (forall i, 0 <= i < 8 -> alen (history st').[i] = 256) /\
  alen (history_len st') = 8 /\ (forall i, 0 <= i < 8 -> 0 <= (history_len st').[i] <= 255) /\
  0 <= history_count st'.
Proof.
  intros Hok Hlen. pose proof (eo_count _ Hok) as Hc. unfold history_push.
  rewrite (proj2 (Z.ltb_ge 255 len)) by lia.
  set (slot := Z.rem (history_count st) HISTORY_SIZE). set (row := for_loop _ _ _ _). cbn zeta.
  set (st' := set_history _ _ _ st).
  assert (Hslot : slot = history_count st mod 8 /\ 0 <= slot < 8).
  { unfold slot, HISTORY_SIZE. rewrite Z.rem_mod_nonneg by lia. split; [done|]. by apply Z.mod_pos_bound. }
  assert (Hrow : alen row = 256 /\ forall j, 0 <= j < len -> row.[j] = cmd j).
  { pose proof (eo_row _ Hok slot ltac:(lia)) as Hr. split.
    - unfold alen, row. rewrite (length_for_set cmd 0). exact Hr.
    - intros j Hj. unfold row.
      transitivity (if (0 + 0 <=? j) && (j <? 0 + 0 + Z.of_nat (Z.to_nat len)) then cmd (j - 0) else (history st).[slot].[j]);
        [apply (for_set_get cmd 0); lia|]. rewrite Z.sub_0_r. zcases. }
  destruct Hrow as [Hr1 Hr2]. pose proof (eo_rows _ Hok) as H8. pose proof (eo_lens _ Hok) as L8.
  split; [|split_and!; cbn [history history_len history_count set_history st']; rewrite ?alen_arr_set; try done;
    [| |lia]; intros i Hi; rewrite arr_get_set by lia; destruct (Z.eqb_spec slot i); [done|by apply Hok|lia|by apply Hok]].
  pose proof (max_steps_range st Hc) as Hm. assert (Hc' : 0 <= history_count st') by (cbn; lia).
  pose proof (max_steps_range st' Hc') as Hm'.
  assert (Hmax : max_steps st' = Z.min 8 (max_steps st + 1)).
  { unfold max_steps, HISTORY_SIZE. cbn [history_count st' set_history]. zcases; lia. }
  assert (He0 : entry st' (history_slot st' 0) = build len cmd).
  { destruct (history_slot_eq st' 0 Hc' ltac:(lia)) as [-> _]. cbn [history_count st' set_history].
    replace (history_count st + 1 - 1 - 0) with (history_count st) by lia. rewrite <- (proj1 Hslot).
    unfold entry. cbn [history history_len st' set_history]. rewrite !arr_get_set_eq by lia.
    apply build_ext_range; [lia|]. intros i Hi. by rewrite Hr2. }
  assert (HeS : forall s, 0 <= s < max_steps st' - 1 ->
    entry st' (history_slot st' (s + 1)) = entry st (history_slot st s)).
  { intros s Hs. destruct (history_slot_eq st' (s + 1) Hc' ltac:(lia)) as [-> _].
    destruct (history_slot_eq st s Hc ltac:(lia)) as [-> _]. cbn [history_count st' set_history].
    replace (history_count st + 1 - 1 - (s + 1)) with (history_count st - 1 - s) by lia.
    unfold entry. cbn [history history_len st' set_history].
    assert (slot <> (history_count st - 1 - s) mod 8) by (Z.div_mod_to_equations; lia).
    by rewrite !arr_get_set_ne. }
  unfold commands. rewrite build_cons by lia. rewrite He0.
  cbn [take]. f_equal. rewrite (build_ext_range _ _ (fun s => entry st (history_slot st s))); [|lia|done].
  destruct (Z.le_gt_cases (max_steps st) 7).
  - rewrite take_ge; [f_equal; lia|]. unfold build. rewrite length_map, length_seqZ. lia.
  - change 7%nat with (Z.to_nat 7). rewrite take_build by lia. f_equal. lia.
Qed.

(** ** The keys that do not run a command *)

(** Only the line in memory and the console change, and the console shows the
    new line in place of the old one. *)
Definition edited (st st' : shell D) : Prop := exists m out,
  sys st' = mkExec (set_mem m (Sched.kprint out (ek (sys st)))) (efs (sys st)) (slot_pid (sys st)) /\
  agree_on (fun x => ~ range input_buffer 255 x) (sh_mem st) m /\ (mem_bytes (sh_mem st) -> mem_bytes m) /\
  fold_left show out (line st) = line st'.

Lemma edited_refl st st' : sys st' = sys st -> line st' = line st -> edited st st'.
Proof.
  intros Hs Hl. exists (sh_mem st), []. split_and!; [|done|done|by rewrite Hl].
  rewrite Hs. destruct st as [[[] ? ?] ? ? ? ? ? ? ? ?]. unfold Sched.kprint, set_mem. cbn. by rewrite app_nil_r.
Qed.

(** Replacing the line by [len] characters computed from the state. *)
Lemma replace_line len (g : shell D -> Z -> Z) st : 0 <= len <= 255 -> 0 <= buffer_idx st ->
  Forall typed (build len (g st)) -> Forall typed (line st) -> (forall m, g (set_sh_mem m st) = g st) ->
  let st' := redraw_input_line input_buffer len
    (for_loop (Z.to_nat len) 0 (fun i s => set_input_char i (g s i) s) st) in
  line st' = build len (g st) /\ buffer_idx st' = len /\ same_history st st' /\
  history_nav st' = history_nav st /\ saved_line st' = saved_line st /\
  saved_line_len st' = saved_line_len st /\ edited st st'.
Proof.
  intros Hl Hidx Hg Hline Hinv. cbn zeta. rewrite fill_input by done.
  set (m := store_bytes _ _ _ _). set (st1 := set_sh_mem m st).
  assert (Hchars : build len (input_char st1) = build len (g st)).
  { apply build_ext_range; [lia|]. intros i Hi. unfold st1, m. apply filled_char; [lia|lia|].
    rewrite arr_Forall in Hg. rewrite alen_build in Hg by lia. specialize (Hg i Hi). rewrite build_get in Hg by done.
    apply Hg. }
  rewrite redraw_spec by (done || lia). rewrite Hchars. cbn zeta.
  set (out := _ ++ _). assert (Hnew : line (set_buffer_idx len (sh_print out st1)) = build len (g st)) by exact Hchars.
  split_and!; try done. exists m, out. split_and!; [done| |intros Hm; unfold m; auto with mx|].
  - intros x Hx. unfold m. rewrite store_bytes_spec by lia. rewrite Z2Nat.id by lia. unfold range in Hx. zcases.
  - rewrite Hnew. unfold out. rewrite fold_left_app, show_erase, show_chars by
      (done || unfold line, build; rewrite length_map, length_seqZ; cbn; lia). done.
Qed.

(** An edit of the line that keeps the history. *)
Lemma edit_ok_step st st' : edit_ok st -> same_history st st' -> 0 <= buffer_idx st' <= 255 ->
  -1 <= history_nav st' < Z.max 0 (max_steps st') -> alen (saved_line st') = 256 -> 0 <= saved_line_len st' <= 255 ->
  Forall typed (line st') -> Forall typed (draft (editor_of st')) -> edit_ok st'.
Proof.
  intros Hok (H1 & H2 & H3) Hi Hn Hs Hsl Hl Hd.
  split; rewrite ?H1, ?H2, ?H3; try apply Hok; try done.
  rewrite (commands_same st) by done. apply Hok.
Qed.

Lemma line_snoc c st : 0 <= buffer_idx st < 255 -> is_byte c ->
  line (sh_print [c] (set_buffer_idx (buffer_idx st + 1) (set_input_char (buffer_idx st) c st))) = line st ++ [c].
Proof.
  intros Hi Hc. unfold line. cbn [buffer_idx set_buffer_idx sh_print set_sys]. rewrite build_snoc by lia. f_equal.
  - apply build_ext_range; [lia|]. intros i Hi'. unfold Shell.input_char, sh_mem.
    cbn [ek sys mem set_sys sh_print set_buffer_idx exec_print set_ek Sched.kprint set_input_char set_sh_mem set_mem].
    unfold load8, store8. rewrite !u32_idemp, !(u32_id (_ + _)) by (unfold is_u32; lia).
    rewrite (proj2 (Z.eqb_neq _ _)) by lia. done.
  - unfold Shell.input_char, sh_mem.
    cbn [ek sys mem set_sys sh_print set_buffer_idx exec_print set_ek Sched.kprint set_input_char set_sh_mem set_mem].
    rewrite load8_store8_eq. by rewrite u8_id.
Qed.

Lemma line_back st : 0 < buffer_idx st <= 255 ->
  build (buffer_idx st - 1) (input_char st) = take (length (line st) - 1) (line st).
Proof.
  intros Hi. unfold line. rewrite <- (take_build (buffer_idx st)) by lia. f_equal.
  unfold build. rewrite length_map, length_seqZ. lia.
Qed.

Lemma history_load_spec s st : edit_ok st -> 0 <= s < max_steps st ->
  let st' := history_load input_buffer s st in
  line st' = (commands st).[s] /\ same_history st st' /\ 0 <= buffer_idx st' <= 255 /\
  history_nav st' = history_nav st /\ saved_line st' = saved_line st /\
  saved_line_len st' = saved_line_len st /\ edited st st'.
Proof.
  intros Hok Hs. pose proof (eo_count _ Hok) as Hc. destruct (history_slot_eq st s Hc Hs) as [_ Hslot].
  pose proof (eo_len _ Hok _ Hslot) as Hl. pose proof (eo_idx _ Hok) as Hi.
  assert (Ht : Forall typed (entry st (history_slot st s))).
  { rewrite <- commands_get by done. pose proof (eo_commands _ Hok) as Hcs. rewrite arr_Forall in Hcs. apply Hcs.
    by rewrite alen_commands. }
  destruct (replace_line (history_len st).[history_slot st s]
    (fun st' i => (history st').[history_slot st s].[i]) st Hl ltac:(lia) Ht (eo_line _ Hok) ltac:(done))
    as (R1 & R2 & R3 & R4 & R5 & R6 & R7).
  cbn zeta. unfold history_load. rewrite commands_get by done. split; [exact R1|]. split; [exact R3|].
  split; [unfold history_load in *; cbn zeta; rewrite R2; lia|]. split; [exact R4|]. split; [exact R5|]. split; [exact R6|exact R7].
Qed.

(** The draft kept by the first press of the up arrow. *)
Lemma save_draft st : edit_ok st ->
  let saved := for_loop (Z.to_nat (buffer_idx st)) 0 (fun i saved => saved.[i <- input_char st i]) (saved_line st) in
  alen saved = 256 /\ build (buffer_idx st) (fun i => saved.[i]) = line st.
Proof.
  intros Hok saved. pose proof (eo_idx _ Hok) as Hi. pose proof (eo_saved _ Hok) as Hs. split.
  - unfold alen, saved. rewrite (length_for_set (input_char st) 0). exact Hs.
  - apply build_ext_range; [lia|]. intros i Hr. unfold saved.
    transitivity (if (0 + 0 <=? i) && (i <? 0 + 0 + Z.of_nat (Z.to_nat (buffer_idx st)))
      then input_char st (i - 0) else (saved_line st).[i]); [apply (for_set_get (input_char st) 0); lia|].
    rewrite Z.sub_0_r. zcases.
Qed.

(** An edit that goes to the history entry [n] with draft [d]. *)
Lemma goto_entry n st st1 : edit_ok st1 -> sys st1 = sys st -> line st1 = line st -> commands st1 = commands st ->
  history_nav st1 = n -> 0 <= n < max_steps st1 ->
  let st' := history_load input_buffer n st1 in
  edit_ok st' /\ editor_of st' = mkEditor (commands st).[n] (commands st) n (draft (editor_of st1)) /\ edited st st'.
Proof.
  intros Hok Hsys Hline Hcmd Hnav Hn st'.
  destruct (history_load_spec n st1 Hok Hn) as (R1 & R2 & R3 & R4 & R5 & R6 & R7). fold st' in R1, R2, R3, R4, R5, R6, R7. clearbody st'.
  assert (Hd : draft (editor_of st') = draft (editor_of st1)) by (cbn; by rewrite R5, R6).
  assert (Hms : max_steps st' = max_steps st1) by (unfold max_steps; by destruct R2 as (_ & _ & ->)).
  split_and!.
  - apply (edit_ok_step st1); try done.
    + rewrite R4, Hnav, Hms. lia.
    + rewrite R5. apply Hok.
    + rewrite R6. apply Hok.
    + rewrite R1. pose proof (eo_commands _ Hok) as Hcs. rewrite arr_Forall in Hcs. apply Hcs.
      rewrite alen_commands by apply Hok. done.
    + rewrite Hd. apply Hok.
  - unfold editor_of at 1. rewrite R1, (commands_same st1 st') by done. rewrite R4, Hnav, Hcmd. f_equal. exact Hd.
  - destruct R7 as (m & out & E1 & E2 & E3 & E4). exists m, out. unfold sh_mem in *. rewrite <- Hsys.
    split_and!; [done|done|done|by rewrite <- Hline].
Qed.

Lemma up_step st : edit_ok st -> let st' := history_up input_buffer st in
  edit_ok st' /\ editor_of st' = ed_up (editor_of st) /\ edited st st'.
Proof.
  intros Hok st'. unfold st', history_up, ed_up. pose proof (eo_count _ Hok) as Hc. pose proof (eo_nav _ Hok) as Hn.
  cbn [past nav ed_line draft editor_of]. rewrite alen_commands by done. pose proof (max_steps_range st Hc) as Hm.
  destruct (Z.eqb_spec (history_count st) 0) as [E|E].
  { assert (max_steps st = 0) as -> by lia. cbn. split_and!; [done|done|by apply edited_refl]. }
  assert (0 < max_steps st) by (unfold max_steps, HISTORY_SIZE; zcases; lia).
  rewrite (proj2 (Z.eqb_neq (max_steps st) 0)) by lia.
  destruct (Z.eqb_spec (history_nav st) (-1)) as [En|En]; [|destruct (Z.ltb_spec (history_nav st + 1) (max_steps st))].
  - destruct (save_draft st Hok) as [Hs1 Hs2]. set (saved := for_loop _ _ _ _) in *.
    set (st1 := set_history_nav 0 (set_saved saved (buffer_idx st) st)).
    assert (Hok1 : edit_ok st1).
    { apply (edit_ok_step st); try apply Hok; try done.
      - change (max_steps st1) with (max_steps st). cbn. lia.
      - cbn. rewrite Hs2. apply Hok. }
    destruct (goto_entry 0 st st1 Hok1) as (G1 & G2 & G3); [done..|change (max_steps st1) with (max_steps st); lia|].
    split_and!; [exact G1| |exact G3]. transitivity (mkEditor (commands st).[0] (commands st) 0 (draft (editor_of st1))); [exact G2|].
    cbn. by rewrite Hs2.
  - set (st1 := set_history_nav (history_nav st + 1) st).
    assert (Hok1 : edit_ok st1).
    { apply (edit_ok_step st); try apply Hok; try done. change (max_steps st1) with (max_steps st). cbn. lia. }
    apply (goto_entry (history_nav st + 1) st st1 Hok1); [done..|change (max_steps st1) with (max_steps st); lia].
  - apply (goto_entry (history_nav st) st st Hok); [done..|lia].
Qed.

Lemma down_step st : edit_ok st -> let st' := history_down input_buffer st in
  edit_ok st' /\ editor_of st' = ed_down (editor_of st) /\ edited st st'.
Proof.
  intros Hok st'. unfold st', history_down, ed_down. pose proof (eo_nav _ Hok) as Hn. cbn [nav past draft editor_of].
  destruct (Z.eqb_spec (history_nav st) (-1)) as [En|En]; [split_and!; [done|done|by apply edited_refl]|].
  destruct (Z.eqb_spec (history_nav st) 0) as [E0|E0].
  - set (st1 := set_history_nav (-1) st).
    destruct (replace_line (saved_line_len st1) (fun s i => (saved_line s).[i]) st1 (eo_saved_len _ Hok)
      (proj1 (eo_idx _ Hok)) (eo_draft _ Hok) (eo_line _ Hok) ltac:(done)) as (R1 & R2 & R3 & R4 & R5 & R6 & R7).
    assert (Hlen : saved_line_len (for_loop (Z.to_nat (saved_line_len st1)) 0
        (fun i s => set_input_char i ((fun s i => (saved_line s).[i]) s i) s) st1) = saved_line_len st1)
      by (by rewrite (fill_input _ (fun s i => (saved_line s).[i]))).
    cbn zeta in *. rewrite Hlen. set (st2 := redraw_input_line _ _ _) in *. clearbody st2. assert (Hd : build (saved_line_len st2) (fun i => (saved_line st2).[i]) = build (saved_line_len st1) (fun i => (saved_line st1).[i]))
      by (by rewrite R5, R6).
    split_and!; [| |exact R7].
    + apply (edit_ok_step st); try done.
      * rewrite R2. apply (eo_saved_len _ Hok).
      * rewrite R4. cbn. lia.
      * rewrite R5. apply (eo_saved _ Hok).
      * rewrite R6. apply (eo_saved_len _ Hok).
      * rewrite R1. apply (eo_draft _ Hok).
      * cbn [draft editor_of]. rewrite Hd. apply (eo_draft _ Hok).
    + unfold editor_of at 1. rewrite R1, R4, Hd, (commands_same st1 st2) by done. done.
  - set (st1 := set_history_nav (history_nav st - 1) st).
    assert (Hok1 : edit_ok st1).
    { apply (edit_ok_step st); try apply Hok; try done. change (max_steps st1) with (max_steps st). cbn. lia. }
    apply (goto_entry (history_nav st - 1) st st1 Hok1); [done..|change (max_steps st1) with (max_steps st); lia].
Qed.

Lemma key_step c st : edit_ok st -> is_byte c -> c <> 0 -> c <> 10 ->
  exists st', shell_update L exec_stacks elf_staging input_buffer str_fuel c st = Prompt st' /\
    edit_ok st' /\ editor_of st' = ed_key (editor_of st) c /\ edited st st'.
Proof.
  intros Hok Hc Hc0 Hc10. unfold shell_update, ed_key. rewrite (proj2 (Z.eqb_neq c 10)) by done.
  pose proof (eo_idx _ Hok) as Hi.
  assert (Hll : length (line st) = Z.to_nat (buffer_idx st)) by (unfold line, build; by rewrite length_map, length_seqZ).
  destruct (Z.eqb_spec c 8) as [->|Hc8].
  { eexists. split; [reflexivity|]. destruct (Z.ltb_spec 0 (buffer_idx st)).
    - set (st' := sh_print _ _). assert (Hl : line st' = take (length (line st) - 1) (line st)) by exact (line_back st ltac:(lia)).
      split_and!.
      + apply (edit_ok_step st); try apply Hok; try done; [cbn; lia|]. rewrite Hl. apply Forall_take, Hok.
      + unfold editor_of at 1. by rewrite Hl.
      + exists (sh_mem st), [8]. split_and!; [by destruct st as [[[] ? ?] ? ? ? ? ? ? ? ?]|done|done|]. by rewrite Hl.
    - split_and!; [done| |by apply edited_refl]. unfold editor_of at 1. cbn [ed_line editor_of past nav draft].
      rewrite (take_ge (line st)) by lia. by rewrite (nil_length_inv (line st)) by lia. }
  destruct (Z.eqb_spec c KEY_ARROW_UP); [eexists; split; [reflexivity|by apply up_step]|].
  destruct (Z.eqb_spec c KEY_ARROW_DOWN); [eexists; split; [reflexivity|by apply down_step]|].
  cbn [ed_line editor_of]. replace (alen (line st)) with (buffer_idx st) by (unfold alen; lia).
  destruct (Z.ltb_spec (buffer_idx st) 255); [|eexists; split_and!; [reflexivity|done|done|by apply edited_refl]].
  eexists. split; [reflexivity|]. set (st' := sh_print _ _).
  assert (Hl : line st' = line st ++ [c]) by exact (line_snoc c st ltac:(lia) Hc).
  split_and!.
  - apply (edit_ok_step st); try apply Hok; try done; [cbn; lia|]. rewrite Hl. apply Forall_app. split; [apply Hok|].
    apply Forall_singleton. unfold typed. by split_and!.
  - unfold editor_of at 1. by rewrite Hl.
  - exists (store8 (sh_mem st) (input_buffer ⊕ buffer_idx st) c), [c]. split_and!; [done| |intros Hm; auto with mx|].
    + intros x Hx. unfold store8. rewrite u32_idemp, u32_id by (unfold is_u32; lia). unfold range in Hx. zcases.
    + rewrite Hl. cbn [fold_left]. unfold show. by rewrite (proj2 (Z.eqb_neq c 8)).
Qed.

(** ** Running a command *)

(** The variables of the editor are those of [shell.c]: the commands only
    change the system. *)
Definition same_vars st st' : Prop :=
  same_history st st' /\ history_nav st' = history_nav st /\ saved_line st' = saved_line st /\
  saved_line_len st' = saved_line_len st /\ buffer_idx st' = buffer_idx st.

Lemma same_vars_set_sys st e : same_vars st (set_sys e st).
Proof. done. Qed.

Lemma sh_fs_vars {A} (op : M (fs D) A) st a st' : sh_fs op st = (a, st') -> same_vars st st'.
Proof. unfold sh_fs. destruct (on_fs op (sys st)) as [x e]. by intros [= _ <-]. Qed.

Lemma sh_fs_vars_snd {A} (op : M (fs D) A) st : same_vars st (sh_fs op st).2.
Proof. destruct (sh_fs op st) as [a st'] eqn:E. by eapply sh_fs_vars. Qed.

Lemma history_save_vars st : same_vars st (history_save st).
Proof.
  unfold history_save. destruct (_ =? 0); [done|].
  destruct (sh_fs _ st) as [a st1] eqn:E1. destruct (sh_fs _ st1) as [b st2] eqn:E2.
  apply sh_fs_vars in E1 as ((?&?&?)&?&?&?&?), E2 as ((?&?&?)&?&?&?&?).
  unfold same_vars, same_history. split_and!; congruence.
Qed.

Lemma with_string_vars p st f st' : with_string str_fuel p st f = Prompt st' ->
  (forall s, f s = Prompt st' -> same_vars st st') -> same_vars st st'.
Proof. unfold with_string. destruct (string_at _ _ _); [|done]. intros E Hf. by eapply Hf. Qed.

Lemma command_vars st st' :
  shell_command L exec_stacks elf_staging input_buffer str_fuel st = Prompt st' -> same_vars st st'.
Proof.
  unfold shell_command.
  repeat match goal with |- (if ?b then _ else _) = _ -> _ => destruct b end;
    try (by intros [= <-]); try (intros [= <-]; apply sh_fs_vars_snd);
    try (intros E; eapply with_string_vars; [exact E|]; by intros s [= <-]);
    try (intros E; eapply with_string_vars; [exact E|]; intros s [= <-]; apply sh_fs_vars_snd).
  - unfold cmd_exec. destruct (split_args _ _ _) as [argv m]. destruct (_ =? 0); [by intros [= <-]|].
    destruct (exec_run _ _ _ _ _ _ _) as [[r e]|]; [by intros [= <-]|done].
  - unfold sched_dump_tasks. destruct (dump_tasks_from _ _ _); [by intros [= <-]|done].
  - unfold cmd_kill. destruct (negb _); [by intros [= <-]|]. destruct (parse_int _ _), (task_kill _ _). by intros [= <-].
  - unfold cmd_priority. destruct (negb _); [by intros [= <-]|]. destruct (parse_int _ _).
    destruct (negb _); [by intros [= <-]|]. destruct (parse_int _ _). by intros [= <-].
  - unfold cmd_write. destruct (_ =? 32); [|by intros [= <-]]. intros E.
    eapply (with_string_vars _ (set_sh_mem _ st)); [exact E|]. intros nm E2.
    eapply (with_string_vars _ (set_sh_mem _ st)); [exact E2|]. intros content. cbn beta.
    match goal with |- context [sh_fs ?op ?s] => destruct (sh_fs op s) as [b st1] eqn:E3 end. intros [= <-]. apply sh_fs_vars in E3. exact E3.
  - unfold cmd_mem. destruct (heap_stats _ _) as [[u v]|]; [by intros [= <-]|done].
Qed.

Lemma enter_step st st' : edit_ok st ->
  shell_execute L exec_stacks elf_staging input_buffer str_fuel st = Prompt st' ->
  edit_ok st' /\ editor_of st' = ed_enter (editor_of st).
Proof.
  intros Hok. unfold shell_execute. pose proof (eo_idx _ Hok) as Hi.
  set (st1 := set_input_char _ 0 _). change (buffer_idx st1) with (buffer_idx st).
  assert (Hl1 : build (buffer_idx st) (input_char st1) = line st).
  { apply build_ext_range; [lia|]. intros i Hr. unfold Shell.input_char, sh_mem, st1.
    cbn [ek sys mem set_sys sh_print exec_print set_ek Sched.kprint set_input_char set_sh_mem set_mem buffer_idx].
    unfold load8, store8. rewrite !u32_idemp, !(u32_id (_ + _)) by (unfold is_u32; lia).
    rewrite (proj2 (Z.eqb_neq _ _)) by lia. done. }
  set (st2 := if 0 <? buffer_idx st then _ else _).
  assert (H2 : commands st2 = past (ed_enter (editor_of st)) /\
    alen (history st2) = 8 /\ (forall i, 0 <= i < 8 -> alen (history st2).[i] = 256) /\
    alen (history_len st2) = 8 /\ (forall i, 0 <= i < 8 -> 0 <= (history_len st2).[i] <= 255) /\
    0 <= history_count st2 /\ saved_line st2 = saved_line st /\ saved_line_len st2 = saved_line_len st).
  { unfold ed_enter. cbn [past ed_line editor_of]. unfold line at 1. rewrite alen_build by lia. unfold st2.
    destruct (Z.ltb_spec 0 (buffer_idx st)) as [Hpos|Hz].
    - rewrite (proj2 (Z.eqb_neq (buffer_idx st) 0)) by lia.
      assert (Hok1 : edit_ok st1) by (split; try apply Hok; change (line st1) with (build (buffer_idx st) (input_char st1)); rewrite Hl1; apply Hok).
      destruct (history_push_commands (input_char st1) (buffer_idx st) st1 Hok1 ltac:(lia)) as (C1 & C2 & C3 & C4 & C5 & C6).
      set (st3 := history_push _ _ _) in *. destruct (history_save_vars st3) as ((V1 & V2 & V3) & V4 & V5 & V6 & _).
      rewrite (commands_same st3) by done. rewrite V1, V2, V3, V5, V6. rewrite Hl1 in C1. by split_and!.
    - rewrite (proj2 (Z.eqb_eq (buffer_idx st) 0)) by lia. split_and!; try done; apply Hok. }
  destruct (shell_command _ _ _ _ _ _) as [st4| |] eqn:E; [|done|done]. intros [= <-].
  apply command_vars in E as (V1 & V2 & V3 & V4 & _). clearbody st2. set (st5 := set_buffer_idx _ _).
  destruct H2 as (C1 & C2 & C3 & C4 & C5 & C6 & C7 & C8). pose proof V1 as (W1 & W2 & W3).
  cbn [history history_len history_count set_history_nav] in W1, W2, W3.
  assert (Hcmd : commands st5 = commands st2) by (apply commands_same; by split_and!).
  assert (Hdr : draft (editor_of st5) = draft (editor_of st)).
  { cbn [draft editor_of]. cbn [saved_line saved_line_len st5 set_buffer_idx sh_print set_sys].
    rewrite V3, V4. cbn [saved_line saved_line_len set_history_nav]. by rewrite C7, C8. }
  split.
  - split; cbn [buffer_idx history history_len history_count history_nav saved_line saved_line_len st5 set_buffer_idx
      sh_print set_sys]; rewrite ?W1, ?W2, ?W3, ?V3, ?V4; cbn [saved_line saved_line_len set_history_nav]; rewrite ?C7, ?C8;
      try apply Hok; try done; [rewrite V2; cbn; lia| |].
    + rewrite Hcmd, C1. cbn [past ed_enter editor_of]. destruct (_ =? 0) eqn:Ez; [apply Hok|].
      apply Forall_take. constructor; [|apply Hok]. split; [apply Hok|]. apply Z.eqb_neq in Ez.
      assert (alen (line st) = buffer_idx st) by (apply alen_build; lia).
      cbn [ed_line editor_of] in *. lia.
    + rewrite Hdr. apply Hok.
  - unfold editor_of at 1. rewrite Hcmd, C1. cbn [buffer_idx st5 set_buffer_idx line].
    unfold ed_enter. cbn [past]. f_equal; [exact V2|exact Hdr].
Qed.

(** ** Persistence of the history *)

(** The text of the history file, the oldest command first. *)
Definition joined (cmds : list (list Z)) : list Z := concat (map (fun s => s ++ [10]) cmds).

Lemma joined_snoc cmds s : joined (cmds ++ [s]) = joined cmds ++ s ++ [10].
Proof. unfold joined. rewrite map_app, concat_app. cbn. by rewrite app_nil_r. Qed.

Lemma save_line_spec row l buf : 0 <= l ->
  save_line row l buf = buf ++ take (Z.to_nat (sizeof_history_buf - 1 - alen buf)) (build l (fun i => row.[i]) ++ [10]).
Proof.
  intros Hl. unfold save_line. set (cap := sizeof_history_buf - 1).
  assert (Hstep : forall (b t : list Z) x, (if alen (b ++ take (Z.to_nat (cap - alen b)) t) <? cap
      then (b ++ take (Z.to_nat (cap - alen b)) t) ++ [x] else b ++ take (Z.to_nat (cap - alen b)) t) =
      b ++ take (Z.to_nat (cap - alen b)) (t ++ [x])).
  { intros b t x. unfold alen. rewrite length_app, length_take. destruct (Z.ltb_spec (Z.of_nat (length b + (Z.to_nat (cap - Z.of_nat (length b)) `min` length t))) cap).
    - rewrite <- app_assoc. f_equal. rewrite !(take_ge) by (rewrite ?length_app; cbn; lia). done.
    - f_equal. rewrite take_app_le by lia. done. }
  set (body := fun i b => _). assert (Hloop : for_loop (Z.to_nat l) 0 body buf =
    buf ++ take (Z.to_nat (cap - alen buf)) (build (0 + Z.of_nat (Z.to_nat l)) (fun i => row.[i]))).
  { apply (for_loop_ind (fun i b => b = buf ++ take (Z.to_nat (cap - alen buf)) (build i (fun i => row.[i])))).
    - change (build 0 _) with (@nil Z). by rewrite take_nil, app_nil_r.
    - intros j t Hj ->. rewrite build_snoc by lia. unfold body. apply Hstep. }
  cbv zeta. rewrite Hloop, Z.add_0_l, Z2Nat.id by lia. apply Hstep.
Qed.

Lemma arr_get_reverse {A} `{!Inhabited A} (l : list A) i : 0 <= i < alen l ->
  (reverse l).[i] = l.[alen l - 1 - i].
Proof.
  intros Hi. apply arr_get_lookup; [lia|]. unfold alen in *. rewrite reverse_lookup by lia.
  rewrite <- (arr_lookup_get l (Z.of_nat (length l) - 1 - i)) by (unfold alen; lia). f_equal. lia.
Qed.

Lemma history_text_spec st : edit_ok st ->
  history_text st = take (Z.to_nat (sizeof_history_buf - 1)) (joined (reverse (commands st))).
Proof.
  intros Hok. pose proof (max_steps_range st (eo_count _ Hok)) as Hm. set (n := max_steps st) in *.
  assert (Hn : alen (commands st) = n) by apply alen_commands, Hok.
  assert (Hrev : reverse (commands st) = build (0 + Z.of_nat (Z.to_nat n)) (fun j => entry st (history_slot st (n - 1 - j)))).
  { rewrite Z.add_0_l, Z2Nat.id by lia. assert (Hr : alen (reverse (commands st)) = n) by (unfold alen in *; by rewrite length_reverse).
    apply arr_ext; [rewrite Hr, alen_build by lia; done|]. intros i Hi. rewrite Hr in Hi.
    rewrite arr_get_reverse, build_get by lia. rewrite Hn, commands_get by (done || lia). done. }
  rewrite Hrev. unfold history_text. fold n. set (body := fun j b => _). set (cap := sizeof_history_buf - 1).
  apply (for_loop_ind (fun i b => b = take (Z.to_nat cap) (joined (build i (fun j => entry st (history_slot st (n - 1 - j))))))).
  - change (joined (build 0 _)) with (@nil Z). by rewrite take_nil.
  - intros j t Hj ->. rewrite build_snoc, joined_snoc by lia. unfold body.
    destruct (history_slot_eq st (n - 1 - j) (eo_count _ Hok) ltac:(lia)) as [_ Hs].
    rewrite save_line_spec by (apply Hok; lia). fold cap. fold (entry st (history_slot st (n - 1 - j))).
    rewrite (take_app (joined _)). f_equal. f_equal. unfold alen. rewrite length_take. lia.
Qed.

(** The non-empty lines of a text, [cur] being the line begun. *)
Fixpoint lines (cur l : list Z) : list (list Z) :=
  let emit := if alen cur =? 0 then [] else [cur] in
  match l with
  | [] => emit
  | c :: l => if c =? 10 then emit ++ lines [] l else lines (cur ++ [c]) l
  end.

Lemma lines_app s : Forall typed s -> forall cur rest, lines cur (s ++ rest) = lines (cur ++ s) rest.
Proof.
  induction 1 as [|c s Hc _ IH]; intros cur rest; [by rewrite app_nil_r|]. cbn [app lines].
  rewrite (proj2 (Z.eqb_neq c 10)) by apply Hc. rewrite IH. by rewrite <- app_assoc.
Qed.

Lemma lines_joined cmds rest : Forall command cmds -> lines [] (joined cmds ++ rest) = cmds ++ lines [] rest.
Proof.
  induction 1 as [|s cmds [Hs Hl] _ IH]; [done|]. unfold joined. cbn [map concat]. fold (joined cmds).
  rewrite <- !app_assoc. rewrite lines_app by done. cbn [app lines]. change (10 =? 10) with true. cbn iota.
  rewrite (proj2 (Z.eqb_neq _ 0)) by lia. cbn [app]. by rewrite IH.
Qed.

Lemma joined_length cmds : Forall command cmds -> alen (joined cmds) <= 256 * alen cmds.
Proof.
  induction 1 as [|s cmds [_ Hl] _ IH]; [done|]. unfold joined in *. cbn [map concat].
  unfold alen in *. rewrite !length_app. cbn [length]. lia.
Qed.

(** Cutting the last newline does not lose a command. *)
Lemma lines_text cmds n : Forall command cmds -> alen (joined cmds) <= Z.of_nat n + 1 ->
  lines [] (take n (joined cmds)) = cmds.
Proof.
  intros Hc Hl. destruct (decide (alen (joined cmds) <= Z.of_nat n)) as [Hle|Hgt].
  { rewrite take_ge by (unfold alen in *; lia). rewrite <- (app_nil_r (joined cmds)), lines_joined by done.
    cbn. by rewrite app_nil_r. }
  destruct cmds as [|s cmds _] using rev_ind; [destruct Hgt; unfold alen; cbn; lia|]. apply Forall_app in Hc as [Hc [[Hs Hsl] _]%Forall_cons].
  rewrite joined_snoc, app_assoc in *. unfold alen in *. rewrite !length_app in *. cbn [length] in *.
  rewrite take_app_length' by (rewrite length_app; lia). rewrite lines_joined by done. f_equal.
  rewrite <- (app_nil_r s) at 1. rewrite lines_app by done. cbn [lines app].
  rewrite (proj2 (Z.eqb_neq _ 0)) by (unfold alen; lia). done.
Qed.

Lemma joined_nonzero cmds : Forall command cmds -> Forall (fun c => is_byte c /\ c <> 0) (joined cmds).
Proof.
  intros Hc. apply Forall_concat, Forall_fmap. eapply Forall_impl; [exact Hc|]. intros s [Hs _].
  apply Forall_app. split; [eapply Forall_impl; [exact Hs|]; by intros c (H1 & H2 & _)|].
  apply Forall_singleton. by split.
Qed.

(** Pushing one line, and several. *)
Definition push_cmd st (s : list Z) : shell D := history_push (fun k => s.[k]) (alen s) st.

Lemma build_list (s : list Z) : build (alen s) (fun k => s.[k]) = s.
Proof.
  apply arr_ext; rewrite alen_build by (unfold alen; lia); [done|]. intros i Hi. by rewrite build_get.
Qed.

Lemma push_cmd_ok st s : edit_ok st -> command s ->
  edit_ok (push_cmd st s) /\ commands (push_cmd st s) = take 8 (s :: commands st).
Proof.
  intros Hok [Hs Hl]. destruct (history_push_commands (fun k => s.[k]) (alen s) st Hok ltac:(lia))
    as (C1 & C2 & C3 & C4 & C5 & C6). rewrite build_list in C1. fold (push_cmd st s) in *.
  split; [|exact C1]. split; try done; try apply Hok.
  - pose proof (eo_nav _ Hok) as Hn. pose proof (eo_count _ Hok). change (history_nav (push_cmd st s)) with (history_nav st).
    unfold max_steps in *. change (history_count (push_cmd st s)) with (history_count st + 1).
    unfold HISTORY_SIZE in *. revert Hn. zcases; lia.
  - rewrite C1. apply Forall_take. constructor; [by split|apply Hok].
Qed.

Lemma take_app_take {A} n (a b : list A) : take n (a ++ take n b) = take n (a ++ b).
Proof. rewrite !take_app, take_take. do 2 f_equal. lia. Qed.

Lemma push_cmds_ok cmds st : edit_ok st -> Forall command cmds ->
  let st' := fold_left push_cmd cmds st in
  edit_ok st' /\ commands st' = take 8 (reverse cmds ++ commands st).
Proof.
  intros Hok Hc. revert st Hok. induction Hc as [|s cmds Hs _ IH]; intros st Hok; cbn [fold_left].
  - split; [done|]. cbn. rewrite take_ge; [done|]. pose proof (alen_commands st (eo_count _ Hok)) as E.
    pose proof (max_steps_range st (eo_count _ Hok)). unfold alen in E. lia.
  - destruct (push_cmd_ok st s Hok Hs) as [Hok' Hcmd]. destruct (IH _ Hok') as [H1 H2]. split; [exact H1|].
    rewrite H2, Hcmd. rewrite take_app_take, reverse_cons, <- app_assoc. done.
Qed.

Lemma history_push_ext f g len st : (forall k, 0 <= k < len -> f k = g k) ->
  history_push f len st = history_push g len st.
Proof.
  intros Hfg. unfold history_push. rewrite (for_loop_ext (fun i row => row.[i <- f i]) (fun i row => row.[i <- g i])); [done|].
  intros j t Hj. rewrite Hfg; [done|]. revert Hj. zcases; lia.
Qed.

(** The piece [cur] of the buffer, pushed if it is not empty. *)
Lemma push_piece buf pre cur r st :
  (forall k, 0 <= k < alen (pre ++ cur ++ r) -> buf.[k] = (pre ++ cur ++ r).[k]) ->
  (if alen pre <? alen pre + alen cur
   then history_push (fun k => buf.[alen pre + k]) (alen pre + alen cur - alen pre) st else st) =
  fold_left push_cmd (if alen cur =? 0 then [] else [cur]) st.
Proof.
  intros Hbuf. pose proof (alen_nonneg pre). pose proof (alen_nonneg cur). pose proof (alen_nonneg r).
  destruct (Z.eqb_spec (alen cur) 0) as [E|E]; [by rewrite (proj2 (Z.ltb_ge _ _)) by lia|].
  rewrite (proj2 (Z.ltb_lt _ _)) by lia. cbn [fold_left]. unfold push_cmd.
  replace (alen pre + alen cur - alen pre) with (alen cur) by lia. apply history_push_ext. intros k Hk.
  rewrite Hbuf by (unfold alen in *; rewrite !length_app; lia).
  rewrite arr_get_app_r by lia. replace (alen pre + k - alen pre) with k by lia. by rewrite arr_get_app_l.
Qed.

(** The scanning loop, with [pre] already split and [cur] the line begun. *)
Lemma push_lines_loop buf size r : forall pre cur st,
  (forall k, 0 <= k < alen (pre ++ cur ++ r) -> buf.[k] = (pre ++ cur ++ r).[k]) ->
  size = alen (pre ++ cur ++ r) ->
  snd (for_loop (S (length r)) (alen pre + alen cur) (fun i '(start, st) =>
    if (i =? size) || (buf.[i] =? 10) then
      (i + 1, if start <? i then history_push (fun k => buf.[start + k]) (i - start) st else st)
    else (start, st)) (alen pre, st)) = fold_left push_cmd (lines cur r) st.
Proof.
  set (body := fun i s => _). induction r as [|c r IH]; intros pre cur st Hbuf Hsize; cbn [length lines];
    assert (Hpc : alen (pre ++ cur) = alen pre + alen cur) by (unfold alen; rewrite length_app; lia).
  - cbn [for_loop]. unfold body. rewrite (proj2 (Z.eqb_eq _ size)) by (rewrite Hsize, app_nil_r; done).
    cbn [orb snd]. by apply (push_piece _ _ _ []).
  - assert (Hsz : size = alen pre + alen cur + 1 + alen r)
      by (rewrite Hsize; unfold alen; rewrite !length_app; cbn [length]; lia).
    pose proof (alen_nonneg r). pose proof (alen_nonneg pre). pose proof (alen_nonneg cur).
    assert (Hc : buf.[alen pre + alen cur] = c).
    { rewrite Hbuf by lia. rewrite app_assoc, arr_get_app_r by lia. by rewrite Hpc, Z.sub_diag. }
    remember (S (length r)) as n eqn:En. cbn [for_loop]. unfold body at 2.
    rewrite (proj2 (Z.eqb_neq _ size)) by lia. cbn [orb]. rewrite Hc. destruct (Z.eqb_spec c 10) as [->|Hne].
    + rewrite (push_piece _ _ _ (10 :: r)) by done. rewrite fold_left_app.
      assert (Hp : alen (pre ++ cur ++ [10]) = alen pre + alen cur + 1) by (unfold alen; rewrite !length_app; cbn; lia).
      rewrite <- Hp. rewrite <- (IH (pre ++ cur ++ [10]) []); subst n.
      * do 2 f_equal. unfold alen at 3. cbn. lia.
      * intros k Hk. cbn [app] in *. rewrite <- !app_assoc in *. by apply Hbuf.
      * cbn [app]. by rewrite <- !app_assoc.
    + rewrite <- (IH pre (cur ++ [c])); subst n.
      * do 2 f_equal. unfold alen. rewrite length_app. cbn. lia.
      * intros k Hk. rewrite <- !app_assoc in *. by apply Hbuf.
      * by rewrite <- !app_assoc.
Qed.

Lemma push_lines_spec buf l st : (forall k, 0 <= k < alen l -> buf.[k] = l.[k]) ->
  push_lines buf (alen l) st = fold_left push_cmd (lines [] l) st.
Proof.
  intros Hb. unfold push_lines. rewrite <- (push_lines_loop buf (alen l) l [] [] st) by done.
  replace (Z.to_nat (alen l + 1)) with (S (length l)) by (unfold alen; lia). done.
Qed.

(** ** The history file *)
Context {laws : BlockDeviceLaws D} (disk_large : FS_DATA_END_LBA <= nsectors).

Lemma good_history : good_name HISTORY_FILE /\ alen HISTORY_FILE <= 23.
Proof. split; [|by vm_compute]. split; [done|]. vm_compute. by repeat constructor. Qed.

(** The file system as an operation of the shell sees it. *)
Definition quiet (f : fs D) : fs D := mkFs (root f) (bitmap f) (dev f) [].

Lemma sh_fs_eq {A} (op : M (fs D) A) st a f : op (quiet (efs (sys st))) = (a, f) ->
  sh_fs op st = (a, set_sys (mkExec (Sched.kprint (Fs.console f) (ek (sys st))) f (slot_pid (sys st))) st).
Proof. intros E. unfold sh_fs, on_fs, quiet in *. by rewrite E. Qed.

(** Only files change, and the console. *)
Definition files_only st st' (f : fs D) : Prop :=
  exists out, sys st' = mkExec (Sched.kprint out (ek (sys st))) f (slot_pid (sys st)).

(** An operation that only reads the disk. *)
Definition same_files (f f' : fs D) : Prop :=
  root f' = root f /\ bitmap f' = bitmap f /\ same_disk (dev f) (dev f').

Lemma same_files_wf f f' : same_files f f' -> fs_wf f -> fs_wf f'.
Proof.
  intros (Hr & Hb & Hw & Hd) Hwf. destruct Hwf as [W1 W2 W3 _ Hs Hm]. split; rewrite ?Hr, ?Hb; try done.
  - intros k Hk. rewrite Hd. by apply Hs.
  - by rewrite Hd.
Qed.

Lemma same_files_lookup f f' nm : same_files f f' -> lookup_file f' nm = lookup_file f nm.
Proof.
  intros (Hr & _ & _ & Hd). unfold lookup_file. rewrite Hr. destruct (find_entry _ _); [|done].
  f_equal. by apply sectors_ext.
Qed.

Lemma same_files_trans f1 f2 f3 : same_files f1 f2 -> same_files f2 f3 -> same_files f1 f3.
Proof.
  intros (R1 & B1 & _ & D1) (R2 & B2 & W2 & D2). split_and!; [congruence|congruence|]. split; [done|]. intros l. by rewrite D2.
Qed.

Lemma history_save_ok st : edit_ok st -> fs_wf (efs (sys st)) -> 0 < alen (commands st) ->
  let f := efs (sys (history_save st)) in let t := history_text st in
  fs_wf f /\ 0 < alen t <= 2047 /\
  (lookup_file f HISTORY_FILE = Some (padded t (alen t)) \/ no_room f ((alen t + 511) / 512)) /\
  (forall nm, good_name nm -> nm <> HISTORY_FILE -> lookup_file f nm = lookup_file (efs (sys st)) nm) /\
  files_only st (history_save st) f.
Proof.
  intros Hok Hwf Hpos f t. pose proof (history_text_spec st Hok) as Ht. change (sizeof_history_buf - 1) with 2047 in Ht.
  pose proof (eo_commands _ Hok) as Hc. apply Forall_reverse in Hc. destruct good_history as [Hg Hg2].
  assert (Hlen : 0 < alen t <= 2047).
  { unfold t. rewrite Ht. unfold alen. rewrite length_take. split; [|lia].
    destruct (commands st) as [|s cs] eqn:Ecs; [unfold alen in Hpos; cbn in Hpos; lia|]. rewrite reverse_cons, joined_snoc.
    rewrite !length_app. cbn [length]. lia. }
  assert (Hb : Forall is_byte t).
  { unfold t. rewrite Ht. apply Forall_take. eapply Forall_impl; [by apply joined_nonzero|]. by intros c [H1 _]. }
  unfold f, history_save. fold t. rewrite (proj2 (Z.eqb_neq (alen t) 0)) by lia.
  destruct (fs_delete_file_ok disk_large (quiet (efs (sys st))) HISTORY_FILE false) as (f1 & E1 & Hwf1 & Hlk1);
    [by apply fs_wf_console|done|].
  rewrite (sh_fs_eq (fs_delete_file_silent (Some HISTORY_FILE)) st _ f1 E1). set (e1 := mkExec _ f1 _).
  destruct (fs_write_file_ok disk_large (quiet f1) HISTORY_FILE t (alen t) false) as (r & f2 & E2 & Hwf2 & Hlk2 & Hcase);
    [by apply fs_wf_console|done|done|done|lia|lia|].
  rewrite (sh_fs_eq (fs_write_file_silent (Some HISTORY_FILE) (Some t) (alen t)) (set_sys e1 st) _ f2 E2).
  cbn [sys set_sys efs]. split; [done|]. split; [done|].
  split; [destruct Hcase as [[_ ?]|(_ & _ & ?)]; [by left|by right]|]. split.
  - intros nm Hn Hne. rewrite Hlk2 by done. change (lookup_file (quiet f1) nm) with (lookup_file f1 nm).
    by rewrite Hlk1, decide_False by done.
  - exists (Fs.console f1 ++ Fs.console f2). unfold e1, Sched.kprint. cbn. by rewrite app_assoc.
Qed.

Lemma alen_padded t n : 0 <= n <= alen t -> alen (padded t n) = 512 * ((n + 511) / 512).
Proof.
  intros Hn. unfold padded, alen in *. rewrite length_app, length_take, length_replicate. Z.div_mod_to_equations. lia.
Qed.

Lemma trim_padded t : Forall (fun c => c <> 0) t ->
  trim_to_first_nul (padded t (alen t)) (alen (padded t (alen t))) = alen t.
Proof.
  intros Hz. pose proof (alen_nonneg t). rewrite alen_padded by lia.
  assert (Hsz : alen t <= 512 * ((alen t + 511) / 512)) by (Z.div_mod_to_equations; lia).
  assert (Hget : forall i, 0 <= i < alen t -> (padded t (alen t)).[i] <> 0).
  { intros i Hi. unfold padded. rewrite take_ge by (unfold alen; lia). rewrite arr_get_app_l by done.
    rewrite arr_Forall in Hz. by apply Hz. }
  unfold trim_to_first_nul. set (n := 512 * _) in *. destruct (decide (alen t = n)) as [E|E].
  - destruct (find_index _ _ _) as [i|] eqn:Ei; [|lia]. apply find_index_Some in Ei as (Hi & Hp & _).
    apply Z.eqb_eq in Hp. destruct (Hget i); [lia|done].
  - rewrite (find_index_intro _ _ _ (alen t)); [done|lia| |].
    + apply Z.eqb_eq. unfold padded. rewrite take_ge by (unfold alen; lia). rewrite arr_get_app_r by lia.
      rewrite Z.sub_diag. fold n. destruct (Z.to_nat (n - alen t)) eqn:Ez; [lia|done].
    + intros k Hk. apply Z.eqb_neq, Hget. lia.
Qed.

Lemma history_load_ok st t : edit_ok st -> fs_wf (efs (sys st)) -> Forall (fun c => c <> 0) t ->
  0 < alen t <= 2047 -> lookup_file (efs (sys st)) HISTORY_FILE = Some (padded t (alen t)) ->
  exists out f, same_files (efs (sys st)) f /\ history_load_from_disk st =
    fold_left push_cmd (lines [] t) (set_sys (mkExec (Sched.kprint out (ek (sys st))) f (slot_pid (sys st))) st).
Proof.
  intros Hok Hwf Hz Hl Hlk. destruct good_history as [Hg _]. unfold history_load_from_disk.
  assert (Hex : fs_file_exists (Some HISTORY_FILE) (quiet (efs (sys st))) = (true, quiet (efs (sys st)))).
  { unfold fs_file_exists. rewrite name_arg_good by done. unfold gets. f_equal. apply bool_decide_eq_true_2.
    unfold lookup_file in Hlk. cbn [root quiet]. by destruct (find_entry _ _). }
  rewrite (sh_fs_eq _ st _ _ Hex). cbn [negb]. set (e1 := mkExec _ _ _).
  destruct (fs_load_file_ok disk_large (quiet (efs (sys st))) HISTORY_FILE sizeof_history_buf) as (f' & F1 & F2 & F3 & E);
    [by apply fs_wf_console|done|].
  change (lookup_file (quiet (efs (sys st))) HISTORY_FILE) with (lookup_file (efs (sys st)) HISTORY_FILE) in E.
  rewrite Hlk in E. rewrite (proj2 (Z.leb_le _ _)) in E by
    (rewrite alen_padded by lia; change sizeof_history_buf with 2048; Z.div_mod_to_equations; lia).
  rewrite (sh_fs_eq _ (set_sys e1 st) _ _ E). cbn [negb]. set (e2 := mkExec _ _ _).
  rewrite trim_padded by done. exists (Fs.console f'), f'. split; [by split_and!|].
  assert (He : e2 = mkExec (Sched.kprint (Fs.console f') (ek (sys st))) f' (slot_pid (sys st))).
  { unfold e2, e1, Sched.kprint. cbn. by rewrite app_nil_r. }
  rewrite <- He. apply push_lines_spec. intros k Hk. unfold padded.
  rewrite take_ge by (unfold alen; lia). by rewrite arr_get_app_l.
Qed.

Lemma edit_ok_sys st e : line (set_sys e st) = line st -> edit_ok st -> edit_ok (set_sys e st).
Proof. intros Hl Hok. split; try apply Hok. rewrite Hl. apply Hok. Qed.

Lemma edited_trans st1 st2 st3 : edited st1 st2 -> edited st2 st3 -> edited st1 st3.
Proof.
  intros (m1 & o1 & E1 & A1 & B1 & S1) (m2 & o2 & E2 & A2 & B2 & S2). exists m2, (o1 ++ o2). split_and!.
  - rewrite E2, E1. unfold Sched.kprint, set_mem. cbn. by rewrite app_assoc.
  - intros x Hx. rewrite A2 by done. unfold sh_mem. rewrite E1. cbn. by apply A1.
  - intros Hm. apply B2. unfold sh_mem. rewrite E1. by apply B1.
  - by rewrite fold_left_app, S1.
Qed.

Lemma read_pending kb : kbd_wf kb ->
  match pending kb with
  | [] => keyboard_read_char kb = (None, kb)
  | c :: cs => exists kb', keyboard_read_char kb = (Some c, kb') /\ kbd_wf kb' /\ pending kb' = cs
  end.
Proof.
  intros Hwf. unfold keyboard_read_char. pose proof (count_zero kb Hwf) as Hz. pose proof (count_range kb) as Hr.
  destruct (Z.eqb_spec (queue_read kb) (queue_write kb)) as [E|E].
  - unfold pending. by rewrite (proj2 Hz E).
  - destruct (pop_spec kb Hwf) as [Hwf' ->]; [lia|]. by eexists.
Qed.

(** The keys waiting in the ring are handled in order, up to the first that
    does not come back to the prompt. *)
Lemma poll_keys_spec cs : forall n kb st, kbd_wf kb -> edit_ok st -> pending kb = cs -> (length cs < n)%nat ->
  Forall (fun c => is_byte c /\ c <> 0) cs ->
  match poll_keys L exec_stacks elf_staging input_buffer str_fuel n kb st with
  | (Prompt st', kb') => kbd_wf kb' /\ pending kb' = [] /\ edit_ok st' /\
      editor_of st' = fold_left ed_key cs (editor_of st) /\ (10 ∉ cs -> edited st st')
  | (_, _) => 10 ∈ cs
  end.
Proof.
  induction cs as [|c cs IH]; intros n kb st Hkb Hok Hp Hn Hcs; (destruct n as [|n]; [cbn in Hn; lia|]); cbn [poll_keys];
    pose proof (read_pending kb Hkb) as Hr; rewrite Hp in Hr.
  - rewrite Hr. split_and!; [done..|]. intros _. by apply edited_refl.
  - destruct Hr as (kb' & -> & Hkb' & Hp'). apply Forall_cons in Hcs as [[Hb Hc0] Hcs]. cbn [length] in Hn.
    destruct (decide (c = 10)) as [->|Hc10].
    + change (shell_update _ _ _ _ _ 10 st) with (shell_execute L exec_stacks elf_staging input_buffer str_fuel st).
      destruct (shell_execute _ _ _ _ _ st) as [st1|st1|] eqn:E; [|by left..].
      destruct (enter_step st st1 Hok E) as [Hok1 He1]. specialize (IH n kb' st1 Hkb' Hok1 Hp' ltac:(lia) Hcs).
      destruct (poll_keys _ _ _ _ _ n kb' st1) as [[st2|st2|] kb2]; [|by right..].
      destruct IH as (H1 & H2 & H3 & H4 & _). split_and!; [done|done|done| |intros Hx; by destruct Hx; left].
      cbn [fold_left]. rewrite H4, He1. done.
    + destruct (key_step c st Hok Hb Hc0 Hc10) as (st1 & -> & Hok1 & He1 & Hed).
      specialize (IH n kb' st1 Hkb' Hok1 Hp' ltac:(lia) Hcs).
      destruct (poll_keys _ _ _ _ _ n kb' st1) as [[st2|st2|] kb2]; [|by right..].
      destruct IH as (H1 & H2 & H3 & H4 & H5). split_and!; [done|done|done| |].
      * cbn [fold_left]. by rewrite H4, He1.
      * intros Hx. apply not_elem_of_cons in Hx as [_ Hx]. eapply edited_trans; [exact Hed|by apply H5].
Qed.

(** C30: the command line refines a line editor.  The shell takes the
    characters waiting in the keyboard ring in order, each exactly once; the
    resulting line, history, navigation and saved draft are those of the
    editor, whose history is the list of the last eight non-empty commands.
    Between two commands the shell always comes back, writes nothing outside
    the 255 bytes of the line, and what the console shows after the prompt is
    the line. *)
Theorem shell_refines_editor kb st : kbd_wf kb -> edit_ok st ->
  Forall (fun c => is_byte c /\ c <> 0) (pending kb) ->
  match poll_keys L exec_stacks elf_staging input_buffer str_fuel 256 kb st with
  | (Prompt st', kb') => kbd_wf kb' /\ pending kb' = [] /\ edit_ok st' /\
      editor_of st' = fold_left ed_key (pending kb) (editor_of st) /\ (10 ∉ pending kb -> edited st st')
  | (_, _) => 10 ∈ pending kb
  end.
Proof.
  intros Hkb Hok Hcs. apply poll_keys_spec; [done|done|done| |done].
  pose proof (alen_pending kb) as Hl. pose proof (count_range kb). unfold alen in Hl. lia.
Qed.

(** C31: the command history survives a restart.  [history_save] writes the
    recent commands to a file; after a reboot, whatever the RAM holds,
    [fs_init] and [history_load_from_disk] in a shell with an empty history
    give back exactly these commands, in the same order, unless the disk had
    no room for the file. *)
Theorem shell_history_persists st st0 s0 :
  edit_ok st -> fs_wf (efs (sys st)) -> 0 < alen (commands st) ->
  let f1 := efs (sys (history_save st)) in
  root_typed (root s0) -> dev s0 = dev f1 ->
  edit_ok st0 -> history_count st0 = 0 -> buffer_idx st0 = 0 -> efs (sys st0) = snd (fs_init s0) ->
  no_room f1 ((alen (history_text st) + 511) / 512) \/
  commands (history_load_from_disk st0) = commands st.
Proof.
  intros Hok Hwf Hpos f1 Hr Hdev Hok0 Hc0 Hb0 Hf0.
  destruct (history_save_ok st Hok Hwf Hpos) as (Hwf1 & Hlen & [Hlk|Hno] & _); [|by left]. right. fold f1 in Hwf1, Hlk.
  destruct (fs_reboot_ok disk_large f1 s0 Hwf1 Hr Hdev) as (f & E & Hwf2 & _ & _ & Hlk2).
  rewrite E in Hf0. cbn [snd] in Hf0. set (t := history_text st) in *.
  pose proof (history_text_spec st Hok) as Ht. pose proof (eo_commands _ Hok) as Hc. pose proof Hc as Hrc. apply Forall_reverse in Hrc.
  assert (Hz : Forall (fun c => c <> 0) t).
  { unfold t. rewrite Ht. apply Forall_take. eapply Forall_impl; [by apply joined_nonzero|]. by intros c [_ H1]. }
  destruct (history_load_ok st0 t Hok0) as (out & f' & _ & ->); [by rewrite Hf0|done|done|by rewrite Hf0, Hlk2|].
  set (e := mkExec _ f' _).
  assert (Hcl : alen (reverse (commands st)) <= 8).
  { unfold alen. rewrite length_reverse. pose proof (alen_commands st (eo_count _ Hok)) as El.
    pose proof (max_steps_range st (eo_count _ Hok)). unfold alen in El. lia. }
  assert (Hlines : lines [] t = reverse (commands st)).
  { unfold t. rewrite Ht. apply lines_text; [done|]. pose proof (joined_length _ Hrc).
    change (Z.of_nat (Z.to_nat (sizeof_history_buf - 1)) + 1) with 2048. lia. }
  rewrite Hlines. destruct (push_cmds_ok (reverse (commands st)) (set_sys e st0)) as [_ ->]; [|done|].
  { apply edit_ok_sys; [|done]. unfold line. cbn [buffer_idx set_sys]. by rewrite Hb0. }
  assert (Hnil : commands (set_sys e st0) = []).
  { unfold commands, max_steps. cbn [history_count set_sys]. by rewrite Hc0. }
  rewrite Hnil, app_nil_r, reverse_involutive. apply take_ge. unfold alen in Hcl. rewrite length_reverse in Hcl. lia.
Qed.
End edit.

(** ** A concrete shell *)

(** The variables of [shell.c] as they are loaded. *)
Definition fresh_shell {D} (e : exec D) : shell D :=
  mkShell e 0 (build 8 (fun _ => build 256 (fun _ => 0))) (build 8 (fun _ => 0)) 0 (-1)
    (build 256 (fun _ => 0)) 0 [].

Lemma fresh_shell_ok {D} (e : exec D) ib : edit_ok ib (fresh_shell e).
Proof.
  split; try done.
  - intros i Hi. unfold fresh_shell. cbn [history]. by rewrite build_get.
  - intros i Hi. unfold fresh_shell. cbn [history_len]. by rewrite build_get.
Qed.

Definition ls_keys : keyboard := type_text (text "ls") keyboard_boot.

Lemma ls_keys_pending : pending ls_keys = text "ls".
Proof. by vm_compute. Qed.

Lemma ls_no_enter : 10 ∉ text "ls".
Proof. intros Hin. apply list_elem_of_In in Hin. change (text "ls") with [108; 115] in Hin. destruct Hin as [|[|[]]]; done. Qed.

Lemma shell_refines_editor_witness :
  match poll_keys demo_layout 250000 65536 8192 200 256 ls_keys (fresh_shell demo_exec) with
  | (Prompt st', kb') => line 8192 st' = text "ls" /\ pending kb' = []
  | _ => False
  end.
Proof.
  assert (Hk : kbd_wf ls_keys) by (split_and!; by vm_compute).
  assert (Hc : Forall (fun c => is_byte c /\ c <> 0) (pending ls_keys)).
  { rewrite ls_keys_pending. by repeat constructor. }
  pose proof (shell_refines_editor demo_layout 250000 65536 8192 200 ltac:(lia) ls_keys (fresh_shell demo_exec) Hk
    (fresh_shell_ok _ _) Hc) as Hth. rewrite ls_keys_pending in Hth.
  destruct (poll_keys _ _ _ _ _ _ _ _) as [[st'|st'|] kb']; [|by apply ls_no_enter..].
  destruct Hth as (_ & Hp & _ & He & _). split; [|done]. by injection He.
Defined.

(** The same shell after the command [ls], and its next start. *)
Definition ls_shell : shell ramdisk := push_cmd (fresh_shell demo_exec) (text "ls").
Definition next_boot : fs ramdisk := set_dev (dev (efs (sys (history_save ls_shell)))) blank.
Definition next_shell : shell ramdisk :=
  fresh_shell (mkExec (ek demo_exec) (snd (fs_init next_boot)) (slot_pid demo_exec)).

Lemma dev_set_dev {D} (d : D) (s : fs D) : dev (set_dev d s) = d.
Proof. reflexivity. Qed.

Lemma next_boot_dev : dev next_boot = dev (efs (sys (history_save ls_shell))).
Proof. exact (dev_set_dev _ blank). Qed.

Lemma next_shell_fs : efs (sys next_shell) = snd (fs_init next_boot).
Proof. unfold next_shell, fresh_shell. cbn [sys efs]. reflexivity. Qed.

Lemma shell_history_persists_witness :
  no_room (efs (sys (history_save ls_shell))) ((alen (history_text ls_shell) + 511) / 512) \/
  commands (history_load_from_disk next_shell) = [text "ls"].
Proof.
  assert (Hls : command (text "ls")) by (split; [by repeat constructor|by vm_compute]).
  destruct (push_cmd_ok 8192 (fresh_shell demo_exec) (text "ls") (fresh_shell_ok _ _) Hls) as [Hok Hc].
  assert (Hpos : 0 < alen (commands ls_shell)) by (unfold ls_shell; rewrite Hc; by vm_compute).
  pose proof (shell_history_persists 8192 ramdisk_big_enough ls_shell next_shell next_boot Hok (proj1 demo_fs_ok) Hpos
    zero_root_typed next_boot_dev (fresh_shell_ok _ _) eq_refl eq_refl next_shell_fs) as Hth.
  unfold ls_shell at 3 in Hth. rewrite Hc in Hth. exact Hth.
Defined.
