(* ===== verification/ShellCmd.v ===== *)
(** * The commands of the shell

    [shell_command] works on pointers into the command line; here it is shown
    to do what a parser on lists of characters says. *)
From Stdlib Require Import String.
From stdpp Require Import base numbers list list_numbers.
From S2P Require Import Prelude Machine Heap BlockDev Fs FsData FsProofs FsProps Paging Pit Sched SchedProps Frames SchedInv Elf Keyboard Screen Exec Shell ShellEdit.

(** ** The specification: parsing a line *)

Fixpoint take_while (f : Z -> bool) (s : list Z) : list Z :=
  match s with [] => [] | c :: s => if f c then c :: take_while f s else [] end.
Fixpoint drop_while (f : Z -> bool) (s : list Z) : list Z :=
  match s with [] => [] | c :: s' => if f c then drop_while f s' else s end.

Definition starts_with (p s : list Z) : bool := bool_decide (take (length p) s = p).
Definition lstrip : list Z -> list Z := drop_while is_space.

(** At most [n] words; the spaces before each of them are gone. *)
Fixpoint words (n : nat) (s : list Z) : list (list Z) :=
  match n, s with
  | O, _ | _, [] => []
  | S n, _ => take_while in_word s :: words n (lstrip (drop_while in_word s))
  end.

(** A decimal number, as a 32-bit [int], and what follows it. *)
Definition number (s : list Z) : option (Z * list Z) :=
  match take_while is_digit s with
  | [] => None
  | ds => Some (fold_left (fun v c => s32 (v * 10 + (c - 48))) ds 0, drop_while is_digit s)
  end.
Definition signed_number (s : list Z) : option Z :=
  match s with
  | [] => None
  | c :: s' => if c =? 45 then option_map (fun r => s32 (- r.1)) (number s') else option_map fst (number s)
  end.

Inductive cmd :=
  | Help | Clear | Ver | Ls | Cat (nm : list Z) | Rm (nm : list Z) | Exec (argv : list (list Z))
  | Ps | Kill (pid : option Z) | Priority (args : option (Z * Z)) | Write (args : option (list Z * list Z))
  | Mem | Uptime | Reboot | Unknown | Nothing.

Definition parse_write (s : list Z) : option (list Z * list Z) :=
  match drop_while in_word (lstrip s) with
  | [] => None
  | _ :: content => Some (take_while in_word (lstrip s), content)
  end.
Definition parse_priority (s : list Z) : option (Z * Z) :=
  match number (lstrip s) with
  | Some (pid, s) => option_map (pair pid) (signed_number (lstrip s))
  | None => None
  end.

Definition parse (s : list Z) : cmd :=
  let equals w := bool_decide (s = text w) in
  let starts w := starts_with (text w) s in
  let after w := drop (String.length w) s in
  if equals "help"%string then Help
  else if equals "clear"%string then Clear
  else if equals "ver"%string then Ver
  else if equals "ls"%string then Ls
  else if starts "cat "%string then Cat (after "cat "%string)
  else if starts "rm "%string then Rm (after "rm "%string)
  else if starts "exec "%string then Exec (words 8 (lstrip (after "exec "%string)))
  else if equals "ps"%string then Ps
  else if starts "kill "%string then Kill (option_map fst (number (lstrip (after "kill "%string))))
  else if starts "priority "%string then Priority (parse_priority (after "priority "%string))
  else if starts "write "%string then Write (parse_write (after "write "%string))
  else if equals "mem"%string then Mem
  else if equals "uptime"%string then Uptime
  else if equals "reboot"%string then Reboot
  else match s with [] => Nothing | _ => Unknown end.

(** ** Strings in memory *)

Lemma m_strcmp_spec s2 : Forall (fun c => c <> 0) s2 -> forall m p s, str m p s ->
  (m_strcmp m p s2 =? 0) = bool_decide (s = s2).
Proof.
  induction 1 as [|c2 s2 Hc _ IH]; intros m p s Hs; cbn [m_strcmp]; rewrite (str_head _ _ _ Hs); destruct s as [|c s].
  - by rewrite bool_decide_true.
  - destruct (str_cons _ _ _ _ Hs) as (_ & H0 & _). rewrite bool_decide_false by done. by apply Z.eqb_neq.
  - rewrite bool_decide_false by done. cbn. apply Z.eqb_neq. lia.
  - destruct (str_cons _ _ _ _ Hs) as (_ & H0 & -> & Ht). rewrite (proj2 (Z.eqb_neq c 0)) by done. cbn [negb andb].
    destruct (Z.eqb_spec c c2) as [->|Hne].
    + rewrite (IH _ _ s Ht). apply bool_decide_ext. split; [by intros ->|by intros [=]].
    + rewrite bool_decide_false by congruence. apply Z.eqb_neq. lia.
Qed.

Lemma m_strncmp_spec s2 : Forall (fun c => c <> 0) s2 -> forall m p s, str m p s ->
  (m_strncmp m p s2 (length s2) =? 0) = starts_with s2 s.
Proof.
  unfold starts_with. induction 1 as [|c2 s2 Hc _ IH]; intros m p s Hs; cbn [m_strncmp length take]; [done|].
  rewrite (str_head _ _ _ Hs); destruct s as [|c s].
  - rewrite bool_decide_false by done. cbn. apply Z.eqb_neq. lia.
  - destruct (str_cons _ _ _ _ Hs) as (_ & H0 & -> & Ht). rewrite (proj2 (Z.eqb_neq c 0)) by done. cbn [negb andb].
    destruct (Z.eqb_spec c c2) as [->|Hne].
    + rewrite (IH _ _ s Ht). apply bool_decide_ext. cbn [length take]. split; congruence.
    + rewrite bool_decide_false by (cbn [length take]; congruence). apply Z.eqb_neq. lia.
Qed.

Lemma scan_spec f n m p s : f 0 = false -> str m p s -> alen s < Z.of_nat n ->
  scan f n m p = p + alen (take_while f s) /\ str m (p + alen (take_while f s)) (drop_while f s).
Proof.
  intros Hf. revert p s. induction n as [|n IH]; intros p s Hs Hn; [pose proof (alen_nonneg s); lia|].
  cbn [scan]. rewrite (str_head _ _ _ Hs). destruct s as [|c s]; cbn [take_while drop_while].
  - rewrite Hf. change (alen (@nil Z)) with 0. rewrite Z.add_0_r. done.
  - destruct (f c); [|change (alen (@nil Z)) with 0; by rewrite Z.add_0_r].
    destruct (str_cons _ _ _ _ Hs) as (_ & _ & -> & Ht). rewrite alen_cons in Hn.
    destruct (IH (p + 1) s Ht ltac:(lia)) as [-> H2]. rewrite alen_cons.
    replace (p + (alen (take_while f s) + 1)) with (p + 1 + alen (take_while f s)) by lia. done.
Qed.

Lemma take_drop_while f s : take_while f s ++ drop_while f s = s.
Proof. induction s as [|c s IH]; cbn; [done|]. destruct (f c); [|done]. cbn. by rewrite IH. Qed.

Lemma alen_while f s : alen (take_while f s) + alen (drop_while f s) = alen s.
Proof. rewrite <- (take_drop_while f s) at 3. unfold alen. rewrite length_app. lia. Qed.

Lemma parse_digits_spec n m p s v : str m p s -> alen s < Z.of_nat n ->
  parse_digits n m p v = (fold_left (fun v c => s32 (v * 10 + (c - 48))) (take_while is_digit s) v,
    p + alen (take_while is_digit s)).
Proof.
  revert p s v. induction n as [|n IH]; intros p s v Hs Hn; [pose proof (alen_nonneg s); lia|].
  cbn [parse_digits]. rewrite (str_head _ _ _ Hs). destruct s as [|c s]; cbn [take_while].
  - change (alen (@nil Z)) with 0. by rewrite Z.add_0_r.
  - destruct (is_digit c); [|change (alen (@nil Z)) with 0; by rewrite Z.add_0_r].
    destruct (str_cons _ _ _ _ Hs) as (_ & _ & -> & Ht). rewrite alen_cons in Hn.
    rewrite (IH (p + 1) s _ Ht) by lia. cbn [fold_left]. f_equal. rewrite alen_cons. lia.
Qed.

(** Ending a string early. *)
Lemma str_cut m p s1 c s2 : str m p (s1 ++ c :: s2) ->
  str (store8 m (p + alen s1) 0) p s1 /\ str (store8 m (p + alen s1) 0) (p + alen s1 + 1) s2 /\
  agree_on (fun x => x <> p + alen s1) m (store8 m (p + alen s1) 0).
Proof.
  intros ([Hb Hn] & H0 & H1). apply Forall_app in Hn as [Hn1 [_ Hn2]%Forall_cons].
  assert (Hl : alen (s1 ++ c :: s2) = alen s1 + 1 + alen s2) by (unfold alen; rewrite length_app; cbn; lia).
  pose proof (alen_nonneg s1). pose proof (alen_nonneg s2). rewrite Hl in H1.
  assert (Est : forall x, store8 m (p + alen s1) 0 x = if x =? p + alen s1 then 0 else m x).
  { intros x. unfold store8. rewrite u32_id by (unfold is_u32; lia). done. }
  assert (Hbb : forall i, 0 <= i < alen s1 + 1 + alen s2 + 1 -> m (p + i) = ((s1 ++ c :: s2) ++ [0]).[i]).
  { intros i Hi. apply Hb. rewrite alen_snoc. lia. }
  split_and!; [split; [split; [|done]|lia]|split; [split; [|done]|lia]|].
  - intros i Hi. rewrite alen_snoc in Hi. rewrite Est. destruct (Z.eqb_spec (p + i) (p + alen s1)).
    + replace i with (alen s1) by lia. by rewrite arr_get_app_r, Z.sub_diag by lia.
    + rewrite Hbb by lia. rewrite <- app_assoc. by rewrite !arr_get_app_l by lia.
  - intros i Hi. rewrite alen_snoc in Hi. rewrite Est. rewrite (proj2 (Z.eqb_neq _ _)) by lia.
    replace (p + alen s1 + 1 + i) with (p + (alen s1 + (i + 1))) by lia. rewrite Hbb by lia.
    rewrite <- app_assoc, arr_get_app_r by lia. replace (alen s1 + (i + 1) - alen s1) with (i + 1) by lia.
    cbn [app]. by rewrite arr_get_cons_S by lia.
  - intros x Hx. rewrite Est. by rewrite (proj2 (Z.eqb_neq _ _)).
Qed.

Lemma drop_in_word m p s : str m p s ->
  drop_while in_word s = [] \/ exists r, drop_while in_word s = 32 :: r.
Proof.
  intros ([_ Hn] & _). induction Hn as [|c s Hc _ IH]; cbn [drop_while]; [by left|].
  unfold in_word. rewrite (proj2 (Z.eqb_neq c 0)) by done. cbn [negb andb].
  destruct (Z.eqb_spec c 32) as [->|]; cbn [negb]; [right; by eexists|exact IH].
Qed.

(** The splitting writes through [store8]. *)
Lemma split_args_bytes n : forall m p, mem_bytes m -> mem_bytes (split_args n m p).2.
Proof.
  induction n as [|n IH]; intros m p Hm; cbn [split_args]; [done|]. destruct (_ =? 0); [done|].
  set (q := scan in_word line_fuel m p). destruct (load8 m q =? 32).
  - cbn zeta. specialize (IH (store8 m q 0) (skip_spaces (store8 m q 0) (q ⊕ 1)) ltac:(auto with mx)).
    by destruct (split_args n _ _).
  - specialize (IH m q Hm). by destruct (split_args n m q).
Qed.

(** What the splitting leaves: the words, each a string inside the line. *)
Definition split_at (m : memory) (p : Z) (s : list Z) (ws : list (list Z)) (argv : list Z) : Prop :=
  alen argv = alen ws /\
  forall j, 0 <= j < alen ws -> str m argv.[j] ws.[j] /\ p <= argv.[j] /\ argv.[j] + alen ws.[j] <= p + alen s.

Lemma split_at_cons m p q s r w ws argv : str m p w -> p <= q -> q + alen r <= p + alen s -> alen w <= alen s ->
  split_at m q r ws argv -> split_at m p s (w :: ws) (p :: argv).
Proof.
  intros Hw Hq Hr Hl [Hlen H]. split; [by rewrite !alen_cons, Hlen|]. intros j Hj. rewrite alen_cons in Hj.
  destruct (decide (j = 0)) as [->|Hne].
  - rewrite !arr_get_cons_0. split; [done|]. lia.
  - replace j with ((j - 1) + 1) by lia. rewrite !arr_get_cons_S by lia.
    destruct (H (j - 1) ltac:(lia)) as (H1 & H2 & H3). split; [done|]. lia.
Qed.

Lemma split_args_spec n : forall m p s, str m p s -> alen s < 256 ->
  exists argv m', split_args n m p = (argv, m') /\ split_at m' p s (words n s) argv /\
    agree_on (fun x => ~ range p (alen s) x) m m'.
Proof.
  assert (Hnil : forall m p s, split_at m p s [] []) by (split; [done|]; unfold alen; cbn; lia).
  induction n as [|n IH]; intros m p s Hs Hl; cbn [split_args words]; [by exists [], m|].
  rewrite (str_head _ _ _ Hs). destruct s as [|c s']; [by exists [], m|]. set (s := c :: s') in *.
  assert (Hc : c <> 0) by (by destruct (str_cons _ _ _ _ Hs) as (_ & ? & _)).
  rewrite (proj2 (Z.eqb_neq c 0)) by done.
  destruct (scan_spec in_word line_fuel m p s eq_refl Hs) as [-> Hq]; [unfold line_fuel; lia|].
  set (w := take_while in_word s) in *. pose proof (alen_while in_word s) as Hwl. fold w in Hwl.
  pose proof (alen_nonneg w). destruct (drop_in_word m p s Hs) as [Er|[r Er]]; rewrite Er in *.
  - assert (Hw : w = s) by (unfold w; rewrite <- (take_drop_while in_word s) at 2; by rewrite Er, app_nil_r).
    rewrite (str_head _ _ _ Hq). cbn [Z.eqb]. change (0 =? 32) with false. cbn iota.
    destruct (IH m _ [] Hq) as (argv & m' & E & Hsp & Hag); [by vm_compute|]. rewrite E. exists (p :: argv), m'.
    split; [done|]. split; [|intros x Hx; apply Hag; unfold range in *; change (alen (@nil Z)) with 0; lia].
    change (lstrip []) with (@nil Z). rewrite Hw in *. eapply (split_at_cons _ _ (p + alen s) _ []); [|lia|change (alen (@nil Z)) with 0; lia|lia|exact Hsp].
    eapply str_agree; [|exact Hs]. intros x Hx. apply Hag. unfold range in *. change (alen (@nil Z)) with 0. lia.
  - rewrite (str_head _ _ _ Hq). change (32 =? 32) with true. cbn iota.
    assert (Hcut : str m p (w ++ 32 :: r)) by (unfold w; rewrite <- Er, take_drop_while; exact Hs).
    destruct (str_cut _ _ _ _ _ Hcut) as (C1 & C2 & C3). set (m1 := store8 m (p + alen w) 0) in *.
    rewrite alen_cons in Hwl. pose proof (alen_nonneg r). destruct Hs as (_ & P0 & P1).
    rewrite u32_id by (unfold is_u32; lia).
    destruct (scan_spec is_space line_fuel m1 (p + alen w + 1) r eq_refl C2) as [Esk Hsk]; [unfold line_fuel; lia|].
    unfold skip_spaces. rewrite Esk. pose proof (alen_while is_space r) as Hrl. fold (lstrip r) in Hrl, Hsk.
    assert (Hlw : lstrip (32 :: r) = lstrip r) by done. rewrite Hlw. set (q := p + alen w + 1 + alen (take_while is_space r)) in *.
    pose proof (alen_nonneg (take_while is_space r)). pose proof (alen_nonneg (lstrip r)).
    destruct (IH m1 q (lstrip r) Hsk ltac:(lia)) as (argv & m' & E & Hsp & Hag). rewrite E. exists (p :: argv), m'.
    split; [done|]. split.
    + eapply (split_at_cons _ _ q _ (lstrip r)); [|unfold q; lia|unfold q; lia|lia|exact Hsp].
      eapply str_agree; [|exact C1]. intros x Hx. apply Hag. unfold range in *. unfold q. lia.
    + intros x Hx. rewrite Hag by (unfold range in *; unfold q; lia). apply C3. unfold range in Hx. lia.
Qed.

Lemma str_drop m p s k : str m p s -> 0 <= k <= alen s -> str m (p + k) (drop (Z.to_nat k) s).
Proof.
  intros ([Hb Hn] & H0 & H1) Hk. assert (Hl : alen (drop (Z.to_nat k) s) = alen s - k) by (unfold alen in *; rewrite length_drop; lia).
  split; [|lia]. split; [|by apply Forall_drop]. intros i Hi. rewrite alen_snoc in Hi.
  rewrite <- Z.add_assoc, Hb by (rewrite alen_snoc; lia). rewrite <- (take_drop (Z.to_nat k) s) at 1.
  rewrite <- app_assoc. assert (Ht : alen (take (Z.to_nat k) s) = k) by (unfold alen in *; rewrite length_take; lia).
  rewrite arr_get_app_r by lia. f_equal. lia.
Qed.

(** The digits at the head of a string. *)
Lemma number_spec m p s : str m p s -> alen s < 256 ->
  match number s with
  | None => is_digit (load8 m p) = false
  | Some (v, rest) => is_digit (load8 m p) = true /\ exists q, parse_int m p = (v, q) /\ str m q rest /\ alen rest <= alen s
  end.
Proof.
  intros Hs Hl. unfold number, parse_int. rewrite (parse_digits_spec _ _ _ s) by (done || unfold line_fuel; lia).
  rewrite (str_head _ _ _ Hs). destruct s as [|c s]; [done|]. cbn [take_while].
  destruct (is_digit c) eqn:Ec; [|done]. split; [done|]. eexists. split; [reflexivity|].
  destruct (scan_spec is_digit 256 m p (c :: s) eq_refl Hs ltac:(lia)) as [_ Hq]. cbn [take_while] in Hq. rewrite Ec in Hq.
  split; [exact Hq|]. pose proof (alen_while is_digit (c :: s)). pose proof (alen_nonneg (take_while is_digit (c :: s))). lia.
Qed.

Lemma skip_spec m p s : str m p s -> alen s < 256 ->
  str m (skip_spaces m p) (lstrip s) /\ alen (lstrip s) <= alen s /\ p <= skip_spaces m p /\
  skip_spaces m p + alen (lstrip s) = p + alen s.
Proof.
  intros Hs Hl. destruct (scan_spec is_space line_fuel m p s eq_refl Hs ltac:(unfold line_fuel; lia)) as [E Hq].
  unfold skip_spaces. rewrite E. pose proof (alen_while is_space s) as H1. fold (lstrip s) in H1, Hq.
  pose proof (alen_nonneg (take_while is_space s)). split_and!; [exact Hq|lia|lia|lia].
Qed.

(** ** Commands *)
Section commands.
Context {D : Type} `{BlockDevice D}.
Context (L : Layout) (exec_stacks elf_staging input_buffer : Z) (str_fuel : nat).
Context (buffer_range : 0 <= input_buffer /\ input_buffer + 256 <= 4294967296).
Context (fuel_enough : (256 <= str_fuel)%nat).
Implicit Types st : shell D.

(** What the command [c], parsed from the line [s], does. *)
Definition ran (s : list Z) (c : cmd) st (r : ended D) : Prop :=
  let k := ek (sys st) in
  let says t := r = Prompt (sh_print (text t) st) in
  match c with
  | Help => r = Prompt (sh_print help_text st)
  | Clear => r = Prompt (sh_clear_screen st)
  | Ver => says "MxOS Kernel v1.1.2 (Preemptive/ATA-PIO)"%string
  | Ls => r = Prompt (sh_fs fs_list st).2
  | Cat nm => r = Prompt (sh_fs (fs_read_file (Some nm)) st).2
  | Rm nm => r = Prompt (sh_fs (fs_delete_file (Some nm)) st).2
  | Exec [] => says "Usage : exec <fichier> [arguments...]"%string
  | Exec args => exists argv m, split_at m input_buffer s args argv /\
      agree_on (fun x => ~ range input_buffer (alen s) x) (sh_mem st) m /\ (mem_bytes (sh_mem st) -> mem_bytes m) /\
      r = match exec_run L exec_stacks elf_staging str_fuel argv.[0] (alen args) argv (sys (set_sh_mem m st)) with
          | Some (_, e) => Prompt (set_sys e st)
          | None => Stuck
          end
  | Ps => r = sched_dump_tasks str_fuel st
  | Kill None => says "Usage : kill <pid>"%string
  | Kill (Some pid) => r = Prompt (sh_print
      (if (task_kill pid k).1 then text "Tache " ++ dec pid ++ text " terminee."
       else text "Impossible de terminer cette tache (PID invalide, inactive, ou tache courante).")
      (set_sys (set_ek (task_kill pid k).2 (sys st)) st))
  | Priority None => says "Usage : priority <pid> <niveau>"%string
  | Priority (Some (pid, level)) => r = Prompt (sh_print (text "Priorite mise a jour.")
      (set_sys (set_ek (task_set_priority pid level k) (sys st)) st))
  | Write None => says "Usage : write <nom> <contenu>"%string
  | Write (Some (nm, content)) => exists m,
      agree_on (fun x => ~ range input_buffer (alen s) x) (sh_mem st) m /\ (mem_bytes (sh_mem st) -> mem_bytes m) /\
      r = Prompt (sh_fs (fs_write_file (Some nm) (Some content) (alen content)) (set_sh_mem m st)).2
  | Mem => r = cmd_mem st
  | Uptime => r = Prompt (cmd_uptime st)
  | Reboot => r = Rebooting (sh_print (text "Redemarrage..." ++ newline) st)
  | Unknown => r = Prompt (sh_print (text "Commande inconnue : " ++ s) st)
  | Nothing => r = Prompt st
  end.

(** The line in the buffer when a command runs. *)
Definition line_is st (s : list Z) : Prop :=
  holds (sh_mem st) input_buffer s /\ alen s <= 255 /\ buffer_idx st = alen s.

Lemma line_str st s : line_is st s -> str (sh_mem st) input_buffer s.
Proof. intros (Hh & Hl & _). split; [done|]. lia. Qed.

(** What follows a keyword. *)
Lemma after_keyword st s w : line_is st s -> starts_with w s = true ->
  s = w ++ drop (length w) s /\ input_buffer ⊕ alen w = input_buffer + alen w /\
  str (sh_mem st) (input_buffer + alen w) (drop (length w) s) /\ alen (drop (length w) s) = alen s - alen w /\
  0 <= alen w <= alen s.
Proof.
  intros Hl Hs. apply bool_decide_eq_true in Hs. pose proof (line_str _ _ Hl) as Hstr. destruct Hl as (_ & Hlen & _).
  assert (Hw : alen w <= alen s) by (rewrite <- Hs; unfold alen; rewrite length_take; lia). pose proof (alen_nonneg w).
  split; [rewrite <- Hs at 1; by rewrite take_drop|]. split; [apply u32_id; unfold is_u32; lia|].
  split; [|split; [unfold alen in *; rewrite length_drop; lia|done]].
  pose proof (str_drop _ _ _ (alen w) Hstr ltac:(lia)) as Hd. unfold alen at 2 in Hd. by rewrite Nat2Z.id in Hd.
Qed.

Lemma with_string_at st p s f : str (sh_mem st) p s -> alen s < 256 -> with_string str_fuel p st f = f s.
Proof.
  intros (Hh & H0 & H1) Hl. unfold with_string. by rewrite (string_at_holds str_fuel _ _ s) by (done || lia).
Qed.

Lemma split_at_weaken m p q s s' ws argv : p <= q -> q + alen s' <= p + alen s ->
  split_at m q s' ws argv -> split_at m p s ws argv.
Proof.
  intros H1 H2 [Hl Hj]. split; [done|]. intros j Hb. destruct (Hj j Hb) as (J1 & J2 & J3). split; [done|]. lia.
Qed.

Lemma cmd_exec_ran st s : line_is st s -> starts_with (text "exec ") s = true ->
  ran s (Exec (words 8 (lstrip (drop 5 s)))) st (cmd_exec L exec_stacks elf_staging input_buffer str_fuel st).
Proof.
  intros Hl Hk. destruct (after_keyword st s _ Hl Hk) as (_ & Ea & Hs & Hlen & Hw). destruct Hl as (_ & Hl & _).
  change (alen (text "exec ")) with 5 in *. change (length (text "exec ")) with 5%nat in *.
  destruct (skip_spec _ _ _ Hs ltac:(lia)) as (Hp & Hpl & Hp1 & Hp2). unfold cmd_exec. rewrite Ea.
  set (p := skip_spaces _ _) in *. set (r := lstrip _) in *. change (Z.to_nat EXEC_MAX_ARGS) with 8%nat.
  destruct (split_args_spec 8 _ _ _ Hp ltac:(lia)) as (argv & m & E & Hsp & Hag). rewrite E.
  assert (Hargc : alen argv = alen (words 8 r)) by apply Hsp. rewrite Hargc.
  destruct (words 8 r) as [|w ws] eqn:Ew.
  - assert (Hr : r = []) by (by destruct r). cbn [split_args] in E. rewrite (str_head _ _ _ Hp), Hr in E.
    change (0 =? 0) with true in E. cbn iota in E. injection E as <- <-. change (alen (@nil (list Z)) =? 0) with true. cbn iota.
    unfold ran. by rewrite set_sh_mem_id.
  - rewrite (proj2 (Z.eqb_neq (alen (w :: ws)) 0)) by (rewrite alen_cons; pose proof (alen_nonneg ws); lia).
    exists argv, m. split; [eapply split_at_weaken; [| |exact Hsp]; lia|].
    split; [intros x Hx; apply Hag; unfold range in *; lia|]. split; [|done].
    intros Hm. pose proof (split_args_bytes 8 (sh_mem st) p Hm) as Hb. by rewrite E in Hb.
Qed.

Lemma cmd_kill_ran st s : line_is st s -> starts_with (text "kill ") s = true ->
  ran s (Kill (option_map fst (number (lstrip (drop 5 s))))) st (cmd_kill input_buffer st).
Proof.
  intros Hl Hk. destruct (after_keyword st s _ Hl Hk) as (_ & Ea & Hs & Hlen & Hw). destruct Hl as (_ & Hl & _).
  change (alen (text "kill ")) with 5 in *. change (length (text "kill ")) with 5%nat in *.
  destruct (skip_spec _ _ _ Hs ltac:(lia)) as (Hp & Hpl & _). unfold cmd_kill. rewrite Ea.
  pose proof (number_spec _ _ _ Hp ltac:(lia)) as Hn. destruct (number _) as [[v rest]|]; [|by rewrite Hn].
  destruct Hn as [-> (q & -> & _)]. cbn [negb option_map ran fst]. by destruct (task_kill v (ek (sys st))) as [[] k].
Qed.

Lemma cmd_priority_ran st s : line_is st s -> starts_with (text "priority ") s = true ->
  ran s (Priority (parse_priority (drop 9 s))) st (cmd_priority input_buffer st).
Proof.
  intros Hl Hk. destruct (after_keyword st s _ Hl Hk) as (_ & Ea & Hs & Hlen & Hw). destruct Hl as (_ & Hl & _).
  change (alen (text "priority ")) with 9 in *. change (length (text "priority ")) with 9%nat in *.
  destruct (skip_spec _ _ _ Hs ltac:(lia)) as (Hp & Hpl & _). unfold cmd_priority, parse_priority. rewrite Ea.
  pose proof (number_spec _ _ _ Hp ltac:(lia)) as Hn. destruct (number _) as [[pid rest]|]; [|by rewrite Hn].
  destruct Hn as [-> (q & -> & Hq & Hql)]. cbn [negb].
  destruct (skip_spec _ _ _ Hq ltac:(lia)) as (Hr & Hrl & _). set (r := lstrip rest) in *. set (q' := skip_spaces _ q) in *.
  rewrite (str_head _ _ _ Hr). unfold signed_number. destruct r as [|c r'] eqn:Er.
  { cbn [Z.eqb]. change (0 =? 45) with false. cbn iota. rewrite (str_head _ _ _ Hr). done. }
  destruct (Z.eqb_spec c 45) as [->|Hc].
  - destruct (str_cons _ _ _ _ Hr) as (_ & _ & -> & Ht). rewrite alen_cons in Hrl.
    pose proof (number_spec _ _ _ Ht ltac:(lia)) as Hn. destruct (number r') as [[v rest']|]; [|by rewrite Hn].
    destruct Hn as [-> (q2 & -> & _)]. done.
  - pose proof (number_spec _ _ _ Hr ltac:(lia)) as Hn. destruct (number (c :: r')) as [[v rest']|]; [|by rewrite Hn].
    destruct Hn as [-> (q2 & -> & _)]. done.
Qed.

Lemma cmd_write_ran st s : line_is st s -> starts_with (text "write ") s = true ->
  ran s (Write (parse_write (drop 6 s))) st (cmd_write input_buffer str_fuel st).
Proof.
  intros Hl Hk. destruct (after_keyword st s _ Hl Hk) as (_ & Ea & Hs & Hlen & Hw). destruct Hl as (_ & Hl & _).
  change (alen (text "write ")) with 6 in *. change (length (text "write ")) with 6%nat in *.
  destruct (skip_spec _ _ _ Hs ltac:(lia)) as (Hp & Hpl & Hp1 & Hp2). unfold cmd_write, parse_write. rewrite Ea.
  set (p := skip_spaces _ _) in *. set (r := lstrip _) in *.
  destruct (scan_spec in_word line_fuel _ p r eq_refl Hp ltac:(unfold line_fuel; lia)) as [-> Hq].
  set (w := take_while in_word r) in *. pose proof (alen_while in_word r) as Hwl. fold w in Hwl. pose proof (alen_nonneg w).
  rewrite (str_head _ _ _ Hq). destruct (drop_in_word _ _ _ Hp) as [Er|[c Er]]; rewrite Er in *; [done|].
  change (32 =? 32) with true. cbn iota. rewrite alen_cons in Hwl. pose proof (alen_nonneg c).
  assert (Hcut : str (sh_mem st) p (w ++ 32 :: c)) by (unfold w; rewrite <- Er, take_drop_while; exact Hp).
  destruct (str_cut _ _ _ _ _ Hcut) as (C1 & C2 & C3). set (m := store8 _ _ 0) in *. destruct Hp as (_ & P0 & P1).
  rewrite (u32_id (p + alen w + 1)) by (unfold is_u32; lia).
  rewrite (with_string_at (set_sh_mem m st) p w) by (done || lia).
  rewrite (with_string_at (set_sh_mem m st) _ c) by (done || lia).
  exists m. split; [intros x Hx; apply C3; unfold range in Hx; lia|]. split; [intros Hm; by apply mem_bytes_store8|].
  by destruct (sh_fs _ (set_sh_mem m st)).
Qed.

(** A command whose argument is the rest of the line. *)
Lemma with_file w st s f : line_is st s -> starts_with (text w) s = true ->
  String.length w = length (text w) ->
  with_string str_fuel (input_buffer ⊕ alen (text w)) st f = f (drop (String.length w) s).
Proof.
  intros Hl Hk ->. destruct (after_keyword st s _ Hl Hk) as (_ & -> & Hs & Hlen & Hw). destruct Hl as (_ & Hl & _).
  apply with_string_at; [done|lia].
Qed.

(** The line is parsed as the list of its characters. *)
Lemma shell_command_ran st s : line_is st s ->
  ran s (parse s) st (shell_command L exec_stacks elf_staging input_buffer str_fuel st).
Proof.
  intros Hl. pose proof (line_str _ _ Hl) as Hs. unfold shell_command, parse.
  assert (Heq : forall w, Forall (fun c => c <> 0) (text w) ->
    (m_strcmp (sh_mem st) input_buffer (text w) =? 0) = bool_decide (s = text w))
    by (intros w Hw; by apply m_strcmp_spec).
  assert (Hst : forall w, Forall (fun c => c <> 0) (text w) -> length (text w) = String.length w ->
    (m_strncmp (sh_mem st) input_buffer (text w) (String.length w) =? 0) = starts_with (text w) s)
    by (intros w Hw <-; by apply m_strncmp_spec).
  assert (Hz : forall w, forallb (fun c => negb (c =? 0)) (text w) = true -> Forall (fun c => c <> 0) (text w)).
  { intros w Hw. rewrite forallb_forall in Hw. apply List.Forall_forall. intros c Hc. specialize (Hw c Hc).
    by destruct (Z.eqb_spec c 0). }
  rewrite !Heq, !Hst by ((apply Hz; reflexivity) || reflexivity). clear Heq Hst Hz.
  do 4 (destruct (bool_decide _); [reflexivity|]).
  destruct (starts_with (text "cat ") s) eqn:E; [exact (with_file "cat " st s _ Hl E eq_refl)|clear E].
  destruct (starts_with (text "rm ") s) eqn:E; [exact (with_file "rm " st s _ Hl E eq_refl)|clear E].
  destruct (starts_with (text "exec ") s) eqn:E; [by apply cmd_exec_ran|clear E].
  destruct (bool_decide _); [reflexivity|].
  destruct (starts_with (text "kill ") s) eqn:E; [by apply cmd_kill_ran|clear E].
  destruct (starts_with (text "priority ") s) eqn:E; [by apply cmd_priority_ran|clear E].
  destruct (starts_with (text "write ") s) eqn:E; [by apply cmd_write_ran|clear E].
  do 3 (destruct (bool_decide _); [reflexivity|]).
  destruct Hl as (_ & Hlen & ->). destruct s as [|c s']; [reflexivity|].
  rewrite (proj2 (Z.ltb_lt 0 _)) by (rewrite alen_cons; pose proof (alen_nonneg s'); lia).
  by rewrite (with_string_at _ _ (c :: s')) by (done || lia).
Qed.

(** ** Running the line *)
Context {laws : BlockDeviceLaws D} (disk_large : FS_DATA_END_LBA <= nsectors).

(** The state in which the command runs: the line is ended by a zero; if it is
    not empty it is the first of the at most eight commands of the history,
    and the history file holds them, the oldest first, unless there is no room
    for it; no navigation is under way; nothing else has changed but the
    console. *)
Record prepared st st1 : Prop := {
  pr_kernel : exists m out, ek (sys st1) = set_mem m (Sched.kprint out (ek (sys st))) /\
    agree_on (fun x => x <> input_buffer + buffer_idx st) (sh_mem st) m;
  pr_slots : slot_pid (sys st1) = slot_pid (sys st);
  pr_line : line_is st1 (line input_buffer st);
  pr_wf : fs_wf (efs (sys st1));
  pr_files nm : good_name nm -> nm <> HISTORY_FILE -> lookup_file (efs (sys st1)) nm = lookup_file (efs (sys st)) nm;
  pr_nav : history_nav st1 = -1;
  pr_history : commands st1 =
    if buffer_idx st =? 0 then commands st else take 8 (line input_buffer st :: commands st);
  pr_saved : let file := lookup_file (efs (sys st1)) HISTORY_FILE in
    let t := take 2047 (joined (reverse (commands st1))) in
    if buffer_idx st =? 0 then file = lookup_file (efs (sys st)) HISTORY_FILE
    else file = Some (padded t (alen t)) \/ no_room (efs (sys st1)) ((alen t + 511) / 512);
}.

(** The line in memory, once ended. *)
Lemma line_holds st m : edit_ok input_buffer st ->
  m = store8 (sh_mem st) (input_buffer ⊕ buffer_idx st) 0 ->
  holds m input_buffer (line input_buffer st) /\ alen (line input_buffer st) = buffer_idx st /\
  agree_on (fun x => x <> input_buffer + buffer_idx st) (sh_mem st) m.
Proof.
  intros Hok ->. pose proof (eo_idx _ _ Hok) as Hi. assert (Hl : alen (line input_buffer st) = buffer_idx st) by (apply alen_build; lia).
  assert (Est : forall x, store8 (sh_mem st) (input_buffer ⊕ buffer_idx st) 0 x =
    if x =? input_buffer + buffer_idx st then 0 else sh_mem st x).
  { intros x. unfold store8. rewrite u32_idemp, u32_id by (unfold is_u32; lia). done. }
  split_and!; [split|done|].
  - intros i Hb. rewrite alen_snoc, Hl in Hb. rewrite Est. destruct (Z.eqb_spec (input_buffer + i) (input_buffer + buffer_idx st)).
    + rewrite arr_get_app_r by lia. by replace (i - alen (line input_buffer st)) with 0 by lia.
    + rewrite arr_get_app_l by lia. unfold line. rewrite build_get by lia. unfold input_char, load8.
      by rewrite u32_idemp, u32_id by (unfold is_u32; lia).
  - eapply Forall_impl; [apply (eo_line _ _ Hok)|]. by intros c (_ & Hc & _).
  - intros x Hx. rewrite Est. by rewrite (proj2 (Z.eqb_neq _ _)).
Qed.

Lemma shell_prepared st : edit_ok input_buffer st -> fs_wf (efs (sys st)) ->
  let st1 := set_input_char input_buffer (buffer_idx st) 0 (sh_print newline st) in
  let st2 := if 0 <? buffer_idx st then history_save (history_push (input_char input_buffer st1) (buffer_idx st) st1) else st1 in
  prepared st (set_history_nav (-1) st2).
Proof.
  intros Hok Hwf st1 st2. pose proof (eo_idx _ _ Hok) as Hi.
  destruct (line_holds st (sh_mem st1) Hok eq_refl) as (Hh & Hl & Hag).
  unfold st2. destruct (Z.ltb_spec 0 (buffer_idx st)) as [Hpos|Hz].
  2:{ assert (E0 : buffer_idx st = 0) by lia. split; rewrite ?E0; try done.
      - exists (sh_mem st1), newline. split; [done|by rewrite <- E0].
      - split_and!; [exact Hh|lia|by rewrite Hl]. }
  set (st3 := history_push _ _ st1).
  assert (Hl1 : line input_buffer st1 = line input_buffer st).
  { unfold line. change (buffer_idx st1) with (buffer_idx st). apply build_ext_range; [lia|]. intros i Hb.
    unfold input_char, load8. rewrite !u32_idemp, !u32_id by (unfold is_u32; lia). apply Hag. lia. }
  assert (Hok1 : edit_ok input_buffer st1) by (split; try apply Hok; rewrite Hl1; apply Hok).
  assert (Hcmd : command (line input_buffer st)) by (split; [apply Hok|lia]).
  assert (E3 : st3 = push_cmd st1 (line input_buffer st)).
  { unfold st3, push_cmd. rewrite Hl. apply history_push_ext. intros k Hk. rewrite <- Hl1. unfold line.
    by rewrite build_get. }
  destruct (push_cmd_ok input_buffer st1 _ Hok1 Hcmd) as [Hok3 Hc3]. rewrite <- E3 in Hok3, Hc3.
  destruct (history_save_ok input_buffer disk_large st3 Hok3) as (Hwf3 & _ & Hsaved & Hother & out & Hsys).
  { exact Hwf. }
  { rewrite Hc3. cbn [take]. rewrite alen_cons. pose proof (alen_nonneg (take 7 (commands st1))). lia. }
  change (sys st3) with (sys st1) in Hsys, Hother.
  destruct (history_save_vars st3) as (Hs3 & _ & _ & _ & Hb3).
  assert (Hc4 : commands (set_history_nav (-1) (history_save st3)) = take 8 (line input_buffer st :: commands st)).
  { transitivity (commands st3); [|exact Hc3]. apply commands_same. exact Hs3. }
  split; rewrite ?(proj2 (Z.eqb_neq (buffer_idx st) 0)) by lia; cbn [sys set_history_nav buffer_idx].
  - exists (sh_mem st1), (newline ++ out). split; [|exact Hag]. rewrite Hsys. unfold st1, Sched.kprint, set_mem. cbn.
    by rewrite <- app_assoc.
  - by rewrite Hsys.
  - unfold line_is, sh_mem. cbn [sys set_history_nav buffer_idx]. rewrite Hb3, Hsys. split_and!; [exact Hh|lia|done].
  - exact Hwf3.
  - intros nm Hn Hne. by rewrite Hother.
  - done.
  - exact Hc4.
  - cbv zeta. rewrite Hc4. change (take 8 (line input_buffer st :: commands st)) with (take 8 (line input_buffer st :: commands st1)).
    rewrite <- Hc3. rewrite (history_text_spec input_buffer st3 Hok3) in Hsaved. exact Hsaved.
Qed.

(** Only three commands depend on what the memory holds besides the line. *)
Lemma ran_stuck s c st : ran s c st Stuck -> c = Ps \/ c = Mem \/ exists args, c = Exec args.
Proof.
  destruct c as [| | | | | |[|w ws]| |[pid|]|[[pid level]|]|[[nm content]|]| | | | |]; cbn [ran]; eauto; try done.
  by intros (m & _ & _ & E).
Qed.

(** C32: a command line is executed as its parse says.  The line is terminated
    and, unless it is empty, becomes the first of the last eight commands, which
    are saved in the history file if there is room for it; then the command
    that a parser on lists of characters reads in the line is run, with its
    arguments: file names and contents, the at most eight words given to
    [exec_run] as C strings inside the line, process numbers and signed
    priority levels; an unknown command is reported, and the shell prints its
    prompt.  Only [exec], [ps] and [mem], whose loops follow pointers in
    memory, may fail to come back ([ShellSafe] says when they do not). *)
Theorem shell_execute_correct st : edit_ok input_buffer st -> fs_wf (efs (sys st)) ->
  exists st1 r, prepared st st1 /\ ran (line input_buffer st) (parse (line input_buffer st)) st1 r /\
    shell_execute L exec_stacks elf_staging input_buffer str_fuel st =
      match r with
      | Prompt st' => Prompt (set_buffer_idx 0 (sh_print (newline ++ prompt) st'))
      | e => e
      end /\
    (r = Stuck -> parse (line input_buffer st) = Ps \/ parse (line input_buffer st) = Mem \/
       exists args, parse (line input_buffer st) = Exec args).
Proof.
  intros Hok Hwf. pose proof (shell_prepared st Hok Hwf) as Hp. cbn zeta in Hp.
  match type of Hp with prepared _ ?s => exists s, (shell_command L exec_stacks elf_staging input_buffer str_fuel s) end.
  pose proof (shell_command_ran _ _ (pr_line _ _ Hp)) as Hr.
  split; [exact Hp|]. split; [exact Hr|]. split; [|intros E; rewrite E in Hr; by apply ran_stuck in Hr]. unfold shell_execute.
  change (buffer_idx (set_input_char input_buffer (buffer_idx (sh_print newline st)) 0 (sh_print newline st))) with (buffer_idx st).
  change (buffer_idx (sh_print newline st)) with (buffer_idx st). by destruct (shell_command _ _ _ _ _ _).
Qed.
End commands.
