(* ===== verification/ShellSafe.v ===== *)
(** * The shell keeps the system's invariants

    Every command that can be typed comes back to the prompt (or resets the
    machine) and keeps the invariants of the kernel, of the file system and of
    the line editor. *)
From Stdlib Require Import String.
From stdpp Require Import base numbers list list_numbers.
From S2P Require Import Prelude Machine Heap BlockDev Fs FsData FsProofs FsProps Paging Pit Sched SchedProps Frames SchedInv Elf Keyboard Screen Exec Shell ShellEdit ShellCmd.

(** ** The pieces of a line *)

Lemma typed_good s : Forall typed s -> s <> [] -> good_name s.
Proof.
  intros Hs Hn. split; [done|]. split; (eapply Forall_impl; [exact Hs|]); by intros c (H1 & H2 & _).
Qed.

Lemma typed_bytes s : Forall typed s -> Forall is_byte s.
Proof. intros Hs. eapply Forall_impl; [exact Hs|]. by intros c (H1 & _). Qed.

Lemma typed_while f s : Forall typed s -> Forall typed (take_while f s) /\ Forall typed (drop_while f s).
Proof. intros Hs. rewrite <- (take_drop_while f s) in Hs. by apply Forall_app in Hs. Qed.

Lemma words_typed n s : Forall typed s -> Forall (Forall typed) (words n s).
Proof.
  revert s. induction n as [|n IH]; intros s Hs; cbn [words]; [done|]. destruct s as [|c s]; [done|].
  destruct (typed_while in_word _ Hs) as [H1 H2]. constructor; [done|]. apply IH. by apply typed_while.
Qed.

Lemma words_length n s : (length (words n s) <= n)%nat.
Proof. revert s. induction n as [|n IH]; intros [|c s]; cbn [words length]; [lia..|]. specialize (IH (lstrip (drop_while in_word (c :: s)))). lia. Qed.

(** The first word is not empty. *)
Lemma words_head n s w ws : Forall typed s -> words n (lstrip s) = w :: ws -> w <> [].
Proof.
  destruct n as [|n]; cbn [words]; [done|]. intros Hs. destruct (lstrip s) as [|c r] eqn:E; [done|].
  intros [= <- _]. cbn [take_while]. assert (Hc : c <> 32 /\ c <> 0).
  { assert (Ht : Forall typed (lstrip s)) by (by apply typed_while). rewrite E in Ht. apply Forall_cons in Ht as [(_ & Hz & _) _].
    split; [|done]. clear Hs. revert E. unfold lstrip. induction s as [|d s IH]; cbn [drop_while]; [done|].
    unfold is_space at 1. destruct (Z.eqb_spec d 32); [exact IH|]. by intros [= -> _]. }
  unfold in_word. by rewrite (proj2 (Z.eqb_neq c 0)), (proj2 (Z.eqb_neq c 32)) by apply Hc.
Qed.

(** The level of a priority command is an [int]. *)
Lemma number_range s v rest : number s = Some (v, rest) -> is_s32 v.
Proof.
  assert (Hf : forall ds v, is_s32 v -> is_s32 (fold_left (fun v c => s32 (v * 10 + (c - 48))) ds v)).
  { intros ds. induction ds as [|d ds IH]; intros w Hw; [done|]. apply IH, s32_range. }
  unfold number. destruct (take_while is_digit s) as [|d ds]; [done|]. intros [= <- _]. apply Hf, s32_range.
Qed.

Lemma priority_level s pid level : parse_priority s = Some (pid, level) -> is_s32 level.
Proof.
  unfold parse_priority. destruct (number (lstrip s)) as [[p t]|]; [|done]. unfold signed_number.
  destruct (lstrip t) as [|c u]; [done|]. destruct (c =? 45).
  - destruct (number u) as [[v w]|]; [|done]. intros [= _ <-]. apply s32_range.
  - destruct (number (c :: u)) as [[v w]|] eqn:E; [|done]. intros [= _ <-]. by eapply number_range.
Qed.

(** A zero written in a string only shortens it. *)
Lemma string_at_cut n m p a s : string_at n m a = Some s -> exists s', string_at n (store8 m p 0) a = Some s'.
Proof.
  revert a s. induction n as [|n IH]; intros a s; cbn [string_at]; [done|].
  destruct (load8 (store8 m p 0) a =? 0) eqn:E0; [by eexists|].
  assert (E : load8 (store8 m p 0) a = load8 m a).
  { unfold load8, store8 in *. destruct (_ =? u32 p); [|done]. done. }
  rewrite E in *. rewrite E0. destruct (string_at n m (a ⊕ 1)) as [t|] eqn:Et; [|done].
  intros _. destruct (IH _ _ Et) as (t' & ->). by eexists.
Qed.

Section safe.
Context {D : Type} `{BlockDeviceLaws D}.
Context (disk_large : FS_DATA_END_LBA <= nsectors).
Implicit Types st : shell D.

(** ** The file system under the shell *)

(** The operation keeps the files well-formed. *)
Definition keeps_files {A} (op : M (fs D) A) : Prop := forall f, fs_wf f -> fs_wf (op f).2.

Lemma keeps_sh_fs {A} (op : M (fs D) A) st : keeps_files op -> fs_wf (efs (sys st)) ->
  exists out, sys (sh_fs op st).2 = mkExec (Sched.kprint out (ek (sys st))) (efs (sys (sh_fs op st).2)) (slot_pid (sys st)) /\
    fs_wf (efs (sys (sh_fs op st).2)).
Proof.
  intros Hop Hwf. unfold sh_fs, on_fs.
  specialize (Hop (mkFs (root (efs (sys st))) (bitmap (efs (sys st))) (dev (efs (sys st))) []) (fs_wf_console _ _ Hwf)).
  destruct (op _) as [a f']. by eexists.
Qed.

Lemma keeps_list : keeps_files fs_list.
Proof.
  assert (Hfrom : forall n i (f : fs D), exists c, (fs_list_from n i f).2 = mkFs (root f) (bitmap f) (dev f) c).
  { intros n. induction n as [|n IH]; intros i f; cbn [fs_list_from]; [exists (Fs.console f); by destruct f|].
    unfold bind at 1, gets. unfold bind at 1, when. destruct (valid_name _).
    - unfold bind, Fs.kprint, modify. match goal with |- context [fs_list_from n (i + 1) ?s] => destruct (IH (i + 1) s) as [c ->] end.
      by eexists.
    - unfold ret. destruct (IH (i + 1) f) as [c ->]. by eexists. }
  intros f Hwf. unfold fs_list, bind, kprint_line, Fs.kprint, modify.
  match goal with |- context [fs_list_from ?n ?i ?s] => destruct (Hfrom n i s) as [c ->] end. by destruct Hwf; split.
Qed.

Lemma keeps_read nm : Forall typed nm -> keeps_files (fs_read_file (Some nm)).
Proof.
  intros Hn f Hwf. destruct nm as [|c nm]; [by apply fs_wf_console|].
  destruct (fs_read_file_ok disk_large f (c :: nm) Hwf) as (d & Hd & ->); [by apply typed_good|].
  by apply (same_files_wf f); [split_and!|].
Qed.

Lemma keeps_delete nm : Forall typed nm -> keeps_files (fs_delete_file (Some nm)).
Proof.
  intros Hn f Hwf. destruct nm as [|c nm]; [by apply fs_wf_console|].
  destruct (fs_delete_file_ok disk_large f (c :: nm) true Hwf) as (f' & E & Hwf' & _); [by apply typed_good|].
  unfold fs_delete_file. by rewrite E.
Qed.

Lemma keeps_write nm c : Forall typed nm -> alen nm <= 23 -> Forall typed c -> alen c <= 255 ->
  keeps_files (fs_write_file (Some nm) (Some c) (alen c)).
Proof.
  intros Hn Hl Hc Hcl f Hwf. unfold fs_write_file. destruct nm as [|d nm]; [by apply fs_wf_console|].
  destruct (decide (alen c = 0)) as [E|E].
  { unfold fs_write_file_impl. rewrite name_arg_good by (by apply typed_good). rewrite (proj2 (Z.eqb_eq (alen c) 0)) by done.
    by apply fs_wf_console. }
  pose proof (alen_nonneg c).
  destruct (fs_write_file_ok disk_large f (d :: nm) c (alen c) true Hwf) as (r & f' & -> & Hwf' & _);
    [by apply typed_good|done|by apply typed_bytes|lia|lia|done].
Qed.

(** ** The system *)
Context (L : Layout) (exec_stacks elf_staging input_buffer total task_exit_at : Z) (str_fuel : nat).
Context (layout_fine : layout_ok L).
Context (buffer_range : 0 <= input_buffer /\ input_buffer + 256 <= 4294967296).
Context (fuel_enough : (256 <= str_fuel)%nat) (fuel_range : Z.of_nat str_fuel <= 2147483648).

(** The invariants of the components, and where the linker put the line. *)
Record system_ok st (bs : list block) (sp : spaces) : Prop := {
  so_kernel : kernel_wf L total (ek (sys st)) bs sp;
  so_files : fs_wf (efs (sys st));
  so_edit : edit_ok input_buffer st;
  so_slots : alen (slot_pid (sys st)) = 4;
  so_bytes : mem_bytes (sh_mem st);
  so_layout : exec_layout exec_stacks elf_staging total (heap_start (ek (sys st)));
  so_low : input_buffer + 256 <= heap_start (ek (sys st));
  so_staging : input_buffer + 256 <= elf_staging \/ elf_staging + 131072 <= input_buffer;
  so_stacks : input_buffer + 256 <= exec_stacks \/ exec_stacks + 16384 <= input_buffer;
}.

(** What some commands need: a program that the loader handles safely, a
    name that fits in the directory, and strings as the names of the tasks. *)
Definition names_ok (k : kernel) : Prop := forall i, 0 <= i < 16 -> active (task k i) = true ->
  Sched.name (task k i) = 0 \/ exists s, string_at str_fuel (mem k) (Sched.name (task k i)) = Some s.
Definition allowed (c : cmd) st : Prop :=
  match c with
  | Exec (nm :: _) => nm <> HISTORY_FILE /\
      forall img, lookup_file (efs (sys st)) nm = Some img -> safe_image elf_staging img
  | Write (Some (nm, _)) => alen nm <= 23
  | Ps => names_ok (ek (sys st))
  | _ => True
  end.

Definition sound (hs : Z) (e : exec D) : Prop :=
  kernel_fine L total hs (ek e) /\ fs_wf (efs e) /\ alen (slot_pid e) = 4.
Definition came_back (hs : Z) (c : cmd) (r : ended D) : Prop :=
  match r with Prompt st => sound hs (sys st) | Rebooting _ => c = Reboot | Stuck => False end.

Lemma sound_print hs e t : sound hs e -> sound hs (exec_print t e).
Proof. intros (Hk & Hf). split; [by apply kernel_fine_print|done]. Qed.

Lemma sound_fs {A} (op : M (fs D) A) hs st : sound hs (sys st) -> keeps_files op -> sound hs (sys (sh_fs op st).2).
Proof.
  intros (Hk & Hf & Hs) Hop. destruct (keeps_sh_fs op st Hop Hf) as (out & E & Hwf).
  split; [|split; [exact Hwf|by rewrite E]]. rewrite E. by apply kernel_fine_print.
Qed.

Lemma fine_op hs k k' : kernel_fine L total hs k -> kernel_op L task_exit_at k k' -> kernel_fine L total hs k'.
Proof.
  intros (Hk & Hhs & Hm) Hop. pose proof Hk as (bs & sp & Hwf). destruct (kernel_op_memory _ _ _ _ _ _ _ Hwf Hop) as (H1 & H2 & _).
  split; [by eapply kernel_op_wf|]. split; [congruence|auto].
Qed.

Lemma sound_kernel hs e k : sound hs e -> kernel_op L task_exit_at (ek e) k -> sound hs (set_ek k e).
Proof. intros (Hk & Hf & Hs) Hop. split; [by eapply fine_op|done]. Qed.

(** A write outside the heap. *)
Lemma fine_write hs k m : kernel_fine L total hs k -> mem_bytes m ->
  agree_on (range hs total) (mem k) m -> kernel_fine L total hs (set_mem m k).
Proof.
  intros ((bs & sp & Hk) & <- & _) Hm Hag. split; [|done]. exists bs, sp.
  pose proof (wf_outside_heap L total k bs sp [] m Hk Hag) as Hk'. by destruct Hk'; split.
Qed.

(** A write to the line. *)
Lemma sound_line hs st m : sound hs (sys st) -> input_buffer + 256 <= hs -> mem_bytes m ->
  agree_on (fun x => ~ range input_buffer 256 x) (sh_mem st) m -> sound hs (sys (set_sh_mem m st)).
Proof.
  intros (Hk & Hf & Hs) Hlow Hm Hag. split; [|done]. apply fine_write; [done..|].
  eapply agree_on_weaken; [|exact Hag]. unfold range. lia.
Qed.

Lemma prepared_sound st st1 bs sp : system_ok st bs sp -> prepared input_buffer st st1 ->
  sound (heap_start (ek (sys st))) (sys st1) /\ mem_bytes (sh_mem st1) /\ heap_start (ek (sys st1)) = heap_start (ek (sys st)) /\
  kernel_wf L total (ek (sys st1)) bs sp.
Proof.
  intros Hso Hp. pose proof (eo_idx _ _ (so_edit _ _ _ Hso)) as Hi. pose proof (so_low _ _ _ Hso) as Hlow.
  destruct (pr_kernel _ _ _ Hp) as (m & out & Ek & Hag).
  assert (Hk : kernel_wf L total (ek (sys st1)) bs sp).
  { rewrite Ek. apply wf_outside_heap; [apply Hso|]. eapply agree_on_weaken; [|exact Hag]. unfold range. lia. }
  assert (Hm1 : sh_mem st1 = m) by (unfold sh_mem; by rewrite Ek).
  assert (Hbytes : mem_bytes (sh_mem st1)).
  { rewrite Hm1. intros x. destruct (decide (x = input_buffer + buffer_idx st)) as [->|Hx]; [|rewrite Hag by done; apply Hso].
    destruct (pr_line _ _ _ Hp) as ([Hb _] & _ & _). rewrite Hm1 in Hb.
    assert (Hl : alen (line input_buffer st) = buffer_idx st) by (apply alen_build; lia).
    rewrite Hb by (rewrite alen_snoc; lia). rewrite arr_get_app_r by lia. rewrite Hl, Z.sub_diag. done. }
  assert (Hhs : heap_start (ek (sys st1)) = heap_start (ek (sys st))) by (by rewrite Ek).
  split; [|done]. split; [split; [by eauto|done]|]. split; [apply Hp|]. rewrite (pr_slots _ _ _ Hp). exact (so_slots _ _ _ Hso).
Qed.

(** Listing the tasks. *)
Lemma dump_tasks_total n i k : 0 <= i -> i + Z.of_nat n <= 16 -> names_ok k ->
  exists t, dump_tasks_from str_fuel n i k = Some t.
Proof.
  intros Hi Hn Hk. revert i Hi Hn. induction n as [|n IH]; intros i Hi Hn; cbn [dump_tasks_from]; [by eexists|].
  destruct (IH (i + 1) ltac:(lia) ltac:(lia)) as (t & Et). destruct (active (task k i)) eqn:Ea; cbn [negb]; [|by eexists].
  rewrite Et. destruct (Hk i ltac:(lia) Ea) as [->|(s & Hs)]; [by eexists|].
  destruct (_ =? 0); [by eexists|]. rewrite Hs. by eexists.
Qed.

(** Zeroes in the line do not make the names longer. *)
Lemma names_prepared st st1 : prepared input_buffer st st1 -> edit_ok input_buffer st ->
  names_ok (ek (sys st)) -> names_ok (ek (sys st1)).
Proof.
  intros Hp Hok Hn i Hi. destruct (pr_kernel _ _ _ Hp) as (m & out & Ek & Hag).
  pose proof (eo_idx _ _ Hok) as Hidx. intros Ha. assert (Ht : task (ek (sys st1)) i = task (ek (sys st)) i) by (by rewrite Ek).
  rewrite Ht in *. destruct (Hn i Hi Ha) as [E|(s & Hs)]; [by left|right].
  destruct (string_at_cut _ _ (input_buffer + buffer_idx st) _ _ Hs) as (s' & Hs'). exists s'. rewrite <- Hs'. rewrite Ek. cbn [mem set_mem].
  assert (Hm : forall a, load8 m a = load8 (store8 (sh_mem st) (input_buffer + buffer_idx st) 0) a).
  { intros a. unfold load8, store8. rewrite (u32_id (input_buffer + buffer_idx st)) by (unfold is_u32; lia).
    destruct (Z.eqb_spec (u32 a) (input_buffer + buffer_idx st)) as [E|E]; [|by apply Hag]. rewrite E.
    destruct (pr_line _ _ _ Hp) as ([Hb _] & _ & _).
    assert (Hm1 : sh_mem st1 = m) by (unfold sh_mem; by rewrite Ek). rewrite Hm1 in Hb.
    assert (Hl : alen (line input_buffer st) = buffer_idx st) by (apply alen_build; lia).
    rewrite Hb by (rewrite alen_snoc; lia). rewrite arr_get_app_r by lia. by rewrite Hl, Z.sub_diag. }
  clear Hs Hs'. generalize (Sched.name (task (ek (sys st)) i)). clear -Hm. induction str_fuel as [|n IH]; intros a; cbn [string_at]; [done|].
  rewrite Hm. by rewrite IH.
Qed.

(** Starting a program from the line. *)
Lemma exec_from_line st st1 bs sp nm ws argv m : system_ok st bs sp -> prepared input_buffer st st1 ->
  Forall (Forall typed) (nm :: ws) -> nm <> [] -> alen (nm :: ws) <= 8 ->
  nm <> HISTORY_FILE -> (forall img, lookup_file (efs (sys st)) nm = Some img -> safe_image elf_staging img) ->
  split_at m input_buffer (line input_buffer st) (nm :: ws) argv ->
  agree_on (fun x => ~ range input_buffer (alen (line input_buffer st)) x) (sh_mem st1) m ->
  (mem_bytes (sh_mem st1) -> mem_bytes m) ->
  exists r e, exec_run L exec_stacks elf_staging str_fuel argv.[0] (alen (nm :: ws)) argv (sys (set_sh_mem m st1)) = Some (r, e) /\
    sound (heap_start (ek (sys st))) e.
Proof.
  intros Hso Hp Hty Hne Hlen Hh Himg [Hal Hsp] Hag Hmb.
  destruct (prepared_sound _ _ _ _ Hso Hp) as (Hs1 & Hm1 & Hhs & Hk1). pose proof (so_low _ _ _ Hso) as Hlow.
  assert (Hll : alen (line input_buffer st) <= 255).
  { pose proof (eo_idx _ _ (so_edit _ _ _ Hso)). unfold line. rewrite alen_build by lia. lia. }
  apply Forall_cons in Hty as [Hnm Hws]. pose proof (typed_good _ Hnm Hne) as Hgood.
  assert (Hag' : agree_on (fun x => ~ range input_buffer 256 x) (sh_mem st1) m).
  { eapply agree_on_weaken; [|exact Hag]. unfold range. lia. }
  assert (Hks : forall j, 0 <= j < alen (nm :: ws) ->
    kernel_string exec_stacks elf_staging str_fuel (heap_start (ek (sys st))) m argv.[j] (nm :: ws).[j]).
  { intros j Hj. destruct (Hsp j Hj) as ((Hhold & J0 & J1) & J2 & J3). pose proof (alen_nonneg (nm :: ws).[j]).
    pose proof (so_staging _ _ _ Hso). pose proof (so_stacks _ _ _ Hso).
    unfold kernel_string. split; [exact Hhold|]. lia. }
  assert (Hkm : kernel_wf L total (ek (sys (set_sh_mem m st1))) bs sp).
  { pose proof (wf_outside_heap L total (ek (sys st1)) bs sp [] m Hk1) as Hw.
    assert (Hk' : kernel_wf L total (set_mem m (Sched.kprint [] (ek (sys st1)))) bs sp).
    { apply Hw. eapply agree_on_weaken; [|exact Hag']. rewrite Hhs. unfold range. lia. }
    by destruct Hk'; split. }
  assert (Hr : exec_ready exec_stacks elf_staging total str_fuel (sys (set_sh_mem m st1)) argv.[0] argv nm (nm :: ws)).
  { split; cbn [sys set_sh_mem set_sys ek set_ek heap_start set_mem mem efs slot_pid]; rewrite ?Hhs.
    - apply (so_layout _ _ _ Hso).
    - by apply Hmb.
    - apply Hs1.
    - apply Hp.
    - done.
    - specialize (Hks 0). rewrite arr_get_cons_0 in Hks. apply Hks. rewrite alen_cons. pose proof (alen_nonneg ws). lia.
    - exact Hks.
    - lia.
    - intros img. rewrite (pr_files _ _ _ Hp) by done. apply Himg. }
  destruct (exec_run_ok L exec_stacks elf_staging total str_fuel fuel_range disk_large _ _ _ _ _ bs sp layout_fine Hkm Hr)
    as (r & e & E & Hwf & Er & Eb & Ed & _ & Hcase).
  exists r, e. split; [exact E|]. split; [by rewrite <- Hhs|]. split.
  - eapply (same_files_wf (efs (sys st1))); [by split_and!|apply Hp].
  - destruct Hcase as [(_ & -> & _)|(slot & c & entry & m' & _ & _ & _ & -> & _)]; [apply Hs1|].
    rewrite alen_arr_set. apply Hs1.
Qed.

Lemma command_came_back st st1 bs sp r : system_ok st bs sp -> prepared input_buffer st st1 ->
  allowed (parse (line input_buffer st)) st ->
  ran L exec_stacks elf_staging input_buffer str_fuel (line input_buffer st) (parse (line input_buffer st)) st1 r ->
  came_back (heap_start (ek (sys st))) (parse (line input_buffer st)) r.
Proof.
  intros Hso Hp. destruct (prepared_sound _ _ _ _ Hso Hp) as (Hs1 & Hm1 & Hhs & Hk1). pose proof (so_low _ _ _ Hso) as Hlow.
  assert (Hll : alen (line input_buffer st) <= 255).
  { pose proof (eo_idx _ _ (so_edit _ _ _ Hso)). unfold line. rewrite alen_build by lia. lia. }
  pose proof (eo_line _ _ (so_edit _ _ _ Hso)) as Hty. set (s := line input_buffer st) in *.
  assert (Hd : forall k, Forall typed (drop k s)) by (intros k; by apply Forall_drop).
  unfold parse. set (c := if bool_decide (s = text "help") then _ else _).
  assert (Hc : match c with
    | Cat nm | Rm nm => Forall typed nm
    | Exec ws => Forall (Forall typed) ws /\ alen ws <= 8 /\ (forall w ws', ws = w :: ws' -> w <> [])
    | Write (Some (nm, t)) => Forall typed nm /\ Forall typed t /\ alen t <= 255
    | Priority (Some (_, level)) => is_s32 level
    | _ => True end).
  { unfold c. repeat match goal with |- context [if ?b then _ else _] => destruct b end; try done; try apply Hd.
    2:{ destruct (parse_priority _) as [[pid level]|] eqn:Ep; [|done]. by eapply priority_level. }
    - split_and!; [apply words_typed; by apply typed_while|unfold alen; match goal with |- context [words 8 ?l] => pose proof (words_length 8 l) end; lia|].
      intros w ws' E. by apply (words_head 8 (drop 5 s) _ ws').
    - unfold parse_write. cbn [String.length]. pose proof (Hd 6%nat) as H6. assert (H6l : Forall typed (lstrip (drop 6 s))) by (by apply typed_while).
      destruct (typed_while in_word _ H6l) as [T1 T2]. pose proof (alen_while in_word (lstrip (drop 6 s))) as A1.
      pose proof (alen_while is_space (drop 6 s)) as A2. fold (lstrip (drop 6 s)) in A2.
      pose proof (alen_nonneg (take_while in_word (lstrip (drop 6 s)))). pose proof (alen_nonneg (take_while is_space (drop 6 s))).
      destruct (drop_while in_word (lstrip (drop 6 s))) as [|d t]; [done|]. apply Forall_cons in T2 as [_ T2].
      rewrite alen_cons in A1. assert (alen (drop 6 s) <= alen s) by (unfold alen; rewrite length_drop; lia). split_and!; [done|done|lia]. }
  clearbody c. destruct c as [| | | |nm|nm|[|w ws]| |[pid|]|[[pid level]|]|[[nm t]|]| | | | |]; cbn [ran allowed]; intros Hall Hran;
    try (subst r; cbn [came_back]; by apply sound_print); try (by subst r).
  - subst r. apply sound_fs; [done|apply keeps_list].
  - subst r. apply sound_fs; [done|by apply keeps_read].
  - subst r. apply sound_fs; [done|by apply keeps_delete].
  - destruct Hran as (argv & m & Hsp & Hag & Hmb & ->). destruct Hc as (C1 & C2 & C3). destruct Hall as [A1 A2].
    destruct (exec_from_line st st1 bs sp w ws argv m) as (r' & e & -> & Hs); try done. by eapply C3.
  - subst r. unfold sched_dump_tasks. destruct (dump_tasks_total (Z.to_nat MAX_TASKS) 0 (ek (sys st1))) as (t & ->);
      [lia|by vm_compute| |by apply sound_print]. eapply names_prepared; [done|apply Hso|done].
  - subst r. cbn [came_back]. apply sound_print. apply (sound_kernel _ (sys st1)); [done|apply op_kill].
  - subst r. cbn [came_back]. apply sound_print. apply (sound_kernel _ (sys st1)); [done|by apply op_priority, Hc].
  - destruct Hran as (m & Hag & Hmb & ->). destruct Hc as (C1 & C2 & C3). cbn [came_back].
    apply sound_fs; [|by apply keeps_write]. apply sound_line; [done|done|by apply Hmb|].
    eapply agree_on_weaken; [|exact Hag]. unfold range. lia.
  - subst r. unfold cmd_mem. pose proof (heap_stats_ok _ _ _ _ (kw_heap _ _ _ _ _ Hk1)) as [E _].
    unfold sh_mem. rewrite E. by apply sound_print.
Qed.

Lemma shell_execute_ok st bs sp : system_ok st bs sp -> allowed (parse (line input_buffer st)) st ->
  match shell_execute L exec_stacks elf_staging input_buffer str_fuel st with
  | Prompt st' => (exists bs' sp', system_ok st' bs' sp') /\ line input_buffer st' = [] /\
      heap_start (ek (sys st')) = heap_start (ek (sys st))
  | Rebooting _ => parse (line input_buffer st) = Reboot
  | Stuck => False
  end.
Proof.
  intros Hso Hall. pose proof (so_edit _ _ _ Hso) as Hok.
  pose proof (shell_prepared input_buffer str_fuel buffer_range fuel_enough disk_large st Hok (so_files _ _ _ Hso)) as Hp. cbn zeta in Hp.
  pose proof (fun st' => enter_step L exec_stacks elf_staging input_buffer str_fuel buffer_range st st' Hok) as Hent.
  unfold shell_execute in *. match type of Hp with prepared _ _ ?s => set (st1 := s) in * end.
  change (buffer_idx (set_input_char input_buffer (buffer_idx (sh_print newline st)) 0 (sh_print newline st))) with (buffer_idx st) in *.
  change (buffer_idx (sh_print newline st)) with (buffer_idx st) in *. fold st1 in Hent |- *.
  pose proof (shell_command_ran L exec_stacks elf_staging input_buffer str_fuel buffer_range fuel_enough st1 _ (pr_line _ _ _ Hp)) as Hran.
  pose proof (command_came_back _ _ _ _ _ Hso Hp Hall Hran) as Hcb.
  destruct (shell_command _ _ _ _ _ st1) as [st2|st2|]; [|done|done]. cbn [came_back] in Hcb.
  destruct (Hent _ eq_refl) as [Hok' He]. apply (sound_print _ _ (newline ++ prompt)) in Hcb as (((bs' & sp' & Hk) & Hhs & Hm) & Hf & Hs).
  split; [|done]. exists bs', sp'. destruct Hso. split; try done; change (ek (sys _)) with (ek (exec_print (newline ++ prompt) (sys st2))); by rewrite Hhs.
Qed.

(** C33: an allowed command line comes back.  The shell does not check
    everything its commands need; [allowed] says it: for [exec], a file other
    than the history whose image the loader handles safely ([safe_image]); for
    [write], a name of at most 23 characters; for [ps], strings as the names of
    the tasks; nothing for the others.  From a state where the invariants of
    the kernel, of the file system and of the line editor hold, running such a
    line never gets stuck: it ends at the prompt with all the invariants
    holding again (so that the next command line finds them), or resets the
    machine, which only [reboot] does. *)
Theorem shell_execute_safe st bs sp : system_ok st bs sp -> allowed (parse (line input_buffer st)) st ->
  match shell_execute L exec_stacks elf_staging input_buffer str_fuel st with
  | Prompt st' => (exists bs' sp', system_ok st' bs' sp') /\ line input_buffer st' = [] /\
      heap_start (ek (sys st')) = heap_start (ek (sys st))
  | Rebooting _ => parse (line input_buffer st) = Reboot
  | Stuck => False
  end.
Proof. apply shell_execute_ok. Qed.
End safe.

(** ** A concrete command: [exec hello un] *)

Definition demo_command : list Z := text "exec hello un".
Definition command_memory : memory := fun x =>
  if (8192 <=? x) && (x <? 8192 + 13) then demo_command.[x - 8192] else demo_line x.
Definition command_exec : exec ramdisk :=
  mkExec (set_mem command_memory (Sched.kprint [] (ek demo_exec))) demo_fs (slot_pid demo_exec).
Definition command_shell : shell ramdisk := set_buffer_idx 13 (fresh_shell command_exec).

Lemma command_mem : sh_mem command_shell = command_memory.
Proof. reflexivity. Qed.

Lemma command_fs : efs (sys command_shell) = demo_fs.
Proof. reflexivity. Qed.

Lemma command_typed : Forall typed demo_command.
Proof. by repeat constructor. Qed.

Lemma command_line : line 8192 command_shell = demo_command.
Proof.
  apply arr_ext; [reflexivity|]. intros i Hi. change (0 <= i < 13) in Hi. unfold line.
  rewrite build_get by exact Hi. unfold input_char. rewrite command_mem. unfold load8, command_memory.
  rewrite u32_idemp, u32_id by (unfold is_u32; lia). rewrite (proj2 (Z.leb_le _ _)), (proj2 (Z.ltb_lt _ _)) by lia.
  cbn [andb]. f_equal. lia.
Qed.

Lemma command_edit : edit_ok 8192 command_shell.
Proof.
  pose proof (fresh_shell_ok command_exec 8192) as [].
  split; try assumption; [change (0 <= 13 <= 255); lia|]. rewrite command_line. apply command_typed.
Qed.

Lemma command_bytes : mem_bytes command_memory.
Proof.
  intros x. unfold command_memory. destruct (_ && _) eqn:E; [|apply demo_line_bytes].
  apply andb_prop in E as [E1%Z.leb_le E2%Z.ltb_lt]. pose proof command_typed as Ht. rewrite arr_Forall in Ht.
  apply Ht. change (0 <= x - 8192 < 13). lia.
Qed.

Lemma command_kernel : kernel_wf demo_layout 1048576 (ek (sys command_shell)) boot_blocks no_spaces.
Proof.
  apply wf_outside_heap; [apply demo_exec_wf|]. destruct demo_exec_parts as (-> & -> & _). intros x Hx.
  unfold command_memory, range in *. zcases.
Qed.

Lemma command_system : system_ok demo_layout 250000 65536 8192 1048576 command_shell boot_blocks no_spaces.
Proof.
  split.
  - exact command_kernel.
  - rewrite command_fs. exact (proj1 demo_fs_ok).
  - exact command_edit.
  - reflexivity.
  - rewrite command_mem. exact command_bytes.
  - change (exec_layout 250000 65536 1048576 1048576). split; lia.
  - change (8192 + 256 <= 1048576). lia.
  - lia.
  - lia.
Qed.

Lemma command_parse : parse (line 8192 command_shell) = Exec [text "hello"; text "un"].
Proof. rewrite command_line. reflexivity. Qed.

Lemma command_allowed : allowed 65536 200 (parse (line 8192 command_shell)) command_shell.
Proof.
  rewrite command_parse. split; [done|]. intros img. rewrite command_fs, (proj2 demo_fs_ok). intros E.
  apply Some_inj in E. subst img. exact demo_image_safe.
Qed.

Lemma shell_execute_safe_witness :
  match shell_execute demo_layout 250000 65536 8192 300 command_shell with
  | Prompt st' => (exists bs' sp', system_ok demo_layout 250000 65536 8192 1048576 st' bs' sp') /\ line 8192 st' = [] /\
      heap_start (ek (sys st')) = heap_start (ek (sys command_shell))
  | Rebooting _ => parse (line 8192 command_shell) = Reboot
  | Stuck => False
  end.
Proof.
  exact (shell_execute_safe ramdisk_big_enough demo_layout 250000 65536 8192 1048576 40000 300 demo_layout_ok
    ltac:(lia) ltac:(lia) ltac:(lia) command_shell boot_blocks no_spaces command_system command_allowed).
Defined.

Lemma shell_execute_correct_witness : exists st1 r,
  prepared 8192 command_shell st1 /\
  ran demo_layout 250000 65536 8192 300 demo_command (Exec [text "hello"; text "un"]) st1 r /\
  shell_execute demo_layout 250000 65536 8192 300 command_shell =
    match r with
    | Prompt st' => Prompt (set_buffer_idx 0 (sh_print (newline ++ prompt) st'))
    | e => e
    end /\ commands st1 = [demo_command].
Proof.
  pose proof (shell_execute_correct demo_layout 250000 65536 8192 300 ltac:(lia) ltac:(lia) ramdisk_big_enough command_shell
    command_edit (so_files _ _ _ _ _ _ _ _ command_system)) as Hth.
  rewrite command_parse, command_line in Hth. destruct Hth as (st1 & r & Hp & Hr & E & _). exists st1, r.
  split; [exact Hp|]. split; [exact Hr|]. split; [exact E|]. rewrite (pr_history _ _ _ Hp), command_line. reflexivity.
Defined.
