(* ===== verification/Descriptors.v ===== *)
(** * Descriptor tables, interrupt vectors and exceptions
    ([kernel/gdt.c], [kernel/interrupts.c], [kernel/exceptions.c],
    [kernel/cpu.c], [kernel/serial.c])

    The tables are lists of the packed structures of the source; what the
    processor reads in them is the [Segment] and [Gate] views below, and the
    interrupt controllers are read back from the bytes sent to their ports. *)
From Stdlib Require Import String.
From stdpp Require Import base numbers list.
From S2P Require Import Prelude Machine Heap Paging Pit Sched SchedProps Frames Screen.

(** ** The GDT and the TSS *)

Record gdt_entry := mkGdtEntry {
  limit_low : Z; base_low : Z; base_middle : Z; access : Z; granularity : Z; base_high : Z }.
#[export] Instance gdt_entry_inhabited : Inhabited gdt_entry := populate (mkGdtEntry 0 0 0 0 0 0).

Definition GDT_ENTRIES : Z := 6.
Definition SEL_KERNEL_CODE : Z := 8.
Definition SEL_TSS : Z := 40.
Definition sizeof_tss : Z := 104.

(** [struct tss_entry]: the fields that [write_tss] sets; the others are
    zero. *)
Record tss_entry := mkTss {
  esp0 : Z; ss0 : Z; tss_cs : Z; tss_ss : Z; tss_ds : Z; tss_es : Z; tss_fs : Z; tss_gs : Z; iomap_base : Z }.

Definition gdt_set_gate (num base limit acc gran : Z) (gdt : list gdt_entry) : list gdt_entry :=
  let granularity := Z.land (Z.shiftr limit 16) 15 in
  gdt.[num <- mkGdtEntry (Z.land limit 65535) (Z.land base 65535) (Z.land (Z.shiftr base 16) 255) (u8 acc)
    (Z.lor granularity (Z.land gran 240)) (Z.land (Z.shiftr base 24) 255)].

Section gdt.
(** The addresses of [tss] and [tss_kernel_stack]. *)
Context (tss_at tss_kernel_stack : Z).

Definition write_tss (num : Z) (gdt : list gdt_entry) : list gdt_entry * tss_entry :=
  let base := tss_at in
  let limit := base ⊕ sizeof_tss in
  let gdt := gdt_set_gate num base limit 137 0 gdt in
  let sel := Z.lor SEL_KERNEL_DATA 3 in
  (gdt, mkTss (tss_kernel_stack ⊕ 4096) SEL_KERNEL_DATA (Z.lor SEL_KERNEL_CODE 3) sel sel sel sel sel sizeof_tss).

(** The tables that [gdt_flush] and [tss_flush] then load. *)
Definition gdt_init (gdt : list gdt_entry) : list gdt_entry * tss_entry :=
  let gdt := gdt_set_gate 0 0 0 0 0 gdt in
  let gdt := gdt_set_gate 1 0 4294967295 154 207 gdt in
  let gdt := gdt_set_gate 2 0 4294967295 146 207 gdt in
  let gdt := gdt_set_gate 3 0 4294967295 250 207 gdt in
  let gdt := gdt_set_gate 4 0 4294967295 242 207 gdt in
  write_tss 5 gdt.
End gdt.

(** ** The IDT *)

Definition IDT_ENTRIES : Z := 256.
Record idt_entry := mkIdtEntry { ibase_low : Z; sel : Z; always0 : Z; flags : Z; ibase_high : Z }.
#[export] Instance idt_entry_inhabited : Inhabited idt_entry := populate (mkIdtEntry 0 0 0 0 0).

Definition set_idt_gate_flags (n handler fl : Z) (idt : list idt_entry) : list idt_entry :=
  idt.[n <- mkIdtEntry (Z.land handler 65535) 8 0 fl (Z.land (Z.shiftr handler 16) 65535)].
Definition set_idt_gate (n handler : Z) (idt : list idt_entry) : list idt_entry :=
  idt.[n <- mkIdtEntry (Z.land handler 65535) 8 0 142 (Z.land (Z.shiftr handler 16) 65535)].

(** [isr n] is the address of the stub [isr##n]. *)
Definition install_exception_handlers (isr : Z -> Z) (idt : list idt_entry) : list idt_entry :=
  for_loop 32 0 (fun n idt => set_idt_gate n (isr n) idt) idt.
Definition syscall_init (syscall_handler : Z) (idt : list idt_entry) : list idt_entry :=
  set_idt_gate_flags 128 syscall_handler 238 idt.

(** The gates that [main_entry] sets. *)
Definition set_gates (isr : Z -> Z) (timer_handler keyboard_handler syscall_handler : Z) (idt : list idt_entry) : list idt_entry :=
  let idt := install_exception_handlers isr idt in
  let idt := set_idt_gate 32 timer_handler idt in
  let idt := set_idt_gate 33 keyboard_handler idt in
  syscall_init syscall_handler idt.
(** The IDT of [main_entry]: the gates in a table of the cleared BSS. *)
Definition boot_idt (isr : Z -> Z) (timer_handler keyboard_handler syscall_handler : Z) : list idt_entry :=
  set_gates isr timer_handler keyboard_handler syscall_handler (build IDT_ENTRIES (fun _ => mkIdtEntry 0 0 0 0 0)).

(** ** Loading the tables *)

(** [struct gdt_ptr] and [struct idt_ptr], and the registers they and the
    selectors are loaded in. *)
Record table_ptr := mkTablePtr { tp_limit : Z; tp_base : Z }.
Record seg_regs := mkSegRegs {
  s_cs : Z; s_ds : Z; s_es : Z; s_fs : Z; s_gs : Z; s_ss : Z; s_tr : Z; gdtr : table_ptr; idtr : table_ptr }.

Definition gdt_flush (gp : table_ptr) (r : seg_regs) : seg_regs :=
  mkSegRegs 8 16 16 16 16 16 (s_tr r) gp (idtr r).
Definition tss_flush (r : seg_regs) : seg_regs :=
  mkSegRegs (s_cs r) (s_ds r) (s_es r) (s_fs r) (s_gs r) (s_ss r) 40 (gdtr r) (idtr r).
(** What [gdt_init] does beside filling the table at [gdt_at]. *)
Definition gdt_load (gdt_at : Z) (r : seg_regs) : seg_regs :=
  let gp := mkTablePtr (u16 (8 * GDT_ENTRIES - 1)) gdt_at in
  tss_flush (gdt_flush gp r).
Definition load_idt (idt_at : Z) (r : seg_regs) : seg_regs :=
  mkSegRegs (s_cs r) (s_ds r) (s_es r) (s_fs r) (s_gs r) (s_ss r) (s_tr r) (gdtr r)
    (mkTablePtr (u16 (8 * IDT_ENTRIES - 1)) idt_at).

(** ** Ports *)

Definition remap_pic : list (Z * Z) :=
  [(32, 17); (160, 17); (33, 32); (161, 40); (33, 4); (161, 2); (33, 1); (161, 1); (33, 252); (161, 255)].

Definition COM1 : Z := 1016.
Definition serial_init : list (Z * Z) :=
  [(COM1 + 1, 0); (COM1 + 3, 128); (COM1 + 0, 3); (COM1 + 1, 0); (COM1 + 3, 3); (COM1 + 2, 199); (COM1 + 4, 11)].

(** [reboot]: [status] are the successive values of port 0x64, and the result
    is the accesses made; [None] when the controller stays busy as long as
    [status] says. *)
Inductive port_access := In (port : Z) | Out (port v : Z).
Fixpoint reboot (status : list Z) : option (list port_access) :=
  match status with
  | [] => None
  | tmp :: status =>
    let drain := if negb (Z.land tmp 1 =? 0) then [In 96] else [] in
    if negb (Z.land tmp 2 =? 0) then option_map (fun r => In 100 :: drain ++ r) (reboot status)
    else Some (In 100 :: drain ++ [Out 100 254])
  end.

(** ** Exceptions *)

(** What the processor documents: the exceptions of an i386 and its successors
    by vector; those of the second list push an error code.  (Control
    protection, 21, and the vectors 29 and 30 of virtualisation push one too,
    and are raised only by features that this kernel never enables.) *)
Inductive hw_exception :=
  | DE | DB | NMI | BP | OF | BR | UD | NM | CSO | MF | MC | XM
  | DF | TS | NP | SS | GP | PF | AC.
Definition hw_vector (n : Z) : option hw_exception :=
  match n with
  | 0 => Some DE | 1 => Some DB | 2 => Some NMI | 3 => Some BP | 4 => Some OF | 5 => Some BR | 6 => Some UD
  | 7 => Some NM | 8 => Some DF | 9 => Some CSO | 10 => Some TS | 11 => Some NP | 12 => Some SS | 13 => Some GP
  | 14 => Some PF | 16 => Some MF | 17 => Some AC | 18 => Some MC | 19 => Some XM | _ => None
  end.
Definition pushes_error_code (n : Z) : bool :=
  match hw_vector n with Some (DF | TS | NP | SS | GP | PF | AC) => true | _ => false end.

(** The stubs of the kernel, [isr0] to [isr31], by the macro that defines
    each. *)
Inductive stub := EXC_NOERR | EXC_ERR.
#[export] Instance stub_inhabited : Inhabited stub := populate EXC_NOERR.
Definition exception_stubs : list stub :=
  [EXC_NOERR; EXC_NOERR; EXC_NOERR; EXC_NOERR; EXC_NOERR; EXC_NOERR; EXC_NOERR; EXC_NOERR;
   EXC_ERR; EXC_NOERR; EXC_ERR; EXC_ERR; EXC_ERR; EXC_ERR; EXC_ERR; EXC_NOERR;
   EXC_NOERR; EXC_ERR; EXC_NOERR; EXC_NOERR; EXC_NOERR; EXC_NOERR; EXC_NOERR; EXC_NOERR;
   EXC_NOERR; EXC_NOERR; EXC_NOERR; EXC_NOERR; EXC_NOERR; EXC_NOERR; EXC_NOERR; EXC_NOERR].

(** What the processor pushes: the return frame, then the error code. *)
Definition exception_entry (n error : Z) (c : cpu) (k : kernel) : Z * kernel :=
  let '(m, sp) :=
    if in_ring3 (r_cs c) then push_all [r_ss c; r_esp c] (mem k, tss_esp0 k) else (mem k, r_esp c) in
  let '(m, sp) := push_all ([r_eflags c; r_cs c; r_eip c] ++ if pushes_error_code n then [error] else []) (m, sp) in
  (sp, set_mem m k).

(** [isr_common_stub] up to the call: [pushal]. *)
Definition isr_common_stub (c : cpu) (sp : Z) (k : kernel) : Z * kernel :=
  let '(m, sp) := push_all [r_eax c; r_ecx c; r_edx c; r_ebx c; sp; r_ebp c; r_esi c; r_edi c] (mem k, sp) in
  (sp, set_mem m k).
(** The stub [isr##n]: [EXC_NOERR] pushes a zero where the processor pushed
    no error code, then both push the vector and jump to the common part. *)
Definition isr_stub (n : Z) (c : cpu) (sp : Z) (k : kernel) : Z * kernel :=
  let '(m, sp) := push_all (match exception_stubs.[n] with EXC_NOERR => [0; n] | EXC_ERR => [n] end) (mem k, sp) in
  isr_common_stub c sp (set_mem m k).

(** The report, after which the machine stops; [cr2] is the faulting
    address. *)
Definition exception_report (cr2 regs : Z) (k : kernel) : kernel :=
  let vector := load32 (mem k) (regs ⊕ 32) in
  let error_code := load32 (mem k) (regs ⊕ 36) in
  let eip := load32 (mem k) (regs ⊕ 40) in
  Sched.kprint (newline ++ text "*** EXCEPTION " ++ cstr (dec_text vector) ++ text " (code " ++ cstr (hex_text error_code)
    ++ text ") at EIP=" ++ cstr (hex_text eip)
    ++ (if vector =? 14 then text " CR2=" ++ cstr (hex_text cr2) else [])
    ++ text " - System Halted ***" ++ newline) k.

Definition exception (n error cr2 : Z) (c : cpu) (k : kernel) : kernel :=
  let '(sp, k) := exception_entry n error c k in
  let '(sp, k) := isr_stub n c sp k in
  exception_report cr2 sp k.

(** ** What the processor reads *)

Record segment := Segment {
  seg_base : Z; seg_limit : Z; seg_dpl : Z; seg_present : bool; seg_code : bool; seg_memory : bool }.
Definition segment_of (e : gdt_entry) : segment :=
  let raw := limit_low e + 65536 * Z.land (granularity e) 15 in
  Segment (base_low e + 65536 * base_middle e + 16777216 * base_high e)
    (if Z.testbit (granularity e) 7 then 4096 * raw + 4095 else raw)
    (Z.land (Z.shiftr (access e) 5) 3) (Z.testbit (access e) 7) (Z.testbit (access e) 3) (Z.testbit (access e) 4).
(** A selector is an index times eight, plus the requested privilege. *)
Definition descriptor (gdt : list gdt_entry) (selector : Z) : gdt_entry := gdt.[Z.shiftr selector 3].

Record gate := Gate { g_handler : Z; g_selector : Z; g_dpl : Z; g_present : bool; g_interrupt : bool }.
Definition gate_of (e : idt_entry) : gate :=
  Gate (ibase_low e + 65536 * ibase_high e) (sel e) (Z.land (Z.shiftr (flags e) 5) 3) (Z.testbit (flags e) 7)
    (Z.land (flags e) 31 =? 14).

(** An 8259 after its initialisation words: command port, data port. *)
Record pic := Pic { icw : Z; offset : Z; imr : Z }.
Definition pic_write (cmd data : Z) (p : pic) (w : Z * Z) : pic :=
  if w.1 =? cmd then if Z.testbit w.2 4 then Pic 1 (offset p) 0 else p
  else if w.1 =? data then
    if icw p =? 1 then Pic 2 (Z.land w.2 248) (imr p)
    else if icw p =? 2 then Pic 3 (offset p) (imr p)
    else if icw p =? 3 then Pic 0 (offset p) (imr p)
    else Pic 0 (offset p) w.2
  else p.
Definition pics (log : list (Z * Z)) : pic * pic :=
  (fold_left (pic_write 32 33) log (Pic 0 8 0), fold_left (pic_write 160 161) log (Pic 0 112 0)).
(** The vector that an interrupt line raises, when it is not masked. *)
Definition irq_vector (ps : pic * pic) (irq : Z) : option Z :=
  let '(master, slave) := ps in
  if irq <? 8 then if Z.testbit (imr master) irq then None else Some (offset master + irq)
  else if Z.testbit (imr master) 2 || Z.testbit (imr slave) (irq - 8) then None else Some (offset slave + (irq - 8)).

(** ** Theorems *)

(** Splitting a word into fields and reading it back. *)
Lemma split_word v : is_u32 v ->
  Z.land v 65535 + 65536 * Z.land (Z.shiftr v 16) 255 + 16777216 * Z.land (Z.shiftr v 24) 255 = v /\
  Z.land v 65535 + 65536 * Z.land (Z.shiftr v 16) 65535 = v /\
  Z.land v 65535 + 65536 * Z.land (Z.shiftr v 16) 15 = v mod 1048576.
Proof.
  intros Hv. change 65535 with (Z.ones 16). change 255 with (Z.ones 8). change 15 with (Z.ones 4).
  rewrite !Z.land_ones, !Z.shiftr_div_pow2 by lia. change (2 ^ 16) with 65536. change (2 ^ 8) with 256.
  change (2 ^ 24) with 16777216. change (2 ^ 4) with 16. unfold is_u32 in Hv. Z.div_mod_to_equations. lia.
Qed.

(** The granularity byte: the high bits of the limit under the flags. *)
Lemma granularity_fields limit gran : is_u32 limit -> is_byte gran ->
  Z.land (Z.lor (Z.land (Z.shiftr limit 16) 15) (Z.land gran 240)) 15 = Z.land (Z.shiftr limit 16) 15 /\
  Z.testbit (Z.lor (Z.land (Z.shiftr limit 16) 15) (Z.land gran 240)) 7 = Z.testbit gran 7.
Proof.
  intros _ _. split.
  - rewrite Z.land_lor_distr_l, <- !Z.land_assoc. change (Z.land 15 15) with 15. change (Z.land 240 15) with 0.
    by rewrite Z.land_0_r, Z.lor_0_r.
  - rewrite Z.lor_spec, !Z.land_spec. change (Z.testbit 15 7) with false. change (Z.testbit 240 7) with true.
    by rewrite andb_false_r, andb_true_r.
Qed.

(** A descriptor read back. *)
Lemma gdt_gate_segment num base limit acc gran gdt : 0 <= num < alen gdt -> is_u32 base -> is_u32 limit ->
  is_byte acc -> is_byte gran ->
  segment_of (gdt_set_gate num base limit acc gran gdt).[num] =
  Segment base (if Z.testbit gran 7 then 4096 * (limit mod 1048576) + 4095 else limit mod 1048576)
    (Z.land (Z.shiftr acc 5) 3) (Z.testbit acc 7) (Z.testbit acc 3) (Z.testbit acc 4).
Proof.
  intros Hn Hb Hl Ha Hg. unfold gdt_set_gate. rewrite arr_get_set_eq by done. unfold segment_of.
  cbn [limit_low base_low base_middle access granularity base_high].
  destruct (granularity_fields limit gran Hl Hg) as [-> ->]. destruct (split_word base Hb) as (-> & _ & _).
  destruct (split_word limit Hl) as (_ & _ & ->). by rewrite (u8_id acc).
Qed.

Lemma gdt_gate_other num num' base limit acc gran gdt : num <> num' ->
  (gdt_set_gate num base limit acc gran gdt).[num'] = gdt.[num'].
Proof. intros Hne. by apply arr_get_set_ne. Qed.

Lemma alen_gdt_gate num base limit acc gran gdt : alen (gdt_set_gate num base limit acc gran gdt) = alen gdt.
Proof. apply alen_arr_set. Qed.

(** [gdt_entry_is] reads one entry of the table that [gdt_init] builds. *)
Ltac gdt_entry_is :=
  unfold gdt_init, write_tss; cbn [fst]; rewrite ?gdt_gate_other by lia;
  rewrite gdt_gate_segment by first [apply u32_range|rewrite ?alen_gdt_gate; unfold is_u32, is_byte in *; lia]; reflexivity.

(** The segments.  After [gdt_init] the four selectors that the kernel
    uses (0x08 and 0x10, and with requested privilege 3 the 0x1B and 0x23 of
    the initial frames of ring-3 tasks) designate flat 4 GiB segments, code
    or data, of privilege 0 and 3; the null entry is not present; 0x28 is the
    TSS, whose ring-0 stack is [tss_kernel_stack]. *)
Theorem gdt_init_correct tss_at stack gdt : alen gdt = GDT_ENTRIES -> is_u32 tss_at ->
  let '(gdt, tss) := gdt_init tss_at stack gdt in
  let flat dpl code := Segment 0 4294967295 dpl true code true in
  segment_of (descriptor gdt SEL_KERNEL_CODE) = flat 0 true /\
  segment_of (descriptor gdt SEL_KERNEL_DATA) = flat 0 false /\
  segment_of (descriptor gdt SEL_USER_CODE) = flat 3 true /\
  segment_of (descriptor gdt SEL_USER_DATA) = flat 3 false /\
  seg_present (segment_of (descriptor gdt 0)) = false /\
  segment_of (descriptor gdt SEL_TSS) = Segment tss_at ((tss_at ⊕ sizeof_tss) mod 1048576) 0 true true false /\
  ss0 tss = SEL_KERNEL_DATA /\ esp0 tss = stack ⊕ 4096.
Proof.
  intros Hl Ht. unfold GDT_ENTRIES in Hl. destruct (gdt_init tss_at stack gdt) as [g tss] eqn:E.
  assert (Eg : g = (gdt_init tss_at stack gdt).1) by (by rewrite E).
  assert (Etss : tss = (gdt_init tss_at stack gdt).2) by (by rewrite E). clear E. subst g tss. cbv zeta. unfold descriptor.
  change (Z.shiftr SEL_KERNEL_CODE 3) with 1. change (Z.shiftr SEL_KERNEL_DATA 3) with 2.
  change (Z.shiftr SEL_USER_CODE 3) with 3. change (Z.shiftr SEL_USER_DATA 3) with 4. change (Z.shiftr 0 3) with 0.
  change (Z.shiftr SEL_TSS 3) with 5. split_and!; [gdt_entry_is..|reflexivity|reflexivity].
Qed.

(** What the processor finds behind a selector: nothing beyond the limit of the
    table. *)
Definition selected (gdt : list gdt_entry) (r : seg_regs) (selector : Z) : option segment :=
  if 8 * Z.shiftr selector 3 + 7 <=? tp_limit (gdtr r) then Some (segment_of (descriptor gdt selector)) else None.

(** Whatever the boot sector left in the registers, after [gdt_init] and
    [load_idt] the processor runs on flat segments of ring 0, its task register
    designates the TSS, the selectors of ring 3 are within the table, the last
    entry of which is the TSS, and the IDT has exactly the 256 vectors. *)
Lemma tables_loaded tss_at stack gdt gdt_at idt_at r : alen gdt = GDT_ENTRIES -> is_u32 tss_at ->
  let g := (gdt_init tss_at stack gdt).1 in
  let r' := load_idt idt_at (gdt_load gdt_at r) in
  selected g r' (s_cs r') = Some (Segment 0 4294967295 0 true true true) /\
  Forall (fun sel => selected g r' sel = Some (Segment 0 4294967295 0 true false true)) [s_ds r'; s_es r'; s_fs r'; s_gs r'; s_ss r'] /\
  option_map seg_base (selected g r' (s_tr r')) = Some tss_at /\
  option_map seg_dpl (selected g r' SEL_USER_CODE) = Some 3 /\ option_map seg_dpl (selected g r' SEL_USER_DATA) = Some 3 /\
  (forall sel, 48 <= sel -> selected g r' sel = None) /\
  (forall n, 8 * n + 7 <= tp_limit (idtr r') <-> n < 256) /\ tp_base (gdtr r') = gdt_at /\ tp_base (idtr r') = idt_at.
Proof.
  intros Hl Ht. pose proof (gdt_init_correct tss_at stack gdt Hl Ht) as H. destruct (gdt_init tss_at stack gdt) as [g t].
  cbv zeta in H |- *. destruct H as (Hkc & Hkd & Huc & Hud & _ & Htss & _). cbn [fst].
  assert (Hsel : forall sel, 0 <= sel < 48 -> selected g (load_idt idt_at (gdt_load gdt_at r)) sel = Some (segment_of (descriptor g sel))).
  { intros sel Hs. unfold selected. change (tp_limit _) with 47. rewrite Z.shiftr_div_pow2 by lia.
    rewrite (proj2 (Z.leb_le _ _)); [done|]. Z.to_euclidean_division_equations. lia. }
  cbn [s_cs s_ds s_es s_fs s_gs s_ss s_tr load_idt gdt_load tss_flush gdt_flush].
  assert (Hd : selected g (load_idt idt_at (gdt_load gdt_at r)) 16 = Some (Segment 0 4294967295 0 true false true))
    by (rewrite Hsel by lia; by f_equal).
  split; [rewrite Hsel by lia; by f_equal|]. split; [by repeat constructor|].
  split; [rewrite Hsel by lia; cbn [option_map]; change 40 with SEL_TSS; by rewrite Htss|].
  split; [rewrite Hsel by (unfold SEL_USER_CODE; lia); cbn [option_map]; by rewrite Huc|].
  split; [rewrite Hsel by (unfold SEL_USER_DATA; lia); cbn [option_map]; by rewrite Hud|].
  split; [|split; [|done]].
  - intros sel Hs. unfold selected. change (tp_limit _) with 47. rewrite Z.shiftr_div_pow2 by lia.
    rewrite (proj2 (Z.leb_gt _ _)); [done|]. Z.to_euclidean_division_equations. lia.
  - intros n. change (tp_limit _) with 2047. lia.
Qed.

Lemma gdt_init_correct_witness :
  segment_of (descriptor (gdt_init 155648 159744 (build 6 (fun _ => mkGdtEntry 0 0 0 0 0 0))).1 SEL_USER_CODE) =
  Segment 0 4294967295 3 true true true.
Proof.
  exact (proj1 (proj2 (proj2 (gdt_init_correct 155648 159744 (build 6 (fun _ => mkGdtEntry 0 0 0 0 0 0)) eq_refl
    ltac:(unfold is_u32; lia))))).
Defined.

(** The processor's check of a byte-wide port access from ring 3 (with I/O
    privilege level 0, as in the initial flags of the tasks): the two bytes
    of the bitmap must be inside the TSS, and the port's bit clear. *)
Definition io_permitted (gdt : list gdt_entry) (tss : tss_entry) (m : memory) (port : Z) : bool :=
  let s := segment_of (descriptor gdt SEL_TSS) in
  let o := iomap_base tss + port / 8 in
  (o + 1 <=? seg_limit s) && negb (Z.testbit (load8 m (seg_base s + o)) (port mod 8)).

(** Ring 3 is not kept away from the ports.  The TSS descriptor gets the
    limit [base + sizeof(tss)] instead of [sizeof(tss) - 1], so the bitmap
    that [iomap_base] was meant to leave out is the memory behind the TSS: a
    port is accessible from ring 3 exactly when its bit there is zero.  With
    the right limit no port would be. *)
Theorem tss_bitmap_exposed tss_at stack gdt m port : alen gdt = GDT_ENTRIES -> is_u32 tss_at ->
  0 <= port < 65536 -> 8297 <= (tss_at + 104) mod 1048576 -> tss_at + 104 < 4294967296 ->
  let '(gdt, tss) := gdt_init tss_at stack gdt in
  io_permitted gdt tss m port = negb (Z.testbit (load8 m (tss_at + 104 + port / 8)) (port mod 8)) /\
  iomap_base tss + port / 8 + 1 > sizeof_tss - 1.
Proof.
  intros Hl Ht Hp Hlim Hov. unfold is_u32 in Ht. unfold GDT_ENTRIES in Hl. destruct (gdt_init tss_at stack gdt) as [g tss] eqn:E.
  assert (Eg : g = (gdt_init tss_at stack gdt).1) by (by rewrite E).
  assert (Etss : tss = (gdt_init tss_at stack gdt).2) by (by rewrite E). clear E. subst g tss. cbv zeta.
  assert (Hs : segment_of (descriptor (gdt_init tss_at stack gdt).1 SEL_TSS) =
    Segment tss_at ((tss_at ⊕ sizeof_tss) mod 1048576) 0 true true false).
  { unfold descriptor. change (Z.shiftr SEL_TSS 3) with 5. gdt_entry_is. }
  unfold io_permitted. rewrite Hs. cbn [seg_base seg_limit]. unfold sizeof_tss. rewrite (u32_id (tss_at + 104)) by (unfold is_u32; lia).
  change (iomap_base (gdt_init tss_at stack gdt).2) with 104.
  assert (0 <= port / 8 < 8192) by (Z.div_mod_to_equations; lia). rewrite (proj2 (Z.leb_le _ _)) by lia.
  cbn [andb]. split; [|lia]. by rewrite Z.add_assoc.
Qed.

(** With zeroed memory behind the TSS, the keyboard controller's command port
    is open to ring 3. *)
Lemma tss_bitmap_exposed_witness :
  let '(gdt, tss) := gdt_init 155648 159744 (build 6 (fun _ => mkGdtEntry 0 0 0 0 0 0)) in
  io_permitted gdt tss (fun _ => 0) 100 = true /\ iomap_base tss + 100 / 8 + 1 > sizeof_tss - 1.
Proof.
  exact (tss_bitmap_exposed 155648 159744 (build 6 (fun _ => mkGdtEntry 0 0 0 0 0 0)) (fun _ => 0) 100 eq_refl
    ltac:(unfold is_u32; lia) ltac:(lia) ltac:(by vm_compute) ltac:(lia)).
Defined.

(** ** Interrupt vectors *)

Lemma idt_gate_read n h f idt : 0 <= n < alen idt -> is_u32 h ->
  gate_of (set_idt_gate_flags n h f idt).[n] =
  Gate h 8 (Z.land (Z.shiftr f 5) 3) (Z.testbit f 7) (Z.land f 31 =? 14).
Proof.
  intros Hn Hh. unfold set_idt_gate_flags. rewrite arr_get_set_eq by done. unfold gate_of.
  cbn [ibase_low ibase_high sel flags]. destruct (split_word h Hh) as (_ & -> & _). done.
Qed.

Lemma idt_gate_other n n' h f idt : n <> n' -> (set_idt_gate_flags n h f idt).[n'] = idt.[n'].
Proof. intros Hne. by apply arr_get_set_ne. Qed.

Lemma alen_idt_gate n h f idt : alen (set_idt_gate_flags n h f idt) = alen idt.
Proof. apply alen_arr_set. Qed.

Lemma exception_gates isr idt : alen idt = 256 ->
  let idt' := install_exception_handlers isr idt in
  alen idt' = 256 /\ (forall n, 32 <= n -> idt'.[n] = idt.[n]) /\
  forall n, 0 <= n < 32 -> idt'.[n] = (set_idt_gate_flags n (isr n) 142 idt).[n].
Proof.
  intros Hl idt'. unfold idt', install_exception_handlers.
  assert (H : forall k i t, alen t = 256 -> 0 <= i -> i + Z.of_nat k <= 32 ->
    let t' := for_loop k i (fun n idt => set_idt_gate n (isr n) idt) t in
    alen t' = 256 /\ (forall n, n < i \/ i + Z.of_nat k <= n -> t'.[n] = t.[n]) /\
    forall n, i <= n < i + Z.of_nat k -> t'.[n] = mkIdtEntry (Z.land (isr n) 65535) 8 0 142 (Z.land (Z.shiftr (isr n) 16) 65535)).
  { intros k. induction k as [|k IH]; intros i t Ht Hi Hk; cbn [for_loop]; [split_and!; [done|done|lia]|].
    destruct (IH (i + 1) (set_idt_gate i (isr i) t)) as (I1 & I2 & I3); [by unfold set_idt_gate; rewrite alen_arr_set|lia|lia|].
    split_and!; [done| |].
    - intros n Hn. rewrite I2 by lia. unfold set_idt_gate. rewrite arr_get_set_ne by lia. done.
    - intros n Hn. destruct (decide (n = i)) as [->|]; [|by apply I3; lia].
      rewrite I2 by lia. unfold set_idt_gate. by rewrite arr_get_set_eq by lia. }
  destruct (H 32%nat 0 idt Hl ltac:(lia) ltac:(lia)) as (H1 & H2 & H3). split_and!; [done|intros; apply H2; lia|].
  intros n Hn. rewrite H3 by lia. unfold set_idt_gate_flags. by rewrite arr_get_set_eq by lia.
Qed.

(** C34: interrupts reach their handlers.  With the IDT of [main_entry] and the
    controllers programmed by [remap_pic], the timer and keyboard lines raise
    vectors 32 and 33, which lead to their handlers in the kernel's code
    segment, and no other line interrupts; the exceptions lead to their
    stubs; every gate is an interrupt gate; and the only vector that ring 3
    may raise with an [int] instruction is 0x80, the system calls. *)
Theorem interrupt_routing isr timer keyboard syscall : (forall n, is_u32 (isr n)) ->
  is_u32 timer -> is_u32 keyboard -> is_u32 syscall ->
  let idt := boot_idt isr timer keyboard syscall in
  let to h dpl := Gate h SEL_KERNEL_CODE dpl true true in
  let line irq := option_map (fun v => gate_of idt.[v]) (irq_vector (pics remap_pic) irq) in
  line 0 = Some (to timer 0) /\ line 1 = Some (to keyboard 0) /\ (forall irq, 2 <= irq < 16 -> line irq = None) /\
  (forall n, 0 <= n < 32 -> gate_of idt.[n] = to (isr n) 0) /\ gate_of idt.[128] = to syscall 3 /\
  (forall n, 0 <= n < 256 -> g_present (gate_of idt.[n]) = true /\ g_dpl (gate_of idt.[n]) = 3 <-> n = 128).
Proof.
  intros Hisr Ht Hk Hs. cbv zeta. unfold boot_idt, set_gates. change (build IDT_ENTRIES _) with (build 256 (fun _ => mkIdtEntry 0 0 0 0 0)).
  set (idt0 := build 256 (fun _ => mkIdtEntry 0 0 0 0 0)).
  destruct (exception_gates isr idt0 eq_refl) as (E1 & E2 & E3). set (idt1 := install_exception_handlers isr idt0) in *.
  set (idt := syscall_init syscall _).
  assert (Hidt : idt = set_idt_gate_flags 128 syscall 238 (set_idt_gate_flags 33 keyboard 142 (set_idt_gate_flags 32 timer 142 idt1))) by done.
  clearbody idt. assert (Hexc : forall n, 0 <= n < 32 -> gate_of idt.[n] = Gate (isr n) 8 0 true true).
  { intros n Hn. rewrite Hidt, !idt_gate_other by lia. rewrite E3 by done. rewrite idt_gate_read by (done || apply Hisr || (change (alen idt0) with 256; lia)). done. }
  assert (H32 : gate_of idt.[32] = Gate timer 8 0 true true).
  { rewrite Hidt, !idt_gate_other by lia. by rewrite idt_gate_read by (done || lia). }
  assert (H33 : gate_of idt.[33] = Gate keyboard 8 0 true true).
  { rewrite Hidt, idt_gate_other by lia. by rewrite idt_gate_read by (done || rewrite ?alen_idt_gate; lia). }
  assert (H128 : gate_of idt.[128] = Gate syscall 8 3 true true).
  { rewrite Hidt. by rewrite idt_gate_read by (done || rewrite ?alen_idt_gate; lia). }
  assert (Hrest : forall n, 34 <= n < 256 -> n <> 128 -> g_present (gate_of idt.[n]) = false).
  { intros n Hn Hne. rewrite Hidt, !idt_gate_other by lia. rewrite E2 by lia. unfold idt0. by rewrite build_get by lia. }
  assert (Hpics : pics remap_pic = (Pic 0 32 252, Pic 0 40 255)) by reflexivity. rewrite Hpics.
  assert (V0 : irq_vector (Pic 0 32 252, Pic 0 40 255) 0 = Some 32) by reflexivity.
  assert (V1 : irq_vector (Pic 0 32 252, Pic 0 40 255) 1 = Some 33) by reflexivity.
  split_and!; [rewrite V0; cbn [option_map]; by rewrite H32|rewrite V1; cbn [option_map]; by rewrite H33| |exact Hexc|exact H128|].
  - intros irq Hi. assert (Hall : forall q, q ∈ seqZ 2 14 -> irq_vector (Pic 0 32 252, Pic 0 40 255) q = None).
    { apply Forall_forall. by repeat constructor. }
    rewrite Hall; [done|]. apply elem_of_seqZ. lia.
  - intros n Hn. split; [|by intros ->; rewrite H128]. intros [Hp Hd].
    destruct (decide (n = 128)) as [|Hne]; [done|exfalso].
    destruct (decide (n < 32)); [rewrite Hexc in Hd by lia; done|].
    destruct (decide (n = 32)) as [->|]; [by rewrite H32 in Hd|]. destruct (decide (n = 33)) as [->|]; [by rewrite H33 in Hd|].
    by rewrite Hrest in Hp by lia.
Qed.

Lemma interrupt_routing_witness :
  let idt := boot_idt (fun n => 65536 + 16 * n) 70000 70100 70200 in
  gate_of idt.[128] = Gate 70200 SEL_KERNEL_CODE 3 true true /\ gate_of idt.[14] = Gate 65760 SEL_KERNEL_CODE 0 true true.
Proof.
  destruct (interrupt_routing (fun n => u32 (65536 + 16 * n)) 70000 70100 70200) as (_ & _ & _ & H14 & H128 & _);
    [intros n; apply u32_range|unfold is_u32; lia..|]. split; [exact H128|exact (H14 14 ltac:(lia))].
Defined.

(** ** Exceptions *)

(** What the processor and the stub push, in one go. *)
Definition return_words (c : cpu) : list Z :=
  (if in_ring3 (r_cs c) then [r_ss c; r_esp c] else []) ++ [r_eflags c; r_cs c; r_eip c].
Definition stack_start (c : cpu) (k : kernel) : Z := if in_ring3 (r_cs c) then tss_esp0 k else r_esp c.

Lemma exception_entry_push n error c k : exception_entry n error c k =
  let '(m, sp) := push_all (return_words c ++ if pushes_error_code n then [error] else []) (mem k, stack_start c k) in (sp, set_mem m k).
Proof.
  unfold exception_entry, return_words, stack_start. destruct (in_ring3 (r_cs c)); [|done].
  rewrite <- app_assoc, (push_all_app [r_ss c; r_esp c]). by destruct (push_all [r_ss c; r_esp c] (mem k, tss_esp0 k)) as [m1 s1].
Qed.

(** The stubs are of the right kinds. *)
Lemma stubs_agree n : 0 <= n < 32 ->
  match exception_stubs.[n] with EXC_NOERR => [0; n] | EXC_ERR => [n] end =
  (if pushes_error_code n then [] else [0]) ++ [n].
Proof.
  intros Hn. assert (E : Forall (fun n => exception_stubs.[n] = if pushes_error_code n then EXC_ERR else EXC_NOERR) (seqZ 0 32))
    by (by repeat constructor).
  rewrite Forall_forall in E. rewrite (E n) by (apply elem_of_seqZ; lia). by destruct (pushes_error_code n).
Qed.

Lemma isr_push n error c k : 0 <= n < 32 -> exists d,
  let '(sp, k1) := exception_entry n error c k in
  isr_stub n c sp k1 =
  let '(m, sp) := push_all (return_words c ++ [if pushes_error_code n then error else 0; n; r_eax c; r_ecx c; r_edx c; r_ebx c; d;
    r_ebp c; r_esi c; r_edi c]) (mem k, stack_start c k) in (sp, set_mem m k).
Proof.
  set (pair := push_all (return_words c ++ [if pushes_error_code n then error else 0; n]) (mem k, stack_start c k)).
  intros Hn. exists pair.2. rewrite exception_entry_push. unfold isr_stub, isr_common_stub. rewrite (stubs_agree n Hn).
  set (es := if pushes_error_code n then [error] else []).
  destruct (push_all (return_words c ++ es) (mem k, stack_start c k)) as [m1 s1] eqn:E1. cbn [mem set_mem].
  assert (E2 : push_all ((if pushes_error_code n then [] else [0]) ++ [n]) (m1, s1) = pair).
  { rewrite <- E1, <- push_all_app. unfold pair, es. rewrite <- app_assoc. by destruct (pushes_error_code n). }
  rewrite E2. change (return_words c ++ ?a :: ?b :: ?r) with (return_words c ++ [a; b] ++ r).
  rewrite app_assoc, push_all_app. fold pair. destruct pair as [m2 s2]. cbn [snd].
  by destruct (push_all _ (m2, s2)).
Qed.

(** The words on the stack when the report starts. *)
Lemma exception_stack n error c k : 0 <= n < 32 -> is_u32 error -> cpu_typed c ->
  60 <= stack_start c k < 4294967296 ->
  let '(sp, k1) := exception_entry n error c k in
  let '(regs, k2) := isr_stub n c sp k1 in
  load32 (mem k2) (regs ⊕ 32) = n /\ load32 (mem k2) (regs ⊕ 36) = (if pushes_error_code n then error else 0) /\
  load32 (mem k2) (regs ⊕ 40) = r_eip c /\ console k2 = console k.
Proof.
  intros Hn He Hc Hsp. destruct (isr_push n error c k Hn) as (d & E). destruct (exception_entry n error c k) as [sp k1].
  set (e := if pushes_error_code n then error else 0) in *. set (vs := return_words c ++ _) in *.
  destruct (push_all vs (mem k, stack_start c k)) as [m regs] eqn:Ep. rewrite E. cbn [mem set_mem].
  assert (Hlen : alen vs = alen (return_words c) + 10) by (unfold vs, alen; rewrite length_app; cbn; lia).
  assert (Hr : 3 <= alen (return_words c) <= 5) by (unfold return_words, alen; destruct (in_ring3 _); cbn; lia).
  assert (Hw : forall i v, vs !! i = Some v -> is_u32 v -> load32 m (regs ⊕ (4 * (alen vs - Z.of_nat i - 1))) = v).
  { intros i v Hi Hv. by apply (pushed_word vs (mem k) (stack_start c k) m regs i v Ep ltac:(lia) Hi Hv m). }
  assert (Hat : forall j v, (return_words c ++ [e; n; r_eax c; r_ecx c; r_edx c; r_ebx c; d; r_ebp c; r_esi c; r_edi c])
      !! (Z.to_nat (alen (return_words c) + j)) = Some v -> -1 <= j -> is_u32 v -> load32 m (regs ⊕ (4 * (9 - j))) = v).
  { intros j v Hj Hpos Hv. rewrite <- (Hw _ v Hj Hv). do 2 f_equal. rewrite Hlen. lia. }
  split_and!; [| | |done].
  - apply (Hat 1); [|lia|unfold is_u32; lia]. rewrite lookup_app_r by (unfold alen in *; lia).
    replace (Z.to_nat _ - _)%nat with 1%nat by (unfold alen; lia). done.
  - apply (Hat 0); [|lia|unfold e; destruct (pushes_error_code n); [done|unfold is_u32; lia]]. rewrite lookup_app_r by (unfold alen in *; lia).
    replace (Z.to_nat _ - _)%nat with 0%nat by (unfold alen; lia). done.
  - apply (Hat (-1)); [|lia|]; [unfold return_words, alen; by destruct (in_ring3 _)|].
    unfold cpu_typed in Hc. rewrite Forall_forall in Hc. apply Hc. apply list_elem_of_In; cbn; tauto.
Qed.

(** C35: an exception is reported truly.  Whatever the vector, from ring 0 or
    ring 3, the report names the vector, the error code that the processor
    pushes for the exceptions documented to have one and 0 for the others, the
    address of the faulting instruction and, for a page fault, the faulting
    address: each stub is of the kind that its exception needs. *)
Theorem exception_reported n error cr2 c k : 0 <= n < 32 -> is_u32 error -> cpu_typed c ->
  60 <= stack_start c k < 4294967296 ->
  console (exception n error cr2 c k) = console k ++ newline ++ text "*** EXCEPTION " ++ cstr (dec_text n)
    ++ text " (code " ++ cstr (hex_text (if pushes_error_code n then error else 0)) ++ text ") at EIP=" ++ cstr (hex_text (r_eip c))
    ++ (if n =? 14 then text " CR2=" ++ cstr (hex_text cr2) else []) ++ text " - System Halted ***" ++ newline.
Proof.
  intros Hn He Hc Hsp. pose proof (exception_stack n error c k Hn He Hc Hsp) as H. unfold exception.
  destruct (exception_entry n error c k) as [sp k1]. destruct (isr_stub n c sp k1) as [regs k2].
  destruct H as (H1 & H2 & H3 & H4). unfold exception_report. rewrite H1, H2, H3. cbn [console Sched.kprint]. by rewrite H4.
Qed.

Lemma exception_reported_witness :
  console (exception 14 4 3735928559 demo_cpu demo_sched) = console demo_sched ++ newline ++ text "*** EXCEPTION 14 (code 0x00000004) at EIP="
    ++ cstr (hex_text (r_eip demo_cpu)) ++ text " CR2=0xDEADBEEF - System Halted ***" ++ newline.
Proof.
  refine (exception_reported 14 4 3735928559 demo_cpu demo_sched _ _ _ _);
    [lia|unfold is_u32; lia|by repeat constructor|by vm_compute].
Defined.
