(* ===== verification/Ports.v ===== *)
(** * The serial line and the keyboard controller's reset ([kernel/serial.c],
    [kernel/cpu.c])

    The serial chip is a parameter: what its registers answer is the class
    [Uart], what the 16550 data sheet promises of the transmitter is
    [UartLaws].  The driver's polling loops are shown to end, and what the
    console logs as sent ([Screen.serial]) to be what the line carries. *)
From Stdlib Require Import String.
From stdpp Require Import base numbers list list_numbers.
From S2P Require Import Prelude Machine Sched Screen Exec Descriptors.

(** ** The transmitter *)

(** Reading the line status register (it may change the chip: time passes),
    writing the transmit holding register, and the characters sent so far. *)
Class Uart (U : Type) := {
  read_lsr : U -> Z * U;
  write_thr : Z -> U -> U;
  sent : U -> list Z;
}.

(** The chip after [n] reads of its status. *)
Fixpoint after_polls {U} `{Uart U} (n : nat) (u : U) : U :=
  match n with O => u | S n => after_polls n (read_lsr u).2 end.

(** Bit 5 of the status: the holding register is empty.  The transmitter always
    drains, reading the status sends nothing, and a character written to an
    empty holding register is the next one sent. *)
Class UartLaws (U : Type) `{Uart U} := {
  lsr_drains u : exists n, Z.land (read_lsr (after_polls n u)).1 32 <> 0;
  lsr_sends_nothing u : sent (read_lsr u).2 = sent u;
  thr_sends u c : Z.land (read_lsr u).1 32 <> 0 -> sent (write_thr c (read_lsr u).2) = sent u ++ [c];
}.

Section serial.
Context {U : Type} `{Uart U}.

(** ** [kernel/serial.c] *)

Definition serial_transmit_empty (u : U) : Z * U :=
  let '(v, u) := read_lsr u in (Z.land v 32, u).

(** [fuel] bounds the reads of the status. *)
Fixpoint serial_wait (fuel : nat) (u : U) : option U :=
  match fuel with
  | O => None
  | S fuel =>
    let '(r, u) := serial_transmit_empty u in
    if r =? 0 then serial_wait fuel u else Some u
  end.
Definition serial_write_char (fuel : nat) (c : Z) (u : U) : option U :=
  match serial_wait fuel u with
  | None => None
  | Some u => Some (write_thr (u8 c) u)
  end.

(** The loop of [serial_write]: [n] bounds the string and [fuel] each wait. *)
Fixpoint serial_write (n fuel : nat) (m : memory) (s : Z) (u : U) : option U :=
  match n with
  | O => None
  | S n =>
    if load8 m s =? 0 then Some u
    else
      match serial_write_char fuel (load8 m s) u with
      | None => None
      | Some u => serial_write n fuel m (s ⊕ 1) u
      end
  end.

(** The characters of a list, one after the other, as [kprint_char] sends
    them. *)
Fixpoint write_all (fuel : nat) (cs : list Z) (u : U) : option U :=
  match cs with
  | [] => Some u
  | c :: cs =>
    match serial_write_char fuel c u with
    | None => None
    | Some u => write_all fuel cs u
    end
  end.

(** ** The loops end *)

Context `{!UartLaws U}.

Lemma serial_wait_more fuel fuel' u u' : (fuel <= fuel')%nat -> serial_wait fuel u = Some u' -> serial_wait fuel' u = Some u'.
Proof.
  revert fuel' u. induction fuel as [|fuel IH]; intros fuel' u Hle; cbn [serial_wait]; [done|].
  destruct fuel' as [|fuel']; [lia|]. cbn [serial_wait]. destruct (serial_transmit_empty u) as [r u1].
  destruct (r =? 0); [apply IH; lia|done].
Qed.

Lemma serial_wait_ends u : exists fuel u', serial_wait fuel u = Some u' /\
  forall c, sent (write_thr c u') = sent u ++ [c].
Proof.
  destruct (lsr_drains u) as [n Hn]. revert u Hn. induction n as [|n IH]; intros u Hn.
  - exists 1%nat. cbn [serial_wait]. unfold serial_transmit_empty. cbn [after_polls] in Hn. pose proof (fun c => thr_sends u c Hn) as Hs.
    destruct (read_lsr u) as [v u']. cbn [fst snd] in *. rewrite (proj2 (Z.eqb_neq _ 0)) by done. by exists u'.
  - cbn [after_polls] in Hn. destruct (IH (read_lsr u).2 Hn) as (fuel & u' & E & Hs). rewrite lsr_sends_nothing in Hs.
    destruct (decide (Z.land (read_lsr u).1 32 = 0)) as [Hz|Hz].
    + exists (S fuel), u'. split; [|done]. cbn [serial_wait]. unfold serial_transmit_empty.
      destruct (read_lsr u) as [v u1]. cbn [fst snd] in *. by rewrite Hz.
    + exists 1%nat. pose proof (fun c => thr_sends u c Hz) as Hs'. cbn [serial_wait]. unfold serial_transmit_empty.
      destruct (read_lsr u) as [v u1]. cbn [fst snd] in *. rewrite (proj2 (Z.eqb_neq _ 0)) by done. by exists u1.
Qed.

Lemma write_char_ends c u : is_byte c -> exists fuel u', sent u' = sent u ++ [c] /\
  forall fuel', (fuel <= fuel')%nat -> serial_write_char fuel' c u = Some u'.
Proof.
  intros Hc. destruct (serial_wait_ends u) as (fuel & u' & E & Hs). exists fuel, (write_thr (u8 c) u').
  split; [by rewrite Hs, u8_id|]. intros fuel' Hle. unfold serial_write_char. by rewrite (serial_wait_more _ _ _ _ Hle E).
Qed.

Lemma write_all_ends cs u : Forall is_byte cs -> exists fuel u', sent u' = sent u ++ cs /\
  forall fuel', (fuel <= fuel')%nat -> write_all fuel' cs u = Some u'.
Proof.
  intros Hcs. revert u. induction Hcs as [|c cs Hc _ IH]; intros u.
  - exists 0%nat, u. by rewrite app_nil_r.
  - destruct (write_char_ends c u Hc) as (f1 & u1 & S1 & E1). destruct (IH u1) as (f2 & u2 & S2 & E2).
    exists (f1 `max` f2)%nat, u2. split; [by rewrite S2, S1, <- app_assoc|]. intros fuel' Hle. cbn [write_all].
    rewrite E1 by lia. apply E2. lia.
Qed.

(** A string in memory is sent like the list of its characters. *)
Lemma serial_write_all s n fuel m p u : str m p s -> alen s < Z.of_nat n ->
  serial_write n fuel m p u = write_all fuel s u.
Proof.
  revert s p u. induction n as [|n IH]; intros s p u Hs Hn; [pose proof (alen_nonneg s); lia|].
  cbn [serial_write]. rewrite (str_head _ _ _ Hs). destruct s as [|c s]; [done|].
  destruct (str_cons _ _ _ _ Hs) as (_ & Hc & E & Ht). rewrite (proj2 (Z.eqb_neq c 0)) by done. cbn [write_all].
  destruct (serial_write_char fuel c u); [|done]. rewrite E. apply IH; [done|]. rewrite alen_cons in Hn. lia.
Qed.
End serial.

(** ** The configuration of the chip *)

(** The write-only side of a 16550: interrupt enable, divisor, FIFO control,
    line control and modem control.  Bit 7 of the line control selects the
    divisor behind the first two ports. *)
Record uart_regs := mkUartRegs { ier : Z; dll : Z; dlm : Z; fcr : Z; lcr : Z; mcr : Z }.
Definition dlab (r : uart_regs) : bool := Z.testbit (lcr r) 7.
Definition uart_out (r : uart_regs) (pv : Z * Z) : uart_regs :=
  let '(port, v) := pv in
  if port =? 1016 then if dlab r then mkUartRegs (ier r) v (dlm r) (fcr r) (lcr r) (mcr r) else r
  else if port =? 1017 then
    if dlab r then mkUartRegs (ier r) (dll r) v (fcr r) (lcr r) (mcr r)
    else mkUartRegs v (dll r) (dlm r) (fcr r) (lcr r) (mcr r)
  else if port =? 1018 then mkUartRegs (ier r) (dll r) (dlm r) v (lcr r) (mcr r)
  else if port =? 1019 then mkUartRegs (ier r) (dll r) (dlm r) (fcr r) v (mcr r)
  else if port =? 1020 then mkUartRegs (ier r) (dll r) (dlm r) (fcr r) (lcr r) v
  else r.

(** After [serial_init] the line runs at 115200 / 3 = 38400 baud with eight
    data bits, no parity and one stop bit, the FIFOs are on and empty, no
    interrupt is enabled (if the divisor was not selected before, as after a
    reset), and the first port is the data register again. *)
Lemma serial_init_ok r : dlab r = false ->
  let r' := fold_left uart_out serial_init r in
  ier r' = 0 /\ 115200 / (256 * dlm r' + dll r') = 38400 /\ lcr r' = 3 /\ dlab r' = false /\ fcr r' = 199.
Proof.
  intros Hr. unfold serial_init. cbn [fold_left]. unfold uart_out at 7. cbn [Z.eqb COM1 Z.add Pos.add Pos.succ Pos.eqb Pos.add_carry].
  rewrite Hr. by vm_compute.
Qed.

(** ** The reset *)

(** [reboot] waits until the controller takes a command (bit 1 of its status
    clear), empties its output meanwhile, and sends one reset pulse. *)
Lemma reboot_resets busy status rest : Forall (fun v => Z.land v 2 <> 0) busy -> Z.land status 2 = 0 ->
  exists before, reboot (busy ++ status :: rest) = Some (before ++ [Out 100 254]) /\
    Forall (fun a => a = In 100 \/ a = In 96) before.
Proof.
  intros Hb Hs. induction Hb as [|v busy Hv Hb IH]; cbn [app reboot].
  - rewrite Hs. cbn [Z.eqb negb]. destruct (negb (Z.land status 1 =? 0)).
    + exists [In 100; In 96]. split; [done|]. repeat (apply Forall_cons; split; [by auto|]). done.
    + exists [In 100]. split; [done|]. repeat (apply Forall_cons; split; [by auto|]). done.
  - rewrite (proj2 (Z.eqb_neq _ 0) Hv). cbn [negb]. destruct IH as (before & -> & Hf). cbn [option_map].
    destruct (negb (Z.land v 1 =? 0)); [exists (In 100 :: In 96 :: before)|exists (In 100 :: before)]; (split; [done|]); repeat (apply Forall_cons; split; [by auto|]); done.
Qed.

(** ** The console and the line *)

(** C40: the serial line carries what the console logs.  On any chip that keeps
    the promises of its data sheet, sending the characters of a text, or a
    terminated string from memory, ends after finitely many reads of the
    status and puts exactly those characters on the line, in order; and they
    are the characters by which [kprint] extends its log. *)
Theorem serial_line_correct {U : Type} `{UartLaws U} (u : U) (m : memory) (p : Z) (t : list Z) (s : screen) :
  str m p t -> Forall is_byte t ->
  exists fuel u', sent u' = sent u ++ t /\
    (forall fuel', (fuel <= fuel')%nat -> write_all fuel' t u = Some u' /\ serial_write fuel' fuel' m p u = Some u') /\
    serial (kprint t s) = serial s ++ t.
Proof.
  intros Hs Hb. destruct (write_all_ends t u Hb) as (fuel & u' & Hsent & Hrun).
  exists (fuel `max` S (length t))%nat, u'. split; [done|]. split.
  - intros fuel' Hle. split; [apply Hrun; lia|]. rewrite (serial_write_all t) by (done || unfold alen; lia). apply Hrun. lia.
  - assert (E : cstr t = t).
    { destruct Hs as ([_ Hn] & _). clear -Hn. induction Hn as [|c t Hc _ IH]; cbn [cstr]; [done|]. by rewrite (proj2 (Z.eqb_neq c 0) Hc), IH. }
    by rewrite kprint_serial, E by (by rewrite E).
Qed.

(** ** A chip *)

(** A transmitter that needs fourteen reads of its status for a character and
    loses what is written to it meanwhile. *)
Record slow_uart := SlowUart { busy : nat; wire : list Z }.
#[export] Instance slow_uart_regs : Uart slow_uart := {|
  read_lsr u := match busy u with O => (96, u) | S n => (0, SlowUart n (wire u)) end;
  write_thr c u := match busy u with O => SlowUart 14 (wire u ++ [c]) | _ => u end;
  sent := wire;
|}.
#[export] Instance slow_uart_laws : UartLaws slow_uart.
Proof.
  split.
  - intros [n w]. exists n. revert w. induction n as [|n IH]; intros w; cbn [after_polls]; [done|]. apply IH.
  - by intros [[|n] w].
  - by intros [[|n] w] c.
Qed.

Definition uart_memory : memory := fun x => if x =? 100 then 79 else if x =? 101 then 75 else 0.

Lemma serial_line_correct_witness : exists fuel u', sent u' = [79; 75] /\
  forall fuel', (fuel <= fuel')%nat -> serial_write fuel' fuel' uart_memory 100 (SlowUart 3 []) = Some u'.
Proof.
  destruct (serial_line_correct (SlowUart 3 []) uart_memory 100 [79; 75] cleared) as (fuel & u' & H1 & H2 & _).
  - split; [|by vm_compute]. split; [|by repeat constructor]. intros i Hi. change (0 <= i < 3) in Hi.
    assert (i = 0 \/ i = 1 \/ i = 2) as [->|[->| ->]] by lia; reflexivity.
  - by repeat constructor.
  - exists fuel, u'. split; [exact H1|]. intros fuel' Hle. apply (H2 fuel' Hle).
Defined.
