(* ===== verification/Boot.v ===== *)
(** * Starting the machine ([kernel/init.c])

    [main_entry] puts the components together; at its end, when interrupts
    are enabled, the invariants that the other theorems assume hold.  It starts
    with any values in the variables of the BSS, which it clears first. *)
From Stdlib Require Import String.
From stdpp Require Import base numbers list list_numbers.
From S2P Require Import Prelude Machine Heap BlockDev Fs FsData FsProofs FsProps Paging Pit Sched SchedProps Frames SchedInv Elf Keyboard Screen Exec Shell ShellEdit ShellCmd ShellSafe Descriptors.

(** The addresses that the linker and the assembler fix, and the programs
    embedded in the image. *)
Record image := mkImage {
  bss_start : Z; bss_end : Z; im_exec_stacks : Z; im_elf_staging : Z; im_input_buffer : Z;
  tss_at : Z; tss_kernel_stack : Z; isr : Z -> Z; timer_at : Z; keyboard_at : Z; syscall_at : Z;
  task_exit_at : Z; shell_name : Z; task_clock : Z; clock_name : Z;
  user_task_demo : Z; demo_name : Z; user_demo_stack : Z; hello_elf : list Z; echo_elf : list Z;
}.

Section boot.
Context {D : Type} `{BlockDevice D}.
Context (L : Layout) (im : image).

(** The machine: the shell with the system under it, the keyboard, the tables
    of the processor and what was sent to the ports of the serial line and of the
    interrupt controllers. *)
Record machine := mkMachine {
  sh : shell D; kbd : keyboard; gdt : list gdt_entry; tss : tss_entry; idt : list idt_entry; ports : list (Z * Z) }.

Definition user_demo_stack_size : Z := 4096.
Definition user_demo_stack_top : Z := user_demo_stack im ⊕ user_demo_stack_size.

(** What [main_entry] finds: the memory, the disk, and the static variables of
    all the components (the shell and the system under it, the keyboard, the
    two tables). *)
Record statics := mkStatics {
  st_sh : shell D; st_kbd : keyboard; st_gdt : list gdt_entry; st_idt : list idt_entry }.

Definition on_kernel (f : kernel -> kernel) (st : shell D) : shell D :=
  set_sys (set_ek (f (ek (sys st))) (sys st)) st.
(** A task is created; the failure is only reported. *)
Definition start_task (op : kernel -> outcome Z) (warning : list Z) (st : shell D) : option (shell D) :=
  match op (ek (sys st)) with
  | Done pid k =>
    let st := on_kernel (fun _ => k) st in
    Some (if pid <? 0 then sh_print warning st else st)
  | _ => None
  end.

(** The loop over the BSS: the buffers, which are bytes of the memory, and the
    variables without an initial value.  Those of the data section
    ([slot_pid], [history_nav], [frequency]), the registers of the processor
    and the disk stay as they are. *)
Definition clear_bytes (m : memory) : memory :=
  store_bytes (Z.to_nat (bss_end im - bss_start im)) (bss_start im) (fun _ => 0) m.
Definition clear_kernel (k : kernel) : kernel :=
  let zeros := build 1024 (fun _ => 0) in
  mkKernel (build 16 (fun _ => zero_task)) 0 false 0 (clear_bytes (mem k)) 0
    (mkPaging zeros zeros (build 6 (fun _ => zeros)) (build 6 (fun _ => zeros)) (build 6 (fun _ => 0))
       (cr3 (pages k)) (paging_on (pages k)))
    (mkPit 0 (frequency (clock k)) (port_log (clock k))) 0 (Sched.console k).
Definition clear_shell (st : shell D) : shell D :=
  let e := sys st in
  mkShell (mkExec (clear_kernel (ek e)) (mkFs zero_root zero_bitmap (dev (efs e)) (Fs.console (efs e))) (slot_pid e))
    0 (build 8 (fun _ => build 256 (fun _ => 0))) (build 8 (fun _ => 0)) 0 (history_nav st)
    (build 256 (fun _ => 0)) 0 (clears st).
Definition clear_bss (s : statics) : statics :=
  mkStatics (clear_shell (st_sh s))
    (mkKeyboard (build 256 (fun _ => 0)) 0 0 0 0 (kbd_ports (st_kbd s)))
    (build GDT_ENTRIES (fun _ => mkGdtEntry 0 0 0 0 0 0)) (build IDT_ENTRIES (fun _ => mkIdtEntry 0 0 0 0 0)).

(** The first half of [main_entry]: devices, tables, files, shell. *)
Definition boot_devices (gdt : list gdt_entry) (st : shell D) : shell D * list gdt_entry * tss_entry :=
  let st := sh_clear_screen st in
  let st := sh_print (text "MxOS Kernel Loading..." ++ newline) st in
  let '(g, t) := gdt_init (tss_at im) (tss_kernel_stack im) gdt in
  let st := on_kernel (tss_set_kernel_stack (esp0 t)) st in
  let st := on_kernel (fun k => set_clock (pit_init 100 (clock k)) k) st in
  let '(_, st) := sh_fs fs_init st in
  let st := set_sys (snd (exec_seed_programs (hello_elf im) (echo_elf im) (sys st))) st in
  (shell_init st, g, t).

(** The second half: paging, heap, tasks. *)
Definition heap_base : Z := 1048576.
Definition heap_size : Z := 1048576.
Definition boot_memory_setup (st : shell D) : shell D :=
  let st := sh_print (text "Enabling paging..." ++ newline) st in
  let '(p, msg) := paging_init L (pages (ek (sys st))) in
  let st := sh_print msg (on_kernel (set_pages p) st) in
  let st := sh_print (text "Initializing memory..." ++ newline) st in
  let '(hs, m) := heap_init heap_base heap_size (sh_mem st) in
  on_kernel (fun k => mkKernel (tasks k) (current_task k) (multitasking_enabled k) (task_count k) m hs (pages k)
    (clock k) (tss_esp0 k) (Sched.console k)) st.

Definition boot_tasks (st : shell D) : option (shell D) :=
  let st := sh_print (text "Starting scheduler..." ++ newline) st in
  let st := on_kernel (init_multitasking (shell_name im)) st in
  match start_task (create_task (task_exit_at im) (task_clock im) (clock_name im))
          (text "Warning: unable to create clock task." ++ newline) st with
  | None => None
  | Some st =>
    start_task (create_user_task L (user_task_demo im) (demo_name im) user_demo_stack_top user_demo_stack_size)
      (text "Warning: unable to create user demo task." ++ newline) st
  end.

(** [main_entry] up to [sti]. *)
Definition main_entry (s : statics) : option machine :=
  let s := clear_bss s in
  let '(st, g, t) := boot_devices (st_gdt s) (st_sh s) in
  match boot_tasks (boot_memory_setup st) with
  | None => None
  | Some st => Some (mkMachine st (st_kbd s) g t (set_gates (isr im) (timer_at im) (keyboard_at im) (syscall_at im) (st_idt s))
      (serial_init ++ remap_pic))
  end.
End boot.
Arguments machine D : clear implicits.
Arguments statics D : clear implicits.

(** ** The tasks of a started machine *)

(** The context of a ring-0 frame depends only on the frame. *)
Lemma interrupt_return_agree sp m m' : 0 <= sp -> sp + 44 <= 4294967296 ->
  in_ring3 (load32 m (sp ⊕ 36)) = false ->
  agree_on (range sp 44) m m' -> interrupt_return sp m' = interrupt_return sp m.
Proof.
  intros H0 H1 Hr Hag. unfold interrupt_return.
  assert (Hw : forall i, 0 <= i -> i + 4 <= 44 -> load32 m' (sp ⊕ i) = load32 m (sp ⊕ i)).
  { intros i Hi Hi4. rewrite u32_id by (unfold is_u32; lia). apply load32_agree; [lia|lia|].
    eapply agree_on_weaken; [|exact Hag]. unfold range. lia. }
  cbv beta zeta. rewrite (Hw 36), Hr by lia. by rewrite !Hw by lia.
Qed.

Lemma init_multitasking_tasks L total nm k bs : booted L total k bs ->
  let k' := init_multitasking nm k in
  task_count k' = 1 /\ current_task k' = 0 /\ heap_start k' = heap_start k /\ mem k' = mem k /\
  active (task k' 0) = true /\ Sched.name (task k' 0) = nm /\ priority (task k' 0) = 0 /\
  forall i, 1 <= i < 16 -> active (task k' i) = false.
Proof.
  intros Hb. destruct (reset_loop L total k bs Hb) as (Hm & Hhs & _ & Hl & Ht). cbv zeta. unfold init_multitasking.
  set (k1 := for_loop _ 0 _ k) in *. clearbody k1.
  assert (Hget : forall i, 0 <= i < 16 -> task (set_multitasking_enabled true (set_current_task 0 (set_task_count 1
    (upd_task 0 (fun t => set_priority 0 (set_active true (set_name nm t))) k1)))) i =
    if 0 =? i then set_priority 0 (set_active true (set_name nm (reset_task zero_task))) else reset_task zero_task).
  { intros i Hi. unfold task, upd_task. cbn [tasks set_multitasking_enabled set_current_task set_task_count set_tasks].
    rewrite arr_get_set by lia. rewrite !Ht by lia. done. }
  split_and!; [done|done|exact Hhs|exact Hm|by rewrite Hget by lia..|].
  intros i Hi. rewrite Hget by lia. by rewrite (proj2 (Z.eqb_neq 0 i)) by lia.
Qed.

Lemma reset_spaces L total nm k bs : booted L total k bs ->
  forall i, 0 <= i < 16 -> addr_space (task (init_multitasking nm k) i) = -1.
Proof.
  intros Hb i Hi. destruct (reset_loop L total k bs Hb) as (_ & _ & _ & Hl & Ht). unfold init_multitasking.
  set (k1 := for_loop _ 0 _ k) in *. clearbody k1. unfold task, upd_task.
  cbn [tasks set_multitasking_enabled set_current_task set_task_count set_tasks].
  rewrite arr_get_set by lia. rewrite !Ht by lia. by destruct (0 =? i).
Qed.

Lemma free_slot_is k i : 0 <= i < 16 -> active (task k i) = false ->
  (forall j, 0 <= j < i -> active (task k j) = true) -> free_task_slot k = Some i.
Proof.
  intros Hi Ha Hb. apply find_index_intro; [change (Z.to_nat MAX_TASKS) with 16%nat; lia|by rewrite Ha|].
  intros j Hj. by rewrite Hb.
Qed.

Section tasks.
Context (L : Layout) (im : image).
Context (layout_fine : layout_ok L) (clock_range : is_u32 (task_clock im)) (demo_range : is_u32 (user_task_demo im)).
Context (demo_stack : 0 <= user_demo_stack im /\ user_demo_stack im + 4096 < 4294967296).

Definition demo_window : window := user_window (user_demo_stack_top im) user_demo_stack_size 0 0.

Lemma demo_window_ok : window_ok demo_window /\ is_u32 (user_demo_stack_top im).
Proof.
  unfold window_ok, demo_window, user_window, user_demo_stack_top, user_demo_stack_size.
  cbn [w_code w_code_size w_stack w_stack_size]. rewrite (u32_id (user_demo_stack im + 4096)), u32_id by (unfold is_u32; lia).
  unfold is_u32. lia.
Qed.

(** What runs when interrupts are enabled: the shell, which is the current
    task, the clock in ring 0 and the demonstration in ring 3, which reaches
    its stack and the shared image. *)
Record started (k : kernel) : Prop := {
  sd_count : task_count k = 3;
  sd_current : current_task k = 0;
  sd_active i : 0 <= i < 16 -> active (task k i) = (i <? 3);
  sd_names : Sched.name (task k 0) = shell_name im /\ Sched.name (task k 1) = clock_name im /\
    Sched.name (task k 2) = demo_name im;
  sd_clock : exists top, interrupt_return (esp (task k 1)) (mem k) = kernel_context (task_clock im) top;
  sd_demo : interrupt_return (esp (task k 2)) (mem k) =
    user_context (user_task_demo im) (user_demo_stack_top im) 0 0;
  sd_reach write v : is_u32 v ->
    walk L (pages k) true write (paging_task_directory_phys L (addr_space (task k 2))) v =
    if (v <? 4194304) && reachable L demo_window v then Some v else None;
}.

(** The first creation, on the fresh heap. *)
Lemma clock_created k : booted L heap_size k [Block 1048564 true] -> heap_start k = heap_base ->
  exists k1 sp, create_task (task_exit_at im) (task_clock im) (clock_name im)
      (init_multitasking (shell_name im) k) = Done 1 k1 /\
    kernel_wf L heap_size k1 [Block 4096 false; Block 1044456 true] sp /\
    (exists top, spawned (init_multitasking (shell_name im) k) k1 1 (kernel_context (task_clock im) top)) /\
    addr_space (task k1 1) = -1 /\
    took (init_multitasking (shell_name im) k) [Block 1048564 true] k1 [Block 4096 false; Block 1044456 true] 1 (clock_name im) 12.
Proof.
  intros Hb Hhs. pose proof (init_multitasking_wf L heap_size (shell_name im) k _ Hb) as Hwf.
  destruct (init_multitasking_tasks L heap_size (shell_name im) k _ Hb) as (_ & _ & Hh & _ & H0 & _ & _ & Hrest).
  set (k0 := init_multitasking (shell_name im) k) in *. clearbody k0.
  destruct (create_task_ok L heap_size (task_exit_at im) (task_clock im) (clock_name im) k0 _ _ Hwf clock_range)
    as (r & k1 & bs1 & sp1 & E & Hwf1 & [(_ & _ & [Hno|[Hno|[]]])|(top & Hs & Ha & Htook)]).
  { specialize (Hno 1 ltac:(lia)). by rewrite Hrest in Hno by lia. }
  { apply Forall_inv in Hno. cbn in Hno. unfold TASK_STACK_SIZE in Hno. specialize (Hno eq_refl). lia. }
  pose proof Htook as (Hslot & Hal & _). rewrite Hh, Hhs in Hal.
  rewrite (free_slot_is k0 1) in Hslot; [|lia|by apply Hrest|intros j Hj; by replace j with 0 by lia].
  injection Hslot as <-. cbn [alloc_blocks bfree bsize andb] in Hal. injection Hal as _ <-.
  exists k1, sp1. split_and!; try done. by exists top.
Qed.

(** The clock's stack is a used block of the heap. *)
Lemma clock_stack k k1 : heap_start k = heap_base ->
  took k [Block 1048564 true] k1 [Block 4096 false; Block 1044456 true] 1 (clock_name im) 12 ->
  stack_base (task k1 1) = 1048588 /\ esp (task k1 1) = 1052636 /\
  forall x, range 1048588 4096 x -> kept heap_base [Block 4096 false; Block 1044456 true] x.
Proof.
  intros Hhs (_ & Hal & He & _). rewrite Hhs in Hal. cbn in Hal. injection Hal as Hb. rewrite <- Hb in *.
  change (heap_base + 12) with 1048588 in *. split_and!; [done|lia|]. intros x Hx. right. right. exists 1048588, 4096. split; [|done]. apply list_elem_of_here.
Qed.

(** No address space is in use while no task has one. *)
Lemma no_space_used k1 bs sp : kernel_wf L heap_size k1 bs sp ->
  (forall i, 0 <= i < 16 -> addr_space (task k1 i) = -1) -> sp.[0] = None.
Proof.
  intros Hwf Ha. destruct sp.[0] eqn:E; [exfalso|done].
  assert (Hin : 0 ∈ used_spaces sp) by (apply used_spaces_elem; unfold MAX_ADDR_SPACES; split; [lia|by rewrite E]).
  rewrite (kw_spaces _ _ _ _ _ Hwf) in Hin. apply owned_elem in Hin as (i & Hi & Hi0). rewrite (kw_len _ _ _ _ _ Hwf) in Hi.
  unfold own_space in Hi0. fold (task k1 i) in Hi0. rewrite Ha in Hi0 by lia. by apply not_elem_of_nil in Hi0.
Qed.

(** Both creations. *)
Lemma tasks_started k : booted L heap_size k [Block 1048564 true] -> heap_start k = heap_base ->
  exists k1 k2 bs sp,
    create_task (task_exit_at im) (task_clock im) (clock_name im) (init_multitasking (shell_name im) k) = Done 1 k1 /\
    create_user_task L (user_task_demo im) (demo_name im) (user_demo_stack_top im) user_demo_stack_size k1 = Done 2 k2 /\
    kernel_wf L heap_size k2 bs sp /\ started k2 /\ heap_start k2 = heap_base /\
    agree_on (fun x => ~ range heap_base heap_size x) (mem k) (mem k2) /\ (mem_bytes (mem k) -> mem_bytes (mem k2)).
Proof.
  intros Hb Hhs. destruct (clock_created k Hb Hhs) as (k1 & sp1 & E1 & Hwf1 & (top & Hs1) & Ha1 & Ht1).
  destruct (init_multitasking_tasks L heap_size (shell_name im) k _ Hb) as (Hc0 & Hu0 & Hh0 & Hm0 & H0 & Hn0 & _ & Hrest).
  pose proof (reset_spaces L heap_size (shell_name im) k _ Hb) as Hsp0.
  set (k0 := init_multitasking (shell_name im) k) in *. clearbody k0. clear Hb. rewrite Hhs in Hh0.
  destruct (clock_stack k0 k1 Hh0 Ht1) as (Hb1 & He1 & Hkept).
  destruct Ht1 as (_ & _ & _ & Hn1 & Hc1 & Hu1 & Hh1 & Hag1 & Hby1). rewrite Hh0 in *.
  destruct Hs1 as (_ & _ & Hact1 & _ & _ & _ & Hoth1 & Hret1).
  destruct demo_window_ok as [Hw Htop].
  destruct (create_user_task_ok L heap_size (user_task_demo im) (demo_name im) (user_demo_stack_top im) user_demo_stack_size
    0 0 0 0 k1 _ _ layout_fine Hwf1 Hw demo_range Htop) as (r & k2 & bs2 & sp2 & E2 & Hwf2 & Hcase); [unfold is_u32; lia..|].
  destruct Hcase as [(_ & _ & [Hno|[Hno|Hno]])|(Hs2 & Hsp2 & Hsw & Ht2)].
  { specialize (Hno 2 ltac:(lia)). rewrite Hoth1, Hrest in Hno by lia. done. }
  { apply Forall_cons in Hno as [_ Hno]. apply Forall_inv in Hno. cbn in Hno. unfold TASK_STACK_SIZE in Hno.
    specialize (Hno eq_refl). lia. }
  { destruct (Hno 0); [by unfold MAX_ADDR_SPACES|]. apply (no_space_used _ _ _ Hwf1). intros i Hi.
    destruct (decide (i = 1)) as [->|]; [done|]. rewrite Hoth1 by lia. by apply Hsp0. }
  destruct Ht2 as (Hslot & _ & _ & Hn2 & Hc2 & Hu2 & Hh2 & Hag2 & Hby2).
  rewrite (free_slot_is k1 2) in Hslot;
    [|lia|by rewrite Hoth1, Hrest by lia|intros j Hj; destruct (decide (j = 1)) as [->|]; [done|];
      rewrite Hoth1 by lia; by replace j with 0 by lia].
  injection Hslot as <-. destruct Hs2 as (_ & _ & Hact2 & _ & _ & _ & Hoth2 & Hret2).
  exists k1, k2, bs2, sp2. split_and!; [done|exact E2|done| |congruence| |by rewrite Hm0 in Hby1; auto].
  - split.
    + rewrite Hc2, Hc1, Hc0. done.
    + congruence.
    + intros i Hi. destruct (decide (i = 2)) as [->|]; [done|]. rewrite Hoth2 by lia.
      destruct (decide (i = 1)) as [->|]; [done|]. rewrite Hoth1 by lia.
      destruct (decide (i = 0)) as [->|]; [done|]. rewrite Hrest by lia. symmetry. apply Z.ltb_ge. lia.
    + rewrite !Hoth2, (Hoth1 0) by lia. done.
    + exists top. rewrite Hoth2 by lia. rewrite <- Hret1. rewrite He1 in *. apply interrupt_return_agree; [lia|lia| |].
      * pose proof (f_equal r_cs Hret1) as Hcs. cbn in Hcs. by rewrite Hcs.
      * intros x Hx. apply Hag2. rewrite Hh1. apply Hkept. unfold range in *. lia.
    + exact Hret2.
    + intros write v Hv. rewrite (walk_space L layout_fine _ sp2 _ demo_window); [done|apply Hwf2| |done]. left. by split.
  - intros x Hx. rewrite Hag2, Hag1, Hm0; [done|..]; rewrite ?Hh1; unfold kept, range, heap_base, heap_size in *; cbn [extent bsize]; lia.
Qed.
End tasks.

(** ** Files and history at the start *)

Section files.
Context {D : Type} `{BlockDeviceLaws D}.
Context (disk_large : FS_DATA_END_LBA <= nsectors).
Implicit Types st : shell D.

Lemma file_exists_ok (f : fs D) nm : good_name nm ->
  fs_file_exists (Some nm) f = (bool_decide (is_Some (lookup_file f nm)), f).
Proof.
  intros Hn. unfold fs_file_exists. rewrite name_arg_good by done. unfold gets. f_equal. unfold lookup_file.
  apply bool_decide_ext. destruct (find_entry _ _); [by rewrite !is_Some_alt|done].
Qed.

(** [on_fs] for an operation whose effect on the files is known. *)
Lemma on_fs_eq {A} (op : M (fs D) A) e a f : op (quiet (efs e)) = (a, f) ->
  on_fs op e = (a, mkExec (Sched.kprint (Fs.console f) (ek e)) f (slot_pid e)).
Proof. intros E. unfold on_fs, quiet in *. by rewrite E. Qed.

(** A program is written under its name unless a file has it. *)
Definition seeded (old : option (list Z)) (blob : list Z) (new : option (list Z)) : Prop :=
  match old with
  | Some c => new = Some c
  | None => new = None \/ new = Some (padded blob (alen blob))
  end.

Lemma seed_ok nm blob e : fs_wf (efs e) -> good_name nm -> alen nm <= 23 -> Forall is_byte blob ->
  alen blob + 511 < 4294967296 ->
  exists out f, (exec_seed_program nm blob e).2 = mkExec (Sched.kprint out (ek e)) f (slot_pid e) /\ fs_wf f /\
    (forall nm', good_name nm' -> nm' <> nm -> lookup_file f nm' = lookup_file (efs e) nm') /\
    seeded (lookup_file (efs e) nm) blob (lookup_file f nm).
Proof.
  intros Hwf Hn Hl Hb Hsz. pose proof (alen_nonneg blob). unfold exec_seed_program, bind at 1.
  rewrite (on_fs_eq _ e _ _ (file_exists_ok _ nm Hn)). change (lookup_file (quiet (efs e)) nm) with (lookup_file (efs e) nm).
  change (Fs.console (quiet (efs e))) with (@nil Z). set (e1 := mkExec _ _ _).
  destruct (lookup_file (efs e) nm) as [c|] eqn:Elk.
  { rewrite bool_decide_eq_true_2 by done. exists [], (quiet (efs e)). split_and!; [done|by apply fs_wf_console|done|].
    cbn. exact Elk. }
  rewrite bool_decide_eq_false_2 by (by intros []). cbn [negb when]. rewrite u32_id by (unfold is_u32; lia).
  unfold when at 1. destruct (Z.ltb_spec 0 (alen blob)) as [Hpos|Hz].
  2:{ exists [], (quiet (efs e)). split_and!; [done|by apply fs_wf_console|done|]. left. exact Elk. }
  destruct (fs_write_file_ok disk_large (quiet (efs e1)) nm blob (alen blob) true) as (r & f & E & Hwf' & Hlk & Hcase);
    [exact (fs_wf_console (efs e) [] Hwf)|done|done|done|lia|lia|].
  unfold bind. unfold fs_write_file. rewrite (on_fs_eq _ e1 _ _ E). exists (Fs.console f), f.
  split; [unfold e1, Sched.kprint, ret; cbn; by rewrite app_nil_r|]. split; [done|]. split; [exact Hlk|].
  destruct Hcase as [[_ Hs]|(_ & Hs & _)]; [by right|by left].
Qed.

(** A step of [shell_init] that only reads files and prints. *)
Definition only_reads st st' : Prop := exists out f, same_files (efs (sys st)) f /\
  st' = set_sys (mkExec (Sched.kprint out (ek (sys st))) f (slot_pid (sys st))) st.

Lemma only_reads_print t st st' : only_reads st st' -> only_reads st (sh_print t st').
Proof.
  intros (out & f & Hf & ->). exists (out ++ t), f. split; [done|]. unfold sh_print, exec_print, set_sys, set_ek, Sched.kprint. cbn.
  by rewrite app_assoc.
Qed.

Lemma only_reads_fs {A} (op : M (fs D) A) st st' a f : only_reads st st' -> fs_wf (efs (sys st)) ->
  op (quiet (efs (sys st'))) = (a, f) -> same_files (efs (sys st')) f ->
  only_reads st (sh_fs op st').2 /\ (sh_fs op st').1 = a.
Proof.
  intros (out & f1 & Hf & ->) Hwf E Hs. rewrite (sh_fs_eq op _ a f E). split; [|done].
  exists (out ++ Fs.console f), f. split; [by eapply same_files_trans|].
  unfold set_sys, Sched.kprint. cbn. by rewrite app_assoc.
Qed.

Lemma quiet_same st : fs_wf (efs (sys st)) -> same_files (efs (sys st)) (quiet (efs (sys st))).
Proof. intros Hwf. split_and!; [done|done|]. split; [apply Hwf|done]. Qed.

Lemma only_reads_refl st : fs_wf (efs (sys st)) -> only_reads st st.
Proof.
  intros Hwf. exists [], (efs (sys st)). split; [split_and!; [done|done|]; split; [apply Hwf|done]|].
  destruct st as [[[] ? ?] ? ? ? ? ? ? ? ?]. unfold set_sys, Sched.kprint. cbn. by rewrite app_nil_r.
Qed.

Lemma only_reads_files st st' : only_reads st st' -> fs_wf (efs (sys st)) ->
  fs_wf (efs (sys st')) /\ same_files (efs (sys st)) (efs (sys st')).
Proof. intros (out & f & Hf & ->) Hwf. split; [by eapply same_files_wf|done]. Qed.

Lemma good_motd : good_name MOTD_FILE.
Proof. split; [done|]. vm_compute. by repeat constructor. Qed.

Lemma motd_reads st st0 : only_reads st0 st -> fs_wf (efs (sys st0)) -> only_reads st0 (shell_show_motd st).
Proof.
  intros Hr Hwf0. destruct (only_reads_files _ _ Hr Hwf0) as [Hwf _]. unfold shell_show_motd.
  destruct (only_reads_fs _ _ _ _ _ Hr Hwf0 (file_exists_ok (quiet (efs (sys st))) _ good_motd) (quiet_same st Hwf)) as [R1 _].
  destruct (sh_fs (fs_file_exists (Some MOTD_FILE)) st) as [[|] st1]; cbn [snd negb] in *; [|done].
  destruct (only_reads_files _ _ R1 Hwf0) as [Hwf1 _].
  destruct (fs_load_file_ok disk_large (quiet (efs (sys st1))) MOTD_FILE sizeof_motd_buf) as (f & F1 & F2 & F3 & E);
    [exact (fs_wf_console _ [] Hwf1)|exact good_motd|].
  destruct (only_reads_fs _ _ _ _ _ R1 Hwf0 E (conj F1 (conj F2 F3))) as [R2 _].
  destruct (sh_fs (fs_load_file (Some MOTD_FILE) false sizeof_motd_buf) st1) as [[[|] buf] st2]; cbn [snd negb] in *; [|done].
  apply only_reads_print. apply (for_loop_ind (fun _ st' => only_reads st0 st')); [by apply only_reads_print|].
  intros j st' _ Hst. by apply only_reads_print.
Qed.

(** The history file holds [cmds], the most recent first, as [history_save]
    writes them. *)
Definition saved_history (files : list Z -> option (list Z)) (cmds : list (list Z)) : Prop :=
  Forall command cmds /\ alen cmds <= 8 /\
  files HISTORY_FILE =
    if decide (cmds = []) then None
    else let t := take 2047 (joined (reverse cmds)) in Some (padded t (alen t)).

Lemma history_start ib st cmds : fs_wf (efs (sys st)) -> edit_ok ib st ->
  saved_history (lookup_file (efs (sys st))) cmds ->
  exists st1, only_reads st st1 /\ history_load_from_disk st = fold_left push_cmd (reverse cmds) st1.
Proof.
  intros Hwf Hok (Hc & Hlen & Hf). destruct (decide (cmds = [])) as [->|Hne].
  - unfold history_load_from_disk. destruct (good_history) as [Hg _].
    destruct (only_reads_fs _ _ _ _ _ (only_reads_refl st Hwf) Hwf (file_exists_ok (quiet (efs (sys st))) _ Hg) (quiet_same st Hwf))
      as [R1 E1]. change (lookup_file (quiet (efs (sys st)))) with (lookup_file (efs (sys st))) in E1. rewrite Hf in E1.
    rewrite bool_decide_eq_false_2 in E1 by (by intros []).
    destruct (sh_fs (fs_file_exists (Some HISTORY_FILE)) st) as [ex st1]. cbn [fst snd] in *. subst ex. by exists st1.
  - set (t := take 2047 (joined (reverse cmds))) in *. assert (Hrc : Forall command (reverse cmds)) by (by apply Forall_reverse).
    assert (Hlr : alen (reverse cmds) <= 8) by (unfold alen in *; by rewrite length_reverse).
    assert (Hz : Forall (fun c => c <> 0) t).
    { apply Forall_take. eapply Forall_impl; [by apply joined_nonzero|]. by intros c [_ Hc0]. }
    assert (Ht : 0 < alen t <= 2047).
    { unfold t, alen. rewrite length_take. split; [|lia]. destruct cmds as [|s cs]; [done|].
      rewrite reverse_cons, joined_snoc, !length_app. cbn [length]. lia. }
    destruct (history_load_ok ib disk_large st t Hok Hwf Hz Ht Hf) as (out & f & Hsf & ->).
    eexists. split; [by exists out, f|]. f_equal. unfold t. apply lines_text; [done|].
    pose proof (joined_length _ Hrc). lia.
Qed.

Lemma push_cmds_sys cmds st : sys (fold_left push_cmd cmds st) = sys st /\
  buffer_idx (fold_left push_cmd cmds st) = buffer_idx st.
Proof. revert st. induction cmds as [|c cmds IH]; intros st; [done|]. cbn [fold_left]. destruct (IH (push_cmd st c)) as [-> ->]. done. Qed.

(** [shell_init] on a shell that was just loaded. *)
Lemma shell_init_ok ib st cmds : fs_wf (efs (sys st)) -> edit_ok ib st -> history_count st = 0 -> buffer_idx st = 0 ->
  saved_history (lookup_file (efs (sys st))) cmds ->
  let st' := shell_init st in
  edit_ok ib st' /\ commands st' = cmds /\ buffer_idx st' = 0 /\
  exists out f, same_files (efs (sys st)) f /\ sys st' = mkExec (Sched.kprint out (ek (sys st))) f (slot_pid (sys st)).
Proof.
  intros Hwf Hok Hc Hi Hs st'.
  assert (Hset : forall e, edit_ok ib (set_sys e st)).
  { intros e. apply edit_ok_sys; [|done]. unfold line. cbn [buffer_idx set_sys]. by rewrite Hi. }
  unfold shell_init in st'. set (banner := newline ++ text "MxOS Shell v1.0" ++ _) in st'. clearbody banner.
  set (sa := sh_print banner st) in st'.
  destruct (history_start ib sa cmds Hwf (Hset _) Hs) as (s1 & (o1 & f1 & F1 & E1) & Eh). fold sa in st'.
  set (sh0 := history_load_from_disk sa) in *.
  destruct (push_cmds_ok ib (reverse cmds) s1) as [Hok1 Hc1]; [rewrite E1; apply Hset|by apply Forall_reverse; destruct Hs|].
  destruct (push_cmds_sys (reverse cmds) s1) as [Hsys1 Hi1]. rewrite <- Eh in *. rewrite reverse_involutive in Hc1.
  assert (Hcm : commands sh0 = cmds).
  { rewrite Hc1. assert (Hn : commands s1 = []) by (unfold commands, max_steps; replace (history_count s1) with 0 by (rewrite E1; symmetry; exact Hc); done).
    rewrite Hn, app_nil_r. apply take_ge. destruct Hs as (_ & Hl8 & _). unfold alen in Hl8. lia. }
  assert (Hwf1 : fs_wf (efs (sys sh0))) by (rewrite Hsys1, E1; by eapply same_files_wf).
  destruct (motd_reads sh0 sh0 (only_reads_refl _ Hwf1) Hwf1) as (o2 & f2 & F2 & E2).
  assert (Hidx : buffer_idx sh0 = 0) by (rewrite Hi1, E1; exact Hi).
  assert (Hst : st' = set_buffer_idx 0 (set_sys (exec_print prompt (sys (shell_show_motd sh0))) sh0)).
  { unfold st'. rewrite E2. done. }
  split_and!.
  - rewrite Hst. assert (Hb : edit_ok ib (set_sys (exec_print prompt (sys (shell_show_motd sh0))) sh0)).
    { apply edit_ok_sys; [|done]. unfold line. cbn [buffer_idx set_sys]. by rewrite Hidx. }
    destruct Hb. split; try done; lia.
  - by rewrite Hst.
  - by rewrite Hst.
  - exists (banner ++ o1 ++ o2 ++ prompt), f2.
    split; [eapply same_files_trans; [exact F1|]; rewrite Hsys1, E1 in F2; exact F2|].
    rewrite Hst, E2, Hsys1, E1. change (sys sa) with (exec_print banner (sys st)). unfold exec_print, set_ek, Sched.kprint, set_sys, set_buffer_idx. cbn [sys ek efs slot_pid Sched.console].
    rewrite <- !app_assoc. done.
Qed.
End files.

(** ** The whole start *)

Section start.
Context {D : Type} `{BlockDeviceLaws D}.
Context (disk_large : FS_DATA_END_LBA <= nsectors).
Context (L : Layout) (im : image).

(** What is on the disk: nothing (no signature), or the files of an earlier
    run. *)
Definition disk_holds (d : D) (files : list Z -> option (list Z)) : Prop :=
  (working d /\ magic (decode_root (disk_root d)) <> FS_MAGIC /\ forall nm, files nm = None) \/
  exists f, fs_wf f /\ dev f = d /\ forall nm, lookup_file f nm = files nm.

Lemma fs_init_any d files s : disk_holds d files -> dev s = d -> root_typed (root s) ->
  exists f, fs_init s = (tt, f) /\ fs_wf f /\ forall nm, good_name nm -> lookup_file f nm = files nm.
Proof.
  intros [(Hw & Hm & Hf)|(f0 & Hwf & Hd & Hf)] Hs Hr.
  - destruct (format_ok disk_large s) as (f & E & Hwf & Hroot); [by rewrite Hs|done|by rewrite Hs|].
    exists f. split_and!; [done|done|]. intros nm Hn. rewrite Hf. by apply lookup_formatted.
  - destruct (fs_reboot_ok disk_large f0 s Hwf Hr) as (f & E & Hwf' & _ & _ & Hlk); [congruence|].
    exists f. split_and!; [done|done|]. intros nm _. by rewrite Hlk.
Qed.

(** The files of the started system. *)
Definition files_after (files : list Z -> option (list Z)) (f : fs D) : Prop :=
  (forall nm, good_name nm -> nm <> text "hello" -> nm <> text "echo" -> lookup_file f nm = files nm) /\
  seeded (files (text "hello")) (hello_elf im) (lookup_file f (text "hello")) /\
  seeded (files (text "echo")) (echo_elf im) (lookup_file f (text "echo")).

(** What the linker has to guarantee: the static buffers lie below the heap
    without overlapping, the addresses are words, the programs are bytes. *)
Record image_ok : Prop := {
  io_layout : layout_ok L;
  io_buffers : exec_layout (im_exec_stacks im) (im_elf_staging im) heap_size heap_base;
  io_line : 0 <= im_input_buffer im /\ im_input_buffer im + 256 <= heap_base;
  io_staging : im_input_buffer im + 256 <= im_elf_staging im \/ im_elf_staging im + 131072 <= im_input_buffer im;
  io_stacks : im_input_buffer im + 256 <= im_exec_stacks im \/ im_exec_stacks im + 16384 <= im_input_buffer im;
  io_entries : is_u32 (task_clock im) /\ is_u32 (user_task_demo im);
  io_demo : 0 <= user_demo_stack im /\ user_demo_stack im + 4096 < 4294967296;
  io_hello : Forall is_byte (hello_elf im) /\ alen (hello_elf im) + 511 < 4294967296;
  io_echo : Forall is_byte (echo_elf im) /\ alen (echo_elf im) + 511 < 4294967296;
}.

Lemma good_programs : good_name (text "hello") /\ good_name (text "echo").
Proof. split; (split; [done|]); vm_compute; by repeat constructor. Qed.

(** The programs are seeded. *)
Lemma seeds_ok e files : image_ok -> fs_wf (efs e) ->
  (forall nm, good_name nm -> lookup_file (efs e) nm = files nm) ->
  exists out f, (exec_seed_programs (hello_elf im) (echo_elf im) e).2 = mkExec (Sched.kprint out (ek e)) f (slot_pid e) /\
    fs_wf f /\ files_after files f.
Proof.
  intros Him Hwf Hf. destruct good_programs as [G1 G2]. destruct (io_hello Him) as [B1 S1]. destruct (io_echo Him) as [B2 S2].
  destruct (seed_ok disk_large (text "hello") (hello_elf im) e Hwf G1) as (o1 & f1 & E1 & Hwf1 & K1 & P1); [done|done|done|].
  unfold exec_seed_programs, bind. destruct (exec_seed_program (text "hello") (hello_elf im) e) as [u e1]. cbn [snd] in E1. subst e1.
  set (e1 := mkExec _ f1 _). destruct (seed_ok disk_large (text "echo") (echo_elf im) e1 Hwf1 G2) as (o2 & f2 & E2 & Hwf2 & K2 & P2); [done|done|done|].
  rewrite E2. exists (o1 ++ o2), f2. split; [unfold e1, Sched.kprint; cbn; by rewrite app_assoc|]. split; [done|].
  change (efs e1) with f1 in *. unfold files_after. rewrite <- (Hf _ G1), <- (Hf _ G2). split_and!.
  - intros nm Hn N1 N2. by rewrite K2, K1, Hf.
  - by rewrite K2 by done.
  - by rewrite <- (K1 (text "echo") G2) by done.
Qed.

(** The variables that the boot loader brings with the data section. *)
Definition data_loaded (st : shell D) : Prop := slot_pid (sys st) = [-1; -1; -1; -1] /\ history_nav st = -1.

Lemma clear_bytes_bytes m : mem_bytes m -> mem_bytes (clear_bytes im m).
Proof. apply mem_bytes_store_bytes. Qed.

(** The state after the first half. *)
Record devices_ready (m : memory) (files : list Z -> option (list Z)) (cmds : list (list Z)) (st : shell D) : Prop := {
  dr_kernel : exists pg clk esp out, ek (sys st) =
    mkKernel (build 16 (fun _ => zero_task)) 0 false 0 (clear_bytes im m) 0 pg clk esp out /\
    paging_sized pg /\ forall i, 0 <= i < MAX_ADDR_SPACES -> (task_dir_used pg).[i] = 0;
  dr_slots : slot_pid (sys st) = [-1; -1; -1; -1];
  dr_wf : fs_wf (efs (sys st));
  dr_files : files_after files (efs (sys st));
  dr_edit : edit_ok (im_input_buffer im) st;
  dr_commands : commands st = cmds;
  dr_idx : buffer_idx st = 0;
}.

Lemma same_files_after files f f' : same_files f f' -> files_after files f -> files_after files f'.
Proof.
  intros Hs (H1 & H2 & H3). pose proof (fun nm => same_files_lookup f f' nm Hs) as E. unfold files_after.
  rewrite (E (text "hello")), (E (text "echo")). split; [|exact (conj H2 H3)].
  intros nm Hn N1 N2. rewrite E. by apply H1.
Qed.

Lemma cleared_edit_ok st : data_loaded st -> edit_ok (im_input_buffer im) (clear_shell im st).
Proof.
  intros [_ Hn]. pose proof (fresh_shell_ok (sys (clear_shell im st)) (im_input_buffer im)) as []. split; try done.
  cbn [clear_shell history_nav]. by rewrite Hn.
Qed.

Lemma cleared_paging k : paging_sized (pages (clear_kernel im k)) /\
  forall i, 0 <= i < MAX_ADDR_SPACES -> (task_dir_used (pages (clear_kernel im k))).[i] = 0.
Proof. split; [by destruct paging_boot_sized; split|]. intros i Hi. by apply (build_get 6). Qed.

Lemma boot_devices_ok st0 gdt0 files cmds : image_ok -> data_loaded st0 ->
  disk_holds (dev (efs (sys st0))) files -> saved_history files cmds ->
  let '(st, g, t) := boot_devices im gdt0 (clear_shell im st0) in
  devices_ready (sh_mem st0) files cmds st /\
  (g, t) = gdt_init (tss_at im) (tss_kernel_stack im) gdt0.
Proof.
  intros Him Hdata Hd Hh. unfold boot_devices. destruct (gdt_init _ _ _) as [g t]. cbv beta iota zeta.
  set (d := dev (efs (sys st0))) in *.
  set (sb := sh_clear_screen (clear_shell im st0)).
  set (s5 := on_kernel (fun k => set_clock (pit_init 100 (clock k)) k) _).
  assert (E5 : s5 = set_sys (sys s5) sb) by done.
  assert (K5 : exists clk esp out con, sys s5 = mkExec (mkKernel (build 16 (fun _ => zero_task)) 0 false 0 (clear_bytes im (sh_mem st0)) 0
    (pages (clear_kernel im (ek (sys st0)))) clk esp out) (mkFs zero_root zero_bitmap d con) [-1; -1; -1; -1]).
  { destruct Hdata as [<- _]. do 4 eexists. reflexivity. }
  clearbody s5. destruct K5 as (clk & esp & out & con & K5). rewrite K5 in E5.
  destruct (fs_init_any d files (quiet (efs (sys s5))) Hd) as (f & Ei & Hwf & Hlk); [by rewrite K5|rewrite K5; exact zero_root_typed|].
  rewrite (sh_fs_eq fs_init s5 _ _ Ei). set (e6 := mkExec _ f _).
  destruct (seeds_ok e6 files Him Hwf Hlk) as (o7 & f7 & E7 & Hwf7 & Hfa).
  cbn [sys set_sys]. rewrite E7. split; [|done]. set (e7 := mkExec _ f7 _). set (s7 := set_sys e7 (set_sys e6 s5)).
  assert (Hs7 : s7 = set_sys e7 sb) by (unfold s7; by rewrite E5). clearbody s7.
  assert (Hok : edit_ok (im_input_buffer im) s7).
  { rewrite Hs7. pose proof (cleared_edit_ok st0 Hdata) as []. by split. }
  assert (Hh7 : saved_history (lookup_file (efs (sys s7))) cmds).
  { destruct Hh as (C1 & C2 & C3). split_and!; [done|done|]. rewrite <- C3, Hs7. change (efs (sys (set_sys e7 sb))) with f7.
    destruct Hfa as (Hfa & _). apply Hfa; [apply good_history|done|done]. }
  destruct (shell_init_ok disk_large (im_input_buffer im) s7 cmds) as (R1 & R2 & R3 & o8 & f8 & F8 & E8);
    [by rewrite Hs7|done|by rewrite Hs7|by rewrite Hs7|done|].
  assert (H7 : sys s7 = e7) by (by rewrite Hs7). rewrite H7 in *.
  split; try done.
  - rewrite E8. unfold e7, e6. rewrite K5. unfold Sched.kprint. cbn [ek]. do 4 eexists. split; [reflexivity|apply cleared_paging].
  - rewrite E8. unfold e7, e6. by rewrite K5.
  - rewrite E8. cbn [efs]. by eapply same_files_wf.
  - rewrite E8. cbn [efs]. by eapply same_files_after.
Qed.

Lemma heap_init_bytes a n m : mem_bytes m -> mem_bytes (heap_init a n m).2.
Proof. intros Hm. cbn. unfold set_is_free, set_next, set_size. auto with mx. Qed.

(** Paging and the heap. *)
Lemma memory_ready m files cmds st : image_ok -> devices_ready m files cmds st ->
  exists k, boot_memory_setup L st = set_sys (mkExec k (efs (sys st)) (slot_pid (sys st))) st /\
    booted L heap_size k [Block 1048564 true] /\ heap_start k = heap_base /\ (mem_bytes m -> mem_bytes (mem k)).
Proof.
  intros Him [(pg & clk & e & out & Ek & Hsz & Hfree) _ _ _ _ _ _]. unfold boot_memory_setup. cbv zeta.
  destruct st as [[k0 f slots] a1 a2 a3 a4 a5 a6 a7 a8]. cbn [sys ek] in Ek. subst k0.
  cbn [sh_print set_sys exec_print set_ek Sched.kprint sys ek pages efs slot_pid].
  pose proof (paging_init_implements L pg (io_layout Him) Hsz Hfree) as Hp.
  destruct (paging_init L pg) as [p msg]. cbn [fst] in Hp.
  match goal with |- context [heap_init heap_base heap_size ?mm] => change mm with (clear_bytes im m) end.
  pose proof (heap_init_inv heap_base heap_size (clear_bytes im m)) as Hh.
  pose proof (heap_init_bytes heap_base heap_size (clear_bytes im m)) as Hb.
  destruct (heap_init heap_base heap_size (clear_bytes im m)) as [hs m'] eqn:Eh.
  assert (Ehs : hs = heap_base) by (by injection Eh). clear Eh. subst hs. cbn [snd] in *.
  eexists. split; [reflexivity|]. split; [|split; [done|intros Hm; by apply Hb, clear_bytes_bytes]]. split.
  - done.
  - intros i Hi. unfold task. cbn [tasks on_kernel]. by apply (build_get 16).
  - apply Hh; unfold heap_base, heap_size; try lia; by exists 262144.
  - done.
  - exact Hp.
Qed.

Lemma cleared_keyboard log : let kb := mkKeyboard (build 256 (fun _ => 0)) 0 0 0 0 log in
  kbd_wf kb /\ abs kb = Spec false false [].
Proof. destruct boot_sim as [Hwf _]. split; [by destruct Hwf; split|reflexivity]. Qed.

Lemma main_entry_ok s files cmds : image_ok -> data_loaded (st_sh s) -> mem_bytes (sh_mem (st_sh s)) ->
  disk_holds (dev (efs (sys (st_sh s)))) files -> saved_history files cmds ->
  exists mc bs sp, main_entry L im s = Some mc /\
    system_ok L (im_exec_stacks im) (im_elf_staging im) (im_input_buffer im) heap_size (sh mc) bs sp /\
    heap_start (ek (sys (sh mc))) = heap_base /\ started L im (ek (sys (sh mc))) /\
    files_after files (efs (sys (sh mc))) /\ commands (sh mc) = cmds /\ line (im_input_buffer im) (sh mc) = [] /\
    slot_pid (sys (sh mc)) = [-1; -1; -1; -1] /\
    (gdt mc, tss mc) = gdt_init (tss_at im) (tss_kernel_stack im) (build GDT_ENTRIES (fun _ => mkGdtEntry 0 0 0 0 0 0)) /\
    idt mc = boot_idt (isr im) (timer_at im) (keyboard_at im) (syscall_at im) /\ pics (ports mc) = pics remap_pic /\
    kbd_wf (kbd mc) /\ abs (kbd mc) = Spec false false [].
Proof.
  intros Him Hdata Hm Hd Hh. set (m := sh_mem (st_sh s)) in *.
  pose proof (boot_devices_ok (st_sh s) (build GDT_ENTRIES (fun _ => mkGdtEntry 0 0 0 0 0 0)) files cmds Him Hdata Hd Hh) as Hdev.
  unfold main_entry. cbn [clear_bss st_sh st_gdt st_kbd st_idt].
  destruct (boot_devices im _ (clear_shell im (st_sh s))) as [[st g] t]. destruct Hdev as [Hdev Hg].
  destruct (memory_ready m files cmds st Him Hdev) as (k & -> & Hb & Hhs & Hbytes).
  destruct (io_entries Him) as [Hc Hu].
  destruct (tasks_started L im (io_layout Him) Hc Hu (io_demo Him) (Sched.kprint (text "Starting scheduler..." ++ newline) k))
    as (k1 & k2 & bs & sp & E1 & E2 & Hwf & Hst & Hhs2 & _ & Hby); [by destruct Hb; split|done|].
  unfold boot_tasks, start_task, on_kernel, sh_print, exec_print, set_ek. cbn [sys set_sys ek]. rewrite E1.
  change (1 <? 0) with false. cbv beta iota zeta. cbn [sys set_sys ek]. rewrite E2. change (2 <? 0) with false. cbv iota. eexists _, bs, sp. split; [reflexivity|]. destruct Hdev as [_ D2 D3 D4 D5 D6 D7].
  assert (Hln : forall e, line (im_input_buffer im) (set_sys e st) = []) by (intros e; unfold line; cbn [buffer_idx set_sys]; by rewrite D7).
  assert (Hed : forall e, edit_ok (im_input_buffer im) (set_sys e st)).
  { intros e. apply edit_ok_sys; [|done]. rewrite Hln. unfold line. by rewrite D7. }
  pose proof (io_line Him) as Hl. split_and!; [|by cbn; rewrite Hhs2|exact Hst|exact D4|exact D6|apply Hln|exact D2|exact Hg|done|done|apply cleared_keyboard|apply cleared_keyboard].
  split; cbn [sh sys set_sys ek efs slot_pid sh_mem].
  - exact Hwf.
  - exact D3.
  - apply Hed.
  - by rewrite D2.
  - apply Hby. by apply Hbytes.
  - rewrite Hhs2. apply (io_buffers Him).
  - rewrite Hhs2. lia.
  - apply (io_staging Him).
  - apply (io_stacks Him).
Qed.

(** C37: the machine starts well.  The memory holds any bytes, the variables of
    the BSS any values (those of the data section are as loaded); the disk
    works and has no signature, or a file system whose directory and map are
    consistent, and in it, if a history file, one as [history_save] writes it.
    Then [main_entry] reaches the point where interrupts are enabled, and there
    all the invariants that the other theorems assume hold together: the
    kernel's, the file system's, the shell's, the loader's and the keyboard's.
    The shell, the clock (ring 0) and the demonstration (ring 3) are the tasks
    0, 1 and 2, ready to start at their entry points; no file is lost, the two
    programs are on the disk unless it is full, the history is that of the
    last run, and the descriptor tables are those of [gdt_init] and of the
    IDT. *)
Theorem main_entry_correct s files cmds : image_ok -> data_loaded (st_sh s) -> mem_bytes (sh_mem (st_sh s)) ->
  disk_holds (dev (efs (sys (st_sh s)))) files -> saved_history files cmds ->
  exists mc bs sp, main_entry L im s = Some mc /\
    system_ok L (im_exec_stacks im) (im_elf_staging im) (im_input_buffer im) heap_size (sh mc) bs sp /\
    heap_start (ek (sys (sh mc))) = heap_base /\ started L im (ek (sys (sh mc))) /\
    files_after files (efs (sys (sh mc))) /\ commands (sh mc) = cmds /\ line (im_input_buffer im) (sh mc) = [] /\
    slot_pid (sys (sh mc)) = [-1; -1; -1; -1] /\
    (gdt mc, tss mc) = gdt_init (tss_at im) (tss_kernel_stack im) (build GDT_ENTRIES (fun _ => mkGdtEntry 0 0 0 0 0 0)) /\
    idt mc = boot_idt (isr im) (timer_at im) (keyboard_at im) (syscall_at im) /\ pics (ports mc) = pics remap_pic /\
    kbd_wf (kbd mc) /\ abs (kbd mc) = Spec false false [].
Proof. apply main_entry_ok. Qed.
End start.

(** ** A first start on an empty disk *)

Definition demo_boot : image :=
  mkImage 12288 61440 250000 65536 8192 220000 221184 (fun n => 32768 + 32 * n) 36864 36928 36992 40000 1024 33000 1032
    33500 1040 230000 hello_data [127; 69; 76; 70].

Lemma demo_boot_ok : image_ok demo_layout demo_boot.
Proof.
  split; try (cbn; unfold is_u32, heap_base; lia).
  - exact demo_layout_ok.
  - split; cbn; unfold heap_base, heap_size; lia.
  - split; [exact hello_bytes|by vm_compute].
  - split; [by repeat constructor|by vm_compute].
Qed.

(** Memory and variables as a machine may have them when it is switched on. *)
Definition garbage : statics ramdisk :=
  mkStatics
    (mkShell (mkExec (mkKernel [set_name 7 zero_task] 9 true 3 (fun x => u8 (7 * x)) 77
        (mkPaging [1] [] [[2]] [] [1; 1] 5 false) (mkPit 42 100 []) 12 [])
        (mkFs (mkRoot 1 [] 2 [3]) [255] (dev blank) []) [-1; -1; -1; -1]) 300 [] [4] 11 (-1) [5] 6 [])
    (mkKeyboard [1; 2] 3 4 1 1 []) [] [mkIdtEntry 1 2 3 4 5].

Lemma main_entry_correct_witness : exists mc bs sp,
  main_entry demo_layout demo_boot garbage = Some mc /\
  system_ok demo_layout 250000 65536 8192 heap_size (sh mc) bs sp /\
  started demo_layout demo_boot (ek (sys (sh mc))) /\ commands (sh mc) = [].
Proof.
  destruct (main_entry_correct ramdisk_big_enough demo_layout demo_boot garbage (fun _ => None) [])
    as (mc & bs & sp & H1 & H2 & _ & H3 & _ & H5 & _).
  - exact demo_boot_ok.
  - by split.
  - intros a. apply u8_range.
  - left. split; [reflexivity|]. split; [exact blank_unsigned|done].
  - split_and!; [constructor|done|done].
  - exists mc, bs, sp. exact (conj H1 (conj H2 (conj H3 H5))).
Defined.
