(* ===== verification/UserProg.v ===== *)
(** * User programs ([userprogs/libc.c], [userprogs/echo_user.c],
    [userprogs/hello_user.c], [kernel/usermode.c])

    A program computes on its memory between two [int 0x80]: it is a tree
    whose nodes are system calls, each with the memory at the call and the
    program that goes on with the result (EAX) and the memory at the return.
    Between a call and its return the kernel and the other tasks may change
    any memory that is not the program's own. *)
From Stdlib Require Import String.
From stdpp Require Import base numbers list list_numbers.
From S2P Require Import Prelude Machine Heap Paging Pit Sched SchedProps Frames SchedInv Ipc Syscall Fs Exec.

(** ** System calls *)

Inductive call :=
  | SysPrint (msg : Z) | SysExit | SysSleep (ticks : Z)
  | SysSend (pid msg len : Z) | SysRecv (buf out_len out_sender : Z).

(** The registers that the wrappers load before [int $0x80]. *)
Definition load_call (c : call) (u : cpu) : cpu :=
  let set a b x d := mkCpu a x d b (r_ebp u) (r_esi u) (r_edi u) (r_esp u) (r_eip u) (r_cs u) (r_eflags u) (r_ss u) in
  match c with
  | SysPrint msg => set SYS_PRINT msg (r_ecx u) (r_edx u)
  | SysExit => set SYS_EXIT (r_ebx u) (r_ecx u) (r_edx u)
  | SysSleep ticks => set SYS_SLEEP ticks (r_ecx u) (r_edx u)
  | SysSend pid msg len => set SYS_SEND (u32 pid) msg len
  | SysRecv buf out_len out_sender => set SYS_RECV buf out_len out_sender
  end.

Inductive program :=
  | Call (c : call) (m : memory) (next : Z -> memory -> program)
  | Looping
  | Unbounded.

Definition sys_print (msg : Z) (next : memory -> program) (m : memory) : program :=
  Call (SysPrint msg) m (fun _ => next).
(** The [for (;;)] behind the call is never reached. *)
Definition sys_exit (m : memory) : program := Call SysExit m (fun _ _ => Looping).
Definition sys_sleep (ticks : Z) (next : memory -> program) (m : memory) : program :=
  Call (SysSleep ticks) m (fun _ => next).
Definition sys_send (pid msg len : Z) (next : Z -> memory -> program) (m : memory) : program :=
  Call (SysSend pid msg len) m next.
Definition sys_recv (buf out_len out_sender : Z) (next : Z -> memory -> program) (m : memory) : program :=
  Call (SysRecv buf out_len out_sender) m (fun r => next (s32 r)).

(** ** Strings

    [fuel] bounds the loops; [None] is only reached on a string that is not
    terminated within it. *)

Fixpoint u_strlen_from (fuel : nat) (m : memory) (s n : Z) : option Z :=
  match fuel with
  | O => None
  | S fuel => if load8 m (s ⊕ n) =? 0 then Some n else u_strlen_from fuel m s (n ⊕ 1)
  end.
Definition u_strlen (fuel : nat) (m : memory) (s : Z) : option Z := u_strlen_from fuel m s 0.

Fixpoint u_strcmp (fuel : nat) (m : memory) (a b : Z) : option Z :=
  match fuel with
  | O => None
  | S fuel =>
    if negb (load8 m a =? 0) && (load8 m a =? load8 m b) then u_strcmp fuel m (a ⊕ 1) (b ⊕ 1)
    else Some (load8 m a - load8 m b)
  end.

(** The copying loop of [u_strcpy]. *)
Fixpoint strcpy_loop (fuel : nat) (d src : Z) (m : memory) : option memory :=
  match fuel with
  | O => None
  | S fuel =>
    let c := load8 m src in
    let m := store8 m d c in
    if negb (c =? 0) then strcpy_loop fuel (d ⊕ 1) (src ⊕ 1) m else Some m
  end.
Definition u_strcpy (fuel : nat) (dst src : Z) (m : memory) : option (Z * memory) :=
  option_map (fun m => (dst, m)) (strcpy_loop fuel dst src m).

(** ** [echo_user.c] *)

Definition SHELL_PID : Z := 0.
Definition LINE_MAX : Z := 128.

Section programs.
Context (fuel : nat).

Section echo.
(** The addresses of the literals and of [line]. *)
Context (echo_at newline_at line_at : Z).
Context (argc argv : Z).

(** The inner loop, from [j] on. *)
Fixpoint echo_copy (n : nat) (i j len : Z) (m : memory) : Z * memory :=
  match n with
  | O => (len, m)
  | S n =>
    if len <? LINE_MAX - 2 then
      echo_copy n i (j + 1) (len ⊕ 1) (store8 m (line_at ⊕ len) (load8 m (load32 m (argv ⊕ 4 * i) ⊕ j)))
    else (len, m)
  end.
Fixpoint echo_args (n : nat) (i len : Z) (m : memory) : option (Z * memory) :=
  match n with
  | O => Some (len, m)
  | S n =>
    if len <? LINE_MAX - 2 then
      match u_strlen fuel m (load32 m (argv ⊕ 4 * i)) with
      | None => None
      | Some alen =>
        let '(len, m) := echo_copy (Z.to_nat alen) i 0 len m in
        let '(len, m) :=
          if (i + 1 <? argc) && (len <? LINE_MAX - 2) then (len ⊕ 1, store8 m (line_at ⊕ len) 32) else (len, m) in
        echo_args n (i + 1) len m
      end
    else Some (len, m)
  end.
(** [for (attempt...)] and the exit. *)
Fixpoint echo_attempts (n : nat) (len : Z) (m : memory) : program :=
  match n with
  | O => sys_exit m
  | S n =>
    sys_send SHELL_PID line_at len (fun r m =>
      if negb (r =? 0) then sys_exit m else sys_sleep 1 (echo_attempts n len) m) m
  end.
Definition echo_main (m : memory) : program :=
  sys_print echo_at (fun m =>
    match echo_args (Z.to_nat argc) 0 0 m with
    | None => Unbounded
    | Some (len, m) =>
      let m := store8 m (line_at ⊕ len) 0 in
      sys_print line_at (sys_print newline_at (echo_attempts 4 len)) m
    end) m.
End echo.

(** ** [hello_user.c] *)
Section hello.
Context (hello_at received_at space_at newline_at : Z).
Context (argc argv : Z).

Fixpoint hello_args (n : nat) (i : Z) (next : memory -> program) (m : memory) : program :=
  match n with
  | O => next m
  | S n => sys_print (load32 m (argv ⊕ 4 * i)) (sys_print space_at (hello_args n (i + 1) next)) m
  end.
Definition hello_main (m : memory) : program :=
  sys_print hello_at (fun m =>
    if 0 <? argc then sys_print received_at (hello_args (Z.to_nat argc) 0 (sys_print newline_at sys_exit)) m
    else sys_exit m) m.
End hello.

(** ** [usermode.c] *)
Definition user_demo (hello_at msg_at : Z) (m : memory) : program :=
  sys_print hello_at (fun m =>
    match u_strlen_from fuel m msg_at 0 with
    | None => Unbounded
    | Some len => sys_send 0 msg_at (u32 (len + 1)) (fun _ => sys_exit) m
    end) m.
End programs.

(** ** [kernel.c]

    The clock is a ring-0 task; one turn of its loop, [t] being its counter. *)
Definition symbols : list Z := text "-\|/".
Definition task_clock_turn (t : Z) (k : kernel) : Z * kernel :=
  let offset := 79 * 2 in
  let m := store8 (mem k) (753664 ⊕ offset) symbols.[t mod 4] in
  let m := store8 m (753664 ⊕ (offset + 1)) 14 in
  (t ⊕ 1, task_sleep 200 (set_mem m k)).

(** A turn draws in the last cell of the first row of the screen, touches no
    other memory, and puts the task to sleep. *)
Lemma task_clock_turn_ok t k : 0 <= t -> alen (tasks k) = 16 -> 0 <= current_task k < 16 ->
  let '(_, k') := task_clock_turn t k in
  mem k' 753822 = symbols.[t mod 4] /\ mem k' 753823 = 14 /\
  agree_on (fun x => x <> 753822 /\ x <> 753823) (mem k) (mem k') /\
  sleeping (task k' (current_task k)) = true /\
  forall j, 0 <= j < 16 -> j <> current_task k -> task k' j = task k j.
Proof.
  intros Ht Hl Hc. unfold task_clock_turn, task_sleep, upd_task. cbn [mem set_tasks set_mem current_task clock tasks].
  change (753664 ⊕ 79 * 2) with 753822. change (753664 ⊕ (79 * 2 + 1)) with 753823.
  assert (Hs : is_byte symbols.[t mod 4]).
  { assert (Hf : Forall is_byte symbols) by (by repeat constructor). rewrite arr_Forall in Hf. apply Hf.
    change (alen symbols) with 4. by apply Z.mod_pos_bound. }
  split; [unfold store8; cbn; by apply u8_id|]. split; [done|]. split; [|split].
  - intros x [H1 H2]. unfold store8. change (u32 753822) with 753822. change (u32 753823) with 753823. zcases.
  - unfold task. cbn [tasks set_tasks]. by rewrite arr_get_set_eq by (rewrite alen_arr_set; lia).
  - intros j Hj Hne. unfold task. cbn [tasks set_tasks set_mem]. by rewrite !arr_get_set_ne by done.
Qed.

(** ** Strings in memory *)

Lemma str_char m p s i : str m p s -> 0 <= i <= alen s -> load8 m (p ⊕ i) = (s ++ [0]).[i].
Proof.
  intros ([Hb _] & Hp & Hr) Hi. unfold load8. rewrite u32_idemp, u32_id by (unfold is_u32; lia).
  apply Hb. rewrite alen_snoc. lia.
Qed.

Lemma str_nonzero m p s i : str m p s -> 0 <= i < alen s -> load8 m (p ⊕ i) = s.[i] /\ s.[i] <> 0.
Proof.
  intros Hs Hi. rewrite (str_char m p s i Hs) by lia. rewrite arr_get_app_l by done. split; [done|].
  destruct Hs as ([_ Hz] & _). rewrite arr_Forall in Hz. by apply Hz.
Qed.

Lemma str_end m p s : str m p s -> load8 m (p ⊕ alen s) = 0.
Proof.
  intros Hs. pose proof (alen_nonneg s). rewrite (str_char m p s _ Hs) by lia. rewrite arr_get_app_r by lia. by rewrite Z.sub_diag.
Qed.

Lemma strlen_from_ok fuel m p s n : str m p s -> 0 <= n <= alen s -> alen s - n < Z.of_nat fuel ->
  u_strlen_from fuel m p n = Some (alen s).
Proof.
  intros Hs. pose proof Hs as (_ & Hp & Hr). revert n. induction fuel as [|fuel IH]; intros n Hn Hf; [lia|].
  cbn [u_strlen_from]. destruct (decide (n = alen s)) as [->|Hne].
  - by rewrite (str_end m p s Hs).
  - destruct (str_nonzero m p s n Hs ltac:(lia)) as [-> Hz]. rewrite (proj2 (Z.eqb_neq _ _)) by done.
    rewrite u32_id by (unfold is_u32; lia). apply IH; lia.
Qed.

(** The order of strings, byte by byte. *)
Fixpoint str_lt (s t : list Z) : Prop :=
  match s, t with
  | _, [] => False
  | [], _ :: _ => True
  | x :: s, y :: t => x < y \/ (x = y /\ str_lt s t)
  end.

Lemma strcmp_ok fuel m : mem_bytes m -> forall a b s t, str m a s -> str m b t -> alen s < Z.of_nat fuel ->
  exists r, u_strcmp fuel m a b = Some r /\ (r = 0 <-> s = t) /\ (r < 0 <-> str_lt s t).
Proof.
  intros Hm. assert (Hpos : forall p c s, str m p (c :: s) -> 0 < c).
  { intros p c s Hs. destruct (str_cons _ _ _ _ Hs) as (E & Hc & _). pose proof (Hm (u32 p)) as B. unfold load8, is_byte in *. lia. }
  induction fuel as [|fuel IH]; intros a b s t Ha Hb Hf; [pose proof (alen_nonneg s); lia|].
  cbn [u_strcmp]. rewrite (str_head _ _ _ Ha), (str_head _ _ _ Hb). destruct s as [|x s], t as [|y t]; cbn [negb andb Z.eqb str_lt].
  - exists 0. split_and!; [done|done|lia].
  - pose proof (Hpos _ _ _ Hb). eexists. split_and!; [done|split; [lia|done]|lia].
  - pose proof (Hpos _ _ _ Ha). rewrite !(proj2 (Z.eqb_neq x 0)) by lia. eexists. split_and!; [done|split; [lia|done]|lia].
  - destruct (str_cons _ _ _ _ Ha) as (_ & Hx & -> & Ha'). destruct (str_cons _ _ _ _ Hb) as (_ & Hy & -> & Hb').
    rewrite (proj2 (Z.eqb_neq x 0)) by done. cbn [negb andb]. destruct (Z.eqb_spec x y) as [->|Hne].
    + destruct (IH (a + 1) (b + 1) s t Ha' Hb') as (r & E & R1 & R2); [rewrite alen_cons in Hf; lia|].
      exists r. rewrite R1, R2. split_and!; [done|split; [by intros ->|by intros [=]]|]. split; [by right|]. intros [?|[_ ?]]; [lia|done].
    + eexists. split_and!; [done|split; [lia|by intros [=]]|]. split; [left; lia|]. intros [?|[? _]]; lia.
Qed.

(** The source is not overwritten before it is read. *)
Lemma strcpy_ok fuel s : forall m d p, mem_bytes m -> str m p s -> 0 <= d -> d + alen s < 4294967296 ->
  (p + alen s + 1 <= d \/ d + alen s + 1 <= p) -> alen s < Z.of_nat fuel ->
  exists m', strcpy_loop fuel d p m = Some m' /\ holds m' d s /\ agree_on (fun x => ~ range d (alen s + 1) x) m m'.
Proof.
  revert fuel. induction s as [|c s IH]; intros fuel m d p Hm Hs Hd Hr Hdis Hf; (destruct fuel as [|fuel]; [unfold alen in Hf; cbn in Hf; lia|]);
    cbn [strcpy_loop]; rewrite (str_head _ _ _ Hs).
  - change (alen []) with 0 in *. eexists. split; [done|]. split.
    + split; [|constructor]. intros i Hi. change (0 <= i < 1) in Hi. replace i with 0 by lia. rewrite Z.add_0_r.
      unfold store8. by rewrite u32_id, Z.eqb_refl by (unfold is_u32; lia).
    + apply store8_frame; [unfold is_u32; lia|]. unfold range. lia.
  - destruct (str_cons _ _ _ _ Hs) as (Hc & Hz & -> & Ht). rewrite alen_cons in *. pose proof (alen_nonneg s).
    rewrite (proj2 (Z.eqb_neq c 0)) by done. cbn [negb]. rewrite u32_id by (unfold is_u32; lia).
    assert (Hfr : agree_on (fun x => x <> d) m (store8 m d c)) by (apply store8_frame; [unfold is_u32; lia|done]).
    destruct (IH fuel (store8 m d c) (d + 1) (p + 1)) as (m' & E & [Hb Hn] & Hag); [auto with mx| |lia|lia|lia|lia|].
    { destruct Ht as (Hh & ? & ?). split; [|done]. eapply holds_agree; [|exact Hh]. eapply agree_on_weaken; [|exact Hfr]. unfold range. lia. }
    exists m'. split; [done|]. split.
    + split; [|by constructor]. intros i Hi. cbn [app] in *. rewrite alen_cons in Hi. destruct (decide (i = 0)) as [->|Hi0].
      * rewrite Z.add_0_r, arr_get_cons_0, Hag by (unfold range; lia). unfold store8.
        rewrite u32_id, Z.eqb_refl by (unfold is_u32; lia). apply u8_id. rewrite <- Hc. apply Hm.
      * replace i with (i - 1 + 1) by lia. rewrite arr_get_cons_S by lia. replace (d + (i - 1 + 1)) with (d + 1 + (i - 1)) by lia.
        apply Hb. lia.
    + intros x Hx. unfold range in Hx. rewrite Hag by (unfold range; lia). apply Hfr. lia.
Qed.

(** The string functions of the user library.  On terminated strings the
    loops end; [u_strlen] is the length, [u_strcmp] is zero exactly for equal
    strings and negative exactly when the first is smaller in byte order, and
    [u_strcpy] leaves the copy at a destination apart from the source and
    changes no other byte. *)
Theorem user_strings_correct fuel m a b s t : mem_bytes m -> str m a s -> str m b t ->
  alen s < Z.of_nat fuel ->
  u_strlen fuel m a = Some (alen s) /\
  (exists r, u_strcmp fuel m a b = Some r /\ (r = 0 <-> s = t) /\ (r < 0 <-> str_lt s t)) /\
  (forall d, 0 <= d -> d + alen s < 4294967296 -> a + alen s + 1 <= d \/ d + alen s + 1 <= a ->
     exists m', u_strcpy fuel d a m = Some (d, m') /\ holds m' d s /\
       agree_on (fun x => ~ range d (alen s + 1) x) m m').
Proof.
  intros Hm Ha Hb Hf. pose proof (alen_nonneg s). split_and!.
  - apply strlen_from_ok; [done|lia|lia].
  - by apply strcmp_ok.
  - intros d Hd Hr Hdis. destruct (strcpy_ok fuel s m d a Hm Ha Hd Hr Hdis Hf) as (m' & E & H1 & H2).
    exists m'. unfold u_strcpy. by rewrite E.
Qed.

(** ** The arguments of a program *)

(** The table [argv] and its strings, all within the memory [K]. *)
Definition args_at (K : Z -> Prop) (m : memory) (argv : Z) (args : list (list Z)) : Prop :=
  0 <= argv /\ argv + 4 * alen args <= 4294967296 /\
  forall i, 0 <= i < alen args ->
    str m (load32 m (argv + 4 * i)) args.[i] /\ (forall x, range (argv + 4 * i) 4 x -> K x) /\
    (forall x, range (load32 m (argv + 4 * i)) (alen args.[i] + 1) x -> K x) /\ Forall is_byte args.[i].

Lemma str_kept m m' p s (K : Z -> Prop) : agree_on K m m' -> (forall x, range p (alen s + 1) x -> K x) ->
  str m p s -> str m' p s.
Proof. intros Hag HK. apply str_agree. by eapply agree_on_weaken. Qed.

Lemma args_at_agree K m m' argv args : agree_on K m m' -> args_at K m argv args ->
  args_at K m' argv args /\ forall i, 0 <= i < alen args -> load32 m' (argv + 4 * i) = load32 m (argv + 4 * i).
Proof.
  intros Hag (H0 & H1 & H). assert (Hl : forall i, 0 <= i < alen args -> load32 m' (argv + 4 * i) = load32 m (argv + 4 * i)).
  { intros i Hi. destruct (H i Hi) as (_ & HK & _). apply load32_agree; [lia|lia|]. by eapply agree_on_weaken. }
  split; [|done]. split; [done|]. split; [done|]. intros i Hi. rewrite Hl by done. destruct (H i Hi) as (S1 & S2 & S3 & S4).
  split; [by eapply str_kept|by split].
Qed.

(** The line of [echo_user.c]: the arguments separated by spaces, cut. *)
Fixpoint spaced (args : list (list Z)) : list Z :=
  match args with
  | [] => []
  | [a] => a
  | a :: rest => a ++ [32] ++ spaced rest
  end.
Definition echo_line (args : list (list Z)) : list Z := take 126 (spaced args).

Section echo_proofs.
Context (fuel : nat) (line_at argv : Z) (args : list (list Z)) (K : Z -> Prop).
Context (line_range : 0 <= line_at /\ line_at + 128 <= 4294967296).
Context (line_apart : forall x, K x -> ~ range line_at 128 x).
Context (fuel_ok : forall i, 0 <= i < alen args -> alen args.[i] < Z.of_nat fuel).

(** The line holds [w] so far. *)
Definition writes (m m' : memory) (w : list Z) : Prop :=
  bytes_at m' line_at w /\ alen w <= 126 /\ agree_on (fun x => ~ range line_at 128 x) m m'.

Lemma writes_char m0 m w c : writes m0 m w -> is_byte c -> alen w < 126 ->
  writes m0 (store8 m (line_at ⊕ alen w) c) (w ++ [c]).
Proof.
  intros (Hb & Hl & Hag) Hc Hlt. pose proof (alen_nonneg w). rewrite u32_id by (unfold is_u32; lia).
  split_and!; [|rewrite alen_snoc; lia|].
  - intros i Hi. rewrite alen_snoc in Hi. unfold store8. rewrite u32_id by (unfold is_u32; lia).
    destruct (Z.eqb_spec (line_at + i) (line_at + alen w)) as [E|E].
    + replace i with (alen w) by lia. rewrite arr_get_app_r, Z.sub_diag by lia. by apply u8_id.
    + rewrite arr_get_app_l by lia. apply Hb. lia.
  - eapply agree_on_trans; [exact Hag|]. apply store8_frame; [unfold is_u32; lia|]. intros x Hx ->. apply Hx. unfold range. lia.
Qed.

Lemma take_take_app {A} n (l r : list A) : take n (take n l ++ r) = take n (l ++ r).
Proof.
  rewrite !take_app, take_take, Nat.min_id. destruct (decide (n <= length l)%nat).
  - rewrite length_take. replace (n - n `min` length l)%nat with 0%nat by lia. by replace (n - length l)%nat with 0%nat by lia.
  - rewrite (take_ge l) by lia. done.
Qed.

Lemma alen_cut (l : list Z) : alen (take 126 l) <= 126.
Proof. unfold alen. rewrite length_take. lia. Qed.

Lemma cut_id (l : list Z) : alen l <= 126 -> take 126 l = l.
Proof. intros Hl. apply take_ge. unfold alen in Hl. lia. Qed.

Lemma cut_full (w r : list Z) : 126 <= alen w -> alen w <= 126 -> take 126 (w ++ r) = w.
Proof. intros H1 H2. rewrite take_app_le by (unfold alen in *; lia). by apply cut_id. Qed.

Lemma args_mem m0 m w : args_at K m0 argv args -> writes m0 m w -> args_at K m argv args /\
  forall i, 0 <= i < alen args -> load32 m (argv ⊕ 4 * i) = load32 m0 (argv + 4 * i).
Proof.
  intros Ha (_ & _ & Hag). assert (HK : agree_on K m0 m) by (eapply agree_on_weaken; [|exact Hag]; apply line_apart).
  destruct (args_at_agree K m0 m argv args HK Ha) as [Ha' Hl]. split; [done|]. intros i Hi.
  destruct Ha as (H0 & H1 & _). rewrite u32_id by (unfold is_u32; lia). by apply Hl.
Qed.

Lemma echo_copy_ok m0 n : args_at K m0 argv args -> forall i j w m, 0 <= i < alen args -> 0 <= j ->
  j + Z.of_nat n = alen args.[i] -> writes m0 m w ->
  exists m', echo_copy line_at argv n i j (alen w) m = (alen (take 126 (w ++ drop (Z.to_nat j) args.[i])), m') /\
    writes m0 m' (take 126 (w ++ drop (Z.to_nat j) args.[i])).
Proof.
  intros Ha. induction n as [|n IH]; intros i j w m Hi Hj Hn Hw; cbn [echo_copy].
  - exists m. rewrite drop_ge by (unfold alen in Hn; lia). rewrite app_nil_r, cut_id by apply Hw. done.
  - destruct (args_mem m0 m w Ha Hw) as [Ha' Hl]. rewrite Hl by done. pose proof Ha' as (_ & _ & Hs). destruct (Hs i Hi) as (Hst & _).
    destruct Ha as (A0 & A1 & A2). replace (load32 m (argv + 4 * i)) with (load32 m0 (argv + 4 * i)) in Hst
      by (rewrite <- (Hl i Hi); f_equal; apply u32_id; unfold is_u32; lia).
    destruct (str_nonzero _ _ _ j Hst ltac:(lia)) as [Hc Hz]. rewrite Hc. unfold LINE_MAX. pose proof (alen_nonneg w) as Hw0.
    destruct (Z.ltb_spec (alen w) (128 - 2)) as [Hlt|Hge].
    + rewrite (u32_id (alen w + 1)), <- (alen_snoc w args.[i].[j]) by (unfold is_u32; lia).
      assert (Hcb : is_byte args.[i].[j]).
      { destruct (A2 i Hi) as (_ & _ & _ & HB). rewrite arr_Forall in HB. apply HB. lia. }
      pose proof (writes_char m0 m w _ Hw Hcb ltac:(lia)) as Hw'.
      destruct (IH i (j + 1) (w ++ [args.[i].[j]]) (store8 m (line_at ⊕ alen w) args.[i].[j])) as (m' & E & W);
        [done|lia|lia|done|]. exists m'.
      assert (Hd : drop (Z.to_nat j) args.[i] = args.[i].[j] :: drop (Z.to_nat (j + 1)) args.[i]).
      { replace (Z.to_nat (j + 1)) with (S (Z.to_nat j)) by lia. apply drop_S. apply arr_lookup_get. lia. }
      rewrite Hd. rewrite <- app_assoc in E, W. done.
    + exists m. rewrite cut_full by (lia || apply Hw). done.
Qed.

Lemma spaced_cons a rest : rest <> [] -> spaced (a :: rest) = (a ++ [32]) ++ spaced rest.
Proof. destruct rest; [done|]. intros _. cbn [spaced]. by rewrite <- app_assoc. Qed.

Lemma echo_args_ok m0 n : args_at K m0 argv args -> forall i w m, 0 <= i ->
  i + Z.of_nat n = alen args -> writes m0 m w ->
  exists m', echo_args fuel line_at (alen args) argv n i (alen w) m =
      Some (alen (take 126 (w ++ spaced (drop (Z.to_nat i) args))), m') /\
    writes m0 m' (take 126 (w ++ spaced (drop (Z.to_nat i) args))).
Proof.
  intros Ha. induction n as [|n IH]; intros i w m Hi Hn Hw; cbn [echo_args].
  { exists m. rewrite drop_ge by (unfold alen in Hn; lia). cbn [spaced]. rewrite app_nil_r, cut_id by apply Hw. done. }
  unfold LINE_MAX. pose proof (alen_nonneg w) as Hw0. destruct (Z.ltb_spec (alen w) (128 - 2)) as [Hlt|Hge].
  2:{ exists m. rewrite cut_full by (lia || apply Hw). done. }
  destruct (args_mem m0 m w Ha Hw) as [Ha' Hl]. pose proof Ha' as (A0 & A1 & Hs). destruct (Hs i ltac:(lia)) as (Hst & _).
  rewrite (u32_id (argv + 4 * i)) by (unfold is_u32; lia). unfold u_strlen. pose proof (alen_nonneg args.[i]).
  rewrite (strlen_from_ok fuel m _ _ 0 Hst) by (specialize (fuel_ok i); lia).
  destruct (echo_copy_ok m0 (Z.to_nat (alen args.[i])) Ha i 0 w m) as (m1 & -> & Hw1); [lia|lia|lia|done|].
  change (drop (Z.to_nat 0) args.[i]) with args.[i] in *. set (w1 := take 126 (w ++ args.[i])) in *.
  assert (Hd : drop (Z.to_nat i) args = args.[i] :: drop (Z.to_nat (i + 1)) args).
  { replace (Z.to_nat (i + 1)) with (S (Z.to_nat i)) by lia. apply drop_S. apply arr_lookup_get. lia. }
  rewrite Hd. set (rest := drop (Z.to_nat (i + 1)) args) in *. pose proof (alen_cut (w ++ args.[i])) as Hw1l. fold w1 in Hw1l.
  destruct (Z.ltb_spec (i + 1) (alen args)) as [Hmore|Hlast]; cbn [andb].
  2:{ assert (Hr : rest = []) by (apply drop_ge; unfold alen in Hlast; lia). rewrite Hr. cbn [spaced].
      destruct n as [|n]; [|lia]. cbn [echo_args]. by exists m1. }
  assert (Hr : rest <> []) by (intros E; apply (f_equal length) in E; unfold rest in E; rewrite length_drop in E; unfold alen in Hmore; cbn in E; lia).
  rewrite spaced_cons by done. pose proof (alen_nonneg w1).
  destruct (Z.ltb_spec (alen w1) (128 - 2)) as [Hlt1|Hge1].
  - rewrite (u32_id (alen w1 + 1)), <- (alen_snoc w1 32) by (unfold is_u32; lia).
    destruct (IH (i + 1) (w1 ++ [32]) (store8 m1 (line_at ⊕ alen w1) 32)) as (m2 & E & W);
      [lia|lia|by apply writes_char; [| |lia]|].
    exists m2. fold rest in E, W.
    assert (Heq : take 126 ((w1 ++ [32]) ++ spaced rest) = take 126 (w ++ (args.[i] ++ [32]) ++ spaced rest)).
    { unfold w1. rewrite <- !app_assoc, take_take_app. by rewrite <- app_assoc. }
    by rewrite Heq in E, W.
  - destruct (IH (i + 1) w1 m1) as (m2 & E & W); [lia|lia|done|].
    exists m2. rewrite (cut_full w1) in E, W by lia.
    assert (Hfull : take 126 (w ++ (args.[i] ++ [32]) ++ spaced rest) = w1).
    { rewrite <- (app_assoc args.[i]), (app_assoc w), <- take_take_app. by apply cut_full. }
    by rewrite Hfull.
Qed.
End echo_proofs.

(** ** What a program does *)

(** The effect of a call, as the kernel reads it in memory. *)
Inductive event :=
  | Said (t : option (list Z)) | Exited | Slept (ticks : Z) | Sent (pid : Z) (msg : list Z) | Received.
Definition event_of (fuel : nat) (c : call) (m : memory) : event :=
  match c with
  | SysPrint msg => Said (string_at fuel m msg)
  | SysExit => Exited
  | SysSleep ticks => Slept ticks
  | SysSend pid msg len => Sent pid (build len (fun i => load8 m (msg ⊕ i)))
  | SysRecv _ _ _ => Received
  end.

(** An answer to a call: the result in EAX and the memory when the program
    goes on. *)
Abbreviation answer := (Z * memory)%type.
Fixpoint observe (fuel : nat) (answers : list answer) (p : program) : list event :=
  match answers, p with
  | (r, m') :: answers, Call c m next => event_of fuel c m :: observe fuel answers (next r m')
  | _, _ => []
  end.

(** The environment leaves the memory [P] of the program alone. *)
Fixpoint respected (P : Z -> Prop) (answers : list answer) (p : program) : Prop :=
  match answers, p with
  | (r, m') :: answers, Call c m next => agree_on P m m' /\ respected P answers (next r m')
  | _, _ => True
  end.

Lemma said_str fuel m p s : str m p s -> alen s < Z.of_nat fuel -> event_of fuel (SysPrint p) m = Said (Some s).
Proof. intros (Hh & H0 & H1) Hf. cbn. by rewrite (string_at_holds fuel m p s Hh H0 H1 Hf). Qed.

(** *** [echo] *)

(** Sending the line until the mailbox accepts it; [rs] are the results of
    the calls. *)
Fixpoint attempts (n : nat) (msg : list Z) (rs : list Z) : list event :=
  match n, rs with
  | O, _ => [Exited]
  | S n, r :: rs =>
    Sent SHELL_PID msg :: (if r =? 0 then Slept 1 :: attempts n msg (tail rs) else [Exited])
  | S _, [] => []
  end.
Definition echo_events (args : list (list Z)) (rs : list Z) : list event :=
  [Said (Some (text "[echo] ")); Said (Some (echo_line args)); Said (Some newline)] ++
  attempts 4 (echo_line args) (drop 3 rs).

Lemma spaced_nonzero args : Forall (Forall (fun c => c <> 0)) args -> Forall (fun c => c <> 0) (spaced args).
Proof.
  induction 1 as [|a [|b rest] Ha _ IH]; cbn [spaced]; [done|done|]. apply Forall_app. split; [done|]. constructor; [lia|exact IH].
Qed.

Lemma spaced_bytes args : Forall (Forall is_byte) args -> Forall is_byte (spaced args).
Proof.
  induction 1 as [|a [|b rest] Ha _ IH]; cbn [spaced]; [done|done|]. apply Forall_app. split; [done|]. by constructor.
Qed.

(** The line is a string of bytes. *)
Lemma echo_line_chars K m argv args : args_at K m argv args -> Forall (fun c => is_byte c /\ c <> 0) (echo_line args).
Proof.
  intros (_ & _ & Ha). apply Forall_and. split; apply Forall_take.
  - apply spaced_bytes. rewrite arr_Forall. intros i Hi. by destruct (Ha i Hi) as (_ & _ & _ & Hb).
  - apply spaced_nonzero. rewrite arr_Forall. intros i Hi. by destruct (Ha i Hi) as (((_ & Hb) & _) & _).
Qed.

Lemma sent_bytes fuel m p w pid : bytes_at m p w -> 0 <= p -> p + alen w <= 4294967296 ->
  event_of fuel (SysSend pid p (alen w)) m = Sent pid w.
Proof.
  intros Hb Hp Hr. cbn. f_equal. pose proof (alen_nonneg w). apply arr_ext; rewrite alen_build by lia; [done|].
  intros i Hi. rewrite build_get by lia. unfold load8. rewrite u32_idemp, u32_id by (unfold is_u32; lia). by apply Hb.
Qed.

Lemma attempts_ok (P : Z -> Prop) fuel line_at w n : (forall x, range line_at (alen w) x -> P x) ->
  0 <= line_at -> line_at + alen w <= 4294967296 -> forall answers m, bytes_at m line_at w ->
  respected P answers (echo_attempts line_at n (alen w) m) -> (2 * n + 1 <= length answers)%nat ->
  observe fuel answers (echo_attempts line_at n (alen w) m) = attempts n w (map fst answers).
Proof.
  intros HP H0 H1. induction n as [|n IH]; intros answers m Hb Ha Hl.
  { destruct answers as [|[r m1] answers]; [cbn in Hl; lia|]. cbn. by destruct answers as [|[]]. }
  destruct answers as [|[r1 m1] [|[r2 m2] answers]]; [cbn in Hl; lia..|].
  cbn [echo_attempts sys_send respected] in Ha. destruct Ha as (G1 & Ha).
  cbn [echo_attempts sys_send observe map fst attempts]. rewrite (sent_bytes fuel m line_at w SHELL_PID) by done. f_equal.
  destruct (Z.eqb_spec r1 0) as [->|Hr]; cbn [negb] in *.
  - unfold sys_sleep in *. cbn [observe event_of map fst tail respected] in *. destruct Ha as (G2 & Ha). f_equal.
    apply IH; [|done|cbn in Hl; lia]. eapply bytes_at_agree; [|exact Hb].
    eapply agree_on_weaken; [exact HP|]. by eapply agree_on_trans.
  - unfold sys_exit. cbn [observe event_of]. by destruct answers as [|[]].
Qed.

(** After its first call the program has composed the line. *)
Lemma echo_line_ready fuel newline_at line_at argv args K m1 :
  0 <= line_at -> line_at + 128 <= 4294967296 -> (forall x, K x -> ~ range line_at 128 x) ->
  args_at K m1 argv args -> (forall i, 0 <= i < alen args -> alen args.[i] < Z.of_nat fuel) ->
  exists m3, str m3 line_at (echo_line args) /\ agree_on (fun x => ~ range line_at 128 x) m1 m3 /\
    alen (echo_line args) <= 126 /\
    match echo_args fuel line_at (alen args) argv (Z.to_nat (alen args)) 0 0 m1 with
    | None => Unbounded
    | Some (len, m) =>
      let m := store8 m (line_at ⊕ len) 0 in
      sys_print line_at (sys_print newline_at (echo_attempts line_at 4 len)) m
    end = sys_print line_at (sys_print newline_at (echo_attempts line_at 4 (alen (echo_line args)))) m3.
Proof.
  intros H0 H1 Hap Hargs Hfu.
  destruct (echo_args_ok fuel line_at argv args K ltac:(lia) Hap Hfu m1 (Z.to_nat (alen args)) Hargs 0 [] m1)
    as (m2 & E2 & (Wb & Wl & Wag)); [lia|pose proof (alen_nonneg args); lia|split_and!; [|done|done]|].
  { intros i Hi. change (alen []) with 0 in Hi. lia. }
  change (alen []) with 0 in E2. cbn [app] in Wb, Wl, E2. change (drop (Z.to_nat 0) args) with args in *.
  fold (echo_line args) in Wb, Wl, E2. rewrite E2. clear E2. set (w := echo_line args) in *. pose proof (alen_nonneg w).
  rewrite (u32_id (line_at + alen w)) by (unfold is_u32; lia). exists (store8 m2 (line_at + alen w) 0).
  split; [split; [|lia]|]; [|split; [|by split]].
  - split.
    + intros i Hi. rewrite alen_snoc in Hi. unfold store8. rewrite u32_id by (unfold is_u32; lia).
      destruct (Z.eqb_spec (line_at + i) (line_at + alen w)).
      * replace i with (alen w) by lia. rewrite arr_get_app_r, Z.sub_diag by lia. done.
      * rewrite arr_get_app_l by lia. apply Wb. lia.
    + apply Forall_take, spaced_nonzero. apply Forall_forall. intros s Hs. apply list_elem_of_lookup in Hs as [i Hi].
      destruct Hargs as (_ & _ & Hs). pose proof (lookup_lt_Some _ _ _ Hi).
      destruct (Hs (Z.of_nat i) ltac:(unfold alen; lia)) as (((_ & Hz) & _) & _).
      rewrite (arr_get_lookup args _ s) in Hz by (lia || by rewrite Nat2Z.id). done.
  - eapply agree_on_trans; [exact Wag|]. apply store8_frame; [unfold is_u32; lia|]. intros x Hx ->. apply Hx. unfold range. lia.
Qed.

Lemma str_bytes m p s : str m p s -> bytes_at m p s.
Proof. intros ((Hb & _) & _) i Hi. rewrite Hb by (rewrite alen_snoc; lia). by rewrite arr_get_app_l by lia. Qed.

(** C36: [echo] does what it says.  Started with the arguments [args] in its
    argument table, under any kernel and other tasks that leave its memory
    alone, it prints "[echo] " and the arguments on one line, separated by
    spaces and cut to 126 characters, then sends the line to the shell, up to
    four times until the mailbox accepts it, sleeping in between, and exits. *)
Theorem echo_user_correct fuel echo_at newline_at line_at argv args K m answers :
  0 <= line_at -> line_at + 128 <= 4294967296 -> (forall x, K x -> ~ range line_at 128 x) ->
  args_at K m argv args -> (forall i, 0 <= i < alen args -> alen args.[i] < Z.of_nat fuel) -> (128 <= fuel)%nat ->
  str m echo_at (text "[echo] ") -> (forall x, range echo_at 8 x -> K x) ->
  str m newline_at newline -> (forall x, range newline_at 2 x -> K x) ->
  let p := echo_main fuel echo_at newline_at line_at (alen args) argv m in
  respected (fun x => K x \/ range line_at 128 x) answers p -> (12 <= length answers)%nat ->
  observe fuel answers p = echo_events args (map fst answers).
Proof.
  intros H0 H1 Hap Hargs Hfu Hf He HeK Hn HnK p Ha Hl.
  destruct answers as [|[r1 m1] [|[r2 m2'] [|[r3 m3'] answers]]]; [cbn in Hl; lia..|].
  unfold p, echo_main in *. unfold sys_print at 1. unfold sys_print at 1 in Ha. cbn [observe respected] in *. destruct Ha as (G1 & Ha).
  rewrite (said_str fuel m echo_at _ He) by (change (alen (text "[echo] ")) with 7; lia).
  assert (K1 : agree_on K m m1) by (eapply agree_on_weaken; [|exact G1]; by left).
  destruct (args_at_agree K m m1 argv args K1 Hargs) as [Hargs1 _].
  destruct (echo_line_ready fuel newline_at line_at argv args K m1 H0 H1 Hap Hargs1 Hfu) as (m3 & Hstr & G3 & Wl & E3).
  cbv zeta in E3. rewrite E3 in Ha |- *. clear E3. set (w := echo_line args) in *. pose proof (alen_nonneg w).
  unfold sys_print in *. cbn [observe respected map fst echo_events app] in *. destruct Ha as (G4 & G5 & Ha). f_equal.
  rewrite (said_str fuel m3 line_at _ Hstr) by lia. f_equal.
  assert (Hn4 : str m2' newline_at newline).
  { eapply (str_kept m _ _ _ K); [|exact HnK|exact Hn]. eapply agree_on_trans; [exact K1|]. eapply agree_on_trans.
    - eapply agree_on_weaken; [|exact G3]. apply Hap.
    - eapply agree_on_weaken; [|exact G4]. by left. }
  rewrite (said_str fuel _ newline_at _ Hn4) by (change (alen newline) with 1; lia). f_equal.
  change (drop 3 (r1 :: r2 :: r3 :: map fst answers)) with (map fst answers).
  fold w. apply (attempts_ok (fun x => K x \/ range line_at 128 x)); try done; [unfold range; intros x Hx; right; lia|lia| |cbn in Hl; lia].
  eapply bytes_at_agree; [|exact (str_bytes _ _ _ Hstr)]. eapply agree_on_trans; (eapply agree_on_weaken; [|eassumption]); unfold range; cbn beta; intros x Hx; right; lia.
Qed.

(** *** [hello] and the demonstration *)

Definition hello_text : list Z := newline ++ text "[UserProg] Hello depuis un programme charge du disque (exec) !" ++ newline.
Definition received_text : list Z := text "[UserProg] Arguments recus : ".
Definition hello_events (args : list (list Z)) : list event :=
  Said (Some hello_text) ::
  (if decide (args = []) then []
   else Said (Some received_text) :: concat (map (fun a => [Said (Some a); Said (Some (text " "))]) args) ++ [Said (Some newline)]) ++
  [Exited].

(** The strings of the program are in the memory that is kept. *)
Definition literal (K : Z -> Prop) (m : memory) (p : Z) (s : list Z) : Prop :=
  str m p s /\ forall x, range p (alen s + 1) x -> K x.

Lemma literal_agree K m m' p s : agree_on K m m' -> literal K m p s -> literal K m' p s.
Proof. intros Hag [Hs HK]. split; [|done]. by eapply str_kept. Qed.

(** One printed string and the rest. *)
Lemma print_step K fuel p s r m' answers next m : literal K m p s -> alen s < Z.of_nat fuel ->
  respected K ((r, m') :: answers) (sys_print p next m) ->
  observe fuel ((r, m') :: answers) (sys_print p next m) = Said (Some s) :: observe fuel answers (next m') /\
  agree_on K m m' /\ respected K answers (next m').
Proof.
  intros [Hs _] Hf Hr. unfold sys_print in *. cbn [observe respected] in *. by rewrite (said_str fuel m p s Hs Hf).
Qed.

Lemma exit_step fuel r m' answers m : observe fuel ((r, m') :: answers) (sys_exit m) = [Exited].
Proof. cbn. by destruct answers as [|[]]. Qed.

Lemma hello_args_ok K fuel space_at argv args next : (forall i, 0 <= i < alen args -> alen args.[i] < Z.of_nat fuel) ->
  (2 <= fuel)%nat -> forall n i answers m, 0 <= i -> i + Z.of_nat n = alen args -> args_at K m argv args ->
  literal K m space_at (text " ") -> respected K answers (hello_args space_at argv n i next m) -> (2 * n <= length answers)%nat ->
  exists m', agree_on K m m' /\ respected K (drop (2 * n) answers) (next m') /\
    observe fuel answers (hello_args space_at argv n i next m) =
    concat (map (fun a => [Said (Some a); Said (Some (text " "))]) (drop (Z.to_nat i) args)) ++
    observe fuel (drop (2 * n) answers) (next m').
Proof.
  intros Hfu Hf n. induction n as [|n IH]; intros i answers m Hi Hn Ha Hs Hr Hl.
  { exists m. rewrite (drop_ge args) by (unfold alen in Hn; lia). done. }
  destruct answers as [|[r1 m1] [|[r2 m2] answers]]; [cbn in Hl; lia..|]. cbn [hello_args] in *.
  pose proof Ha as (A0 & A1 & A2). destruct (A2 i ltac:(lia)) as (S1 & _ & S3 & _). rewrite u32_id in Hr |- * by (unfold is_u32; lia).
  destruct (print_step K _ _ _ _ _ _ _ _ (conj S1 S3) (Hfu i ltac:(lia)) Hr) as (-> & G1 & Hr1).
  destruct (print_step K fuel _ _ _ _ _ _ _ (literal_agree _ _ _ _ _ G1 Hs) ltac:(change (alen (text " ")) with 1; lia) Hr1)
    as (-> & G2 & Hr2).
  assert (G12 : agree_on K m m2) by (by eapply agree_on_trans).
  destruct (IH (i + 1) answers m2) as (m' & M2 & R & E);
    [lia|lia|by apply (args_at_agree K m)|by eapply literal_agree|done|cbn in Hl; lia|].
  exists m'. replace (2 * S n)%nat with (S (S (2 * n))) by lia. split; [by eapply agree_on_trans|]. split; [done|]. rewrite E.
  assert (Hd : drop (Z.to_nat i) args = args.[i] :: drop (Z.to_nat (i + 1)) args).
  { replace (Z.to_nat (i + 1)) with (S (Z.to_nat i)) by lia. apply drop_S. apply arr_lookup_get. lia. }
  by rewrite Hd.
Qed.

(** [hello] prints its greeting, then the arguments, each followed by a
    space, when there are any, and exits, under any kernel and other tasks
    that leave its memory alone. *)
Theorem hello_user_correct fuel hello_at received_at space_at newline_at argv args K m answers :
  literal K m hello_at hello_text -> literal K m received_at received_text -> literal K m space_at (text " ") ->
  literal K m newline_at newline -> args_at K m argv args ->
  (forall i, 0 <= i < alen args -> alen args.[i] < Z.of_nat fuel) -> (128 <= fuel)%nat ->
  let p := hello_main hello_at received_at space_at newline_at (alen args) argv m in
  respected K answers p -> (2 * length args + 4 <= length answers)%nat ->
  observe fuel answers p = hello_events args.
Proof.
  intros H1 H2 H3 H4 Ha Hfu Hf p Hr Hl. unfold p, hello_main in *.
  destruct answers as [|[r1 m1] [|[r2 m2] answers]]; [cbn in Hl; lia..|].
  destruct (print_step K fuel _ _ _ _ _ _ _ H1 ltac:(change (alen hello_text) with 64; lia) Hr) as (-> & G1 & Hr1).
  unfold hello_events. f_equal. destruct (decide (args = [])) as [->|Hne]; [apply exit_step|].
  assert (Hpos : 0 < alen args) by (destruct args; [done|unfold alen; cbn; lia]). rewrite (proj2 (Z.ltb_lt _ _) Hpos) in Hr1 |- *.
  destruct (print_step K fuel _ _ _ _ _ _ _ (literal_agree _ _ _ _ _ G1 H2) ltac:(change (alen received_text) with 29; lia) Hr1)
    as (-> & G2 & Hr2).
  assert (G12 : agree_on K m m2) by (by eapply agree_on_trans).
  destruct (hello_args_ok K fuel space_at argv args (sys_print newline_at sys_exit) Hfu ltac:(lia) (Z.to_nat (alen args)) 0 answers m2)
    as (m' & M2 & R & ->); [lia|lia|by apply (args_at_agree K m)|by eapply literal_agree|done|unfold alen; cbn in Hl; lia|].
  change (drop (Z.to_nat 0) args) with args. cbn [app]. f_equal. rewrite <- app_assoc. f_equal.
  set (tl := drop _ answers) in *. assert (Htl : (2 <= length tl)%nat) by (unfold tl; rewrite length_drop; unfold alen; cbn in Hl; lia).
  destruct tl as [|[r3 m3] [|[r4 m4] tl]]; [cbn in Htl; lia..|].
  assert (L4 : literal K m' newline_at newline) by (eapply literal_agree; [|exact H4]; by eapply agree_on_trans).
  destruct (print_step K fuel _ _ _ _ _ _ _ L4 ltac:(change (alen newline) with 1; lia) R) as (-> & _). by rewrite exit_step.
Qed.

Definition demo_text : list Z := newline ++ text "[Ring3] Hello depuis l'espace utilisateur (via int 0x80) !" ++ newline.
Definition demo_message : list Z := text "Salut depuis Ring3 via IPC !".

(** The demonstration of [usermode.c] prints its greeting, sends its message
    with the terminator to the shell and exits. *)
Lemma user_demo_ok fuel hello_at msg_at K m answers :
  literal K m hello_at demo_text -> literal K m msg_at demo_message -> (128 <= fuel)%nat ->
  let p := user_demo fuel hello_at msg_at m in
  respected K answers p -> (3 <= length answers)%nat ->
  observe fuel answers p = [Said (Some demo_text); Sent 0 (demo_message ++ [0]); Exited].
Proof.
  intros H1 H2 Hf p Hr Hl. unfold p, user_demo in *.
  destruct answers as [|[r1 m1] [|[r2 m2] [|[r3 m3] answers]]]; [cbn in Hl; lia..|].
  destruct (print_step K fuel _ _ _ _ _ _ _ H1 ltac:(change (alen demo_text) with 60; lia) Hr) as (-> & G1 & Hr1).
  f_equal. destruct (literal_agree _ _ _ _ _ G1 H2) as [Hs _]. change (alen demo_message) with 28 in *.
  rewrite (strlen_from_ok fuel m1 msg_at _ 0 Hs) by (change (alen demo_message) with 28; lia).
  change (u32 (alen demo_message + 1)) with (alen (demo_message ++ [0])). unfold sys_send. cbn [observe].
  rewrite (sent_bytes fuel m1 msg_at (demo_message ++ [0])); [f_equal; apply exit_step|apply Hs|apply Hs|].
  destruct Hs as (_ & Hs0 & Hs1). change (alen demo_message) with 28 in Hs1. change (alen (demo_message ++ [0])) with 29. lia.
Qed.

(** ** Under the kernel *)

Section kernel.
Context (L : Layout) (fuel : nat).

(** The program's calls served one after the other, [us] being the rest of
    the registers at each call; every call but SYS_EXIT and SYS_SLEEP comes
    back to it. *)
Fixpoint run (us : list cpu) (p : program) (k : kernel) : option (program * kernel) :=
  match us, p with
  | [], _ => Some (p, k)
  | u :: us, Call c m next =>
    match syscall_handler L fuel (load_call c u) (set_mem m k) with
    | Done u' k' => run us (next (r_eax u') (mem k')) k'
    | _ => None
    end
  | _, _ => None
  end.

(** The kernel's frame, on the task's kernel stack. *)
Definition kframe (k : kernel) : Z -> Prop := range (tss_esp0 k - 52) 52.
Definition user_cpu (u : cpu) : Prop := cpu_typed u /\ in_ring3 (r_cs u) = true.

(** What a call that comes back keeps of the kernel. *)
Definition kept_by_call (m : memory) (k k' : kernel) : Prop :=
  agree_on (fun x => ~ kframe k x) m (mem k') /\ tss_esp0 k' = tss_esp0 k /\
  current_task k' = current_task k.

Lemma load_call_frame c u k : user_cpu u -> (match c with
    | SysPrint a | SysSleep a => is_u32 a | SysExit => True
    | SysSend _ a b => is_u32 a /\ is_u32 b | SysRecv a b d => is_u32 a /\ is_u32 b /\ is_u32 d end) ->
  52 <= tss_esp0 k < 4294967296 ->
  frame_room (load_call c u) k /\ in_frame (load_call c u) k = kframe k /\ frame_at (load_call c u) k = tss_esp0 k - 52.
Proof.
  intros [Ht Hr] Hc Hsp. assert (Hcs : r_cs (load_call c u) = r_cs u) by (by destruct c).
  unfold frame_room, in_frame, frame_at, frame_size, frame_top. rewrite Hcs, Hr. split_and!; try done; try lia.
  unfold cpu_typed in *. rewrite !Forall_cons in *. destruct Ht as (T1 & T2 & T3 & T4 & T5 & T6 & T7 & T8 & T9 & T10 & T11 & T12 & _).
  destruct c; cbn; split_and!; try done; try apply u32_range; try apply Hc; unfold is_u32; cbn; lia.
Qed.

(** SYS_PRINT of a string that is not in the frame. *)
Lemma print_served u p s m k (K : Z -> Prop) : user_cpu u -> 52 <= tss_esp0 k < 4294967296 ->
  (forall x, K x -> ~ kframe k x) -> literal K m p s -> alen s < Z.of_nat fuel ->
  exists u' k', syscall_handler L fuel (load_call (SysPrint p) u) (set_mem m k) = Done u' k' /\
    kept_by_call m k k' /\ tasks k' = tasks k /\ Sched.console k' = Sched.console k ++ s.
Proof.
  intros Hu Hsp HK [Hs HsK] Hf. pose proof (alen_nonneg s). assert (Hp : is_u32 p) by (destruct Hs as (_ & ? & ?); unfold is_u32; lia).
  destruct (load_call_frame (SysPrint p) u (set_mem m k) Hu Hp Hsp) as (Hroom & Hfr & Hat).
  destruct (syscall_entry _ _ Hroom) as (m0 & E & Hag & Hsh). rewrite Hfr in Hag, Hsh.
  unfold syscall_handler. rewrite E. pose proof (Hsh m0 (agree_on_refl _ _)) as H0.
  destruct (shows_args _ _ m0 H0) as (Ea & Eb & _). unfold syscall_dispatch. cbn [mem set_mem]. rewrite Ea, Eb.
  change (r_eax (load_call (SysPrint p) u) =? SYS_PRINT) with true. cbv iota. change (r_ebx (load_call (SysPrint p) u)) with p.
  assert (Hs0 : str m0 p s) by (eapply (str_kept m); [exact Hag| |exact Hs]; intros x Hx; by apply HK, HsK).
  destruct Hs0 as (Hh & Hp0 & Hp1). rewrite (string_at_holds fuel m0 p s Hh Hp0 Hp1 Hf).
  do 2 eexists. split; [reflexivity|]. by split_and!.
Qed.

(** SYS_SEND. *)
Lemma send_served u pid p w m k (K : Z -> Prop) : user_cpu u -> 52 <= tss_esp0 k < 4294967296 ->
  (forall x, K x -> ~ kframe k x) -> bytes_at m p w -> (forall x, range p (alen w) x -> K x) ->
  0 <= p -> p + alen w < 4294967296 -> alen w <= 128 -> 0 <= pid < 16 -> alen (tasks k) = 16 ->
  (forall i, 0 <= i < 16 -> mailbox_wf (task k i)) -> active (task k pid) = true -> alen (queue (task k pid)) <> 4 ->
  exists u' k', syscall_handler L fuel (load_call (SysSend pid p (alen w)) u) (set_mem m k) = Done u' k' /\ r_eax u' = 1 /\
    kept_by_call m k k' /\ Sched.console k' = Sched.console k /\
    queue (task k' pid) = queue (task k pid) ++ [(current_task k, w)] /\
    (forall j, 0 <= j < 16 -> j <> pid -> task k' j = task k j) /\ alen (tasks k') = 16 /\ mailbox_wf (task k' pid).
Proof.
  intros Hu Hsp HK Hw HwK Hp Hpr Hl Hpid Hlen Hmail Hact Hroomq. pose proof (alen_nonneg w) as Hn.
  set (c := SysSend pid p (alen w)).
  destruct (load_call_frame c u (set_mem m k) Hu ltac:(unfold is_u32; cbn; lia) Hsp) as (Hroom & Hfr & Hat).
  destruct (syscall_entry _ _ Hroom) as (m0 & E & Hag & Hsh). rewrite Hfr in Hag, Hsh.
  unfold syscall_handler. rewrite E. pose proof (Hsh m0 (agree_on_refl _ _)) as H0.
  destruct (shows_args _ _ m0 H0) as (Ea & Eb & Ec & Ed). unfold syscall_dispatch. cbn [mem set_mem]. rewrite Ea, Eb, Ec, Ed.
  change (r_eax (load_call c u)) with SYS_SEND. change (r_ebx (load_call c u)) with (u32 pid). change (r_ecx (load_call c u)) with p.
  change (r_edx (load_call c u)) with (alen w). cbn [Z.eqb SYS_SEND SYS_PRINT SYS_EXIT SYS_SLEEP].
  assert (Hs32 : s32 (u32 pid) = pid) by (unfold s32; rewrite u32_idemp, u32_id by (unfold is_u32; lia); zcases; lia). rewrite Hs32.
  pose proof (ipc_send_correct pid p (alen w) (set_mem m0 k) Hlen Hn Hmail) as Hs.
  change (set_mem m0 (set_mem m k)) with (set_mem m0 k).
  assert (Hcon : Sched.console (ipc_send pid p (alen w) (set_mem m0 k)).2 = Sched.console k /\ tss_esp0 (ipc_send pid p (alen w) (set_mem m0 k)).2 = tss_esp0 k /\
    current_task (ipc_send pid p (alen w) (set_mem m0 k)).2 = current_task k).
  { unfold ipc_send. destruct (_ || _); [done|]. destruct (MAILBOX_QUEUE_SIZE <=? _); by split_and!. }
  destruct (ipc_send pid p (alen w) (set_mem m0 k)) as [r k1]. cbn [snd] in Hcon. destruct Hs as (Hr & Hm1 & _ & Hq).
  change (task (set_mem m0 k)) with (task k) in *. rewrite (proj2 (Z.leb_le 0 pid)), (proj2 (Z.ltb_lt pid 16)), Hact in Hr by lia. cbn [andb negb] in Hr.
  rewrite (proj2 (Z.eqb_neq _ 4)) in Hr by done. subst r. destruct (Hq eq_refl) as (Hq1 & Hq2). cbn [mem set_mem] in Hm1, Hq1.
  do 2 eexists. split; [reflexivity|]. cbn [mem set_regs_eax set_mem]. rewrite Hm1. split.
  { unfold shows in H0. pose proof (shows_set_eax _ _ m0 1 Hroom H0) as Hret. by rewrite Hret. }
  destruct Hcon as (C1 & C2 & C3). assert (Hag2 : agree_on (fun x => ~ kframe k x) m (store32 m0 (frame_at (load_call c u) (set_mem m k) ⊕ 28) 1)).
  { eapply agree_on_trans; [exact Hag|]. apply store32_agree. intros i Hi Hx. apply Hx. unfold kframe, range.
    rewrite Hat. cbn [tss_esp0 set_mem]. rewrite (u32_id (tss_esp0 k - 52 + 28)), u32_id by (unfold is_u32; lia). lia. }
  split; [unfold kept_by_call; cbn [mem set_regs_eax set_mem]; rewrite Hm1; auto with mx|]. split; [done|]. split; [|exact Hq2].
  change (task (set_regs_eax 1 _ k1)) with (task k1). rewrite Hq1. do 3 f_equal. unfold payload. rewrite Z.min_l by lia.
  apply arr_ext; rewrite alen_build by lia; [done|]. intros i Hi. rewrite build_get by lia.
  unfold load8. rewrite u32_idemp, u32_id by (unfold is_u32; lia). rewrite Hag by (apply HK, HwK; unfold range; lia). by apply Hw.
Qed.

(** The first attempt of [echo] finds room: the line is delivered and the
    program is at its exit. *)
Lemma attempt_served u line_at w k (P : Z -> Prop) n : user_cpu u -> 52 <= tss_esp0 k < 4294967296 ->
  (forall x, P x -> ~ kframe k x) -> bytes_at (mem k) line_at w -> (forall x, range line_at 128 x -> P x) ->
  0 <= line_at -> line_at + 128 <= 4294967296 -> alen w <= 126 -> alen (tasks k) = 16 ->
  (forall i, 0 <= i < 16 -> mailbox_wf (task k i)) ->
  active (task k SHELL_PID) = true -> alen (queue (task k SHELL_PID)) <> 4 ->
  exists k', run [u] (echo_attempts line_at (S n) (alen w) (mem k)) k = Some (sys_exit (mem k'), k') /\
    kept_by_call (mem k) k k' /\ Sched.console k' = Sched.console k /\
    queue (task k' SHELL_PID) = queue (task k SHELL_PID) ++ [(current_task k, w)] /\
    (forall j, 0 <= j < 16 -> j <> SHELL_PID -> task k' j = task k j) /\ alen (tasks k') = 16 /\ mailbox_wf (task k' SHELL_PID).
Proof.
  intros Hu Hsp HP Hw HwP H0 H1 Hl Hlen Hmail Hact Hq. pose proof (alen_nonneg w). cbn [echo_attempts]. unfold sys_send. cbn [run].
  destruct (send_served u SHELL_PID line_at w (mem k) k P Hu Hsp HP Hw) as (u' & k' & -> & -> & R);
    [intros x Hx; apply HwP; unfold range in *; lia|lia|lia|lia|by unfold SHELL_PID|done|done|done|done|].
  cbn [Z.eqb negb]. by exists k'.
Qed.

(** [echo] under the kernel, from its first instruction to its exit.  The
    running task has the arguments in its table and its kernel frame lies
    outside its memory; the shell is active with room in its mailbox.  Then
    the four calls are served: the console shows "[echo] " and the line, the
    shell's mailbox has received the line from this task, no other task has
    changed, and the program is at SYS_EXIT. *)
Theorem echo_under_kernel echo_at newline_at line_at argv args K us k :
  0 <= line_at -> line_at + 128 <= 4294967296 -> (forall x, K x -> ~ range line_at 128 x) ->
  args_at K (mem k) argv args -> (forall i, 0 <= i < alen args -> alen args.[i] < Z.of_nat fuel) -> (128 <= fuel)%nat ->
  literal K (mem k) echo_at (text "[echo] ") -> literal K (mem k) newline_at newline ->
  Forall user_cpu us -> length us = 4%nat ->
  52 <= tss_esp0 k < 4294967296 -> (forall x, K x \/ range line_at 128 x -> ~ kframe k x) ->
  alen (tasks k) = 16 -> (forall i, 0 <= i < 16 -> mailbox_wf (task k i)) ->
  active (task k SHELL_PID) = true -> alen (queue (task k SHELL_PID)) <> 4 ->
  exists k', run us (echo_main fuel echo_at newline_at line_at (alen args) argv (mem k)) k = Some (sys_exit (mem k'), k') /\
    Sched.console k' = Sched.console k ++ text "[echo] " ++ echo_line args ++ newline /\
    queue (task k' SHELL_PID) = queue (task k SHELL_PID) ++ [(current_task k, echo_line args)] /\
    (forall j, 0 <= j < 16 -> j <> SHELL_PID -> task k' j = task k j) /\ current_task k' = current_task k /\
    alen (tasks k') = 16 /\ mailbox_wf (task k' SHELL_PID).
Proof.
  intros H0 H1 Hap Hargs Hfu Hf He Hn Hus Hlu Hsp Hfr Hlen Hmail Hact Hq.
  destruct us as [|u1 [|u2 [|u3 [|u4 [|]]]]]; [done..| |done].
  apply Forall_cons in Hus as [U1 Hus]. apply Forall_cons in Hus as [U2 Hus]. apply Forall_cons in Hus as [U3 Hus]. apply Forall_cons in Hus as [U4 _].
  set (P := fun x => K x \/ range line_at 128 x) in *. assert (HKP : forall x, K x -> P x) by (by left).
  assert (HKf : forall k0, tss_esp0 k0 = tss_esp0 k -> forall x, P x -> ~ kframe k0 x) by (intros k0 E; unfold kframe; rewrite E; exact Hfr).
  unfold echo_main, sys_print at 1. cbn [run].
  destruct (print_served u1 echo_at _ (mem k) k K U1 Hsp (fun x Hx => HKf k eq_refl x (HKP x Hx)) He) as (u1' & k1 & -> & (G1 & S1 & C1) & T1 & O1);
    [change (alen (text "[echo] ")) with 7; lia|].
  assert (K1 : agree_on K (mem k) (mem k1)) by (eapply agree_on_weaken; [|exact G1]; intros x Hx; by apply Hfr, HKP).
  destruct (args_at_agree K _ _ argv args K1 Hargs) as [Hargs1 _].
  destruct (echo_line_ready fuel newline_at line_at argv args K (mem k1) H0 H1 Hap Hargs1 Hfu) as (m3 & Hstr & G3 & Wl & E3).
  cbv zeta in E3. rewrite E3. clear E3.
  set (w := echo_line args) in *. pose proof (alen_nonneg w). unfold sys_print at 1. cbn [run].
  assert (Hlit : literal P m3 line_at w) by (split; [done|]; unfold range; intros x Hx; right; unfold range; lia).
  rewrite <- S1 in Hsp.
  destruct (print_served u2 line_at w m3 k1 P U2 Hsp (HKf k1 S1) Hlit) as (u2' & k2 & -> & (G2 & S2 & C2) & T2 & O2); [lia|].
  assert (P2 : agree_on P m3 (mem k2)) by (eapply agree_on_weaken; [|exact G2]; exact (HKf k1 S1)).
  unfold sys_print. cbn [run]. rewrite <- S2 in Hsp. assert (S2' : tss_esp0 k2 = tss_esp0 k) by congruence.
  assert (Hn2 : literal K (mem k2) newline_at newline).
  { eapply literal_agree; [|exact Hn]. eapply agree_on_trans; [exact K1|]. eapply agree_on_trans.
    - eapply agree_on_weaken; [|exact G3]. exact Hap.
    - by eapply agree_on_weaken. }
  destruct (print_served u3 newline_at _ (mem k2) k2 K U3 Hsp (fun x Hx => HKf k2 S2' x (HKP x Hx)) Hn2) as (u3' & k3 & -> & (G4 & S3 & C3) & T3 & O3);
    [change (alen newline) with 1; lia|].
  rewrite <- S3 in Hsp. assert (S3' : tss_esp0 k3 = tss_esp0 k) by congruence.
  assert (P3 : agree_on P m3 (mem k3)).
  { eapply agree_on_trans; [exact P2|]. eapply agree_on_weaken; [|exact G4]. exact (HKf k2 S2'). }
  assert (Ht : forall i, task k3 i = task k i) by (intros i; unfold task; by rewrite T3, T2, T1).
  assert (Hlw : alen w <= 126) by lia.
  destruct (attempt_served u4 line_at w k3 P 3 U4 Hsp (HKf k3 S3')) as (k4 & E4 & (_ & _ & C4) & O4 & Q4 & T4 & X4);
    [|by right|done|done|done|by rewrite T3, T2, T1|intros i; rewrite Ht; apply Hmail|by rewrite Ht|by rewrite Ht|].
  - eapply bytes_at_agree; [|exact (str_bytes _ _ _ Hstr)]. eapply agree_on_weaken; [|exact P3]. unfold range. intros x Hx. right. unfold range. lia.
  - exists k4. split; [exact E4|]. rewrite Ht in Q4. split; [by rewrite O4, O3, O2, O1, <- !app_assoc|].
    split; [rewrite Q4; do 3 f_equal; congruence|]. split; [intros j Hj Hne; by rewrite T4, Ht|]. split; [congruence|exact X4].
Qed.
End kernel.

(** The argument area that [exec_run] prepares is such a table. *)
Lemma placed_args_at base m args : 0 <= base -> base + 512 <= 4294967296 -> 4 * (alen args + 1) <= 512 ->
  alen (arg_offsets (4 * (alen args + 1)) args) = alen args -> Forall (Forall is_byte) args ->
  args_placed base m 0 (4 * (alen args + 1)) args -> args_at (range base 512) m base args.
Proof.
  intros H0 H1 Hl Hfit Hb [Hp _]. split; [done|]. split; [lia|]. intros i Hi. pose proof (alen_nonneg args).
  destruct (Hp i ltac:(lia)) as (E & O1 & O2 & Hh). rewrite Z.add_0_l in E. rewrite E. pose proof (alen_nonneg args.[i]).
  split; [split; [exact Hh|lia]|]. split; [unfold range; lia|]. split; [unfold range; lia|].
  rewrite arr_Forall in Hb. by apply Hb.
Qed.

(** ** A concrete [echo un deux] *)

Definition place (p : Z) (l : list Z) (m : memory) : memory :=
  fun x => if (p <=? x) && (x <? p + alen l) then l.[x - p] else m x.
Lemma place_bytes p l m : Forall is_byte l -> mem_bytes m -> mem_bytes (place p l m).
Proof.
  intros Hl Hm x. unfold place. destruct (_ && _) eqn:E; [|apply Hm]. apply andb_prop in E as [?%Z.leb_le ?%Z.ltb_lt].
  rewrite arr_Forall in Hl. apply Hl. lia.
Qed.

Definition demo_args : list (list Z) := [text "un"; text "deux"].
Definition echo_memory : memory :=
  place 5000 [236; 19; 0; 0; 80; 20; 0; 0] (place 5100 (text "un" ++ [0]) (place 5200 (text "deux" ++ [0])
    (place 6000 (text "[echo] " ++ [0]) (place 6100 (newline ++ [0]) (fun _ => 0))))).
Definition echo_data : Z -> Prop := range 5000 2000.

(** Deciding that a string is somewhere. *)
Definition check_str (m : memory) (p : Z) (s : list Z) : bool :=
  forallb (fun i => m (p + i) =? (s ++ [0]).[i]) (seqZ 0 (alen s + 1)) && forallb (fun c => negb (c =? 0)) s &&
  (0 <=? p) && (p + alen s <? 4294967296).
Lemma check_str_ok m p s : check_str m p s = true -> str m p s.
Proof.
  unfold check_str. rewrite !andb_true_iff. intros (((H1 & H2) & H3%Z.leb_le) & H4%Z.ltb_lt). split; [|done]. split.
  - intros i Hi. rewrite alen_snoc in Hi. rewrite forallb_forall in H1. apply Z.eqb_eq, H1. apply list_elem_of_In, elem_of_seqZ. lia.
  - apply Forall_forall. intros c Hc. rewrite forallb_forall in H2. apply list_elem_of_In in Hc. apply H2 in Hc. by destruct (Z.eqb_spec c 0).
Qed.

Lemma echo_args_at : args_at echo_data echo_memory 5000 demo_args.
Proof.
  split; [lia|]. split; [by vm_compute|]. intros i Hi. change (0 <= i < 2) in Hi.
  assert (Hc : i = 0 \/ i = 1) by lia. destruct Hc as [->| ->].
  - change (load32 echo_memory (5000 + 4 * 0)) with 5100. split; [apply check_str_ok; by vm_compute|].
    change (alen demo_args.[0]) with 2. unfold echo_data, range. split; [lia|]. split; [lia|]. by repeat constructor.
  - change (load32 echo_memory (5000 + 4 * 1)) with 5200. split; [apply check_str_ok; by vm_compute|].
    change (alen demo_args.[1]) with 4. unfold echo_data, range. split; [lia|]. split; [lia|]. by repeat constructor.
Qed.

Lemma echo_fuel i : 0 <= i < alen demo_args -> alen demo_args.[i] < Z.of_nat 200.
Proof. intros Hi. change (0 <= i < 2) in Hi. assert (Hc : i = 0 \/ i = 1) by lia. by destruct Hc as [->| ->]. Qed.

Lemma echo_literals : literal echo_data echo_memory 6000 (text "[echo] ") /\ literal echo_data echo_memory 6100 newline.
Proof.
  split; (split; [apply check_str_ok; by vm_compute|]); [change (alen (text "[echo] ")) with 7|change (alen newline) with 1];
    unfold echo_data, range; lia.
Qed.

Lemma echo_apart x : echo_data x -> ~ range 7000 128 x.
Proof. unfold echo_data, range. lia. Qed.

(** A quiet environment: the calls answer [r] and change nothing. *)
Fixpoint quiet_answers (rs : list Z) (p : program) : list answer :=
  match rs, p with
  | [], _ => []
  | r :: rs, Call c m next => (r, m) :: quiet_answers rs (next r m)
  | r :: rs, _ => (r, fun _ => 0) :: quiet_answers rs p
  end.
Lemma quiet_respected P rs p : respected P (quiet_answers rs p) p.
Proof. revert p. induction rs as [|r rs IH]; intros [c m next| |]; cbn; try done; by split. Qed.
Lemma quiet_length rs p : length (quiet_answers rs p) = length rs.
Proof. revert p. induction rs as [|r rs IH]; intros [c m next| |]; cbn; try done; by rewrite IH. Qed.
Lemma quiet_results rs p : map fst (quiet_answers rs p) = rs.
Proof. revert p. induction rs as [|r rs IH]; intros [c m next| |]; cbn; try done; by rewrite IH. Qed.

(** The mailbox is full once. *)
Definition demo_results : list Z := [0; 0; 0; 0; 0; 1; 0; 0; 0; 0; 0; 0].
Definition demo_echo : program := echo_main 200 6000 6100 7000 2 5000 echo_memory.

Lemma echo_user_correct_witness : observe 200 (quiet_answers demo_results demo_echo) demo_echo =
  [Said (Some (text "[echo] ")); Said (Some (text "un deux")); Said (Some newline);
   Sent 0 (text "un deux"); Slept 1; Sent 0 (text "un deux"); Exited].
Proof.
  destruct echo_literals as [[L1 L2] [L3 L4]].
  pose proof (echo_user_correct 200 6000 6100 7000 5000 demo_args echo_data echo_memory (quiet_answers demo_results demo_echo)
    ltac:(lia) ltac:(lia) echo_apart echo_args_at echo_fuel ltac:(lia) L1 L2 L3 L4 (quiet_respected _ _ _)
    ltac:(rewrite quiet_length; cbn; lia)) as H. rewrite quiet_results in H. exact H.
Defined.

Lemma user_strings_correct_witness :
  u_strlen 200 echo_memory 5200 = Some 4 /\
  exists r, u_strcmp 200 echo_memory 5200 5100 = Some r /\ (r = 0 <-> text "deux" = text "un") /\
    (r < 0 <-> str_lt (text "deux") (text "un")).
Proof.
  assert (Hb : mem_bytes echo_memory).
  { unfold echo_memory. do 5 (apply place_bytes; [by repeat constructor|]). intros x. by split. }
  destruct (user_strings_correct 200 echo_memory 5200 5100 (text "deux") (text "un") Hb) as (H1 & H2 & _);
    [apply check_str_ok; by vm_compute..|by vm_compute|]. exact (conj H1 H2).
Defined.

(** Task 1 runs [echo] under the kernel; the shell is task 0. *)
Definition echo_kernel : kernel := set_current_task 1 (tss_set_kernel_stack 20000 (set_mem echo_memory demo_sched)).
Definition echo_cpu : cpu := mkCpu 0 0 0 0 0 0 0 9000 33000 SEL_USER_CODE 514 SEL_USER_DATA.

Lemma echo_under_kernel_witness : exists k',
  run demo_layout 200 [echo_cpu; echo_cpu; echo_cpu; echo_cpu] demo_echo echo_kernel = Some (sys_exit (mem k'), k') /\
  Sched.console k' = text "[echo] " ++ text "un deux" ++ newline /\
  queue (task k' 0) = [(1, text "un deux")].
Proof.
  destruct echo_literals as [L1 L2]. assert (Hu : user_cpu echo_cpu) by (split; [by repeat constructor|done]).
  destruct (echo_under_kernel demo_layout 200 6000 6100 7000 5000 demo_args echo_data
    [echo_cpu; echo_cpu; echo_cpu; echo_cpu] echo_kernel ltac:(lia) ltac:(lia) echo_apart echo_args_at echo_fuel ltac:(lia) L1 L2)
    as (k' & H1 & H2 & H3 & _).
  - by repeat constructor.
  - done.
  - change (52 <= 20000 < 4294967296). lia.
  - change (tss_esp0 echo_kernel) with 20000. unfold kframe, echo_data, range. change (tss_esp0 echo_kernel) with 20000. lia.
  - reflexivity.
  - apply demo_sched_ipc.
  - reflexivity.
  - by vm_compute.
  - exists k'. exact (conj H1 (conj H2 H3)).
Defined.

Definition hello_memory : memory := place 5300 (hello_text ++ [0]) (place 5400 (received_text ++ [0]) (place 6200 (text " " ++ [0]) echo_memory)).
Definition demo_hello : program := hello_main 5300 5400 6200 6100 2 5000 hello_memory.

Lemma hello_user_correct_witness : observe 200 (quiet_answers (repeat 0 9) demo_hello) demo_hello =
  [Said (Some hello_text); Said (Some received_text); Said (Some (text "un")); Said (Some (text " "));
   Said (Some (text "deux")); Said (Some (text " ")); Said (Some newline); Exited].
Proof.
  assert (Hag : agree_on (fun x => ~ (5300 <= x < 5500) /\ ~ (6200 <= x < 6210)) echo_memory hello_memory).
  { intros x Hx. unfold hello_memory, place. change (alen (hello_text ++ [0])) with 65. change (alen (received_text ++ [0])) with 30.
    change (alen (text " " ++ [0])) with 2. zcases. }
  assert (Hargs : args_at echo_data hello_memory 5000 demo_args).
  { split; [lia|]. split; [by vm_compute|]. intros i Hi. change (0 <= i < 2) in Hi. destruct echo_args_at as (_ & _ & Ha).
    assert (Hl : load32 hello_memory (5000 + 4 * i) = load32 echo_memory (5000 + 4 * i)).
    { apply load32_agree; [lia|lia|]. eapply agree_on_weaken; [|exact Hag]. unfold range. lia. }
    rewrite Hl. destruct (Ha i Hi) as (S1 & S2 & S3 & S4). split; [|by split].
    assert (Hc : i = 0 \/ i = 1) by lia. destruct Hc as [->| ->]; apply check_str_ok; by vm_compute. }
  assert (Hlit : forall p s, check_str hello_memory p s = true -> (5000 <=? p) && (p + alen s + 1 <=? 7000) = true -> literal echo_data hello_memory p s).
  { intros p s Hs Hr. split; [by apply check_str_ok|]. apply andb_prop in Hr as [?%Z.leb_le ?%Z.leb_le]. unfold echo_data, range. lia. }
  apply (hello_user_correct 200 5300 5400 6200 6100 5000 demo_args echo_data hello_memory (quiet_answers (repeat 0 9) demo_hello));
    [apply Hlit; by vm_compute..|exact Hargs|exact echo_fuel|lia|apply quiet_respected|rewrite quiet_length; cbn; lia].
Defined.
