(* ===== verification/System.v ===== *)
(** * The running machine

    After [main_entry] the machine runs the loop [shell_poll(); hlt] of
    [init.c] as task 0, interrupted by the keyboard and the timer.  Here the
    steps of that loop and everything that happens between them (keys, kernel
    operations and the work of the other tasks) are one step relation, whose
    runs start at the state that [main_entry] builds. *)
From Stdlib Require Import String.
From stdpp Require Import base numbers list list_numbers relations.
From S2P Require Import Prelude Machine Heap BlockDev Fs FsData FsProofs FsProps Paging Pit Sched SchedProps Frames SchedInv Ipc Elf Keyboard Screen Syscall Exec Shell ShellEdit ShellCmd ShellSafe Descriptors Boot UserProg.

(** ** Characters *)

(** Whatever the scancode, the decoder gives bytes that are not zero. *)
Lemma decode_char sh ex sc c : is_byte sc -> (decode sh ex sc).2 = Some c -> is_byte c /\ c <> 0.
Proof.
  set (ok := fun p : bool * bool * option Z => match p.2 with Some c => (0 <=? c) && (c <? 256) && negb (c =? 0) | None => true end).
  assert (Hall : forall sh ex, forallb (fun n => ok (decode sh ex (Z.of_nat n))) (seq 0 256) = true) by (by intros [] []).
  intros Hsc E. specialize (Hall sh ex). rewrite forallb_forall in Hall. specialize (Hall (Z.to_nat sc)).
  rewrite Z2Nat.id in Hall by apply Hsc. unfold ok in Hall. rewrite E in Hall. unfold is_byte in *.
  specialize (Hall ltac:(apply in_seq; lia)). apply andb_prop in Hall as [[H1%Z.leb_le H2%Z.ltb_lt]%andb_prop H3%negb_true_iff%Z.eqb_neq]. lia.
Qed.

(** The characters waiting in the ring. *)
Definition keys_ok (kb : keyboard) : Prop :=
  kbd_wf kb /\ Forall (fun c => is_byte c /\ c <> 0) (pending kb).

Lemma keys_boot kb : kbd_wf kb -> abs kb = Spec false false [] -> keys_ok kb.
Proof. intros Hwf Ha. split; [done|]. injection Ha as _ _ Hp. rewrite Hp. constructor. Qed.

Lemma keys_handler sc kb : is_byte sc -> keys_ok kb -> keys_ok (keyboard_handler sc kb).
Proof.
  intros Hsc [Hwf Hp]. destruct (handler_spec sc kb Hwf Hsc) as (oc & Hd & (Hwf' & E & _) & _). split; [done|].
  rewrite E. destruct oc as [c|]; [|done]. cbn [enqueue]. destruct (_ <? _); [|done]. apply Forall_app. split; [done|].
  constructor; [|constructor]. apply (decode_char (negb (shift_pressed kb =? 0)) (negb (extended_prefix kb =? 0)) sc); [done|by rewrite Hd].
Qed.

Lemma keys_read kb c kb' : keys_ok kb -> keyboard_read_char kb = (Some c, kb') -> keys_ok kb' /\ is_byte c /\ c <> 0.
Proof.
  intros [Hwf Hp] E. pose proof (read_pending kb Hwf) as Hr. destruct (pending kb) as [|d cs]; [congruence|].
  destruct Hr as (kb1 & E1 & Hwf1 & Hp1). rewrite E in E1. injection E1 as -> ->. apply Forall_cons in Hp as [Hd Hcs].
  split; [split; [done|by rewrite Hp1]|done].
Qed.

(** A terminated string ends at its first zero. *)
Lemma holds_cstr m p l : bytes_at m p (l ++ [0]) -> holds m p (cstr l).
Proof.
  intros Hb. split; [|apply cstr_nonzero]. revert p Hb. induction l as [|c l IH]; intros p Hb; [exact Hb|].
  cbn [cstr]. pose proof (alen_nonneg l). destruct (Z.eqb_spec c 0) as [->|Hc].
  - intros i Hi. change (0 <= i < 1) in Hi. replace i with 0 by lia. apply (Hb 0). cbn [app]. rewrite alen_cons, alen_snoc. lia.
  - intros i Hi. cbn [app] in *. rewrite alen_cons in Hi. destruct (decide (i = 0)) as [->|Hi0].
    + apply (Hb 0). rewrite alen_cons, alen_snoc. lia.
    + replace i with (i - 1 + 1) by lia. rewrite arr_get_cons_S by lia.
      replace (p + (i - 1 + 1)) with (p + 1 + (i - 1)) by lia. apply IH; [|lia]. intros j Hj.
      specialize (Hb (j + 1)). rewrite alen_cons, arr_get_cons_S in Hb by lia. replace (p + 1 + j) with (p + (j + 1)) by lia. apply Hb. lia.
Qed.

(** ** The messages for the shell *)
Section messages.
Context {D : Type} (poll_buf : Z) (str_fuel : nat).
Context (poll_low : 0 <= poll_buf) (fuel_enough : (256 <= str_fuel)%nat).
Implicit Types st : shell D.

Definition message_text (sender : Z) (bytes : list Z) : list Z :=
  newline ++ text "[IPC] Message de la tache " ++ dec sender ++ text " : " ++ cstr (map u8 (take 127 bytes)) ++ newline.

(** The buffer after [buf[len] = 0]. *)
Lemma poll_buffer m m1 bytes : poll_buf + 128 <= 4294967296 -> alen bytes <= 128 ->
  (forall x, m1 x = if (poll_buf <=? x) && (x <? poll_buf + alen bytes) then u8 (bytes.[x - poll_buf]) else m x) ->
  let len := if 128 <=? alen bytes then 127 else alen bytes in
  let m2 := store8 m1 (poll_buf ⊕ len) 0 in
  (mem_bytes m -> mem_bytes m2) /\ agree_on (fun x => ~ range poll_buf 128 x) m m2 /\
  string_at str_fuel m2 poll_buf = Some (cstr (map u8 (take 127 bytes))).
Proof.
  intros Hr Hl E len m2. pose proof (alen_nonneg bytes). assert (Hlen : 0 <= len <= 127 /\ len = alen (take 127 bytes)).
  { unfold len, alen in *. rewrite length_take. destruct (Z.leb_spec 128 (Z.of_nat (length bytes))); lia. }
  assert (E2 : forall x, m2 x = if x =? poll_buf + len then 0 else m1 x).
  { intros x. unfold m2, store8. by rewrite u32_idemp, u32_id by (unfold is_u32; lia). }
  split; [intros Hm; apply mem_bytes_store8; intros x; rewrite E; destruct (_ && _); [apply u8_range|apply Hm]|]. split.
  { intros x Hx. unfold range in Hx. rewrite E2, E. zcases. }
  assert (Hh : holds m2 poll_buf (cstr (map u8 (take 127 bytes)))).
  { apply holds_cstr. assert (Hlm : alen (map u8 (take 127 bytes)) = len) by (unfold alen in *; rewrite length_map; lia).
    intros i Hi. rewrite alen_snoc, Hlm in Hi. rewrite E2. destruct (Z.eqb_spec (poll_buf + i) (poll_buf + len)) as [Ei|Ei].
    - rewrite arr_get_app_r by lia. replace (i - _) with 0 by lia. done.
    - rewrite arr_get_app_l by lia. rewrite (arr_get_map u8 (take 127 bytes) i) by lia. rewrite E.
      replace (poll_buf + i - poll_buf) with i by lia. assert (Hi2 : i < alen bytes) by (unfold alen in *; rewrite length_take in *; lia).
      rewrite (proj2 (Z.leb_le _ _)), (proj2 (Z.ltb_lt _ _)) by lia. cbn [andb]. f_equal. symmetry.
      apply arr_get_lookup; [lia|]. rewrite lookup_take_lt by lia. apply arr_lookup_get. lia. }
  assert (Hc : alen (cstr (map u8 (take 127 bytes))) <= 127).
  { assert (Hg : forall l, alen (cstr l) <= alen l).
    { intros l. induction l as [|c l IH]; [done|]. cbn [cstr]. pose proof (alen_nonneg l). rewrite alen_cons. destruct (c =? 0); [unfold alen; cbn; lia|].
      rewrite alen_cons. lia. }
    specialize (Hg (map u8 (take 127 bytes))). unfold alen in *. rewrite length_map in Hg. lia. }
  apply string_at_holds; [done|lia|lia|lia].
Qed.

(** [shell_poll_ipc] with no message, and with one. *)
Lemma poll_ipc_none st : let k := ek (sys st) in alen (tasks k) = 16 -> 0 <= current_task k < 16 ->
  mailbox_wf (task k (current_task k)) -> queue (task k (current_task k)) = [] ->
  shell_poll_ipc poll_buf str_fuel st = Prompt st.
Proof.
  intros k Hl Hc Hwf Hq. unfold shell_poll_ipc, ipc_recv. fold k.
  assert (Hz : mailbox_count (task k (current_task k)) = 0).
  { destruct Hwf as (_ & _ & _ & _ & _ & H6 & _). pose proof (alen_build (mailbox_count (task k (current_task k))) (message (task k (current_task k)))) as Ha.
    unfold queue in Hq. rewrite Hq in Ha. change (alen []) with 0 in Ha. lia. }
  rewrite Hz. cbn [Z.eqb]. unfold k. by destruct st as [[] ? ? ? ? ? ? ? ?].
Qed.

Lemma poll_ipc_shows st sender bytes rest : let k := ek (sys st) in
  alen (tasks k) = 16 -> 0 <= current_task k < 16 -> mailbox_wf (task k (current_task k)) -> poll_buf + 128 <= 4294967296 ->
  queue (task k (current_task k)) = (sender, bytes) :: rest ->
  exists m, let k1 := (ipc_recv poll_buf k).2 in
    shell_poll_ipc poll_buf str_fuel st =
      Prompt (set_sys (set_ek (Sched.kprint (message_text sender bytes) (set_mem m k1)) (sys st)) st) /\
    queue (task k1 (current_task k)) = rest /\ Sched.console k1 = Sched.console k /\ heap_start k1 = heap_start k /\
    (mem_bytes (mem k) -> mem_bytes m) /\ agree_on (fun x => ~ range poll_buf 128 x) (mem k) m /\
    agree_on (fun x => ~ range poll_buf 128 x) (mem k) (mem k1).
Proof.
  intros k Hl Hc Hwf Hr Hq. pose proof (ipc_recv_correct poll_buf k Hl Hc Hwf poll_low Hr) as Hrecv.
  assert (Hcons : Sched.console (ipc_recv poll_buf k).2 = Sched.console k /\ heap_start (ipc_recv poll_buf k).2 = heap_start k).
  { unfold ipc_recv. by destruct (_ =? 0). }
  unfold shell_poll_ipc. fold k. destruct (ipc_recv poll_buf k) as [[[len sender']|] k1]; cbn [snd] in *.
  2:{ destruct Hrecv as [Hq' _]. cbn zeta in Hq'. congruence. }
  destruct Hrecv as (bytes' & Hq' & <- & Hl' & Em & _). rewrite Hq in Hq'. injection Hq' as <- <- Hrest.
  destruct (poll_buffer (mem k) (mem k1) bytes Hr (proj2 Hl') Em) as (Hm2 & Hag & Estr).
  cbn zeta. set (m2 := store8 (mem k1) _ 0) in *. change (sh_mem (set_sys (set_ek k1 (sys st)) st)) with (mem k1). fold m2.
  unfold with_string. change (sh_mem (set_sh_mem m2 _)) with m2. rewrite Estr. fold (message_text sender bytes).
  exists m2. split; [reflexivity|]. split; [done|]. destruct Hcons. split; [done|]. split; [done|]. split; [done|]. split; [done|].
  intros x Hx. unfold range in Hx. rewrite Em. zcases.
Qed.
End messages.

Section system.
Context {D : Type} `{BlockDeviceLaws D}.
Context (disk_large : FS_DATA_END_LBA <= nsectors).
Context (L : Layout) (exec_stacks elf_staging input_buffer poll_buf total task_exit_at : Z) (str_fuel : nat).
Context (layout_fine : layout_ok L).
Context (buffer_range : 0 <= input_buffer /\ input_buffer + 256 <= 4294967296).
Context (fuel_enough : (256 <= str_fuel)%nat) (fuel_range : Z.of_nat str_fuel <= 2147483648).
Context (poll_apart : 0 <= poll_buf /\ (poll_buf + 128 <= input_buffer \/ input_buffer + 256 <= poll_buf)).
Implicit Types st : shell D.
Abbreviation system_ok := (system_ok L exec_stacks elf_staging input_buffer total).

(** ** The kernel under the shell *)

Lemma line_kept st k' : 0 <= buffer_idx st <= 255 -> agree_on (range input_buffer 256) (sh_mem st) (mem k') ->
  line input_buffer (set_sys (set_ek k' (sys st)) st) = line input_buffer st.
Proof.
  intros Hi Hag. unfold line. cbn [buffer_idx set_sys]. apply build_ext_range; [lia|]. intros i Hr.
  unfold input_char, sh_mem. cbn [sys set_sys ek set_ek]. unfold load8. rewrite u32_idemp, u32_id by (unfold is_u32; lia).
  apply Hag. unfold range. lia.
Qed.

(** The invariants see of the kernel only its own invariant, the place of the
    heap and the line. *)
Lemma system_moves st k' bs sp bs' sp' : system_ok st bs sp -> kernel_wf L total k' bs' sp' ->
  heap_start k' = heap_start (ek (sys st)) -> mem_bytes (mem k') -> agree_on (range input_buffer 256) (sh_mem st) (mem k') ->
  system_ok (set_sys (set_ek k' (sys st)) st) bs' sp'.
Proof.
  intros Hso Hk Hhs Hm Hag. pose proof (line_kept st k' (eo_idx _ _ (so_edit _ _ _ _ _ _ _ _ Hso)) Hag) as Hl.
  destruct Hso. split; cbn [sys set_sys ek set_ek efs slot_pid]; rewrite ?Hhs; try done. by apply edit_ok_sys.
Qed.

Lemma system_op st k' bs sp : system_ok st bs sp -> kernel_op L task_exit_at (ek (sys st)) k' ->
  heap_start k' = heap_start (ek (sys st)) /\ exists bs' sp', system_ok (set_sys (set_ek k' (sys st)) st) bs' sp'.
Proof.
  intros Hso Hop. pose proof (so_kernel _ _ _ _ _ _ _ _ Hso) as Hk. pose proof (so_low _ _ _ _ _ _ _ _ Hso) as Hlow.
  destruct (kernel_op_memory _ _ _ _ _ _ _ Hk Hop) as (Hhs & Hm & Hag).
  destruct (kernel_op_wf L total task_exit_at _ _ layout_fine Hop (ex_intro _ bs (ex_intro _ sp Hk))) as (bs' & sp' & Hk').
  split; [done|]. exists bs', sp'. apply (system_moves st k' bs sp); [done..|by apply Hm, Hso|].
  eapply agree_on_weaken; [|exact Hag]. unfold range. lia.
Qed.

(** [shell_poll_ipc] keeps the invariants. *)
Lemma poll_ipc_ok st bs sp : system_ok st bs sp -> poll_buf + 128 <= heap_start (ek (sys st)) ->
  exists st', shell_poll_ipc poll_buf str_fuel st = Prompt st' /\ system_ok st' bs sp /\
    heap_start (ek (sys st')) = heap_start (ek (sys st)).
Proof.
  intros Hso Hpb. set (k := ek (sys st)) in *. pose proof (so_kernel _ _ _ _ _ _ _ _ Hso) as Hk. fold k in Hk.
  pose proof (hi_end _ _ _ _ (kw_heap _ _ _ _ _ Hk)) as Hend.
  pose proof (extent_nonneg _ _ _ (hi_rep _ _ _ _ (kw_heap _ _ _ _ _ Hk))) as Htot. rewrite (hi_extent _ _ _ _ (kw_heap _ _ _ _ _ Hk)) in Htot.
  pose proof (kw_cur _ _ _ _ _ Hk) as Hc. pose proof (kw_mail _ _ _ _ _ Hk _ Hc) as Hmail. pose proof (kw_len _ _ _ _ _ Hk) as Hl.
  destruct (queue (task k (current_task k))) as [|[sender bytes] rest] eqn:Hq.
  { exists st. split; [by apply poll_ipc_none|]. by split. }
  destruct (poll_ipc_shows poll_buf str_fuel (proj1 poll_apart) fuel_enough st sender bytes rest Hl Hc Hmail ltac:(lia) Hq) as (m & E & _ & _ & Hhs & Hm & Hag & Hag1).
  fold k in E, Hhs, Hm, Hag, Hag1. pose proof (ipc_recv_wf L total poll_buf k bs sp Hk) as Hwf1.
  set (k1 := (ipc_recv poll_buf k).2) in *. set (k2 := Sched.kprint _ _) in E. eexists. split; [exact E|]. split; [|exact Hhs].
  apply (system_moves st k2 bs sp); [done| |exact Hhs|exact (Hm (so_bytes _ _ _ _ _ _ _ _ Hso))|].
  - apply (client_write_wf L total k1 bs sp m) in Hwf1; [by destruct Hwf1; split|..].
    + intros i Hi. left. rewrite u32_id by (unfold is_u32; lia). unfold range. lia.
    + intros x Hx. assert (~ range poll_buf 128 x) by (intros Hin; apply Hx; left; rewrite Hhs; unfold range in *; lia).
      by rewrite Hag, Hag1.
  - eapply agree_on_weaken; [|exact Hag]. unfold range. lia.
Qed.

(** ** The loop of the shell and what interrupts it *)

(** One turn of [shell_poll]: a character, or the messages when there is none. *)
Definition poll_turn (kb : keyboard) st : ended D * keyboard :=
  match keyboard_read_char kb with
  | (Some c, kb) => (shell_update L exec_stacks elf_staging input_buffer str_fuel c st, kb)
  | (None, kb) => (shell_poll_ipc poll_buf str_fuel st, kb)
  end.

(** A command that the turn runs is one of those the shell can run. *)
Definition turn_allowed (kb : keyboard) st : Prop :=
  match keyboard_read_char kb with
  | (Some c, _) => c = 10 -> allowed elf_staging str_fuel (parse (line input_buffer st)) st
  | (None, _) => True
  end.

(** The memory of the other tasks: not the kernel's part of the heap, not the
    shell's line. *)
Definition others_write (k : kernel) (x : Z) : Prop := client_may_write total k x /\ ~ range input_buffer 256 x.

Inductive sys_step : keyboard * shell D -> keyboard * shell D -> Prop :=
  | sys_turn kb st kb' st' : turn_allowed kb st -> poll_turn kb st = (Prompt st', kb') -> sys_step (kb, st) (kb', st')
  | sys_key sc kb st : is_byte sc -> sys_step (kb, st) (keyboard_handler sc kb, st)
  | sys_op kb st k' : kernel_op L task_exit_at (ek (sys st)) k' -> sys_step (kb, st) (kb, set_sys (set_ek k' (sys st)) st)
  | sys_recv kb st out : (forall i, 0 <= i < 128 -> others_write (ek (sys st)) (out ⊕ i)) ->
      sys_step (kb, st) (kb, set_sys (set_ek (ipc_recv out (ek (sys st))).2 (sys st)) st)
  | sys_client kb st m : agree_on (fun x => ~ others_write (ek (sys st)) x) (sh_mem st) m -> mem_bytes m ->
      sys_step (kb, st) (kb, set_sys (set_ek (set_mem m (ek (sys st))) (sys st)) st).

(** The machine is well: [hs] is where the heap is. *)
Definition running_ok (hs : Z) (s : keyboard * shell D) : Prop :=
  keys_ok s.1 /\ heap_start (ek (sys s.2)) = hs /\ exists bs sp, system_ok s.2 bs sp.

Lemma update_ok c st bs sp : system_ok st bs sp -> is_byte c -> c <> 0 ->
  (c = 10 -> allowed elf_staging str_fuel (parse (line input_buffer st)) st) ->
  match shell_update L exec_stacks elf_staging input_buffer str_fuel c st with
  | Prompt st' => heap_start (ek (sys st')) = heap_start (ek (sys st)) /\ exists bs' sp', system_ok st' bs' sp'
  | Rebooting _ => c = 10 /\ parse (line input_buffer st) = Reboot
  | Stuck => False
  end.
Proof.
  intros Hso Hc Hc0 Hall. destruct (decide (c = 10)) as [->|Hne].
  - pose proof (shell_execute_ok disk_large L exec_stacks elf_staging input_buffer total task_exit_at str_fuel
      layout_fine buffer_range fuel_enough fuel_range st bs sp Hso (Hall eq_refl)) as He.
    change (shell_update _ _ _ _ _ 10 st) with (shell_execute L exec_stacks elf_staging input_buffer str_fuel st).
    destruct (shell_execute _ _ _ _ _ st); [|done|done]. by destruct He as (H1 & _ & H3).
  - destruct (key_step L exec_stacks elf_staging input_buffer str_fuel buffer_range c st) as (st' & -> & Hok' & _ & (m & out & E & Hag & Hm & _));
      [apply Hso|done..|]. destruct Hso as [K1 K2 _ K4 K5 K6 K7 K8 K9].
    assert (Hhs : heap_start (ek (sys st')) = heap_start (ek (sys st))) by (by rewrite E).
    split; [done|]. exists bs, sp. split; rewrite ?Hhs; try done; rewrite ?E; try done.
    + apply wf_outside_heap; [done|]. eapply agree_on_weaken; [|exact Hag]. unfold range. lia.
    + unfold sh_mem. rewrite E. by apply Hm.
Qed.

Lemma turn_ok hs kb st : running_ok hs (kb, st) -> poll_buf + 128 <= hs -> turn_allowed kb st ->
  match poll_turn kb st with
  | (Prompt st', kb') => running_ok hs (kb', st')
  | (Rebooting _, _) => parse (line input_buffer st) = Reboot
  | (Stuck, _) => False
  end.
Proof.
  intros (Hkb & Hhs & bs & sp & Hso) Hpb Hall. cbn [fst snd] in *. subst hs. unfold poll_turn, turn_allowed in *.
  destruct (keyboard_read_char kb) as [[c|] kb'] eqn:Er.
  - destruct (keys_read kb c kb' Hkb Er) as (Hkb' & Hc & Hc0). pose proof (update_ok c st bs sp Hso Hc Hc0 Hall) as Hu.
    destruct (shell_update _ _ _ _ _ c st); [|by destruct Hu|done]. by destruct Hu.
  - destruct (poll_ipc_ok st bs sp Hso Hpb) as (st' & -> & Hso' & Hhs'). split; [|split; [done|by eauto]].
    pose proof (read_pending kb (proj1 Hkb)) as Hp. cbn [fst]. destruct (pending kb); [by injection (eq_trans (eq_sym Hp) Er) as <-|].
    destruct Hp as (? & E & _). congruence.
Qed.

Lemma step_ok hs s s' : poll_buf + 128 <= hs -> sys_step s s' -> running_ok hs s -> running_ok hs s'.
Proof.
  intros Hpb Hstep Hok. destruct Hstep as [kb st kb' st' Hall E|sc kb st Hsc|kb st k' Hop|kb st out Hout|kb st m Hag Hm].
  - pose proof (turn_ok hs kb st Hok Hpb Hall) as Ht. by rewrite E in Ht.
  - destruct Hok as [Hkb Hok]. split; [by apply keys_handler|done].
  - destruct Hok as (Hkb & Hhs & bs & sp & Hso). destruct (system_op st k' bs sp Hso Hop) as [Hhs' Hso'].
    split; [done|]. cbn [fst snd] in *. split; [cbn; congruence|done].
  - destruct Hok as (Hkb & Hhs & bs & sp & Hso). split; [done|]. cbn [fst snd] in *.
    assert (Hr : heap_start (ipc_recv out (ek (sys st))).2 = heap_start (ek (sys st))) by (unfold ipc_recv; by destruct (_ =? 0)).
    split; [cbn; congruence|]. exists bs, sp. apply (system_moves st _ bs sp); [done|apply ipc_recv_wf; [apply Hso|]|done|..].
    + intros i Hi. by apply Hout.
    + unfold ipc_recv. destruct (_ =? 0); [apply Hso|]. cbn [snd mem upd_task set_tasks set_mem].
      apply (for_loop_ind (fun _ => mem_bytes)); [apply Hso|]. intros; auto with mx.
    + apply ipc_recv_agree; [apply (so_kernel _ _ _ _ _ _ _ _ Hso)|apply (kw_mail _ _ _ _ _ (so_kernel _ _ _ _ _ _ _ _ Hso)), (so_kernel _ _ _ _ _ _ _ _ Hso)|].
      intros i Hi. by apply Hout.
  - destruct Hok as (Hkb & Hhs & bs & sp & Hso). split; [done|]. cbn [fst snd] in *. split; [done|]. exists bs, sp.
    apply (system_moves st _ bs sp); [done| |done|done|].
    + apply client_write_wf; [apply Hso|]. eapply agree_on_weaken; [|exact Hag]. intros x Hx [Hw _]. by apply Hx.
    + eapply agree_on_weaken; [|exact Hag]. intros x Hx [_ Hn]. by apply Hn.
Qed.

(** [shell_poll] is such turns, until no character is left and the messages
    have been looked at. *)
Lemma shell_poll_turns kb st st' kb' :
  shell_poll L exec_stacks elf_staging input_buffer poll_buf str_fuel kb st = (Prompt st', kb') ->
  rtc (fun s s' => poll_turn s.1 s.2 = (Prompt s'.2, s'.1)) (kb, st) (kb', st').
Proof.
  unfold shell_poll. generalize 256%nat as n. intros n. revert kb st. induction n as [|n IH]; intros kb st; cbn [poll_keys]; [done|].
  destruct (keyboard_read_char kb) as [[c|] kb1] eqn:Er.
  - destruct (shell_update _ _ _ _ _ c st) as [st1| |] eqn:Eu; [|done..]. intros E. apply (rtc_l _ _ (kb1, st1)); [|by apply IH].
    cbn [fst snd]. unfold poll_turn. by rewrite Er, Eu.
  - intros [= E <-]. apply rtc_once. cbn [fst snd]. unfold poll_turn. by rewrite Er, E.
Qed.

Lemma runs_ok hs s s' : poll_buf + 128 <= hs -> rtc sys_step s s' -> running_ok hs s -> running_ok hs s'.
Proof. intros Hpb Hrun. induction Hrun as [|x y z Hxy _ IH]; [done|]. intros Hx. by eapply IH, step_ok. Qed.
End system.

(** ** From a program to the shell *)
Section echo_shell.
Context {D : Type} `{BlockDevice D}.
Context (L : Layout) (poll_buf : Z) (str_fuel : nat).
Context (poll_range : 0 <= poll_buf /\ poll_buf + 128 <= 4294967296) (fuel_enough : (256 <= str_fuel)%nat).

(** A string of at most 127 characters is shown as it is. *)
Lemma message_plain sender w : Forall (fun c => is_byte c /\ c <> 0) w -> alen w <= 127 ->
  message_text sender w = newline ++ text "[IPC] Message de la tache " ++ dec sender ++ text " : " ++ w ++ newline.
Proof.
  intros Hw Hl. unfold message_text. rewrite take_ge by (unfold alen in Hl; lia). do 4 f_equal.
  induction Hw as [|c w [Hc Hz] Hw IH]; [done|]. rewrite alen_cons in Hl. cbn [map cstr app]. rewrite u8_id by done.
  rewrite (proj2 (Z.eqb_neq c 0)) by done. cbn [app]. f_equal. apply IH. lia.
Qed.

(** C38: what [echo] sends, the shell shows.  The shell is active with no
    message pending.  A program whose image and arguments are in its memory,
    apart from its kernel stack, runs to its exit, its four calls being served
    by the kernel one after the other without another task in between; the
    console shows its line, and when the shell then looks at its mailbox, it
    shows the same line with the number of the task that sent it, and the
    mailbox is empty again. *)
Theorem echo_shown echo_at newline_at line_at argv args K us (st : shell D) : let k := ek (sys st) in
  0 <= line_at -> line_at + 128 <= 4294967296 -> (forall x, K x -> ~ range line_at 128 x) ->
  args_at K (mem k) argv args -> (forall i, 0 <= i < alen args -> alen args.[i] < Z.of_nat str_fuel) ->
  literal K (mem k) echo_at (text "[echo] ") -> literal K (mem k) newline_at newline ->
  Forall user_cpu us -> length us = 4%nat ->
  52 <= tss_esp0 k < 4294967296 -> (forall x, K x \/ range line_at 128 x -> ~ kframe k x) ->
  alen (tasks k) = 16 -> (forall i, 0 <= i < 16 -> mailbox_wf (task k i)) ->
  active (task k SHELL_PID) = true -> queue (task k SHELL_PID) = [] ->
  exists k' st', run L str_fuel us (echo_main str_fuel echo_at newline_at line_at (alen args) argv (mem k)) k = Some (sys_exit (mem k'), k') /\
    shell_poll_ipc poll_buf str_fuel (set_sys (set_ek (set_current_task SHELL_PID k') (sys st)) st) = Prompt st' /\
    queue (task (ek (sys st')) SHELL_PID) = [] /\
    Sched.console (ek (sys st')) = Sched.console k ++ text "[echo] " ++ echo_line args ++ newline ++
      newline ++ text "[IPC] Message de la tache " ++ dec (current_task k) ++ text " : " ++ echo_line args ++ newline.
Proof.
  intros k H0 H1 Hap Hargs Hfu He Hn Hus Hlu Hsp Hfr Hlen Hmail Hact Hq.
  destruct (echo_under_kernel L str_fuel echo_at newline_at line_at argv args K us k H0 H1 Hap Hargs Hfu ltac:(lia) He Hn Hus Hlu Hsp Hfr Hlen Hmail Hact)
    as (k' & Hrun & Hcon & Hq' & _ & _ & Hl' & Hm'); [by rewrite Hq|]. rewrite Hq in Hq'. cbn [app] in Hq'.
  set (st1 := set_sys (set_ek (set_current_task SHELL_PID k') (sys st)) st).
  destruct (poll_ipc_shows poll_buf str_fuel (proj1 poll_range) fuel_enough st1 (current_task k) (echo_line args) [] Hl' ltac:(done) Hm' (proj2 poll_range) Hq')
    as (m & E & Hq2 & Hcon2 & _).
  exists k'. eexists. split; [exact Hrun|]. split; [exact E|]. split; [exact Hq2|].
  cbn [sys set_sys ek set_ek Sched.kprint Sched.console set_mem]. rewrite Hcon2.
  change (Sched.console (ek (sys st1))) with (Sched.console k'). rewrite Hcon, message_plain.
  - by rewrite <- !app_assoc.
  - by eapply echo_line_chars.
  - unfold echo_line, alen. rewrite length_take. lia.
Qed.
End echo_shell.

(** ** From the first instruction on *)
Section machine.
Context {D : Type} `{BlockDeviceLaws D}.
Context (disk_large : FS_DATA_END_LBA <= nsectors).
Context (L : Layout) (im : image) (poll_buf : Z) (str_fuel : nat).
Context (fuel_enough : (256 <= str_fuel)%nat) (fuel_range : Z.of_nat str_fuel <= 2147483648).
(** The buffer of [shell_poll_ipc], on the stack of the boot. *)
Context (poll_low : 0 <= poll_buf /\ poll_buf + 128 <= heap_base).
Context (poll_apart : poll_buf + 128 <= im_input_buffer im \/ im_input_buffer im + 256 <= poll_buf).

Abbreviation machine_step := (sys_step (D := D) L (im_exec_stacks im) (im_elf_staging im) (im_input_buffer im) poll_buf heap_size
  (task_exit_at im) str_fuel).
Abbreviation machine_ok := (running_ok (D := D) L (im_exec_stacks im) (im_elf_staging im) (im_input_buffer im) heap_size heap_base).

(** C1: the machine keeps running.  Start it with any memory and any values in
    the BSS, on a working disk that is unformatted or consistent, its history
    file being one that the shell wrote.  Then let
    turns of the shell's loop (each taken as a whole), keys, timer ticks, system
    calls, terminations, messages and the work of the other tasks come in any
    order, where the commands are [allowed] ([exec] of an image whose headers do
    not wrap and whose segments are sane, and not of the history file; [write]
    to names of at most 23 characters; [ps] while the names of the tasks are
    strings) and the other tasks write, and receive messages, neither in the
    kernel's part of the heap nor in the shell's line.  Every state reached
    satisfies the invariants of all the components together; and the next
    turn of the loop, if allowed, comes back, except that the command [reboot]
    resets the machine. *)
Theorem machine_runs s files cmds mc kb st : image_ok L im -> data_loaded (st_sh s) -> mem_bytes (sh_mem (st_sh s)) ->
  disk_holds (dev (efs (sys (st_sh s)))) files -> saved_history files cmds ->
  main_entry L im s = Some mc -> rtc machine_step (Boot.kbd mc, sh mc) (kb, st) ->
  machine_ok (kb, st) /\
  (turn_allowed (im_elf_staging im) (im_input_buffer im) str_fuel kb st ->
   match poll_turn L (im_exec_stacks im) (im_elf_staging im) (im_input_buffer im) poll_buf str_fuel kb st with
   | (Prompt st', kb') => machine_ok (kb', st')
   | (Rebooting _, _) => parse (line (im_input_buffer im) st) = Reboot
   | (Stuck, _) => False
   end).
Proof.
  intros Him Hdata Hm Hd Hh Hmain Hrun.
  destruct (main_entry_ok disk_large L im s files cmds Him Hdata Hm Hd Hh) as (mc' & bs & sp & E & Hso & Hhs & Hrest).
  assert (Hkb : kbd_wf (Boot.kbd mc') /\ abs (Boot.kbd mc') = Spec false false []) by apply Hrest. clear Hrest.
  rewrite Hmain in E. injection E as <-. assert (Hbuf : 0 <= im_input_buffer im /\ im_input_buffer im + 256 <= 4294967296).
  { pose proof (io_line _ _ Him) as [H1 H2]. unfold heap_base in H2. lia. }
  assert (Hpoll : 0 <= poll_buf /\ (poll_buf + 128 <= im_input_buffer im \/ im_input_buffer im + 256 <= poll_buf)) by (split; [apply poll_low|exact poll_apart]).
  assert (Hok : machine_ok (kb, st)).
  { refine (runs_ok disk_large _ _ _ _ _ _ _ _ (io_layout _ _ Him) Hbuf fuel_enough fuel_range Hpoll _ _ _ (proj2 poll_low) Hrun _).
    split; [by destruct Hkb; apply keys_boot|]. split; [exact Hhs|by eauto]. }
  split; [exact Hok|]. intros Hall.
  exact (turn_ok disk_large _ _ _ _ _ _ (task_exit_at im) _ (io_layout _ _ Him) Hbuf fuel_enough fuel_range Hpoll _ _ _ Hok (proj2 poll_low) Hall).
Qed.
End machine.

(** ** A key after the start *)

Lemma demo_disk : disk_holds (dev blank) (fun _ => None) /\ saved_history (fun _ => None) [].
Proof.
  split; [left; split; [reflexivity|split; [exact blank_unsigned|done]]|split_and!; [constructor|done|done]].
Qed.

Lemma garbage_bytes : mem_bytes (sh_mem (st_sh garbage)).
Proof. intros a. apply u8_range. Qed.

Lemma garbage_data : data_loaded (st_sh garbage).
Proof. done. Qed.

Lemma demo_started : exists mc, main_entry demo_layout demo_boot garbage = Some mc /\
  edit_ok 8192 (sh mc) /\ line 8192 (sh mc) = [].
Proof.
  pose proof (main_entry_ok ramdisk_big_enough demo_layout demo_boot garbage (fun _ => None) [] demo_boot_ok
    garbage_data garbage_bytes (proj1 demo_disk) (proj2 demo_disk)) as (mc & bs & sp & E & Hso & _ & _ & _ & _ & Hl & _).
  exists mc. split; [exact E|]. split; [exact (so_edit _ _ _ _ _ _ _ _ Hso)|exact Hl].
Qed.

(** The keyboard is the one that [clear_bss] leaves. *)
Lemma demo_keyboard mc : main_entry demo_layout demo_boot garbage = Some mc -> Boot.kbd mc = keyboard_boot.
Proof.
  unfold main_entry. destruct (boot_devices _ _ _) as [[st g] t]. destruct (boot_tasks _ _ _); [|done]. by intros [= <-].
Qed.

(** Pressing "l". *)
Lemma demo_key mc : Boot.kbd mc = keyboard_boot -> edit_ok 8192 (sh mc) -> line 8192 (sh mc) = [] -> exists kb st,
  rtc (sys_step demo_layout 250000 65536 8192 589000 heap_size 40000 300) (Boot.kbd mc, sh mc) (kb, st) /\ line 8192 st = [108].
Proof.
  intros -> Hok Hl. destruct (key_step demo_layout 250000 65536 8192 300 ltac:(lia) 108 (sh mc) Hok) as (st & E & _ & Hed & _); [done..|].
  set (kb := keyboard_handler 38 keyboard_boot). exists (keyboard_read_char kb).2, st. split.
  - apply (rtc_l _ _ (kb, sh mc)); [by apply sys_key|]. apply rtc_once. apply sys_turn; [by intros [=]|].
    unfold poll_turn. assert (Ek : keyboard_read_char kb = (Some 108, (keyboard_read_char kb).2)) by reflexivity.
    generalize (keyboard_read_char kb).2 as kb1, Ek. intros kb1 ->. by rewrite E.
  - change (ed_line (editor_of 8192 st) = [108]). rewrite Hed. unfold ed_key. cbn [ed_line editor_of]. by rewrite Hl.
Qed.

Lemma machine_runs_witness : exists mc kb st,
  main_entry demo_layout demo_boot garbage = Some mc /\
  rtc (sys_step demo_layout 250000 65536 8192 589000 heap_size 40000 300) (Boot.kbd mc, sh mc) (kb, st) /\
  line 8192 st = [108] /\ running_ok demo_layout 250000 65536 8192 heap_size heap_base (kb, st).
Proof.
  destruct demo_started as (mc & E & Hok & Hl). destruct (demo_key mc (demo_keyboard mc E) Hok Hl) as (kb & st & Hrun & Hline).
  exists mc, kb, st. split; [exact E|]. split; [exact Hrun|]. split; [exact Hline|].
  exact (proj1 (machine_runs ramdisk_big_enough demo_layout demo_boot 589000 300 ltac:(lia) ltac:(lia) ltac:(unfold heap_base; lia)
    ltac:(cbn; lia) garbage (fun _ => None) [] mc kb st demo_boot_ok garbage_data garbage_bytes
    (proj1 demo_disk) (proj2 demo_disk) E Hrun)).
Defined.

(** ** Task 1 runs [echo un deux] *)

Definition echo_shell : shell ramdisk := fresh_shell (mkExec echo_kernel demo_fs [-1; -1; -1; -1]).

Lemma echo_shown_witness : exists k' st',
  run demo_layout 300 [echo_cpu; echo_cpu; echo_cpu; echo_cpu] (echo_main 300 6000 6100 7000 2 5000 echo_memory) echo_kernel =
    Some (sys_exit (mem k'), k') /\
  shell_poll_ipc 589000 300 (set_sys (set_ek (set_current_task 0 k') (sys echo_shell)) echo_shell) = Prompt st' /\
  Sched.console (ek (sys st')) = text "[echo] un deux" ++ newline ++ newline ++ text "[IPC] Message de la tache 1 : un deux" ++ newline.
Proof.
  destruct echo_literals as [L1 L2]. assert (Hu : user_cpu echo_cpu) by (split; [by repeat constructor|done]).
  destruct (echo_shown demo_layout 589000 300 ltac:(lia) ltac:(lia) 6000 6100 7000 5000 demo_args echo_data
    [echo_cpu; echo_cpu; echo_cpu; echo_cpu] echo_shell ltac:(lia) ltac:(lia) echo_apart echo_args_at) as (k' & st' & H1 & H2 & _ & H4).
  - intros i Hi. pose proof (echo_fuel i Hi). lia.
  - exact L1.
  - exact L2.
  - by repeat constructor.
  - done.
  - change (52 <= 20000 < 4294967296). lia.
  - change (forall x, echo_data x \/ range 7000 128 x -> ~ range (20000 - 52) 52 x). unfold echo_data, range. lia.
  - reflexivity.
  - apply demo_sched_ipc.
  - reflexivity.
  - by vm_compute.
  - exists k', st'. exact (conj H1 (conj H2 H4)).
Defined.
